(* ===== verification/_CoqProject ===== *)
-Q . S2P
Prelude.v
GoStd.v
Strconv.v
GoFlag.v
Version.v
Profiling.v
Json.v
JsonStruct.v
NetUrl.v
NetUrlLaws.v
KubeTypes.v
ApiTypes.v
ThirdParty.v
Effects.v
Recorder.v
ResourceHandler.v
Common.v
Status.v
Samples.v
InstallConfig.v
OperatorRefs.v
Deletion.v
Namespaces.v
SecretPropagation.v
AddonInstanceReconciler.v
Monitoring.v
Olm.v
OlmProofs.v
Server.v
Convergence.v
MonitoringProofs.v
PackageOperator.v
OcmClient.v
OcmHttp.v
ApiMock.v
Reporting.v
OcmRoundTrip.v
AddonController.v
AddonOperatorController.v
AddonOperatorProofs.v
AddonInstanceController.v
FeatureToggle.v
Webhooks.v
ReconcileWalk.v
StatusInvariant.v
Interleaving.v
Watches.v
Options.v
Setup.v
WebhookMain.v
ControllerProofs.v
Settling.v
Footprint.v
SettledSingles.v
SettledNamespaces.v
SettledSecrets.v
SettledFederation.v
Quiescence.v
Health.v
Milestones.v
Proceeds.v
ProceedsOlm.v
Progress.v
Coexistence.v
ReconcileSpec.v
Witnesses.v
