(* ===== verification/Prelude.v ===== *)
(** * Verification of the addon operator

    The operator (github.com/openshift/addon-operator, Go) installs and removes
    managed add-ons on an OpenShift cluster.  This library translates its
    controllers, its admission webhook, its metrics, its OCM client and the API
    mock it is tested against into Rocq, and proves what makes them correct.
    Paths below are relative to src/.  A comment [@ file:first-last symbol]
    above a definition names the lines it translates.

    ** The program

    - The Addon controller (controllers/addon) reconciles an Addon object: a
      finalizer, then an ordered list of sub-reconcilers (deletion, namespaces,
      package operator, secrets, AddonInstance, OLM objects, monitoring
      federation, MonitoringStack), then the status report, the metrics and the
      reports to OCM.  Deletion, pause and upgrade take other branches.
    - The event handler (controllers/addon/handler) maps events of OLM Operator
      objects to Addons.
    - The AddonInstance controller (controllers/addoninstance) watches the
      heartbeat that an add-on sends with pkg/client.
    - The AddonOperator controller (controllers/addonoperator) follows one
      configuration object: it pauses and unpauses the Addon controller and
      gives it an OCM client, through two interfaces the Addon controller
      implements, and restarts the process when the feature toggles changed.
    - The webhook (internal/webhooks) validates Addons; internal/featuretoggle
      switches features on the AddonOperator object; internal/metrics counts.
    - internal/ocm is the HTTP client of OCM, cmd/api-mock a server for it.

    ** How it is modelled

    - Data: a Go struct is a [Record] with its fields, a pointer an [option], a
      map a [gmap] or an association list where the order counts, an integer or
      a [time.Duration] a [Z] whose 64-bit wrap-around is written out.  Times
      are nanoseconds since the Unix epoch, with Go's zero time as [zero_time].
    - Effects ([Effects]): the code acts through calls (reads and writes of API
      objects, the clock, OCM requests, the variables that goroutines share).
      A function of the operator is a [prog], a tree of calls branching on
      their answers, with its in-memory state threaded by the monad [M]; a nil
      dereference and [os.Exit] are stops.  The type is inductive, so every
      function ends after finitely many calls, whatever is answered.
    - Correctness ([wp], [wpM]): which calls a program may make in which state
      of an environment and what holds at the end, for every answer the
      environment may give.  Most environments are call histories that answer
      anything; the API server may fail at every call.  [trace] gives the
      executions, [run] evaluates one against a concrete server.
    - Concurrency: a reconcile is one program; what other goroutines share with
      it, and the locks around that, are read, written, taken and released by
      calls, with Go's [defer] as a call at every return and panic.
      [Interleaving] runs the reconciles as threads over that shared state.  The
      event handler's operations are steps of a state machine, which its mutex
      makes atomic.
    - Third-party code is the interface [Lib]; [LibOk] states the documented
      laws that theorems use, and [RefLib] satisfies them.  gorilla/mux is
      [Router] with [RouterOk]; the network is [Transport].
    - Go's standard library is modelled as far as it is used: strings, time,
      errors and FNV ([GoStd]), integers of strconv ([Strconv]), flag ([GoFlag]),
      encoding/json ([Json], [JsonStruct]), net/url ([NetUrl], its laws in
      [NetUrlLaws]).

    ** Files

    - [Prelude]: notations, tactics ([bools], [split_cases]), hint databases and
      lemmas on lists and options that the components share.
    - [KubeTypes], [ApiTypes], [ThirdParty], [Effects]: data, interfaces, calls.
    - [Recorder] (internal/metrics), [ResourceHandler] (controllers/addon/handler),
      [Common] (controllers/*.go), [Status] and [InstallConfig] (utils.go).
    - One file per sub-reconciler, named after it: [Deletion], [Namespaces],
      [SecretPropagation], [AddonInstanceReconciler], [Olm] and [OlmProofs],
      [Monitoring] and [MonitoringProofs], [PackageOperator]; [OperatorRefs]
      holds what two of them share.
    - [Reporting] (status_reporting.go, upgradepolicy_status.go), [OcmClient] and
      [OcmHttp] (internal/ocm), [ApiMock] (cmd/api-mock), [OcmRoundTrip].
    - [AddonController], its theorems in [ControllerProofs], the abstract
      specification in [ReconcileSpec].  [ReconcileWalk] walks once over the
      whole reconcile with all its sub-reconcilers, for any instance of two
      classes: [Invariant], a property of the Addon in hand ([StatusInvariant],
      [Watches]), and [Protocol], one of the calls made ([Interleaving]).
    - [Server]: a server that stores what it is sent, and when a cluster is at
      rest.  [Convergence]: the second run of the OLM reconciler on it.
      [Settling] says what the controller has a stake in, [SettledSingles],
      [SettledNamespaces], [SettledSecrets] and [SettledFederation] what each of
      the other sub-reconcilers settles, and [Quiescence] puts them together.
      [Settling] also says what a reconcile writes ([own_write]), [Footprint] what
      these writes do to the objects, from which [Coexistence] concludes about
      several Addons in one cluster.
    - [Health]: a server that answers, and what a reconcile makes of its cluster.
      [Milestones] has what a reconcile waits for, [Proceeds] and [ProceedsOlm]
      show of each sub-reconciler that it ends or reaches a milestone, and
      [Progress] puts them together.
    - [Interleaving]: the threads, the locks, the step relation, its invariant.
    - [Watches] (SetupWithManager), [Options] (options.go), [Setup] (main.go),
      [Profiling] (its pprof server), [WebhookMain] (cmd/addon-operator-webhook),
      [Version] (internal/version, controllers/context.go).
    - [AddonOperatorController] and [AddonOperatorProofs]; [AddonInstanceController];
      [FeatureToggle]; [Webhooks].
    - [Samples] has concrete objects and an API server, [Witnesses] applies every
      theorem that has a hypothesis to them, and has executions that show flaws
      of the code.

    ** What the theorems show

    - Refinement: the executions of the reconcile of an Addon that is neither
      deleted, paused nor being upgraded are exactly those of an abstract
      specification, from the finalizer to the report of readiness
      ([ReconcileSpec]); a status report of the Addon
      controller, through the HTTP client, leaves in OCM's store what was
      reported ([OcmRoundTrip]).
    - Invariants: the status written is never contradictory ([StatusInvariant]);
      events reach the Addon that registered the Operator ([ResourceHandler]);
      the gauges count the known Addons, which one that is being deleted
      becomes again when it is observed again ([Recorder]); the global pause, the
      reported condition and the specification agree ([AddonOperatorProofs]).
    - Concurrency: while the pause flag is set no reconcile of an Addon that is
      not deleted touches the cluster, its status reports aside, nor one of the
      AddonOperator, but for its status and the creation of a missing
      AddonOperator object, however the threads interleave; the flag
      has no data race; there is no deadlock and every thread ends
      ([Interleaving]).
    - Liveness: on a healthy server, where others keep to their own objects and
      what there is gets ready, the cluster is at rest after a bounded number of
      reconciles, with everything in place that the Addon asks for and its status
      Ready ([Progress]).  On any server, after a pass over the sub-reconcilers that ended without an early
      return the whole reconcile changes nothing but the status of its Addon,
      while others keep to their own objects ([Quiescence]), and the OLM
      reconciler does not even write ([Convergence]); other Addons do keep to
      theirs, in every sequence of reconciles, heartbeats and crashes
      ([Coexistence]); every object that a reconcile creates
      requests a reconcile when it changes, with exceptions that are named
      ([Watches]); the features in force are those that were asked for, or the
      process exits ([Setup]).  The pprof server ends with the process
      ([Profiling]).
    - Safety, by component: what may be written or deleted, in which order, and
      under which condition: deletion, pause, upgrade, OLM objects, namespaces,
      secrets, monitoring, the OCM client of the pull secret.
    - Functional behaviour on every branch, errors included: each
      sub-reconciler, the reports, the webhook (exactly the valid Addons are
      allowed), the feature toggles, the options of the process in every way
      they can be written on the command line ([Options]).
    - Round trips of JSON, URLs and the OCM requests; bounds of the heartbeat
      threshold with its overflow; equivalence of the sub-reconciler order and
      of the toggle comparison with sorting and permutation.

    ** Fuel and bounds

    [ParseDuration] recurses with the length of the string as fuel, and each of
    its steps takes a character.  The JSON parser has one more unit of fuel than
    the text has characters; [Json.parse_enough_fuel] shows that no larger fuel
    gives a result this one does not.  All other recursion is structural.

    ** Not modelled

    - Of main.go the registration of schemes and of the pprof handlers; fips.go;
      logging, registration with Prometheus, the durations that are observed
      (only their number).
    - What controller-runtime does with a manager that was started: its work
      queues, its cache, leader election.  A reconcile may start at any time,
      and the channel of requeued Addons accepts what is sent to it.
    - Generated code (zz_generated files), build and development tooling
      (magefiles, cmd/docgen, cmd/mage), test support and the integration tests.
    - The decoding of admission requests, which controller-runtime does.
    - The text of errors of third-party code, and resource versions: a conflict
      is an error that a write may answer.

    ** What could follow

    Reconciles of the Addon and of the AddonInstance controller that interleave
    call by call on one server, where [Coexistence] has them one after the other;
    Addons that are edited among those that share a cluster. *)
From Stdlib Require Export Ascii String.
From stdpp Require Export base tactics list gmap strings pretty.
From Stdlib Require Export ZArith Lia Permutation Sorting.Sorted.

(** ** Conventions of the development

    Strings are [String.string]; the [addon_scope] notations are the only
    notations declared here. *)
#[global] Open Scope string_scope.
#[global] Open Scope list_scope.
#[global] Open Scope nat_scope.
Declare Scope addon_scope.
Delimit Scope addon_scope with addon.
#[global] Open Scope addon_scope.

(** Go's [len(s) == 0] on strings, and Go's [==] on strings. *)
Notation "s1 =s? s2" := (bool_decide (s1 = (s2 : string))) (at level 70) : addon_scope.
Abbreviation str_empty s := (bool_decide (s = EmptyString)).
Infix "+:+" := String.append (at level 60, right associativity) : addon_scope.

Create HintDb addon.
Create Rewrite HintDb conditions.

(** ** Tactics *)

(** Turn boolean tests into propositions, everywhere. *)
Ltac bools :=
  repeat match goal with
  | H : bool_decide _ = true |- _ => apply bool_decide_eq_true_1 in H
  | H : bool_decide _ = false |- _ => apply bool_decide_eq_false_1 in H
  | H : andb _ _ = true |- _ => apply andb_true_iff in H; destruct H
  | H : andb _ _ = false |- _ => apply andb_false_iff in H
  | H : orb _ _ = false |- _ => apply orb_false_iff in H; destruct H
  | H : orb _ _ = true |- _ => apply orb_true_iff in H
  | H : negb _ = true |- _ => apply negb_true_iff in H
  | H : negb _ = false |- _ => apply negb_false_iff in H
  | |- bool_decide _ = true => apply bool_decide_eq_true_2
  | |- bool_decide _ = false => apply bool_decide_eq_false_2
  end.

(** Case analysis on every [match] and [if] of the goal or the hypotheses. *)
Ltac split_cases :=
  repeat (case_match; simplify_eq/=; try done).

(** Case analysis on the matches of the goal only. *)
Ltac split_goal :=
  repeat match goal with
  | |- context [match ?x with _ => _ end] => destruct x eqn:?; simplify_eq/=; try done
  end.

(** ** Lists *)

Section lists.
Context {A : Type}.
Implicit Types l : list A.

Lemma Sorted_cons_Forall (R : A -> A -> Prop) `{!Transitive R} x l :
  Sorted R (x :: l) -> Forall (R x) l.
Proof.
  intros H. apply Sorted_StronglySorted in H; [by inversion H|].
  intros ???; by apply transitivity.
Qed.

(** Sorted permutations are unique when the order is antisymmetric on the
    elements of the list. *)
Lemma sorted_permutation_unique (R : A -> A -> Prop) `{!Transitive R} l1 l2 :
  (forall x y, x ∈ l1 -> y ∈ l1 -> R x y -> R y x -> x = y) ->
  Sorted R l1 -> Sorted R l2 -> l1 ≡ₚ l2 -> l1 = l2.
Proof.
  revert l2. induction l1 as [|x l1 IH]; intros l2 Hanti S1 S2 HP.
  { by apply Permutation_nil_l in HP. }
  destruct l2 as [|y l2]; [by apply Permutation_nil_r in HP|].
  assert (x = y) as <-.
  { assert (y ∈ x :: l1) as Hy by (rewrite HP; left).
    assert (x ∈ y :: l2) as Hx by (rewrite <- HP; left).
    apply elem_of_cons in Hy as [->|Hy]; [done|].
    apply elem_of_cons in Hx as [->|Hx]; [done|].
    apply Sorted_cons_Forall in S1, S2; try done.
    rewrite Forall_forall in S1. rewrite Forall_forall in S2.
    apply Hanti; [left|by right|by apply S1|by apply S2]. }
  f_equal. apply IH.
  - intros a b Ha Hb. apply Hanti; by right.
  - by inversion S1.
  - by inversion S2.
  - by apply Permutation_cons_inv in HP.
Qed.

Lemma list_filter_all (P : A -> Prop) `{!forall x, Decision (P x)} l :
  (forall x, x ∈ l -> P x) -> filter P l = l.
Proof.
  induction l as [|x l IH]; intros HP; [done|].
  rewrite filter_cons, decide_True by (apply HP; left). f_equal. apply IH. intros y Hy. apply HP. by right.
Qed.
End lists.

(** ** Options *)

Lemma from_option_Some {A B} (f : A -> B) d o x : o = Some x -> from_option f d o = f x.
Proof. by intros ->. Qed.
