(* ===== verification/GoStd.v ===== *)
(** * The part of Go and of its standard library that the operator uses

    [strings] (Split, Join, TrimRight, TrimLeft, TrimSpace), [strconv] quoting,
    64-bit [time.Duration] with its wrap-around, [time.ParseDuration] with its
    float64 fraction, [hash/fnv] (32-bit FNV-1a), and [errors]/[fmt.Errorf] error trees
    with [errors.Is] and [errors.As]. *)
From S2P Require Export Prelude.
From Stdlib Require Import SpecFloat.

(** ** Strings *)

(** [strings.Split(s, sep)] for a one-character separator: [Split("", sep)] is
    the one-element slice holding the empty string. *)
Fixpoint split_on (sep : ascii) (s : string) : list string :=
  match s with
  | EmptyString => [EmptyString]
  | String c s' =>
      let r := split_on sep s' in
      if Ascii.eqb c sep then EmptyString :: r
      else match r with
           | w :: ws => String c w :: ws
           | [] => [String c EmptyString]
           end
  end.

(** [strings.Join(l, sep)]. *)
Fixpoint join (sep : string) (l : list string) : string :=
  match l with
  | [] => EmptyString
  | [x] => x
  | x :: l' => x +:+ sep +:+ join sep l'
  end.

Fixpoint str_in (c : ascii) (s : string) : bool :=
  match s with
  | EmptyString => false
  | String d s' => Ascii.eqb c d || str_in c s'
  end.

(** [strings.TrimLeft(s, c)] and [strings.TrimRight(s, c)] for a
    one-character cutset. *)
Fixpoint trim_left (c : ascii) (s : string) : string :=
  match s with
  | String d s' => if Ascii.eqb c d then trim_left c s' else s
  | EmptyString => EmptyString
  end.

Fixpoint trim_right (c : ascii) (s : string) : string :=
  match s with
  | EmptyString => EmptyString
  | String d s' =>
      match trim_right c s' with
      | EmptyString => if Ascii.eqb c d then EmptyString else String d EmptyString
      | t => String d t
      end
  end.

(** The white space of [strings.TrimSpace] among the one-byte characters. *)
Definition is_space (c : ascii) : bool :=
  let n := N_of_ascii c in
  (bool_decide (9 <= n)%N && bool_decide (n <= 13)%N) || bool_decide (n = 32%N).

(** [len(strings.TrimSpace(s)) == 0]. *)
Fixpoint blank (s : string) : bool :=
  match s with
  | EmptyString => true
  | String c s' => is_space c && blank s'
  end.

Definition nl : string := String (ascii_of_N 10) EmptyString.
Definition dquote : string := String (ascii_of_N 34) EmptyString.

(** [strconv.Quote] (the [%q] verb) on the printable ASCII characters, with
    its escapes of the double quote and the backslash. *)
Fixpoint quote_body (s : string) : string :=
  match s with
  | EmptyString => EmptyString
  | String c s' =>
      let n := N_of_ascii c in
      if bool_decide (n = 34%N) || bool_decide (n = 92%N)
      then String (ascii_of_N 92) (String c (quote_body s'))
      else String c (quote_body s')
  end.
Definition quote (s : string) : string := dquote +:+ quote_body s +:+ dquote.

(** ** Laws of Split and Join *)

Definition comma : ascii := ",".

Lemma split_on_not_nil sep s : split_on sep s <> [].
Proof.
  destruct s as [|c s]; simpl; [done|].
  destruct (Ascii.eqb c sep); [done|]. by destruct (split_on sep s).
Qed.

Lemma join_split sep s : join (String sep EmptyString) (split_on sep s) = s.
Proof.
  induction s as [|c s IH]; [done|]. simpl.
  destruct (Ascii.eqb c sep) eqn:E.
  - apply Ascii.eqb_eq in E as ->.
    destruct (split_on sep s) eqn:Es; [by apply split_on_not_nil in Es|].
    change (String sep (join (String sep EmptyString) (s0 :: l)) = String sep s).
    by rewrite IH.
  - destruct (split_on sep s) as [|w ws] eqn:Es; [by apply split_on_not_nil in Es|].
    destruct ws; simpl in *; by rewrite <- IH.
Qed.

Lemma split_no_sep sep s : str_in sep s = false -> split_on sep s = [s].
Proof.
  induction s as [|c s IH]; [done|]. simpl. intros [H1 H2]%orb_false_iff.
  rewrite IH by done. by rewrite Ascii.eqb_sym, H1.
Qed.

Lemma str_app_cons c s t : String c s +:+ t = String c (s +:+ t).
Proof. reflexivity. Qed.
Lemma str_app_nil t : EmptyString +:+ t = t.
Proof. reflexivity. Qed.

Lemma str_append_empty_r s : s +:+ EmptyString = s.
Proof. induction s as [|c s IH]; [done|]. by rewrite str_app_cons, IH. Qed.

Lemma str_append_assoc a b c : (a +:+ b) +:+ c = a +:+ (b +:+ c).
Proof. induction a as [|x a IH]; [done|]. by rewrite !str_app_cons, IH. Qed.

(** Splitting a string that ends in a separator and a separator-free suffix. *)
Lemma split_append sep s t :
  str_in sep t = false ->
  split_on sep (s +:+ String sep t) = split_on sep s ++ [t].
Proof.
  intros Ht. induction s as [|c s IH].
  { rewrite str_app_nil. simpl. rewrite Ascii.eqb_refl. by rewrite split_no_sep. }
  rewrite str_app_cons. simpl. rewrite IH. destruct (Ascii.eqb c sep); [done|].
  destruct (split_on sep s) eqn:Es; [by apply split_on_not_nil in Es|]. done.
Qed.

(** A non-empty list of separator-free strings survives Join and Split. *)
Lemma split_join sep l :
  l <> [] -> Forall (fun s => str_in sep s = false) l ->
  split_on sep (join (String sep EmptyString) l) = l.
Proof.
  intros Hne Hl. induction Hl as [|x l Hx Hl IH]; [done|].
  destruct l as [|y l]; [by apply split_no_sep|].
  change (join (String sep EmptyString) (x :: y :: l))
    with (x +:+ String sep (join (String sep EmptyString) (y :: l))).
  specialize (IH ltac:(done)). clear Hne Hl.
  revert Hx. generalize (join (String sep EmptyString) (y :: l)) IH. clear IH.
  intros j Hj. induction x as [|c x IHx]; rewrite ?str_app_cons, ?str_app_nil; simpl.
  { rewrite Ascii.eqb_refl. by rewrite Hj. }
  intros [H1 H2]%orb_false_iff. rewrite Ascii.eqb_sym, H1.
  by rewrite IHx.
Qed.

Lemma split_on_no_sep sep s : Forall (fun w => str_in sep w = false) (split_on sep s).
Proof.
  induction s as [|c s IH]; simpl; [by constructor|].
  destruct (Ascii.eqb c sep) eqn:E; [by constructor|].
  rewrite Ascii.eqb_sym in E.
  destruct (split_on sep s) as [|w ws].
  - apply Forall_singleton. simpl. by rewrite E.
  - apply Forall_cons in IH as [Hw Hws]. apply Forall_cons. split; [|exact Hws].
    simpl. by rewrite E, Hw.
Qed.

(** ** 64-bit integers and [time.Duration] *)

(** Two's complement wrap-around of an [int64] result. *)
Definition wrap64 (z : Z) : Z := (z + 2 ^ 63) mod 2 ^ 64 - 2 ^ 63.
Definition in_int64 (z : Z) : Prop := (- 2 ^ 63 <= z < 2 ^ 63)%Z.

Lemma wrap64_range z : in_int64 (wrap64 z).
Proof. unfold in_int64, wrap64. pose proof (Z.mod_pos_bound (z + 2 ^ 63) (2 ^ 64)). lia. Qed.

Lemma wrap64_id z : in_int64 z -> wrap64 z = z.
Proof. unfold in_int64, wrap64. intros H. rewrite Z.mod_small; lia. Qed.

(** Nanoseconds. *)
Definition Microsecond : Z := 1000.
Definition Millisecond : Z := 1000 * Microsecond.
Definition Second : Z := 1000 * Millisecond.
Definition Minute : Z := 60 * Second.
Definition Hour : Z := 60 * Minute.

(** Instants are nanoseconds since the Unix epoch; [zero_time] is Go's zero
    [time.Time], January 1 of year 1. *)
Definition zero_time : Z := -62135596800 * Second.
Definition time_Add (t d : Z) : Z := t + d.
Definition time_After (t u : Z) : bool := (u <? t)%Z.

(** ** [time.ParseDuration] *)

Definition is_digit (c : ascii) : bool :=
  let n := N_of_ascii c in bool_decide (48 <= n)%N && bool_decide (n <= 57)%N.
Definition digit (c : ascii) : Z := Z.of_N (N_of_ascii c) - 48.

(** [leadingInt]: the value of the leading digits and the rest; [None] when
    the value exceeds 1<<63. *)
Fixpoint leadingInt (x : Z) (s : string) : option (Z * string) :=
  match s with
  | String c s' =>
      if is_digit c then
        if (2 ^ 63 / 10 <? x)%Z then None
        else let x' := (x * 10 + digit c)%Z in
             if (2 ^ 63 <? x')%Z then None else leadingInt x' s'
      else Some (x, s)
  | EmptyString => Some (x, s)
  end.

(** IEEE double precision: [mul], [div] and the conversions between an
    integer and a float64. *)
Definition f64_prec : Z := 53.
Definition f64_emax : Z := 1024.
Definition f64_of_Z (z : Z) : spec_float := binary_normalize f64_prec f64_emax z 0 false.
Definition f64_mul := SFmul f64_prec f64_emax.
Definition f64_div := SFdiv f64_prec f64_emax.

(** Truncation of a non-negative float64 to an integer. *)
Definition f64_to_Z (f : spec_float) : Z :=
  match f with
  | S754_finite false m e => Z.shiftl (Zpos m) e
  | _ => 0%Z
  end.

(** [leadingFraction]: digits after the point; stops accumulating once the
    value would overflow. *)
Fixpoint leadingFraction (x : Z) (scale : spec_float) (overflow : bool) (s : string)
  : Z * spec_float * string :=
  match s with
  | String c s' =>
      if is_digit c then
        if overflow then leadingFraction x scale true s'
        else if ((2 ^ 63 - 1) / 10 <? x)%Z then leadingFraction x scale true s'
        else let y := (x * 10 + digit c)%Z in
             if (2 ^ 63 <? y)%Z then leadingFraction x scale true s'
             else leadingFraction y (f64_mul scale (f64_of_Z 10)) false s'
      else (x, scale, s)
  | EmptyString => (x, scale, s)
  end.

(** The unit: everything up to the next digit or point. *)
Fixpoint take_unit (s : string) : string * string :=
  match s with
  | String c s' =>
      if Ascii.eqb c "." || is_digit c then (EmptyString, s)
      else let '(u, r) := take_unit s' in (String c u, r)
  | EmptyString => (EmptyString, s)
  end.

(** [unitMap]; the two spellings of the micro sign are the UTF-8 encodings of
    U+00B5 and U+03BC. *)
Definition micro_b5 : string := String (ascii_of_N 194) (String (ascii_of_N 181) "s").
Definition micro_bc : string := String (ascii_of_N 206) (String (ascii_of_N 188) "s").
Definition unitMap (u : string) : option Z :=
  if u =s? "ns" then Some 1%Z
  else if (u =s? "us") || (u =s? micro_b5) || (u =s? micro_bc) then Some Microsecond
  else if u =s? "ms" then Some Millisecond
  else if u =s? "s" then Some Second
  else if u =s? "m" then Some Minute
  else if u =s? "h" then Some Hour
  else None.

(** The loop of [ParseDuration], whose sum is a [uint64] that wraps around before
    it is compared (2^63 ns twice is 0); each round consumes at least the unit, so the
    length of the string is enough fuel. *)
Fixpoint parse_components (fuel : nat) (d : Z) (s : string) : option Z :=
  match fuel, s with
  | _, EmptyString => Some d
  | O, _ => None
  | S fuel', String c0 _ =>
      if negb (Ascii.eqb c0 "." || is_digit c0) then None else
      '(v, s1) ← leadingInt 0 s;
      let pre := negb (bool_decide (String.length s1 = String.length s)) in
      let '(f, scale, s2, post) :=
        match s1 with
        | String "." s1' =>
            let '(f, scale, s2) := leadingFraction 0 (f64_of_Z 1) false s1' in
            (f, scale, s2, negb (bool_decide (String.length s2 = String.length s1')))
        | _ => (0%Z, f64_of_Z 1, s1, false)
        end in
      if negb pre && negb post then None else
      let '(u, s3) := take_unit s2 in
      if str_empty u then None else
      unit ← unitMap u;
      if (2 ^ 63 / unit <? v)%Z then None else
      let v := (v * unit)%Z in
      let v := if (0 <? f)%Z
               then (v + f64_to_Z (f64_mul (f64_of_Z f) (f64_div (f64_of_Z unit) scale)))%Z
               else v in
      if (2 ^ 63 <? v)%Z then None else
      let d := ((d + v) mod 2 ^ 64)%Z in
      if (2 ^ 63 <? d)%Z then None else
      parse_components fuel' d s3
  end.

Definition ParseDuration (s : string) : option Z :=
  let '(neg, s) :=
    match s with
    | String "-" s' => (true, s')
    | String "+" s' => (false, s')
    | _ => (false, s)
    end in
  if s =s? "0" then Some 0%Z
  else if str_empty s then None
  else
    d ← parse_components (String.length s) 0 s;
    if (neg : bool) then Some (wrap64 (- d))
    else if (2 ^ 63 - 1 <? d)%Z then None
    else Some d.

Example parse_1h30m : ParseDuration "1h30m" = Some (90 * Minute)%Z.
Proof. vm_compute. reflexivity. Qed.
Example parse_frac : ParseDuration "1.5h" = Some (90 * Minute)%Z.
Proof. vm_compute. reflexivity. Qed.
Example parse_neg : ParseDuration "-.25s" = Some (- 250 * Millisecond)%Z.
Proof. vm_compute. reflexivity. Qed.
Example parse_bad : ParseDuration "10" = None /\ ParseDuration "1y" = None /\ ParseDuration "" = None.
Proof. vm_compute. repeat split. Qed.
Example parse_big : ParseDuration "9223372036854775808ns" = None
  /\ ParseDuration "-9223372036854775808ns" = Some (- 2 ^ 63)%Z
  /\ ParseDuration "9223372036854775808ns9223372036854775808ns1s" = Some Second.
Proof. vm_compute. repeat split. Qed.

(** What ParseDuration returns is a 64-bit duration. *)
Lemma parse_components_bounds fuel d s r :
  (0 <= d <= 2 ^ 63)%Z -> parse_components fuel d s = Some r -> (0 <= r <= 2 ^ 63)%Z.
Proof.
  revert d s. induction fuel as [|fuel IH]; intros d s Hd; destruct s as [|c0 s];
    intros H; [by simplify_eq/=|done|by simplify_eq/=|].
  cbn [parse_components] in H.
  destruct (negb (Ascii.eqb c0 "." || is_digit c0)); [done|].
  apply bind_Some in H as ([v s1] & Hv & H).
  destruct (match s1 with String "." s1' => _ | _ => _ end) as [[[f scale] s2] post].
  destruct (negb _ && negb post); [done|].
  destruct (take_unit s2) as [u s3]. destruct (str_empty u); [done|].
  apply bind_Some in H as (unit & Hu & H).
  destruct (2 ^ 63 / unit <? v)%Z; [done|].
  set (v' := if (0 <? f)%Z then _ else _) in H.
  destruct (2 ^ 63 <? v')%Z; [done|].
  destruct (2 ^ 63 <? (d + v') mod 2 ^ 64)%Z eqn:Hle; [done|].
  eapply IH; [|exact H]. apply Z.ltb_ge in Hle. split; [|done]. by apply Z.mod_pos_bound.
Qed.

Lemma ParseDuration_int64 s d : ParseDuration s = Some d -> in_int64 d.
Proof.
  unfold ParseDuration. destruct (match s with String "-" _ => _ | _ => _ end) as [neg s'].
  destruct (s' =s? "0"); [intros [= <-]; unfold in_int64; lia|].
  destruct (str_empty s'); [done|]. intros (d0 & Hd & H)%bind_Some.
  apply parse_components_bounds in Hd; [|lia].
  destruct neg; [simplify_eq; apply wrap64_range|].
  destruct (2 ^ 63 - 1 <? d0)%Z eqn:E; [done|]. simplify_eq. apply Z.ltb_ge in E.
  unfold in_int64. lia.
Qed.

(** ** FNV-1a, 32 bits ([hash/fnv], [New32a]) *)

Definition fnv_offset32 : Z := 2166136261.
Definition fnv_prime32 : Z := 16777619.

Fixpoint fnv32a_from (h : Z) (s : string) : Z :=
  match s with
  | EmptyString => h
  | String c s' =>
      fnv32a_from ((Z.lxor h (Z.of_N (N_of_ascii c)) * fnv_prime32) mod 2 ^ 32)%Z s'
  end.
Definition fnv32a (s : string) : Z := fnv32a_from fnv_offset32 s.

Example fnv_vectors :
  fnv32a EmptyString = 2166136261%Z /\ fnv32a "a" = 3826002220%Z /\ fnv32a "foobar" = 3214735720%Z.
Proof. vm_compute. repeat split. Qed.

(** ** Errors *)

(** The errors of the program: an API status error with its reason; an error
    built by [errors.New] or by [fmt.Errorf] without [%w]; a package-level
    error variable (compared by identity: the message names it); a [%w]
    wrapping with the text before the wrapped error; a
    [*ControllerReconcileError]; an [ocm.OCMError]; a multierror. *)
Inductive error :=
| ErrAPI (reason msg : string)
| ErrNew (msg : string)
| ErrVar (msg : string)
| ErrWrap (prefix : string) (e : error)
| ErrReconcile (reason : string)
| ErrOCM (status : Z) (code reason : string)
| ErrMulti (es : list error).

(** The error tree, in the order [errors.Is] and [errors.As] visit it. *)
Fixpoint error_tree (e : error) : list error :=
  e :: match e with
       | ErrWrap _ e' => error_tree e'
       | ErrMulti es => concat (map error_tree es)
       | _ => []
       end.

(** [errors.Is(err, target)] for a package-level error variable. *)
Definition is_var (target : string) (e : error) : bool :=
  match e with ErrVar m => m =s? target | _ => false end.
Definition errors_Is (e : option error) (target : string) : bool :=
  match e with Some e => existsb (is_var target) (error_tree e) | None => false end.

Fixpoint first_Some {A B} (f : A -> option B) (l : list A) : option B :=
  match l with
  | [] => None
  | x :: l' => match f x with Some b => Some b | None => first_Some f l' end
  end.

(** [errors.As(err, &ctlrReconcileErr)] and [errors.As(err, &ocmErr)]. *)
Definition as_reconcile (e : error) : option string :=
  match e with ErrReconcile r => Some r | _ => None end.
Definition errors_As_reconcile (e : error) : option string := first_Some as_reconcile (error_tree e).
Definition as_ocm (e : error) : option error :=
  match e with ErrOCM _ _ _ => Some e | _ => None end.
Definition errors_As_ocm (e : error) : option error := first_Some as_ocm (error_tree e).

(** [%d] on an integer. *)
Definition show_Z (z : Z) : string := pretty z.
