(* ===== verification/Strconv.v ===== *)
(** * The part of package strconv that reads integers

    [strconv.ParseInt] for 64 bits: base 10, as the build date is read, and base
    0, as package flag reads an integer, where the text chooses its base by a
    prefix and may hold underscores. *)
From S2P Require Export GoStd.

Inductive num_error := ErrSyntax | ErrRange.

(** [c | ('x' - 'X')]: a letter in lower case. *)
Definition lower (c : ascii) : Z := Z.lor (Z.of_N (N_of_ascii c)) 32.
Definition is_letter (c : ascii) (l : ascii) : bool := (lower c =? Z.of_N (N_of_ascii l))%Z.

Definition digit_value (c : ascii) : option Z :=
  if is_digit c then Some (digit c)
  else if (97 <=? lower c)%Z && (lower c <=? 122)%Z then Some (lower c - 97 + 10)%Z
  else None.

Section Base.
Context (base : Z) (base0 : bool).

(** The loop of [ParseUint]; [n] is a [uint64]. *)
Fixpoint parse_digits (n : Z) (underscores : bool) (s : string) : (Z * bool) + num_error :=
  match s with
  | EmptyString => inl (n, underscores)
  | String c s' =>
      if Ascii.eqb c "_" && base0 then parse_digits n true s'
      else
        match digit_value c with
        | None => inr ErrSyntax
        | Some d =>
            if (base <=? d)%Z then inr ErrSyntax
            else if ((2 ^ 64 - 1) / base + 1 <=? n)%Z then inr ErrRange
            else
              let n1 := ((n * base + d) mod 2 ^ 64)%Z in
              if (n1 <? n * base)%Z then inr ErrRange else parse_digits n1 underscores s'
        end
  end.
End Base.

(** [underscoreOK]: underscores only between digits, the base prefix counting as
    one.  The last character seen: a digit, an underscore, something else, or
    none yet. *)
Inductive seen := SeenNone | SeenDigit | SeenUnderscore | SeenOther.
Fixpoint underscores_ok (hex : bool) (last : seen) (s : string) : bool :=
  match s with
  | EmptyString => match last with SeenUnderscore => false | _ => true end
  | String c s' =>
      if is_digit c || (hex && (97 <=? lower c)%Z && (lower c <=? 102)%Z) then underscores_ok hex SeenDigit s'
      else if Ascii.eqb c "_" then
        match last with SeenDigit => underscores_ok hex SeenUnderscore s' | _ => false end
      else match last with SeenUnderscore => false | _ => underscores_ok hex SeenOther s' end
  end.
(** Of a text without a sign, as [ParseUint] has it. *)
Definition underscoreOK (s : string) : bool :=
  match s with
  | String "0" (String c s') =>
      if is_letter c "b" || is_letter c "o" || is_letter c "x" then underscores_ok (is_letter c "x") SeenDigit s'
      else underscores_ok false SeenNone s
  | _ => underscores_ok false SeenNone s
  end.

(** The base that a prefix chooses, and the rest of the text. *)
Definition choose_base (s : string) : Z * string :=
  match s with
  | String "0" s' =>
      match s' with
      | String c (String _ _ as s'') =>
          if is_letter c "b" then (2%Z, s'')
          else if is_letter c "o" then (8%Z, s'')
          else if is_letter c "x" then (16%Z, s'')
          else (8%Z, s')
      | _ => (8%Z, s')
      end
  | _ => (10%Z, s)
  end.

Definition ParseUint (s : string) (base : Z) : Z + num_error :=
  if str_empty s then inr ErrSyntax
  else
    let base0 := (base =? 0)%Z in
    let '(b, digits) := if base0 then choose_base s else (base, s) in
    match parse_digits b base0 0 false digits with
    | inr e => inr e
    | inl (n, underscores) => if underscores && negb (underscoreOK s) then inr ErrSyntax else inl n
    end.

Definition ParseInt (s : string) (base : Z) : Z + num_error :=
  let '(neg, digits) :=
    match s with
    | String "+" s' => (false, s')
    | String "-" s' => (true, s')
    | _ => (false, s)
    end in
  match ParseUint digits base with
  | inr e => inr e
  | inl un =>
      if negb neg && (2 ^ 63 <=? un)%Z then inr ErrRange
      else if neg && (2 ^ 63 <? un)%Z then inr ErrRange
      else inl (if neg then - un else un)%Z
  end.

(** ** What is printed is read back *)

Lemma pretty_digit (d : N) : (d < 10)%N ->
  digit_value (pretty_N_char d) = Some (Z.of_N d) /\ Ascii.eqb (pretty_N_char d) "_" = false.
Proof.
  intros Hd. assert (Forall (fun d => digit_value (pretty_N_char d) = Some (Z.of_N d) /\
    Ascii.eqb (pretty_N_char d) "_" = false) [0;1;2;3;4;5;6;7;8;9]%N) as Hall by by repeat constructor.
  apply (proj1 (Forall_forall _ _) Hall). rewrite !elem_of_cons. lia.
Qed.

Lemma parse_digit b0 n u d s : (0 <= n)%Z -> (d < 10)%N -> (n * 10 + Z.of_N d < 2 ^ 64)%Z ->
  parse_digits 10 b0 n u (String (pretty_N_char d) s) = parse_digits 10 b0 (n * 10 + Z.of_N d) u s.
Proof.
  intros Hn Hd Hr. destruct (pretty_digit d Hd) as [H1 H2]. cbn [parse_digits]. rewrite H2, H1. cbn [andb].
  replace (10 <=? Z.of_N d)%Z with false by lia.
  replace ((2 ^ 64 - 1) / 10 + 1 <=? n)%Z with false.
  - rewrite Z.mod_small by lia. by replace (n * 10 + Z.of_N d <? n * 10)%Z with false by lia.
  - symmetry. apply Z.leb_gt. change ((2 ^ 64 - 1) / 10 + 1)%Z with 1844674407370955162%Z. lia.
Qed.

Lemma parse_printed b0 u x : forall s, (Z.of_N x < 2 ^ 64)%Z ->
  parse_digits 10 b0 0 u (pretty_N_go x s) = parse_digits 10 b0 (Z.of_N x) u s.
Proof.
  induction x as [x IH] using (well_founded_induction N.lt_wf_0). intros s Hx.
  destruct (decide (x = 0)%N) as [->|Hne]; [done|].
  pose proof (N.div_mod' x 10) as Hdiv. pose proof (N.mod_upper_bound x 10 ltac:(done)) as Hmod.
  rewrite pretty_N_go_step by lia. generalize dependent (x mod 10)%N. generalize dependent (x / 10)%N. intros q r Hdiv Hmod.
  rewrite IH by lia. rewrite parse_digit by lia. f_equal. lia.
Qed.

(** A printed number has no sign, and no zero in front unless it is zero. *)
Lemma printed_head x : forall s, (0 < x)%N ->
  exists d s', (0 < d < 10)%N /\ pretty_N_go x s = String (pretty_N_char d) s'.
Proof.
  induction x as [x IH] using (well_founded_induction N.lt_wf_0). intros s Hx. rewrite pretty_N_go_step by lia.
  destruct (decide (x < 10)%N) as [Hlt|Hge].
  - rewrite N.div_small, N.mod_small by lia. exists x, s. split; [lia|done].
  - apply IH; [apply N.div_lt; lia|]. apply N.div_str_pos. lia.
Qed.

Lemma ParseUint_printed (x : N) base : base = 0%Z \/ base = 10%Z -> (Z.of_N x < 2 ^ 64)%Z ->
  ParseUint (pretty x) base = inl (Z.of_N x).
Proof.
  intros Hb Hx. destruct (decide (x = 0)%N) as [->|Hne]; [by destruct Hb as [-> | ->]|].
  unfold ParseUint, pretty, pretty_N. rewrite decide_False by done.
  destruct (printed_head x "" ltac:(lia)) as (d & s & Hd & Hs).
  assert (forall b0, parse_digits 10 b0 0 false (pretty_N_go x "") = inl (Z.of_N x, false)) as Hp
    by (intros b0; by rewrite parse_printed).
  assert (choose_base (pretty_N_go x "") = (10%Z, pretty_N_go x "") /\ str_empty (pretty_N_go x "") = false) as [Hc He].
  { rewrite Hs. split; [|done]. assert (Forall (fun d => forall s, choose_base (String (pretty_N_char d) s) =
      (10%Z, String (pretty_N_char d) s)) [1;2;3;4;5;6;7;8;9]%N) as Hall by by repeat constructor.
    apply (proj1 (Forall_forall _ _) Hall). rewrite !elem_of_cons. lia. }
  rewrite He. destruct Hb as [-> | ->]; [|by cbn; rewrite Hp]. cbn [Z.eqb]. by rewrite Hc, Hp.
Qed.

(** In base 10 and in base 0, every 64-bit integer is read back as it is
    printed. *)
Lemma ParseInt_printed z base : base = 0%Z \/ base = 10%Z -> in_int64 z -> ParseInt (pretty z) base = inl z.
Proof.
  intros Hb Hz. unfold in_int64 in Hz.
  assert (forall x : N, exists c s, pretty x = String c s /\ c <> "+"%char /\ c <> "-"%char) as Hhead.
  { intros x. destruct (decide (x = 0)%N) as [->|Hne]; [by exists "0"%char, ""|].
    destruct (printed_head x "" ltac:(lia)) as (d & s & Hd & Hs). exists (pretty_N_char d), s.
    unfold pretty, pretty_N. rewrite decide_False by done. split; [done|].
    assert (Forall (fun d => pretty_N_char d <> "+"%char /\ pretty_N_char d <> "-"%char)
      [1;2;3;4;5;6;7;8;9]%N) as Hall by by repeat constructor.
    apply (proj1 (Forall_forall _ _) Hall). rewrite !elem_of_cons. lia. }
  assert (forall x : N, (Z.of_N x < 2 ^ 63)%Z -> ParseInt (pretty x) base = inl (Z.of_N x)) as Hpos.
  { intros x Hx. unfold ParseInt. destruct (Hhead x) as (c & s & Hs & H1 & H2).
    assert (match pretty x with String "+" s' => (false, s') | String "-" s' => (true, s') | _ => (false, pretty x) end =
      (false, pretty x)) as ->.
    { rewrite Hs. by destruct c as [[] [] [] [] [] [] [] []]. }
    rewrite ParseUint_printed by (done || lia). cbn [negb andb]. by replace (2 ^ 63 <=? Z.of_N x)%Z with false by lia. }
  destruct z as [|p|p].
  - by destruct Hb as [-> | ->].
  - apply (Hpos (N.pos p)). lia.
  - change (pretty (Z.neg p)) with (String "-" (pretty (N.pos p))). unfold ParseInt. cbv beta iota.
    assert (Z.of_N (N.pos p) <= 2 ^ 63)%Z as Hp by lia.
    rewrite ParseUint_printed by (done || lia). cbn [negb andb].
    by rewrite (proj2 (Z.ltb_ge _ _) Hp).
Qed.

(** What is read fits. *)
Lemma parse_digits_range base b0 s : forall n u n' u', (0 < base)%Z -> (0 <= n < 2 ^ 64)%Z ->
  parse_digits base b0 n u s = inl (n', u') -> (0 <= n' < 2 ^ 64)%Z.
Proof.
  induction s as [|c s IH]; intros n u n' u' Hb Hn; cbn [parse_digits]; [by intros [= <- _]|].
  destruct (_ && _); [by apply IH|]. destruct (digit_value c) as [d|]; [|done].
  destruct (base <=? d)%Z; [done|]. destruct (_ <=? n)%Z; [done|]. destruct (_ <? _)%Z; [done|].
  apply IH; [done|]. apply Z.mod_pos_bound. lia.
Qed.
Lemma choose_base_pos s : (0 < (choose_base s).1)%Z.
Proof. unfold choose_base. repeat (case_match; try done). Qed.
Lemma ParseInt_range s base z : (0 <= base)%Z -> ParseInt s base = inl z -> in_int64 z.
Proof.
  intros Hb. unfold ParseInt. destruct (match s with String "+" _ => _ | _ => _ end) as [neg digits].
  assert (forall un, ParseUint digits base = inl un -> (0 <= un < 2 ^ 64)%Z) as Hu.
  { intros un. unfold ParseUint. destruct (str_empty _); [done|].
    destruct (if _ : bool then _ else _) as [b ds] eqn:E.
    assert (0 < b)%Z as Hpos.
    { destruct (base =? 0)%Z eqn:E0; [|injection E as <- _; lia].
      pose proof (choose_base_pos digits) as H. by rewrite E in H. }
    destruct (parse_digits _ _ _ _ _) as [[n u]|] eqn:Hp; [|done]. destruct (_ && _); [done|].
    intros [= <-]. apply (parse_digits_range _ _ _ _ _ _ _ Hpos (conj (Z.le_refl 0) eq_refl) Hp). }
  destruct (ParseUint digits base) as [un|]; [|done]. specialize (Hu un eq_refl). unfold in_int64.
  destruct neg; cbn [negb andb]; repeat (case_match; try done); intros [= <-]; lia.
Qed.
