(* ===== verification/GoFlag.v ===== *)
(** * Package flag

    The part of Go's package flag that parses a command line, for boolean, string
    and integer variables, and what a command line says. *)
From S2P Require Export Strconv.

(** ** The parser *)

(** [strconv.ParseBool]. *)
Definition ParseBool (s : string) : option bool :=
  if bool_decide (s ∈ ["1"; "t"; "T"; "TRUE"; "true"; "True"]) then Some true
  else if bool_decide (s ∈ ["0"; "f"; "F"; "FALSE"; "false"; "False"]) then Some false
  else None.

(** A defined flag: its name, whether it is boolean, and its variable. *)
Inductive flag_value (O : Type) :=
| BoolVar (set : bool -> O -> O)
| StringVar (set : string -> O -> O)
| IntVar (set : Z -> O -> O).
Arguments BoolVar {O} set.
Arguments StringVar {O} set.
Arguments IntVar {O} set.
Definition flag_set (O : Type) : Type := list (string * flag_value O).

Fixpoint find_flag {O} (formal : flag_set O) (name : string) : option (flag_value O) :=
  match formal with
  | [] => None
  | (n, v) :: l => if n =s? name then Some v else find_flag l name
  end.

(** What an argument is to the parser. *)
Inductive token :=
| NotAFlag | Terminator | BadSyntax
| Named (name : string) (value : option string).

(** Split at the first equals sign. *)
Fixpoint cut_equals (s : string) : string * option string :=
  match s with
  | EmptyString => (EmptyString, None)
  | String c s' =>
      if Ascii.eqb c "=" then (EmptyString, Some s')
      else let '(name, value) := cut_equals s' in (String c name, value)
  end.

Definition named (name : string) : token :=
  match name with
  | EmptyString => BadSyntax
  | String c _ =>
      if Ascii.eqb c "-" || Ascii.eqb c "=" then BadSyntax
      else let '(name, value) := cut_equals name in Named name value
  end.

Definition token_of (s : string) : token :=
  match s with
  | String c (String d rest as name) =>
      if negb (Ascii.eqb c "-") then NotAFlag
      else if Ascii.eqb d "-" then
        match rest with EmptyString => Terminator | _ => named rest end
      else named name
  | _ => NotAFlag
  end.

(** [flag.Parse] of the command line: the variables and the arguments left, or
    the code the process exits with ([flag.ExitOnError]). *)
Fixpoint flag_Parse {O} (formal : flag_set O) (args : list string) (o : O) : (O * list string) + Z :=
  match args with
  | [] => inl (o, [])
  | s :: args' =>
      match token_of s with
      | NotAFlag => inl (o, args)
      | Terminator => inl (o, args')
      | BadSyntax => inr 2%Z
      | Named name value =>
          match find_flag formal name with
          | None => if (name =s? "help") || (name =s? "h") then inr 0%Z else inr 2%Z
          | Some (BoolVar set) =>
              match ParseBool (default "true" value) with
              | Some b => flag_Parse formal args' (set b o)
              | None => inr 2%Z
              end
          | Some (StringVar set) =>
              match value, args' with
              | Some v, _ => flag_Parse formal args' (set v o)
              | None, v :: args'' => flag_Parse formal args'' (set v o)
              | None, [] => inr 2%Z
              end
          | Some (IntVar set) =>
              let continue v rest :=
                match ParseInt v 0 with
                | inl z => flag_Parse formal rest (set z o)
                | inr _ => inr 2%Z
                end in
              match value, args' with
              | Some v, _ => continue v args'
              | None, v :: args'' => continue v args''
              | None, [] => inr 2%Z
              end
          end
      end
  end.

(** ** What a command line says *)

(** One setting on the command line, as it may be written. *)
Inductive setting :=
| BoolSetting (name : string) (text : option string)
| ValueSetting (name value : string) (joined : bool).

Definition setting_name (s : setting) : string :=
  match s with BoolSetting name _ | ValueSetting name _ _ => name end.

(** With one dash or two; a boolean flag may come without a value, the value of
    another flag may be the next argument. *)
Definition render (two_dashes : bool) (s : setting) : list string :=
  let name := (if two_dashes then "--" else "-") +:+ setting_name s in
  match s with
  | BoolSetting _ None => [name]
  | BoolSetting _ (Some text) => [name +:+ "=" +:+ text]
  | ValueSetting _ value true => [name +:+ "=" +:+ value]
  | ValueSetting _ value false => [name; value]
  end.

(** What it says: [None] for a flag that is not defined or of another type, and
    for a text that is no boolean. *)
Definition apply_setting {O} (formal : flag_set O) (s : setting) (o : O) : option O :=
  match s, find_flag formal (setting_name s) with
  | BoolSetting _ text, Some (BoolVar set) => (fun b => set b o) <$> ParseBool (default "true" text)
  | ValueSetting _ value _, Some (StringVar set) => Some (set value o)
  | ValueSetting _ value _, Some (IntVar set) =>
      match ParseInt value 0 with inl z => Some (set z o) | inr _ => None end
  | _, _ => None
  end.
Fixpoint apply_settings {O} (formal : flag_set O) (l : list (bool * setting)) (o : O) : option O :=
  match l with
  | [] => Some o
  | (_, s) :: l' => apply_setting formal s o ≫= apply_settings formal l'
  end.

(** A name that the parser takes as it is. *)
Definition plain_name (name : string) : bool :=
  match name with
  | EmptyString => false
  | String c _ => negb (Ascii.eqb c "-") && negb (str_in "=" name)
  end.

(** The rest of the command line is no flag. *)
Definition positional (rest : list string) : Prop :=
  match rest with [] => True | s :: _ => token_of s = NotAFlag end.

Lemma cut_plain name : str_in "=" name = false -> cut_equals name = (name, None).
Proof.
  induction name as [|c name IH]; [done|]. cbn [str_in cut_equals]. rewrite orb_false_iff. intros [Hc Hn].
  rewrite Ascii.eqb_sym, Hc, IH by done. done.
Qed.
Lemma cut_joined name value :
  str_in "=" name = false -> cut_equals (name +:+ "=" +:+ value) = (name, Some value).
Proof.
  induction name as [|c name IH]; [done|]. cbn [str_in]. rewrite orb_false_iff. intros [Hc Hn].
  change (String c name +:+ "=" +:+ value) with (String c (name +:+ "=" +:+ value)). cbn [cut_equals].
  rewrite Ascii.eqb_sym, Hc, IH by done. done.
Qed.

Lemma named_plain name s value :
  plain_name name = true -> cut_equals (name +:+ s) = (name, value) -> named (name +:+ s) = Named name value.
Proof.
  destruct name as [|c name]; [done|]. unfold plain_name. cbn [str_in].
  intros [Hc [He _]%negb_true_iff%orb_false_iff]%andb_true_iff Hcut. apply negb_true_iff in Hc.
  rewrite Ascii.eqb_sym in He. unfold named. change (String c name +:+ s) with (String c (name +:+ s)) in *.
  cbn beta iota. by rewrite Hc, He, Hcut.
Qed.

Lemma token_rendered two name s value :
  plain_name name = true -> cut_equals (name +:+ s) = (name, value) ->
  token_of (((if two : bool then "--" else "-") +:+ name) +:+ s) = Named name value.
Proof.
  intros Hn Hcut. pose proof (named_plain _ _ _ Hn Hcut) as H.
  destruct name as [|c name]; [done|]. unfold plain_name in Hn. apply andb_true_iff in Hn as [Hc%negb_true_iff _].
  change (String c name +:+ s) with (String c (name +:+ s)) in *. destruct two.
  - change (("--" +:+ String c name) +:+ s) with (String "-" (String "-" (String c (name +:+ s)))). exact H.
  - change (("-" +:+ String c name) +:+ s) with (String "-" (String c (name +:+ s))).
    unfold token_of. cbn beta iota. rewrite Hc. exact H.
Qed.

Lemma plain_no_equals name : plain_name name = true -> str_in "=" name = false.
Proof. destruct name; [done|]. unfold plain_name. by intros [_ ?%negb_true_iff]%andb_true_iff. Qed.

Lemma token_alone two name :
  plain_name name = true -> token_of ((if two : bool then "--" else "-") +:+ name) = Named name None.
Proof.
  intros Hn. pose proof (token_rendered two name "" None Hn) as Ht. rewrite !str_append_empty_r in Ht.
  by apply Ht, cut_plain, plain_no_equals.
Qed.

Section Rendered.
Context {O : Type} (formal : flag_set O).
Context (Hformal : Forall (fun '(name, _) => plain_name name = true) formal).

Lemma found_plain name v : find_flag formal name = Some v -> plain_name name = true.
Proof.
  induction Hformal as [|[n x] l Hn Hl IH]; simpl; [done|]. destruct (n =s? name) eqn:E; [|exact (IH Hl)].
  bools. by subst.
Qed.

(** The parser reads a rendered command line back. *)
Lemma rendered_parsed l rest o o' :
  apply_settings formal l o = Some o' -> positional rest ->
  flag_Parse formal (concat (map (fun '(two, s) => render two s) l) ++ rest) o = inl (o', rest).
Proof.
  intros Hl Hrest. revert o Hl. induction l as [|[two s] l IH]; intros o Hl.
  { injection Hl as <-. destruct rest as [|s rest]; [done|].
    unfold positional in Hrest. cbn [map concat app flag_Parse]. by rewrite Hrest. }
  cbn [apply_settings] in Hl. destruct (apply_setting formal s o) as [o1|] eqn:Hs; [|done].
  specialize (IH o1 Hl). cbn [map concat]. rewrite <- app_assoc.
  destruct s as [name [text|]|name value [|]]; unfold apply_setting in Hs; cbn [setting_name] in Hs;
    destruct (find_flag formal name) as [[set|set|set]|] eqn:Hf; try done;
    pose proof (found_plain _ _ Hf) as Hn; pose proof (plain_no_equals _ Hn) as Heq; cbn [setting_name render];
    rewrite <- IH; cbn [app flag_Parse].
  - rewrite (token_rendered two name ("=" +:+ text) (Some text)), Hf by (done || by apply cut_joined).
    cbn [default] in *. change (id text) with text in *. by destruct (ParseBool text); simplify_eq/=.
  - rewrite (token_alone two name Hn), Hf. by injection Hs as <-.
  - rewrite (token_rendered two name ("=" +:+ value) (Some value)), Hf by (done || by apply cut_joined).
    by injection Hs as <-.
  - rewrite (token_rendered two name ("=" +:+ value) (Some value)), Hf by (done || by apply cut_joined).
    cbv zeta. destruct (ParseInt value 0); [by injection Hs as <-|done].
  - rewrite (token_alone two name Hn), Hf. by injection Hs as <-.
  - rewrite (token_alone two name Hn), Hf. destruct (ParseInt value 0); [by injection Hs as <-|done].
Qed.
End Rendered.

