(* ===== verification/Version.v ===== *)
(** * internal/version and controllers/context.go

    The build information of a binary, and the logger that a context carries.
    What the linker writes into the variables of the package, and what package
    runtime reports, are arguments. *)
From S2P Require Export Strconv.

(** ** The version *)

Module Version.

(*@ internal/version/version.go:12-12 empty *)
Definition empty : string := "was not build properly".

(** The variables that -ldflags sets. *)
(*@ internal/version/version.go:16-21 Version *)
Record ldflags := mkLdflags { v_Version : string; v_Branch : string; v_Commit : string; v_BuildDate : string }.
(** Of a binary built without. *)
(*@ internal/version/version.go:16-21 Version *)
Definition unset : ldflags := mkLdflags empty empty empty empty.

(** The build date in seconds; [None] is the zero time. *)
(*@ internal/version/version.go:24-31 Info *)
Record Info := mkInfo {
  Version : string; Branch : string; Commit : string; BuildDate : option Z;
  GoVersion : string; Platform : string
}.

(** A date that is no integer makes it panic. *)
(*@ internal/version/version.go:34-52 Get *)
Definition Get (runtime_Version GOOS GOARCH : string) (v : ldflags) : Info + num_error :=
  let info := mkInfo (v_Version v) (v_Branch v) (v_Commit v) in
  let on date := info date runtime_Version (GOOS +:+ "/" +:+ GOARCH) in
  if bool_decide (v_BuildDate v <> empty) then
    match ParseInt (v_BuildDate v) 10 with
    | inr err => inr err
    | inl i => inl (on (Some i))
    end
  else inl (on None).

(** What the build writes: the date as [fmt.Sprint] prints the seconds since
    1970. *)
Definition built (version branch commit : string) (date : Z) : ldflags :=
  mkLdflags version branch commit (pretty date).

Lemma pretty_not_empty (z : Z) : pretty z <> empty.
Proof.
  destruct z as [|p|p]; [done| |done].
  destruct (printed_head (N.pos p) "" ltac:(lia)) as (d & s & Hd & Hs).
  change (pretty (Z.pos p)) with (pretty_N_go (N.pos p) ""). rewrite Hs. intros [= Hc _]. revert Hc.
  assert (Forall (fun d => pretty_N_char d <> "w"%char) [1;2;3;4;5;6;7;8;9]%N) as Hall by by repeat constructor.
  apply (proj1 (Forall_forall _ _) Hall). rewrite !elem_of_cons. lia.
Qed.

(** The build date is read back: a binary of the build never panics here, and
    reports what was built; neither does a binary that was built without. *)
Theorem build_date_is_read runtime_Version GOOS GOARCH version branch commit date : in_int64 date ->
  Get runtime_Version GOOS GOARCH (built version branch commit date) =
    inl (mkInfo version branch commit (Some date) runtime_Version (GOOS +:+ "/" +:+ GOARCH)) /\
  Get runtime_Version GOOS GOARCH unset =
    inl (mkInfo empty empty empty None runtime_Version (GOOS +:+ "/" +:+ GOARCH)).
Proof.
  intros Hd. split; [|done]. unfold Get, built. cbn [v_BuildDate v_Version v_Branch v_Commit].
  rewrite bool_decide_true by apply pretty_not_empty. by rewrite ParseInt_printed by auto.
Qed.

(** It panics exactly on a date that is set and is no 64-bit integer. *)
Lemma Get_panics runtime_Version GOOS GOARCH v :
  (exists e, Get runtime_Version GOOS GOARCH v = inr e) <->
  v_BuildDate v <> empty /\ forall z, ParseInt (v_BuildDate v) 10 <> inl z.
Proof.
  unfold Get. case_bool_decide as Hd.
  - destruct (ParseInt _ _) as [z|e]; split.
    + by intros [e ?].
    + intros [_ H]. by destruct (H z).
    + done.
    + intros _. by exists e.
  - split; [by intros [e ?]|by intros [? _]].
Qed.
End Version.

(** ** The logger of a context *)

Module Logging.
Section Logging.
(** The loggers of logr, and the one that discards. *)
Context {Logger : Type} (Discard : Logger).

(** The values that a context may carry, and their keys: those of this package
    and others. *)
Inductive any := LoggerValue (l : Logger) | OtherValue.
(*@ controllers/context.go:9-9 controllerContextKey *)
Inductive contextKey := controllerContextKey (n : Z) | OtherKey (name : string).
#[export] Instance contextKey_eq : EqDecision contextKey.
Proof. solve_decision. Defined.
(*@ controllers/context.go:11-11 loggerContextKey *)
Definition loggerContextKey : contextKey := controllerContextKey 0.

(** A [context.Context]: its deadline, whether it is cancelled, its values. *)
Record Context_ := mkContext { Deadline : option Z; Cancelled : bool; Value : contextKey -> option any }.
Definition Background : Context_ := mkContext None false (fun _ => None).
Definition WithValue (parent : Context_) (key : contextKey) (val : any) : Context_ :=
  mkContext (Deadline parent) (Cancelled parent) (fun k => if decide (k = key) then Some val else Value parent k).

(*@ controllers/context.go:14-16 ContextWithLogger *)
Definition ContextWithLogger (parent : Context_) (logger : Logger) : Context_ :=
  WithValue Background loggerContextKey (LoggerValue logger).

(*@ controllers/context.go:20-26 LoggerFromContext *)
Definition LoggerFromContext (ctx : Context_) : Logger :=
  match Value ctx loggerContextKey with Some (LoggerValue l) => l | _ => Discard end.

(** The logger is found again, also under values that others add. *)
Theorem logger_is_found parent logger key val : key <> loggerContextKey ->
  LoggerFromContext (WithValue (ContextWithLogger parent logger) key val) = logger.
Proof.
  intros Hk. unfold LoggerFromContext, ContextWithLogger, WithValue. cbn [Value].
  rewrite decide_False by congruence. by rewrite decide_True.
Qed.

(** But the context is a new one: whatever the parent is, the result is never
    cancelled, has no deadline and carries none of the parent's values.  The
    reconciles of Addons run in such a context. *)
Theorem parent_is_dropped parent logger key : key <> loggerContextKey ->
  let ctx := ContextWithLogger parent logger in
  Cancelled ctx = false /\ Deadline ctx = None /\ Value ctx key = None.
Proof. intros Hk. unfold ContextWithLogger, WithValue. cbn. by rewrite decide_False. Qed.
End Logging.
End Logging.
