(* ===== verification/Profiling.v ===== *)
(** * main.go: the pprof server of the process

    [initPprof] gives the manager a runnable: it serves in a goroutine of its
    own, waits until the server fails or the context is cancelled, and then
    drains the channel of the server's error.  The runnable, the goroutine and
    the unbuffered channel between them are a transition system; [ListenAndServe]
    returns when it fails, or when the server is closed. *)
From S2P Require Export GoStd.

Section Profiling.
(** The errors of [ListenAndServe], and the one it returns when closed. *)
Context {E : Type} (ErrServerClosed : E).

(** The goroutine: in [ListenAndServe], about to send its error, about to close
    the channel, gone. *)
(*@ main.go:168-171 ListenAndServe *)
Inductive server_at := Serving | Sending (e : E) | Closing | Gone.
(** The runnable: in its select, in the loop that drains the channel, with the
    result it is about to return, returned. *)
(*@ main.go:164-179 errCh *)
Inductive runnable_at := Selecting | Draining (result : option E) | Returned (result : option E).

Record pprof := mkPprof {
  goroutine : server_at; runnable : runnable_at;
  server_closed : bool; channel_closed : bool; cancelled : bool
}.
Definition pprof_start : pprof := mkPprof Serving Selecting false false false.

(*@ main.go:162-180 RunnableFunc *)
Inductive pprof_step : pprof -> pprof -> Prop :=
| step_cancel g r sc cc : pprof_step (mkPprof g r sc cc false) (mkPprof g r sc cc true)
| step_fails r sc cc ctx e : pprof_step (mkPprof Serving r sc cc ctx) (mkPprof (Sending e) r sc cc ctx)
| step_stops r cc ctx : pprof_step (mkPprof Serving r true cc ctx) (mkPprof (Sending ErrServerClosed) r true cc ctx)
| step_selects_error e sc cc ctx :
    pprof_step (mkPprof (Sending e) Selecting sc cc ctx) (mkPprof Closing (Draining (Some e)) sc cc ctx)
| step_selects_done g sc cc :
    pprof_step (mkPprof g Selecting sc cc true) (mkPprof g (Draining None) true cc true)
| step_drains e result sc cc ctx :
    pprof_step (mkPprof (Sending e) (Draining result) sc cc ctx) (mkPprof Closing (Draining result) sc cc ctx)
| step_closes r sc cc ctx : pprof_step (mkPprof Closing r sc cc ctx) (mkPprof Gone r sc true ctx)
| step_returns g result sc ctx :
    pprof_step (mkPprof g (Draining result) sc true ctx) (mkPprof g (Returned result) sc true ctx).

(** What holds all along. *)
Definition pprof_inv (σ : pprof) : Prop :=
  (channel_closed σ = true <-> goroutine σ = Gone) /\
  match runnable σ with
  | Selecting => server_closed σ = false /\ goroutine σ <> Closing /\ goroutine σ <> Gone
  | Draining None => cancelled σ = true /\ server_closed σ = true
  | Draining (Some _) => goroutine σ = Closing \/ goroutine σ = Gone
  | Returned None => cancelled σ = true /\ server_closed σ = true /\ goroutine σ = Gone
  | Returned (Some _) => goroutine σ = Gone
  end.

Lemma pprof_inv_reachable σ : rtc pprof_step pprof_start σ -> pprof_inv σ.
Proof.
  assert (forall σ1 σ2, rtc pprof_step σ1 σ2 -> pprof_inv σ1 -> pprof_inv σ2) as H; [|by intros Hr; apply (H _ _ Hr)].
  induction 1 as [|σ1 σ2 σ3 Hs _ IH]; [done|]. intros [H1 H2]. apply IH. clear IH.
  destruct Hs; unfold pprof_inv in *; simpl in *; repeat case_match; naive_solver.
Qed.

(** Every step brings the end nearer. *)
Definition pprof_left (σ : pprof) : nat :=
  (if cancelled σ then 0 else 1) +
  match goroutine σ with Serving => 3 | Sending _ => 2 | Closing => 1 | Gone => 0 end +
  match runnable σ with Selecting => 2 | Draining _ => 1 | Returned _ => 0 end.

Lemma pprof_step_left σ σ' : pprof_step σ σ' -> pprof_left σ' < pprof_left σ.
Proof. destruct 1; unfold pprof_left; simpl; lia. Qed.

(** The runnable ends, and leaves nothing behind: every run is finite, at most
    six steps, and one that cannot go on has returned, with the goroutine gone
    and the channel closed.  Whenever the runnable has returned, the goroutine
    is gone.  It returns no error only when the context was cancelled and the
    server closed. *)
Theorem pprof_ends σ : rtc pprof_step pprof_start σ ->
  (forall n σ', nsteps pprof_step n pprof_start σ' -> n <= 6) /\
  ((forall σ', ~ pprof_step σ σ') -> exists result, runnable σ = Returned result) /\
  (forall result, runnable σ = Returned result -> goroutine σ = Gone /\ channel_closed σ = true /\
     (result = None -> cancelled σ = true /\ server_closed σ = true)).
Proof.
  intros Hr. apply pprof_inv_reachable in Hr as [Hc Hi]. split; [|split].
  - assert (forall n σ1 σ2, nsteps pprof_step n σ1 σ2 -> n + pprof_left σ2 <= pprof_left σ1) as H.
    { induction 1 as [|n σ1 σ2 σ3 Hs _ IH]; [done|]. apply pprof_step_left in Hs. lia. }
    intros n σ' Hn. apply H in Hn. change (pprof_left pprof_start) with 6 in Hn. lia.
  - destruct σ as [g r sc cc ctx]. simpl in *. intros Hno.
    destruct ctx; [|by destruct (Hno _ (step_cancel _ _ _ _))].
    destruct r as [|result|result]; [by destruct (Hno _ (step_selects_done _ _ _))| |by exists result].
    destruct g as [|e| |]; [| | |].
    + destruct result as [e|]; [by destruct Hi|]. destruct Hi as [_ ->]. by destruct (Hno _ (step_stops _ _ _)).
    + by destruct (Hno _ (step_drains _ _ _ _ _)).
    + by destruct (Hno _ (step_closes _ _ _ _)).
    + assert (cc = true) as -> by by apply Hc. by destruct (Hno _ (step_returns _ _ _ _)).
  - intros result Hres. rewrite Hres in Hi. destruct result as [e|].
    + split; [done|]. split; [by apply Hc|done].
    + destruct Hi as (H1 & H2 & H3). split; [done|]. split; [by apply Hc|done].
Qed.
End Profiling.
