(* ===== verification/Json.v ===== *)
(** * JSON as [encoding/json] reads and writes it

    [Unmarshal] is [json.Unmarshal] into an [interface{}]: the whole input is one
    value; strings are unescaped, with the replacement character in place of
    lone surrogates and of bytes that are not UTF-8; numbers must fit in a
    float64; at most 10000 arrays and objects are open at once.  [Marshal] is
    [json.Marshal], with its escaping of the characters special to HTML and of
    bytes that are not UTF-8.  The parser recurses on fuel; [parse_enough_fuel] shows that
    more fuel than characters gives the answer of every larger fuel, and
    [Unmarshal_Marshal] that what is written is read back. *)
From S2P Require Export GoStd.

(** ** Values *)

(** The parts of a number literal: its sign, the digits before and after the
    dot, and the exponent, with its letter and its sign. *)
Record number := mkNumber {
  num_sign : string; num_whole : string; num_fraction : option string;
  num_exponent : option (ascii * string * string)
}.

(** A number keeps its literal; the members of an object are in the order of
    the text. *)
Inductive json :=
| JNull
| JBool (b : bool)
| JNumber (n : number)
| JString (s : string)
| JArray (l : list json)
| JObject (l : list (string * json)).

Definition chr (n : N) : ascii := ascii_of_N n.
Definition byte_code (c : ascii) : N := N_of_ascii c.
Definition str1 (c : ascii) : string := String c EmptyString.

Definition json_quote : ascii := chr 34.
Definition json_escape : ascii := chr 92.
Definition json_space (c : ascii) : bool :=
  let n := byte_code c in ((n =? 32) || (n =? 9) || (n =? 10) || (n =? 13))%N.

Fixpoint skip_space (s : string) : string :=
  match s with
  | String c s' => if json_space c then skip_space s' else s
  | EmptyString => EmptyString
  end.

(** ** Strings *)

Definition hex_digit (c : ascii) : option N :=
  let n := byte_code c in
  (if (48 <=? n) && (n <=? 57) then Some (n - 48)
   else if (97 <=? n) && (n <=? 102) then Some (n - 87)
   else if (65 <=? n) && (n <=? 70) then Some (n - 55)
   else None)%N.

Definition hex4 (a b c d : ascii) : option N :=
  match hex_digit a, hex_digit b, hex_digit c, hex_digit d with
  | Some a, Some b, Some c, Some d => Some (a * 4096 + b * 256 + c * 16 + d)%N
  | _, _, _, _ => None
  end.

(** [utf8.EncodeRune] for the runes of [\u] escapes. *)
Definition utf8 (r : N) : string :=
  (if r <? 128 then str1 (chr r)
   else if r <? 2048 then String (chr (192 + r / 64)) (str1 (chr (128 + r mod 64)))
   else if r <? 65536 then
     String (chr (224 + r / 4096)) (String (chr (128 + (r / 64) mod 64)) (str1 (chr (128 + r mod 64))))
   else
     String (chr (240 + r / 262144)) (String (chr (128 + (r / 4096) mod 64))
       (String (chr (128 + (r / 64) mod 64)) (str1 (chr (128 + r mod 64))))))%N.

Definition replacement : string := utf8 65533.
Definition is_surrogate (r : N) : bool := ((55296 <=? r) && (r <? 57344))%N.

(** [utf16.DecodeRune], [None] for the replacement character. *)
Definition surrogate_pair (a b : N) : option N :=
  (if (55296 <=? a) && (a <? 56320) && (56320 <=? b) && (b <? 57344)
   then Some ((a - 55296) * 1024 + (b - 56320) + 65536) else None)%N.

Definition byte_in (lo hi : N) (c : ascii) : bool := ((lo <=? byte_code c) && (byte_code c <=? hi))%N.
Definition continuation : ascii -> bool := byte_in 128 191.

(** The second byte that may follow a first byte of a longer sequence. *)
Definition second_byte (c : ascii) : ascii -> bool :=
  (if byte_code c =? 224 then byte_in 160 191
   else if byte_code c =? 237 then byte_in 128 159
   else if byte_code c =? 240 then byte_in 144 191
   else if byte_code c =? 244 then byte_in 128 143
   else continuation)%N.

(** The character an escape of one letter stands for. *)
Definition unescape (e : ascii) : option ascii :=
  let n := byte_code e in
  (if (n =? 34) || (n =? 92) || (n =? 47) then Some e
   else if n =? 98 then Some (chr 8)
   else if n =? 102 then Some (chr 12)
   else if n =? 110 then Some (chr 10)
   else if n =? 114 then Some (chr 13)
   else if n =? 116 then Some (chr 9)
   else None)%N.

(** Put a prefix before the string that was read. *)
Definition prepend (p : string) (r : option (string * string)) : option (string * string) :=
  match r with Some (s, rest) => Some (p +:+ s, rest) | None => None end.

(** The rest of a string literal, after its opening quote. *)
Fixpoint parse_string (s : string) : option (string * string) :=
  match s with
  | EmptyString => None
  | String c r =>
      if (byte_code c =? 34)%N then Some (EmptyString, r)
      else if (byte_code c =? 92)%N then
        match r with
        | EmptyString => None
        | String e r1 =>
            if (byte_code e =? 117)%N then
              match r1 with
              | String a (String b (String c' (String d r2))) =>
                  match hex4 a b c' d with
                  | None => None
                  | Some rune =>
                      if is_surrogate rune then
                        match r2 with
                        | String bs (String u (String a' (String b' (String c'' (String d' r3))))) =>
                            match (if (byte_code bs =? 92)%N && (byte_code u =? 117)%N
                                   then match hex4 a' b' c'' d' with
                                        | Some low => surrogate_pair rune low
                                        | None => None
                                        end
                                   else None) with
                            | Some both => prepend (utf8 both) (parse_string r3)
                            | None => prepend replacement (parse_string r2)
                            end
                        | _ => prepend replacement (parse_string r2)
                        end
                      else prepend (utf8 rune) (parse_string r2)
                  end
              | _ => None
              end
            else match unescape e with
                 | Some c' => prepend (str1 c') (parse_string r1)
                 | None => None
                 end
        end
      else if (byte_code c <? 32)%N then None
      else if (byte_code c <? 128)%N then prepend (str1 c) (parse_string r)
      else
        match r with
        | String c1 r1 =>
            if byte_in 194 223 c && continuation c1
            then prepend (String c (str1 c1)) (parse_string r1)
            else
              match r1 with
              | String c2 r2 =>
                  if byte_in 224 239 c && second_byte c c1 && continuation c2
                  then prepend (String c (String c1 (str1 c2))) (parse_string r2)
                  else
                    match r2 with
                    | String c3 r3 =>
                        if byte_in 240 244 c && second_byte c c1 && continuation c2 && continuation c3
                        then prepend (String c (String c1 (String c2 (str1 c3)))) (parse_string r3)
                        else prepend replacement (parse_string r)
                    | _ => prepend replacement (parse_string r)
                    end
              | _ => prepend replacement (parse_string r)
              end
        | _ => prepend replacement (parse_string r)
        end
  end.

(** ** Numbers *)

Fixpoint take_digits (s : string) : string * string :=
  match s with
  | String c s' =>
      if byte_in 48 57 c then let '(d, r) := take_digits s' in (String c d, r)
      else (EmptyString, s)
  | EmptyString => (EmptyString, EmptyString)
  end.

(** The optional sign [c] at the front. *)
Definition take_sign (minus_only : bool) (s : string) : string * string :=
  match s with
  | String c s' =>
      if (byte_code c =? 45)%N || (negb minus_only && (byte_code c =? 43)%N) then (str1 c, s')
      else (EmptyString, s)
  | EmptyString => (EmptyString, s)
  end.

Fixpoint digits_value (acc : N) (s : string) : N :=
  match s with
  | String c s' => digits_value (acc * 10 + (byte_code c - 48)) s'
  | EmptyString => acc
  end.

(** The absolute values that round to infinity in a float64 start here. *)
Definition float64_limit : Z := (2 ^ 1024 - 2 ^ 970)%Z.

(** [m * 10^e] is below [float64_limit]: exact when the size is near it. *)
Definition in_float64 (m e : Z) : bool :=
  (if m =? 0 then true
   else
     let k := Z.of_nat (String.length (show_Z m)) in
     if 310 <=? k + e then false
     else if k + e <=? 308 then true
     else if 0 <=? e then m * 10 ^ e <? float64_limit
     else m <? float64_limit * 10 ^ (- e))%Z.

Definition number_fits (n : number) : bool :=
  let fraction := default "" (num_fraction n) in
  let m := Z.of_N (digits_value 0 (num_whole n +:+ fraction)) in
  let e := match num_exponent n with
           | Some (_, g, x) =>
               let e := Z.of_N (digits_value 0 x) in if bool_decide (g = "-") then (- e)%Z else e
           | None => 0%Z
           end in
  in_float64 m (e - Z.of_nat (String.length fraction)).

(** The literal of a number. *)
Definition number_text (n : number) : string :=
  num_sign n +:+ num_whole n +:+
  (match num_fraction n with Some f => "." +:+ f | None => "" end) +:+
  (match num_exponent n with Some (c, g, x) => str1 c +:+ g +:+ x | None => "" end).

Definition scan_fraction (s : string) : option string * string :=
  match s with
  | String c r => if (byte_code c =? 46)%N then let '(f, r') := take_digits r in (Some f, r') else (None, s)
  | EmptyString => (None, s)
  end.
Definition scan_exponent (s : string) : option (ascii * string * string) * string :=
  match s with
  | String c r =>
      if (byte_code c =? 101)%N || (byte_code c =? 69)%N then
        let '(g, r1) := take_sign false r in
        let '(x, r2) := take_digits r1 in (Some (c, g, x), r2)
      else (None, s)
  | EmptyString => (None, s)
  end.

(** No leading zero, and digits after a dot and in an exponent. *)
Definition well_formed_number (n : number) : bool :=
  (match num_whole n with
   | EmptyString => false
   | String c w => negb ((byte_code c =? 48)%N && negb (str_empty w))
   end) &&
  (match num_fraction n with Some f => negb (str_empty f) | None => true end) &&
  (match num_exponent n with Some (_, _, x) => negb (str_empty x) | None => true end).

Definition parse_number (s : string) : option (json * string) :=
  let '(sign, s0) := take_sign true s in
  let '(whole, s1) := take_digits s0 in
  let '(fraction, s2) := scan_fraction s1 in
  let '(exponent, s3) := scan_exponent s2 in
  let n := mkNumber sign whole fraction exponent in
  if well_formed_number n then Some (JNumber n, s3) else None.

(** ** Values *)

(** A literal name at the front. *)
Fixpoint expect (w : string) (s : string) : option string :=
  match w, s with
  | EmptyString, _ => Some s
  | String c w', String d s' => if Ascii.eqb c d then expect w' s' else None
  | _, EmptyString => None
  end.

Definition parse_literal (w : string) (v : json) (s : string) : option (json * string) :=
  match expect w s with Some r => Some (v, r) | None => None end.

(** What may follow an element of an array or an object: a comma and the next
    element, or the closing character. *)
Inductive separator := More (rest : string) | Closed (rest : string).
Definition next_separator (close : N) (s : string) : option separator :=
  match skip_space s with
  | String c r =>
      if (byte_code c =? 44)%N then Some (More r)
      else if (byte_code c =? close)%N then Some (Closed r) else None
  | EmptyString => None
  end.

(** A member name and its colon. *)
Definition parse_name (s : string) : option (string * string) :=
  match skip_space s with
  | String c r =>
      if (byte_code c =? 34)%N then
        match parse_string r with
        | Some (k, r1) =>
            match skip_space r1 with
            | String d r2 => if (byte_code d =? 58)%N then Some (k, r2) else None
            | EmptyString => None
            end
        | None => None
        end
      else None
  | EmptyString => None
  end.

(** [depth] counts the arrays and objects that may still be opened. *)
Fixpoint parse_value (fuel : nat) (depth : N) (s : string) : option (json * string) :=
  match fuel with
  | 0 => None
  | S fuel =>
      match skip_space s with
      | EmptyString => None
      | String c r =>
          if (byte_code c =? 34)%N then
            match parse_string r with Some (v, r1) => Some (JString v, r1) | None => None end
          else if (byte_code c =? 123)%N then
            if (depth =? 0)%N then None
            else
                match skip_space r with
                | String d r1 =>
                    if (byte_code d =? 125)%N then Some (JObject [], r1)
                    else match parse_members fuel (N.pred depth) r with
                         | Some (l, r2) => Some (JObject l, r2) | None => None end
                | EmptyString => None
                end
          else if (byte_code c =? 91)%N then
            if (depth =? 0)%N then None
            else
                match skip_space r with
                | String d r1 =>
                    if (byte_code d =? 93)%N then Some (JArray [], r1)
                    else match parse_elements fuel (N.pred depth) r with
                         | Some (l, r2) => Some (JArray l, r2) | None => None end
                | EmptyString => None
                end
          else if (byte_code c =? 116)%N then parse_literal "rue" (JBool true) r
          else if (byte_code c =? 102)%N then parse_literal "alse" (JBool false) r
          else if (byte_code c =? 110)%N then parse_literal "ull" JNull r
          else parse_number (String c r)
      end
  end
with parse_members (fuel : nat) (depth : N) (s : string) : option (list (string * json) * string) :=
  match fuel with
  | 0 => None
  | S fuel =>
      match parse_name s with
      | None => None
      | Some (k, r) =>
          match parse_value fuel depth r with
          | None => None
          | Some (v, r1) =>
              match next_separator 125 r1 with
              | Some (More r2) =>
                  match parse_members fuel depth r2 with
                  | Some (l, r3) => Some ((k, v) :: l, r3) | None => None end
              | Some (Closed r2) => Some ([(k, v)], r2)
              | None => None
              end
          end
      end
  end
with parse_elements (fuel : nat) (depth : N) (s : string) : option (list json * string) :=
  match fuel with
  | 0 => None
  | S fuel =>
      match parse_value fuel depth s with
      | None => None
      | Some (v, r1) =>
          match next_separator 93 r1 with
          | Some (More r2) =>
              match parse_elements fuel depth r2 with
              | Some (l, r3) => Some (v :: l, r3) | None => None end
          | Some (Closed r2) => Some ([v], r2)
          | None => None
          end
      end
  end.

Definition max_depth : N := 10000.

(** The value that a text holds; [None] for a syntax error. *)
Definition parse_json (s : string) : option json :=
  match parse_value (S (String.length s)) max_depth s with
  | Some (v, r) => if str_empty (skip_space r) then Some v else None
  | None => None
  end.

(** Every number is one of float64. *)
Fixpoint numbers_fit (v : json) : bool :=
  match v with
  | JNumber n => number_fits n
  | JArray l => forallb numbers_fit l
  | JObject l => forallb (fun '(_, v) => numbers_fit v) l
  | _ => true
  end.

(** [json.Unmarshal] of a text into an [interface{}]; [None] is its error. *)
Definition Unmarshal (s : string) : option json :=
  match parse_json s with
  | Some v => if numbers_fit v then Some v else None
  | None => None
  end.

(** ** Writing *)

Definition hex_char (n : N) : ascii := if (n <? 10)%N then chr (48 + n) else chr (87 + n).

(** One character inside a string literal, as [json.Marshal] escapes it. *)
Definition encode_char (c : ascii) : string :=
  let n := byte_code c in
  (if (n =? 34) || (n =? 92) then String json_escape (str1 c)
   else if n =? 8 then String json_escape "b"
   else if n =? 12 then String json_escape "f"
   else if n =? 10 then String json_escape "n"
   else if n =? 13 then String json_escape "r"
   else if n =? 9 then String json_escape "t"
   else if (n <? 32) || (n =? 60) || (n =? 62) || (n =? 38) then
     String json_escape (String (chr 117) ("00" +:+
       String (hex_char (n / 16)) (str1 (hex_char (n mod 16)))))
   else str1 c)%N.

(** A character of three bytes: the two line separators are escaped. *)
Definition encode_three (c c1 c2 : ascii) : string :=
  if (byte_code c =? 226)%N && (byte_code c1 =? 128)%N && ((byte_code c2 =? 168) || (byte_code c2 =? 169))%N
  then String json_escape ("u202" +:+ (if (byte_code c2 =? 168)%N then "8" else "9"))
  else String c (String c1 (str1 c2)).

(** What is written for a byte that is not part of a UTF-8 character. *)
Definition encode_invalid : string := String json_escape "ufffd".

Fixpoint encode_chars (s : string) : string :=
  match s with
  | EmptyString => EmptyString
  | String c r =>
      if (byte_code c <? 128)%N then encode_char c +:+ encode_chars r
      else
        match r with
        | String c1 r1 =>
            if byte_in 194 223 c && continuation c1
            then String c (str1 c1) +:+ encode_chars r1
            else
              match r1 with
              | String c2 r2 =>
                  if byte_in 224 239 c && second_byte c c1 && continuation c2
                  then encode_three c c1 c2 +:+ encode_chars r2
                  else
                    match r2 with
                    | String c3 r3 =>
                        if byte_in 240 244 c && second_byte c c1 && continuation c2 && continuation c3
                        then String c (String c1 (String c2 (str1 c3))) +:+ encode_chars r3
                        else encode_invalid +:+ encode_chars r
                    | _ => encode_invalid +:+ encode_chars r
                    end
              | _ => encode_invalid +:+ encode_chars r
              end
        | _ => encode_invalid +:+ encode_chars r
        end
  end.

Definition encode_string (s : string) : string :=
  String json_quote (encode_chars s +:+ str1 json_quote).

(** The parts of an array or an object, separated by commas. *)
Fixpoint commas (l : list string) : string :=
  match l with
  | [] => EmptyString
  | [x] => x
  | x :: l' => x +:+ "," +:+ commas l'
  end.

Fixpoint Marshal (v : json) : string :=
  match v with
  | JNull => "null"
  | JBool true => "true"
  | JBool false => "false"
  | JNumber n => number_text n
  | JString s => encode_string s
  | JArray l => "[" +:+ commas (map Marshal l) +:+ "]"
  | JObject l =>
      "{" +:+ commas (map (fun '(k, v) => encode_string k +:+ ":" +:+ Marshal v) l) +:+ "}"
  end.

(** ** What is written is read back *)

(** The UTF-8 strings. *)
Fixpoint utf8_string (s : string) : bool :=
  match s with
  | EmptyString => true
  | String c r =>
      if (byte_code c <? 128)%N then utf8_string r
      else
        match r with
        | String c1 r1 =>
            if byte_in 194 223 c && continuation c1 then utf8_string r1
            else
              match r1 with
              | String c2 r2 =>
                  if byte_in 224 239 c && second_byte c c1 && continuation c2 then utf8_string r2
                  else
                    match r2 with
                    | String c3 r3 =>
                        byte_in 240 244 c && second_byte c c1 && continuation c2 && continuation c3 &&
                        utf8_string r3
                    | _ => false
                    end
              | _ => false
              end
        | _ => false
        end
  end.

(** The values that the program writes: no numbers, UTF-8 strings. *)
Fixpoint writable (v : json) : bool :=
  match v with
  | JNull | JBool _ => true
  | JNumber _ => false
  | JString s => utf8_string s
  | JArray l => forallb writable l
  | JObject l => forallb (fun '(k, v) => utf8_string k && writable v) l
  end.

(** How many arrays and objects are open at once. *)
Fixpoint nesting (v : json) : N :=
  match v with
  | JArray l => 1 + fold_right N.max 0 (map nesting l)
  | JObject l => 1 + fold_right N.max 0 (map (fun '(_, v) => nesting v) l)
  | _ => 0
  end%N.

(** The number of values in a value. *)
Fixpoint json_size (v : json) : nat :=
  match v with
  | JArray l => S (list_sum (map json_size l))
  | JObject l => S (list_sum (map (fun '(_, v) => json_size v) l))
  | _ => 1
  end.

Lemma size_member {A} (f : A -> nat) x l : In x l -> f x <= list_sum (map f l).
Proof. induction l as [|y l IH]; [done|]. intros [->|H%IH]; simpl; lia. Qed.

Lemma prepend_prepend p q r : prepend p (prepend q r) = prepend (p +:+ q) r.
Proof. destruct r as [[s rest]|]; [|done]. simpl. by rewrite str_append_assoc. Qed.

Lemma parse_encode_char c s :
  (byte_code c <? 128)%N = true ->
  parse_string (encode_char c +:+ s) = prepend (str1 c) (parse_string s).
Proof.
  destruct c as [b0 b1 b2 b3 b4 b5 b6 b7].
  destruct b7; [by destruct b0, b1, b2, b3, b4, b5, b6|]. intros _.
  destruct b0, b1, b2, b3, b4, b5, b6; reflexivity.
Qed.

Lemma parse_high c r :
  (byte_code c <? 128)%N = false ->
  parse_string (String c r) =
    match r with
    | String c1 r1 =>
        if byte_in 194 223 c && continuation c1
        then prepend (String c (str1 c1)) (parse_string r1)
        else
          match r1 with
          | String c2 r2 =>
              if byte_in 224 239 c && second_byte c c1 && continuation c2
              then prepend (String c (String c1 (str1 c2))) (parse_string r2)
              else
                match r2 with
                | String c3 r3 =>
                    if byte_in 240 244 c && second_byte c c1 && continuation c2 && continuation c3
                    then prepend (String c (String c1 (String c2 (str1 c3)))) (parse_string r3)
                    else prepend replacement (parse_string r)
                | _ => prepend replacement (parse_string r)
                end
          | _ => prepend replacement (parse_string r)
          end
    | _ => prepend replacement (parse_string r)
    end.
Proof.
  intros Hc. cbn [parse_string]. rewrite Hc. apply N.ltb_ge in Hc.
  rewrite !(proj2 (N.eqb_neq (byte_code c) _)) by lia. by rewrite (proj2 (N.ltb_ge _ _)) by lia.
Qed.

Lemma byte_code_inj c n : byte_code c = n -> c = chr n.
Proof. unfold byte_code, chr. intros <-. by rewrite ascii_N_embedding. Qed.

Lemma parse_encode_three c c1 c2 s :
  (byte_code c <? 128)%N = false ->
  byte_in 194 223 c && continuation c1 = false -> byte_in 224 239 c && second_byte c c1 && continuation c2 = true ->
  parse_string (encode_three c c1 c2 +:+ s) = prepend (String c (String c1 (str1 c2))) (parse_string s).
Proof.
  intros H0 H1 H2. unfold encode_three.
  destruct ((byte_code c =? 226)%N && (byte_code c1 =? 128)%N && _) eqn:E.
  - apply andb_true_iff in E as [[->%N.eqb_eq%byte_code_inj ->%N.eqb_eq%byte_code_inj]%andb_true_iff E].
    apply orb_true_iff in E as [->%N.eqb_eq%byte_code_inj| ->%N.eqb_eq%byte_code_inj]; reflexivity.
  - change (String c (String c1 (str1 c2)) +:+ s) with (String c (String c1 (String c2 s))).
    rewrite parse_high by done. cbv beta iota. by rewrite H1, H2.
Qed.

(** By induction on a bound on the length: a character takes several bytes. *)
Lemma parse_encode_chars_below n s rest :
  String.length s <= n -> utf8_string s = true ->
  parse_string (encode_chars s +:+ String json_quote rest) = Some (s, rest).
Proof.
  revert s. induction n as [|n IH]; intros [|c r] Hn Hs; try done; [simpl in Hn; lia|].
  cbn [encode_chars utf8_string String.length] in *. destruct (byte_code c <? 128)%N eqn:Hc.
  { rewrite str_append_assoc, parse_encode_char, IH by (done || lia). done. }
  destruct r as [|c1 r]; [done|]. cbn [String.length] in Hn.
  destruct (byte_in 194 223 c && continuation c1) eqn:H1.
  { change ((String c (str1 c1) +:+ ?x) +:+ ?y) with (String c (String c1 (x +:+ y))).
    rewrite parse_high by done. cbv beta iota. rewrite H1, IH by (done || lia). done. }
  destruct r as [|c2 r]; [done|]. cbn [String.length] in Hn.
  destruct (byte_in 224 239 c && second_byte c c1 && continuation c2) eqn:H2.
  { rewrite str_append_assoc, parse_encode_three, IH by (done || lia). done. }
  destruct r as [|c3 r]; [done|]. cbn [String.length] in Hn. apply andb_true_iff in Hs as [H3 Hs]. rewrite H3.
  change ((String c (String c1 (String c2 (str1 c3))) +:+ ?x) +:+ ?y) with
    (String c (String c1 (String c2 (String c3 (x +:+ y))))).
  rewrite parse_high by done. cbv beta iota. rewrite H1, H2, H3, IH by (done || lia). done.
Qed.

Lemma parse_encode_chars s rest :
  utf8_string s = true ->
  parse_string (encode_chars s +:+ String json_quote rest) = Some (s, rest).
Proof. by apply (parse_encode_chars_below (String.length s)). Qed.

Lemma parse_name_written k rest :
  utf8_string k = true ->
  parse_name (encode_string k +:+ ":" +:+ rest) = Some (k, rest).
Proof.
  intros Hk. unfold encode_string. rewrite str_app_cons, str_append_assoc.
  change (parse_name (String json_quote ?x)) with
    (match parse_string x with
     | Some (k, r1) =>
         match skip_space r1 with
         | String d r2 => if (byte_code d =? 58)%N then Some (k, r2) else None
         | EmptyString => None
         end
     | None => None
     end).
  change (str1 json_quote +:+ ?x) with (String json_quote x).
  by rewrite parse_encode_chars.
Qed.

Definition encode_member (m : string * json) : string := let '(k, v) := m in encode_string k +:+ ":" +:+ Marshal v.

Lemma length_append a b : String.length (a +:+ b) = String.length a + String.length b.
Proof. induction a as [|c a IH]; [done|]. simpl. by rewrite IH. Qed.

(** A written value starts with a character that starts no other token. *)
Lemma encode_first v :
  writable v = true -> exists c r, Marshal v = String c r /\ json_space c = false /\ (byte_code c =? 93)%N = false.
Proof. destruct v as [|[]| | | |]; simpl; try done; intros _; by eexists _, _. Qed.

Lemma commas_cons x l : commas (x :: l) = match l with [] => x | _ => x +:+ "," +:+ commas l end.
Proof. by destruct l. Qed.

Lemma nesting_le {A} (f : A -> N) x l n :
  (fold_right N.max 0 (map f (x :: l)) <= n)%N -> (f x <= n)%N /\ (fold_right N.max 0 (map f l) <= n)%N.
Proof. simpl. lia. Qed.

(** The three parsers on what the writer writes, with more fuel than
    characters. *)
Definition reads_values (n : nat) : Prop := forall d v rest,
  writable v = true -> (nesting v <= d)%N -> String.length (Marshal v) < n ->
  parse_value n d (Marshal v +:+ rest) = Some (v, rest).
Definition reads_members (n : nat) : Prop := forall d m l rest,
  forallb (fun '(k, v) => utf8_string k && writable v) (m :: l) = true ->
  (fold_right N.max 0 (map (fun '(_, v) => nesting v) (m :: l)) <= d)%N ->
  String.length (commas (map encode_member (m :: l))) < n ->
  parse_members n d (commas (map encode_member (m :: l)) +:+ "}" +:+ rest) = Some (m :: l, rest).
Definition reads_elements (n : nat) : Prop := forall d v l rest,
  forallb writable (v :: l) = true ->
  (fold_right N.max 0 (map nesting (v :: l)) <= d)%N ->
  S (String.length (commas (map Marshal (v :: l)))) < n ->
  parse_elements n d (commas (map Marshal (v :: l)) +:+ "]" +:+ rest) = Some (v :: l, rest).

Lemma length_member k v : String.length (Marshal v) + 3 <= String.length (encode_member (k, v)).
Proof.
  unfold encode_member, encode_string. rewrite !length_append. cbn [String.length].
  rewrite length_append. change (String.length ":") with 1. change (String.length (str1 _)) with 1. lia.
Qed.

Lemma length_commas x l :
  String.length x <= String.length (commas (x :: l)) /\
  (l <> [] -> String.length x + 1 + String.length (commas l) = String.length (commas (x :: l))).
Proof.
  rewrite commas_cons. destruct l as [|y l]; [done|].
  rewrite !length_append. change (String.length ",") with 1. split; lia.
Qed.

Lemma reads_members_step n : reads_values n -> reads_members n -> reads_members (S n).
Proof.
  intros HV HM d [k v] l rest. cbn [forallb].
  intros [[Hk Hv]%andb_true_iff Hl]%andb_true_iff [Hd1 Hd2]%nesting_le Hn.
  rewrite map_cons in Hn. pose proof (length_member k v).
  destruct (length_commas (encode_member (k, v)) (map encode_member l)) as [H1 H2].
  rewrite map_cons, commas_cons. change (encode_member (k, v)) with (encode_string k +:+ ":" +:+ Marshal v).
  destruct l as [|m l]; cbn [map].
  - rewrite !str_append_assoc. cbn [parse_members]. rewrite parse_name_written by done.
    rewrite HV by (done || lia). done.
  - rewrite !str_append_assoc. cbn [parse_members]. rewrite parse_name_written by done.
    rewrite HV by (done || lia). specialize (H2 ltac:(done)).
    change (next_separator 125 ("," +:+ ?x)) with (Some (More x)). cbv iota.
    rewrite (HM _ _ _ _ Hl Hd2); [done|]. cbn [map] in *. lia.
Qed.

Lemma reads_elements_step n : reads_values n -> reads_elements n -> reads_elements (S n).
Proof.
  intros HV HE d v l rest. cbn [forallb].
  intros [Hv Hl]%andb_true_iff [Hd1 Hd2]%nesting_le Hn.
  rewrite map_cons in Hn. destruct (length_commas (Marshal v) (map Marshal l)) as [H1 H2].
  assert (0 < String.length (Marshal v)) as H0
    by (destruct (encode_first v Hv) as (c & r & -> & _); simpl; lia).
  rewrite map_cons, commas_cons. destruct l as [|w l]; cbn [map].
  - cbn [parse_elements]. rewrite HV by (done || lia). done.
  - rewrite !str_append_assoc. cbn [parse_elements]. rewrite HV by (done || lia).
    specialize (H2 ltac:(done)). change (next_separator 93 ("," +:+ ?x)) with (Some (More x)).
    cbv iota. rewrite (HE _ _ _ _ Hl Hd2); [done|]. cbn [map] in *. lia.
Qed.

Lemma skip_space_first c r : json_space c = false -> skip_space (String c r) = String c r.
Proof. simpl. by intros ->. Qed.

Lemma reads_values_step n : reads_members n -> reads_elements n -> reads_values (S n).
Proof.
  intros HM HE d v rest Hv Hd Hn. destruct v as [|[]| |s|l|l]; try done.
  - simpl Marshal. unfold encode_string. rewrite str_app_cons, str_append_assoc.
    change (parse_value (S n) d (String json_quote ?x)) with
      (match parse_string x with Some (v, r1) => Some (JString v, r1) | None => None end).
    change (str1 json_quote +:+ rest) with (String json_quote rest). by rewrite parse_encode_chars.
  - cbn [nesting writable Marshal] in *. rewrite !str_append_assoc, !length_append in *.
    change (String.length "[") with 1 in Hn. change (String.length "]") with 1 in Hn.
    change (parse_value (S n) d ("[" +:+ ?x)) with
      (if (d =? 0)%N then None else
       match skip_space x with
       | String c r1 =>
           if (byte_code c =? 93)%N then Some (JArray [], r1)
           else match parse_elements n (N.pred d) x with
                | Some (l, r2) => Some (JArray l, r2) | None => None end
       | EmptyString => None
       end).
    destruct (N.eqb_spec d 0); [lia|]. destruct l as [|w l]; [done|].
    rewrite HE by (done || lia). cbn [forallb] in Hv. apply andb_true_iff in Hv as [Hw _].
    destruct (encode_first w Hw) as (c & r & Hwc & Hsp & H93).
    rewrite map_cons, commas_cons, Hwc.
    destruct (map Marshal l); cbn [String.append]; rewrite ?str_app_cons, skip_space_first, H93 by done; done.
  - cbn [nesting writable Marshal] in *. rewrite !str_append_assoc, !length_append in *.
    change (String.length "{") with 1 in Hn. change (String.length "}") with 1 in Hn.
    change (map (fun '(k, v) => encode_string k +:+ ":" +:+ Marshal v) l) with (map encode_member l) in *.
    change (parse_value (S n) d ("{" +:+ ?x)) with
      (if (d =? 0)%N then None else
       match skip_space x with
       | String c r1 =>
           if (byte_code c =? 125)%N then Some (JObject [], r1)
           else match parse_members n (N.pred d) x with
                | Some (l, r2) => Some (JObject l, r2) | None => None end
       | EmptyString => None
       end).
    destruct (N.eqb_spec d 0); [lia|]. destruct l as [|[k w] l]; [done|].
    rewrite HM by (done || lia). rewrite map_cons, commas_cons. cbn [encode_member].
    unfold encode_string. destruct (map encode_member l); done.
Qed.

Lemma reads_all n : reads_values n /\ reads_members n /\ reads_elements n.
Proof.
  induction n as [|n (HV & HM & HE)].
  - repeat split; intros until rest; lia.
  - auto using reads_values_step, reads_members_step, reads_elements_step.
Qed.

Lemma writable_fits v : writable v = true -> numbers_fit v = true.
Proof.
  enough (forall n v, json_size v <= n -> writable v = true -> numbers_fit v = true) as H by by eapply H.
  induction n as [|n IH]; intros v' Hn Hv; [by destruct v'; simpl in Hn; lia|].
  destruct v' as [| | | |l|l]; try done; simpl in *; apply forallb_forall.
  - rewrite forallb_forall in Hv. intros x Hx. apply IH; [|by apply Hv].
    pose proof (size_member json_size x l Hx). lia.
  - rewrite forallb_forall in Hv. intros [k x] Hx. specialize (Hv _ Hx). simpl in Hv.
    apply andb_true_iff in Hv as [_ Hv]. apply IH; [|done].
    pose proof (size_member (fun '(_, v) => json_size v) (k, x) l Hx). simpl in *. lia.
Qed.

(** [json.Unmarshal] inverts [json.Marshal]. *)
Lemma parse_Marshal v :
  writable v = true -> (nesting v <= max_depth)%N -> parse_json (Marshal v) = Some v.
Proof.
  intros Hv Hd. unfold parse_json. rewrite <- (str_append_empty_r (Marshal v)) at 2.
  destruct (reads_all (S (String.length (Marshal v)))) as [H _]. by rewrite H by (done || lia).
Qed.

Theorem Unmarshal_Marshal v :
  writable v = true -> (nesting v <= max_depth)%N -> Unmarshal (Marshal v) = Some v.
Proof. intros Hv Hd. unfold Unmarshal. by rewrite parse_Marshal, writable_fits by done. Qed.

(** ** The fuel is enough *)

Lemma prepend_Some p x s r : prepend p x = Some (s, r) -> exists s', x = Some (s', r).
Proof. destruct x as [[s' r']|]; simpl; [|done]. intros [= <- <-]. by eexists. Qed.

Lemma skip_space_length s : String.length (skip_space s) <= String.length s.
Proof. induction s as [|c s IH]; simpl; [done|]. destruct (json_space c); simpl; lia. Qed.

Lemma parse_string_shorter n s v r :
  String.length s <= n -> parse_string s = Some (v, r) -> String.length r < String.length s.
Proof.
  revert s v r. induction n as [|n IH]; intros s v r Hn; [by destruct s; [|simpl in Hn; lia]|].
  assert (forall p s' , String.length s' < String.length s -> prepend p (parse_string s') = Some (v, r) ->
    String.length r < String.length s) as Hstep.
  { intros p s' Hs (v' & H)%prepend_Some. apply IH in H; lia. }
  destruct s as [|c s]; [done|]. cbn [parse_string].
  intros Hp. repeat case_match; subst; try done; try (by injection Hp as <- <-; simpl; lia);
    (eapply Hstep; [|exact Hp]); simpl; lia.
Qed.

Lemma take_digits_shorter s d r : take_digits s = (d, r) ->
  String.length r + String.length d = String.length s.
Proof.
  revert d r. induction s as [|c s IH]; simpl; intros d r; [by intros [= <- <-]|].
  destruct (byte_in 48 57 c); [|by intros [= <- <-]]. destruct (take_digits s) as [d' r'] eqn:E.
  intros [= <- <-]. simpl. specialize (IH _ _ eq_refl). lia.
Qed.
Lemma take_sign_shorter b s g r : take_sign b s = (g, r) -> String.length r <= String.length s.
Proof. destruct s as [|c s]; simpl; [by intros [= _ <-]|]. case_match; intros [= _ <-]; simpl; lia. Qed.

Lemma scan_fraction_shorter s f r : scan_fraction s = (f, r) -> String.length r <= String.length s.
Proof.
  destruct s as [|c s]; simpl; [by intros [= _ <-]|]. case_match; [|by intros [= _ <-]].
  destruct (take_digits s) as [d r'] eqn:E. apply take_digits_shorter in E. intros [= _ <-]. lia.
Qed.
Lemma scan_exponent_shorter s f r : scan_exponent s = (f, r) -> String.length r <= String.length s.
Proof.
  destruct s as [|c s]; simpl; [by intros [= _ <-]|]. case_match; [|by intros [= _ <-]].
  destruct (take_sign false s) as [g r1] eqn:E1. apply take_sign_shorter in E1.
  destruct (take_digits r1) as [d r'] eqn:E. apply take_digits_shorter in E. intros [= _ <-]. lia.
Qed.
Lemma parse_number_shorter s v r : parse_number s = Some (v, r) -> String.length r < String.length s.
Proof.
  unfold parse_number. destruct (take_sign true s) as [g s0] eqn:E0. apply take_sign_shorter in E0.
  destruct (take_digits s0) as [w s1] eqn:E1. apply take_digits_shorter in E1.
  destruct (scan_fraction s1) as [f s2] eqn:E2. apply scan_fraction_shorter in E2.
  destruct (scan_exponent s2) as [x s3] eqn:E3. apply scan_exponent_shorter in E3.
  destruct w as [|c w]; [done|]. simpl in E1. case_match; [|done]. intros [= _ <-]. lia.
Qed.
Lemma parse_literal_shorter w v s x r : parse_literal w v s = Some (x, r) -> String.length r <= String.length s.
Proof.
  unfold parse_literal. destruct (expect w s) as [r'|] eqn:E; [|done]. intros [= _ <-].
  revert s E. induction w as [|c w IH]; simpl; intros s; [by intros [= <-]|].
  destruct s as [|d s]; [done|]. destruct (Ascii.eqb c d); [|done]. intros ?%IH. simpl. lia.
Qed.
Lemma next_separator_shorter n s x : next_separator n s = Some x ->
  match x with More r | Closed r => String.length r < String.length s end.
Proof.
  unfold next_separator. pose proof (skip_space_length s) as Hs. destruct (skip_space s) as [|c r]; [done|].
  simpl in Hs. repeat case_match; intros [= <-]; lia.
Qed.
Lemma parse_name_shorter s k r : parse_name s = Some (k, r) -> S (String.length r) < String.length s.
Proof.
  unfold parse_name. pose proof (skip_space_length s) as Hs. destruct (skip_space s) as [|c r0]; [done|].
  simpl in Hs. destruct (byte_code c =? 34)%N; [|done]. destruct (parse_string r0) as [[k' r1]|] eqn:E; [|done].
  apply (parse_string_shorter (String.length r0)) in E; [|done].
  pose proof (skip_space_length r1) as Hs1. destruct (skip_space r1) as [|d r2]; [done|].
  destruct (byte_code d =? 58)%N; [|done]. intros [= _ <-]. simpl in Hs1. lia.
Qed.

(** A successful parse takes a prefix, and any fuel above its length gives the
    same result. *)
Definition value_fuel (m : nat) : Prop := forall d s v r, parse_value m d s = Some (v, r) ->
  String.length r < String.length s /\
  forall n, String.length s < n + String.length r -> parse_value n d s = Some (v, r).
Definition members_fuel (m : nat) : Prop := forall d s l r, parse_members m d s = Some (l, r) ->
  String.length r < String.length s /\
  forall n, String.length s < n + String.length r -> parse_members n d s = Some (l, r).
Definition elements_fuel (m : nat) : Prop := forall d s l r, parse_elements m d s = Some (l, r) ->
  String.length r < String.length s /\
  forall n, String.length s < n + String.length r -> parse_elements n d s = Some (l, r).

Lemma members_fuel_step m : value_fuel m -> members_fuel m -> members_fuel (S m).
Proof.
  intros HV HM d s l r. cbn [parse_members].
  destruct (parse_name s) as [[k r1]|] eqn:E1; [|done]. apply parse_name_shorter in E1 as H1.
  destruct (parse_value m d r1) as [[v r2]|] eqn:E2; [|done]. apply HV in E2 as [H2 F2].
  destruct (next_separator 125 r2) as [[r3|r3]|] eqn:E3; [| |done]; apply next_separator_shorter in E3 as H3.
  - destruct (parse_members m d r3) as [[l' r4]|] eqn:E4; [|done]. apply HM in E4 as [H4 F4].
    intros [= <- <-]. split; [lia|]. intros [|n] Hn; [lia|]. cbn [parse_members].
    rewrite E1, F2, E3, F4 by lia. done.
  - intros [= <- <-]. split; [lia|]. intros [|n] Hn; [lia|]. cbn [parse_members].
    rewrite E1, F2, E3 by lia. done.
Qed.

Lemma elements_fuel_step m : value_fuel m -> elements_fuel m -> elements_fuel (S m).
Proof.
  intros HV HE d s l r. cbn [parse_elements].
  destruct (parse_value m d s) as [[v r2]|] eqn:E2; [|done]. apply HV in E2 as [H2 F2].
  destruct (next_separator 93 r2) as [[r3|r3]|] eqn:E3; [| |done]; apply next_separator_shorter in E3 as H3.
  - destruct (parse_elements m d r3) as [[l' r4]|] eqn:E4; [|done]. apply HE in E4 as [H4 F4].
    intros [= <- <-]. split; [lia|]. intros [|n] Hn; [lia|]. cbn [parse_elements].
    rewrite F2, E3, F4 by lia. done.
  - intros [= <- <-]. split; [lia|]. intros [|n] Hn; [lia|]. cbn [parse_elements].
    rewrite F2, E3 by lia. done.
Qed.

Lemma value_fuel_step m : members_fuel m -> elements_fuel m -> value_fuel (S m).
Proof.
  intros HM HE d s v r Hp. cbn [parse_value] in Hp. pose proof (skip_space_length s) as Hs.
  assert (forall f : string -> option (json * string), f s = Some (v, r) ->
    String.length r < String.length s -> (forall n, parse_value (S n) d s = f s) ->
    String.length r < String.length s /\
    forall n, String.length s < n + String.length r -> parse_value n d s = Some (v, r)) as Hplain.
  { intros f Hf Hl Hn. split; [done|]. intros [|n] H; [lia|]. by rewrite Hn. }
  cbn [parse_value] in Hplain. destruct (skip_space s) as [|c r0] eqn:E; [done|]. simpl in Hs.
  destruct (byte_code c =? 34)%N eqn:E34.
  { apply (Hplain (fun _ => match parse_string r0 with Some (v, r1) => Some (JString v, r1) | None => None end));
      [done| |done].
    destruct (parse_string r0) as [[v' r1]|] eqn:E1; [|done]. injection Hp as <- <-.
    apply (parse_string_shorter (String.length r0)) in E1; lia. }
  destruct (byte_code c =? 123)%N eqn:E123.
  { destruct (d =? 0)%N eqn:Ed; [done|]. pose proof (skip_space_length r0) as Hs0.
    destruct (skip_space r0) as [|c1 r1] eqn:E0; [done|]. simpl in Hs0. destruct (byte_code c1 =? 125)%N eqn:E125.
    { apply (Hplain (fun _ => Some (JObject [], r1))); [done| |done]. injection Hp as <- <-. lia. }
    destruct (parse_members m (N.pred d) r0) as [[l r2]|] eqn:E2; [|done]. apply HM in E2 as [H2 F2].
    injection Hp as <- <-. split; [lia|]. intros [|n] Hn; [lia|]. cbn [parse_value].
    rewrite E, E34, E123, Ed, E0, E125, F2 by lia. done. }
  destruct (byte_code c =? 91)%N eqn:E91.
  { destruct (d =? 0)%N eqn:Ed; [done|]. pose proof (skip_space_length r0) as Hs0.
    destruct (skip_space r0) as [|c1 r1] eqn:E0; [done|]. simpl in Hs0. destruct (byte_code c1 =? 93)%N eqn:E93.
    { apply (Hplain (fun _ => Some (JArray [], r1))); [done| |done]. injection Hp as <- <-. lia. }
    destruct (parse_elements m (N.pred d) r0) as [[l r2]|] eqn:E2; [|done]. apply HE in E2 as [H2 F2].
    injection Hp as <- <-. split; [lia|]. intros [|n] Hn; [lia|]. cbn [parse_value].
    rewrite E, E34, E123, E91, Ed, E0, E93, F2 by lia. done. }
  refine (Hplain (fun _ => _) Hp _ (fun _ => eq_refl)).
  repeat case_match; first [apply parse_literal_shorter in Hp | apply parse_number_shorter in Hp; simpl in Hp]; lia.
Qed.

(** Every parse that succeeds with some fuel succeeds, with the same result,
    with the fuel [Unmarshal] gives. *)
Theorem parse_enough_fuel m d s v r :
  parse_value m d s = Some (v, r) -> parse_value (S (String.length s)) d s = Some (v, r).
Proof.
  assert (forall m, value_fuel m /\ members_fuel m /\ elements_fuel m) as Hall.
  { intros k. induction k as [|k (HV & HM & HE)]; [done|].
    auto using value_fuel_step, members_fuel_step, elements_fuel_step. }
  intros H. apply (proj1 (Hall m)) in H as [_ H]. apply H. lia.
Qed.
