(* ===== verification/JsonStruct.v ===== *)
(** * Decoding JSON into Go structs

    [json.Unmarshal] into a struct: members are matched to fields by name, first
    exactly and then ignoring case; a member without a field is skipped, null
    leaves a value as it is, and a value of another type is an error that does
    not stop the decoding.  A slice keeps the memory of the elements it held,
    so a repeated member decodes its elements onto the old ones. *)
From S2P Require Export Json.

(** The new value, and whether every type was the expected one. *)
Definition decoder (A : Type) := json -> A -> A * bool.

(** [json.Unmarshal(text, &a)]: after a syntax error nothing is decoded. *)
Definition Unmarshal_into {A} (d : decoder A) (text : string) (a : A) : A * bool :=
  match parse_json text with Some v => d v a | None => (a, false) end.

(** ** Names *)

Definition upper (c : ascii) : ascii := if byte_in 97 122 c then chr (byte_code c - 32) else c.

(** The folded form of a name: ASCII letters in upper case, and the two other
    characters that fold to a letter, the long s and the Kelvin sign. *)
Fixpoint fold_name (s : string) : string :=
  match s with
  | EmptyString => EmptyString
  | String c r =>
      match r with
      | String d r1 =>
          if (byte_code c =? 197)%N && (byte_code d =? 191)%N then String "S" (fold_name r1)
          else
            match r1 with
            | String e r2 =>
                if (byte_code c =? 226)%N && (byte_code d =? 132)%N && (byte_code e =? 170)%N
                then String "K" (fold_name r2) else String (upper c) (fold_name r)
            | EmptyString => String (upper c) (fold_name r)
            end
      | EmptyString => String (upper c) EmptyString
      end
  end.

Abbreviation fields A := (list (string * decoder A)).

Definition field_named {A} (same : string -> string -> bool) (fs : fields A) (key : string)
  : option (decoder A) :=
  snd <$> head (filter (fun f => same f.1 key = true) fs).

Definition find_field {A} (fs : fields A) (key : string) : option (decoder A) :=
  match field_named (fun n k => n =s? k) fs key with
  | Some d => Some d
  | None => field_named (fun n k => fold_name n =s? fold_name k) fs key
  end.

(** ** Values *)

Definition decode_member {A} (fs : fields A) (st : A * bool) (m : string * json) : A * bool :=
  match find_field fs m.1 with
  | Some d => let '(a, ok) := d m.2 st.1 in (a, st.2 && ok)
  | None => st
  end.

Definition decode_struct {A} (fs : fields A) : decoder A := fun v a =>
  match v with
  | JObject l => fold_left (decode_member fs) l (a, true)
  | JNull => (a, true)
  | _ => (a, false)
  end.

(** A field of type string, given by how it is set. *)
Definition string_field {A} (name : string) (set : string -> A -> A) : string * decoder A :=
  (name, fun v a => match v with JString s => (set s a, true) | JNull => (a, true) | _ => (a, false) end).

Definition bool_field {A} (name : string) (set : bool -> A -> A) : string * decoder A :=
  (name, fun v a => match v with JBool b => (set b a, true) | JNull => (a, true) | _ => (a, false) end).

(** A slice of structs: nil, or its elements and what its memory holds after
    them. *)
Record slice (A : Type) := mkSlice { items : list A; spare : list A }.
Arguments mkSlice {A}.
Arguments items {A}.
Arguments spare {A}.

Definition slice_items {A} (s : option (slice A)) : list A := match s with Some s => items s | None => [] end.

(** The elements of an array, decoded onto the memory of the slice. *)
Fixpoint decode_elements {A} (d : decoder A) (zero : A) (l : list json) (memory : list A)
  : list A * list A * bool :=
  match l with
  | [] => ([], memory, true)
  | v :: l' =>
      let '(a, ok) := d v (match memory with x :: _ => x | [] => zero end) in
      let '(r, rest, ok') := decode_elements d zero l' (tail memory) in
      (a :: r, rest, ok && ok')
  end.

Definition decode_slice {A} (d : decoder A) (zero : A) : decoder (option (slice A)) := fun v s =>
  match v with
  | JNull => (None, true)
  | JArray [] => (Some (mkSlice [] []), true)
  | JArray l =>
      let memory := match s with Some s => items s ++ spare s | None => [] end in
      let '(r, rest, ok) := decode_elements d zero l memory in (Some (mkSlice r rest), ok)
  | _ => (s, false)
  end.

(** ** Interfaces *)

(** Insertion into a map whose keys are kept sorted. *)
Fixpoint put_member (k : string) (v : json) (l : list (string * json)) : list (string * json) :=
  match l with
  | [] => [(k, v)]
  | (k', v') :: l' =>
      match String.compare k k' with
      | Lt => (k, v) :: l
      | Eq => (k, v) :: l'
      | Gt => (k', v') :: put_member k v l'
      end
  end.

(** A value as an [interface{}] holds it and [json.Marshal] writes it: the last
    of the members with one name, sorted by name, and numbers as float64, of
    which [float] gives the shortest literal. *)
Fixpoint any_value (float : number -> number) (v : json) : json :=
  match v with
  | JNumber n => JNumber (float n)
  | JArray l => JArray (map (any_value float) l)
  | JObject l =>
      JObject (fold_left (fun m '(k, v) => put_member k v m) (map (fun '(k, v) => (k, any_value float v)) l) [])
  | _ => v
  end.

(** A slice of interfaces: every element is replaced. *)
Definition decode_any_slice (float : number -> number) : decoder (option (list json)) := fun v s =>
  match v with
  | JNull => (None, true)
  | JArray l => (Some (map (any_value float) l), numbers_fit (JArray l))
  | _ => (s, false)
  end.

(** What [json.Marshal] writes for a slice of interfaces. *)
Definition any_slice_json (s : option (list json)) : json :=
  match s with Some l => JArray l | None => JNull end.

Definition with_field {A B} (name : string) (get : A -> B) (set : B -> A -> A) (d : decoder B)
  : string * decoder A :=
  (name, fun v a => let '(b, ok) := d v (get a) in (set b a, ok)).

(** Elements that decode, from the zero value, to the values [l]. *)
Lemma decode_elements_fresh {A} (d : decoder A) (zero : A) (js : list json) (l : list A) :
  Forall2 (fun v a => d v zero = (a, true)) js l -> decode_elements d zero js [] = (l, [], true).
Proof. induction 1 as [|v a js l H _ IH]; [done|]. simpl. by rewrite H, IH. Qed.

(** The last member, when its field decodes. *)
Lemma decode_last {A} (fs : fields A) l name v a a' (d : decoder A) b :
  fold_left (decode_member fs) l (a, true) = (a', true) -> find_field fs name = Some d -> d v a' = (b, true) ->
  decode_struct fs (JObject (l ++ [(name, v)])) a = (b, true).
Proof. intros Hl Hf Hd. simpl. rewrite fold_left_app, Hl. simpl. unfold decode_member. simpl. by rewrite Hf, Hd. Qed.

Lemma with_field_decodes {A B} name (get : A -> B) set (d : decoder B) v a b ok :
  d v (get a) = (b, ok) -> (with_field name get set d).2 v a = (set b a, ok).
Proof. simpl. by intros ->. Qed.
