(* ===== verification/NetUrl.v ===== *)
(** * URLs as [net/url] parses, resolves and writes them

    [Parse], [ResolveReference] of a path, [String], the escaping of each part,
    and the query strings of [Values].  Whether the address between brackets is
    one of IPv6 ([netip.ParseAddr]) is a parameter. *)
From S2P Require Export Json.
From stdpp Require Import sorting.

(** ** Escaping *)

Inductive encoding :=
| encodePath | encodeUserPassword | encodeHost | encodeZone | encodeQueryComponent | encodeFragment.

Definition one_of (chars : string) (c : ascii) : bool := str_in c chars.
Definition is_digit : ascii -> bool := byte_in 48 57.
Definition is_letter (c : ascii) : bool := byte_in 97 122 c || byte_in 65 90 c.
Definition alphanumeric (c : ascii) : bool := is_letter c || is_digit c.
Definition percent : ascii := "%".

Definition shouldEscape (mode : encoding) (c : ascii) : bool :=
  if alphanumeric c then false
  else if (match mode with encodeHost | encodeZone => one_of "!$&'()*+,;=:[]<>" c || (byte_code c =? 34)%N
           | _ => false end) then false
  else if one_of "-_.~" c then false
  else if one_of "$&+,/:;=?@" c then
    match mode with
    | encodePath => one_of "?" c
    | encodeUserPassword => one_of "@/?:" c
    | encodeQueryComponent => true
    | encodeFragment => false
    | _ => true
    end
  else match mode with encodeFragment => negb (one_of "!()*" c) | _ => true end.

Definition upper_hex (n : N) : ascii := if (n <? 10)%N then chr (48 + n) else chr (55 + n).
Definition escape_byte (c : ascii) : string :=
  String percent (String (upper_hex (byte_code c / 16)) (str1 (upper_hex (byte_code c mod 16)))).

Fixpoint escape (mode : encoding) (s : string) : string :=
  match s with
  | EmptyString => EmptyString
  | String c s' =>
      (if shouldEscape mode c then
         match mode with
         | encodeQueryComponent => if Ascii.eqb c " " then "+" else escape_byte c
         | _ => escape_byte c
         end
       else str1 c) +:+ escape mode s'
  end.

(** The byte of an escape sequence of two digits, when the part of the URL
    allows it: a host only escapes bytes that are not ASCII, and the percent
    sign; a zone also what may not stand in a host, and the space. *)
Definition unescape_byte (mode : encoding) (a b : ascii) : option ascii :=
  match hex_digit a, hex_digit b with
  | Some x, Some y =>
      let v := (x * 16 + y)%N in
      let is_percent := Ascii.eqb a "2" && Ascii.eqb b "5" in
      match mode with
      | encodeHost => if (x <? 8)%N && negb is_percent then None else Some (chr v)
      | encodeZone =>
          if negb is_percent && negb (v =? 32)%N && shouldEscape encodeHost (chr v) then None else Some (chr v)
      | _ => Some (chr v)
      end
  | _, _ => None
  end.

(** A byte that stands for itself. *)
Definition plain_byte (mode : encoding) (c : ascii) : option ascii :=
  match mode with
  | encodeHost | encodeZone => if (byte_code c <? 128)%N && shouldEscape mode c then None else Some c
  | encodeQueryComponent => if Ascii.eqb c "+" then Some (" " : ascii) else Some c
  | _ => Some c
  end.

Definition put_byte (c : option ascii) (s : option string) : option string :=
  match c, s with Some c, Some s => Some (String c s) | _, _ => None end.

Fixpoint unescape (mode : encoding) (s : string) : option string :=
  match s with
  | EmptyString => Some EmptyString
  | String c s' =>
      if Ascii.eqb c percent then
        match s' with
        | String a (String b s'') => put_byte (unescape_byte mode a b) (unescape mode s'')
        | _ => None
        end
      else put_byte (plain_byte mode c) (unescape mode s')
  end.

(** ** Strings *)

(** [strings.Cut(s, c)]: what is before the first [c], and after it if there
    is one. *)
Fixpoint cut (c : ascii) (s : string) : string * option string :=
  match s with
  | EmptyString => (EmptyString, None)
  | String d s' =>
      if Ascii.eqb d c then (EmptyString, Some s')
      else let '(a, b) := cut c s' in (String d a, b)
  end.

(** What is before the last [c] and after it, if there is one. *)
Fixpoint cut_last (c : ascii) (s : string) : option (string * string) :=
  match s with
  | EmptyString => None
  | String d s' =>
      match cut_last c s' with
      | Some (a, b) => Some (String d a, b)
      | None => if Ascii.eqb d c then Some (EmptyString, s') else None
      end
  end.

(** [strings.HasPrefix(s, p)]. *)
Fixpoint has_prefix (p s : string) : bool :=
  match p, s with
  | EmptyString, _ => true
  | String c p', String d s' => Ascii.eqb c d && has_prefix p' s'
  | _, EmptyString => false
  end.

(** Up to the first [%25], and from there. *)
Fixpoint cut_zone (s : string) : string * string :=
  match s with
  | EmptyString => (EmptyString, EmptyString)
  | String c s' => if has_prefix "%25" s then (EmptyString, s) else let '(a, b) := cut_zone s' in (String c a, b)
  end.

Fixpoint all_chars (p : ascii -> bool) (s : string) : bool :=
  match s with EmptyString => true | String c s' => p c && all_chars p s' end.
Definition starts_with (c : ascii) (s : string) : bool :=
  match s with String d _ => Ascii.eqb d c | EmptyString => false end.
Fixpoint lower_string (s : string) : string :=
  match s with
  | EmptyString => EmptyString
  | String c s' => String (if byte_in 65 90 c then chr (byte_code c + 32) else c) (lower_string s')
  end.

(** What follows the first two characters. *)
Definition drop_two (s : string) : string := match s with String _ (String _ r) => r | _ => EmptyString end.

(** ** Parsing *)

Record Userinfo := mkUser { u_name : string; u_password : option string }.

Record URL := mkURL {
  u_Scheme : string; u_Opaque : string; u_User : option Userinfo; u_Host : string;
  u_Path : string; u_RawPath : string; u_OmitHost : bool; u_ForceQuery : bool; u_RawQuery : string
}.

(** The scheme and the rest; [None] for a missing scheme. *)
Fixpoint scheme_from (first : bool) (s : string) : option (string * string) :=
  match s with
  | EmptyString => Some (EmptyString, EmptyString)
  | String c s' =>
      if is_letter c || (negb first && (is_digit c || one_of "+-." c)) then
        match scheme_from false s' with
        | Some (EmptyString, rest) => Some (EmptyString, String c rest)
        | Some (scheme, rest) => Some (String c scheme, rest)
        | None => None
        end
      else if Ascii.eqb c ":" then if first then None else Some (":", s')
      else Some (EmptyString, s)
  end.
Definition getScheme (s : string) : option (string * string) :=
  match scheme_from true s with
  | Some (scheme, rest) => Some ((cut ":" scheme).1, rest)
  | None => None
  end.

Definition validOptionalPort (port : string) : bool :=
  match port with EmptyString => true | String c digits => Ascii.eqb c ":" && all_chars is_digit digits end.

Definition validUserinfo : string -> bool := all_chars (fun c => alphanumeric c || one_of "-._:~!$&'()*+,;=%@" c).

(** [setPath]: the path, and the raw path where it is not the default
    escaping. *)
Definition path_of (raw : string) : option (string * string) :=
  match unescape encodePath raw with
  | Some path => Some (path, if raw =s? escape encodePath path then "" else raw)
  | None => None
  end.

Definition no_control (s : string) : bool :=
  all_chars (fun c => negb ((byte_code c <? 32) || (byte_code c =? 127))%N) s.

Definition validEncoded : string -> bool :=
  all_chars (fun c => one_of "!$&'()*+,;=:@[]%" c || negb (shouldEscape encodePath c)).

Definition EscapedPath (u : URL) : string :=
  if negb (str_empty (u_RawPath u)) && validEncoded (u_RawPath u) &&
     bool_decide (unescape encodePath (u_RawPath u) = Some (u_Path u))
  then u_RawPath u
  else if u_Path u =s? "*" then "*"
  else escape encodePath (u_Path u).

Section Hosts.
Context (is_ipv6 : string -> bool).

Definition parseHost (host : string) : option string :=
  match cut_last "[" host with
  | Some _ =>
      match cut_last "]" host with
      | None => None
      | Some (before, colonPort) =>
          if negb (validOptionalPort colonPort) then None
          else
            match unescape encodeHost colonPort, cut_last "[" before with
            | Some port, Some (_, hostname) =>
                let '(address, zone) := cut_zone hostname in
                match unescape encodeHost address, unescape encodeZone zone with
                | Some address, Some zone =>
                    let hostname := address +:+ zone in
                    if is_ipv6 hostname then Some ("[" +:+ hostname +:+ "]" +:+ port) else None
                | _, _ => None
                end
            | _, _ => None
            end
      end
  | None =>
      match cut_last ":" host with
      | Some (_, port) => if validOptionalPort (":" +:+ port) then unescape encodeHost host else None
      | None => unescape encodeHost host
      end
  end.

Definition parseAuthority (authority : string) : option (option Userinfo * string) :=
  match cut_last "@" authority with
  | None => (fun h => (None, h)) <$> parseHost authority
  | Some (userinfo, host) =>
      match parseHost host with
      | None => None
      | Some h =>
          if negb (validUserinfo userinfo) then None
          else
            let '(username, password) := cut ":" userinfo in
            match unescape encodeUserPassword username, password with
            | Some n, None => Some (Some (mkUser n None), h)
            | Some n, Some p => (fun p => (Some (mkUser n (Some p)), h)) <$> unescape encodeUserPassword p
            | None, _ => None
            end
      end
  end.

(** The query of a URL without fragment: whether it is forced to be there, and
    the query. *)
Definition cut_query (s : string) : string * bool * string :=
  match cut "?" s with
  | (rest, Some EmptyString) => (rest, true, "")
  | (rest, Some query) => (rest, false, query)
  | (rest, None) => (rest, false, "")
  end.

(** The unexported [parse], of a URL without fragment. *)
Definition parse_url (rawURL : string) : option URL :=
  if negb (no_control rawURL) then None
  else if rawURL =s? "*" then Some (mkURL "" "" None "" "*" "" false false "")
  else
    match getScheme rawURL with
    | None => None
    | Some (scheme, rest) =>
        let scheme := lower_string scheme in
        let '(rest, force, query) := cut_query rest in
        if negb (starts_with "/" rest) && negb (str_empty scheme) then
          Some (mkURL scheme rest None "" "" "" false force query)
        else if negb (starts_with "/" rest) && str_in ":" (cut "/" rest).1 then None
        else if (negb (str_empty scheme) || negb (has_prefix "///" rest)) && has_prefix "//" rest then
          let '(authority, path) := cut "/" (drop_two rest) in
          match parseAuthority authority,
                path_of (match path with Some p => "/" +:+ p | None => "" end) with
          | Some (user, host), Some (p, raw) => Some (mkURL scheme "" user host p raw false force query)
          | _, _ => None
          end
        else
          match path_of rest with
          | Some (p, raw) =>
              Some (mkURL scheme "" None "" p raw (negb (str_empty scheme) && starts_with "/" rest) force query)
          | None => None
          end
    end.

(** [url.Parse]; the fragment only has to be well-formed. *)
Definition Parse (rawURL : string) : option URL :=
  let '(u, fragment) := cut "#" rawURL in
  match parse_url u, unescape encodeFragment (default "" fragment) with
  | Some url, Some _ => Some url
  | _, _ => None
  end.
End Hosts.

(** ** Resolution *)

(** One segment of a path: the path so far, without its leading slash, and
    whether no segment was kept yet. *)
Definition resolve_step (st : string * bool) (elem : string) : string * bool :=
  let '(dst, first) := st in
  if elem =s? "." then (dst, false)
  else if elem =s? ".." then
    match cut_last "/" dst with
    | Some (before, _) => (before, first)
    | None => (EmptyString, true)
    end
  else (dst +:+ (if first then "" else "/") +:+ elem, false).

Definition resolvePath (base ref : string) : string :=
  let full := if str_empty ref then base
              else if starts_with "/" ref then ref
              else match cut_last "/" base with Some (dir, _) => dir +:+ "/" +:+ ref | None => ref end in
  if str_empty full then ""
  else
    let elems := split_on "/" full in
    let '(dst, _) := fold_left resolve_step elems (EmptyString, true) in
    let lastElem := default EmptyString (last elems) in
    let dst := if (lastElem =s? ".") || (lastElem =s? "..") then dst +:+ "/" else dst in
    if starts_with "/" dst then dst else "/" +:+ dst.

(** [u.ResolveReference(&url.URL{Path: path})], for a path that is not empty:
    scheme, user and host are those of [u], query and fragment are gone. *)
Definition resolve_path_reference (u : URL) (path : string) : URL :=
  let '(p, raw) := default (path, "")
      (path_of (resolvePath (EscapedPath u) (EscapedPath (mkURL "" "" None "" path "" false false "")))) in
  mkURL (u_Scheme u) "" (u_User u) (u_Host u) p raw false false "".

(** ** Writing *)

Definition user_string (u : Userinfo) : string :=
  escape encodeUserPassword (u_name u) +:+
  match u_password u with Some p => ":" +:+ escape encodeUserPassword p | None => "" end.

Definition URL_String (u : URL) : string :=
  let scheme := if str_empty (u_Scheme u) then "" else u_Scheme u +:+ ":" in
  let body :=
    if negb (str_empty (u_Opaque u)) then scheme +:+ u_Opaque u
    else
      let has_user := match u_User u with Some _ => true | None => false end in
      let authority :=
        if (negb (str_empty (u_Scheme u)) || negb (str_empty (u_Host u)) || has_user) &&
           negb (u_OmitHost u && str_empty (u_Host u) && negb has_user)
        then
          (if negb (str_empty (u_Host u)) || negb (str_empty (u_Path u)) || has_user then "//" else "") +:+
          (match u_User u with Some i => user_string i +:+ "@" | None => "" end) +:+
          (if str_empty (u_Host u) then "" else escape encodeHost (u_Host u))
        else "" in
      let path := EscapedPath u in
      let slash := if negb (str_empty path) && negb (starts_with "/" path) && negb (str_empty (u_Host u))
                   then "/" else "" in
      let before := scheme +:+ authority +:+ slash in
      let dot := if str_empty before && str_in ":" (cut "/" path).1 then "./" else "" in
      before +:+ dot +:+ path in
  body +:+ (if u_ForceQuery u || negb (str_empty (u_RawQuery u)) then "?" +:+ u_RawQuery u else "").

(** ** Queries *)

(** [url.Values], as [Add] builds it: for every key its values in order. *)
Abbreviation Values := (gmap string (list string)).
Definition Values_Add (key value : string) (v : Values) : Values := <[key := default [] (v !! key) ++ [value]]> v.

Definition QueryEscape : string -> string := escape encodeQueryComponent.
Definition QueryUnescape : string -> option string := unescape encodeQueryComponent.

(** [Values.Encode]: the keys in order. *)
Definition string_le (a b : string) : Prop := String.leb a b = true.
#[local] Instance string_le_dec : RelDecision string_le.
Proof. intros a b. unfold string_le. apply _. Defined.
Definition sorted_keys (v : Values) : list string := merge_sort string_le (map fst (map_to_list v)).
Definition Values_Encode (v : Values) : string :=
  GoStd.join "&" (concat (map (fun k => map (fun x => QueryEscape k +:+ "=" +:+ QueryEscape x) (default [] (v !! k)))
    (sorted_keys v))).

(** [URL.Query]: a pair with a semicolon or with a bad escape is dropped. *)
Definition parse_pair (pair : string) : option (string * string) :=
  if str_empty pair || str_in ";" pair then None
  else
    let '(k, v) := cut "=" pair in
    match QueryUnescape k, QueryUnescape (default "" v) with
    | Some k, Some v => Some (k, v)
    | _, _ => None
    end.
Definition Query (u : URL) : Values :=
  fold_left (fun m pair => match parse_pair pair with Some (k, v) => Values_Add k v m | None => m end)
    (split_on "&" (u_RawQuery u)) ∅.

(** [Values.Get]. *)
Definition Values_Get (v : Values) (key : string) : string := default "" (head (default [] (v !! key))).
