(* ===== verification/NetUrlLaws.v ===== *)
(** * Laws of [net/url] on plain URLs

    Outside of a host what is escaped is read back.  A URL whose scheme, host,
    port and path segments are made of characters that stand for themselves
    parses into these parts, resolves a relative path of such segments below
    its own path, and is written as it was. *)
From S2P Require Export NetUrl.
From stdpp Require Import sorting.

(** ** Escaping is inverted *)

Lemma all_chars_app p a b : all_chars p (a +:+ b) = all_chars p a && all_chars p b.
Proof. induction a as [|c a IH]; [done|]. rewrite str_app_cons. simpl. by rewrite IH, andb_assoc. Qed.

Lemma all_chars_weaken (p q : ascii -> bool) s :
  (forall c, p c = true -> q c = true) -> all_chars p s = true -> all_chars q s = true.
Proof.
  intros Hpq. induction s as [|c s IH]; [done|]. simpl. intros [Hc Hs]%andb_true_iff.
  by rewrite Hpq, IH.
Qed.

Lemma all_chars_not_in p c s : p c = false -> all_chars p s = true -> str_in c s = false.
Proof.
  intros Hc. induction s as [|d s IH]; [done|]. simpl. intros [Hd Hs]%andb_true_iff.
  rewrite IH by done. destruct (Ascii.eqb_spec c d); [congruence|done].
Qed.

Lemma escape_app mode a b : escape mode (a +:+ b) = escape mode a +:+ escape mode b.
Proof. induction a as [|c a IH]; [done|]. rewrite str_app_cons. simpl. by rewrite IH, str_append_assoc. Qed.

Lemma unescape_cons mode c s :
  Ascii.eqb c percent = false -> unescape mode (String c s) = put_byte (plain_byte mode c) (unescape mode s).
Proof. intros Hc. simpl. by rewrite Hc. Qed.

Lemma unescape_escaped_byte mode c s :
  (match mode with encodeHost | encodeZone => false | _ => true end) = true ->
  unescape mode (escape_byte c +:+ s) = put_byte (Some c) (unescape mode s).
Proof.
  intros Hm. destruct c as [[] [] [] [] [] [] [] []]; destruct mode; try discriminate Hm; reflexivity.
Qed.

(** Outside of a host, what is escaped is read back. *)
Lemma unescape_escape mode s :
  (match mode with encodeHost | encodeZone => false | _ => true end) = true ->
  unescape mode (escape mode s) = Some s.
Proof.
  intros Hm. induction s as [|c s IH]; [done|]. cbn [escape].
  destruct (shouldEscape mode c) eqn:Hc.
  - destruct mode; try discriminate Hm; try (by rewrite unescape_escaped_byte, IH by done).
    destruct (Ascii.eqb_spec c " ") as [->|_]; [|by rewrite unescape_escaped_byte, IH by done].
    rewrite str_app_cons, str_app_nil, unescape_cons, IH by done. done.
  - unfold str1. rewrite str_app_cons, str_app_nil, unescape_cons, IH.
    + destruct mode; try discriminate Hm; try done. simpl.
      destruct (Ascii.eqb_spec c "+") as [->|_]; [discriminate Hc|done].
    + destruct (Ascii.eqb_spec c percent) as [->|_]; [|done]. by destruct mode.
Qed.

Lemma QueryUnescape_QueryEscape s : QueryUnescape (QueryEscape s) = Some s.
Proof. by apply unescape_escape. Qed.

(** ** Plain URLs *)

(** The characters that stand for themselves everywhere. *)
Definition plain_char (c : ascii) : bool := alphanumeric c || one_of "-_.~" c.
Definition plain (s : string) : bool := all_chars plain_char s.

Lemma plain_not_escaped mode c : plain_char c = true -> shouldEscape mode c = false.
Proof.
  unfold plain_char, shouldEscape. destruct (alphanumeric c); [done|]. simpl. intros ->.
  by destruct (match mode with encodeHost | encodeZone => _ | _ => false end).
Qed.

(** [shouldEscape] is false on all of a string. *)
Definition unescaped (mode : encoding) (s : string) : Prop :=
  all_chars (fun c => negb (shouldEscape mode c) && negb (Ascii.eqb c percent || Ascii.eqb c "+")) s = true.

Lemma unescaped_app mode a b : unescaped mode a -> unescaped mode b -> unescaped mode (a +:+ b).
Proof. unfold unescaped. rewrite all_chars_app. by intros -> ->. Qed.

Lemma plain_unescaped mode s : plain s = true -> unescaped mode s.
Proof.
  apply all_chars_weaken. intros c Hc. rewrite plain_not_escaped by done. simpl.
  by destruct c as [[] [] [] [] [] [] [] []].
Qed.

Lemma escape_unescaped mode s : unescaped mode s -> escape mode s = s.
Proof.
  unfold unescaped. induction s as [|c s IH]; [done|]. simpl. intros [[Hc%negb_true_iff _]%andb_true_iff Hs]%andb_true_iff.
  by rewrite Hc, IH.
Qed.

Lemma unescape_unescaped mode s : unescaped mode s -> unescape mode s = Some s.
Proof.
  unfold unescaped. induction s as [|c s IH]; [done|]. cbn [all_chars].
  intros [[Hc%negb_true_iff [Hp Hplus]%negb_true_iff%orb_false_iff]%andb_true_iff Hs]%andb_true_iff.
  rewrite unescape_cons, IH by done. unfold plain_byte.
  destruct mode; rewrite ?Hc, ?Hplus, ?andb_false_r; done.
Qed.

(** ** Cutting *)

Lemma cut_none c s : str_in c s = false -> cut c s = (s, None).
Proof.
  induction s as [|d s IH]; [done|]. simpl. rewrite Ascii.eqb_sym. intros [Hc Hs]%orb_false_iff.
  by rewrite Hc, IH.
Qed.

Lemma cut_app c a b : str_in c a = false -> cut c (a +:+ String c b) = (a, Some b).
Proof.
  induction a as [|d a IH]; [by simpl; rewrite Ascii.eqb_refl|]. rewrite str_app_cons. simpl.
  rewrite Ascii.eqb_sym. intros [Hc Ha]%orb_false_iff. by rewrite Hc, IH.
Qed.

Lemma cut_last_none c s : str_in c s = false -> cut_last c s = None.
Proof.
  induction s as [|d s IH]; [done|]. simpl. rewrite Ascii.eqb_sym. intros [Hc Hs]%orb_false_iff.
  by rewrite IH, Hc.
Qed.

Lemma cut_last_app c a b : str_in c b = false -> cut_last c (a +:+ String c b) = Some (a, b).
Proof.
  intros Hb. induction a as [|d a IH]; simpl; [by rewrite cut_last_none, Ascii.eqb_refl|].
  rewrite ?str_app_cons. by rewrite IH.
Qed.

Lemma str_in_app c a b : str_in c (a +:+ b) = str_in c a || str_in c b.
Proof. induction a as [|d a IH]; [done|]. rewrite str_app_cons. simpl. by rewrite IH, orb_assoc. Qed.

(** A scheme in lower case, a host and a port that stand for themselves. *)
Record plain_site := mkSite { site_scheme : string; site_host : string; site_port : option string }.

Definition site_authority (x : plain_site) : string :=
  site_host x +:+ match site_port x with Some p => ":" +:+ p | None => "" end.
Definition site_url (x : plain_site) : string := site_scheme x +:+ "://" +:+ site_authority x.

Definition site_ok (x : plain_site) : bool :=
  negb (str_empty (site_scheme x)) && all_chars (byte_in 97 122) (site_scheme x) &&
  negb (str_empty (site_host x)) && plain (site_host x) &&
  match site_port x with Some p => all_chars is_digit p | None => true end.

Definition path_char (c : ascii) : bool := plain_char c || Ascii.eqb c "/".
Definition query_char (c : ascii) : bool := plain_char c || one_of "%+=&" c.

Lemma char_cases (p q : ascii -> bool) :
  forallb (fun n => implb (p (chr (N.of_nat n))) (q (chr (N.of_nat n)))) (seq 0 256) = true ->
  forall c, p c = true -> q c = true.
Proof.
  rewrite forallb_forall. intros H c Hp. specialize (H (N.to_nat (byte_code c))).
  rewrite N2Nat.id in H. unfold chr, byte_code in H. rewrite ascii_N_embedding, Hp in H. apply H.
  apply in_seq. pose proof (N_ascii_bounded c). lia.
Qed.

Ltac chars := eapply all_chars_weaken; [|eassumption]; apply char_cases; vm_compute; reflexivity.
Ltac not_in := eapply all_chars_not_in; [|eassumption]; vm_compute; reflexivity.

Section PlainUrls.
Context (is_ipv6 : string -> bool) (x : plain_site).
Hypothesis Hx : site_ok x = true.

Let scheme := site_scheme x.
Let authority := site_authority x.

Lemma site_parts :
  scheme <> "" /\ all_chars (byte_in 97 122) scheme = true /\ site_host x <> "" /\ plain (site_host x) = true /\
  match site_port x with Some p => all_chars is_digit p = true | None => True end.
Proof.
  unfold site_ok in Hx. bools. split_and!; try done. by destruct (site_port x).
Qed.

Lemma scheme_plain first rest : scheme <> "" -> all_chars (byte_in 97 122) scheme = true ->
  scheme_from first (scheme +:+ ":" +:+ rest) = Some (scheme +:+ ":", rest).
Proof.
  generalize scheme. intros s Hs. revert first. induction s as [|c s IH]; [done|]. clear Hs. intros first.
  simpl. intros [Hc Hs]%andb_true_iff. unfold is_letter. rewrite ?str_app_cons. simpl. rewrite Hc. simpl.
  destruct s as [|d s].
  - done.
  - rewrite IH by done. done.
Qed.

Lemma authority_chars : all_chars (fun c => plain_char c || Ascii.eqb c ":") authority = true.
Proof.
  destruct site_parts as (_ & _ & _ & Hh & Hp). unfold authority, site_authority. rewrite all_chars_app.
  apply andb_true_iff. split; [chars|]. destruct (site_port x) as [p|]; [|done].
  change (":" +:+ p) with (String ":" p). simpl. chars.
Qed.

Lemma parseHost_plain : parseHost is_ipv6 authority = Some authority.
Proof.
  pose proof authority_chars as Ha. destruct site_parts as (_ & _ & _ & Hh & Hp). unfold parseHost.
  rewrite cut_last_none by not_in.
  assert (unescape encodeHost authority = Some authority) as Hu by (apply unescape_unescaped; chars).
  unfold authority, site_authority in *. destruct (site_port x) as [p|].
  - change (":" +:+ p) with (String ":" p) in *. rewrite cut_last_app by not_in.
    rewrite Hu. unfold validOptionalPort. change (":" +:+ p) with (String ":" p). cbv iota. by rewrite Hp.
  - rewrite str_append_empty_r in *. by rewrite cut_last_none by not_in.
Qed.

Lemma parseAuthority_plain : parseAuthority is_ipv6 authority = Some (None, authority).
Proof.
  pose proof authority_chars. unfold parseAuthority. rewrite cut_last_none by not_in. by rewrite parseHost_plain.
Qed.

Lemma path_plain p : all_chars path_char p = true -> path_of p = Some (p, "").
Proof.
  intros Hp. unfold path_of. rewrite unescape_unescaped by (unfold unescaped; chars).
  rewrite escape_unescaped by (unfold unescaped; chars). by rewrite bool_decide_true.
Qed.

Lemma EscapedPath_plain s o u h p om f q :
  all_chars path_char p = true -> EscapedPath (mkURL s o u h p "" om f q) = p.
Proof.
  intros Hp. unfold EscapedPath. simpl. rewrite escape_unescaped by (unfold unescaped; chars).
  by destruct (p =s? "*") eqn:E; [bools; subst|].
Qed.

(** What follows a URL without query, or with one that is not empty. *)
Definition query_suffix (q : string) : string := if str_empty q then "" else "?" +:+ q.

Lemma Parse_plain p q :
  all_chars path_char p = true -> all_chars query_char q = true ->
  Parse is_ipv6 (site_url x +:+ "/" +:+ p +:+ query_suffix q) =
    Some (mkURL scheme "" None authority ("/" +:+ p) "" false false q).
Proof.
  intros Hp Hq. destruct site_parts as (Hs1 & Hs2 & _ & _ & _). pose proof authority_chars as Ha.
  assert (all_chars (fun c => query_char c || one_of ":/?" c) (site_url x +:+ "/" +:+ p +:+ query_suffix q) = true) as Hall.
  { unfold site_url. rewrite !all_chars_app. repeat (apply andb_true_iff; split); try done; try chars.
    unfold query_suffix. destruct (str_empty q); [done|]. change ("?" +:+ q) with (String "?" q). simpl. chars. }
  unfold Parse. rewrite cut_none by not_in. unfold parse_url.
  assert (no_control (site_url x +:+ "/" +:+ p +:+ query_suffix q) = true) as -> by (unfold no_control; chars).
  simpl negb. cbv iota.
  rewrite bool_decide_false.
  2: { intros E. rewrite E in Hall. discriminate Hall. }
  unfold getScheme, site_url. rewrite !str_append_assoc. fold scheme authority.
  change ("://" +:+ ?r) with (":" +:+ "//" +:+ r). rewrite scheme_plain by done.
  rewrite cut_app by not_in. simpl fst. cbv zeta.
  assert (lower_string scheme = scheme) as ->.
  { clear - Hs2. induction scheme as [|c s IH]; [done|]. simpl in *. apply andb_true_iff in Hs2 as [Hc Hs].
       rewrite IH by done. f_equal. revert c Hc. intros c Hc.
       assert (byte_in 65 90 c = false) as ->; [|done]. apply negb_true_iff.
       revert c Hc. apply char_cases. by vm_compute. }
  assert (all_chars (fun c => plain_char c || one_of ":/" c) ("//" +:+ authority +:+ "/" +:+ p) = true) as Hr.
  { rewrite !all_chars_app. repeat (apply andb_true_iff; split); try done; chars. }
  assert (cut_query ("//" +:+ authority +:+ "/" +:+ p +:+ query_suffix q) =
          ("//" +:+ authority +:+ "/" +:+ p, false, q)) as ->.
  { unfold cut_query, query_suffix. destruct (str_empty q) eqn:E; bools.
    - subst. rewrite str_append_empty_r. by rewrite cut_none by not_in.
    - change ("?" +:+ q) with (String "?" q).
      rewrite <- !str_append_assoc. rewrite cut_app by (rewrite !str_append_assoc; not_in). by destruct q. }
  cbv iota. change (starts_with "/" ("//" +:+ ?r)) with true. simpl negb. rewrite !andb_false_l. cbv iota.
  rewrite bool_decide_false by done. change (has_prefix "//" ("//" +:+ ?r)) with true. simpl orb. cbv iota.
  change (drop_two ("//" +:+ ?r)) with r. change ("/" +:+ p) with (String "/" p).
  rewrite cut_app by not_in. rewrite parseAuthority_plain, path_plain by done. done.
Qed.
End PlainUrls.

(** ** Paths *)

(** A segment that resolution keeps. *)
Definition clean_segment (s : string) : Prop := s <> "" /\ s <> "." /\ s <> "..".
Definition segment (s : string) : Prop := clean_segment s /\ plain s = true.

(** Segments, each after a slash. *)
Definition slashes (l : list string) : string := fold_right (fun s r => "/" +:+ s +:+ r) "" l.

Lemma slashes_app l l' : slashes (l ++ l') = slashes l +:+ slashes l'.
Proof. induction l as [|s l IH]; [done|]. simpl. by rewrite IH, !str_append_assoc. Qed.

Lemma slash_join l : l <> [] -> "/" +:+ GoStd.join "/" l = slashes l.
Proof.
  induction l as [|s l IH]; [done|]. intros _. destruct l as [|t l].
  - simpl. by rewrite str_append_empty_r.
  - change (GoStd.join "/" (s :: t :: l)) with (s +:+ "/" +:+ GoStd.join "/" (t :: l)).
    by rewrite IH.
Qed.

Lemma plain_no_slash s : plain s = true -> str_in "/" s = false.
Proof. intros Hs. unfold plain in Hs. not_in. Qed.

Lemma split_slashes l : Forall segment l -> split_on "/" (slashes l) = "" :: l.
Proof.
  intros Hl. destruct l as [|s l]; [done|].
  rewrite <- slash_join by done. change ("/" +:+ ?x) with (GoStd.join "/" ["" : string; x]).
  change (GoStd.join "/" ["" : string; GoStd.join "/" (s :: l)]) with (GoStd.join "/" ("" :: s :: l)).
  apply (split_join "/"); [done|]. constructor; [done|]. eapply Forall_impl; [exact Hl|].
  intros t [_ Ht]. by apply plain_no_slash.
Qed.

Lemma slashes_chars l : Forall segment l -> all_chars path_char (slashes l) = true.
Proof.
  induction 1 as [|s l [_ Hs] _ IH]; [done|]. simpl. rewrite !all_chars_app, IH, andb_true_r.
  simpl. unfold plain in Hs. chars.
Qed.

Lemma resolve_segments l dst :
  Forall segment l -> fold_left resolve_step l (dst, false) = (dst +:+ slashes l, false).
Proof.
  intros Hl. revert dst. induction Hl as [|s l [(_ & H1 & H2) _] _ IH]; intros dst; simpl.
  - by rewrite str_append_empty_r.
  - rewrite !bool_decide_false by done. rewrite IH. by rewrite !str_append_assoc.
Qed.

Lemma last_segment l s : Forall segment (s :: l) -> exists t, last (s :: l) = Some t /\ segment t.
Proof.
  intros Hl. destruct (last (s :: l)) as [t|] eqn:E.
  - exists t. split; [done|]. rewrite Forall_forall in Hl. apply Hl. by apply last_Some_elem_of.
  - by apply last_None in E.
Qed.

Lemma resolvePath_segments dirs s segs :
  Forall segment dirs -> Forall segment (s :: segs) ->
  resolvePath (slashes dirs +:+ "/") (GoStd.join "/" (s :: segs)) = slashes (dirs ++ s :: segs).
Proof.
  intros Hd Hs. unfold resolvePath. pose proof Hs as [[[Hne _] Hsp] _]%Forall_cons.
  assert (GoStd.join "/" (s :: segs) <> "" /\ starts_with "/" (GoStd.join "/" (s :: segs)) = false) as [Hj Hc].
  { destruct s as [|c s]; [done|]. apply plain_no_slash in Hsp. simpl in Hsp. apply orb_false_iff in Hsp as [Hsp _].
    by destruct segs. }
  rewrite (bool_decide_false _ Hj), Hc. change "/" with (String "/" "") at 1. rewrite cut_last_app by done. rewrite slash_join, <- slashes_app by done.
  assert (Forall segment (dirs ++ s :: segs)) as Hall by by apply Forall_app.
  rewrite split_slashes by done.
  assert (exists t l, dirs ++ s :: segs = t :: l) as (t & l & Hl) by (destruct dirs; by eexists _, _).
  rewrite Hl in *. rewrite bool_decide_false by done. 
  change (fold_left resolve_step ("" :: t :: l) ("", true)) with (fold_left resolve_step (t :: l) ("", false)).
  rewrite resolve_segments by done. destruct (last_segment l t Hall) as (u & Hu & (_ & Hu1 & Hu2) & _).
  change (last ("" :: t :: l)) with (last (t :: l)). rewrite Hu. simpl default. by rewrite !bool_decide_false by done.
Qed.

Section References.
Context (is_ipv6 : string -> bool) (x : plain_site).
Hypothesis Hx : site_ok x = true.

Lemma URL_String_plain p :
  all_chars path_char p = true ->
  URL_String (mkURL (site_scheme x) "" None (site_authority x) ("/" +:+ p) "" false false "") = site_url x +:+ "/" +:+ p.
Proof.
  intros Hp. destruct (site_parts x Hx) as (Hs & _ & Hh & _). unfold URL_String.
  rewrite EscapedPath_plain by (simpl; exact Hp). simpl u_Scheme. simpl u_Host. simpl u_User. simpl u_Opaque. cbv zeta.
  assert (site_authority x <> "") as Ha by (unfold site_authority; by destruct (site_host x)).
  rewrite !(bool_decide_false _ Hs), !(bool_decide_false _ Ha). simpl.
  rewrite (escape_unescaped encodeHost (site_authority x)).
  2: { pose proof (authority_chars x Hx) as Hc. unfold unescaped. chars. }
  unfold site_url. rewrite ?str_append_empty_r, !str_append_assoc. 
  destruct (site_scheme x) as [|c s]; [done|]. simpl. by rewrite ?str_append_assoc.
Qed.

Lemma resolve_plain u dirs s segs :
  u_Scheme u = site_scheme x -> u_User u = None -> u_Host u = site_authority x ->
  u_Path u = slashes dirs +:+ "/" -> u_RawPath u = "" -> Forall segment dirs -> Forall segment (s :: segs) ->
  resolve_path_reference u (GoStd.join "/" (s :: segs)) =
    mkURL (site_scheme x) "" None (site_authority x) (slashes (dirs ++ s :: segs)) "" false false "".
Proof.
  intros H1 H2 H3 H4 H5 Hd Hs. unfold resolve_path_reference.
  assert (all_chars path_char (GoStd.join "/" (s :: segs)) = true) as Hj.
  { pose proof (slashes_chars _ Hs) as Hc. by rewrite <- slash_join in Hc by done. }
  rewrite EscapedPath_plain by done.
  assert (EscapedPath u = slashes dirs +:+ "/") as ->.
  { destruct u as [a b c d e f g h i]; simpl in *; subst. apply EscapedPath_plain.
    rewrite all_chars_app. by rewrite slashes_chars. }
  rewrite H1, H2, H3, resolvePath_segments by done. rewrite path_plain by (apply slashes_chars; by apply Forall_app). done.
Qed.
End References.

(** ** Query strings *)

Lemma QueryEscape_chars s : all_chars query_char (QueryEscape s) = true.
Proof.
  unfold QueryEscape. induction s as [|c s IH]; [done|]. cbn [escape]. rewrite all_chars_app, IH, andb_true_r.
  destruct (shouldEscape encodeQueryComponent c) eqn:E.
  - destruct (Ascii.eqb c " "); [done|]. clear E. by destruct c as [[] [] [] [] [] [] [] []].
  - by destruct c as [[] [] [] [] [] [] [] []].
Qed.

Lemma upper_hex_alphanumeric n : (n < 16)%N -> alphanumeric (upper_hex n) = true.
Proof.
  intros Hn. assert (forallb (fun k => alphanumeric (upper_hex (N.of_nat k))) (seq 0 16) = true) as H by by vm_compute.
  rewrite forallb_forall in H. specialize (H (N.to_nat n)). rewrite N2Nat.id in H. apply H, in_seq. lia.
Qed.

Lemma QueryEscape_not_in c s : one_of "=&;#" c = true -> str_in c (QueryEscape s) = false.
Proof.
  intros Hc.
  assert (one_of "%+" c = false /\ alphanumeric c = false /\ one_of "-_.~" c = false) as (K1 & K2 & K3).
  { split_and!; apply negb_true_iff; revert c Hc; apply char_cases; by vm_compute. }
  assert (Ascii.eqb c "%" = false /\ str_in c "+" = false) as [K4 K5].
  { split; apply negb_true_iff; clear K1 K2 K3; revert c Hc; apply char_cases; by vm_compute. }
  unfold QueryEscape. induction s as [|d s IH]; [done|]. cbn [escape]. rewrite str_in_app, IH, orb_false_r.
  destruct (shouldEscape encodeQueryComponent d) eqn:E.
  - destruct (Ascii.eqb d " "); [by rewrite K5|].
    clear E. unfold escape_byte. cbn [str_in]. unfold percent, str1. cbn [str_in]. rewrite K4.
    assert (forall n, (n < 16)%N -> Ascii.eqb c (upper_hex n) = false) as Hh.
    { intros n Hn%upper_hex_alphanumeric. apply Ascii.eqb_neq. intros ->. congruence. }
    rewrite !Hh; [done|apply N.mod_lt; lia|]. apply N.Div0.div_lt_upper_bound. pose proof (N_ascii_bounded d).
    unfold byte_code. lia.
  - simpl. rewrite orb_false_r. apply Ascii.eqb_neq. intros ->. unfold shouldEscape in E.
    rewrite K2, K3 in E. by destruct (one_of "$&+,/:;=?@" d).
Qed.

Lemma Values_Encode_single k v :
  Values_Encode (Values_Add k v ∅) = QueryEscape k +:+ "=" +:+ QueryEscape v.
Proof.
  unfold Values_Encode, sorted_keys, Values_Add. rewrite lookup_empty, insert_empty, map_to_list_singleton.
  change (merge_sort _ _) with [k]. simpl. by rewrite lookup_singleton_eq.
Qed.

Lemma Encode_single_chars k v : all_chars query_char (Values_Encode (Values_Add k v ∅)) = true.
Proof. rewrite Values_Encode_single, !all_chars_app, !QueryEscape_chars. done. Qed.

(** A single parameter comes back. *)
Lemma Query_single u k v :
  u_RawQuery u = Values_Encode (Values_Add k v ∅) -> Query u = Values_Add k v ∅.
Proof.
  intros Hq. unfold Query. rewrite Hq, Values_Encode_single.
  rewrite split_no_sep by (rewrite !str_in_app, !QueryEscape_not_in by done; done). simpl. unfold parse_pair.
  rewrite !str_in_app, !QueryEscape_not_in by done.
  assert (QueryEscape k +:+ "=" +:+ QueryEscape v <> "") as Hne by by destruct (QueryEscape k).
  rewrite (bool_decide_false _ Hne). change ("=" +:+ ?r) with (String "=" r). simpl orb.
  rewrite cut_app by by apply QueryEscape_not_in. simpl default. by rewrite !QueryUnescape_QueryEscape.
Qed.
