(* ===== verification/KubeTypes.v ===== *)
(** * Kubernetes objects of other projects, with the fields the operator reads
    or writes

    None of these types is defined by the operator: they are the shapes of the
    API objects it exchanges with the API server (k8s.io/api, OLM, Prometheus
    operator, observability operator, package operator).  A record holds the
    fields that the code under src/ touches.  Label and annotation maps are
    [gmap]s: the code never distinguishes a nil map of an API object from an
    empty one.  A field [..._Rest] of a specification stands for its remaining
    fields, which the operator leaves unset but overwrites and compares as
    part of the whole; the empty string is their zero value. *)
From S2P Require Export GoStd.

Abbreviation labels := (gmap string string).

(** ** Metadata *)

Record ObjectKey := mkKey { key_Namespace : string; key_Name : string }.
#[export] Instance ObjectKey_eq : EqDecision ObjectKey.
Proof. solve_decision. Defined.
#[export] Instance ObjectKey_countable : Countable ObjectKey.
Proof.
  refine (inj_countable' (fun k => (key_Namespace k, key_Name k)) (fun p => mkKey p.1 p.2) _).
  by intros [].
Defined.

(** The owner reference: UID of the owner and the controller flag. *)
Record OwnerReference := mkOwner { or_Name : string; or_UID : string; or_Controller : bool }.
#[export] Instance OwnerReference_eq : EqDecision OwnerReference.
Proof. solve_decision. Defined.

Record ObjectMeta := mkMeta {
  Name : string;
  Namespace : string;
  UID : string;
  Generation : Z;
  Labels : labels;
  Annotations : labels;
  OwnerReferences : list OwnerReference;
  Finalizers : list string;
  DeletionTimestamp : option Z
}.
#[export] Instance ObjectMeta_eq : EqDecision ObjectMeta.
Proof. solve_decision. Defined.

(** [metav1.ObjectMeta{Name: n, Namespace: ns}]. *)
Definition new_meta (ns n : string) : ObjectMeta := mkMeta n ns "" 0 ∅ ∅ [] [] None.
Definition meta_key (m : ObjectMeta) : ObjectKey := mkKey (Namespace m) (Name m).

Definition set_Labels (l : labels) (m : ObjectMeta) : ObjectMeta :=
  mkMeta (Name m) (Namespace m) (UID m) (Generation m) l (Annotations m)
    (OwnerReferences m) (Finalizers m) (DeletionTimestamp m).
Definition set_Annotations (a : labels) (m : ObjectMeta) : ObjectMeta :=
  mkMeta (Name m) (Namespace m) (UID m) (Generation m) (Labels m) a
    (OwnerReferences m) (Finalizers m) (DeletionTimestamp m).
Definition set_OwnerReferences (o : list OwnerReference) (m : ObjectMeta) : ObjectMeta :=
  mkMeta (Name m) (Namespace m) (UID m) (Generation m) (Labels m) (Annotations m)
    o (Finalizers m) (DeletionTimestamp m).
Definition set_Finalizers (f : list string) (m : ObjectMeta) : ObjectMeta :=
  mkMeta (Name m) (Namespace m) (UID m) (Generation m) (Labels m) (Annotations m)
    (OwnerReferences m) f (DeletionTimestamp m).
Definition set_Namespace (ns : string) (m : ObjectMeta) : ObjectMeta :=
  mkMeta (Name m) ns (UID m) (Generation m) (Labels m) (Annotations m)
    (OwnerReferences m) (Finalizers m) (DeletionTimestamp m).

(** [metav1.Condition]; the status is one of the strings below. *)
Record Condition := mkCond {
  cond_Type : string;
  cond_Status : string;
  cond_ObservedGeneration : Z;
  cond_LastTransitionTime : Z;
  cond_Reason : string;
  cond_Message : string
}.
#[export] Instance Condition_eq : EqDecision Condition.
Proof. solve_decision. Defined.

Definition ConditionTrue : string := "True".
Definition ConditionFalse : string := "False".

(** A condition literal of the code: the transition time is left unset. *)
Definition condition (type status reason message : string) (gen : Z) : Condition :=
  mkCond type status gen zero_time reason message.

(** ** k8s.io/api *)

Definition NamespaceActive : string := "Active".
Record NamespaceObj := mkNs { ns_Meta : ObjectMeta; ns_Phase : string }.
Record Secret := mkSecret { sec_Meta : ObjectMeta; sec_Data : labels; sec_Type : string }.
Record ConfigMap := mkCM { cm_Meta : ObjectMeta }.
Record PodCondition := mkPodCond { pc_Type : string; pc_Reason : string; pc_Status : string }.
Record Pod := mkPod { pod_Meta : ObjectMeta; pod_Conditions : list PodCondition }.
Record NetworkPolicySpec := mkNPSpec {
  np_PodSelector : list (string * string * list string);
  np_IngressPorts : list (string * Z);
  np_PolicyTypes : list string;
  np_Rest : string
}.
Record NetworkPolicy := mkNP { np_Meta : ObjectMeta; np_Spec : NetworkPolicySpec }.
#[export] Instance NetworkPolicySpec_eq : EqDecision NetworkPolicySpec.
Proof. solve_decision. Defined.

(** ** OLM (github.com/operator-framework/api) *)

Record OperatorGroupSpec := mkOGSpec { og_TargetNamespaces : list string; og_Rest : string }.
#[export] Instance OperatorGroupSpec_eq : EqDecision OperatorGroupSpec.
Proof. solve_decision. Defined.
Record OperatorGroup := mkOG { og_Meta : ObjectMeta; og_Spec : OperatorGroupSpec }.

Record CatalogSourceSpec := mkCSSpec {
  cs_SourceType : string;
  cs_Publisher : string;
  cs_DisplayName : string;
  cs_Image : string;
  cs_SecurityContextConfig : string;
  cs_Secrets : list string;
  cs_Rest : string
}.
#[export] Instance CatalogSourceSpec_eq : EqDecision CatalogSourceSpec.
Proof. solve_decision. Defined.
(** The status holds [GRPCConnectionState.LastObservedState], [None] for a nil
    connection state. *)
Record CatalogSource := mkCS {
  cs_Meta : ObjectMeta; cs_Spec : CatalogSourceSpec; cs_GRPCConnectionState : option string
}.

Record EnvVar := mkEnvVar { env_Name : string; env_Value : string }.
#[export] Instance EnvVar_eq : EqDecision EnvVar.
Proof. solve_decision. Defined.
Record SubscriptionSpec := mkSubSpec {
  sub_CatalogSource : string;
  sub_CatalogSourceNamespace : string;
  sub_Channel : string;
  sub_Package : string;
  sub_Config : option (list EnvVar);
  sub_InstallPlanApproval : string;
  sub_Rest : string
}.
#[export] Instance SubscriptionSpec_eq : EqDecision SubscriptionSpec.
Proof. solve_decision. Defined.
Record SubscriptionStatus := mkSubStatus {
  sub_InstalledCSV : string; sub_CurrentCSV : string; sub_InstallPlanRef : option ObjectKey
}.
(** [Spec] is a pointer. *)
Record Subscription := mkSub {
  sub_Meta : ObjectMeta; sub_Spec : option SubscriptionSpec; sub_Status : SubscriptionStatus
}.

Definition DockerConfigJsonKey : string := ".dockerconfigjson".

Definition ApprovalManual : string := "Manual".
Definition InstallPlanPhaseRequiresApproval : string := "RequiresApproval".
Record InstallPlan := mkIP { ip_Meta : ObjectMeta; ip_Phase : string }.

Definition CSVPhaseSucceeded : string := "Succeeded".
Definition CSVPhaseFailed : string := "Failed".
Record RichReference := mkRef {
  ref_Kind : string; ref_Name : string; ref_Namespace : string;
  ref_Conditions : list (string * string) (* type, status *)
}.
(** [Status.Components] is a pointer. *)
Record Operator := mkOp { op_Meta : ObjectMeta; op_Components : option (list RichReference) }.

(** ** Prometheus operator *)

Record Endpoint := mkEndpoint {
  ep_AuthType : string; ep_CredentialsName : string; ep_CredentialsKey : string;
  ep_CAFile : string; ep_ServerName : string;
  ep_HonorLabels : bool; ep_Port : string; ep_Path : string; ep_Scheme : string;
  ep_Interval : string; ep_Match : list string
}.
#[export] Instance Endpoint_eq : EqDecision Endpoint.
Proof. solve_decision. Defined.
Record ServiceMonitorSpec := mkSMSpec {
  sm_Endpoints : list Endpoint;
  sm_NamespaceSelector : list string;
  sm_Selector : labels;
  sm_Rest : string
}.
#[export] Instance ServiceMonitorSpec_eq : EqDecision ServiceMonitorSpec.
Proof. solve_decision. Defined.
Record ServiceMonitor := mkSM { sm_Meta : ObjectMeta; sm_Spec : ServiceMonitorSpec }.

(** ** Observability operator; [OAuth2] is a struct the code only copies. *)

Record OAuth2 := mkOAuth2 { oauth2_raw : string }.
#[export] Instance OAuth2_eq : EqDecision OAuth2.
Proof. solve_decision. Defined.
Record RelabelConfig := mkRelabel {
  rl_Action : string; rl_SourceLabels : list string; rl_Regex : string
}.
#[export] Instance RelabelConfig_eq : EqDecision RelabelConfig.
Proof. solve_decision. Defined.
Record RemoteWriteSpec := mkRemoteWrite {
  rw_URL : string; rw_OAuth2 : option OAuth2; rw_WriteRelabelConfigs : list RelabelConfig
}.
#[export] Instance RemoteWriteSpec_eq : EqDecision RemoteWriteSpec.
Proof. solve_decision. Defined.
Record MonitoringStackSpec := mkMSSpec {
  ms_Retention : string; ms_ResourceSelector : labels; ms_RemoteWrite : list RemoteWriteSpec;
  ms_Rest : string
}.
#[export] Instance MonitoringStackSpec_eq : EqDecision MonitoringStackSpec.
Proof. solve_decision. Defined.
Record OboCondition := mkObo { obo_Type : string; obo_Status : string; obo_Message : string }.
Definition AvailableCondition : string := "Available".
Definition ReconciledCondition : string := "Reconciled".
Record MonitoringStack := mkMS {
  ms_Meta : ObjectMeta; ms_Spec : MonitoringStackSpec; ms_Conditions : list OboCondition
}.

(** ** Package operator *)

Record ObjectTemplateSource := mkSource {
  src_Optional : bool; src_APIVersion : string; src_Kind : string; src_Name : string;
  src_Namespace : string; src_Items : list (string * string) (* key, destination *)
}.
#[export] Instance ObjectTemplateSource_eq : EqDecision ObjectTemplateSource.
Proof. solve_decision. Defined.
Record ObjectTemplateSpec := mkOTSpec {
  ot_Template : string; ot_Sources : list ObjectTemplateSource
}.
#[export] Instance ObjectTemplateSpec_eq : EqDecision ObjectTemplateSpec.
Proof. solve_decision. Defined.
Definition PackageAvailable : string := "Available".
Record ClusterObjectTemplate := mkCOT {
  cot_Meta : ObjectMeta; cot_Spec : ObjectTemplateSpec; cot_Conditions : list Condition
}.

(** ** controller-runtime *)

Record ctrl_Result := mkResult { Requeue : bool; RequeueAfter : Z }.
#[export] Instance ctrl_Result_eq : EqDecision ctrl_Result.
Proof. solve_decision. Defined.
Definition no_result : ctrl_Result := mkResult false 0.
