(* ===== verification/ApiTypes.v ===== *)
(** * The operator's own API types (api/v1alpha1)

    Addon, AddonInstance and AddonOperator with their specs, statuses and
    well-known strings, and the methods declared on them.  A Go pointer field
    is an [option]; the string types of the API ([AddonInstallType],
    [AddonPhase], ...) are strings, since any string can reach the program.

    A comment of the form [@ file:first-last symbol] above a definition names
    the lines it translates. *)
From S2P Require Export KubeTypes.

(** ** Addon specification *)

(*@ api/v1alpha1/addon_types.go:86-88 AddonPackageOperator *)
Record AddonPackageOperatorSpec := mkAPO { apo_Image : string }.

(*@ api/v1alpha1/addon_types.go:94-99 AddonSecretPropagationReference *)
Record AddonSecretPropagationReference := mkSecretRef {
  SourceSecret : string;       (* LocalObjectReference: the name *)
  DestinationSecret : string
}.

#[export] Instance AddonSecretPropagationReference_eq : EqDecision AddonSecretPropagationReference.
Proof. solve_decision. Defined.

(*@ api/v1alpha1/addon_types.go:90-92 AddonSecretPropagation *)
Record AddonSecretPropagation := mkSecretPropagation {
  Secrets : list AddonSecretPropagationReference
}.

(*@ api/v1alpha1/addon_types.go:101-104 AddonUpgradePolicy *)
Record AddonUpgradePolicy := mkUpgradePolicy { up_ID : string }.

(*@ api/v1alpha1/addon_types.go:106-111 AddonUpgradePolicyValue *)
Definition AddonUpgradePolicyValueStarted : string := "started".
(*@ api/v1alpha1/addon_types.go:110-110 AddonUpgradePolicyValueCompleted *)
Definition AddonUpgradePolicyValueCompleted : string := "completed".

(*@ api/v1alpha1/addon_types.go:113-124 AddonUpgradePolicyStatus *)
Record AddonUpgradePolicyStatus := mkUPStatus {
  ups_ID : string; ups_Value : string; ups_Version : string; ups_ObservedGeneration : Z
}.

(*@ api/v1alpha1/addon_types.go:161-177 MonitoringFederationSpec *)
Record MonitoringFederationSpec := mkFederation {
  fed_Namespace : string; fed_PortName : string;
  fed_MatchNames : list string; fed_MatchLabels : labels
}.

(*@ api/v1alpha1/addon_types.go:145-159 RHOBSRemoteWriteConfigSpec *)
Record RHOBSRemoteWriteConfigSpec := mkRHOBS {
  rhobs_URL : string; rhobs_OAuth2 : option OAuth2; rhobs_Allowlist : list string
}.

(*@ api/v1alpha1/addon_types.go:139-143 MonitoringStackSpec *)
Record AddonMonitoringStackSpec := mkStackSpec {
  RHOBSRemoteWriteConfig : option RHOBSRemoteWriteConfigSpec
}.

(*@ api/v1alpha1/addon_types.go:126-137 MonitoringSpec *)
Record MonitoringSpec := mkMonitoring {
  Federation : option MonitoringFederationSpec;
  MonitoringStackOf : option AddonMonitoringStackSpec
}.

(*@ api/v1alpha1/addon_types.go:238-245 EnvObject *)
Record EnvObject := mkEnvObject { eo_Name : string; eo_Value : string }.
#[export] Instance EnvObject_eq : EqDecision EnvObject.
Proof. solve_decision. Defined.

(*@ api/v1alpha1/addon_types.go:229-236 AdditionalCatalogSource *)
Record AdditionalCatalogSource := mkACS { acs_Name : string; acs_Image : string }.
#[export] Instance AdditionalCatalogSource_eq : EqDecision AdditionalCatalogSource.
Proof. solve_decision. Defined.

(*@ api/v1alpha1/addon_types.go:224-227 SubscriptionConfig *)
Record SubscriptionConfig := mkSubConfig { EnvironmentVariables : list EnvObject }.
#[export] Instance SubscriptionConfig_eq : EqDecision SubscriptionConfig.
Proof. solve_decision. Defined.

(** [AddonInstallOLMAllNamespaces] and [AddonInstallOLMOwnNamespace] embed
    this struct and nothing else. *)
(*@ api/v1alpha1/addon_types.go:190-222 AddonInstallOLMCommon *)
Record AddonInstallOLMCommon := mkCommon {
  ic_Namespace : string;
  CatalogSourceImage : string;
  Channel : string;
  PackageName : string;
  PullSecretName : string;
  Config : option SubscriptionConfig;
  AdditionalCatalogSources : list AdditionalCatalogSource
}.
#[export] Instance AddonInstallOLMCommon_eq : EqDecision AddonInstallOLMCommon.
Proof. solve_decision. Defined.

(** The zero value of the struct. *)
Definition empty_common : AddonInstallOLMCommon := mkCommon "" "" "" "" "" None [].

(*@ api/v1alpha1/addon_types.go:179-188 AddonInstallSpec *)
Record AddonInstallSpec := mkInstall {
  Type_ : string;
  OLMAllNamespacesOf : option AddonInstallOLMCommon;
  OLMOwnNamespaceOf : option AddonInstallOLMCommon
}.
#[export] Instance AddonInstallSpec_eq : EqDecision AddonInstallSpec.
Proof. solve_decision. Defined.

(*@ api/v1alpha1/addon_types.go:257-264 OLMAllNamespaces *)
Definition OLMAllNamespaces : string := "OLMAllNamespaces".
(*@ api/v1alpha1/addon_types.go:265-269 OLMOwnNamespace *)
Definition OLMOwnNamespace : string := "OLMOwnNamespace".

(** The label map is an [option]: the code may write into a non-nil one
    through the alias it hands to the Namespace it builds. *)
(*@ api/v1alpha1/addon_types.go:350-362 AddonNamespace *)
Record AddonNamespace := mkAddonNs {
  an_Name : string; an_Labels : option labels; an_Annotations : labels
}.

(*@ api/v1alpha1/addon_types.go:28-84 AddonSpec *)
Record AddonSpec := mkAddonSpec {
  DisplayName : string;
  Version : string;
  Paused : bool;
  Namespaces : list AddonNamespace;
  CommonLabels : labels;
  CommonAnnotations : labels;
  CorrelationID : string;
  Install : AddonInstallSpec;
  DeleteAckRequired : bool;
  InstallAckRequired : bool;
  UpgradePolicy : option AddonUpgradePolicy;
  Monitoring : option MonitoringSpec;
  SecretPropagation : option AddonSecretPropagation;
  AddonPackageOperator : option AddonPackageOperatorSpec
}.

(** ** Annotation keys, condition reasons and condition types *)

(*@ api/v1alpha1/addon_types.go:271-273 DeleteAnnotationFlag *)
Definition DeleteAnnotationFlag : string := "addons.managed.openshift.io/delete".
(*@ api/v1alpha1/addon_types.go:274-275 DeleteTimeoutDuration *)
Definition DeleteTimeoutDuration : string := "addons.managed.openshift.io/deletetimeout".

(*@ api/v1alpha1/addon_types.go:277-281 AddonReasonFullyReconciled *)
Definition AddonReasonFullyReconciled : string := "FullyReconciled".
(*@ api/v1alpha1/addon_types.go:283-284 AddonReasonTerminating *)
Definition AddonReasonTerminating : string := "Terminating".
(*@ api/v1alpha1/addon_types.go:286-287 AddonReasonConfigError *)
Definition AddonReasonConfigError : string := "ConfigurationError".
(*@ api/v1alpha1/addon_types.go:289-290 AddonReasonPaused *)
Definition AddonReasonPaused : string := "AddonPaused".
(*@ api/v1alpha1/addon_types.go:292-293 AddonReasonUnreadyCatalogSource *)
Definition AddonReasonUnreadyCatalogSource : string := "UnreadyCatalogSource".
(*@ api/v1alpha1/addon_types.go:295-296 AddonReasonUnreadyAdditionalCatalogSource *)
Definition AddonReasonUnreadyAdditionalCatalogSource : string := "UnreadyAdditionalCatalogSource".
(*@ api/v1alpha1/addon_types.go:298-299 AddonReasonUnreadyNamespaces *)
Definition AddonReasonUnreadyNamespaces : string := "UnreadyNamespaces".
(*@ api/v1alpha1/addon_types.go:301-302 AddonReasonUnreadyMonitoringFederation *)
Definition AddonReasonUnreadyMonitoringFederation : string := "UnreadyMonitoringFederation".
(*@ api/v1alpha1/addon_types.go:304-305 AddonReasonUnreadyMonitoringStack *)
Definition AddonReasonUnreadyMonitoringStack : string := "UnreadyMonitoringStack".
(*@ api/v1alpha1/addon_types.go:307-308 AddonReasonUnreadyClusterPackageTemplate *)
Definition AddonReasonUnreadyClusterPackageTemplate : string := "UnreadyClusterPackageTemplate".
(*@ api/v1alpha1/addon_types.go:310-311 AddonReasonUnreadyCSV *)
Definition AddonReasonUnreadyCSV : string := "UnreadyCSV".
(*@ api/v1alpha1/addon_types.go:313-314 AddonReasonMissingCSV *)
Definition AddonReasonMissingCSV : string := "MissingCSV".
(*@ api/v1alpha1/addon_types.go:316-317 AddonReasonMissingSecretForPropagation *)
Definition AddonReasonMissingSecretForPropagation : string := "MissingSecretForPropagation".
(*@ api/v1alpha1/addon_types.go:319-320 AddonReasonUpgradeStarted *)
Definition AddonReasonUpgradeStarted : string := "AddonUpgradeStarted".
(*@ api/v1alpha1/addon_types.go:322-323 AddonReasonUpgradeSucceeded *)
Definition AddonReasonUpgradeSucceeded : string := "AddonUpgradeSucceeded".
(*@ api/v1alpha1/addon_types.go:325-326 AddonReasonInstalled *)
Definition AddonReasonInstalled : string := "AddonInstalled".
(*@ api/v1alpha1/addon_types.go:328-329 AddonReasonNotInstalled *)
Definition AddonReasonNotInstalled : string := "AddonNotInstalled".
(*@ api/v1alpha1/addon_types.go:331-332 AddonReasonReadyToBeDeleted *)
Definition AddonReasonReadyToBeDeleted : string := "AddonReadyToBeDeleted".
(*@ api/v1alpha1/addon_types.go:334-335 AddonReasonNotReadyToBeDeleted *)
Definition AddonReasonNotReadyToBeDeleted : string := "AddonNotReadyToBeDeleted".
(*@ api/v1alpha1/addon_types.go:337-338 AddonReasonDeletionTimedOut *)
Definition AddonReasonDeletionTimedOut : string := "AddonReasonDeletionTimedOut".
(*@ api/v1alpha1/addon_types.go:340-341 AddonReasonInstanceNotInstalled *)
Definition AddonReasonInstanceNotInstalled : string := "AddonInstanceNotInstalled".
(*@ api/v1alpha1/addon_types.go:346-348 AddonReasonInstallPlanPending *)
Definition AddonReasonInstallPlanPending : string := "AddonInstallPlanPending".

(*@ api/v1alpha1/addon_types.go:364-366 Available *)
Definition Available : string := "Available".
(*@ api/v1alpha1/addon_types.go:368-369 Paused *)
Definition PausedCondition : string := "Paused".
(*@ api/v1alpha1/addon_types.go:371-372 UpgradeStarted *)
Definition UpgradeStarted : string := "UpgradeStarted".
(*@ api/v1alpha1/addon_types.go:374-375 UpgradeSucceeded *)
Definition UpgradeSucceeded : string := "UpgradeSucceeded".
(*@ api/v1alpha1/addon_types.go:377-379 Installed *)
Definition Installed : string := "Installed".
(*@ api/v1alpha1/addon_types.go:381-382 ReadyToBeDeleted *)
Definition ReadyToBeDeleted : string := "ReadyToBeDeleted".
(*@ api/v1alpha1/addon_types.go:384-387 DeleteTimeout *)
Definition DeleteTimeout : string := "DeleteTimeout".

(*@ api/v1alpha1/addon_types.go:441-446 PhasePending *)
Definition PhasePending : string := "Pending".
(*@ api/v1alpha1/addon_types.go:447-447 PhaseReady *)
Definition PhaseReady : string := "Ready".
(*@ api/v1alpha1/addon_types.go:448-448 PhaseTerminating *)
Definition PhaseTerminating : string := "Terminating".
(*@ api/v1alpha1/addon_types.go:449-450 PhaseError *)
Definition PhaseError : string := "Error".

(** ** Addon status and the Addon object *)

(*@ api/v1alpha1/addon_types.go:413-418 AddOnStatusCondition *)
Record AddOnStatusCondition := mkAOSC {
  StatusType : string; StatusValue : string; aosc_Reason : string; aosc_Message : string
}.
#[export] Instance AddOnStatusCondition_eq : EqDecision AddOnStatusCondition.
Proof. solve_decision. Defined.

(*@ api/v1alpha1/addon_types.go:420-425 OCMAddOnStatusHash *)
Record OCMAddOnStatusHash := mkHash { StatusHash : string; hash_ObservedGeneration : Z }.

(*@ api/v1alpha1/addon_types.go:427-439 OCMAddOnStatus *)
Record OCMAddOnStatus := mkOCMStatus {
  oas_AddonID : string; oas_CorrelationID : string; oas_AddonVersion : string;
  oas_StatusConditions : list AddOnStatusCondition; oas_ObservedGeneration : Z
}.

(*@ api/v1alpha1/addon_types.go:389-411 AddonStatus *)
Record AddonStatus := mkAddonStatus {
  ObservedGeneration : Z;
  Conditions : list Condition;
  Phase : string;
  UpgradePolicyStatus : option AddonUpgradePolicyStatus;
  OCMReportedStatusHash : option OCMAddOnStatusHash;
  ObservedVersion : string;
  LastObservedAvailableCSV : string
}.

(*@ api/v1alpha1/addon_types.go:483-491 Addon *)
Record Addon := mkAddon { a_Meta : ObjectMeta; a_Spec : AddonSpec; a_Status : AddonStatus }.

Definition a_Name (a : Addon) : string := Name (a_Meta a).
Definition a_Generation (a : Addon) : Z := Generation (a_Meta a).

(** Field updates. *)
Definition with_meta (m : ObjectMeta) (a : Addon) : Addon := mkAddon m (a_Spec a) (a_Status a).
Definition with_spec (s : AddonSpec) (a : Addon) : Addon := mkAddon (a_Meta a) s (a_Status a).
Definition with_status (s : AddonStatus) (a : Addon) : Addon := mkAddon (a_Meta a) (a_Spec a) s.

Definition upd_status (f : AddonStatus -> AddonStatus) (a : Addon) : Addon :=
  with_status (f (a_Status a)) a.
Definition set_Conditions (c : list Condition) : Addon -> Addon := upd_status (fun s =>
  mkAddonStatus (ObservedGeneration s) c (Phase s) (UpgradePolicyStatus s)
    (OCMReportedStatusHash s) (ObservedVersion s) (LastObservedAvailableCSV s)).
Definition set_ObservedGeneration (g : Z) : Addon -> Addon := upd_status (fun s =>
  mkAddonStatus g (Conditions s) (Phase s) (UpgradePolicyStatus s)
    (OCMReportedStatusHash s) (ObservedVersion s) (LastObservedAvailableCSV s)).
Definition set_Phase (p : string) : Addon -> Addon := upd_status (fun s =>
  mkAddonStatus (ObservedGeneration s) (Conditions s) p (UpgradePolicyStatus s)
    (OCMReportedStatusHash s) (ObservedVersion s) (LastObservedAvailableCSV s)).
Definition set_UpgradePolicyStatus (u : option AddonUpgradePolicyStatus) : Addon -> Addon :=
  upd_status (fun s =>
  mkAddonStatus (ObservedGeneration s) (Conditions s) (Phase s) u
    (OCMReportedStatusHash s) (ObservedVersion s) (LastObservedAvailableCSV s)).
Definition set_OCMReportedStatusHash (h : option OCMAddOnStatusHash) : Addon -> Addon :=
  upd_status (fun s =>
  mkAddonStatus (ObservedGeneration s) (Conditions s) (Phase s) (UpgradePolicyStatus s)
    h (ObservedVersion s) (LastObservedAvailableCSV s)).
Definition set_ObservedVersion (v : string) : Addon -> Addon := upd_status (fun s =>
  mkAddonStatus (ObservedGeneration s) (Conditions s) (Phase s) (UpgradePolicyStatus s)
    (OCMReportedStatusHash s) v (LastObservedAvailableCSV s)).
Definition set_LastObservedAvailableCSV (c : string) : Addon -> Addon := upd_status (fun s =>
  mkAddonStatus (ObservedGeneration s) (Conditions s) (Phase s) (UpgradePolicyStatus s)
    (OCMReportedStatusHash s) (ObservedVersion s) c).
Definition set_Namespaces (n : list AddonNamespace) (a : Addon) : Addon :=
  let s := a_Spec a in
  with_spec (mkAddonSpec (DisplayName s) (Version s) (Paused s) n (CommonLabels s)
    (CommonAnnotations s) (CorrelationID s) (Install s) (DeleteAckRequired s)
    (InstallAckRequired s) (UpgradePolicy s) (Monitoring s) (SecretPropagation s)
    (AddonPackageOperator s)) a.

(** ** AddonInstance *)

(*@ api/v1alpha1/addoninstance_types.go:26-34 AddonInstanceSpec *)
Record AddonInstanceSpec := mkAISpec { MarkedForDeletion : bool; HeartbeatUpdatePeriod : Z }.
#[export] Instance AddonInstanceSpec_eq : EqDecision AddonInstanceSpec.
Proof. solve_decision. Defined.

(*@ api/v1alpha1/addoninstance_types.go:36-45 AddonInstanceStatus *)
Record AddonInstanceStatus := mkAIStatus {
  ai_ObservedGeneration : Z; ai_Conditions : list Condition; LastHeartbeatTime : Z
}.

(*@ api/v1alpha1/addoninstance_types.go:75-82 AddonInstance *)
Record AddonInstance := mkAI {
  ai_Meta : ObjectMeta; ai_Spec : AddonInstanceSpec; ai_Status : AddonInstanceStatus
}.

(*@ api/v1alpha1/addoninstance_types.go:93-94 DefaultAddonInstanceName *)
Definition DefaultAddonInstanceName : string := "addon-instance".
(*@ api/v1alpha1/addoninstance_types.go:95-96 DefaultAddonInstanceHeartbeatUpdatePeriod *)
Definition DefaultAddonInstanceHeartbeatUpdatePeriod : Z := 10 * Second.

(*@ api/v1alpha1/groupversion_info.go:27-27 group *)
Definition group : string := "addons.managed.openshift.io".

(** [path.Join(group, c)]: both elements are non-empty, have no slash and are
    no dot segments, so the cleaned path is their concatenation with a
    slash. *)
(*@ api/v1alpha1/addoninstance_types.go:98-104 AddonInstanceCondition.String *)
Definition AddonInstanceCondition_String (c : string) : string := group +:+ "/" +:+ c.

(*@ api/v1alpha1/addoninstance_types.go:106-113 AddonInstanceConditionHealthy *)
Definition AddonInstanceConditionHealthy : string := "Healthy".
(*@ api/v1alpha1/addoninstance_types.go:114-116 AddonInstanceConditionDegraded *)
Definition AddonInstanceConditionDegraded : string := "Degraded".
(*@ api/v1alpha1/addoninstance_types.go:117-120 AddonInstanceConditionInstalled *)
Definition AddonInstanceConditionInstalled : string := "Installed".
(*@ api/v1alpha1/addoninstance_types.go:122-124 AddonInstanceConditionReadyToBeDeleted *)
Definition AddonInstanceConditionReadyToBeDeleted : string := "ReadyToBeDeleted".
(*@ api/v1alpha1/addoninstance_types.go:135-139 AddonInstanceHealthyReasonReceivingHeartbeats *)
Definition AddonInstanceHealthyReasonReceivingHeartbeats : string := "ReceivingHeartbeats".
(*@ api/v1alpha1/addoninstance_types.go:140-142 AddonInstanceHealthyReasonPendingFirstHeartbeat *)
Definition AddonInstanceHealthyReasonPendingFirstHeartbeat : string := "PendingFirstHeartbeat".
(*@ api/v1alpha1/addoninstance_types.go:143-147 AddonInstanceHealthyReasonHeartbeatTimeout *)
Definition AddonInstanceHealthyReasonHeartbeatTimeout : string := "HeartbeatTimeout".

Definition set_ai_Spec (s : AddonInstanceSpec) (i : AddonInstance) : AddonInstance :=
  mkAI (ai_Meta i) s (ai_Status i).
Definition set_ai_Meta (m : ObjectMeta) (i : AddonInstance) : AddonInstance :=
  mkAI m (ai_Spec i) (ai_Status i).
Definition set_ai_Status (s : AddonInstanceStatus) (i : AddonInstance) : AddonInstance :=
  mkAI (ai_Meta i) (ai_Spec i) s.

(** ** AddonOperator *)

(*@ api/v1alpha1/types.go:4-10 ClusterSecretReference *)
Record ClusterSecretReference := mkCSR { csr_Name : string; csr_Namespace : string }.

(*@ api/v1alpha1/addonoperator_types.go:48-57 AddonOperatorOCM *)
Record AddonOperatorOCM := mkAOOCM { ocm_Endpoint : string; ocm_Secret : ClusterSecretReference }.

(** [FeatureToggles] is deprecated and read nowhere. *)
(*@ api/v1alpha1/addonoperator_types.go:23-40 AddonOperatorSpec *)
Record AddonOperatorSpec := mkAOSpec {
  ao_Paused : bool; FeatureFlags : string; OCM : option AddonOperatorOCM
}.

(*@ api/v1alpha1/addonoperator_types.go:59-72 AddonOperatorStatus *)
Record AddonOperatorStatus := mkAOStatus {
  ao_ObservedGeneration : Z; ao_Conditions : list Condition;
  ao_LastHeartbeatTime : Z; ao_Phase : string
}.

(*@ api/v1alpha1/addonoperator_types.go:88-95 AddonOperator *)
Record AddonOperator := mkAO {
  ao_Meta : ObjectMeta; ao_Spec : AddonOperatorSpec; ao_Status : AddonOperatorStatus
}.

(*@ api/v1alpha1/addonoperator_types.go:7-9 DefaultAddonOperatorName *)
Definition DefaultAddonOperatorName : string := "addon-operator".
(*@ api/v1alpha1/addonoperator_types.go:11-14 AddonOperatorReasonReady *)
Definition AddonOperatorReasonReady : string := "AddonOperatorReady".
(*@ api/v1alpha1/addonoperator_types.go:16-17 AddonOperatorReasonPaused *)
Definition AddonOperatorReasonPaused : string := "AddonOperatorPaused".
(*@ api/v1alpha1/addonoperator_types.go:74-76 AddonOperatorAvailable *)
Definition AddonOperatorAvailable : string := "Available".
(*@ api/v1alpha1/addonoperator_types.go:78-80 AddonOperatorPaused *)
Definition AddonOperatorPaused : string := "Paused".

Definition set_ao_Status (s : AddonOperatorStatus) (o : AddonOperator) : AddonOperator :=
  mkAO (ao_Meta o) (ao_Spec o) s.
Definition set_ao_Spec (s : AddonOperatorSpec) (o : AddonOperator) : AddonOperator :=
  mkAO (ao_Meta o) s (ao_Status o).

(** ** Methods *)

(*@ api/v1alpha1/addon_types.go:497-504 Addon.SetUpgradePolicyStatus *)
Definition SetUpgradePolicyStatus (val : string) (a : Addon) : option Addon :=
  match UpgradePolicy (a_Spec a) with
  | None => None (* nil dereference *)
  | Some p =>
      Some (set_UpgradePolicyStatus
        (Some (mkUPStatus (up_ID p) val (Version (a_Spec a)) (a_Generation a))) a)
  end.

(*@ api/v1alpha1/addon_types.go:506-510 Addon.UpgradeCompleteForCurrentVersion *)
Definition UpgradeCompleteForCurrentVersion (a : Addon) : bool :=
  match UpgradePolicyStatus (a_Status a) with
  | None => false
  | Some u =>
      (ups_Version u =s? Version (a_Spec a)) &&
      (ups_Value u =s? AddonUpgradePolicyValueCompleted)
  end.

(*@ api/v1alpha1/addon_types.go:512-525 Addon.GetInstallOLMCommon *)
Definition GetInstallOLMCommon (a : Addon) : AddonInstallOLMCommon + error :=
  let i := Install (a_Spec a) in
  let found :=
    if Type_ i =s? OLMAllNamespaces then OLMAllNamespacesOf i
    else if Type_ i =s? OLMOwnNamespace then OLMOwnNamespaceOf i
    else None in
  match found with
  | Some c => inl c
  | None => inr (ErrNew "addon install OLM common not found")
  end.
