(* ===== verification/ThirdParty.v ===== *)
(** * The library functions the operator calls

    [Lib] is the interface of the third-party code that the operator calls as
    a function (k8s.io/apimachinery, controller-runtime, go-multierror,
    go-spew, OLM's API package): the model is parametric in it.  [LibOk]
    states the documented behaviour that theorems rely on.  [RefLib] is one
    implementation, which satisfies [LibOk] ([RefLib_ok]); witnesses compute
    with it. *)
From S2P Require Export ApiTypes Json.

Class Lib := {
  (** k8s.io/apimachinery/pkg/api/meta; the first argument is the time of the call. *)
  SetStatusCondition : Z -> list Condition -> Condition -> list Condition;
  RemoveStatusCondition : list Condition -> string -> list Condition;
  FindStatusCondition : list Condition -> string -> option Condition;
  IsStatusConditionTrue : list Condition -> string -> bool;
  (** k8s.io/apimachinery/pkg/labels *)
  labels_Merge : labels -> labels -> labels;
  labels_Equals : labels -> labels -> bool;
  (** equality.Semantic.DeepEqual *)
  DeepEqual : forall {T : Type} `{EqDecision T}, T -> T -> bool;
  (** controllerutil and metav1; the scheme is left out. *)
  SetControllerReference : ObjectMeta -> ObjectMeta -> ObjectMeta + error;
  SetOwnerReference : ObjectMeta -> ObjectMeta -> ObjectMeta + error;
  GetControllerOf : ObjectMeta -> option OwnerReference;
  ContainsFinalizer : ObjectMeta -> string -> bool;
  AddFinalizer : ObjectMeta -> string -> ObjectMeta;
  RemoveFinalizer : ObjectMeta -> string -> ObjectMeta;
  Time_IsZero : option Z -> bool;
  Result_IsZero : ctrl_Result -> bool;
  (** API errors *)
  IsNotFound : option error -> bool;
  IsAlreadyExists : option error -> bool;
  IgnoreNotFound : option error -> option error;
  (** types.NamespacedName.String *)
  NamespacedName_String : ObjectKey -> string;
  (** OLM: Subscription.GetInstallPlanApproval on a non-nil spec *)
  GetInstallPlanApproval : SubscriptionSpec -> string;
  (** go-multierror; a multierror is the list of its errors. *)
  multierror_Append : list error -> option error -> list error;
  multierror_ErrorOrNil : list error -> option error;
  multierror_Error : list string -> string;
  (** go-spew's Fprintf "%#v" with the configuration of the code, and
      k8s.io/apimachinery/pkg/util/rand *)
  spew_print : OCMAddOnStatus -> string;
  SafeEncodeString : string -> string;
  (** unstructured.NestedString: the value, whether it was found, the error *)
  NestedString : list (string * json) -> list string -> string * bool * option error;
  (** package-operator's GroupVersion, printed *)
  pko_GroupVersion : string
}.

(** What [SetStatusCondition] stores for a condition whose transition time is
    unset, given the condition of the same type before the call. *)
Definition stored_condition (now : Z) (old : option Condition) (c : Condition) : Condition :=
  mkCond (cond_Type c) (cond_Status c) (cond_ObservedGeneration c)
    (match old with
     | Some o => if cond_Status o =s? cond_Status c then cond_LastTransitionTime o else now
     | None => now
     end)
    (cond_Reason c) (cond_Message c).

(** The field of an object that a path of member names leads to; the last of
    several members of one name counts. *)
Definition object_member (l : list (string * json)) (k : string) : option json :=
  snd <$> head (filter (fun m => fst m = k) (rev l)).
Fixpoint nested_field (v : json) (path : list string) : option json :=
  match path with
  | [] => Some v
  | k :: path =>
      match v with
      | JObject l => match object_member l k with Some w => nested_field w path | None => None end
      | _ => None
      end
  end.

Class LibOk (L : Lib) : Prop := {
  find_nil ty : FindStatusCondition [] ty = None;
  find_set now cs c ty :
    cond_LastTransitionTime c = zero_time ->
    FindStatusCondition (SetStatusCondition now cs c) ty =
      if ty =s? cond_Type c
      then Some (stored_condition now (FindStatusCondition cs (cond_Type c)) c)
      else FindStatusCondition cs ty;
  find_remove cs ty ty' :
    FindStatusCondition (RemoveStatusCondition cs ty) ty' =
      if ty' =s? ty then None else FindStatusCondition cs ty';
  is_true_find cs ty :
    IsStatusConditionTrue cs ty =
      match FindStatusCondition cs ty with Some c => cond_Status c =s? ConditionTrue | None => false end;
  merge_union a b : labels_Merge a b = b ∪ a;
  equals_eq a b : labels_Equals a b = true <-> a = b;
  deep_equal_eq {T} `{EqDecision T} (x y : T) : DeepEqual x y = true <-> x = y;
  set_controller_fresh owner m :
    OwnerReferences m = [] ->
    SetControllerReference owner m =
      inl (set_OwnerReferences [mkOwner (Name owner) (UID owner) true] m);
  set_owner owner m m' :
    SetOwnerReference owner m = inl m' -> exists l, m' = set_OwnerReferences l m;
  set_owner_accepted owner m :
    Namespace owner = "" -> exists m', SetOwnerReference owner m = inl m';
  get_controller m :
    GetControllerOf m = head (filter (fun r => or_Controller r = true) (OwnerReferences m));
  contains_finalizer m f : ContainsFinalizer m f = true <-> f ∈ Finalizers m;
  add_finalizer m f :
    exists l, AddFinalizer m f = set_Finalizers l m
      /\ forall g, g ∈ l <-> g ∈ Finalizers m \/ g = f;
  remove_finalizer m f :
    exists l, RemoveFinalizer m f = set_Finalizers l m
      /\ forall g, g ∈ l <-> g ∈ Finalizers m /\ g <> f;
  time_is_zero t : Time_IsZero t = match t with None => true | Some t => (t =? zero_time)%Z end;
  result_is_zero r : Result_IsZero r = true <-> r = no_result;
  not_found_none : IsNotFound None = false;
  not_found_api r m : IsNotFound (Some (ErrAPI r m)) = (r =s? "NotFound");
  not_found_wrap p e : IsNotFound (Some (ErrWrap p e)) = IsNotFound (Some e);
  not_found_new m : IsNotFound (Some (ErrNew m)) = false;
  not_found_var m : IsNotFound (Some (ErrVar m)) = false;
  already_exists_none : IsAlreadyExists None = false;
  already_exists_api r m : IsAlreadyExists (Some (ErrAPI r m)) = (r =s? "AlreadyExists");
  ignore_not_found e : IgnoreNotFound e = if IsNotFound e then None else e;
  append_nil l : multierror_Append l None = l;
  append_err l e :
    (forall es, e <> ErrMulti es) -> multierror_Append l (Some e) = l ++ [e];
  nested_string obj path s : NestedString obj path = (s, true, None) <->
    nested_field (JObject obj) path = Some (JString s);
  manual_approval s : GetInstallPlanApproval s = ApprovalManual <-> sub_InstallPlanApproval s = ApprovalManual;
  error_or_nil l :
    multierror_ErrorOrNil l = match l with [] => None | _ => Some (ErrMulti l) end
}.

(** ** A reference implementation *)

Definition ref_find (cs : list Condition) (ty : string) : option Condition :=
  head (filter (fun c => cond_Type c = ty) cs).

Fixpoint ref_replace (c : Condition) (cs : list Condition) : list Condition :=
  match cs with
  | [] => []
  | d :: cs' => if cond_Type d =s? cond_Type c then c :: cs' else d :: ref_replace c cs'
  end.

Definition ref_set (now : Z) (cs : list Condition) (c : Condition) : list Condition :=
  match ref_find cs (cond_Type c) with
  | Some o => ref_replace (stored_condition now (Some o) c) cs
  | None => cs ++ [stored_condition now None c]
  end.

Definition ref_not_found (e : error) : bool :=
  existsb (fun e => match e with ErrAPI r _ => r =s? "NotFound" | _ => false end) (error_tree e).

Definition ref_already_exists (e : error) : bool :=
  match e with ErrAPI r _ => r =s? "AlreadyExists" | _ => false end.

Definition RefLib : Lib := {|
  SetStatusCondition := ref_set;
  RemoveStatusCondition cs ty := filter (fun c => cond_Type c <> ty) cs;
  FindStatusCondition := ref_find;
  IsStatusConditionTrue cs ty :=
    match ref_find cs ty with Some c => cond_Status c =s? ConditionTrue | None => false end;
  labels_Merge a b := b ∪ a;
  labels_Equals a b := bool_decide (a = b);
  DeepEqual T _ x y := bool_decide (x = y);
  SetControllerReference owner m :=
    match OwnerReferences m with
    | [] => inl (set_OwnerReferences [mkOwner (Name owner) (UID owner) true] m)
    | _ => inr (ErrNew "object is already owned")
    end;
  SetOwnerReference owner m :=
    inl (set_OwnerReferences (OwnerReferences m ++ [mkOwner (Name owner) (UID owner) false]) m);
  GetControllerOf m := head (filter (fun r => or_Controller r = true) (OwnerReferences m));
  ContainsFinalizer m f := bool_decide (f ∈ Finalizers m);
  AddFinalizer m f := set_Finalizers (Finalizers m ++ [f]) m;
  RemoveFinalizer m f := set_Finalizers (filter (fun g => g <> f) (Finalizers m)) m;
  Time_IsZero t := match t with None => true | Some t => (t =? zero_time)%Z end;
  Result_IsZero r := bool_decide (r = no_result);
  IsNotFound e := match e with Some e => ref_not_found e | None => false end;
  IsAlreadyExists e := match e with Some e => ref_already_exists e | None => false end;
  IgnoreNotFound e :=
    match e with Some e => if ref_not_found e then None else Some e | None => None end;
  NamespacedName_String k := key_Namespace k +:+ "/" +:+ key_Name k;
  GetInstallPlanApproval s :=
    if sub_InstallPlanApproval s =s? ApprovalManual then ApprovalManual else "Automatic";
  multierror_Append l e := match e with Some e => l ++ [e] | None => l end;
  multierror_ErrorOrNil l := match l with [] => None | _ => Some (ErrMulti l) end;
  multierror_Error := join nl;
  spew_print s :=
    oas_AddonID s +:+ oas_CorrelationID s +:+ oas_AddonVersion s +:+
    join ";" (map (fun c => StatusType c +:+ StatusValue c +:+ aosc_Reason c +:+ aosc_Message c)
                (oas_StatusConditions s));
  SafeEncodeString s := s;
  NestedString obj path :=
    match nested_field (JObject obj) path with
    | Some (JString s) => (s, true, None)
    | Some _ => ("", false, Some (ErrNew "accessor error: not a string"))
    | None => ("", false, None)
    end;
  pko_GroupVersion := "package-operator.run/v1alpha1"
|}.

Lemma ref_find_cons c cs ty :
  ref_find (c :: cs) ty = if cond_Type c =s? ty then Some c else ref_find cs ty.
Proof.
  unfold ref_find. rewrite filter_cons. case_decide as H.
  - by rewrite bool_decide_true by done.
  - by rewrite bool_decide_false by done.
Qed.

Lemma ref_find_app cs c ty :
  ref_find (cs ++ [c]) ty =
    match ref_find cs ty with
    | Some d => Some d
    | None => if cond_Type c =s? ty then Some c else None
    end.
Proof.
  induction cs as [|d cs IH]; [exact (ref_find_cons c [] ty)|].
  rewrite <- app_comm_cons, !ref_find_cons, IH. by destruct (cond_Type d =s? ty).
Qed.

Lemma ref_find_type cs ty c : ref_find cs ty = Some c -> cond_Type c = ty.
Proof.
  induction cs as [|d cs IH]; [done|]. rewrite ref_find_cons.
  destruct (cond_Type d =s? ty) eqn:E; [|done]. intros [= <-]. by bools.
Qed.

Lemma ref_find_replace c cs o ty :
  ref_find cs (cond_Type c) = Some o ->
  ref_find (ref_replace c cs) ty = if ty =s? cond_Type c then Some c else ref_find cs ty.
Proof.
  induction cs as [|d cs IH]; [done|]. rewrite ref_find_cons. simpl. intros H.
  destruct (cond_Type d =s? cond_Type c) eqn:E; rewrite !ref_find_cons.
  - bools. rewrite E. rewrite (bool_decide_ext (cond_Type c = ty) (ty = cond_Type c)) by done.
    by destruct (ty =s? cond_Type c).
  - rewrite IH by done. bools.
    destruct (cond_Type d =s? ty) eqn:E1, (ty =s? cond_Type c) eqn:E2; bools; congruence.
Qed.

Lemma ref_find_remove cs ty ty' :
  ref_find (filter (fun c => cond_Type c <> ty) cs) ty' =
    if ty' =s? ty then None else ref_find cs ty'.
Proof.
  induction cs as [|c cs IH]; [by destruct (ty' =s? ty)|].
  rewrite filter_cons, ref_find_cons.
  destruct (decide (cond_Type c <> ty)) as [Hc|Hc]; rewrite ?ref_find_cons, IH;
    destruct (cond_Type c =s? ty') eqn:E1, (ty' =s? ty) eqn:E2; bools;
    first [congruence | apply dec_stable in Hc; congruence].
Qed.

Lemma ref_find_set now cs c ty :
  ref_find (ref_set now cs c) ty =
    if ty =s? cond_Type c then Some (stored_condition now (ref_find cs (cond_Type c)) c)
    else ref_find cs ty.
Proof.
  unfold ref_set. destruct (ref_find cs (cond_Type c)) as [o|] eqn:Ho.
  - by erewrite ref_find_replace by (simpl; exact Ho).
  - rewrite ref_find_app. simpl.
    rewrite (bool_decide_ext (cond_Type c = ty) (ty = cond_Type c)) by done.
    destruct (ty =s? cond_Type c) eqn:E; [|by destruct (ref_find cs ty)].
    bools. subst. by rewrite Ho.
Qed.

Lemma RefLib_ok : LibOk RefLib.
Proof.
  constructor; simpl; intros; try done.
  - apply ref_find_set.
  - apply ref_find_remove.
  - by rewrite bool_decide_eq_true.
  - by rewrite bool_decide_eq_true.
  - by rewrite H.
  - injection H as <-. by eexists.
  - by eexists.
  - by rewrite bool_decide_eq_true.
  - eexists; split; [done|]. intros g. rewrite elem_of_app, list_elem_of_singleton. done.
  - eexists; split; [done|]. intros g. rewrite list_elem_of_filter. naive_solver.
  - by rewrite bool_decide_eq_true.
  - unfold ref_not_found. simpl. by rewrite orb_false_r.
  - by destruct e as [e|].
  - by destruct (nested_field _ path) as [[]|]; split; intros H; simplify_eq.
  - by case_bool_decide.
Qed.
