(* ===== verification/Effects.v ===== *)
(** * Effects: API calls as a free monad, and a program logic for it

    The operator acts on the world only through calls: reads and writes of API
    objects, the clock, and OCM requests.  A piece of the operator is a [prog]:
    a tree of calls, branching on their responses.  [wp] states what a program
    does in an abstract environment: which calls it may make in which state of
    the environment, and what holds of every result.  The environment is
    demonic: it may answer anything its [env_step] relation allows, so a
    theorem with the unrestricted environment holds for every behaviour of the
    API server, errors at any call included. *)
From S2P Require Export ThirdParty.

(** ** OCM requests and responses (internal/ocm) *)

(*@ internal/ocm/addon_status.go:12-20 AddOnStatusPostRequest *)
Record AddOnStatusPostRequest := mkPostReq {
  post_AddonID : string; post_CorrelationID : string; post_AddonVersion : string;
  post_StatusConditions : list AddOnStatusCondition
}.

(*@ internal/ocm/upgradepolicy.go:10-13 UpgradePolicyValueNone *)
Definition UpgradePolicyValueNone : string := "".
(*@ internal/ocm/upgradepolicy.go:14-14 UpgradePolicyValuePending *)
Definition UpgradePolicyValuePending : string := "pending".
(*@ internal/ocm/upgradepolicy.go:15-15 UpgradePolicyValueScheduled *)
Definition UpgradePolicyValueScheduled : string := "scheduled".
(*@ internal/ocm/upgradepolicy.go:16-16 UpgradePolicyValueStarted *)
Definition UpgradePolicyValueStarted : string := "started".
(*@ internal/ocm/upgradepolicy.go:17-18 UpgradePolicyValueCompleted *)
Definition UpgradePolicyValueCompleted : string := "completed".

(*@ internal/ocm/upgradepolicy.go:20-24 UpgradePolicyPatchRequest *)
Record UpgradePolicyPatchRequest := mkUPPatch {
  upp_ID : string; upp_Value : string; upp_Description : string
}.
(*@ internal/ocm/upgradepolicy.go:44-46 UpgradePolicyGetRequest *)
Record UpgradePolicyGetRequest := mkUPGet { upg_ID : string }.
(*@ internal/ocm/upgradepolicy.go:48-51 UpgradePolicyGetResponse *)
Record UpgradePolicyGetResponse := mkUPGetRes { upgr_Value : string; upgr_Description : string }.

(*@ internal/ocm/client.go:44-50 ClientOptions *)
Record ClientOptions := mkClientOptions {
  Endpoint_ : string; ClusterExternalID : string; ClusterID : string; ClusterName : string;
  AccessToken : string
}.

(*@ internal/ocm/cluster.go:16-20 Cluster *)
Record Cluster := mkCluster { cl_Id : string; cl_Name : string; cl_ExternalId : string }.
(*@ internal/ocm/cluster.go:12-14 ClusterGetResponse *)
Record ClusterGetResponse := mkClusterRes { cl_Items : list Cluster }.

(** ** Calls and responses *)

Inductive kind :=
| KAddon | KAddonInstance | KAddonOperator | KNamespace | KSecret | KConfigMap | KPod
| KNetworkPolicy | KOperatorGroup | KCatalogSource | KSubscription | KInstallPlan | KOperator
| KServiceMonitor | KMonitoringStack | KClusterObjectTemplate.
#[export] Instance kind_eq : EqDecision kind.
Proof. solve_decision. Defined.

Definition obj (k : kind) : Type :=
  match k with
  | KAddon => Addon | KAddonInstance => AddonInstance | KAddonOperator => AddonOperator
  | KNamespace => NamespaceObj | KSecret => Secret | KConfigMap => ConfigMap | KPod => Pod
  | KNetworkPolicy => NetworkPolicy | KOperatorGroup => OperatorGroup
  | KCatalogSource => CatalogSource | KSubscription => Subscription
  | KInstallPlan => InstallPlan | KOperator => Operator
  | KServiceMonitor => ServiceMonitor | KMonitoringStack => MonitoringStack
  | KClusterObjectTemplate => ClusterObjectTemplate
  end.

Definition obj_meta (k : kind) : obj k -> ObjectMeta :=
  match k with
  | KAddon => a_Meta | KAddonInstance => ai_Meta | KAddonOperator => ao_Meta
  | KNamespace => ns_Meta | KSecret => sec_Meta | KConfigMap => cm_Meta | KPod => pod_Meta
  | KNetworkPolicy => np_Meta | KOperatorGroup => og_Meta
  | KCatalogSource => cs_Meta | KSubscription => sub_Meta
  | KInstallPlan => ip_Meta | KOperator => op_Meta
  | KServiceMonitor => sm_Meta | KMonitoringStack => ms_Meta
  | KClusterObjectTemplate => cot_Meta
  end.

Definition obj_key (k : kind) (o : obj k) : ObjectKey := meta_key (obj_meta k o).

(** The manager's client reads through a cache; the uncached one does not. *)
Inductive client := Cached | Uncached.

(** The locks of the Addon reconciler, with the methods of [sync.RWMutex]. *)
(*@ controllers/addon/addon_controller.go:70-77 globalPauseMux *)
Inductive mutex := globalPauseMux | ocmClientMux.
Inductive mutex_op := Lock | Unlock | RLock | RUnlock.
#[export] Instance mutex_eq : EqDecision mutex.
Proof. solve_decision. Defined.

Inductive call :=
| CGet (c : client) (k : kind) (key : ObjectKey)
| CList (c : client) (k : kind) (namespace : option string) (selector : labels)
| CCreate (k : kind) (o : obj k)
| CUpdate (k : kind) (o : obj k)
| CStatusUpdate (k : kind) (o : obj k)
| CPatch (k : kind) (o base : obj k)
| CDelete (k : kind) (key : ObjectKey)
| CNow
| CEnqueue (key : ObjectKey) (* a GenericEvent on addonRequeueCh *)
| CPostAddOnStatus (c : ClientOptions) (r : AddOnStatusPostRequest)
| CPatchUpgradePolicy (c : ClientOptions) (r : UpgradePolicyPatchRequest)
| CGetUpgradePolicy (c : ClientOptions) (r : UpgradePolicyGetRequest)
| CGetCluster (c : ClientOptions)
(* the variables of the Addon reconciler that other goroutines set: its global
   pause flag and its OCM client; and the locks around them *)
| CMutex (m : mutex) (op : mutex_op)
| CLoadGlobalPause
| CStoreGlobalPause (paused : bool)
| CLoadOCMClient
| CStoreOCMClient (c : ClientOptions).

(** A write returns the object as the server stored it: the client decodes
    the response into the object it was given. *)
Definition resp (c : call) : Type :=
  match c with
  | CGet _ k _ => obj k + error
  | CList _ k _ _ => list (obj k) + error
  | CCreate k _ | CUpdate k _ | CStatusUpdate k _ | CPatch k _ _ => obj k + error
  | CDelete _ _ => option error
  | CNow => Z
  | CEnqueue _ => unit
  | CPostAddOnStatus _ _ | CPatchUpgradePolicy _ _ => option error
  | CGetUpgradePolicy _ _ => UpgradePolicyGetResponse + error
  | CGetCluster _ => ClusterGetResponse + error
  | CLoadGlobalPause => bool
  | CLoadOCMClient => option ClientOptions
  | CMutex _ _ | CStoreGlobalPause _ | CStoreOCMClient _ => unit
  end.

(** The error of a response, if it is one. *)
Definition resp_error (c : call) : resp c -> option error :=
  match c with
  | CGet _ _ _ | CList _ _ _ _ | CCreate _ _ | CUpdate _ _ | CStatusUpdate _ _ | CPatch _ _ _
  | CGetUpgradePolicy _ _ | CGetCluster _ => fun r => match r with inl _ => None | inr e => Some e end
  | CDelete _ _ | CPostAddOnStatus _ _ | CPatchUpgradePolicy _ _ => fun r => r
  | _ => fun _ => None
  end.

(** The calls that change the cluster. *)
Definition is_write (c : call) : bool :=
  match c with
  | CCreate _ _ | CUpdate _ _ | CStatusUpdate _ _ | CPatch _ _ _ | CDelete _ _ => true
  | _ => false
  end.

Definition is_delete (c : call) : bool := match c with CDelete _ _ => true | _ => false end.

(** ** Programs *)

(** How a program can stop without returning: a Go panic, or [os.Exit]. *)
Inductive stop := Panicked (why : string) | Exited (code : Z).

Inductive prog (A : Type) : Type :=
| Ret (a : A)
| Stop (s : stop)
| Vis (c : call) (k : resp c -> prog A).
Arguments Ret {A} a.
Arguments Stop {A} s.
Arguments Vis {A} c k.

Fixpoint pbind {A B} (m : prog A) (f : A -> prog B) : prog B :=
  match m with
  | Ret a => f a
  | Stop s => Stop s
  | Vis c k => Vis c (fun r => pbind (k r) f)
  end.

(** A stateful program: the in-memory state [S] is threaded explicitly. *)
Definition M (S A : Type) : Type := S -> prog (A * S).

Definition mpure {S A} (a : A) : M S A := fun s => Ret (a, s).
Definition mthen {S A B} (m : M S A) (f : A -> M S B) : M S B :=
  fun s => pbind (m s) (fun '(a, s') => f a s').
Definition do_call {S} (c : call) : M S (resp c) := fun s => Vis c (fun r => Ret (r, s)).
Definition get_state {S} : M S S := fun s => Ret (s, s).
Definition put_state {S} (s : S) : M S unit := fun _ => Ret (tt, s).
Definition panic {S A} (why : string) : M S A := fun _ => Stop (Panicked why).
Definition exit {S A} (code : Z) : M S A := fun _ => Stop (Exited code).

(** A pointer dereference: a nil pointer panics. *)
Definition deref {S A} (p : option A) : M S A :=
  match p with
  | Some a => mpure a
  | None => panic "invalid memory address or nil pointer dereference"
  end.

(** [defer c]: the call is made when the function returns and when it panics,
    and not when the process exits. *)
Fixpoint pdefer {A} (c : call) (m : prog A) : prog A :=
  match m with
  | Ret a => Vis c (fun _ => Ret a)
  | Stop (Panicked why) => Vis c (fun _ => Stop (Panicked why))
  | Stop s => Stop s
  | Vis c' k => Vis c' (fun r => pdefer c (k r))
  end.
Definition defer {S A} (c : call) (m : M S A) : M S A := fun s => pdefer c (m s).

(** [m.Lock(); defer m.Unlock()] before the rest of a function, and the same
    for reading. *)
Definition with_lock {S A} (m : mutex) (body : M S A) : M S A :=
  mthen (do_call (CMutex m Lock)) (fun _ => defer (CMutex m Unlock) body).
Definition with_rlock {S A} (m : mutex) (body : M S A) : M S A :=
  mthen (do_call (CMutex m RLock)) (fun _ => defer (CMutex m RUnlock) body).

Notation "'let*' x := m 'in' f" := (mthen m (fun x => f))
  (at level 10, x pattern, m at level 100, f at level 200) : addon_scope.
Notation "'do*' m 'in' f" := (mthen m (fun _ => f))
  (at level 10, m at level 100, f at level 200) : addon_scope.

(** [for _, x := range l] with a body that only has effects. *)
Fixpoint mfor {S A} (l : list A) (body : A -> M S unit) : M S unit :=
  match l with
  | [] => mpure tt
  | x :: l' => do* body x in mfor l' body
  end.

(** ** Environments and weakest preconditions *)

Record env (W : Type) := mkEnv {
  env_step : W -> forall c, resp c -> W -> Prop;   (* the answers it may give *)
  env_allow : W -> call -> Prop;                    (* the calls it accepts *)
  env_abort : W -> stop -> Prop                     (* the stops it accepts *)
}.
Arguments mkEnv {W}.
Arguments env_step {W}.
Arguments env_allow {W}.
Arguments env_abort {W}.

Lemma env_eta {W} (E : env W) : mkEnv (env_step E) (env_allow E) (env_abort E) = E.
Proof. by destruct E. Qed.

Fixpoint wp {W A} (E : env W) (m : prog A) (w : W) (Q : W -> A -> Prop) : Prop :=
  match m with
  | Ret a => Q w a
  | Stop s => env_abort E w s
  | Vis c k => env_allow E w c /\ forall r w', env_step E w c r w' -> wp E (k r) w' Q
  end.

Definition wpM {W S A} (E : env W) (m : M S A) (s : S) (w : W) (Q : W -> A -> S -> Prop) : Prop :=
  wp E (m s) w (fun w' '(a, s') => Q w' a s').

Section wp.
Context {W : Type} (E : env W).

Lemma wp_mono {A} (m : prog A) w (Q Q' : W -> A -> Prop) :
  (forall w a, Q w a -> Q' w a) -> wp E m w Q -> wp E m w Q'.
Proof.
  intros HQ. revert w. induction m as [a|s|c k IH]; intros w; simpl; [by apply HQ|done|].
  intros [Ha Hk]. split; [done|]. intros r w' Hs. by apply IH, Hk.
Qed.

Lemma wp_pbind {A B} (m : prog A) (f : A -> prog B) w Q :
  wp E (pbind m f) w Q <-> wp E m w (fun w' a => wp E (f a) w' Q).
Proof.
  revert w. induction m as [a|s|c k IH]; intros w; simpl; [done|done|].
  split; intros [Ha Hk]; (split; [done|]); intros r w' Hs; by apply IH, Hk.
Qed.

Context {S : Type}.
Implicit Types (s : S) (w : W).

Lemma wpM_mono {A} (m : M S A) s w (Q Q' : W -> A -> S -> Prop) :
  wpM E m s w Q -> (forall w a s, Q w a s -> Q' w a s) -> wpM E m s w Q'.
Proof. intros H HQ. eapply wp_mono; [|exact H]. intros ? [??]. apply HQ. Qed.

Lemma wpM_bind {A B} (m : M S A) (f : A -> M S B) s w Q :
  wpM E m s w (fun w' a s' => wpM E (f a) s' w' Q) -> wpM E (mthen m f) s w Q.
Proof.
  unfold wpM, mthen. intros H. rewrite wp_pbind. eapply wp_mono; [|exact H]. by intros ? [??].
Qed.

Lemma wpM_pure {A} (a : A) s w (Q : W -> A -> S -> Prop) : Q w a s -> wpM E (mpure a) s w Q.
Proof. done. Qed.
Lemma wpM_get s w (Q : W -> S -> S -> Prop) : Q w s s -> wpM E get_state s w Q.
Proof. done. Qed.
Lemma wpM_put s s' w (Q : W -> unit -> S -> Prop) : Q w tt s' -> wpM E (put_state s') s w Q.
Proof. done. Qed.
Lemma wpM_panic {A} why s w (Q : W -> A -> S -> Prop) :
  env_abort E w (Panicked why) -> wpM E (panic why) s w Q.
Proof. done. Qed.
Lemma wpM_call c s w (Q : W -> resp c -> S -> Prop) :
  env_allow E w c -> (forall r w', env_step E w c r w' -> Q w' r s) ->
  wpM E (do_call c) s w Q.
Proof. intros Ha H. split; [done|]. intros r w' Hs. by apply H. Qed.
Lemma wpM_deref {A} (p : option A) s w (Q : W -> A -> S -> Prop) :
  (forall a, p = Some a -> Q w a s) ->
  (p = None -> forall why, env_abort E w (Panicked why)) ->
  wpM E (deref p) s w Q.
Proof. destruct p; simpl; intros H1 H2; [by apply H1|by apply H2]. Qed.

(** A deferred call: the environment accepts it, also after a panic of the
    body, which may be accepted there for another reason. *)
Lemma wpM_defer {A} (abort : W -> stop -> Prop) c (m : M S A) s w Q :
  (forall w why, abort w (Panicked why) -> env_allow E w c /\
     forall r w', env_step E w c r w' -> env_abort E w' (Panicked why)) ->
  (forall w code, abort w (Exited code) -> env_abort E w (Exited code)) ->
  wpM (mkEnv (env_step E) (env_allow E) abort) m s w
    (fun w1 a s1 => env_allow E w1 c /\ forall r w', env_step E w1 c r w' -> Q w' a s1) ->
  wpM E (defer c m) s w Q.
Proof.
  intros Hp He. unfold wpM, defer. generalize (m s). intros p. revert w.
  induction p as [[a s1]|[why|code]|c' k IH]; intros w; simpl; [done|apply Hp|apply He|].
  intros [Ha Hk]. split; [done|]. intros r w' Hs. by apply IH, Hk.
Qed.

(** The same for a program that never stops. *)
Lemma wpM_defer_total {A} c (m : M S A) s w Q :
  wpM (mkEnv (env_step E) (env_allow E) (fun _ _ => False)) m s w
    (fun w1 a s1 => env_allow E w1 c /\ forall r w', env_step E w1 c r w' -> Q w' a s1) ->
  wpM E (defer c m) s w Q.
Proof. by apply wpM_defer. Qed.

(** The loop rule, with an invariant over the remaining elements. *)
Lemma wpM_for {A} (l : list A) (body : A -> M S unit) (I : list A -> W -> S -> Prop) s w :
  I l w s ->
  (forall x l' w s, (exists l0, l = l0 ++ x :: l') -> I (x :: l') w s ->
     wpM E (body x) s w (fun w' _ s' => I l' w' s')) ->
  wpM E (mfor l body) s w (fun w' _ s' => I [] w' s').
Proof.
  intros HI Hb. revert s w HI Hb. induction l as [|x l IH]; intros s w HI Hb; [done|].
  simpl. apply wpM_bind. eapply wpM_mono; [by apply Hb; [exists []|]|].
  intros w' [] s' HI'. apply IH; [done|]. intros y l' ?? [l0 Hl]. apply Hb.
  exists (x :: l0). by rewrite Hl.
Qed.
End wp.

(** Fewer answers, and accepting more calls and more stops, keep a program
    correct. *)
Lemma wp_env_mono {W A} (E E' : env W) (m : prog A) w Q :
  (forall w c r w', env_step E' w c r w' -> env_step E w c r w') ->
  (forall w c, env_allow E w c -> env_allow E' w c) -> (forall w s, env_abort E w s -> env_abort E' w s) ->
  wp E m w Q -> wp E' m w Q.
Proof.
  intros Hst Ha Hs. revert w. induction m as [a|s|c k IH]; intros w; simpl; [done|by apply Hs|].
  intros [H1 H2]. split; [by apply Ha|]. intros r w' Hstep. by apply IH, H2, Hst.
Qed.

Lemma wp_weaken {W A} (step : W -> forall c, resp c -> W -> Prop) (allow allow' : W -> call -> Prop)
    (abort abort' : W -> stop -> Prop) (m : prog A) w Q :
  (forall w c, allow w c -> allow' w c) -> (forall w s, abort w s -> abort' w s) ->
  wp (mkEnv step allow abort) m w Q -> wp (mkEnv step allow' abort') m w Q.
Proof. intros Ha Hs. by apply wp_env_mono. Qed.

Lemma wp_allow_mono {W A} (step : W -> forall c, resp c -> W -> Prop) (allow allow' : W -> call -> Prop)
    abort (m : prog A) w Q :
  (forall w c, allow w c -> allow' w c) ->
  wp (mkEnv step allow abort) m w Q -> wp (mkEnv step allow' abort) m w Q.
Proof. intros Ha. by apply wp_weaken. Qed.

(** ** Executions against a concrete environment *)

(** A server: a deterministic answer to every call. *)
Definition server (W : Type) : Type := W -> forall c, resp c * W.

Fixpoint run {W A} (serve : server W) (m : prog A) (w : W) : (A + stop) * W :=
  match m with
  | Ret a => (inl a, w)
  | Stop s => (inr s, w)
  | Vis c k => let '(r, w') := serve w c in run serve (k r) w'
  end.

(** The write calls of an execution, in order. *)
Fixpoint calls_of {W A} (serve : server W) (m : prog A) (w : W) : list call :=
  match m with
  | Ret _ | Stop _ => []
  | Vis c k => let '(r, w') := serve w c in c :: calls_of serve (k r) w'
  end.

(** A server that only gives answers of the environment [E]. *)
Definition serves {W} (serve : server W) (E : env W) : Prop :=
  forall w c, env_step E w c (serve w c).1 (serve w c).2.

(** Adequacy: what [wp] states is what an execution does. *)
Lemma wp_adequate {W A} (serve : server W) (E : env W) (m : prog A) w Q :
  serves serve E -> wp E m w Q ->
  match run serve m w with
  | (inl a, w') => Q w' a
  | (inr s, w') => env_abort E w' s
  end.
Proof.
  intros Hs. revert w. induction m as [a|s|c k IH]; intros w; simpl; [done|done|].
  intros [_ Hk]. specialize (Hs w c). destruct (serve w c) as [r w']. by apply IH, Hk.
Qed.

(** ** Environments over call histories *)

Record event := Ev { ev_call : call; ev_resp : resp ev_call }.

(** The most recent event first. *)
Abbreviation history := (list event).

(** The environment that answers anything, remembers what happened, accepts
    the calls [allow] and any stop [abort]. *)
Definition hist_env (allow : history -> call -> Prop) (abort : stop -> Prop) : env history :=
  mkEnv (fun h c r h' => h' = Ev c r :: h) allow (fun _ s => abort s).

(** As [hist_env], with answers restricted by [rely]. *)
Definition rely_env (rely : history -> event -> Prop) (allow : history -> call -> Prop)
    (abort : stop -> Prop) : env history :=
  mkEnv (fun h c r h' => rely h (Ev c r) /\ h' = Ev c r :: h) allow (fun _ s => abort s).

(** As [hist_env], with stops accepted according to what happened. *)
Definition log_env (allow : history -> call -> Prop) (abort : history -> stop -> Prop) : env history :=
  mkEnv (fun h c r h' => h' = Ev c r :: h) allow abort.

(** Every call satisfies [P]. *)
Definition only (P : call -> Prop) : env history := hist_env (fun _ => P) (fun _ => True).

(** No panic, whatever the API server answers. *)
Definition no_panic : env history := hist_env (fun _ _ => True) (fun s => match s with Panicked _ => False | _ => True end).

(** ** Traces *)

(** [trace m t a]: an execution of [m] that makes the calls of [t], in order,
    with these responses, and returns [a]. *)
Inductive trace {A} : prog A -> list event -> A -> Prop :=
| trace_ret a : trace (Ret a) [] a
| trace_vis c k r t a : trace (k r) t a -> trace (Vis c k) (Ev c r :: t) a.

Lemma trace_ret_iff {A} (a b : A) t : trace (Ret a) t b <-> t = [] /\ b = a.
Proof.
  split; [|by intros [-> ->]; constructor].
  remember (Ret a) as m eqn:Hm. intros H. destruct H; [by injection Hm as <-|done].
Qed.

Lemma trace_vis_iff {A} c (k : resp c -> prog A) t a :
  trace (Vis c k) t a <-> exists r t', t = Ev c r :: t' /\ trace (k r) t' a.
Proof.
  split; [|by intros (r & t' & -> & H); constructor].
  set (P := fun m t => match m with
    | Vis c k => exists r t', t = Ev c r :: t' /\ trace (k r) t' a | _ => True end).
  intros H. enough (P (Vis c k) t) by done. destruct H; [done|]. simpl. by eauto.
Qed.

Lemma trace_stop {A} s t (a : A) : ~ trace (Stop s) t a.
Proof. intros H. remember (Stop s) as m eqn:Hm. by destruct H. Qed.

Lemma trace_pbind {A B} (m : prog A) (f : A -> prog B) t b :
  trace (pbind m f) t b <-> exists t1 t2 a, t = t1 ++ t2 /\ trace m t1 a /\ trace (f a) t2 b.
Proof.
  revert t. induction m as [a|s|c k IH]; intros t; simpl.
  - split.
    + intros H. exists [], t, a. split; [done|]. split; [constructor|done].
    + intros (t1 & t2 & a' & -> & [-> ->]%trace_ret_iff & H). done.
  - split; [by intros ?%trace_stop|]. by intros (? & ? & ? & _ & ?%trace_stop & _).
  - rewrite trace_vis_iff. split.
    + intros (r & t' & -> & (t1 & t2 & a & -> & H1 & H2)%IH).
      exists (Ev c r :: t1), t2, a. split; [done|]. split; [by constructor|done].
    + intros (t1 & t2 & a & -> & (r & t' & -> & H1)%trace_vis_iff & H2).
      exists r, (t' ++ t2). split; [done|]. apply IH. by exists t', t2, a.
Qed.

Lemma trace_mthen {S A B} (m : M S A) (f : A -> M S B) s t b s' :
  trace (mthen m f s) t (b, s') <->
  exists t1 t2 a s1, t = t1 ++ t2 /\ trace (m s) t1 (a, s1) /\ trace (f a s1) t2 (b, s').
Proof.
  unfold mthen. rewrite trace_pbind. split.
  - intros (t1 & t2 & [a s1] & H). by exists t1, t2, a, s1.
  - intros (t1 & t2 & a & s1 & H). by exists t1, t2, (a, s1).
Qed.

Lemma trace_pdefer {A} c (m : prog A) t a :
  trace (pdefer c m) t a <-> exists t' r, t = t' ++ [Ev c r] /\ trace m t' a.
Proof.
  revert t. induction m as [b|[why|code]|c' k IH]; intros t; simpl.
  - rewrite trace_vis_iff. split.
    + intros (r & t' & -> & [-> ->]%trace_ret_iff). exists [], r. split; [done|constructor].
    + intros (t' & r & -> & [-> ->]%trace_ret_iff). exists r, []. split; [done|constructor].
  - rewrite trace_vis_iff. split; [by intros (r & t' & -> & []%trace_stop)|by intros (t' & r & -> & []%trace_stop)].
  - split; [by intros []%trace_stop|by intros (t' & r & -> & []%trace_stop)].
  - rewrite trace_vis_iff. split.
    + intros (r & t' & -> & (t1 & r1 & -> & H)%IH). exists (Ev c' r :: t1), r1. split; [done|by constructor].
    + intros (t' & r & -> & (r1 & t1 & -> & H)%trace_vis_iff). exists r1, (t1 ++ [Ev c r]).
      split; [done|]. apply IH. by exists t1, r.
Qed.

(** What [wp] states of the environment that answers anything holds of every
    trace, with the trace reversed as the history. *)
Lemma wp_trace {A} allow abort (m : prog A) h Q t a :
  wp (hist_env allow abort) m h Q -> trace m t a -> Q (rev t ++ h) a.
Proof.
  intros Hwp Ht. revert h Hwp. induction Ht as [a|c k r t a Ht IH]; intros h; [done|].
  intros [_ Hk]. specialize (Hk r _ eq_refl). apply IH in Hk.
  simpl. by rewrite <- app_assoc.
Qed.

(** ** Rules for histories *)

Section history_rules.
Context {S : Type} (allow : history -> call -> Prop) (abort : stop -> Prop).
Implicit Types (s : S) (h : history).

Lemma wpM_hist_call c s h (Q : history -> resp c -> S -> Prop) :
  allow h c -> (forall r, Q (Ev c r :: h) r s) ->
  wpM (hist_env allow abort) (do_call c) s h Q.
Proof. intros Ha H. apply wpM_call; [done|]. intros r w' ->. apply H. Qed.

Lemma wpM_log_call aborth c s h (Q : history -> resp c -> S -> Prop) :
  allow h c -> (forall r, Q (Ev c r :: h) r s) ->
  wpM (log_env allow aborth) (do_call c) s h Q.
Proof. intros Ha H. apply wpM_call; [done|]. intros r w' ->. apply H. Qed.

(** Critical sections: the lock is taken before the body and released after
    it. *)
Lemma wpM_locked {A} (E : env history) acquire release (body : M S A) s h Q :
  (forall h c r h', env_step E h c r h' -> h' = Ev c r :: h) ->
  (forall h why, env_abort E h (Panicked why) -> env_allow E h release /\
     forall r, env_abort E (Ev release r :: h) (Panicked why)) ->
  env_allow E h acquire ->
  (forall r, wpM E body s (Ev acquire r :: h) (fun h' a s' =>
     env_allow E h' release /\ forall r, Q (Ev release r :: h') a s')) ->
  wpM E (mthen (do_call acquire) (fun _ => defer release body)) s h Q.
Proof.
  intros He Hp Ha Hb. apply wpM_bind, wpM_call; [done|]. intros r h1 ->%He. apply (wpM_defer _ (env_abort E)).
  - intros h' why Hh. destruct (Hp h' why Hh) as [H1 H2]. split; [done|]. by intros r' h2 ->%He.
  - done.
  - rewrite env_eta. eapply wpM_mono; [apply Hb|]. intros h2 a s2 [H1 H2]. split; [done|]. by intros r' h3 ->%He.
Qed.

(** The same where the release is always accepted and stops are accepted
    whatever happened. *)
Lemma wpM_section {A} (E : env history) m acquire release (body : M S A) s h Q :
  (forall h c r h', env_step E h c r h' -> h' = Ev c r :: h) ->
  (forall h h' st, env_abort E h st -> env_abort E h' st) ->
  (forall h, env_allow E h (CMutex m release)) -> env_allow E h (CMutex m acquire) ->
  wpM E body s (Ev (CMutex m acquire) tt :: h) (fun h' a s' => Q (Ev (CMutex m release) tt :: h') a s') ->
  wpM E (mthen (do_call (CMutex m acquire)) (fun _ => defer (CMutex m release) body)) s h Q.
Proof.
  intros He Hs Hr Ha Hb. apply wpM_locked; [done| |done|].
  - intros h' why Hh. split; [done|]. intros r. by eapply Hs.
  - intros []. eapply wpM_mono; [exact Hb|]. intros h' a s' HQ. split; [done|]. by intros [].
Qed.

Lemma wpM_rely_call rely c s h (Q : history -> resp c -> S -> Prop) :
  allow h c -> (forall r, rely h (Ev c r) -> Q (Ev c r :: h) r s) ->
  wpM (rely_env rely allow abort) (do_call c) s h Q.
Proof. intros Ha H. apply wpM_call; [done|]. intros r w' [Hr ->]. by apply H. Qed.

End history_rules.

(** Nothing is asked of an execution without postcondition in an environment
    that accepts every call and every stop. *)
Lemma wp_any {W A} (E : env W) (m : prog A) w :
  (forall w c, env_allow E w c) -> (forall w s, env_abort E w s) -> wp E m w (fun _ _ => True).
Proof.
  intros Ha Hs. revert w. induction m as [a|s|c k IH]; intros w; simpl; [done|done|].
  split; [done|]. intros r w' _. apply IH.
Qed.

(** A history only grows. *)
Lemma wp_history_grows {A} allow abort (m : prog A) h Q :
  wp (log_env allow abort) m h Q ->
  wp (log_env allow abort) m h (fun h' a => Q h' a /\ h `suffix_of` h').
Proof.
  revert h. induction m as [a|s|c k IH]; intros h; simpl; [done|done|].
  intros [Ha Hk]. split; [done|]. intros r h' ->. specialize (Hk r _ eq_refl).
  eapply wp_mono; [|by apply IH]. intros h' a [HQ Hh]. split; [done|].
  etrans; [|exact Hh]. by apply suffix_cons_r.
Qed.

Lemma wpM_grows {S A} allow abort (m : M S A) s h Q :
  wpM (hist_env allow abort) m s h Q ->
  wpM (hist_env allow abort) m s h (fun h' a s' => Q h' a s' /\ h `suffix_of` h').
Proof.
  intros H. apply (wp_history_grows allow (fun _ => abort)) in H.
  eapply wp_mono; [|exact H]. by intros h' [a s'].
Qed.

Lemma wpM_log_grows {S A} allow abort (m : M S A) s h Q :
  wpM (log_env allow abort) m s h Q ->
  wpM (log_env allow abort) m s h (fun h' a s' => Q h' a s' /\ h `suffix_of` h').
Proof.
  intros H. apply wp_history_grows in H. eapply wp_mono; [|exact H]. by intros h' [a s'].
Qed.

Lemma suffix_elem_of (h h' : history) e : h `suffix_of` h' -> e ∈ h -> e ∈ h'.
Proof. intros [t ->] He. apply elem_of_app. by right. Qed.
#[export] Hint Resolve suffix_elem_of : addon.

(** Membership of an event in a history given by its events. *)
Ltac in_history := first [ eassumption | left | right; in_history ].

(** Enter a critical section. *)
Ltac wp_section :=
  unfold with_lock, with_rlock;
  apply wpM_section; [by intros ? ? ? ? H; first [exact H | apply H]|done|by intros ?| |].

(** Symbolic execution of the call structure of a program: one rule per
    primitive, and a case split for every [match] in head position. *)
Ltac wp_prim :=
  lazymatch goal with
  | |- wpM _ (mthen _ _) _ _ _ => apply wpM_bind
  | |- wpM _ (mpure _) _ _ _ => apply wpM_pure
  | |- wpM _ get_state _ _ _ => apply wpM_get
  | |- wpM _ (put_state _) _ _ _ => apply wpM_put
  | |- wpM _ (panic _) _ _ _ => apply wpM_panic
  | |- wpM _ (deref _) _ _ _ => apply wpM_deref
  | |- wpM (hist_env _ _) (do_call _) _ _ _ => apply wpM_hist_call
  | |- wpM (rely_env _ _ _) (do_call _) _ _ _ => apply wpM_rely_call
  | |- wpM (log_env _ _) (do_call _) _ _ _ => apply wpM_log_call
  | |- wpM _ (do_call _) _ _ _ => apply wpM_call
  | |- wpM _ (match ?x with _ => _ end) _ _ _ => first [is_var x; destruct x | destruct x eqn:?]
  | |- wpM _ (let '(_, _) := ?x in _) _ _ _ => destruct x eqn:?
  end.
