(* ===== verification/Recorder.v ===== *)
(** * internal/metrics/recorder.go: the metrics recorder

    The recorder keeps, per addon UID, the last observed Available and Paused
    conditions, and derives the [addons_count] gauges from their changes.  A
    Prometheus vector is the finite map from label values to the current
    value; [Inc], [Dec], [Set] and [DeletePartialMatch] update it as their
    documentation says.  Of the two duration summaries only the number of
    observations is kept. *)
From S2P Require Export Effects.

(*@ internal/metrics/recorder.go:28-31 addonConditions *)
Record addonConditions := mkAddonConditions { available : bool; paused : bool }.
#[export] Instance addonConditions_eq : EqDecision addonConditions.
Proof. solve_decision. Defined.

(*@ internal/metrics/recorder.go:47-47 addonCountLabel *)
(*@ internal/metrics/recorder.go:57-61 available *)
Inductive addonCountLabel := label_available | label_paused | label_total.
#[export] Instance addonCountLabel_eq : EqDecision addonCountLabel.
Proof. solve_decision. Defined.

(*@ internal/metrics/recorder.go:20-26 addonState *)
(*@ internal/metrics/recorder.go:33-45 Recorder *)
Record Recorder := mkRecorder {
  conditionMap : gmap string addonConditions;
  addonsCount : addonCountLabel -> Z;
  addonOperatorPaused : Z;
  ocmAPIRequestDuration : nat;
  addonServiceAPIRequestDuration : nat;
  addonHealthInfo : gmap (string * string * string) Z;   (* name, version, reason *)
  reconcileError : gmap (string * string * string) Z     (* controller, reason, cr_name *)
}.

(*@ internal/metrics/recorder.go:63-147 NewRecorder *)
Definition NewRecorder : Recorder := mkRecorder ∅ (fun _ => 0%Z) 0 0 0 ∅ ∅.

Definition count_add (l : addonCountLabel) (d : Z) (r : Recorder) : Recorder :=
  mkRecorder (conditionMap r)
    (fun l' => if decide (l' = l) then (addonsCount r l' + d)%Z else addonsCount r l')
    (addonOperatorPaused r) (ocmAPIRequestDuration r) (addonServiceAPIRequestDuration r)
    (addonHealthInfo r) (reconcileError r).
Definition set_conditionMap (m : gmap string addonConditions) (r : Recorder) : Recorder :=
  mkRecorder m (addonsCount r) (addonOperatorPaused r) (ocmAPIRequestDuration r)
    (addonServiceAPIRequestDuration r) (addonHealthInfo r) (reconcileError r).
Definition set_addonHealthInfo (m : gmap (string * string * string) Z) (r : Recorder) : Recorder :=
  mkRecorder (conditionMap r) (addonsCount r) (addonOperatorPaused r) (ocmAPIRequestDuration r)
    (addonServiceAPIRequestDuration r) m (reconcileError r).

(*@ internal/metrics/recorder.go:159-161 increaseAvailableAddonsCount *)
Definition increaseAvailableAddonsCount : Recorder -> Recorder := count_add label_available 1.
(*@ internal/metrics/recorder.go:163-165 decreaseAvailableAddonsCount *)
Definition decreaseAvailableAddonsCount : Recorder -> Recorder := count_add label_available (-1).
(*@ internal/metrics/recorder.go:167-169 increasePausedAddonsCount *)
Definition increasePausedAddonsCount : Recorder -> Recorder := count_add label_paused 1.
(*@ internal/metrics/recorder.go:171-173 decreasePausedAddonsCount *)
Definition decreasePausedAddonsCount : Recorder -> Recorder := count_add label_paused (-1).
(*@ internal/metrics/recorder.go:175-177 increaseTotalAddonsCount *)
Definition increaseTotalAddonsCount : Recorder -> Recorder := count_add label_total 1.
(*@ internal/metrics/recorder.go:179-181 decreaseTotalAddonsCount *)
Definition decreaseTotalAddonsCount : Recorder -> Recorder := count_add label_total (-1).

(*@ internal/metrics/recorder.go:183-185 RecordOCMAPIRequests *)
Definition RecordOCMAPIRequests (r : Recorder) : Recorder :=
  mkRecorder (conditionMap r) (addonsCount r) (addonOperatorPaused r)
    (S (ocmAPIRequestDuration r)) (addonServiceAPIRequestDuration r) (addonHealthInfo r)
    (reconcileError r).
(*@ internal/metrics/recorder.go:187-189 RecordAddonServiceAPIRequests *)
Definition RecordAddonServiceAPIRequests (r : Recorder) : Recorder :=
  mkRecorder (conditionMap r) (addonsCount r) (addonOperatorPaused r)
    (ocmAPIRequestDuration r) (S (addonServiceAPIRequestDuration r)) (addonHealthInfo r)
    (reconcileError r).

(*@ internal/metrics/recorder.go:191-200 SetAddonOperatorPaused *)
Definition SetAddonOperatorPaused (p : bool) (r : Recorder) : Recorder :=
  mkRecorder (conditionMap r) (addonsCount r) (if p then 1 else 0)%Z
    (ocmAPIRequestDuration r) (addonServiceAPIRequestDuration r) (addonHealthInfo r)
    (reconcileError r).

(** Run [f] when the test holds. *)
Definition when {A} (b : bool) (f : A -> A) : A -> A := if b then f else id.

(** ** Reconcile errors *)

(*@ internal/metrics/recorder.go:49-55 ReconcileError *)
Record ReconcileError := mkReconcileError { re_controller : string; re_isSubReconcilerError : bool }.

(*@ internal/metrics/recorder.go:332-344 NewReconcileError *)
Definition NewReconcileError (controller : string) (isSub : bool) : ReconcileError :=
  mkReconcileError controller isSub.

(*@ internal/metrics/recorder.go:346-366 ReconcileError.Report *)
Definition Report (e : ReconcileError) (err : error) (crName : string) (r : option Recorder)
  : option Recorder :=
  match r with
  | None => None
  | Some r =>
      match errors_As_reconcile err with
      | None => Some r
      | Some reason =>
          let k := (re_controller e, reason, crName) in
          Some (mkRecorder (conditionMap r) (addonsCount r) (addonOperatorPaused r)
            (ocmAPIRequestDuration r) (addonServiceAPIRequestDuration r) (addonHealthInfo r)
            (<[k := (default 0 (reconcileError r !! k) + 1)%Z]> (reconcileError r)))
      end
  end.

Section Recorder.
Context {L : Lib}.

(** The text of an error. *)
Fixpoint Error (e : error) : string :=
  match e with
  | ErrAPI _ m | ErrNew m | ErrVar m | ErrReconcile m => m
  | ErrWrap p e' => p +:+ Error e'
  | ErrOCM st c r => "HTTP " +:+ show_Z st +:+ ": " +:+ c +:+ ": " +:+ r
  | ErrMulti es => multierror_Error (map Error es)
  end.

(** Only the second error stays in the chain: the first one is printed. *)
(*@ internal/metrics/recorder.go:372-385 ReconcileError.Join *)
Definition Join (err1 err2 : option error) : option error :=
  match err1, err2 with
  | None, Some e2 => Some e2
  | Some e1, None => Some e1
  | Some e1, Some e2 => Some (ErrWrap (Error e1 +:+ ": ") e2)
  | None, None => None
  end.

(*@ internal/metrics/recorder.go:280-326 recordAddonHealthInfo *)
Definition recordAddonHealthInfo (addon : Addon) (healthReasonOfPods : string) (r : Recorder)
  : Recorder :=
  let healthCond := FindStatusCondition (Conditions (a_Status addon)) Available in
  let '(healthStatus, healthReason) :=
    match healthCond with
    | None => (2%Z, "Unknown")
    | Some c =>
        if cond_Status c =s? ConditionFalse
        then (0%Z, if str_empty healthReasonOfPods then cond_Reason c else healthReasonOfPods)
        else if cond_Status c =s? ConditionTrue then (1%Z, cond_Reason c)
        else (2%Z, cond_Reason c)
    end in
  let addonVersion :=
    if str_empty (ObservedVersion (a_Status addon)) then "0.0.0"
    else ObservedVersion (a_Status addon) in
  let kept := filter (fun p => p.1.1.1 <> a_Name addon) (addonHealthInfo r) in
  set_addonHealthInfo (<[(a_Name addon, addonVersion, healthReason) := healthStatus]> kept) r.

(*@ internal/metrics/recorder.go:206-278 RecordAddonMetrics *)
Definition RecordAddonMetrics (addon : Addon) (healthReasonOfPods : string) (r : Recorder)
  : Recorder :=
  let r := recordAddonHealthInfo addon healthReasonOfPods r in
  let conds := Conditions (a_Status addon) in
  let currCondition :=
    mkAddonConditions (IsStatusConditionTrue conds Available)
      (IsStatusConditionTrue conds PausedCondition) in
  let addonUID := UID (a_Meta addon) in
  match conditionMap r !! addonUID with
  | None =>
      let r := set_conditionMap (<[addonUID := currCondition]> (conditionMap r)) r in
      let r := increaseTotalAddonsCount r in
      let r := when (available currCondition) increaseAvailableAddonsCount r in
      when (paused currCondition) increasePausedAddonsCount r
  | Some oldCondition =>
      let r :=
        if bool_decide (oldCondition <> currCondition) then
          let r :=
            if bool_decide (available oldCondition <> available currCondition)
            then if available currCondition then increaseAvailableAddonsCount r
                 else decreaseAvailableAddonsCount r
            else r in
          let r :=
            if bool_decide (paused oldCondition <> paused currCondition)
            then if paused currCondition then increasePausedAddonsCount r
                 else decreasePausedAddonsCount r
            else r in
          set_conditionMap (<[addonUID := currCondition]> (conditionMap r)) r
        else r in
      if Time_IsZero (DeletionTimestamp (a_Meta addon)) then r
      else
        let r := decreaseTotalAddonsCount r in
        let r := when (available currCondition) decreaseAvailableAddonsCount r in
        let r := when (paused currCondition) decreasePausedAddonsCount r in
        set_conditionMap (delete addonUID (conditionMap r)) r
  end.

(** ** The gauges count the condition map *)

Definition count_if (f : addonConditions -> bool) (m : gmap string addonConditions) : Z :=
  Z.of_nat (size (filter (fun p => f p.2 = true) m)).

(** The gauges are the aggregates of the per-addon conditions. *)
Definition gauges_ok (r : Recorder) : Prop :=
  addonsCount r label_total = Z.of_nat (size (conditionMap r)) /\
  addonsCount r label_available = count_if available (conditionMap r) /\
  addonsCount r label_paused = count_if paused (conditionMap r).

Lemma count_if_insert_new f m k c :
  m !! k = None -> count_if f (<[k := c]> m) = (count_if f m + if f c then 1 else 0)%Z.
Proof.
  intros Hk. unfold count_if. destruct (f c) eqn:Hc.
  - rewrite map_filter_insert_True by done. rewrite map_size_insert_None; [lia|].
    apply map_lookup_filter_None. by left.
  - rewrite map_filter_insert_False by (simpl; congruence). rewrite delete_id by done. lia.
Qed.

Lemma count_if_delete f m k c :
  m !! k = Some c -> count_if f (delete k m) = (count_if f m - if f c then 1 else 0)%Z.
Proof.
  intros Hk.
  pose proof (count_if_insert_new f (delete k m) k c (lookup_delete_eq m k)) as H.
  rewrite insert_delete_eq, insert_id in H by done. lia.
Qed.

Lemma count_if_insert f m k c d :
  m !! k = Some d ->
  count_if f (<[k := c]> m) =
    (count_if f m + (if f c then 1 else 0) - (if f d then 1 else 0))%Z.
Proof.
  intros Hk. rewrite <- insert_delete_eq.
  rewrite count_if_insert_new by apply lookup_delete_eq.
  erewrite count_if_delete by done. lia.
Qed.

Lemma gauges_ok_new : gauges_ok NewRecorder.
Proof. done. Qed.

Lemma gauges_ok_health addon h r : gauges_ok r -> gauges_ok (recordAddonHealthInfo addon h r).
Proof.
  unfold recordAddonHealthInfo.
  by destruct (match FindStatusCondition _ _ with Some _ => _ | None => _ end).
Qed.

Lemma condition_map_health addon h r :
  conditionMap (recordAddonHealthInfo addon h r) = conditionMap r.
Proof.
  unfold recordAddonHealthInfo.
  by destruct (match FindStatusCondition _ _ with Some _ => _ | None => _ end).
Qed.

Lemma addons_count_health addon h r :
  addonsCount (recordAddonHealthInfo addon h r) = addonsCount r.
Proof.
  unfold recordAddonHealthInfo.
  by destruct (match FindStatusCondition _ _ with Some _ => _ | None => _ end).
Qed.

(** What one observation of a known addon stores, before deletion. *)
Lemma gauges_ok_observe addon h r : gauges_ok r -> gauges_ok (RecordAddonMetrics addon h r).
Proof.
  intros H0. unfold RecordAddonMetrics. apply (gauges_ok_health addon h) in H0.
  set (r0 := recordAddonHealthInfo addon h r) in *.
  set (cur := mkAddonConditions _ _).
  destruct (conditionMap r0 !! UID (a_Meta addon)) as [old|] eqn:Hk.
  - destruct H0 as (Ht & Ha & Hp).
    match goal with |- gauges_ok (if _ then ?r1 else _) => set (r1' := r1) end.
    assert (gauges_ok r1' /\ conditionMap r1' !! UID (a_Meta addon) = Some cur)
      as [H1 Hk1].
    { unfold r1'. destruct (bool_decide (old <> cur)) eqn:Hne; bools.
      - destruct old as [oa op], cur as [ca cp]; simpl.
        unfold gauges_ok, increaseAvailableAddonsCount, decreaseAvailableAddonsCount,
          increasePausedAddonsCount, decreasePausedAddonsCount.
        destruct oa, ca, op, cp; simpl; rewrite ?map_size_insert_Some by eauto;
          erewrite !count_if_insert by exact Hk; simpl; rewrite lookup_insert_eq;
          (split; [repeat split; lia|done]).
      - apply dec_stable in Hne as ->. done. }
    destruct (Time_IsZero (DeletionTimestamp (a_Meta addon))); [done|].
    destruct H1 as (Ht1 & Ha1 & Hp1). unfold gauges_ok, when.
    assert (0 < size (conditionMap r1')).
    { apply Nat.neq_0_lt_0. intros Hz%map_size_empty_inv. rewrite Hz in Hk1. done. }
    destruct cur as [ca cp]; destruct ca, cp; simpl; rewrite map_size_delete_Some by eauto;
      erewrite !count_if_delete by exact Hk1; simpl; repeat split; lia.
  - destruct H0 as (Ht & Ha & Hp). unfold gauges_ok, when.
    destruct cur as [ca cp]; destruct ca, cp; simpl; rewrite map_size_insert_None by done;
      rewrite !count_if_insert_new by done; simpl; repeat split; lia.
Qed.

(** A run of the recorder: a sequence of observations. *)
Definition observe_all (os : list (Addon * string)) (r : Recorder) : Recorder :=
  fold_left (fun r o => RecordAddonMetrics o.1 o.2 r) os r.

Lemma gauges_ok_observe_all os r : gauges_ok r -> gauges_ok (observe_all os r).
Proof.
  revert r. induction os as [|o os IH]; intros r H; [done|]. by apply IH, gauges_ok_observe.
Qed.

(** ** What the recorder knows *)

Definition conditions_of (addon : Addon) : addonConditions :=
  mkAddonConditions (IsStatusConditionTrue (Conditions (a_Status addon)) Available)
    (IsStatusConditionTrue (Conditions (a_Status addon)) PausedCondition).

(** The conditions kept for a UID after one observation: a known Addon that is
    being deleted is forgotten, any other one is known by its conditions. *)
Definition track (uid : string) (known : option addonConditions) (o : Addon * string)
  : option addonConditions :=
  if UID (a_Meta o.1) =s? uid then
    match known with
    | Some _ => if Time_IsZero (DeletionTimestamp (a_Meta o.1)) then Some (conditions_of o.1) else None
    | None => Some (conditions_of o.1)
    end
  else known.

Lemma conditionMap_when b f r :
  (forall r, conditionMap (f r) = conditionMap r) -> conditionMap (when b f r) = conditionMap r.
Proof. by destruct b. Qed.

Lemma conditionMap_observe uid addon h r :
  conditionMap (RecordAddonMetrics addon h r) !! uid = track uid (conditionMap r !! uid) (addon, h).
Proof.
  unfold RecordAddonMetrics, track. rewrite condition_map_health. simpl.
  fold (conditions_of addon). set (cur := conditions_of addon).
  destruct (conditionMap r !! UID (a_Meta addon)) as [old|] eqn:Hk.
  - set (r1 := if bool_decide (old <> cur) then _ else _).
    assert (conditionMap r1 = <[UID (a_Meta addon) := cur]> (conditionMap r)) as H1.
    { unfold r1. destruct (bool_decide (old <> cur)) eqn:Hne; bools.
      - simpl. f_equal. trans (conditionMap (recordAddonHealthInfo addon h r)); [|apply condition_map_health].
        by repeat case_match.
      - apply dec_stable in Hne as ->. by rewrite condition_map_health, insert_id. }
    destruct (Time_IsZero _).
    + rewrite H1. destruct (UID (a_Meta addon) =s? uid) eqn:Hu; bools.
      * subst. by rewrite Hk, lookup_insert_eq.
      * by rewrite lookup_insert_ne.
    + simpl. rewrite !conditionMap_when by done. simpl. rewrite H1.
      destruct (UID (a_Meta addon) =s? uid) eqn:Hu; bools.
      * subst. by rewrite Hk, lookup_delete_eq.
      * by rewrite lookup_delete_ne, lookup_insert_ne.
  - rewrite !conditionMap_when by done.
    trans (<[UID (a_Meta addon) := cur]> (conditionMap r) !! uid); [done|].
    destruct (UID (a_Meta addon) =s? uid) eqn:Hu; bools.
    + subst. by rewrite Hk, lookup_insert_eq.
    + by rewrite lookup_insert_ne.
Qed.

Lemma conditionMap_observe_all uid os r :
  conditionMap (observe_all os r) !! uid = fold_left (track uid) os (conditionMap r !! uid).
Proof.
  revert r. induction os as [|[a h] os IH]; intros r; [done|].
  simpl. by rewrite IH, conditionMap_observe.
Qed.

Lemma conditionMap_step addon h r :
  conditionMap (RecordAddonMetrics addon h r) =
    match conditionMap r !! UID (a_Meta addon), Time_IsZero (DeletionTimestamp (a_Meta addon)) with
    | Some _, false => delete (UID (a_Meta addon)) (conditionMap r)
    | _, _ => <[UID (a_Meta addon) := conditions_of addon]> (conditionMap r)
    end.
Proof.
  apply map_eq. intros uid. rewrite conditionMap_observe. unfold track. simpl.
  destruct (UID (a_Meta addon) =s? uid) eqn:Hu; bools.
  - subst uid. destruct (conditionMap r !! _), (Time_IsZero (DeletionTimestamp (a_Meta addon)));
      by rewrite ?lookup_insert_eq, ?lookup_delete_eq.
  - destruct (conditionMap r !! UID _), (Time_IsZero (DeletionTimestamp (a_Meta addon)));
      by rewrite ?lookup_insert_ne, ?lookup_delete_ne.
Qed.

(** Observed again and again while it is being deleted, an unknown Addon is
    known after every odd number of observations. *)
Lemma conditionMap_deleted addon h n : forall r,
  Time_IsZero (DeletionTimestamp (a_Meta addon)) = false ->
  conditionMap r !! UID (a_Meta addon) = None ->
  conditionMap (observe_all (repeat (addon, h) n) r) !! UID (a_Meta addon) =
    if Nat.even n then None else Some (conditions_of addon).
Proof.
  intros r Hd Hr. rewrite conditionMap_observe_all, Hr. clear Hr r.
  assert (forall k, fold_left (track (UID (a_Meta addon))) (repeat (addon, h) n) k =
    if Nat.even n then if k then (if Nat.eqb n 0 then k else Some (conditions_of addon)) else None
    else if k then None else Some (conditions_of addon)) as H; [|by rewrite H].
  induction n as [|n IH]; intros k; [by destruct k|]. cbn [repeat fold_left]. rewrite IH.
  rewrite Nat.even_succ, <- Nat.negb_even. unfold track. simpl. rewrite Hd, bool_decide_true by done.
  destruct (Nat.even n) eqn:Hn, k; simpl; try done. by destruct n.
Qed.

(** C38: After any sequence of observations, the three gauges of addons_count are
    the number of known Addons, of the available and of the paused ones among
    them. One more observation of an Addon stores under its UID whether it is
    available and whether it is paused, and keeps all other Addons, except
    that an Addon which is known and being deleted is forgotten. The code
    forgets only an Addon that it knows: one that is observed again while it is
    being deleted is counted in anew, then out, and so on, so that an
    unknown Addon, observed n times in a row while it is being deleted, is
    counted exactly when n is odd. *)
Theorem gauges_count_known_addons (os : list (Addon * string)) (addon : Addon) (h : string) :
  let r := observe_all os NewRecorder in
  let uid := UID (a_Meta addon) in
  let deleting := negb (Time_IsZero (DeletionTimestamp (a_Meta addon))) in
  let conditions := mkAddonConditions (IsStatusConditionTrue (Conditions (a_Status addon)) Available)
    (IsStatusConditionTrue (Conditions (a_Status addon)) PausedCondition) in
  addonsCount r label_total = Z.of_nat (size (conditionMap r)) /\
  addonsCount r label_available = count_if available (conditionMap r) /\
  addonsCount r label_paused = count_if paused (conditionMap r) /\
  conditionMap (RecordAddonMetrics addon h r) =
    (if deleting && (match conditionMap r !! uid with Some _ => true | None => false end) then delete uid (conditionMap r)
     else <[uid := conditions]> (conditionMap r)) /\
  (deleting = true -> conditionMap r !! uid = None -> forall n,
     conditionMap (observe_all (repeat (addon, h) n) r) !! uid =
       if Nat.even n then None else Some conditions).
Proof.
  intros r uid deleting conditions.
  destruct (gauges_ok_observe_all os NewRecorder gauges_ok_new) as (H1 & H2 & H3).
  do 3 (split; [done|]). split.
  - rewrite conditionMap_step. fold uid. unfold deleting.
    destruct (conditionMap r !! uid); [by destruct (Time_IsZero _)|by rewrite andb_false_r].
  - intros Hd%negb_true_iff Hr n. by apply conditionMap_deleted.
Qed.

(** An Addon that is observed again while it is being deleted is counted
    again: only the first observation forgets it. *)
Lemma deleted_addon_counted_again (addon : Addon) (h : string) :
  Time_IsZero (DeletionTimestamp (a_Meta addon)) = false ->
  addonsCount (observe_all [(addon, h); (addon, h); (addon, h)] NewRecorder) label_total = 1%Z.
Proof.
  intros Hd. destruct (gauges_ok_observe_all [(addon, h); (addon, h); (addon, h)] NewRecorder gauges_ok_new)
    as (-> & _ & _).
  assert (conditionMap (observe_all [(addon, h); (addon, h); (addon, h)] NewRecorder) =
    {[ UID (a_Meta addon) := conditions_of addon ]}) as ->; [|by rewrite map_size_singleton].
  apply map_eq. intros uid. rewrite conditionMap_observe_all. simpl. unfold track. simpl.
  rewrite Hd, lookup_empty. destruct (_ =s? uid) eqn:Hu; bools; subst.
  - by rewrite lookup_singleton_eq.
  - by rewrite lookup_singleton_ne.
Qed.

(** The health entries of an Addon's name. *)
Definition health_entries (name : string) (r : Recorder) : gmap (string * string * string) Z :=
  filter (fun p => p.1.1.1 = name) (addonHealthInfo r).

Lemma health_info_recorded addon h r :
  exists version reason,
    addonHealthInfo (recordAddonHealthInfo addon h r) =
      <[(a_Name addon, version, reason) :=
          match FindStatusCondition (Conditions (a_Status addon)) Available with
          | None => 2%Z
          | Some c => if cond_Status c =s? ConditionFalse then 0%Z
                      else if cond_Status c =s? ConditionTrue then 1%Z else 2%Z
          end]> (filter (fun p => p.1.1.1 <> a_Name addon) (addonHealthInfo r)) /\
    version = if str_empty (ObservedVersion (a_Status addon)) then "0.0.0"
              else ObservedVersion (a_Status addon).
Proof.
  unfold recordAddonHealthInfo. destruct (FindStatusCondition _ _) as [c|]; [|by eexists _, _].
  destruct (cond_Status c =s? ConditionFalse); [by eexists _, _|].
  destruct (cond_Status c =s? ConditionTrue); by eexists _, _.
Qed.

Lemma health_info_observe addon h r :
  addonHealthInfo (RecordAddonMetrics addon h r) = addonHealthInfo (recordAddonHealthInfo addon h r).
Proof. unfold RecordAddonMetrics, when. by repeat case_match. Qed.

(** An observation leaves one health entry for the name of the Addon, with
    its observed version, and 1 when the Addon is available, 0 when it is not,
    2 when that is not known; the entries of other names are kept. *)
Theorem one_health_entry_per_addon (addon : Addon) (h : string) (r : Recorder) :
  (exists version reason, health_entries (a_Name addon) (RecordAddonMetrics addon h r) =
     {[ (a_Name addon, version, reason) :=
        match FindStatusCondition (Conditions (a_Status addon)) Available with
        | None => 2%Z
        | Some c => if cond_Status c =s? ConditionFalse then 0%Z
                    else if cond_Status c =s? ConditionTrue then 1%Z else 2%Z
        end ]} /\
     version = if str_empty (ObservedVersion (a_Status addon)) then "0.0.0"
               else ObservedVersion (a_Status addon)) /\
  forall name, name <> a_Name addon ->
    health_entries name (RecordAddonMetrics addon h r) = health_entries name r.
Proof.
  unfold health_entries. rewrite health_info_observe.
  destruct (health_info_recorded addon h r) as (version & reason & -> & Hv). split.
  - exists version, reason. split; [|done]. rewrite map_filter_insert_True by done.
    apply map_eq. intros k. destruct (decide (k = (a_Name addon, version, reason))) as [->|Hk].
    + by rewrite lookup_insert_eq, lookup_singleton_eq.
    + rewrite lookup_insert_ne, lookup_singleton_ne by done. apply map_lookup_filter_None.
      right. intros v [_ H]%map_lookup_filter_Some. by simpl in *.
  - intros name Hn. rewrite map_filter_insert_False by (simpl; congruence).
    apply map_eq. intros k. rewrite !map_lookup_filter, lookup_delete.
    destruct (decide (_ = k)) as [<-|Hk]; simpl.
    + destruct (addonHealthInfo r !! _); simpl; [|done]. rewrite option_guard_False; [done|congruence].
    + rewrite map_lookup_filter. destruct (addonHealthInfo r !! k) as [z|]; simpl; [|done].
      destruct (decide (k.1.1 = name)) as [E|E].
      * rewrite (option_guard_True (k.1.1 <> a_Name addon)) by congruence. done.
      * rewrite (option_guard_False (k.1.1 = name)) by done. by destruct (guard (_ <> _)).
Qed.
End Recorder.

#[export] Hint Resolve gauges_ok_new gauges_ok_health gauges_ok_observe : addon.
