(* ===== verification/ResourceHandler.v ===== *)
(** * controllers/addon/handler: mapping OLM Operator events to Addons

    The handler keeps two maps, from Addon keys to the Operator keys they
    registered and from Operator keys back to one Addon.  The model is the
    pair of maps; the mutex makes each operation one step. *)
From S2P Require Export Recorder.

Module Handler.

(*@ controllers/addon/handler/operator_resource_eventhandler.go:16-20 OperatorResourceHandler *)
Record OperatorResourceHandler := mkHandler {
  addonKeytoOperatorKeys : gmap ObjectKey (list ObjectKey);
  operatorKeyToAddon : gmap ObjectKey ObjectKey
}.

(*@ controllers/addon/handler/operator_resource_eventhandler.go:22-27 NewOperatorResourceHandler *)
Definition NewOperatorResourceHandler : OperatorResourceHandler := mkHandler ∅ ∅.

(** The key added to the work queue, if any. *)
(*@ controllers/addon/handler/operator_resource_eventhandler.go:50-61 enqueueObject *)
Definition enqueueObject (h : OperatorResourceHandler) (operatorKey : ObjectKey)
  : option ObjectKey :=
  operatorKeyToAddon h !! operatorKey.

Inductive watch_event :=
| CreateEvent (o : Operator)
| UpdateEvent (old new : Operator)
| DeleteEvent (o : Operator)
| GenericEvent (o : Operator).

(*@ controllers/addon/handler/operator_resource_eventhandler.go:29-48 Create *)
Definition handle_event (h : OperatorResourceHandler) (e : watch_event) : option ObjectKey :=
  match e with
  | CreateEvent o => enqueueObject h (meta_key (op_Meta o))
  | UpdateEvent _ new => enqueueObject h (meta_key (op_Meta new))
  | DeleteEvent o => enqueueObject h (meta_key (op_Meta o))
  | GenericEvent o => enqueueObject h (meta_key (op_Meta o))
  end.

(*@ controllers/addon/handler/operator_resource_eventhandler.go:94-101 isKeyPresent *)
Fixpoint isKeyPresent (exiting : list ObjectKey) (key : ObjectKey) : bool :=
  match exiting with
  | [] => false
  | k :: l => if bool_decide (k = key) then true else isKeyPresent l key
  end.

Definition keys_of (h : OperatorResourceHandler) (addonKey : ObjectKey) : list ObjectKey :=
  default [] (addonKeytoOperatorKeys h !! addonKey).

(*@ controllers/addon/handler/operator_resource_eventhandler.go:63-73 Free *)
Definition Free (addonKey : ObjectKey) (h : OperatorResourceHandler) : OperatorResourceHandler :=
  mkHandler
    (delete addonKey (addonKeytoOperatorKeys h))
    (fold_left (fun m operatorKey => delete operatorKey m) (keys_of h addonKey)
       (operatorKeyToAddon h)).

(*@ controllers/addon/handler/operator_resource_eventhandler.go:75-92 UpdateMap *)
Definition UpdateMap (addonKey operatorKey : ObjectKey) (h : OperatorResourceHandler)
  : bool * OperatorResourceHandler :=
  let '(changed, fwd) :=
    if negb (isKeyPresent (keys_of h addonKey) operatorKey)
    then (true, <[addonKey := keys_of h addonKey ++ [operatorKey]]> (addonKeytoOperatorKeys h))
    else (false, addonKeytoOperatorKeys h) in
  match operatorKeyToAddon h !! operatorKey with
  | Some aKey =>
      if bool_decide (aKey <> addonKey)
      then (true, mkHandler fwd (<[operatorKey := addonKey]> (operatorKeyToAddon h)))
      else (changed, mkHandler fwd (operatorKeyToAddon h))
  | None => (true, mkHandler fwd (<[operatorKey := addonKey]> (operatorKeyToAddon h)))
  end.

(** ** Lemmas *)

Lemma isKeyPresent_spec l k : isKeyPresent l k = true <-> k ∈ l.
Proof.
  induction l as [|x l IH]; simpl; [set_solver|].
  destruct (bool_decide (x = k)) eqn:E; bools; [set_solver|].
  rewrite IH. set_solver.
Qed.

Lemma free_lookup l m k :
  fold_left (fun (m : gmap ObjectKey ObjectKey) operatorKey => delete operatorKey m) l m !! k =
    if decide (k ∈ l) then None else m !! k.
Proof.
  revert m. induction l as [|x l IH]; intros m; cbn [fold_left]; [by rewrite decide_False by set_solver|].
  rewrite IH. destruct (decide (k ∈ l)), (decide (k ∈ x :: l)); try done; try set_solver.
  - assert (x = k) as -> by set_solver. apply lookup_delete_eq.
  - apply lookup_delete_ne. set_solver.
Qed.

(** Every reverse entry has its forward entry, and no Addon lists an Operator
    twice. *)
Definition inv (h : OperatorResourceHandler) : Prop :=
  (forall op a, operatorKeyToAddon h !! op = Some a -> op ∈ keys_of h a) /\
  (forall a, NoDup (keys_of h a)).

Lemma inv_new : inv NewOperatorResourceHandler.
Proof. split; [done|]. intros a. constructor. Qed.

Lemma keys_of_insert h a l rev b :
  keys_of (mkHandler (<[a := l]> (addonKeytoOperatorKeys h)) rev) b =
    if decide (a = b) then l else keys_of h b.
Proof. unfold keys_of. simpl. rewrite lookup_insert. by case_decide. Qed.

Lemma keys_of_update a op h b :
  keys_of (UpdateMap a op h).2 b =
    if bool_decide (a = b) && negb (isKeyPresent (keys_of h a) op)
    then keys_of h a ++ [op] else keys_of h b.
Proof.
  unfold UpdateMap. destruct (isKeyPresent (keys_of h a) op) eqn:E; simpl;
    destruct (operatorKeyToAddon h !! op) as [a'|]; try destruct (bool_decide (a' <> a));
    simpl; rewrite ?andb_false_r, ?andb_true_r, ?keys_of_insert; try done;
    (destruct (decide (a = b)) as [->|]; [by rewrite bool_decide_true|by rewrite bool_decide_false]).
Qed.

Lemma rev_update a op h k :
  operatorKeyToAddon (UpdateMap a op h).2 !! k =
    if bool_decide (op = k) then Some a else operatorKeyToAddon h !! k.
Proof.
  unfold UpdateMap.
  destruct (isKeyPresent (keys_of h a) op); simpl;
    destruct (operatorKeyToAddon h !! op) as [a'|] eqn:Hop;
    try (destruct (bool_decide (a' <> a)) eqn:Ha; bools; try (apply dec_stable in Ha as ->));
    simpl; rewrite ?lookup_insert;
    (destruct (decide (op = k)) as [->|]; [by rewrite bool_decide_true|by rewrite bool_decide_false]).
Qed.

Lemma keys_of_free a h b : keys_of (Free a h) b = if decide (a = b) then [] else keys_of h b.
Proof. unfold Free, keys_of. simpl. rewrite lookup_delete. by case_decide. Qed.

Lemma rev_free a h k :
  operatorKeyToAddon (Free a h) !! k =
    if decide (k ∈ keys_of h a) then None else operatorKeyToAddon h !! k.
Proof. apply free_lookup. Qed.

Lemma inv_update a op h : inv h -> inv (UpdateMap a op h).2.
Proof.
  intros [H1 H2]. split.
  - intros k b. rewrite rev_update, keys_of_update.
    destruct (bool_decide (op = k)) eqn:Ek; bools.
    + intros [= <-]. subst. rewrite bool_decide_true by done. simpl.
      destruct (isKeyPresent (keys_of h a) k) eqn:Ep; simpl; [by apply isKeyPresent_spec|set_solver].
    + intros Hk. apply H1 in Hk. destruct (_ && _) eqn:Eb; [|done]. bools. set_solver.
  - intros b. rewrite keys_of_update. destruct (_ && _) eqn:Eb; [|apply H2]. bools. subst.
    apply NoDup_app. split; [apply H2|]. split; [|apply NoDup_singleton].
    intros x Hx ->%list_elem_of_singleton. apply isKeyPresent_spec in Hx. congruence.
Qed.

Lemma inv_free a h : inv h -> inv (Free a h).
Proof.
  intros [H1 H2]. split.
  - intros k b. rewrite rev_free, keys_of_free. destruct (decide (k ∈ keys_of h a)); [done|].
    intros Hk%H1. case_decide; [by subst|done].
  - intros b. rewrite keys_of_free. case_decide; [constructor|apply H2].
Qed.

(** ** Reachable handlers *)

Inductive step : OperatorResourceHandler -> OperatorResourceHandler -> Prop :=
| step_update a op h : step h (UpdateMap a op h).2
| step_free a h : step h (Free a h).

Inductive reachable : OperatorResourceHandler -> Prop :=
| reach_new : reachable NewOperatorResourceHandler
| reach_step h h' : reachable h -> step h h' -> reachable h'.

Lemma reachable_inv h : reachable h -> inv h.
Proof.
  induction 1 as [|h h' _ IH Hs]; [apply inv_new|].
  destruct Hs; [by apply inv_update|by apply inv_free].
Qed.

(** ** Routing of events *)

Lemma update_fixpoint a op h :
  operatorKeyToAddon h !! op = Some a -> op ∈ keys_of h a -> UpdateMap a op h = (false, h).
Proof.
  intros Hr Hk. unfold UpdateMap. apply isKeyPresent_spec in Hk. rewrite Hk, Hr. simpl.
  rewrite bool_decide_false by (intros H; by apply H). by destruct h.
Qed.

(** C32: In every handler that the operator can reach, registering an Operator
    for an Addon routes every event of that Operator (its creation, an update
    whose new object it is, its deletion, a generic event) to that Addon, and
    every event of another Operator as before; registering it again reports no
    change and leaves the handler as it is; and a change is reported exactly
    when the events were not yet routed to that Addon. *)
Theorem operator_events_routed (h : OperatorResourceHandler) (a op : ObjectKey) :
  reachable h ->
  let h' := (UpdateMap a op h).2 in
  reachable h' /\
  (forall e, handle_event h' e =
     let o := match e with CreateEvent o | UpdateEvent _ o | DeleteEvent o | GenericEvent o => o end in
     if bool_decide (op = meta_key (op_Meta o)) then Some a else handle_event h e) /\
  UpdateMap a op h' = (false, h') /\
  ((UpdateMap a op h).1 = false <-> enqueueObject h op = Some a).
Proof.
  intros Hh h'. assert (reachable h') as Hh' by by eapply reach_step; [|constructor].
  split; [done|]. split; [|split].
  - intros []; apply rev_update.
  - apply update_fixpoint; [unfold h'; rewrite rev_update, bool_decide_true by done; done|].
    apply (proj1 (reachable_inv _ Hh')). unfold h'. by rewrite rev_update, bool_decide_true.
  - unfold UpdateMap, enqueueObject. split.
    + destruct (isKeyPresent _ _), (operatorKeyToAddon h !! op) as [b|]; simpl; try done;
        destruct (bool_decide (b <> a)) eqn:E; bools; try done; apply dec_stable in E; by subst.
    + intros Hr. pose proof (proj1 (reachable_inv _ Hh) _ _ Hr) as Hk.
      apply isKeyPresent_spec in Hk. rewrite Hk, Hr. simpl.
      rewrite bool_decide_false; [done|]. intros H. by apply H.
Qed.

(** In every handler that the operator can reach, freeing an Addon leaves no
    event routed to it, and keeps the routes of the Operators it never
    registered. *)
Theorem freed_addon_gets_no_events (h : OperatorResourceHandler) (a : ObjectKey) :
  reachable h ->
  reachable (Free a h) /\
  (forall e, handle_event (Free a h) e <> Some a) /\
  (forall op, op ∉ keys_of h a -> enqueueObject (Free a h) op = enqueueObject h op).
Proof.
  intros Hh. split; [by eapply reach_step; [|constructor]|].
  assert (forall op, enqueueObject (Free a h) op <> Some a) as Hne.
  { intros op. unfold enqueueObject. rewrite rev_free. destruct (decide _) as [|Hn]; [done|].
    intros Hr. by apply (proj1 (reachable_inv _ Hh)) in Hr. }
  split; [intros []; apply Hne|]. intros op Hop. unfold enqueueObject. rewrite rev_free.
  by rewrite decide_False.
Qed.

(** An Operator that moves to another Addon stays registered for the first
    one, and freeing the first one loses the events of the second. *)
Lemma moved_operator_is_lost (a b op : ObjectKey) :
  a <> b ->
  let h := (UpdateMap b op (UpdateMap a op NewOperatorResourceHandler).2).2 in
  enqueueObject h op = Some b /\ enqueueObject (Free a h) op = None.
Proof.
  intros Hab h. unfold enqueueObject, h. split; [by rewrite rev_update, bool_decide_true|].
  rewrite rev_free, decide_True; [done|]. rewrite keys_of_update.
  destruct (_ && _) eqn:E; bools; [done|]. rewrite keys_of_update, bool_decide_true by done. simpl. left.
Qed.

End Handler.

#[export] Hint Resolve Handler.inv_new Handler.inv_update Handler.inv_free Handler.reachable_inv : addon.
