(* ===== verification/Common.v ===== *)
(** * controllers: shared error values, labels, and the state of one reconcile

    controllers/errors.go, defaults.go and common_utils.go, the result type of
    the Addon sub-reconcilers, and the state monad in which the Addon
    controller's code is written. *)
From S2P Require Export ResourceHandler.

(** ** controllers/errors.go *)

(*@ controllers/errors.go:20-22 ErrNotOwnedByUs *)
Definition ErrNotOwnedByUs : string := "object is not owned by us".
(*@ controllers/errors.go:24-25 ErrGetAddon *)
Definition ErrGetAddon : error := ErrReconcile "err_get_addon".
(*@ controllers/errors.go:26-27 ErrSyncWithExternalAPIs *)
Definition ErrSyncWithExternalAPIs : error := ErrReconcile "err_sync_with_external_apis".
(*@ controllers/errors.go:28-29 ErrOCMClientRequest *)
Definition ErrOCMClientRequest : error := ErrReconcile "err_ocm_client_request".
(*@ controllers/errors.go:30-31 ErrUpdateAddon *)
Definition ErrUpdateAddon : error := ErrReconcile "err_update_addon".
(*@ controllers/errors.go:32-33 ErrNotifyAddon *)
Definition ErrNotifyAddon : error := ErrReconcile "err_notify_addon".
(*@ controllers/errors.go:34-35 ErrAckReceivedFromAddon *)
Definition ErrAckReceivedFromAddon : error := ErrReconcile "err_ack_received_from_addon".
(*@ controllers/errors.go:36-37 ErrEnsureCreateAddonInstance *)
Definition ErrEnsureCreateAddonInstance : error := ErrReconcile "err_ensure_create_addoninstance".
(*@ controllers/errors.go:38-39 ErrEnsureCreateServiceMonitor *)
Definition ErrEnsureCreateServiceMonitor : error := ErrReconcile "err_ensure_servicemonitor".
(*@ controllers/errors.go:40-41 ErrEnsureDeleteServiceMonitor *)
Definition ErrEnsureDeleteServiceMonitor : error := ErrReconcile "err_ensure_delete_servicemonitor".
(*@ controllers/errors.go:42-43 ErrEnsureCreateMonitoringStack *)
Definition ErrEnsureCreateMonitoringStack : error := ErrReconcile "err_ensure_create_monitoringstack".
(*@ controllers/errors.go:48-49 ErrEnsureOperatorGroup *)
Definition ErrEnsureOperatorGroup : error := ErrReconcile "err_ensure_operator_group".
(*@ controllers/errors.go:50-51 ErrEnsureNetworkPolicy *)
Definition ErrEnsureNetworkPolicy : error := ErrReconcile "err_ensure_networkpolicy".
(*@ controllers/errors.go:52-53 ErrEnsureCatalogSource *)
Definition ErrEnsureCatalogSource : error := ErrReconcile "err_ensure_catalogsource".
(*@ controllers/errors.go:54-55 ErrEnsureAdditionalCatalogSource *)
Definition ErrEnsureAdditionalCatalogSource : error := ErrReconcile "err_ensure_additional_catalogsource".
(*@ controllers/errors.go:56-57 ErrReconcileSubscription *)
Definition ErrReconcileSubscription : error := ErrReconcile "err_reconcile_subscription".
(*@ controllers/errors.go:58-59 ErrObserveCSV *)
Definition ErrObserveCSV : error := ErrReconcile "err_observe_csv".
(*@ controllers/errors.go:60-61 ErrEnsureDeleteClusterObjectTemplate *)
Definition ErrEnsureDeleteClusterObjectTemplate : error :=
  ErrReconcile "err_ensure_delete_of_clusterobjecttemplate".
(*@ controllers/errors.go:62-63 ErrReconcileClusterObjectTemplate *)
Definition ErrReconcileClusterObjectTemplate : error := ErrReconcile "err_reconcile_cluster_object_template".
(*@ controllers/errors.go:64-65 ErrCleanupUnknownSecrets *)
Definition ErrCleanupUnknownSecrets : error := ErrReconcile "err_cleanup_unknown_secrets".
(*@ controllers/errors.go:66-67 ErrGetDestinationSecretsWithoutNamespace *)
Definition ErrGetDestinationSecretsWithoutNamespace : error :=
  ErrReconcile "err_get_destination_secrets_without_namespace".
(*@ controllers/errors.go:68-69 ErrReconcileSecretsInAddonNamespaces *)
Definition ErrReconcileSecretsInAddonNamespaces : error :=
  ErrReconcile "err_reconcile_secrets_in_addon_namespaces".
(*@ controllers/errors.go:70-71 ErrGetAddonInstance *)
Definition ErrGetAddonInstance : error := ErrReconcile "err_get_addoninstance".
(*@ controllers/errors.go:72-73 ErrUpdateAddonInstanceStatus *)
Definition ErrUpdateAddonInstanceStatus : error := ErrReconcile "err_update_addon_instance_status".
(*@ controllers/errors.go:74-75 ErrExecuteAddonInstanceReconcilePhase *)
Definition ErrExecuteAddonInstanceReconcilePhase : error :=
  ErrReconcile "err_execute_addon_instance_reconcile_phase".
(*@ controllers/errors.go:76-77 ErrGetDefaultAddonOperator *)
Definition ErrGetDefaultAddonOperator : error := ErrReconcile "err_get_default_addon_operator".
(*@ controllers/errors.go:80-81 ErrAddonOperatorHandleGlobalPause *)
Definition ErrAddonOperatorHandleGlobalPause : error :=
  ErrReconcile "err_addon_operator_handle_global_pause".
(*@ controllers/errors.go:82-83 ErrCreateOCMClient *)
Definition ErrCreateOCMClient : error := ErrReconcile "err_create_ocm_client".
(*@ controllers/errors.go:84-86 ErrReportAddonOperatorStatus *)
Definition ErrReportAddonOperatorStatus : error := ErrReconcile "err_report_addonoperator_status".

(*@ controllers/defaults.go:3-5 DefaultOperatorGroupName *)
Definition DefaultOperatorGroupName : string := "redhat-layered-product-og".

(** ** controllers/common_utils.go *)

(*@ controllers/common_utils.go:13-14 CommonManagedByLabel *)
Definition CommonManagedByLabel : string := "app.kubernetes.io/managed-by".
(*@ controllers/common_utils.go:15-15 CommonManagedByValue *)
Definition CommonManagedByValue : string := "addon-operator".
(*@ controllers/common_utils.go:16-16 CommonCacheLabel *)
Definition CommonCacheLabel : string := "addons.managed.openshift.io/cached".
(*@ controllers/common_utils.go:17-17 CommonCacheValue *)
Definition CommonCacheValue : string := "addon-operator".
(*@ controllers/common_utils.go:18-19 CommonInstanceLabel *)
Definition CommonInstanceLabel : string := "app.kubernetes.io/instance".
(*@ controllers/common_utils.go:21-23 MSOLabel *)
Definition MSOLabel : string := "addons.managed.openshift.io/mso".

(** The three writes into the label map of the object. *)
(*@ controllers/common_utils.go:25-38 AddCommonLabels *)
Definition common_label_writes (addon : Addon) (l : labels) : labels :=
  <[CommonInstanceLabel := a_Name addon]>
    (<[CommonCacheLabel := CommonCacheValue]>
      (<[CommonManagedByLabel := CommonManagedByValue]> l)).

(*@ controllers/common_utils.go:52-58 CommonLabelsAsLabelSelector *)
Definition CommonLabelsAsLabelSelector (addon : Addon) : labels := common_label_writes addon ∅.

Section common_utils.
Context {L : Lib}.

(*@ controllers/common_utils.go:25-38 AddCommonLabels *)
Definition AddCommonLabels (addon : Addon) (m : ObjectMeta) : ObjectMeta :=
  let l := common_label_writes addon (Labels m) in
  let l :=
    if negb (bool_decide (size (CommonLabels (a_Spec addon)) = 0))
    then labels_Merge l (CommonLabels (a_Spec addon)) else l in
  set_Labels l m.

(*@ controllers/common_utils.go:40-50 AddCommonAnnotations *)
Definition AddCommonAnnotations (addon : Addon) (m : ObjectMeta) : ObjectMeta :=
  if bool_decide (size (CommonAnnotations (a_Spec addon)) = 0) then m
  else set_Annotations (labels_Merge (Annotations m) (CommonAnnotations (a_Spec addon))) m.

(*@ controllers/common_utils.go:60-68 HasSameController *)
Definition HasSameController (a b : ObjectMeta) : bool :=
  match GetControllerOf a, GetControllerOf b with
  | Some ca, Some cb => or_UID ca =s? or_UID cb
  | _, _ => false
  end.

(** ** What the label helpers do to the rest of the metadata *)

Lemma AddCommonLabels_meta addon m :
  exists l, AddCommonLabels addon m = set_Labels l m.
Proof. by eexists. Qed.
Lemma AddCommonAnnotations_meta addon m :
  exists a, AddCommonAnnotations addon m = set_Annotations a m.
Proof.
  unfold AddCommonAnnotations. case_bool_decide; [|by eexists].
  exists (Annotations m). by destruct m.
Qed.
End common_utils.

Section CommonLabels.
Context {L : Lib} {LOk : LibOk L}.

Lemma Labels_AddCommonLabels addon m :
  Labels (AddCommonLabels addon m) = CommonLabels (a_Spec addon) ∪ common_label_writes addon (Labels m).
Proof.
  unfold AddCommonLabels. simpl. destruct (bool_decide (size _ = 0)) eqn:E; simpl; [|by rewrite merge_union].
  bools. apply map_size_empty_inv in E. by rewrite E, map_empty_union.
Qed.

(** The writes into a map are those of the selector, over what was there. *)
Lemma common_label_writes_lookup addon l k :
  common_label_writes addon l !! k =
    match CommonLabelsAsLabelSelector addon !! k with Some v => Some v | None => l !! k end.
Proof.
  unfold CommonLabelsAsLabelSelector, common_label_writes.
  destruct (decide (CommonInstanceLabel = k)) as [<-|H1]; [by rewrite !lookup_insert_eq|].
  rewrite !(lookup_insert_ne _ _ k) by done.
  destruct (decide (CommonCacheLabel = k)) as [<-|H2]; [by rewrite !lookup_insert_eq|].
  rewrite !(lookup_insert_ne _ _ k) by done.
  destruct (decide (CommonManagedByLabel = k)) as [<-|H3]; [by rewrite !lookup_insert_eq|].
  by rewrite !(lookup_insert_ne _ _ k) by done.
Qed.

(** An object that gets the common labels of an Addon is matched by the
    Addon's own label selector exactly when the labels the Addon asks for do
    not redefine one of the selector's; the labels of the object that neither
    defines are kept. *)
Theorem common_labels_selected (addon : Addon) (m : ObjectMeta) :
  (CommonLabelsAsLabelSelector addon ⊆ Labels (AddCommonLabels addon m) <->
     forall k v w, CommonLabels (a_Spec addon) !! k = Some v ->
       CommonLabelsAsLabelSelector addon !! k = Some w -> v = w) /\
  (forall k, CommonLabels (a_Spec addon) !! k = None -> CommonLabelsAsLabelSelector addon !! k = None ->
     Labels (AddCommonLabels addon m) !! k = Labels m !! k) /\
  (forall k v, CommonLabels (a_Spec addon) !! k = Some v -> Labels (AddCommonLabels addon m) !! k = Some v).
Proof.
  rewrite Labels_AddCommonLabels.
  assert (forall k, (CommonLabels (a_Spec addon) ∪ common_label_writes addon (Labels m)) !! k =
    match CommonLabels (a_Spec addon) !! k with
    | Some v => Some v
    | None => match CommonLabelsAsLabelSelector addon !! k with Some v => Some v | None => Labels m !! k end
    end) as Hk.
  { intros k. rewrite lookup_union, common_label_writes_lookup.
    by destruct (CommonLabels _ !! k), (CommonLabelsAsLabelSelector addon !! k), (Labels m !! k). }
  split; [|split].
  - rewrite map_subseteq_spec. split.
    + intros H k v w Hv Hw. apply H in Hw. rewrite Hk, Hv in Hw. congruence.
    + intros H k w Hw. rewrite Hk, Hw. destruct (CommonLabels _ !! k) as [v|] eqn:Hv; [|done].
      f_equal. by eapply H.
  - intros k H1 H2. by rewrite Hk, H1, H2.
  - intros k v Hv. by rewrite Hk, Hv.
Qed.
End CommonLabels.

(** ** Results of sub-reconcilers *)

(*@ controllers/addon/utils.go:27-31 subReconcilerResult *)
Record subReconcilerResult := mkSubResult {
  sr_Stop : bool; sr_Requeue : bool; sr_RequeueAfter : option Z
}.
#[export] Instance subReconcilerResult_eq : EqDecision subReconcilerResult.
Proof. solve_decision. Defined.

(*@ controllers/addon/addon_controller.go:97-98 resultNil *)
Definition resultNil : subReconcilerResult := mkSubResult false false None.
(*@ controllers/addon/addon_controller.go:99-99 resultRetry *)
Definition resultRetry : subReconcilerResult := mkSubResult false true None.
(*@ controllers/addon/addon_controller.go:100-100 resultStop *)
Definition resultStop : subReconcilerResult := mkSubResult true false None.
(*@ controllers/addon/addon_controller.go:101-101 resultRequeue *)
Definition resultRequeue : subReconcilerResult := mkSubResult false true None.
(*@ controllers/addon/addon_controller.go:102-105 resultRequeueAfter *)
Definition resultRequeueAfter (t : Z) : subReconcilerResult := mkSubResult false false (Some t).

(*@ controllers/addon/utils.go:33-38 subReconcilerResult.IsZero *)
Definition IsZero (r : subReconcilerResult) : bool := bool_decide (r = resultNil).

(*@ controllers/addon/addon_controller.go:39-41 defaultRetryAfterTime *)
Definition defaultRetryAfterTime : Z := 10 * Second.
(*@ controllers/addon/addon_controller.go:42-43 cacheFinalizer *)
Definition cacheFinalizer : string := "addons.managed.openshift.io/cache".

(** ** The state of one reconcile of the Addon controller *)

(** The Addon in memory (shared by every sub-reconciler through its pointer),
    the Operator event handler's maps, and the metrics recorder (a nil pointer
    when metrics are off). *)
Record St := mkSt {
  st_addon : Addon;
  st_handler : Handler.OperatorResourceHandler;
  st_recorder : option Recorder
}.

Definition get_addon : M St Addon := fun s => Ret (st_addon s, s).
Definition modify_addon (f : Addon -> Addon) : M St unit := fun s =>
  Ret (tt, mkSt (f (st_addon s)) (st_handler s) (st_recorder s)).
Definition set_addon (a : Addon) : M St unit := modify_addon (fun _ => a).
Definition modify_handler {A} (f : Handler.OperatorResourceHandler -> A * Handler.OperatorResourceHandler)
  : M St A := fun s =>
  let '(a, h) := f (st_handler s) in Ret (a, mkSt (st_addon s) h (st_recorder s)).
Definition modify_recorder (f : option Recorder -> option Recorder) : M St unit := fun s =>
  Ret (tt, mkSt (st_addon s) (st_handler s) (f (st_recorder s))).

(** A status report reads the clock once, in [SetStatusCondition]. *)
Definition report (f : Z -> Addon -> Addon) : M St unit :=
  let* now := do_call CNow in modify_addon (f now).

(** Calls, by name. *)
Definition k8s_Get (c : client) (k : kind) (key : ObjectKey) : M St (obj k + error) :=
  do_call (CGet c k key).
Definition k8s_List (c : client) (k : kind) (ns : option string) (sel : labels)
  : M St (list (obj k) + error) := do_call (CList c k ns sel).
Definition k8s_Create (k : kind) (o : obj k) : M St (obj k + error) := do_call (CCreate k o).
Definition k8s_Update (k : kind) (o : obj k) : M St (obj k + error) := do_call (CUpdate k o).
Definition k8s_StatusUpdate (k : kind) (o : obj k) : M St (obj k + error) :=
  do_call (CStatusUpdate k o).
Definition k8s_Patch (k : kind) (o base : obj k) : M St (obj k + error) := do_call (CPatch k o base).
Definition k8s_Delete (k : kind) (key : ObjectKey) : M St (option error) := do_call (CDelete k key).

(** The error part of a response. *)
Definition err_of {A} (r : A + error) : option error :=
  match r with inl _ => None | inr e => Some e end.

Lemma IsZero_true r : IsZero r = true <-> r = resultNil.
Proof. unfold IsZero. by rewrite bool_decide_eq_true. Qed.

(** ** The sub-reconciler interface *)

(*@ controllers/addon/addon_controller.go:114-119 nonBlockingReconciler *)
Record nonBlockingReconciler := mkNonBlocking {
  IsReconciliationSuccessful : M St (bool * option error);
  SetAddonUnreadyStatus : M St unit
}.

(*@ controllers/addon/addon_controller.go:107-112 addonReconciler *)
Record addonReconciler := mkSubReconciler {
  sub_Name : string;
  sub_Order : Z;
  sub_Reconcile : M St (subReconcilerResult * option error);
  sub_NonBlocking : option nonBlockingReconciler
}.

(*@ controllers/addon/addon_controller.go:45-49 AddonDeletionReconcilerOrder *)
Definition AddonDeletionReconcilerOrder : Z := 0.
(*@ controllers/addon/addon_controller.go:50-50 NamespaceReconcilerOrder *)
Definition NamespaceReconcilerOrder : Z := 100.
(*@ controllers/addon/addon_controller.go:51-51 PackageReconcilerOrder *)
Definition PackageReconcilerOrder : Z := 200.
(*@ controllers/addon/addon_controller.go:52-52 AddonSecretPropagationReconcilerOrder *)
Definition AddonSecretPropagationReconcilerOrder : Z := 300.
(*@ controllers/addon/addon_controller.go:53-53 AddonInstanceReconcilerOrder *)
Definition AddonInstanceReconcilerOrder : Z := 400.
(*@ controllers/addon/addon_controller.go:54-54 OLMReconcilerOrder *)
Definition OLMReconcilerOrder : Z := 500.
(*@ controllers/addon/addon_controller.go:55-55 MonitoringFederationReconcilerOrder *)
Definition MonitoringFederationReconcilerOrder : Z := 600.
(*@ controllers/addon/addon_controller.go:56-57 MonitoringStackReconcilerOrder *)
Definition MonitoringStackReconcilerOrder : Z := 700.

(** ** Program logic of the reconcile state *)

Definition with_addon (f : Addon -> Addon) (s : St) : St :=
  mkSt (f (st_addon s)) (st_handler s) (st_recorder s).

Section state_rules.
Context {W : Type} (E : env W).
Implicit Types (s : St) (w : W).

Lemma wpM_get_addon s w (Q : W -> Addon -> St -> Prop) :
  Q w (st_addon s) s -> wpM E get_addon s w Q.
Proof. done. Qed.
Lemma wpM_modify_addon f s w (Q : W -> unit -> St -> Prop) :
  Q w tt (with_addon f s) -> wpM E (modify_addon f) s w Q.
Proof. done. Qed.
Lemma wpM_set_addon a s w (Q : W -> unit -> St -> Prop) :
  Q w tt (with_addon (fun _ => a) s) -> wpM E (set_addon a) s w Q.
Proof. done. Qed.
Lemma wpM_modify_recorder f s w (Q : W -> unit -> St -> Prop) :
  Q w tt (mkSt (st_addon s) (st_handler s) (f (st_recorder s))) ->
  wpM E (modify_recorder f) s w Q.
Proof. done. Qed.
Lemma wpM_modify_handler {A} (f : _ -> A * _) s w (Q : W -> A -> St -> Prop) :
  Q w (f (st_handler s)).1 (mkSt (st_addon s) (f (st_handler s)).2 (st_recorder s)) ->
  wpM E (modify_handler f) s w Q.
Proof. unfold wpM, modify_handler. by destruct (f (st_handler s)). Qed.
Lemma wpM_report f s w (Q : W -> unit -> St -> Prop) :
  env_allow E w CNow ->
  (forall now w', env_step E w CNow now w' -> Q w' tt (with_addon (f now) s)) ->
  wpM E (report f) s w Q.
Proof. intros Ha H. apply wpM_bind, wpM_call; [done|]. intros now w' Hs. by apply H. Qed.
End state_rules.

(** One step of symbolic execution; the side conditions on calls are tried
    with [tac] and left when it fails. *)
Ltac wp_state :=
  lazymatch goal with
  | |- wpM _ get_addon _ _ _ => apply wpM_get_addon
  | |- wpM _ (modify_addon _) _ _ _ => apply wpM_modify_addon
  | |- wpM _ (set_addon _) _ _ _ => apply wpM_set_addon
  | |- wpM _ (modify_recorder _) _ _ _ => apply wpM_modify_recorder
  | |- wpM _ (modify_handler _) _ _ _ => apply wpM_modify_handler
  | |- wpM _ (k8s_Get _ _ _) _ _ _ => unfold k8s_Get
  | |- wpM _ (k8s_List _ _ _ _) _ _ _ => unfold k8s_List
  | |- wpM _ (k8s_Create _ _) _ _ _ => unfold k8s_Create
  | |- wpM _ (k8s_Update _ _) _ _ _ => unfold k8s_Update
  | |- wpM _ (k8s_StatusUpdate _ _) _ _ _ => unfold k8s_StatusUpdate
  | |- wpM _ (k8s_Patch _ _ _) _ _ _ => unfold k8s_Patch
  | |- wpM _ (k8s_Delete _ _) _ _ _ => unfold k8s_Delete
  | |- wpM _ (report _) _ _ _ => unfold report
  | |- wpM _ (let '(_, _) := ?x in _) _ _ _ => destruct x eqn:?
  | _ => wp_prim
  end.

(** Symbolic execution of a straight-line program. *)
Ltac wp_run := repeat (wp_state; simpl; intros); try done.

(** The Addon keeps its metadata and its specification. *)
Definition same_identity (a b : Addon) : Prop := a_Meta a = a_Meta b /\ a_Spec a = a_Spec b.

#[export] Instance same_identity_equiv : Equivalence same_identity.
Proof.
  split; [done|by intros x y [? ?]|]. intros x y z [H1 H2] [H3 H4]. split; congruence.
Qed.

(** ** What the server answered *)

(** The server answered with [o] to a read of [key], to the creation of an
    object of that key, or to the update of the object it had answered for it. *)
Definition answered (k : kind) (key : ObjectKey) (o : obj k) (h : history) : Prop :=
  Ev (CGet Cached k key) (inl o) ∈ h \/
  (exists p : obj k, obj_key k p = key /\ Ev (CCreate k p) (inl o) ∈ h) \/
  (exists cur p : obj k, Ev (CGet Cached k key) (inl cur) ∈ h /\ obj_key k p = obj_key k cur /\
     Ev (CUpdate k p) (inl o) ∈ h).

(** An object that satisfies [P] is in place: it was read, or a write of it was
    accepted. *)
Definition in_place (k : kind) (key : ObjectKey) (P : obj k -> Prop) (h : history) : Prop :=
  (exists o : obj k, Ev (CGet Cached k key) (inl o) ∈ h /\ P o) \/
  (exists p o : obj k, (Ev (CCreate k p) (inl o) ∈ h \/ Ev (CUpdate k p) (inl o) ∈ h) /\ P p).

Lemma answered_later k key o h h' : h `suffix_of` h' -> answered k key o h -> answered k key o h'.
Proof.
  intros Hh [H|[(p & Hk & H)|(cur & p & H1 & Hk & H2)]].
  - left. eauto with addon.
  - right; left. exists p. eauto with addon.
  - right; right. exists cur, p. eauto with addon.
Qed.

Lemma in_place_later k key P h h' : h `suffix_of` h' -> in_place k key P h -> in_place k key P h'.
Proof.
  intros Hh [(o & H & HP)|(p & o & H & HP)]; [left|right].
  - exists o. eauto with addon.
  - exists p, o. split; [|done]. destruct H; eauto with addon.
Qed.

Lemma in_place_read k key (P : obj k -> Prop) (o : obj k) h :
  P o -> in_place k key P (Ev (CGet Cached k key) (inl o) :: h).
Proof. intros HP. left. exists o. split; [left|done]. Qed.
Lemma in_place_created k key (P : obj k -> Prop) (p o : obj k) h :
  P p -> in_place k key P (Ev (CCreate k p) (inl o) :: h).
Proof. intros HP. right. exists p, o. split; [left; left|done]. Qed.
Lemma in_place_updated k key (P : obj k -> Prop) (p o : obj k) h :
  P p -> in_place k key P (Ev (CUpdate k p) (inl o) :: h).
Proof. intros HP. right. exists p, o. split; [right; left|done]. Qed.

Lemma err_of_none {A} (r : A + error) : err_of r = None -> exists a, r = inl a.
Proof. destruct r as [a|]; [by exists a|done]. Qed.
