(* ===== verification/Status.v ===== *)
(** * controllers/addon/utils.go: status reports, install configuration, names

    A status report is a function of the current time and the Addon; [report]
    runs it in the reconcile state. *)
From S2P Require Export Common.

(*@ controllers/addon/utils.go:39-42 markedForDeletion *)
Definition markedForDeletion (addon : Addon) : bool :=
  match Annotations (a_Meta addon) !! DeleteAnnotationFlag with Some _ => true | None => false end.

Section Status.
Context {L : Lib}.

(** [meta.SetStatusCondition(&addon.Status.Conditions, c)]. *)
Definition set_condition (now : Z) (c : Condition) (addon : Addon) : Addon :=
  set_Conditions (SetStatusCondition now (Conditions (a_Status addon)) c) addon.
Definition remove_condition (ty : string) (addon : Addon) : Addon :=
  set_Conditions (RemoveStatusCondition (Conditions (a_Status addon)) ty) addon.
Definition find_condition (ty : string) (addon : Addon) : option Condition :=
  FindStatusCondition (Conditions (a_Status addon)) ty.
(** [addon.Status.ObservedGeneration = addon.Generation]. *)
Definition observe_generation (addon : Addon) : Addon :=
  set_ObservedGeneration (a_Generation addon) addon.

(*@ api/v1alpha1/addon_types.go:493-495 Addon.IsAvailable *)
Definition IsAvailable (addon : Addon) : bool :=
  IsStatusConditionTrue (Conditions (a_Status addon)) Available.

(** ** Reports *)

(*@ controllers/addon/utils.go:96-111 reportReadinessStatus *)
Definition reportReadinessStatus (now : Z) (addon : Addon) : Addon :=
  let addon := set_condition now
    (condition Available ConditionTrue AddonReasonFullyReconciled "All components are ready."
       (a_Generation addon)) addon in
  set_ObservedVersion (Version (a_Spec addon))
    (set_Phase PhaseReady (observe_generation addon)).

(*@ controllers/addon/utils.go:113-117 reportObservedVersion *)
Definition reportObservedVersion (addon : Addon) : Addon :=
  set_ObservedVersion (Version (a_Spec addon)) addon.

(*@ controllers/addon/utils.go:119-129 reportTerminationStatus *)
Definition reportTerminationStatus (now : Z) (addon : Addon) : Addon :=
  let addon := set_condition now
    (condition Available ConditionFalse AddonReasonTerminating "" (a_Generation addon)) addon in
  set_Phase PhaseTerminating (observe_generation addon).

(** The condition carries no observed generation. *)
(*@ controllers/addon/utils.go:131-141 reportConfigurationError *)
Definition reportConfigurationError (message : string) (now : Z) (addon : Addon) : Addon :=
  let addon := set_condition now
    (condition Available ConditionFalse AddonReasonConfigError message 0) addon in
  set_Phase PhaseError (observe_generation addon).

(*@ controllers/addon/utils.go:143-154 reportAddonPauseStatus *)
Definition reportAddonPauseStatus (reason : string) (now : Z) (addon : Addon) : Addon :=
  observe_generation (set_condition now
    (condition PausedCondition ConditionTrue reason "" (a_Generation addon)) addon).

(*@ controllers/addon/utils.go:156-176 reportAddonReadyToBeDeletedStatus *)
Definition reportAddonReadyToBeDeletedStatus (value : string) (now : Z) (addon : Addon) : Addon :=
  if value =s? ConditionTrue then
    observe_generation (set_condition now
      (condition ReadyToBeDeleted value AddonReasonReadyToBeDeleted
         "Addon is ready to be deleted." (a_Generation addon)) addon)
  else
    observe_generation (set_condition now
      (condition ReadyToBeDeleted value AddonReasonNotReadyToBeDeleted
         "Addon is not yet ready to be deleted." (a_Generation addon)) addon).

(*@ controllers/addon/utils.go:178-187 reportAddonDeletionTimedOut *)
Definition reportAddonDeletionTimedOut (now : Z) (addon : Addon) : Addon :=
  observe_generation (set_condition now
    (condition DeleteTimeout ConditionTrue AddonReasonDeletionTimedOut
       "Addon deletion has timed out." (a_Generation addon)) addon).

(*@ controllers/addon/utils.go:189-193 removeAddonPauseCondition *)
Definition removeAddonPauseCondition (addon : Addon) : Addon :=
  observe_generation (remove_condition PausedCondition addon).

(*@ controllers/addon/utils.go:195-197 reportLastObservedAvailableCSV *)
Definition reportLastObservedAvailableCSV (csvName : string) (addon : Addon) : Addon :=
  set_LastObservedAvailableCSV csvName addon.

(*@ controllers/addon/utils.go:199-215 reportAddonUpgradeSucceeded *)
Definition reportAddonUpgradeSucceeded (now : Z) (addon : Addon) : Addon :=
  match find_condition UpgradeStarted addon with
  | Some _ =>
      let addon := remove_condition UpgradeStarted addon in
      observe_generation (set_condition now
        (condition UpgradeSucceeded ConditionTrue AddonReasonUpgradeSucceeded
           "Addon upgrade has succeeded." (a_Generation addon)) addon)
  | None => addon
  end.

(*@ controllers/addon/utils.go:217-232 reportAddonUpgradeStarted *)
Definition reportAddonUpgradeStarted (now : Z) (addon : Addon) : Addon :=
  let addon :=
    match find_condition UpgradeSucceeded addon with
    | Some _ => remove_condition UpgradeSucceeded addon
    | None => addon
    end in
  observe_generation (set_condition now
    (condition UpgradeStarted ConditionTrue AddonReasonUpgradeStarted
       "Addon upgrade has started." (a_Generation addon)) addon).

(*@ controllers/addon/utils.go:234-248 reportUninstalledCondition *)
Definition reportUninstalledCondition (now : Z) (addon : Addon) : Addon :=
  match find_condition Installed addon with
  | Some _ =>
      observe_generation (set_condition now
        (condition Installed ConditionFalse AddonReasonNotInstalled
           "Addon has been uninstalled." (a_Generation addon)) addon)
  | None => addon
  end.

(*@ controllers/addon/utils.go:250-261 reportInstalledCondition *)
Definition reportInstalledCondition (now : Z) (addon : Addon) : Addon :=
  observe_generation (set_condition now
    (condition Installed ConditionTrue AddonReasonInstalled
       "Addon has been successfully installed." (a_Generation addon)) addon).

(*@ controllers/addon/utils.go:263-269 addonUpgradeStarted *)
Definition addonUpgradeStarted (addon : Addon) : bool :=
  match find_condition UpgradeStarted addon with
  | Some c => cond_Status c =s? ConditionTrue
  | None => false
  end.

(*@ controllers/addon/utils.go:271-277 addonIsBeingUpgraded *)
Definition addonIsBeingUpgraded (addon : Addon) : bool :=
  if negb (str_empty (Version (a_Spec addon))) &&
     negb (str_empty (ObservedVersion (a_Status addon)))
  then negb (Version (a_Spec addon) =s? ObservedVersion (a_Status addon))
  else false.

(*@ controllers/addon/utils.go:279-282 installedConditionMissing *)
Definition installedConditionMissing (addon : Addon) : bool :=
  match find_condition Installed addon with None => true | Some _ => false end.

(*@ controllers/addon/utils.go:284-295 reportInstalledConditionFalse *)
Definition reportInstalledConditionFalse (now : Z) (addon : Addon) : Addon :=
  observe_generation (set_condition now
    (condition Installed ConditionFalse AddonReasonNotInstalled
       "Addon is not yet installed." (a_Generation addon)) addon).

(*@ controllers/addon/utils.go:345-357 reportPendingStatus *)
Definition reportPendingStatus (reason msg : string) (now : Z) (addon : Addon) : Addon :=
  let addon := set_condition now
    (condition Available ConditionFalse reason msg (a_Generation addon)) addon in
  set_Phase PhasePending (observe_generation addon).

(*@ controllers/addon/utils.go:297-301 reportCatalogSourceUnreadinessStatus *)
Definition reportCatalogSourceUnreadinessStatus (message : string) : Z -> Addon -> Addon :=
  reportPendingStatus AddonReasonUnreadyCatalogSource
    ("CatalogSource connection is not ready: " +:+ message).
(*@ controllers/addon/utils.go:303-306 reportAdditionalCatalogSourceUnreadinessStatus *)
Definition reportAdditionalCatalogSourceUnreadinessStatus (message : string) : Z -> Addon -> Addon :=
  reportPendingStatus AddonReasonUnreadyAdditionalCatalogSource
    ("CatalogSource connection is not ready: " +:+ message).
(*@ controllers/addon/utils.go:308-311 reportUnreadyNamespaces *)
Definition reportUnreadyNamespaces (unready : list string) : Z -> Addon -> Addon :=
  reportPendingStatus AddonReasonUnreadyNamespaces
    ("Namespaces not yet in Active phase: " +:+ join ", " unready).
(*@ controllers/addon/utils.go:313-316 reportUnreadyCSV *)
Definition reportUnreadyCSV (message : string) : Z -> Addon -> Addon :=
  reportPendingStatus AddonReasonUnreadyCSV ("ClusterServiceVersion is not ready: " +:+ message).
(*@ controllers/addon/utils.go:318-320 reportMissingCSV *)
Definition reportMissingCSV : Z -> Addon -> Addon :=
  reportPendingStatus AddonReasonMissingCSV "ClusterServiceVersion is missing.".
(*@ controllers/addon/utils.go:322-324 reportInstallPlanPending *)
Definition reportInstallPlanPending : Z -> Addon -> Addon :=
  reportPendingStatus AddonReasonInstallPlanPending "InstallPlan is waiting for approval.".
(*@ controllers/addon/utils.go:326-328 reportPendingAddonInstanceInstallation *)
Definition reportPendingAddonInstanceInstallation : Z -> Addon -> Addon :=
  reportPendingStatus AddonReasonInstanceNotInstalled "Addon instance is not yet installed.".
(*@ controllers/addon/utils.go:330-333 reportUnreadyMonitoringFederation *)
Definition reportUnreadyMonitoringFederation (message : string) : Z -> Addon -> Addon :=
  reportPendingStatus AddonReasonUnreadyMonitoringFederation
    ("Monitoring Federation is not ready: " +:+ message).
(*@ controllers/addon/utils.go:335-338 reportUnreadyMonitoringStack *)
Definition reportUnreadyMonitoringStack (message : string) : Z -> Addon -> Addon :=
  reportPendingStatus AddonReasonUnreadyMonitoringStack
    ("MonitoringStack is not ready: " +:+ message).
(*@ controllers/addon/utils.go:340-343 reportUnreadyClusterObjectTemplate *)
Definition reportUnreadyClusterObjectTemplate : Z -> Addon -> Addon :=
  reportPendingStatus AddonReasonUnreadyClusterPackageTemplate
    "PackageOperator ClusterPackageTemplate is not ready".

(** ** Install configuration *)

(** [None] is the [stop] result of the code. *)
(*@ controllers/addon/utils.go:359-412 parseAddonInstallConfig *)
Definition parseAddonInstallConfig : M St (option AddonInstallOLMCommon) :=
  let* addon := get_addon in
  let i := Install (a_Spec addon) in
  if Type_ i =s? OLMOwnNamespace then
    match OLMOwnNamespaceOf i with
    | Some c =>
        if str_empty (ic_Namespace c) then
          do* report (reportConfigurationError
            ".spec.install.ownNamespace.namespace is required when .spec.install.type = OwnNamespace") in
          mpure None
        else if str_empty (CatalogSourceImage c) then
          do* report (reportConfigurationError
            ".spec.install.ownNamespace.catalogSourceImage isrequired when .spec.install.type = OwnNamespace") in
          mpure None
        else mpure (Some c)
    | None =>
        do* report (reportConfigurationError
          ".spec.install.ownNamespace.namespace is required when .spec.install.type = OwnNamespace") in
        mpure None
    end
  else if Type_ i =s? OLMAllNamespaces then
    match OLMAllNamespacesOf i with
    | Some c =>
        if str_empty (ic_Namespace c) then
          do* report (reportConfigurationError
            ".spec.install.allNamespaces.namespace is required when .spec.install.type = AllNamespaces") in
          mpure None
        else if str_empty (CatalogSourceImage c) then
          do* report (reportConfigurationError
            ".spec.install.allNamespaces.catalogSourceImage is requiredwhen .spec.install.type = AllNamespaces") in
          mpure None
        else mpure (Some c)
    | None =>
        do* report (reportConfigurationError
          ".spec.install.allNamespaces.namespace is required when .spec.install.type = AllNamespaces") in
        mpure None
    end
  else mpure None.

(** The loop over the additional catalog sources: stops at the first one
    without an image or a name. *)
(*@ controllers/addon/utils.go:422-430 additionalCatalogSrc *)
Fixpoint check_additional (message : string) (l acc : list AdditionalCatalogSource)
  : M St (option (list AdditionalCatalogSource)) :=
  match l with
  | [] => mpure (Some acc)
  | s :: l' =>
      if str_empty (acs_Image s) || str_empty (acs_Name s) then
        do* report (reportConfigurationError message) in mpure None
      else check_additional message l' (acc ++ [s])
  end.

(*@ controllers/addon/utils.go:414-454 parseAddonInstallConfigForAdditionalCatalogSources *)
Definition parseAddonInstallConfigForAdditionalCatalogSources
  : M St (option (list AdditionalCatalogSource * string * string)) :=
  let* addon := get_addon in
  let i := Install (a_Spec addon) in
  if Type_ i =s? OLMOwnNamespace then
    let* c := deref (OLMOwnNamespaceOf i) in
    let* r := check_additional
      ".spec.install.ownNamespace.additionalCatalogSourcesrequires both image and name"
      (AdditionalCatalogSources c) [] in
    mpure (l ← r; Some (l, ic_Namespace c, PullSecretName c))
  else if Type_ i =s? OLMAllNamespaces then
    let* c := deref (OLMAllNamespacesOf i) in
    let* r := check_additional
      ".spec.install.allNamespaces.additionalCatalogSourcesrequires both image and name"
      (AdditionalCatalogSources c) [] in
    mpure (l ← r; Some (l, ic_Namespace c, PullSecretName c))
  else mpure None.

(*@ controllers/addon/utils.go:468-479 HasAdditionalCatalogSources *)
Definition HasAdditionalCatalogSources (addon : Addon) : M St bool :=
  let i := Install (a_Spec addon) in
  if Type_ i =s? OLMOwnNamespace then
    let* c := deref (OLMOwnNamespaceOf i) in
    mpure (bool_decide (0 < length (AdditionalCatalogSources c)))
  else if Type_ i =s? OLMAllNamespaces then
    let* c := deref (OLMAllNamespacesOf i) in
    mpure (bool_decide (0 < length (AdditionalCatalogSources c)))
  else mpure false.

(*@ controllers/addon/utils.go:548-558 GetCommonInstallOptions *)
Definition GetCommonInstallOptions (addon : Addon) : M St AddonInstallOLMCommon :=
  let i := Install (a_Spec addon) in
  if Type_ i =s? OLMAllNamespaces then deref (OLMAllNamespacesOf i)
  else if Type_ i =s? OLMOwnNamespace then deref (OLMOwnNamespaceOf i)
  else mpure empty_common.

(** ** Hashing *)

(*@ controllers/addon/status_reporting.go:76-87 mapToAddonStatusConditions *)
Definition mapToAddonStatusConditions (i : list Condition) : list AddOnStatusCondition :=
  map (fun c => mkAOSC (cond_Type c) (cond_Status c) (cond_Reason c) (cond_Message c)) i.

(*@ controllers/addon/utils.go:573-584 hashOCMAddonStatus *)
Definition hashOCMAddonStatus (s : OCMAddOnStatus) : string :=
  SafeEncodeString (show_Z (fnv32a (spew_print s))).

(*@ controllers/addon/utils.go:563-571 HashCurrentAddonStatus *)
Definition HashCurrentAddonStatus (addon : Addon) : string :=
  hashOCMAddonStatus
    (mkOCMStatus (a_Name addon) (CorrelationID (a_Spec addon)) (Version (a_Spec addon))
       (mapToAddonStatusConditions (Conditions (a_Status addon))) 0).
End Status.

(*@ controllers/addon/utils.go:456-460 HasMonitoringFederation *)
Definition HasMonitoringFederation (addon : Addon) : bool :=
  match Monitoring (a_Spec addon) with
  | Some m => match Federation m with Some _ => true | None => false end
  | None => false
  end.

(*@ controllers/addon/utils.go:462-466 HasMonitoringStack *)
Definition HasMonitoringStack (addon : Addon) : bool :=
  match Monitoring (a_Spec addon) with
  | Some m => match MonitoringStackOf m with Some _ => true | None => false end
  | None => false
  end.

(** ** Names *)

(*@ controllers/addon/utils.go:481-484 GetMonitoringNamespaceName *)
Definition GetMonitoringNamespaceName (addon : Addon) : string := "redhat-monitoring-" +:+ a_Name addon.
(*@ controllers/addon/utils.go:486-489 GetMonitoringFederationServiceMonitorName *)
Definition GetMonitoringFederationServiceMonitorName (addon : Addon) : string :=
  "federated-sm-" +:+ a_Name addon.
(*@ controllers/addon/utils.go:532-534 getPrimaryCatalogSourceName *)
Definition getPrimaryCatalogSourceName (addon : Addon) : string :=
  "addon-" +:+ a_Name addon +:+ "-catalog".
(*@ controllers/addon/utils.go:536-538 getCatalogSourceNetworkPolicyName *)
Definition getCatalogSourceNetworkPolicyName (addon : Addon) : string :=
  "addon-" +:+ a_Name addon +:+ "-catalogs".
(*@ controllers/addon/utils.go:540-542 CatalogSourceName *)
Definition CatalogSourceName (addon : Addon) : string := "addon-" +:+ a_Name addon +:+ "-catalog".
(*@ controllers/addon/utils.go:544-546 SubscriptionName *)
Definition SubscriptionName (addon : Addon) : string := "addon-" +:+ a_Name addon.

(*@ controllers/addon/utils.go:491-530 GetMonitoringFederationServiceMonitorEndpoints *)
Definition GetMonitoringFederationServiceMonitorEndpoints (fed : MonitoringFederationSpec)
    (bearertokensecret : Secret) : list Endpoint :=
  [mkEndpoint "Bearer" (Name (sec_Meta bearertokensecret)) "token"
     "/etc/prometheus/configmaps/serving-certs-ca-bundle/service-ca.crt"
     ("prometheus." +:+ fed_Namespace fed +:+ ".svc")
     true (fed_PortName fed) "/federate" "https" "30s"
     (("ALERTS{alertstate=" +:+ dquote +:+ "firing" +:+ dquote +:+ "}")
      :: map (fun name => "{__name__=" +:+ dquote +:+ name +:+ dquote +:+ "}")
           (fed_MatchNames fed))].

(** ** Laws of the reports *)

Section StatusLaws.
Context {L : Lib} {LOk : LibOk L}.

Lemma find_set_condition now c addon ty :
  cond_LastTransitionTime c = zero_time ->
  find_condition ty (set_condition now c addon) =
    if ty =s? cond_Type c
    then Some (stored_condition now (find_condition (cond_Type c) addon) c)
    else find_condition ty addon.
Proof. unfold find_condition, set_condition. intros Hc. simpl. by rewrite find_set. Qed.

Lemma find_remove_condition ty ty' addon :
  find_condition ty' (remove_condition ty addon) =
    if ty' =s? ty then None else find_condition ty' addon.
Proof. unfold find_condition, remove_condition. simpl. by rewrite find_remove. Qed.

Lemma find_observe_generation ty addon :
  find_condition ty (observe_generation addon) = find_condition ty addon.
Proof. done. Qed.

Lemma find_set_Phase ty p addon :
  find_condition ty (set_Phase p addon) = find_condition ty addon.
Proof. done. Qed.

Lemma find_set_ObservedVersion ty v addon :
  find_condition ty (set_ObservedVersion v addon) = find_condition ty addon.
Proof. done. Qed.

Lemma IsAvailable_find addon :
  IsAvailable addon =
    match find_condition Available addon with
    | Some c => cond_Status c =s? ConditionTrue
    | None => false
    end.
Proof. unfold IsAvailable. by rewrite is_true_find. Qed.
End StatusLaws.

#[export] Hint Rewrite @find_set_condition @find_remove_condition @find_observe_generation
  @find_set_Phase @find_set_ObservedVersion using (try done; try reflexivity) : conditions.

(** Compute the conditions a report leaves. *)
Ltac find_conditions :=
  autorewrite with conditions; repeat (rewrite bool_decide_true by done || rewrite bool_decide_false by done).

(** ** Install configurations that are there *)

(** The configuration of the install type is not a nil pointer. *)
Definition install_ok (addon : Addon) : Prop :=
  let i := Install (a_Spec addon) in
  (Type_ i = OLMAllNamespaces -> OLMAllNamespacesOf i <> None) /\
  (Type_ i = OLMOwnNamespace -> OLMOwnNamespaceOf i <> None).

(** What [GetCommonInstallOptions] returns then. *)
Definition install_options (addon : Addon) : AddonInstallOLMCommon :=
  let i := Install (a_Spec addon) in
  if Type_ i =s? OLMAllNamespaces then default empty_common (OLMAllNamespacesOf i)
  else if Type_ i =s? OLMOwnNamespace then default empty_common (OLMOwnNamespaceOf i)
  else empty_common.

Lemma wpM_GetCommonInstallOptions {W} (E : env W) addon s w Q :
  install_ok addon -> Q w (install_options addon) s ->
  wpM E (GetCommonInstallOptions addon) s w Q.
Proof.
  unfold install_ok, install_options, GetCommonInstallOptions. intros [H1 H2] HQ.
  destruct (Type_ (Install (a_Spec addon)) =s? OLMAllNamespaces) eqn:E1; bools.
  - specialize (H1 E1). by destruct (OLMAllNamespacesOf _).
  - destruct (Type_ (Install (a_Spec addon)) =s? OLMOwnNamespace) eqn:E2; bools; [|done].
    specialize (H2 E2). by destruct (OLMOwnNamespaceOf _).
Qed.
