(* ===== verification/Samples.v ===== *)
(** * Concrete objects on which the theorems of the development are evaluated *)
From S2P Require Export Status.

Definition sample_common : AddonInstallOLMCommon :=
  mkCommon "reference-addon" "quay.io/osd-addons/reference-addon-index" "alpha" "reference-addon"
    "" None [mkACS "extra-catalog" "quay.io/osd-addons/extra"].

Definition sample_spec : AddonSpec :=
  mkAddonSpec "Reference Addon" "1.0.0" false
    [mkAddonNs "reference-addon" None ∅; mkAddonNs "reference-extra" (Some {[ "team" := "x" ]}) ∅]
    {[ "team" := "sre" ]} ∅ "corr-1"
    (mkInstall OLMOwnNamespace None (Some sample_common))
    true false (Some (mkUpgradePolicy "policy-1"))
    (Some (mkMonitoring (Some (mkFederation "reference-addon" "https" ["up"] ∅))
             (Some (mkStackSpec None))))
    (Some (mkSecretPropagation [mkSecretRef "source" "destination"]))
    (Some (mkAPO "quay.io/osd-addons/package")).

Definition sample_status : AddonStatus := mkAddonStatus 0 [] "" None None "" "".

Definition sample_meta : ObjectMeta :=
  mkMeta "reference-addon" "" "uid-1" 3 ∅ {[ DeleteAnnotationFlag := "" ]} []
    ["addons.managed.openshift.io/cache"] None.

Definition sample_addon : Addon := mkAddon sample_meta sample_spec sample_status.

Definition sample_state : St := mkSt sample_addon Handler.NewOperatorResourceHandler (Some NewRecorder).

(** The same Addon with another status, or without some parts. *)
Definition sample_with (f : Addon -> Addon) : St := with_addon f sample_state.

(** ** An API server

    A store of objects that answers as an API server does when nothing fails:
    a creation or an update stores the object and returns it, a namespace is
    Active at once, a deletion of an absent object answers NotFound. *)
Abbreviation store := (list (sigT obj)).

Definition as_kind (k : kind) (o : sigT obj) : option (obj k) :=
  match decide (projT1 o = k) with
  | left e => Some (eq_rect (projT1 o) obj (projT2 o) k e)
  | right _ => None
  end.

Fixpoint objects_of (k : kind) (st : store) : list (obj k) :=
  match st with
  | [] => []
  | o :: st' =>
      match as_kind k o with Some x => x :: objects_of k st' | None => objects_of k st' end
  end.

Definition find_object (k : kind) (key : ObjectKey) (st : store) : option (obj k) :=
  head (filter (fun o => obj_key k o = key) (objects_of k st)).

Fixpoint remove_object (k : kind) (key : ObjectKey) (st : store) : store :=
  match st with
  | [] => []
  | o :: st' =>
      match as_kind k o with
      | Some x => if bool_decide (obj_key k x = key) then remove_object k key st'
                  else o :: remove_object k key st'
      | None => o :: remove_object k key st'
      end
  end.

Definition admitted (k : kind) : obj k -> obj k :=
  match k with
  | KNamespace => fun n => mkNs (ns_Meta n) NamespaceActive
  | KCatalogSource => fun c => mkCS (cs_Meta c) (cs_Spec c) (Some "READY")
  | _ => fun o => o
  end.

Definition store_object (k : kind) (o : obj k) (st : store) : store :=
  remove_object k (obj_key k o) st ++ [existT k o].

Definition selected (k : kind) (ns : option string) (sel : labels) (o : obj k) : Prop :=
  sel ⊆ Labels (obj_meta k o) /\
  match ns with Some n => Namespace (obj_meta k o) = n | None => True end.
#[export] Instance selected_dec k ns sel o : Decision (selected k ns sel o).
Proof. unfold selected. destruct ns; apply _. Defined.

Definition not_found : error := ErrAPI "NotFound" "the object does not exist".

Definition api_server : server store := fun st c =>
  match c with
  | CGet _ k key =>
      (match find_object k key st with Some o => inl o | None => inr not_found end, st)
  | CList _ k ns sel => (inl (filter (selected k ns sel) (objects_of k st)), st)
  | CCreate k o => (inl (admitted k o), store_object k (admitted k o) st)
  | CUpdate k o => (inl (admitted k o), store_object k (admitted k o) st)
  | CStatusUpdate k o => (inl o, store_object k o st)
  | CPatch k o _ => (inl o, store_object k o st)
  | CDelete k key =>
      match find_object k key st with
      | Some _ => (None, remove_object k key st)
      | None => (Some not_found, st)
      end
  | CNow => (0%Z, st)
  | CEnqueue _ => (tt, st)
  | CPostAddOnStatus _ _ | CPatchUpgradePolicy _ _ => (None, st)
  | CGetUpgradePolicy _ _ => (inl (mkUPGetRes UpgradePolicyValueNone ""), st)
  | CGetCluster c => (inl (mkClusterRes [mkCluster "cluster-1" "cluster" (ClusterExternalID c)]), st)
  | CMutex _ _ => (tt, st)
  | CLoadGlobalPause => (false, st)
  | CStoreGlobalPause _ | CStoreOCMClient _ => (tt, st)
  | CLoadOCMClient => (None, st)
  end.

(** The write calls of an execution against the server. *)
Definition writes {A} (m : prog A) (st : store) : list call :=
  filter (fun c => is_write c = true) (calls_of api_server m st).
