(* ===== verification/InstallConfig.v ===== *)
(** * The install configuration of an Addon

    What [parseAddonInstallConfig] (controllers/addon/utils.go) returns, as a
    function of the specification, and its behaviour on every branch. *)
From S2P Require Export Samples.

(** ** What the install configuration parses to *)

Definition usable (c : AddonInstallOLMCommon) : option AddonInstallOLMCommon :=
  if str_empty (ic_Namespace c) || str_empty (CatalogSourceImage c) then None else Some c.

Definition parsed (addon : Addon) : option AddonInstallOLMCommon :=
  let i := Install (a_Spec addon) in
  if Type_ i =s? OLMOwnNamespace then OLMOwnNamespaceOf i ≫= usable
  else if Type_ i =s? OLMAllNamespaces then OLMAllNamespacesOf i ≫= usable
  else None.

(** Functions of the identity alone. *)
#[export] Instance parsed_proper : Proper (same_identity ==> eq) parsed.
Proof. intros [] [] [? ?]. simpl in *. by subst. Qed.

Lemma parsed_common addon c : parsed addon = Some c -> GetInstallOLMCommon addon = inl c.
Proof.
  unfold parsed, GetInstallOLMCommon, usable. intros H.
  destruct (Type_ _ =s? OLMOwnNamespace) eqn:E1.
  - bools. rewrite E1. simpl. destruct (OLMOwnNamespaceOf _); simpl in H; [|done]. by split_cases.
  - destruct (Type_ _ =s? OLMAllNamespaces); [|done].
    destruct (OLMAllNamespacesOf _); simpl in H; [|done]. by split_cases.
Qed.

Lemma parsed_options addon c : parsed addon = Some c -> install_ok addon /\ install_options addon = c.
Proof.
  unfold parsed, install_ok, install_options, usable. intros H.
  destruct (Type_ _ =s? OLMOwnNamespace) eqn:E1; bools.
  - rewrite E1. simpl. destruct (OLMOwnNamespaceOf _); simpl in *; [|done]. by split_cases.
  - destruct (Type_ _ =s? OLMAllNamespaces) eqn:E2; bools; [|done]. rewrite E2.
    destruct (OLMAllNamespacesOf _); simpl in *; [|done]. split_cases.
Qed.

Lemma parsed_cases addon c :
  parsed addon = Some c ->
  let i := Install (a_Spec addon) in
  (Type_ i = OLMOwnNamespace /\ OLMOwnNamespaceOf i = Some c) \/
  (Type_ i <> OLMOwnNamespace /\ Type_ i = OLMAllNamespaces /\ OLMAllNamespacesOf i = Some c).
Proof.
  unfold parsed, usable. intros H.
  destruct (Type_ _ =s? OLMOwnNamespace) eqn:E1; bools; [left|right].
  - destruct (OLMOwnNamespaceOf _); simpl in *; [|done]. by split_cases.
  - destruct (Type_ _ =s? OLMAllNamespaces) eqn:E2; bools; [|done].
    destruct (OLMAllNamespacesOf _); simpl in *; [|done]. by split_cases.
Qed.

Section Parse.
Context {L : Lib} {LOk : LibOk L}.

(** The Addon is reported as misconfigured. *)
Definition misconfigured (a : Addon) : Prop :=
  Phase (a_Status a) = PhaseError /\ IsAvailable a = false /\
  exists c, find_condition Available a = Some c /\ cond_Reason c = AddonReasonConfigError.

Lemma configuration_error message now a :
  misconfigured (reportConfigurationError message now a) /\
  same_identity (reportConfigurationError message now a) a.
Proof.
  unfold misconfigured, reportConfigurationError. rewrite IsAvailable_find.
  rewrite find_set_Phase, find_observe_generation, find_set_condition by done.
  rewrite bool_decide_true by done. split; [|done]. split; [done|]. split; [done|]. by eexists.
Qed.

Lemma wpM_parse_config {W} (E : env W) addon c s w Q :
  parsed addon = Some c -> same_identity (st_addon s) addon -> Q w (Some c) s -> wpM E parseAddonInstallConfig s w Q.
Proof.
  intros Hc Hs HQ. assert (parsed (st_addon s) = Some c) as Hp by by rewrite Hs.
  unfold parseAddonInstallConfig. apply wpM_bind, wpM_get_addon. revert Hp. unfold parsed, usable.
  destruct (Type_ _ =s? OLMOwnNamespace); [|destruct (Type_ _ =s? OLMAllNamespaces); [|done]];
    destruct (_ (Install (a_Spec (st_addon s)))) as [c'|]; simpl; try done;
    repeat case_bool_decide; simpl; try done; intros [= ->]; by apply wpM_pure.
Qed.

Lemma wpM_parse {W} (E : env W) s w Q :
  (forall w, env_allow E w CNow) ->
  (forall c, parsed (st_addon s) = Some c -> Q w (Some c) s) ->
  (forall w' s', same_identity (st_addon s') (st_addon s) -> Q w' None s') ->
  wpM E parseAddonInstallConfig s w Q.
Proof.
  unfold parseAddonInstallConfig, parsed, usable. intros Ha H1 H2. apply wpM_bind, wpM_get_addon.
  destruct (Type_ _ =s? OLMOwnNamespace);
    [|destruct (Type_ _ =s? OLMAllNamespaces); [|by apply wpM_pure, H2]];
    destruct (_ (Install (a_Spec (st_addon s)))) as [c|]; simpl in *;
    repeat case_bool_decide; simpl in *;
    first [by apply wpM_pure, H1
          |apply wpM_bind, wpM_report; [done|]; intros now w' _; apply wpM_pure, H2;
           apply configuration_error].
Qed.

(** The parse of the install configuration returns the configuration of the
    install type when its namespace and image are there, leaving the Addon
    alone; otherwise it returns nothing and the Addon is reported as
    misconfigured, except for an unknown install type, which is not reported. *)
Theorem parse_install_config (s : St) (h : history) :
  wpM (hist_env (fun _ c => c = CNow) (fun _ => False)) parseAddonInstallConfig s h (fun h' r s' =>
    r = parsed (st_addon s) /\ same_identity (st_addon s') (st_addon s) /\
    match r with
    | Some c => s' = s /\ ic_Namespace c <> "" /\ CatalogSourceImage c <> ""
    | None =>
        if (Type_ (Install (a_Spec (st_addon s))) =s? OLMOwnNamespace) ||
           (Type_ (Install (a_Spec (st_addon s))) =s? OLMAllNamespaces)
        then misconfigured (st_addon s') else s' = s
    end).
Proof.
  unfold parseAddonInstallConfig, parsed, usable. apply wpM_bind, wpM_get_addon.
  destruct (Type_ _ =s? OLMOwnNamespace); [|destruct (Type_ _ =s? OLMAllNamespaces); [|done]];
    destruct (_ (Install (a_Spec (st_addon s)))) as [c|]; simpl;
    repeat case_bool_decide; simpl;
    first [by apply wpM_pure
          |apply wpM_bind, wpM_report; [done|]; intros now h' ->; apply wpM_pure;
           split; [done|]; simpl; split; apply configuration_error].
Qed.
End Parse.
