(* ===== verification/OperatorRefs.v ===== *)
(** * ClusterServiceVersion references in an OLM Operator

    The helpers of phase_observe_operatorresource.go that the deletion
    handlers share with the OLM reconciler. *)
From S2P Require Export Samples.

(** The status of the first condition of type Succeeded decides. *)
(*@ controllers/addon/phase_observe_operatorresource.go:118-128 conditions *)
Fixpoint csv_phase_of (conds : list (string * string)) : string :=
  match conds with
  | [] => ""
  | (ty, status) :: l =>
      if ty =s? "Succeeded"
      then if status =s? "True" then CSVPhaseSucceeded else CSVPhaseFailed
      else csv_phase_of l
  end.

(*@ controllers/addon/phase_observe_operatorresource.go:114-129 getCSVPhase *)
Definition getCSVPhase (csvReference : option RichReference) : string :=
  match csvReference with
  | None => ""
  | Some r => csv_phase_of (ref_Conditions r)
  end.

(*@ controllers/addon/phase_observe_operatorresource.go:142-144 component *)
Definition concerns (csv : ObjectKey) (r : RichReference) : bool :=
  (ref_Kind r =s? "ClusterServiceVersion") && (ref_Name r =s? key_Name csv) &&
  (ref_Namespace r =s? key_Namespace csv).

(*@ controllers/addon/phase_observe_operatorresource.go:141-148 component *)
Fixpoint first_ref (csv : ObjectKey) (refs : list RichReference) : option RichReference :=
  match refs with
  | [] => None
  | r :: l => if concerns csv r then Some r else first_ref csv l
  end.

(*@ controllers/addon/phase_observe_operatorresource.go:136-149 findConcernedCSVReference *)
Definition findConcernedCSVReference (csv : ObjectKey) (operator : Operator) : option RichReference :=
  match op_Components operator with
  | None => None
  | Some refs => first_ref csv refs
  end.

(*@ controllers/addon/addon_deletion_handler_legacy.go:91-93 CSVmissing *)
Definition CSVmissing (operator : Operator) (csvKey : ObjectKey) : bool :=
  match findConcernedCSVReference csvKey operator with None => true | Some _ => false end.

Section OperatorRefs.
Context {L : Lib}.

(*@ controllers/addon/phase_observe_operatorresource.go:131-134 generateOperatorResourceName *)
Definition generateOperatorResourceName (addon : Addon) : M St string :=
  let* c := GetCommonInstallOptions addon in
  mpure (PackageName c +:+ "." +:+ ic_Namespace c).
End OperatorRefs.

(** ** What a reference found by the search is *)

Lemma first_ref_spec csv refs r :
  first_ref csv refs = Some r ->
  r ∈ refs /\ ref_Kind r = "ClusterServiceVersion" /\
  ref_Name r = key_Name csv /\ ref_Namespace r = key_Namespace csv.
Proof.
  induction refs as [|x l IH]; simpl; [done|].
  destruct (concerns csv x) eqn:E.
  - intros [= <-]. unfold concerns in E. bools. split; [left|done].
  - intros H. apply IH in H as [? ?]. split; [by right|done].
Qed.

Lemma first_ref_None csv refs :
  first_ref csv refs = None <-> Forall (fun r => concerns csv r = false) refs.
Proof.
  induction refs as [|x l IH]; simpl; [done|].
  rewrite Forall_cons, <- IH. destruct (concerns csv x); naive_solver.
Qed.
