(* ===== verification/Deletion.v ===== *)
(** * controllers/addon: deletion sub-reconciler and its handlers

    addon_deletion_reconciler.go with the legacy (delete ConfigMap) and the
    AddonInstance deletion handlers.  The reconciler runs a list of handlers,
    each with the two operations of the [addonDeletionHandler] interface. *)
From S2P Require Export OperatorRefs.

(** The interface of a deletion handler. *)
(*@ controllers/addon/addon_deletion_reconciler.go:20-23 addonDeletionHandler *)
Record addonDeletionHandler := mkDeletionHandler {
  NotifyAddon : M St (option error);
  AckReceivedFromAddon : M St (bool * option error)
}.

(*@ controllers/addon/addon_deletion_reconciler.go:15-16 defaultDeleteTimeoutDuration *)
Definition defaultDeleteTimeoutDuration : Z := Hour * 1.
(*@ controllers/addon/addon_deletion_reconciler.go:17-18 DELETION_RECONCILER_NAME *)
Definition DELETION_RECONCILER_NAME : string := "deletionReconciler".

Section Deletion.
Context {L : Lib}.

(** ** The legacy handler *)

(*@ controllers/addon/addon_deletion_handler_legacy.go:18-18 DeleteConfigMapLabel *)
Definition DeleteConfigMapLabel (addon : Addon) : string :=
  "api.openshift.com/addon-" +:+ a_Name addon +:+ "-delete".

(*@ controllers/addon/addon_deletion_handler_legacy.go:95-108 createDeleteConfigMap *)
Definition createDeleteConfigMap (addon : Addon) : M St (option error) :=
  let* c := GetCommonInstallOptions addon in
  let desiredCM := mkCM
    (set_Labels {[ DeleteConfigMapLabel addon := "true" ]}
       (new_meta (ic_Namespace c) (a_Name addon))) in
  let* r := k8s_Create KConfigMap desiredCM in
  mpure (err_of r).

(*@ controllers/addon/addon_deletion_handler_legacy.go:29-52 legacyDeletionHandler.NotifyAddon *)
Definition legacy_NotifyAddon : M St (option error) :=
  let* addon := get_addon in
  let* c := GetCommonInstallOptions addon in
  let* r := k8s_Get Uncached KConfigMap (mkKey (ic_Namespace c) (a_Name addon)) in
  match r with
  | inr err =>
      if IsNotFound (Some err) then createDeleteConfigMap addon else mpure (Some err)
  | inl currentDeleteCM =>
      let already :=
        match Labels (cm_Meta currentDeleteCM) !! DeleteConfigMapLabel addon with
        | Some v => v =s? "true"
        | None => false
        end in
      if already then mpure None
      else
        let m := cm_Meta currentDeleteCM in
        let modifiedCM := mkCM (set_Labels (<[DeleteConfigMapLabel addon := "true"]> (Labels m)) m) in
        let* r := k8s_Patch KConfigMap modifiedCM currentDeleteCM in
        mpure (err_of r)
  end.

(*@ controllers/addon/addon_deletion_handler_legacy.go:54-89 legacyDeletionHandler.AckReceivedFromAddon *)
Definition legacy_AckReceivedFromAddon : M St (bool * option error) :=
  let* addon := get_addon in
  let* opName := generateOperatorResourceName addon in
  let* r := k8s_Get Uncached KOperator (mkKey "" opName) in
  match r with
  | inr err => if IsNotFound (Some err) then mpure (false, None) else mpure (false, Some err)
  | inl operator =>
      let* c := GetCommonInstallOptions addon in
      let* r := k8s_Get Cached KSubscription (mkKey (ic_Namespace c) (SubscriptionName addon)) in
      match r with
      | inr err => if IsNotFound (Some err) then mpure (false, None) else mpure (false, Some err)
      | inl currentSubscription =>
          let csvKey := mkKey (ic_Namespace c) (sub_CurrentCSV (sub_Status currentSubscription)) in
          mpure (CSVmissing operator csvKey, None)
      end
  end.

(*@ controllers/addon/addon_deletion_handler_legacy.go:20-27 legacyDeletionHandler *)
Definition legacyDeletionHandler : addonDeletionHandler :=
  mkDeletionHandler legacy_NotifyAddon legacy_AckReceivedFromAddon.

(** ** The AddonInstance handler *)

(*@ controllers/addon/addon_deletion_handler_addon_instance.go:58-65 fetchAddonInstance *)
Definition fetchAddonInstance (addonNS : string) : M St (AddonInstance + error) :=
  k8s_Get Cached KAddonInstance (mkKey addonNS DefaultAddonInstanceName).

(*@ controllers/addon/addon_deletion_handler_addon_instance.go:67-77 hasReadyToBeDeletedStatusCondition *)
Definition hasReadyToBeDeletedStatusCondition (instance : AddonInstance) (expectedValue : string)
  : bool :=
  match FindStatusCondition (ai_Conditions (ai_Status instance))
          (AddonInstanceCondition_String AddonInstanceConditionReadyToBeDeleted) with
  | None => false
  | Some c => cond_Status c =s? expectedValue
  end.

(*@ controllers/addon/addon_deletion_handler_addon_instance.go:24-40 addonInstanceDeletionHandler.NotifyAddon *)
Definition instance_NotifyAddon : M St (option error) :=
  let* addon := get_addon in
  let* c := GetCommonInstallOptions addon in
  let* r := fetchAddonInstance (ic_Namespace c) in
  match r with
  | inr err => if IsNotFound (Some err) then mpure None else mpure (Some err)
  | inl current =>
      if negb (MarkedForDeletion (ai_Spec current)) then
        let updated :=
          set_ai_Spec (mkAISpec true (HeartbeatUpdatePeriod (ai_Spec current))) current in
        let* r := k8s_Update KAddonInstance updated in
        mpure (err_of r)
      else mpure None
  end.

(*@ controllers/addon/addon_deletion_handler_addon_instance.go:42-56 addonInstanceDeletionHandler.AckReceivedFromAddon *)
Definition instance_AckReceivedFromAddon : M St (bool * option error) :=
  let* addon := get_addon in
  let* c := GetCommonInstallOptions addon in
  let* r := fetchAddonInstance (ic_Namespace c) in
  match r with
  | inr err => if IsNotFound (Some err) then mpure (false, None) else mpure (false, Some err)
  | inl current => mpure (hasReadyToBeDeletedStatusCondition current ConditionTrue, None)
  end.

(*@ controllers/addon/addon_deletion_handler_addon_instance.go:15-22 addonInstanceDeletionHandler *)
Definition addonInstanceDeletionHandler : addonDeletionHandler :=
  mkDeletionHandler instance_NotifyAddon instance_AckReceivedFromAddon.

(** ** The reconciler *)

(*@ controllers/addon/addon_deletion_reconciler.go:96-98 removeDeleteTimeoutCondition *)
Definition removeDeleteTimeoutCondition (addon : Addon) : Addon := remove_condition DeleteTimeout addon.

(*@ controllers/addon/addon_deletion_reconciler.go:100-111 deleteTimeoutInterval *)
Definition deleteTimeoutInterval (addon : Addon) : Z :=
  match Annotations (a_Meta addon) !! DeleteTimeoutDuration with
  | None => defaultDeleteTimeoutDuration
  | Some str =>
      match ParseDuration str with
      | None => defaultDeleteTimeoutDuration
      | Some duration => duration
      end
  end.

(*@ controllers/addon/addon_deletion_reconciler.go:113-120 awaitingRemoteDeletion *)
Definition awaitingRemoteDeletion (addon : Addon) : bool :=
  match find_condition ReadyToBeDeleted addon with
  | None => false
  | Some c => cond_Status c =s? ConditionTrue
  end.

(** The clock is read only when the condition is there and not True. *)
(*@ controllers/addon/addon_deletion_reconciler.go:86-94 deletionTimedOut *)
Definition deletionTimedOut : M St bool :=
  let* addon := get_addon in
  match find_condition ReadyToBeDeleted addon with
  | None => mpure false
  | Some c =>
      if cond_Status c =s? ConditionTrue then mpure false
      else
        let* now := do_call CNow in
        mpure (time_After now (time_Add (cond_LastTransitionTime c) (deleteTimeoutInterval addon)))
  end.

(** The loop over the handlers: an error and an acknowledgement end it. *)
(*@ controllers/addon/addon_deletion_reconciler.go:59-75 NotifyAddon *)
Fixpoint run_handlers (handlers : list addonDeletionHandler) : M St (option (option error)) :=
  match handlers with
  | [] => mpure None
  | h :: hs =>
      let* err := NotifyAddon h in
      match err with
      | Some _ => mpure (Some (Join err (Some ErrNotifyAddon)))
      | None =>
          let* ack := AckReceivedFromAddon h in
          match ack with
          | (_, Some e) => mpure (Some (Join (Some e) (Some ErrAckReceivedFromAddon)))
          | (true, None) =>
              do* modify_addon removeDeleteTimeoutCondition in
              do* report (reportAddonReadyToBeDeletedStatus ConditionTrue) in
              mpure (Some None)
          | (false, None) => run_handlers hs
          end
      end
  end.

(*@ controllers/addon/addon_deletion_reconciler.go:41-84 addonDeletionReconciler.Reconcile *)
Definition deletion_Reconcile (handlers : list addonDeletionHandler)
  : M St (subReconcilerResult * option error) :=
  let* addon := get_addon in
  if negb (markedForDeletion addon) || awaitingRemoteDeletion addon then mpure (resultNil, None)
  else if negb (DeleteAckRequired (a_Spec addon)) then
    do* modify_addon removeDeleteTimeoutCondition in
    do* report (reportAddonReadyToBeDeletedStatus ConditionTrue) in
    mpure (resultNil, None)
  else
    do* report (reportAddonReadyToBeDeletedStatus ConditionFalse) in
    let* ended := run_handlers handlers in
    match ended with
    | Some err => mpure (resultNil, err)
    | None =>
        let* timedOut := deletionTimedOut in
        if (timedOut : bool) then
          do* report reportAddonDeletionTimedOut in mpure (resultNil, None)
        else
          let* addon := get_addon in
          mpure (resultRequeueAfter (deleteTimeoutInterval addon), None)
    end.

(*@ controllers/addon/addon_deletion_reconciler.go:35-39 addonDeletionReconciler *)
(*@ controllers/addon/addon_deletion_reconciler.go:122-128 Order *)
Definition addonDeletionReconciler (handlers : list addonDeletionHandler) : addonReconciler :=
  mkSubReconciler DELETION_RECONCILER_NAME AddonDeletionReconcilerOrder
    (deletion_Reconcile handlers) None.
End Deletion.

(** ** Theorems *)

Section DeletionLemmas.
Context {L : Lib} {LOk : LibOk L}.

(** The Addon acknowledged its deletion through the legacy handler: its
    Operator object was read without the current CSV of its Subscription. *)
Definition legacy_ack (addon : Addon) (h : history) : Prop :=
  let c := install_options addon in
  exists (op : obj KOperator) (sub : obj KSubscription),
    Ev (CGet Uncached KOperator (mkKey "" (PackageName c +:+ "." +:+ ic_Namespace c))) (inl op) ∈ h /\
    Ev (CGet Cached KSubscription (mkKey (ic_Namespace c) (SubscriptionName addon))) (inl sub) ∈ h /\
    findConcernedCSVReference (mkKey (ic_Namespace c) (sub_CurrentCSV (sub_Status sub))) op = None.

(** ... or through its AddonInstance. *)
Definition instance_ack (addon : Addon) (h : history) : Prop :=
  exists i : obj KAddonInstance,
    Ev (CGet Cached KAddonInstance
      (mkKey (ic_Namespace (install_options addon)) DefaultAddonInstanceName)) (inl i) ∈ h /\
    hasReadyToBeDeletedStatusCondition i ConditionTrue = true.

Section handlers.
Context (allow : history -> call -> Prop) (abort : stop -> Prop).
Hypothesis Hallow : forall h c, is_delete c = false -> allow h c.
Notation E := (hist_env allow abort).

Lemma legacy_NotifyAddon_spec s h :
  install_ok (st_addon s) ->
  wpM E legacy_NotifyAddon s h (fun _ _ s' => s' = s).
Proof.
  intros Hok. unfold legacy_NotifyAddon, createDeleteConfigMap. wp_run.
  apply wpM_GetCommonInstallOptions; [done|]. wp_run; try (by apply Hallow).
  apply wpM_GetCommonInstallOptions; [done|]. wp_run; by apply Hallow.
Qed.

Lemma legacy_Ack_spec s h :
  install_ok (st_addon s) ->
  wpM E legacy_AckReceivedFromAddon s h (fun h' r s' => s' = s /\
    (r = (true, None) -> legacy_ack (st_addon s) h')).
Proof.
  intros Hok. unfold legacy_AckReceivedFromAddon, generateOperatorResourceName, legacy_ack. wp_run.
  apply wpM_GetCommonInstallOptions; [done|]. wp_run; try (by apply Hallow).
  apply wpM_GetCommonInstallOptions; [done|]. wp_run; try (by apply Hallow).
  split; [done|]. intros [= Hm]. unfold CSVmissing in Hm.
  eexists _, _. split; [in_history|]. split; [in_history|]. by case_match.
Qed.

Lemma instance_NotifyAddon_spec s h :
  install_ok (st_addon s) ->
  wpM E instance_NotifyAddon s h (fun _ _ s' => s' = s).
Proof.
  intros Hok. unfold instance_NotifyAddon, fetchAddonInstance. wp_run.
  apply wpM_GetCommonInstallOptions; [done|]. wp_run; by apply Hallow.
Qed.

Lemma instance_Ack_spec s h :
  install_ok (st_addon s) ->
  wpM E instance_AckReceivedFromAddon s h (fun h' r s' => s' = s /\
    (r = (true, None) -> instance_ack (st_addon s) h')).
Proof.
  intros Hok. unfold instance_AckReceivedFromAddon, fetchAddonInstance, instance_ack. wp_run.
  apply wpM_GetCommonInstallOptions; [done|]. wp_run; try (by apply Hallow).
  split; [done|]. intros [= Hm]. eexists. split; [in_history|done].
Qed.

(** A handler that leaves the state alone and whose acknowledgement is
    evidence of [ack]. *)
Definition handler_ok (ack : Addon -> history -> Prop) (hd : addonDeletionHandler) : Prop :=
  (forall s h, install_ok (st_addon s) -> wpM E (NotifyAddon hd) s h (fun _ _ s' => s' = s)) /\
  (forall s h, install_ok (st_addon s) ->
     wpM E (AckReceivedFromAddon hd) s h (fun h' r s' => s' = s /\
       (r = (true, None) -> ack (st_addon s) h'))).

(** The state after an acknowledgement at time [now]. *)
Definition acknowledged (now : Z) (addon : Addon) : Addon :=
  reportAddonReadyToBeDeletedStatus ConditionTrue now (removeDeleteTimeoutCondition addon).

Lemma run_handlers_spec ack hs :
  Forall (handler_ok ack) hs ->
  (forall addon h h', h `suffix_of` h' -> ack addon h -> ack addon h') ->
  forall s h, install_ok (st_addon s) ->
  wpM E (run_handlers hs) s h (fun h' r s' =>
    match r with
    | Some None => ack (st_addon s) h' /\ exists now, s' = with_addon (acknowledged now) s
    | _ => s' = s
    end).
Proof.
  intros Hhs Hlater. induction Hhs as [|hd hs [Hn Ha] _ IH]; intros s h Hok; simpl; [done|].
  apply wpM_bind. eapply wpM_mono; [by apply Hn|]. intros h1 [e|] s1 ->; [done|].
  apply wpM_bind. eapply wpM_mono; [by apply Ha|]. intros h2 [[] [e|]] s2 [-> Hack]; simpl.
  - done.
  - wp_run; [by apply Hallow|]. split; [|by eexists].
    eapply Hlater; [|by apply Hack]. by apply suffix_cons_r.
  - done.
  - by apply IH.
Qed.
End handlers.

Lemma find_ReadyToBeDeleted value now addon :
  find_condition ReadyToBeDeleted (reportAddonReadyToBeDeletedStatus value now addon) =
    Some (stored_condition now (find_condition ReadyToBeDeleted addon)
      (if value =s? ConditionTrue
       then condition ReadyToBeDeleted value AddonReasonReadyToBeDeleted
              "Addon is ready to be deleted." (a_Generation addon)
       else condition ReadyToBeDeleted value AddonReasonNotReadyToBeDeleted
              "Addon is not yet ready to be deleted." (a_Generation addon))).
Proof.
  unfold reportAddonReadyToBeDeletedStatus.
  destruct (value =s? ConditionTrue); rewrite find_observe_generation, find_set_condition by done;
    by rewrite bool_decide_true.
Qed.

Lemma acknowledged_awaiting now addon : awaitingRemoteDeletion (acknowledged now addon) = true.
Proof.
  unfold awaitingRemoteDeletion, acknowledged. by rewrite find_ReadyToBeDeleted.
Qed.

Lemma reported_false_not_awaiting now addon :
  awaitingRemoteDeletion (reportAddonReadyToBeDeletedStatus ConditionFalse now addon) = false.
Proof. unfold awaitingRemoteDeletion. by rewrite find_ReadyToBeDeleted. Qed.

Definition acknowledged_by_addon (addon : Addon) (h : history) : Prop :=
  legacy_ack addon h \/ instance_ack addon h.

Lemma acknowledged_by_addon_later addon h h' :
  h `suffix_of` h' -> acknowledged_by_addon addon h -> acknowledged_by_addon addon h'.
Proof.
  intros Hh [(op & sub & H1 & H2 & H3)|(i & H1 & H2)]; [left|right].
  - exists op, sub. eauto with addon.
  - exists i. eauto with addon.
Qed.

(** The handlers of the operator. *)
(*@ controllers/addon/addon_controller.go:149-152 handlers *)
Definition handlers : list addonDeletionHandler := [legacyDeletionHandler; addonInstanceDeletionHandler].

Lemma handlers_ok allow abort :
  (forall h c, is_delete c = false -> allow h c) ->
  Forall (handler_ok allow abort acknowledged_by_addon) handlers.
Proof.
  intros Ha. constructor; [|constructor; [|constructor]]; split; intros s h Hok; simpl.
  - by apply legacy_NotifyAddon_spec.
  - eapply wpM_mono; [by apply legacy_Ack_spec|]. intros h' r s' [-> H]. split; [done|]. by left; apply H.
  - by apply instance_NotifyAddon_spec.
  - eapply wpM_mono; [by apply instance_Ack_spec|]. intros h' r s' [-> H]. split; [done|]. by right; apply H.
Qed.

(** What a reconcile comes to for an Addon that must acknowledge its deletion,
    once it is reported as not ready ([addon]): the acknowledgement, an error,
    the timeout, or a later reconcile. *)
Inductive deletion_outcome (addon : Addon) (h : history)
  : subReconcilerResult * option error -> Addon -> Prop :=
| acked now :
    acknowledged_by_addon addon h ->
    deletion_outcome addon h (resultNil, None) (acknowledged now addon)
| failed err : deletion_outcome addon h (resultNil, Some err) addon
| timed_out now now' c :
    find_condition ReadyToBeDeleted addon = Some c ->
    Ev CNow now ∈ h ->
    (time_Add (cond_LastTransitionTime c) (deleteTimeoutInterval addon) < now)%Z ->
    deletion_outcome addon h (resultNil, None) (reportAddonDeletionTimedOut now' addon)
| waiting now c :
    find_condition ReadyToBeDeleted addon = Some c ->
    Ev CNow now ∈ h ->
    (now <= time_Add (cond_LastTransitionTime c) (deleteTimeoutInterval addon))%Z ->
    deletion_outcome addon h (resultRequeueAfter (deleteTimeoutInterval addon), None) addon.

Lemma reported_spec value now addon :
  a_Spec (reportAddonReadyToBeDeletedStatus value now addon) = a_Spec addon /\
  a_Meta (reportAddonReadyToBeDeletedStatus value now addon) = a_Meta addon.
Proof. unfold reportAddonReadyToBeDeletedStatus. by destruct (value =s? ConditionTrue). Qed.

Lemma install_ok_spec a b : a_Spec a = a_Spec b -> install_ok a -> install_ok b.
Proof. unfold install_ok. by intros ->. Qed.

Lemma acknowledged_by_addon_reported value now addon h :
  acknowledged_by_addon (reportAddonReadyToBeDeletedStatus value now addon) h <->
  acknowledged_by_addon addon h.
Proof.
  destruct (reported_spec value now addon) as [Hs Hm].
  unfold acknowledged_by_addon, legacy_ack, instance_ack, install_options, SubscriptionName, a_Name.
  by rewrite Hs, Hm.
Qed.

Lemma awaiting_timed_out now addon :
  awaitingRemoteDeletion (reportAddonDeletionTimedOut now addon) = awaitingRemoteDeletion addon.
Proof.
  unfold awaitingRemoteDeletion, reportAddonDeletionTimedOut.
  rewrite find_observe_generation, find_set_condition by done. by rewrite bool_decide_false.
Qed.

Lemma deletionTimedOut_spec c allow abort s h :
  (forall h, allow h CNow) ->
  find_condition ReadyToBeDeleted (st_addon s) = Some c -> cond_Status c <> ConditionTrue ->
  wpM (hist_env allow abort) deletionTimedOut s h (fun h' r s' => s' = s /\
    exists now, h' = Ev CNow now :: h /\
      r = time_After now (time_Add (cond_LastTransitionTime c) (deleteTimeoutInterval (st_addon s)))).
Proof.
  intros Ha Hc Hne. unfold deletionTimedOut. apply wpM_bind, wpM_get_addon. rewrite Hc.
  rewrite bool_decide_false by done. wp_run. split; [done|]. by eexists.
Qed.

Lemma deletion_Reconcile_spec (s : St) :
  install_ok (st_addon s) -> markedForDeletion (st_addon s) = true ->
  awaitingRemoteDeletion (st_addon s) = false -> DeleteAckRequired (a_Spec (st_addon s)) = true ->
  wpM (hist_env (fun _ c => is_delete c = false) (fun _ => False)) (deletion_Reconcile handlers) s []
    (fun h r s' => exists now,
       deletion_outcome (reportAddonReadyToBeDeletedStatus ConditionFalse now (st_addon s)) h r
         (st_addon s')).
Proof.
  intros Hok Hm Haw Hack. unfold deletion_Reconcile. apply wpM_bind, wpM_get_addon.
  rewrite Hm, Haw, Hack. cbn [negb orb]. apply wpM_bind, wpM_report; [done|]. intros now h1 ->.
  set (s1 := with_addon _ s). set (addon1 := reportAddonReadyToBeDeletedStatus ConditionFalse now (st_addon s)).
  assert (st_addon s1 = addon1) as Hs1 by done.
  assert (install_ok addon1) as Hok1
    by (eapply install_ok_spec; [symmetry; apply reported_spec|done]).
  apply wpM_bind. eapply wpM_mono; [apply run_handlers_spec; [done|by apply handlers_ok|
    apply acknowledged_by_addon_later|done]|].
  intros h2 [[err|]|] s2 H2.
  - subst s2. apply wpM_pure. exists now. rewrite Hs1. apply failed.
  - destruct H2 as [Hev [now2 ->]]. apply wpM_pure. exists now. by apply acked.
  - subst s2. apply wpM_bind.
    eapply wpM_mono; [apply deletionTimedOut_spec; [done| |]|].
    + rewrite Hs1. apply find_ReadyToBeDeleted.
    + done.
    + intros h3 r s3 (-> & now3 & -> & ->). unfold time_After.
      destruct (_ <? now3)%Z eqn:Hlt.
      * wp_run. exists now. apply Z.ltb_lt in Hlt. eapply timed_out; [apply find_ReadyToBeDeleted| |exact Hlt].
        in_history.
      * wp_run. exists now. apply Z.ltb_ge in Hlt. eapply waiting; [apply find_ReadyToBeDeleted| |exact Hlt].
        left.
Qed.

(** C23: For an Addon marked for deletion that has to acknowledge it, one run of
    the deletion reconciler reports it as not ready, and then ends in exactly
    one of four ways: an acknowledgement backed by what the cluster answered
    makes it ready; an error; the timeout, if the clock is past the last
    transition plus the interval; or a requeue after the interval.  It
    deletes nothing and never panics on an Addon with an install
    configuration. *)
Theorem deletion_outcomes (s : St) :
  install_ok (st_addon s) -> markedForDeletion (st_addon s) = true ->
  awaitingRemoteDeletion (st_addon s) = false -> DeleteAckRequired (a_Spec (st_addon s)) = true ->
  wpM (hist_env (fun _ c => is_delete c = false) (fun _ => False)) (deletion_Reconcile handlers) s []
    (fun h r s' => exists now,
       deletion_outcome (reportAddonReadyToBeDeletedStatus ConditionFalse now (st_addon s)) h r
         (st_addon s')).
Proof. apply deletion_Reconcile_spec. Qed.

(** C24: On an Addon with the install configuration that its install type
    needs, the deletion reconciler deletes nothing and never panics. An Addon
    that is not marked for deletion, or is ready to be deleted already, is left
    alone: nothing is called, the result is zero, and the Addon and the
    operator's state are as before. One that was not ready becomes ready only
    if it is marked for deletion and either needs no acknowledgement or gave
    one through the legacy handler or its AddonInstance, as answered by the
    cluster. *)
Theorem ready_to_be_deleted_only_when_acknowledged (s : St) :
  install_ok (st_addon s) ->
  wpM (hist_env (fun _ c => is_delete c = false) (fun _ => False)) (deletion_Reconcile handlers) s []
    (fun h r s' =>
       (markedForDeletion (st_addon s) = false \/ awaitingRemoteDeletion (st_addon s) = true ->
          h = [] /\ r = (resultNil, None) /\ s' = s) /\
       (awaitingRemoteDeletion (st_addon s) = false -> awaitingRemoteDeletion (st_addon s') = true ->
          markedForDeletion (st_addon s) = true /\
          (DeleteAckRequired (a_Spec (st_addon s)) = false \/
           acknowledged_by_addon (st_addon s) h))).
Proof.
  intros Hok. destruct (negb (markedForDeletion (st_addon s)) || awaitingRemoteDeletion (st_addon s)) eqn:Hskip.
  { unfold deletion_Reconcile. apply wpM_bind, wpM_get_addon. rewrite Hskip. apply wpM_pure.
    split; [done|congruence]. }
  apply orb_false_iff in Hskip as [Hm%negb_false_iff Haw].
  assert (~ (markedForDeletion (st_addon s) = false \/ awaitingRemoteDeletion (st_addon s) = true)) as Hn
    by (rewrite Hm, Haw; by intros [|]).
  destruct (DeleteAckRequired (a_Spec (st_addon s))) eqn:Hack.
  - eapply wpM_mono; [by apply deletion_Reconcile_spec|].
    intros h r s' [now Hout]. split; [done|]. intros _ Hready. split; [done|]. right.
    remember (reportAddonReadyToBeDeletedStatus ConditionFalse now (st_addon s)) as addon1 eqn:Ha.
    remember (st_addon s') as addon' eqn:Ha'. destruct Hout as [now2 Hev|err|now2 now3 c Hc _ _|now2 c Hc _ _].
    + by rewrite Ha, acknowledged_by_addon_reported in Hev.
    + by rewrite Ha, reported_false_not_awaiting in Hready.
    + rewrite awaiting_timed_out, Ha, reported_false_not_awaiting in Hready. done.
    + by rewrite Ha, reported_false_not_awaiting in Hready.
  - unfold deletion_Reconcile. wp_run; rewrite ?Hm, ?Haw, ?Hack in *; simpl in *; try done.
    split; [done|]. split; [done|by left].
Qed.
End DeletionLemmas.
