(* ===== verification/Namespaces.v ===== *)
(** * controllers/addon/namespace_reconciler.go: the Addon's namespaces *)
From S2P Require Export Samples.

(*@ controllers/addon/namespace_reconciler.go:20-20 NAMESPACE_RECONCILER_NAME *)
Definition NAMESPACE_RECONCILER_NAME : string := "namespaceReconciler".

(** The object options: the Namespace takes the Addon's own maps. *)
(*@ controllers/addon/namespace_options.go:7-12 WithNamespaceLabels *)
Definition WithNamespaceLabels (l : option labels) (m : ObjectMeta) : ObjectMeta :=
  set_Labels (default ∅ l) m.
(*@ controllers/addon/namespace_options.go:14-19 WithNamespaceAnnotations *)
Definition WithNamespaceAnnotations (a : labels) (m : ObjectMeta) : ObjectMeta :=
  set_Annotations a m.

(** [AddCommonLabels] writes into the label map of the Namespace, which is
    the map of the Addon's i-th namespace when that one is not nil. *)
(*@ controllers/addon/namespace_options.go:7-13 WithNamespaceLabels *)
Definition alias_labels (i : nat) (addon : Addon) : Addon :=
  set_Namespaces
    (alter (fun n => mkAddonNs (an_Name n) (common_label_writes addon <$> an_Labels n)
                       (an_Annotations n)) i (Namespaces (a_Spec addon))) addon.

Section Namespaces.
Context {L : Lib}.

(*@ controllers/addon/namespace_reconciler.go:165-189 reconcileNamespace *)
Definition reconcileNamespace (namespace : NamespaceObj) : M St (NamespaceObj + error) :=
  let* r := k8s_Get Cached KNamespace (mkKey "" (Name (ns_Meta namespace))) in
  match r with
  | inr err =>
      if IsNotFound (Some err) then k8s_Create KNamespace namespace else mpure (inr err)
  | inl current =>
      let m := set_OwnerReferences (OwnerReferences (ns_Meta namespace)) (ns_Meta current) in
      let m := set_Labels (labels_Merge (Labels m) (Labels (ns_Meta namespace))) m in
      let m := set_Annotations (labels_Merge (Annotations m) (Annotations (ns_Meta namespace))) m in
      k8s_Update KNamespace (mkNs m (ns_Phase current))
  end.

(** The Namespace that [ensureNamespace] wants, or the error of setting its
    controller. *)
(*@ controllers/addon/namespace_reconciler.go:147-161 namespaceOpts *)
Definition desired_namespace (addon : Addon) (ns : AddonNamespace) : NamespaceObj + error :=
  let m := new_meta "" (an_Name ns) in
  let m := WithNamespaceLabels (an_Labels ns) m in
  let m := WithNamespaceAnnotations (an_Annotations ns) m in
  let m := AddCommonLabels addon m in
  let m := AddCommonAnnotations addon m in
  match SetControllerReference (a_Meta addon) m with
  | inl m => inl (mkNs m "")
  | inr err => inr err
  end.

(*@ controllers/addon/namespace_reconciler.go:145-163 ensureNamespace *)
Definition ensureNamespace (i : nat) (ns : AddonNamespace) : M St (NamespaceObj + error) :=
  let* addon := get_addon in
  do* modify_addon (alias_labels i) in
  match desired_namespace addon ns with
  | inr err => mpure (inr err)
  | inl namespace => reconcileNamespace namespace
  end.

(** The loop of [ensureWantedNamespaces] over the slice, from index [i]. *)
(*@ controllers/addon/namespace_reconciler.go:126-135 ensureNamespace *)
Fixpoint ensure_namespaces (i : nat) (l : list AddonNamespace) (unready : list string)
  : M St (list string + error) :=
  match l with
  | [] => mpure (inl unready)
  | ns :: l' =>
      let* r := ensureNamespace i ns in
      match r with
      | inr err => mpure (inr err)
      | inl ensured =>
          ensure_namespaces (S i) l'
            (if negb (ns_Phase ensured =s? NamespaceActive)
             then unready ++ [Name (ns_Meta ensured)] else unready)
      end
  end.

(*@ controllers/addon/namespace_reconciler.go:120-143 ensureWantedNamespaces *)
Definition ensureWantedNamespaces : M St (subReconcilerResult * option error) :=
  let* addon := get_addon in
  let* r := ensure_namespaces 0 (Namespaces (a_Spec addon)) [] in
  match r with
  | inr err => mpure (resultNil, Some err)
  | inl [] => mpure (resultNil, None)
  | inl unready =>
      do* report (reportUnreadyNamespaces unready) in
      mpure (resultRequeueAfter defaultRetryAfterTime, None)
  end.

(*@ controllers/addon/namespace_reconciler.go:101-118 getOwnedNamespacesViaCommonLabels *)
Definition getOwnedNamespacesViaCommonLabels : M St (list NamespaceObj + error) :=
  let* addon := get_addon in
  let* r := k8s_List Cached KNamespace None (CommonLabelsAsLabelSelector addon) in
  match r with
  | inr err => mpure (inr (ErrWrap "could not list owned Namespaces: " err))
  | inl items => mpure (inl items)
  end.

(*@ controllers/addon/namespace_reconciler.go:86-99 ensureNamespaceDeletion *)
Definition ensureNamespaceDeletion (name : string) : M St (option error) :=
  let* err := k8s_Delete KNamespace (mkKey "" name) in
  if negb (IsNotFound err) then mpure err else mpure None.

(** The names that are kept: the Addon's namespaces and its monitoring
    namespace. *)
(*@ controllers/addon/namespace_reconciler.go:61-68 wantedNamespaceNames *)
Definition wanted_names (addon : Addon) : gset string :=
  {[ GetMonitoringNamespaceName addon ]} ∪ list_to_set (map an_Name (Namespaces (a_Spec addon))).

(*@ controllers/addon/namespace_reconciler.go:70-81 ensureNamespaceDeletion *)
Fixpoint delete_unwanted (wanted : gset string) (l : list NamespaceObj) : M St (option error) :=
  match l with
  | [] => mpure None
  | namespace :: l' =>
      if bool_decide (Name (ns_Meta namespace) ∈ wanted) then delete_unwanted wanted l'
      else
        let* err := ensureNamespaceDeletion (Name (ns_Meta namespace)) in
        match err with
        | Some e => mpure (Some e)
        | None => delete_unwanted wanted l'
        end
  end.

(*@ controllers/addon/namespace_reconciler.go:53-84 ensureDeletionOfUnwantedNamespaces *)
Definition ensureDeletionOfUnwantedNamespaces : M St (option error) :=
  let* r := getOwnedNamespacesViaCommonLabels in
  match r with
  | inr err => mpure (Some err)
  | inl currentNamespaces =>
      let* addon := get_addon in
      delete_unwanted (wanted_names addon) currentNamespaces
  end.

(*@ controllers/addon/namespace_reconciler.go:28-43 namespaceReconciler.Reconcile *)
Definition namespace_Reconcile : M St (subReconcilerResult * option error) :=
  let* res := ensureWantedNamespaces in
  match res with
  | (_, Some err) => mpure (resultNil, Some (ErrWrap "failed to ensure wanted Namespaces: " err))
  | (result, None) =>
      if negb (IsZero result) then mpure (result, None)
      else
        let* err := ensureDeletionOfUnwantedNamespaces in
        match err with
        | Some e =>
            mpure (resultNil, Some (ErrWrap "failed to ensure deletion of unwanted Namespaces: " e))
        | None => mpure (resultNil, None)
        end
  end.

(*@ controllers/addon/namespace_reconciler.go:22-26 namespaceReconciler *)
(*@ controllers/addon/namespace_reconciler.go:45-51 namespaceReconciler.Name *)
Definition namespaceReconciler : addonReconciler :=
  mkSubReconciler NAMESPACE_RECONCILER_NAME NamespaceReconcilerOrder namespace_Reconcile None.
End Namespaces.

(** ** Theorems *)

(** The server answered Active to the creation of a namespace, or to the
    update of the object it had returned for it. *)
Definition reported_active (h : history) (name : string) : Prop :=
  (exists (o n : obj KNamespace), Ev (CCreate KNamespace o) (inl n) ∈ h /\
     Name (ns_Meta o) = name /\ ns_Phase n = NamespaceActive) \/
  (exists (cur o n : obj KNamespace),
     Ev (CGet Cached KNamespace (mkKey "" name)) (inl cur) ∈ h /\
     Ev (CUpdate KNamespace o) (inl n) ∈ h /\
     Name (ns_Meta o) = Name (ns_Meta cur) /\ ns_Phase n = NamespaceActive).

(** A namespace was listed as one that carries the Addon's labels. *)
Definition listed_namespace (addon : Addon) (h : history) (name : string) : Prop :=
  exists (l : list (obj KNamespace)) n,
    Ev (CList Cached KNamespace None (CommonLabelsAsLabelSelector addon)) (inl l) ∈ h /\
    n ∈ l /\ Name (ns_Meta n) = name.

(** What the reconciler may delete, at a point of an execution. *)
Definition may_delete (addon : Addon) (h : history) (c : call) : Prop :=
  match c with
  | CDelete KNamespace k =>
      (key_Name k ∉ wanted_names addon) /\ listed_namespace addon h (key_Name k) /\
      Forall (fun ns => reported_active h (an_Name ns)) (Namespaces (a_Spec addon))
  | CDelete _ _ => False
  | _ => True
  end.

Lemma reported_active_later h h' name :
  h `suffix_of` h' -> reported_active h name -> reported_active h' name.
Proof.
  intros Hh [(o & n & H & H')|(cur & o & n & H1 & H2 & H')]; [left|right].
  - exists o, n. eauto with addon.
  - exists cur, o, n. eauto with addon.
Qed.

Section NamespaceLemmas.
Context {L : Lib} {LOk : LibOk L}.

(** What of the Addon the loop over its namespaces keeps. *)
Definition same_names (a b : Addon) : Prop :=
  a_Meta a = a_Meta b /\
  map an_Name (Namespaces (a_Spec a)) = map an_Name (Namespaces (a_Spec b)).

#[local] Instance same_names_refl : Reflexive same_names.
Proof. done. Qed.
#[local] Instance same_names_trans : Transitive same_names.
Proof. intros x y z [H1 H2] [H3 H4]. split; congruence. Qed.

Lemma same_names_alias i addon : same_names (alias_labels i addon) addon.
Proof.
  split; [done|]. simpl. generalize (Namespaces (a_Spec addon)) as l.
  intros l. revert i. induction l as [|x l IH]; intros [|i]; [done|done|done|].
  cbn. f_equal. apply IH.
Qed.

Lemma wanted_names_same a b : same_names a b -> wanted_names a = wanted_names b.
Proof.
  unfold wanted_names, GetMonitoringNamespaceName, a_Name. intros [-> H]. by rewrite H.
Qed.

Lemma desired_namespace_name addon ns n :
  desired_namespace addon ns = inl n -> Name (ns_Meta n) = an_Name ns.
Proof.
  unfold desired_namespace. set (m := AddCommonLabels addon _).
  destruct (AddCommonAnnotations_meta addon m) as [a ->].
  rewrite set_controller_fresh by done. by intros [= <-].
Qed.

Section ensure_loop.
Context (allow : history -> call -> Prop) (abort : stop -> Prop).
Hypothesis Hallow : forall h c, is_delete c = false -> allow h c.
Notation E := (hist_env allow abort).

Lemma ensureNamespace_spec i ns s h :
  wpM E (ensureNamespace i ns) s h (fun h' r s' =>
    same_names (st_addon s') (st_addon s) /\
    forall n, r = inl n -> ns_Phase n = NamespaceActive -> reported_active h' (an_Name ns)).
Proof.
  unfold ensureNamespace, reconcileNamespace.
  wp_run; try (by apply Hallow);
    (split; [apply same_names_alias|intros n' ? Hn'; simplify_eq]);
    match goal with H : desired_namespace _ _ = inl _ |- _ => apply desired_namespace_name in H end.
  - right. eexists n0, _, n'. split; [|split; [left|done]]. right. rewrite <- Heqs0. left.
  - left. exists n, n'. split; [left|done].
Qed.

Lemma ensure_namespaces_spec l : forall i unready s h,
  wpM E (ensure_namespaces i l unready) s h (fun h' r s' =>
    same_names (st_addon s') (st_addon s) /\
    (r = inl [] -> unready = [] /\ Forall (fun ns => reported_active h' (an_Name ns)) l)).
Proof.
  induction l as [|ns l IH]; intros i unready s h; simpl.
  { wp_run. split; [done|]. intros [= ->]. split; [done|constructor]. }
  apply wpM_bind. eapply wpM_mono; [apply ensureNamespace_spec|].
  intros h1 [n|e] s1 [Hs1 Hn]; wp_run.
  eapply wpM_mono; [apply wpM_grows, IH|]. intros h2 r s2 [[Hs2 Hr] Hh].
  split; [by etrans|]. intros [Hu Hl]%Hr.
  destruct (ns_Phase n =s? NamespaceActive) eqn:Ha; simpl in Hu; [|by destruct unready].
  bools. split; [done|]. constructor; [|done]. eapply reported_active_later; [done|by eapply Hn].
Qed.

Lemma ensureWantedNamespaces_spec s h :
  wpM E ensureWantedNamespaces s h (fun h' r s' =>
    same_names (st_addon s') (st_addon s) /\
    (r = (resultNil, None) ->
       Forall (fun ns => reported_active h' (an_Name ns)) (Namespaces (a_Spec (st_addon s))))).
Proof.
  unfold ensureWantedNamespaces. wp_run. eapply wpM_mono; [apply ensure_namespaces_spec|].
  intros h1 r s1 [Hs1 Hr]. wp_run; try (by apply Hallow); (split; [done|]); try done.
  intros _. by apply Hr.
Qed.
End ensure_loop.

(** The deletion loop, over a part of the listed namespaces. *)
Lemma delete_unwanted_spec addon wanted l0 l s h :
  l ⊆ l0 -> wanted_names addon = wanted ->
  Ev (CList Cached KNamespace None (CommonLabelsAsLabelSelector addon))
    (inl (l0 : list (obj KNamespace))) ∈ h ->
  Forall (fun ns => reported_active h (an_Name ns)) (Namespaces (a_Spec addon)) ->
  wpM (hist_env (may_delete addon) (fun _ => False)) (delete_unwanted wanted l) s h
    (fun _ _ _ => True).
Proof.
  intros Hl Hw. revert s h. induction l as [|n l IH]; intros s h HL Hact; simpl; [done|].
  assert (n ∈ l0 /\ l ⊆ l0) as [Hn Hl'] by set_solver.
  case_bool_decide as Hin; [by apply IH|]. unfold ensureNamespaceDeletion. wp_run.
  1: { subst wanted. split; [done|]. split; [|done]. by exists l0, n. }
  all: apply IH; [done|by right|]; eapply Forall_impl; [exact Hact|]; intros ns Hns;
    eapply reported_active_later; [|exact Hns]; by apply suffix_cons_r.
Qed.

(** An unwanted namespace is gone: its deletion was accepted or found nothing. *)
Definition deleted_namespace (h : history) (name : string) : Prop :=
  exists e, Ev (CDelete KNamespace (mkKey "" name)) e ∈ h /\ (e = None \/ IsNotFound e = true).

Lemma delete_unwanted_complete wanted l : forall s h,
  wpM (hist_env (fun _ _ => True) (fun _ => False)) (delete_unwanted wanted l) s h
    (fun h' r _ => r = None ->
       Forall (fun n => (Name (ns_Meta n) ∉ wanted) -> deleted_namespace h' (Name (ns_Meta n))) l).
Proof.
  induction l as [|n l IH]; intros s h; simpl; [by wp_run|].
  case_bool_decide as Hin.
  { eapply wpM_mono; [apply IH|]. intros h' r s' H Hr. constructor; [done|by apply H]. }
  apply wpM_bind. unfold ensureNamespaceDeletion. apply wpM_bind.
  unfold k8s_Delete. apply wpM_hist_call; [done|]. intros e.
  assert (forall h', Ev (CDelete KNamespace (mkKey "" (Name (ns_Meta n)))) e :: h `suffix_of` h' ->
    e = None \/ IsNotFound e = true -> deleted_namespace h' (Name (ns_Meta n))) as Hdel.
  { intros h' Hh He. exists e. split; [|done]. eapply suffix_elem_of; [done|left]. }
  destruct (negb (IsNotFound e)) eqn:Hnf; bools; apply wpM_pure; [destruct e as [e|]|].
  1: by apply wpM_pure.
  all: eapply wpM_mono; [apply wpM_grows, IH|]; intros h' r s' [H Hh] Hr;
    (constructor; [|by apply H]); intros _; apply Hdel; [done|]; auto.
Qed.

Lemma selector_same a b :
  same_names a b -> CommonLabelsAsLabelSelector a = CommonLabelsAsLabelSelector b.
Proof. unfold CommonLabelsAsLabelSelector, common_label_writes, a_Name. by intros [-> _]. Qed.

(** C19: Whatever the API server answers, the namespace reconciler deletes a
    namespace only when it is neither a namespace of the Addon nor its
    monitoring namespace, was listed by the Addon's own labels, and after
    every wanted namespace was answered as Active; it deletes nothing else and
    never panics. *)
Theorem namespaces_deleted_only_when_unwanted (s : St) :
  wpM (hist_env (may_delete (st_addon s)) (fun _ => False)) namespace_Reconcile s []
    (fun _ _ _ => True).
Proof.
  unfold namespace_Reconcile. apply wpM_bind.
  eapply wpM_mono; [apply ensureWantedNamespaces_spec; by intros h [] Hc|].
  intros h1 [r [e|]] s1 [Hs1 Hr]; [done|].
  destruct (IsZero r) eqn:Hz; simpl; [|done]. apply IsZero_true in Hz as ->. specialize (Hr eq_refl).
  unfold ensureDeletionOfUnwantedNamespaces, getOwnedNamespacesViaCommonLabels.
  pose proof (selector_same _ _ Hs1) as Hsel. wp_run.
  eapply wpM_mono; [eapply delete_unwanted_spec; [done|symmetry; by apply wanted_names_same|..]|].
  - rewrite Hsel. left.
  - eapply Forall_impl; [exact Hr|]. intros ns Hns.
    eapply reported_active_later; [|exact Hns]. by apply suffix_cons_r.
  - intros h2 [e|] s2 _; wp_run.
Qed.

(** C20: When the namespace reconciler returns the zero result without an error,
    every namespace of the Addon was answered as Active and every namespace
    that was listed by the Addon's labels and is not wanted is gone. *)
Theorem namespaces_reconciled (s : St) :
  wpM (hist_env (fun _ _ => True) (fun _ => False)) namespace_Reconcile s []
    (fun h r _ => r = (resultNil, None) ->
       Forall (fun ns => reported_active h (an_Name ns)) (Namespaces (a_Spec (st_addon s))) /\
       exists l : list (obj KNamespace),
         Ev (CList Cached KNamespace None (CommonLabelsAsLabelSelector (st_addon s))) (inl l) ∈ h /\
         Forall (fun n => (Name (ns_Meta n) ∉ wanted_names (st_addon s)) ->
           deleted_namespace h (Name (ns_Meta n))) l).
Proof.
  unfold namespace_Reconcile. apply wpM_bind.
  eapply wpM_mono; [by apply ensureWantedNamespaces_spec|].
  intros h1 [r [e|]] s1 [Hs1 Hr]; [done|].
  destruct (IsZero r) eqn:Hz; simpl; [|by intros [= ->]].
  apply IsZero_true in Hz as ->. specialize (Hr eq_refl).
  unfold ensureDeletionOfUnwantedNamespaces, getOwnedNamespacesViaCommonLabels. wp_run.
  eapply wpM_mono; [apply wpM_grows, delete_unwanted_complete|].
  intros h2 [e|] s2 [Hd Hh]; wp_run. split.
  - eapply Forall_impl; [exact Hr|]. intros ns. apply reported_active_later.
    etrans; [|exact Hh]. by apply suffix_cons_r.
  - exists l. split; [|by rewrite <- (wanted_names_same _ _ Hs1); apply Hd].
    rewrite <- (selector_same _ _ Hs1). eapply suffix_elem_of; [exact Hh|left].
Qed.
End NamespaceLemmas.
