(* ===== verification/SecretPropagation.v ===== *)
(** * controllers/addon/secret_reconciler.go: propagation of secrets *)
From S2P Require Export Samples.

(*@ controllers/addon/secret_reconciler.go:19-19 SECRET_RECONCILER_NAME *)
Definition SECRET_RECONCILER_NAME : string := "secretPropogationReconciler".

Section Secrets.
Context {L : Lib}.
(** [r.addonOperatorNamespace]. *)
Variable addonOperatorNamespace : string.

(** The secret marked for the cache and owned by the Addon. *)
(*@ controllers/addon/secret_reconciler.go:137-140 updatedReferenceSecret *)
Definition cache_labelled (addon : Addon) (s : Secret) : Secret + error :=
  match SetOwnerReference (a_Meta addon) (sec_Meta s) with
  | inr err => inr err
  | inl m =>
      inl (mkSecret (set_Labels (<[CommonCacheLabel := CommonCacheValue]> (Labels m)) m)
             (sec_Data s) (sec_Type s))
  end.

(** The fallback read past the cache: [None] for the secret stands for the
    nil pointer returned with a result or an error. *)
(*@ controllers/addon/secret_reconciler.go:122-143 uncachedClient *)
Definition getReferencedSecret_uncached (secretKey : ObjectKey)
  : M St (option Secret * subReconcilerResult * option error) :=
  let* addon := get_addon in
  let* r := k8s_Get Uncached KSecret secretKey in
  match r with
  | inr err =>
      if IsNotFound (Some err) then
        do* report (reportPendingStatus AddonReasonMissingSecretForPropagation (Error err)) in
        mpure (None, resultRequeueAfter defaultRetryAfterTime, None)
      else
        mpure (None, resultNil,
          Some (ErrWrap "getting source Secret for propagation via uncached client: " err))
  | inl referencedSecret =>
      match cache_labelled addon referencedSecret with
      | inr err =>
          mpure (None, resultNil, Some (ErrWrap
            "adding OwnerReference for AddonOperator to referenced source Secret: " err))
      | inl updated =>
          let* r := k8s_Patch KSecret updated referencedSecret in
          match err_of r with
          | Some err =>
              mpure (None, resultNil,
                Some (ErrWrap "patching source Secret for cache and ownership: " err))
          | None => mpure (Some referencedSecret, resultNil, None)
          end
      end
  end.

(*@ controllers/addon/secret_reconciler.go:113-148 getReferencedSecret *)
Definition getReferencedSecret (secretKey : ObjectKey)
  : M St (option Secret * subReconcilerResult * option error) :=
  let* r := k8s_Get Cached KSecret secretKey in
  match r with
  | inl referencedSecret => mpure (Some referencedSecret, resultNil, None)
  | inr err =>
      if IsNotFound (Some err) then getReferencedSecret_uncached secretKey
      else mpure (None, resultNil, Some (ErrWrap "getting source Secret for propagation: " err))
  end.

(** The destination secret of a source, without its namespace. *)
(*@ controllers/addon/secret_reconciler.go:95-107 destSecret *)
Definition destination_secret (addon : Addon) (name : string) (src : Secret) : Secret + error :=
  let m := AddCommonAnnotations addon (AddCommonLabels addon (new_meta "" name)) in
  match SetControllerReference (a_Meta addon) m with
  | inr err => inr err
  | inl m => inl (mkSecret m (sec_Data src) (sec_Type src))
  end.

(*@ controllers/addon/secret_reconciler.go:83-109 destinationSecrets *)
Fixpoint destination_secrets (refs : list AddonSecretPropagationReference) (acc : list Secret)
  : M St (list Secret * subReconcilerResult * option error) :=
  match refs with
  | [] => mpure (acc, resultNil, None)
  | secretRef :: refs' =>
      let* r := getReferencedSecret (mkKey addonOperatorNamespace (SourceSecret secretRef)) in
      match r with
      | (_, _, Some err) => mpure ([], resultNil, Some err)
      | (src, result, None) =>
          if negb (IsZero result) then mpure ([], result, None)
          else
            let* addon := get_addon in
            let* src := deref src in
            match destination_secret addon (DestinationSecret secretRef) src with
            | inr err => mpure ([], resultNil, Some (ErrWrap "setting owner reference: " err))
            | inl dest => destination_secrets refs' (acc ++ [dest])
            end
      end
  end.

(*@ controllers/addon/secret_reconciler.go:72-111 getDestinationSecretsWithoutNamespace *)
Definition getDestinationSecretsWithoutNamespace
  : M St (list Secret * subReconcilerResult * option error) :=
  let* addon := get_addon in
  match SecretPropagation (a_Spec addon) with
  | None => mpure ([], resultNil, None)
  | Some p => destination_secrets (Secrets p) []
  end.

(*@ controllers/addon/secret_reconciler.go:196-224 reconcileSecret *)
Definition reconcileSecret (desired : Secret) : M St (option error) :=
  let* r := k8s_Get Cached KSecret (meta_key (sec_Meta desired)) in
  match r with
  | inr err =>
      if IsNotFound (Some err) then
        let* r := k8s_Create KSecret desired in
        match err_of r with
        | Some e =>
            if negb (IsAlreadyExists (Some e))
            then mpure (Some (ErrWrap "creating secret: " e)) else mpure None
        | None => mpure None
        end
      else mpure (Some (ErrWrap "getting secret: " err))
  | inl actual =>
      let m := set_Labels (Labels (sec_Meta desired) ∪ Labels (sec_Meta actual)) (sec_Meta actual) in
      let m := set_OwnerReferences (OwnerReferences (sec_Meta desired)) m in
      let* r := k8s_Update KSecret (mkSecret m (sec_Data desired) (sec_Type actual)) in
      match err_of r with
      | Some e => mpure (Some (ErrWrap "updating secret: " e))
      | None => mpure None
      end
  end.

(** [destSecret.DeepCopy()] in namespace [ns]. *)
(*@ controllers/addon/secret_reconciler.go:158-159 destSecret *)
Definition in_namespace (ns : string) (s : Secret) : Secret :=
  mkSecret (set_Namespace ns (sec_Meta s)) (sec_Data s) (sec_Type s).

(** The two nested loops, as one over the pairs (secret, namespace). *)
(*@ controllers/addon/secret_reconciler.go:156-157 destinationSecretsWithoutNamespace *)
Definition placements (secrets : list Secret) (namespaces : list AddonNamespace) : list Secret :=
  concat (map (fun s => map (fun ns => in_namespace (an_Name ns) s) namespaces) secrets).

(*@ controllers/addon/secret_reconciler.go:156-167 reconcileSecret *)
Fixpoint reconcile_placements (l : list Secret) (known : gset ObjectKey)
  : M St (gset ObjectKey * option error) :=
  match l with
  | [] => mpure (known, None)
  | destSecret :: l' =>
      let key := meta_key (sec_Meta destSecret) in
      let known := {[ key ]} ∪ known in
      let* err := reconcileSecret destSecret in
      match err with
      | Some e =>
          mpure (∅, Some (ErrWrap
            ("reconciling secret " +:+ NamespacedName_String key +:+ ": ") e))
      | None => reconcile_placements l' known
      end
  end.

(*@ controllers/addon/secret_reconciler.go:150-169 reconcileSecretsInAddonNamespaces *)
Definition reconcileSecretsInAddonNamespaces (secrets : list Secret)
  : M St (gset ObjectKey * option error) :=
  let* addon := get_addon in
  reconcile_placements (placements secrets (Namespaces (a_Spec addon))) ∅.

(*@ controllers/addon/secret_reconciler.go:181-192 secretList *)
Fixpoint delete_unknown (known : gset ObjectKey) (l : list Secret) : M St (option error) :=
  match l with
  | [] => mpure None
  | secret :: l' =>
      if bool_decide (meta_key (sec_Meta secret) ∈ known) then delete_unknown known l'
      else
        let* err := k8s_Delete KSecret (meta_key (sec_Meta secret)) in
        match err with
        | Some e => mpure (Some (ErrWrap "deleting unknown propagated secret: " e))
        | None => delete_unknown known l'
        end
  end.

(*@ controllers/addon/secret_reconciler.go:171-194 cleanupUnknownSecrets *)
Definition cleanupUnknownSecrets (known : gset ObjectKey) : M St (option error) :=
  let* addon := get_addon in
  let* r := k8s_List Cached KSecret None (CommonLabelsAsLabelSelector addon) in
  match r with
  | inr err => mpure (Some (ErrWrap "listing secrets for delete check: " err))
  | inl items => delete_unknown known items
  end.

(*@ controllers/addon/secret_reconciler.go:29-62 addonSecretPropagationReconciler.Reconcile *)
Definition secret_Reconcile : M St (subReconcilerResult * option error) :=
  let* addon := get_addon in
  let none_wanted :=
    match SecretPropagation (a_Spec addon) with
    | None => true
    | Some p => bool_decide (Secrets p = [])
    end in
  if none_wanted then
    let* err := cleanupUnknownSecrets ∅ in
    match err with
    | Some e => mpure (resultNil, Join (Some e) (Some ErrCleanupUnknownSecrets))
    | None => mpure (resultNil, None)
    end
  else
    let* r := getDestinationSecretsWithoutNamespace in
    match r with
    | (_, _, Some err) =>
        mpure (resultNil, Join (Some err) (Some ErrGetDestinationSecretsWithoutNamespace))
    | (secrets, result, None) =>
        if negb (IsZero result) then mpure (result, None)
        else
          let* r := reconcileSecretsInAddonNamespaces secrets in
          match r with
          | (_, Some err) =>
              mpure (resultNil, Join (Some err) (Some ErrReconcileSecretsInAddonNamespaces))
          | (known, None) =>
              let* err := cleanupUnknownSecrets known in
              match err with
              | Some e => mpure (resultNil, Join (Some e) (Some ErrCleanupUnknownSecrets))
              | None => mpure (resultNil, None)
              end
          end
    end.

(*@ controllers/addon/secret_reconciler.go:21-27 addonSecretPropagationReconciler *)
(*@ controllers/addon/secret_reconciler.go:64-70 addonSecretPropagationReconciler.Name *)
Definition addonSecretPropagationReconciler : addonReconciler :=
  mkSubReconciler SECRET_RECONCILER_NAME AddonSecretPropagationReconcilerOrder
    secret_Reconcile None.
End Secrets.

(** ** Theorems *)

(** The keys of the destination secrets of an Addon. *)
Definition placement_keys (addon : Addon) : list ObjectKey :=
  concat (map (fun ref =>
    map (fun ns => mkKey (an_Name ns) (DestinationSecret ref)) (Namespaces (a_Spec addon)))
    (match SecretPropagation (a_Spec addon) with Some p => Secrets p | None => [] end)).

(** What the reconciler may delete: a secret listed by the Addon's labels
    that is no destination. *)
Definition may_delete_secret (addon : Addon) (h : history) (c : call) : Prop :=
  match c with
  | CDelete KSecret k =>
      (k ∉ placement_keys addon) /\
      exists (l : list (obj KSecret)) x,
        Ev (CList Cached KSecret None (CommonLabelsAsLabelSelector addon)) (inl l) ∈ h /\
        x ∈ l /\ meta_key (sec_Meta x) = k
  | CDelete _ _ => False
  | _ => True
  end.

Section SecretLemmas.
Context {L : Lib} {LOk : LibOk L} (opns : string).

(** The source of a destination was read. *)
Definition source_read (h : history) (source : string) (data : labels) (ty : string) : Prop :=
  exists c (src : obj KSecret),
    Ev (CGet c KSecret (mkKey opns source)) (inl src) ∈ h /\ sec_Data src = data /\ sec_Type src = ty.

Definition destination_of (h : history) (ref : AddonSecretPropagationReference) (d : Secret) : Prop :=
  Name (sec_Meta d) = DestinationSecret ref /\
  source_read h (SourceSecret ref) (sec_Data d) (sec_Type d).

Lemma source_read_later h h' x d t :
  h `suffix_of` h' -> source_read h x d t -> source_read h' x d t.
Proof. intros Hh (c & src & H & H'). exists c, src. eauto with addon. Qed.

Lemma destination_secret_name addon name src d :
  destination_secret addon name src = inl d ->
  Name (sec_Meta d) = name /\ sec_Data d = sec_Data src /\ sec_Type d = sec_Type src.
Proof.
  unfold destination_secret.
  destruct (AddCommonLabels_meta addon (new_meta "" name)) as [l ->].
  destruct (AddCommonAnnotations_meta addon (set_Labels l (new_meta "" name))) as [a ->].
  rewrite set_controller_fresh by done. by intros [= <-].
Qed.

(** The identity of the Addon, which only status reports change. *)
Definition same_spec (a b : Addon) : Prop := a_Meta a = a_Meta b /\ a_Spec a = a_Spec b.

Section reads.
Context (allow : history -> call -> Prop) (abort : stop -> Prop).
Hypothesis Hallow : forall h c, is_delete c = false -> allow h c.
Notation E := (hist_env allow abort).

Lemma getReferencedSecret_spec source s h :
  wpM E (getReferencedSecret (mkKey opns source)) s h (fun h' '(o, res, err) s' =>
    same_spec (st_addon s') (st_addon s) /\
    (err = None -> IsZero res = true -> exists src, o = Some src /\
       source_read h' source (sec_Data src) (sec_Type src))).
Proof.
  unfold getReferencedSecret, getReferencedSecret_uncached.
  wp_run; try (by apply Hallow); split; try done; intros _ _; eexists; (split; [done|]);
    (eexists _, _; split; [in_history|done]).
Qed.

Lemma destination_secrets_spec refs : forall acc s h,
  wpM E (destination_secrets opns refs acc) s h (fun h' '(secs, res, err) s' =>
    same_spec (st_addon s') (st_addon s) /\
    (err = None -> IsZero res = true ->
       exists ds, secs = acc ++ ds /\ Forall2 (destination_of h') refs ds)).
Proof.
  induction refs as [|ref refs IH]; intros acc s h; simpl.
  { wp_run. split; [done|]. intros _ _. exists []. by rewrite app_nil_r. }
  apply wpM_bind. eapply wpM_mono; [apply getReferencedSecret_spec|].
  intros h1 [[o res] [e|]] s1 [Hs Ho]; [done|].
  destruct (IsZero res) eqn:Hz; simpl; [|split; [done|congruence]].
  specialize (Ho eq_refl eq_refl) as (src & -> & Hsrc). wp_run; simplify_eq.
  apply destination_secret_name in Heqs0 as (Hn & Hd & Ht).
  eapply wpM_mono; [apply wpM_grows, IH|]. intros h2 [[secs res'] err] s2 [[Hs2 Hr] Hh].
  split; [split; (etrans; [apply Hs2|apply Hs])|]. intros He Hz'.
  destruct (Hr He Hz') as (ds & -> & Hds). exists (s0 :: ds). rewrite <- app_assoc. split; [done|].
  constructor; [|done]. split; [done|]. rewrite Hd, Ht. by eapply source_read_later.
Qed.

(** A destination secret was written: created where the cache had none, or sent
    with the data as an update of the object the cache returned for its key, and
    accepted by the server. *)
Definition written (h : history) (d : Secret) : Prop :=
  (exists e x, Ev (CGet Cached KSecret (meta_key (sec_Meta d))) (inr e) ∈ h /\ IsNotFound (Some e) = true /\
     Ev (CCreate KSecret d) (inl x) ∈ h) \/
  (exists (cur o x : obj KSecret),
     Ev (CGet Cached KSecret (meta_key (sec_Meta d))) (inl cur) ∈ h /\
     Ev (CUpdate KSecret o) (inl x) ∈ h /\
     meta_key (sec_Meta o) = meta_key (sec_Meta cur) /\ sec_Data o = sec_Data d /\
     sec_Type o = sec_Type cur).

(** Nothing was written: the cache had no secret under its key, and the server
    refused to create it because there is one. *)
Definition hidden (h : history) (d : Secret) : Prop :=
  exists e e', Ev (CGet Cached KSecret (meta_key (sec_Meta d))) (inr e) ∈ h /\ IsNotFound (Some e) = true /\
    Ev (CCreate KSecret d) (inr e') ∈ h /\ IsAlreadyExists (Some e') = true.

Definition placed (h : history) (d : Secret) : Prop := written h d \/ hidden h d.

Lemma placed_later h h' d : h `suffix_of` h' -> placed h d -> placed h' d.
Proof.
  intros Hh [[(e & x & H & H' & H'')|(cur & o & x & H1 & H2 & H3 & H4 & H5)]|(e & e' & H1 & H2 & H3 & H4)].
  - left. left. exists e, x. split_and!; eauto with addon.
  - left. right. exists cur, o, x. split_and!; eauto with addon.
  - right. exists e, e'. split_and!; eauto with addon.
Qed.

Lemma reconcileSecret_spec d s h :
  wpM E (reconcileSecret d) s h (fun h' err s' => s' = s /\ (err = None -> placed h' d)).
Proof.
  unfold reconcileSecret. wp_run; try (by apply Hallow); (split; [done|]); try done; intros _.
  - destruct r as [x|]; [|done]. left. right. eexists s0, _, x.
    split; [in_history|]. split; [in_history|]. done.
  - destruct r as [|e']; [done|]. right. eexists _, e'.
    split; [in_history|]. split; [done|]. split; [in_history|].
    apply negb_false_iff in Heqb0. by simplify_eq/=.
  - destruct r as [x|]; [|done]. left. left. eexists _, x.
    split; [in_history|]. split; [done|]. in_history.
Qed.

Lemma reconcile_placements_spec l : forall known s h,
  wpM E (reconcile_placements l known) s h (fun h' '(known', err) s' => s' = s /\
    (err = None -> known' = list_to_set (map (fun d => meta_key (sec_Meta d)) l) ∪ known /\
       Forall (placed h') l)).
Proof.
  induction l as [|d l IH]; intros known s h; simpl.
  { wp_run. split; [done|]. intros _. split; [set_solver|constructor]. }
  apply wpM_bind. eapply wpM_mono; [apply reconcileSecret_spec|].
  intros h1 [e|] s1 [-> Hd]; [done|].
  eapply wpM_mono; [apply wpM_grows, IH|]. intros h2 [k err] s2 [[-> Hr] Hh]. split; [done|].
  intros He. destruct (Hr He) as [-> Hl]. split; [set_solver|].
  constructor; [|done]. eapply placed_later; [done|by apply Hd].
Qed.
End reads.

Lemma placements_keys refs nss ds h :
  Forall2 (destination_of h) refs ds ->
  map (fun d => meta_key (sec_Meta d)) (placements ds nss) =
    concat (map (fun ref => map (fun ns => mkKey (an_Name ns) (DestinationSecret ref)) nss) refs).
Proof.
  unfold placements. induction 1 as [|ref d refs ds [Hn _] _ IH]; [done|]. simpl.
  rewrite map_app, IH. f_equal. rewrite map_map. apply map_ext. intros ns.
  unfold meta_key. simpl. by rewrite Hn.
Qed.

(** The cleanup, when the known secrets are at least the destinations. *)
Lemma cleanupUnknownSecrets_spec addon known s h :
  same_spec (st_addon s) addon -> list_to_set (placement_keys addon) ⊆ known ->
  wpM (hist_env (may_delete_secret addon) (fun _ => False)) (cleanupUnknownSecrets known) s h
    (fun _ _ _ => True).
Proof.
  intros [Hm _] Hk. unfold cleanupUnknownSecrets.
  assert (CommonLabelsAsLabelSelector (st_addon s) = CommonLabelsAsLabelSelector addon) as Hsel
    by (unfold CommonLabelsAsLabelSelector, common_label_writes, a_Name; by rewrite Hm).
  apply wpM_bind, wpM_get_addon, wpM_bind, wpM_hist_call; [done|].
  intros [l0|e]; [|done]. rewrite Hsel.
  set (h0 := Ev _ _ :: h). assert (l0 ⊆ l0) as Hl by done. revert Hl.
  assert (Ev (CList Cached KSecret None (CommonLabelsAsLabelSelector addon))
    (inl (l0 : list (obj KSecret))) ∈ h0) as Hin by left.
  generalize l0 at 1 3 as l. generalize h0 Hin. clear Hin h0.
  intros h0 Hin l. revert h0 Hin. induction l as [|x l IH]; intros h0 Hin Hl; simpl; [done|].
  case_bool_decide as Hkn; [apply IH; set_solver|]. wp_run.
  - split; [set_solver|]. exists l0, x. split; [done|]. split; [set_solver|done].
  - apply IH; [by right|set_solver].
Qed.

(** The cleanup never panics. *)
Lemma cleanup_total known s h :
  wpM (hist_env (fun _ _ => True) (fun _ => False)) (cleanupUnknownSecrets known) s h
    (fun _ _ _ => True).
Proof.
  unfold cleanupUnknownSecrets. wp_run.
  match goal with |- wpM _ _ _ ?h _ => generalize h end.
  induction l as [|x l IH]; intros h0; simpl; [done|].
  case_bool_decide; [apply IH|]. wp_run.
Qed.

(** C21: Whatever the API server answers, the secret reconciler deletes a secret
    only when it was listed by the Addon's labels and is not one of the
    destinations that the Addon's secret propagation asks for in its
    namespaces; it deletes nothing else and never panics. *)
Theorem secrets_deleted_only_when_unknown (s : St) :
  wpM (hist_env (may_delete_secret (st_addon s)) (fun _ => False)) (secret_Reconcile opns) s []
    (fun _ _ _ => True).
Proof.
  unfold secret_Reconcile. apply wpM_bind, wpM_get_addon.
  destruct (match SecretPropagation _ with Some _ => _ | None => _ end) eqn:Hnone.
  { apply wpM_bind. eapply wpM_mono; [apply cleanupUnknownSecrets_spec|]; [done| |].
    - unfold placement_keys. destruct (SecretPropagation _) as [p|]; [|done].
      bools. by rewrite Hnone.
    - intros h [e|] s' _; done. }
  apply wpM_bind. unfold getDestinationSecretsWithoutNamespace. apply wpM_bind, wpM_get_addon.
  destruct (SecretPropagation (a_Spec (st_addon s))) as [p|] eqn:Hp; [|done].
  eapply wpM_mono; [apply destination_secrets_spec; by intros h [] Hc|].
  intros h1 [[secs res] [e|]] s1 [Hs1 Hr]; [done|].
  destruct (IsZero res) eqn:Hz; simpl; [|done]. destruct (Hr eq_refl eq_refl) as (ds & -> & Hds).
  apply wpM_bind. unfold reconcileSecretsInAddonNamespaces. apply wpM_bind, wpM_get_addon.
  eapply wpM_mono; [apply reconcile_placements_spec; by intros h [] Hc|].
  intros h2 [known [e|]] s2 [-> Hk]; [done|]. destruct (Hk eq_refl) as [-> _].
  apply wpM_bind. eapply wpM_mono; [eapply cleanupUnknownSecrets_spec; [exact Hs1|]|].
  - unfold placement_keys. rewrite Hp. simpl. destruct Hs1 as [_ ->].
    erewrite placements_keys by exact Hds. set_solver.
  - intros h3 [e|] s3 _; done.
Qed.

(** C22: When the secret reconciler returns the zero result without an error,
    every referenced source was read, and for every namespace of the Addon the
    server accepted a write of its data under the destination's name: a
    creation of the secret with the source's data and type, or an update of the
    data of the one the cache returned, whose immutable type is kept. There is
    one exception, in which nothing is written: the cache, which holds only
    labelled Secrets, has none under that name, and the server answers the
    creation that it already exists. The code takes that answer for a success,
    so that the data never gets there. *)
Theorem secrets_propagated (s : St) p :
  SecretPropagation (a_Spec (st_addon s)) = Some p ->
  wpM (hist_env (fun _ _ => True) (fun _ => False)) (secret_Reconcile opns) s []
    (fun h r _ => r = (resultNil, None) ->
       Forall (fun ref => exists data ty, source_read h (SourceSecret ref) data ty /\
         Forall (fun ns => exists d, (written h d \/ hidden h d) /\
           meta_key (sec_Meta d) = mkKey (an_Name ns) (DestinationSecret ref) /\
           sec_Data d = data /\ sec_Type d = ty)
         (Namespaces (a_Spec (st_addon s)))) (Secrets p)).
Proof.
  intros Hp. unfold secret_Reconcile. apply wpM_bind, wpM_get_addon. rewrite Hp.
  case_bool_decide as Hnil.
  { apply wpM_bind. eapply wpM_mono; [apply cleanup_total|].
    intros h [e|] s' _; apply wpM_pure; [done|]. intros _. rewrite Hnil. constructor. }
  apply wpM_bind. unfold getDestinationSecretsWithoutNamespace. apply wpM_bind, wpM_get_addon.
  rewrite Hp. eapply wpM_mono; [by apply destination_secrets_spec|].
  intros h1 [[secs res] [e|]] s1 [Hs1 Hr]; [done|].
  destruct (IsZero res) eqn:Hz; simpl; [|by intros [= ->]].
  destruct (Hr eq_refl eq_refl) as (ds & -> & Hds).
  apply wpM_bind. unfold reconcileSecretsInAddonNamespaces. apply wpM_bind, wpM_get_addon.
  eapply wpM_mono; [by apply wpM_grows, reconcile_placements_spec|].
  intros h2 [known [e|]] s2 [[-> Hk] Hh2]; [done|]. destruct (Hk eq_refl) as [-> Hpl].
  apply wpM_bind. eapply wpM_mono; [apply wpM_grows, cleanup_total|].
  intros h3 [e|] s3 [_ Hh3]; apply wpM_pure; [done|]. intros _.
  assert (h1 `suffix_of` h3) as Hh by (by etrans).
  destruct Hs1 as [_ Hspec]. rewrite Hspec in Hpl. clear -Hds Hpl Hh Hh3 LOk.
  induction Hds as [|ref d refs ds Hd _ IH]; [constructor|].
  unfold placements in Hpl. simpl in Hpl. apply Forall_app in Hpl as [Hd' Hpl].
  constructor; [|by apply IH]. destruct Hd as [Hn Hsrc]. exists (sec_Data d), (sec_Type d).
  split; [by apply (source_read_later h1)|]. rewrite Forall_map in Hd'. eapply Forall_impl; [exact Hd'|].
  intros ns Hns. exists (in_namespace (an_Name ns) d). split; [by apply (placed_later h2)|].
  split; [unfold meta_key; simpl; by rewrite Hn|done].
Qed.
End SecretLemmas.
