(* ===== verification/AddonInstanceReconciler.v ===== *)
(** * controllers/addon/addon_instance_reconciler.go: the AddonInstance of an Addon *)
From S2P Require Export InstallConfig.

(*@ controllers/addon/addon_instance_reconciler.go:19-19 ADDON_INSTANCE_RECONCILER_NAME *)
Definition ADDON_INSTANCE_RECONCILER_NAME : string := "addonInstanceReconciler".

Section AddonInstances.
Context {L : Lib}.

(*@ controllers/addon/addon_instance_reconciler.go:76-97 reconcileAddonInstance *)
Definition reconcileAddonInstance (desired : AddonInstance) : M St (option error) :=
  let* r := k8s_Get Cached KAddonInstance (meta_key (ai_Meta desired)) in
  match r with
  | inr err =>
      if IsNotFound (Some err) then
        let* r := k8s_Create KAddonInstance desired in mpure (err_of r)
      else mpure (Some (ErrWrap "getting AddonInstance: " err))
  | inl current =>
      let desired :=
        set_ai_Spec (mkAISpec (MarkedForDeletion (ai_Spec current))
                       (HeartbeatUpdatePeriod (ai_Spec desired))) desired in
      if negb (DeepEqual (ai_Spec current) (ai_Spec desired)) then
        let current := set_ai_Spec (ai_Spec desired) current in
        let current :=
          set_ai_Meta (set_OwnerReferences (OwnerReferences (ai_Meta desired)) (ai_Meta current))
            current in
        let* r := k8s_Update KAddonInstance current in mpure (err_of r)
      else mpure None
  end.

(** The AddonInstance wanted in namespace [ns], before its controller is set. *)
(*@ controllers/addon/addon_instance_reconciler.go:56-67 desiredAddonInstance *)
Definition new_addon_instance (ns : string) : AddonInstance :=
  mkAI (new_meta ns DefaultAddonInstanceName)
    (mkAISpec false DefaultAddonInstanceHeartbeatUpdatePeriod) (mkAIStatus 0 [] zero_time).

(*@ controllers/addon/addon_instance_reconciler.go:46-74 ensureAddonInstance *)
Definition ensureAddonInstance : M St (option error) :=
  let* commonConfig := parseAddonInstallConfig in
  match commonConfig with
  | None =>
      mpure (Some (ErrNew "failed to create addonInstance due to misconfigured install.spec.type"))
  | Some commonConfig =>
      let* addon := get_addon in
      let desired := new_addon_instance (ic_Namespace commonConfig) in
      match SetControllerReference (a_Meta addon) (ai_Meta desired) with
      | inr err => mpure (Some (ErrWrap "setting controller reference: " err))
      | inl m => reconcileAddonInstance (set_ai_Meta m desired)
      end
  end.

(*@ controllers/addon/addon_instance_reconciler.go:27-36 addonInstanceReconciler.Reconcile *)
Definition addonInstance_Reconcile : M St (subReconcilerResult * option error) :=
  let* err := ensureAddonInstance in
  match err with
  | Some e => mpure (resultNil, Join (Some e) (Some ErrEnsureCreateAddonInstance))
  | None => mpure (resultNil, None)
  end.

(*@ controllers/addon/addon_instance_reconciler.go:38-44 Order *)
Definition addonInstanceReconciler : addonReconciler :=
  mkSubReconciler ADDON_INSTANCE_RECONCILER_NAME AddonInstanceReconcilerOrder
    addonInstance_Reconcile None.
End AddonInstances.

(** ** Theorems *)

Section AddonInstanceTheorems.
Context {L : Lib} {LOk : LibOk L}.

(** The key of the AddonInstance of an Addon. *)
Definition instance_key (c : AddonInstallOLMCommon) : ObjectKey :=
  mkKey (ic_Namespace c) DefaultAddonInstanceName.

(** The AddonInstance is created when it was not found, with the default period
    and not marked for deletion; one that was read is updated to the default period, and keeps
    its mark for deletion and its status. *)
Definition addon_instance_call (addon : Addon) (h : history) (c : call) : Prop :=
  match c with
  | CCreate KAddonInstance o =>
      exists conf e h', parsed addon = Some conf /\ meta_key (ai_Meta o) = instance_key conf /\
        h = Ev (CGet Cached KAddonInstance (instance_key conf)) (inr e) :: h' /\ IsNotFound (Some e) = true /\
        ai_Spec o = mkAISpec false DefaultAddonInstanceHeartbeatUpdatePeriod
  | CUpdate KAddonInstance o =>
      exists conf (cur : obj KAddonInstance) h', parsed addon = Some conf /\
        h = Ev (CGet Cached KAddonInstance (instance_key conf)) (inl cur) :: h' /\
        meta_key (ai_Meta o) = meta_key (ai_Meta cur) /\ ai_Status o = ai_Status cur /\
        MarkedForDeletion (ai_Spec o) = MarkedForDeletion (ai_Spec cur) /\
        HeartbeatUpdatePeriod (ai_Spec o) = DefaultAddonInstanceHeartbeatUpdatePeriod /\
        HeartbeatUpdatePeriod (ai_Spec cur) <> DefaultAddonInstanceHeartbeatUpdatePeriod
  | _ => is_write c = false
  end.

(** C28: The AddonInstance reconciler never panics and writes only the
    AddonInstance of an Addon with a usable configuration: it creates a
    missing one, and updates an existing one only to reset its heartbeat
    period, keeping its mark for deletion and its status.  Its result never
    stops or requeues; without an error an AddonInstance of the default period
    is in place, read or accepted by the server; and it is an error when the
    configuration is not usable. *)
Theorem addon_instance_ensured (s : St) :
  wpM (hist_env (addon_instance_call (st_addon s)) (fun _ => False)) addonInstance_Reconcile s []
    (fun h r s' => same_identity (st_addon s') (st_addon s) /\ r.1 = resultNil /\
       (r.2 = None -> exists conf, parsed (st_addon s) = Some conf /\
          in_place KAddonInstance (instance_key conf)
            (fun o => HeartbeatUpdatePeriod (ai_Spec o) = DefaultAddonInstanceHeartbeatUpdatePeriod) h) /\
       (parsed (st_addon s) = None -> exists e, r.2 = Some e)).
Proof.
  unfold addonInstance_Reconcile, ensureAddonInstance. apply wpM_bind, wpM_bind, wpM_parse; [done| |].
  2: { intros h s' Hs. apply wpM_pure. simpl. apply wpM_pure. do 3 (split; [done|]). by eexists. }
  intros conf Hc. rewrite Hc. apply wpM_bind, wpM_get_addon. rewrite set_controller_fresh by done.
  unfold reconcileAddonInstance. apply wpM_bind, wpM_hist_call; [done|]. intros [cur|e]; simpl.
  - destruct (negb _) eqn:Hd.
    + apply wpM_bind, wpM_hist_call.
      * exists conf, cur, []. do 6 (split; [done|]). intros Hp. bools.
        rewrite <- Hp in Hd. apply not_true_iff_false in Hd. apply Hd, deep_equal_eq.
        by destruct (ai_Spec cur).
      * intros [o|e]; apply wpM_pure; simpl; apply wpM_pure; do 2 (split; [done|]); [|done].
        split; [|done]. intros _. exists conf. split; [done|]. by apply in_place_updated.
    + apply wpM_pure. simpl. apply wpM_pure. do 2 (split; [done|]). split; [|done].
      intros _. exists conf. split; [done|].
      apply in_place_read. bools. apply (proj1 (deep_equal_eq _ _)) in Hd. by rewrite Hd.
  - destruct (IsNotFound _) eqn:Hnf; [|by apply wpM_pure, wpM_pure].
    apply wpM_bind, wpM_hist_call; [by exists conf, e, []|].
    intros [o|e']; apply wpM_pure; simpl; apply wpM_pure; do 2 (split; [done|]); [|done].
    split; [|done]. intros _. exists conf. split; [done|]. by apply in_place_created.
Qed.
End AddonInstanceTheorems.
