(* ===== verification/Monitoring.v ===== *)
(** * controllers/addon: monitoring federation and MonitoringStack

    monitoring_federation_reconciler.go and monitoring_stack_reconciler.go. *)
From S2P Require Export Namespaces.

(*@ controllers/addon/monitoring_federation_reconciler.go:24-24 MONITORING_FEDERATION_RECONCILER_NAME *)
Definition MONITORING_FEDERATION_RECONCILER_NAME : string := "monitoringFederationReconciler".
(*@ controllers/addon/monitoring_stack_reconciler.go:24-24 MONITORING_STACK_RECONCILER_NAME *)
Definition MONITORING_STACK_RECONCILER_NAME : string := "monitoringStackReconciler".
(*@ controllers/addon/monitoring_stack_reconciler.go:26-26 errMonitoringStackSpecNotFound *)
Definition errMonitoringStackSpecNotFound : string := "monitoring stack spec not found".

Section Federation.
Context {L : Lib}.
(** [r.addonOperatorNamespace]. *)
Variable addonOperatorNamespace : string.

(** ** The monitoring namespace *)

(*@ controllers/addon/monitoring_federation_reconciler.go:138-155 desiredMonitoringNamespace *)
Definition desiredMonitoringNamespace (addon : Addon) : NamespaceObj + error :=
  let m := set_Labels {[ "openshift.io/cluster-monitoring" := "true" ]}
             (new_meta "" (GetMonitoringNamespaceName addon)) in
  match SetControllerReference (a_Meta addon) (AddCommonLabels addon m) with
  | inr err => inr err
  | inl m => inl (mkNs m "")
  end.

(*@ controllers/addon/monitoring_federation_reconciler.go:157-169 actualMonitoringNamespace *)
Definition actualMonitoringNamespace (addon : Addon) : M St (NamespaceObj + error) :=
  k8s_Get Cached KNamespace (mkKey "" (GetMonitoringNamespaceName addon)).

(** The namespace is only looked at for readiness after an update of it. *)
(*@ controllers/addon/monitoring_federation_reconciler.go:99-136 ensureMonitoringNamespace *)
Definition ensureMonitoringNamespace : M St (subReconcilerResult * option error) :=
  let* addon := get_addon in
  match desiredMonitoringNamespace addon with
  | inr err => mpure (resultNil, Some err)
  | inl desired =>
      let* r := actualMonitoringNamespace addon in
      match r with
      | inr err =>
          if IsNotFound (Some err) then
            let* r := k8s_Create KNamespace desired in mpure (resultNil, err_of r)
          else mpure (resultNil, Some (ErrWrap "getting monitoring namespace: " err))
      | inl actual =>
          let ownedByAddon := HasSameController (ns_Meta actual) (ns_Meta desired) in
          let labelsChanged := negb (DeepEqual (Labels (ns_Meta actual)) (Labels (ns_Meta desired))) in
          if ownedByAddon && negb labelsChanged then mpure (resultNil, None)
          else
            let m := set_OwnerReferences (OwnerReferences (ns_Meta desired)) (ns_Meta actual) in
            let m := set_Labels (Labels (ns_Meta desired)) m in
            let* r := k8s_Update KNamespace (mkNs m (ns_Phase actual)) in
            match r with
            | inr err => mpure (resultNil, Some (ErrWrap "updating monitoring namespace: " err))
            | inl actual =>
                if ns_Phase actual =s? NamespaceActive then mpure (resultNil, None)
                else
                  do* report (reportUnreadyMonitoringFederation
                    ("namespace " +:+ quote (Name (ns_Meta actual)) +:+ " is not active")) in
                  mpure (resultRequeueAfter defaultRetryAfterTime, None)
            end
      end
  end.

(** ** The bearer token *)

(*@ controllers/addon/monitoring_federation_reconciler.go:251-252 GetMonitoringNamespaceName *)
Definition bearer_token_key (addon : Addon) : ObjectKey :=
  mkKey (GetMonitoringNamespaceName addon) (a_Name addon +:+ "-bearertoken-secret").

(** The desired copy of the operator's token. *)
(*@ controllers/addon/monitoring_federation_reconciler.go:249-259 desiredBearertokensecret *)
Definition desired_bearer_token (addon : Addon) (promToken : Secret) : Secret + error :=
  let k := bearer_token_key addon in
  match SetControllerReference (a_Meta addon) (new_meta (key_Namespace k) (key_Name k)) with
  | inr err => inr err
  | inl m => inl (mkSecret m (sec_Data promToken) "")
  end.

(** The secret is nil ([None]) whenever the result is not zero or an error
    is returned. *)
(*@ controllers/addon/monitoring_federation_reconciler.go:235-287 reconcileBearerTokenSecretForAddon *)
Definition reconcileBearerTokenSecretForAddon
  : M St (subReconcilerResult * option Secret * option error) :=
  let* addon := get_addon in
  let* r := k8s_Get Uncached KSecret (mkKey addonOperatorNamespace "addon-operator-prom-token") in
  match r with
  | inr err =>
      mpure (resultNil, None, Some (ErrWrap
        "addonOperator namespace does not have the prom token secret: " err))
  | inl promToken =>
      match desired_bearer_token addon promToken with
      | inr err => mpure (resultNil, None, Some (ErrWrap "setting owner reference: " err))
      | inl desired =>
          let* r := k8s_Get Uncached KSecret (meta_key (sec_Meta desired)) in
          match r with
          | inr err =>
              if IsNotFound (Some err) then
                let* r := k8s_Create KSecret desired in
                mpure (resultRequeueAfter defaultRetryAfterTime, None, err_of r)
              else mpure (resultNil, None, Some err)
          | inl existing =>
              let ownedByAddon := HasSameController (sec_Meta desired) (sec_Meta existing) in
              let specChanged := negb (DeepEqual (sec_Data existing) (sec_Data desired)) in
              let currentLabels := Labels (sec_Meta existing) in
              let newLabels := labels_Merge currentLabels (Labels (sec_Meta desired)) in
              if specChanged || negb ownedByAddon || negb (labels_Equals newLabels currentLabels)
              then
                let m := set_OwnerReferences (OwnerReferences (sec_Meta desired)) (sec_Meta existing) in
                let m := set_Labels newLabels m in
                let* r := k8s_Update KSecret (mkSecret m (sec_Data desired) (sec_Type existing)) in
                mpure (resultRequeueAfter defaultRetryAfterTime, None, err_of r)
              else mpure (resultNil, Some existing, None)
          end
      end
  end.

(** ** The ServiceMonitor *)

(** [Monitoring.Federation] is dereferenced by the code. *)
(*@ controllers/addon/monitoring_federation_reconciler.go:209-233 desiredServiceMonitor *)
Definition desiredServiceMonitor (addon : Addon) (bearerTokenSecret : Secret)
  : M St (ServiceMonitor + error) :=
  let* monitoring := deref (Monitoring (a_Spec addon)) in
  let* federation := deref (Federation monitoring) in
  let spec := mkSMSpec
    (GetMonitoringFederationServiceMonitorEndpoints federation bearerTokenSecret)
    [fed_Namespace federation] (fed_MatchLabels federation) "" in
  let m := new_meta (GetMonitoringNamespaceName addon)
             (GetMonitoringFederationServiceMonitorName addon) in
  match SetControllerReference (a_Meta addon) (AddCommonLabels addon m) with
  | inr err => mpure (inr (ErrWrap "setting controller reference on ServiceMonitor: " err))
  | inl m => mpure (inl (mkSM m spec))
  end.

(*@ controllers/addon/monitoring_federation_reconciler.go:289-302 actualServiceMonitor *)
Definition actualServiceMonitor (addon : Addon) : M St (ServiceMonitor + error) :=
  k8s_Get Cached KServiceMonitor
    (mkKey (GetMonitoringNamespaceName addon) (GetMonitoringFederationServiceMonitorName addon)).

(*@ controllers/addon/monitoring_federation_reconciler.go:171-207 reconcileServiceMonitor *)
Definition reconcileServiceMonitor : M St (subReconcilerResult * option error) :=
  let* addon := get_addon in
  let* t := reconcileBearerTokenSecretForAddon in
  match t with
  | (_, _, Some err) => mpure (resultNil, Some err)
  | (result, tokenSecret, None) =>
      if negb (IsZero result) then mpure (result, None)
      else
        let* tokenSecret := deref tokenSecret in
        let* d := desiredServiceMonitor addon tokenSecret in
        match d with
        | inr err => mpure (resultNil, Some err)
        | inl desired =>
            let* r := actualServiceMonitor addon in
            match r with
            | inr err =>
                if IsNotFound (Some err) then
                  let* r := k8s_Create KServiceMonitor desired in mpure (resultNil, err_of r)
                else mpure (resultNil, Some (ErrWrap "getting ServiceMonitor: " err))
            | inl actual =>
                let currentLabels := Labels (sm_Meta actual) in
                let newLabels := labels_Merge currentLabels (Labels (sm_Meta desired)) in
                let ownedByAddon := HasSameController (sm_Meta actual) (sm_Meta desired) in
                let specChanged := negb (DeepEqual (sm_Spec actual) (sm_Spec desired)) in
                let labelsChanged := negb (labels_Equals currentLabels newLabels) in
                if ownedByAddon && negb specChanged && negb labelsChanged
                then mpure (resultNil, None)
                else
                  let m := set_Labels newLabels (sm_Meta actual) in
                  let m := set_OwnerReferences (OwnerReferences (sm_Meta desired)) m in
                  let* r := k8s_Update KServiceMonitor (mkSM m (sm_Spec desired)) in
                  mpure (resultNil, err_of r)
            end
        end
  end.

(** An error of [reconcileServiceMonitor] is reported with the earlier, nil
    error in the place of the wrapped one. *)
(*@ controllers/addon/monitoring_federation_reconciler.go:74-97 ensureMonitoringFederation *)
Definition ensureMonitoringFederation : M St (subReconcilerResult * option error) :=
  let* addon := get_addon in
  if negb (HasMonitoringFederation addon) then mpure (resultNil, None)
  else
    let* r := ensureMonitoringNamespace in
    match r with
    | (_, Some err) => mpure (resultNil, Some (ErrWrap "ensuring monitoring Namespace: " err))
    | (result, None) =>
        if negb (IsZero result) then mpure (result, None)
        else
          let* r := reconcileServiceMonitor in
          match r with
          | (_, Some _) => mpure (resultNil, Some (ErrNew "ensuring ServiceMonitor: %!w(<nil>)"))
          | (sresult, None) =>
              if negb (IsZero sresult) then mpure (sresult, None) else mpure (resultNil, None)
          end
    end.

(** ** Removal *)

(*@ controllers/addon/monitoring_federation_reconciler.go:349-366 getOwnedServiceMonitorsViaCommonLabels *)
Definition getOwnedServiceMonitorsViaCommonLabels : M St (list ServiceMonitor + error) :=
  let* addon := get_addon in
  let* r := k8s_List Cached KServiceMonitor None (CommonLabelsAsLabelSelector addon) in
  match r with
  | inr _ => mpure (inr (ErrNew "could not list owned ServiceMonitors"))
  | inl items => mpure (inl items)
  end.

(*@ controllers/addon/monitoring_federation_reconciler.go:320-337 currentServiceMonitors *)
Fixpoint delete_unwanted_monitors (wanted : string) (l : list ServiceMonitor)
  : M St (option error) :=
  match l with
  | [] => mpure None
  | serviceMonitor :: l' =>
      if Name (sm_Meta serviceMonitor) =s? wanted then delete_unwanted_monitors wanted l'
      else
        let* err := k8s_Delete KServiceMonitor (meta_key (sm_Meta serviceMonitor)) in
        match IgnoreNotFound err with
        | Some e =>
            mpure (Some (ErrWrap "could not remove monitoring federation ServiceMonitor: " e))
        | None =>
            let* addon := get_addon in
            let* err := k8s_Delete KSecret (bearer_token_key addon) in
            match IgnoreNotFound err with
            | Some e =>
                mpure (Some (ErrWrap
                  "could not remove monitoring federation ServiceMonitor Secret in the SM ns for the Addon : " e))
            | None => delete_unwanted_monitors wanted l'
            end
        end
  end.

(*@ controllers/addon/monitoring_federation_reconciler.go:304-347 ensureDeletionOfUnwantedMonitoringFederation *)
Definition ensureDeletionOfUnwantedMonitoringFederation : M St (option error) :=
  let* r := getOwnedServiceMonitorsViaCommonLabels in
  match r with
  | inr err => mpure (Some err)
  | inl currentServiceMonitors =>
      let* addon := get_addon in
      let wantedServiceMonitorName :=
        if HasMonitoringFederation addon
        then GetMonitoringFederationServiceMonitorName addon else "" in
      let* err := delete_unwanted_monitors wantedServiceMonitorName currentServiceMonitors in
      match err with
      | Some e => mpure (Some e)
      | None =>
          if str_empty wantedServiceMonitorName then
            let* err := ensureNamespaceDeletion (GetMonitoringNamespaceName addon) in
            match err with
            | Some e =>
                mpure (Some (ErrWrap "could not remove monitoring federation Namespace: " e))
            | None => mpure None
            end
          else mpure None
      end
  end.

(*@ controllers/addon/monitoring_federation_reconciler.go:33-64 monitoringFederationReconciler.Reconcile *)
Definition federation_Reconcile : M St (subReconcilerResult * option error) :=
  let* r := ensureMonitoringFederation in
  match r with
  | (res, err) =>
      if errors_Is err ErrNotOwnedByUs then mpure (resultNil, None)
      else
        match err with
        | Some e => mpure (resultNil, Join (Some e) (Some ErrEnsureCreateServiceMonitor))
        | None =>
            if negb (IsZero res) then mpure (res, None)
            else
              let* err := ensureDeletionOfUnwantedMonitoringFederation in
              match err with
              | Some e => mpure (resultNil, Join (Some e) (Some ErrEnsureDeleteServiceMonitor))
              | None => mpure (resultNil, None)
              end
        end
  end.

(*@ controllers/addon/monitoring_federation_reconciler.go:66-72 Order *)
Definition monitoringFederationReconciler : addonReconciler :=
  mkSubReconciler MONITORING_FEDERATION_RECONCILER_NAME MonitoringFederationReconcilerOrder
    federation_Reconcile None.
End Federation.

Section Stack.
Context {L : Lib}.

(*@ controllers/addon/monitoring_stack_reconciler.go:180-182 getMonitoringStackName *)
Definition getMonitoringStackName (addonName : string) : string := addonName +:+ "-monitoring-stack".

(*@ controllers/addon/monitoring_stack_reconciler.go:218-232 getWriteRelabelConfigFromAllowlist *)
Definition getWriteRelabelConfigFromAllowlist (allowlist : list string) : list RelabelConfig :=
  match allowlist with
  | [] => []
  | _ => [mkRelabel "keep" ["[__name__]"] ("(" +:+ join "|" allowlist +:+ ")")]
  end.

(*@ controllers/addon/monitoring_stack_reconciler.go:125-178 getDesiredMonitoringStack *)
Definition getDesiredMonitoringStack : M St (MonitoringStack + error) :=
  let* commonConfig := parseAddonInstallConfig in
  match commonConfig with
  | None => mpure (inr (ErrNew "error parsing Addon config"))
  | Some commonConfig =>
      let* addon := get_addon in
      let* monitoring := deref (Monitoring (a_Spec addon)) in
      let* stack := deref (MonitoringStackOf monitoring) in
      let remoteWrite :=
        match RHOBSRemoteWriteConfig stack with
        | None => mkRemoteWrite "" None []
        | Some c =>
            mkRemoteWrite (rhobs_URL c) (rhobs_OAuth2 c)
              (getWriteRelabelConfigFromAllowlist (rhobs_Allowlist c))
        end in
      let spec := mkMSSpec "30d" {[ MSOLabel := a_Name addon ]} [remoteWrite] "" in
      let m := new_meta (ic_Namespace commonConfig) (getMonitoringStackName (a_Name addon)) in
      match SetControllerReference (a_Meta addon) (AddCommonLabels addon m) with
      | inr err => mpure (inr err)
      | inl m => mpure (inl (mkMS m spec []))
      end
  end.

(** The object in hand after the call, and the error of the call. *)
(*@ controllers/addon/monitoring_stack_reconciler.go:184-216 reconcileMonitoringStack *)
Definition reconcileMonitoringStack (desired : MonitoringStack) : M St (MonitoringStack + error) :=
  let* r := k8s_Get Cached KMonitoringStack (meta_key (ms_Meta desired)) in
  match r with
  | inr err =>
      if IsNotFound (Some err) then k8s_Create KMonitoringStack desired else mpure (inr err)
  | inl current =>
      let ownedByAddon := HasSameController (ms_Meta current) (ms_Meta desired) in
      let specChanged := negb (DeepEqual (ms_Spec desired) (ms_Spec current)) in
      let currentLabels := Labels (ms_Meta current) in
      let newLabels := labels_Merge currentLabels (Labels (ms_Meta desired)) in
      if specChanged || negb ownedByAddon || negb (labels_Equals newLabels currentLabels) then
        let m := set_OwnerReferences (OwnerReferences (ms_Meta desired)) (ms_Meta current) in
        let m := set_Labels newLabels m in
        k8s_Update KMonitoringStack (mkMS m (ms_Spec desired) (ms_Conditions current))
      else mpure (inl current)
  end.

(*@ controllers/addon/monitoring_stack_reconciler.go:65-82 ensureMonitoringStack *)
Definition ensureMonitoringStack : M St (MonitoringStack + error) :=
  let* addon := get_addon in
  if negb (HasMonitoringStack addon) then mpure (inr (ErrVar errMonitoringStackSpecNotFound))
  else
    let* d := getDesiredMonitoringStack in
    match d with
    | inr err => mpure (inr err)
    | inl desired => reconcileMonitoringStack desired
    end.

(** The loop over the conditions, with the conditions found so far. *)
(*@ controllers/addon/monitoring_stack_reconciler.go:85-102 availableCondition *)
Fixpoint scan_conditions (l : list OboCondition) (available reconciled : option OboCondition)
  : option OboCondition * option OboCondition :=
  match l with
  | [] => (available, reconciled)
  | c :: l' =>
      match available, reconciled with
      | Some _, Some _ => (available, reconciled)
      | _, _ =>
          if obo_Type c =s? AvailableCondition then scan_conditions l' (Some c) reconciled
          else if obo_Type c =s? ReconciledCondition then scan_conditions l' available (Some c)
          else scan_conditions l' available reconciled
      end
  end.

(*@ controllers/addon/monitoring_stack_reconciler.go:84-123 propagateMonitoringStackStatusToAddon *)
Definition propagateMonitoringStackStatusToAddon (monitoringStack : MonitoringStack) : M St bool :=
  match scan_conditions (ms_Conditions monitoringStack) None None with
  | (Some availableCondition, _) =>
      if obo_Status availableCondition =s? ConditionTrue then mpure true
      else
        do* report (reportUnreadyMonitoringStack
          ("MonitoringStack Unavailable: " +:+ obo_Message availableCondition)) in
        mpure false
  | (None, Some reconciledCondition) =>
      if obo_Status reconciledCondition =s? ConditionTrue then
        do* report (reportUnreadyMonitoringStack
          "MonitoringStack successfully reconciled: Pending MonitoringStack to be Available") in
        mpure false
      else
        do* report (reportUnreadyMonitoringStack
          ("MonitoringStack failed to reconcile: " +:+ obo_Message reconciledCondition)) in
        mpure false
  | (None, None) =>
      do* report (reportUnreadyMonitoringStack "MonitoringStack pending to get reconciled") in
      mpure false
  end.

(*@ controllers/addon/monitoring_stack_reconciler.go:42-63 monitoringStackReconciler.Reconcile *)
Definition stack_Reconcile : M St (subReconcilerResult * option error) :=
  let* r := ensureMonitoringStack in
  match r with
  | inr err =>
      if errors_Is (Some err) errMonitoringStackSpecNotFound then mpure (resultNil, None)
      else mpure (resultNil, Join (Some err) (Some ErrEnsureCreateMonitoringStack))
  | inl latestMonitoringStack =>
      let* available := propagateMonitoringStackStatusToAddon latestMonitoringStack in
      mpure (if negb available then resultRequeue else resultNil, None)
  end.

(*@ controllers/addon/monitoring_stack_reconciler.go:34-40 Order *)
Definition monitoringStackReconciler : addonReconciler :=
  mkSubReconciler MONITORING_STACK_RECONCILER_NAME MonitoringStackReconcilerOrder
    stack_Reconcile None.
End Stack.
