(* ===== verification/Olm.v ===== *)
(** * controllers/addon/olm_reconciler.go and its phases: OLM objects

    OperatorGroup, NetworkPolicy, CatalogSources and Subscription of an Addon,
    and the observation of the OLM Operator (phase_*.go,
    handle_installed_condition.go). *)
From S2P Require Export OperatorRefs.

(*@ controllers/addon/olm_reconciler.go:15-15 OLM_RECONCILER_NAME *)
Definition OLM_RECONCILER_NAME : string := "olmReconciler".
(*@ controllers/addon/phase_ensure_catalogsource.go:19-19 catalogSourcePublisher *)
Definition catalogSourcePublisher : string := "OSD Red Hat Addons".
(*@ controllers/addon/phase_ensure_catalogsource_networkpolicy.go:63-63 errInstallConfigParseFailure *)
Definition errInstallConfigParseFailure : string := "failed to parse addon install config".

Section Olm.
Context {L : Lib}.

(** ** OperatorGroup *)

(*@ controllers/addon/phase_ensure_operator_group.go:47-72 reconcileOperatorGroup *)
Definition reconcileOperatorGroup (operatorGroup : OperatorGroup) : M St (option error) :=
  let* r := k8s_Get Cached KOperatorGroup (meta_key (og_Meta operatorGroup)) in
  match r with
  | inr err =>
      if IsNotFound (Some err) then
        let* r := k8s_Create KOperatorGroup operatorGroup in mpure (err_of r)
      else mpure (Some (ErrWrap "getting OperatorGroup: " err))
  | inl current =>
      let currentLabels := Labels (og_Meta current) in
      let newLabels := labels_Merge currentLabels (Labels (og_Meta operatorGroup)) in
      let ownedByAddon := HasSameController (og_Meta current) (og_Meta operatorGroup) in
      let specChanged := negb (DeepEqual (og_Spec current) (og_Spec operatorGroup)) in
      if specChanged || negb ownedByAddon || negb (labels_Equals currentLabels newLabels) then
        let m := set_OwnerReferences (OwnerReferences (og_Meta operatorGroup)) (og_Meta current) in
        let m := set_Labels newLabels m in
        let* r := k8s_Update KOperatorGroup (mkOG m (og_Spec operatorGroup)) in
        mpure (err_of r)
      else mpure None
  end.

(** The OperatorGroup wanted for an install configuration, before its
    controller is set. *)
(*@ controllers/addon/phase_ensure_operator_group.go:28-40 desiredOperatorGroup *)
Definition desired_operator_group (addon : Addon) (commonConfig : AddonInstallOLMCommon)
  : OperatorGroup :=
  mkOG
    (AddCommonAnnotations addon (AddCommonLabels addon
       (new_meta (ic_Namespace commonConfig) DefaultOperatorGroupName)))
    (mkOGSpec
       (if Type_ (Install (a_Spec addon)) =s? OLMOwnNamespace
        then [ic_Namespace commonConfig] else []) "").

(*@ controllers/addon/phase_ensure_operator_group.go:19-45 ensureOperatorGroup *)
Definition ensureOperatorGroup : M St (subReconcilerResult * option error) :=
  let* commonConfig := parseAddonInstallConfig in
  match commonConfig with
  | None => mpure (resultStop, None)
  | Some commonConfig =>
      let* addon := get_addon in
      let desired := desired_operator_group addon commonConfig in
      match SetControllerReference (a_Meta addon) (og_Meta desired) with
      | inr err => mpure (resultNil, Some (ErrWrap "setting controller reference: " err))
      | inl m =>
          let* err := reconcileOperatorGroup (mkOG m (og_Spec desired)) in
          mpure (resultNil, err)
      end
  end.

(** ** NetworkPolicy for the CatalogSources *)

(** Pods of the CatalogSources, named by the [olm.catalogSource] label. *)
(*@ controllers/addon/phase_ensure_catalogsource_networkpolicy.go:73-111 NetworkPolicySpec *)
Definition network_policy (addon : Addon) (installConfig : AddonInstallOLMCommon) : NetworkPolicy :=
  let catalogSourceNames :=
    getPrimaryCatalogSourceName addon :: map acs_Name (AdditionalCatalogSources installConfig) in
  mkNP
    (AddCommonAnnotations addon (AddCommonLabels addon
       (new_meta (ic_Namespace installConfig) (getCatalogSourceNetworkPolicyName addon))))
    (mkNPSpec [("olm.catalogSource", "In", catalogSourceNames)] [("TCP", 50051%Z)] ["Ingress"] "").

(*@ controllers/addon/phase_ensure_catalogsource_networkpolicy.go:65-117 desiredCatalogSourcesNetworkPolicy *)
Definition desiredCatalogSourcesNetworkPolicy : M St (NetworkPolicy + error) :=
  let* installConfig := parseAddonInstallConfig in
  match installConfig with
  | None => mpure (inr (ErrVar errInstallConfigParseFailure))
  | Some installConfig =>
      let* addon := get_addon in
      let np := network_policy addon installConfig in
      match SetControllerReference (a_Meta addon) (np_Meta np) with
      | inr err => mpure (inr (ErrWrap "setting controller reference: " err))
      | inl m => mpure (inl (mkNP m (np_Spec np)))
      end
  end.

(*@ controllers/addon/phase_ensure_catalogsource_networkpolicy.go:119-139 actualCatalogSourcesNetworkPolicy *)
Definition actualCatalogSourcesNetworkPolicy : M St (NetworkPolicy + error) :=
  let* installConfig := parseAddonInstallConfig in
  match installConfig with
  | None => mpure (inr (ErrVar errInstallConfigParseFailure))
  | Some installConfig =>
      let* addon := get_addon in
      let* r := k8s_Get Cached KNetworkPolicy
        (mkKey (ic_Namespace installConfig) (getCatalogSourceNetworkPolicyName addon)) in
      match r with
      | inr err => mpure (inr (ErrWrap "getting NetworkPolicy: " err))
      | inl np => mpure (inl np)
      end
  end.

(*@ controllers/addon/phase_ensure_catalogsource_networkpolicy.go:22-61 ensureCatalogSourcesNetworkPolicy *)
Definition ensureCatalogSourcesNetworkPolicy : M St (subReconcilerResult * option error) :=
  let* d := desiredCatalogSourcesNetworkPolicy in
  match d with
  | inr err =>
      if errors_Is (Some err) errInstallConfigParseFailure then mpure (resultStop, None)
      else mpure (resultNil, Some (ErrWrap "building desired NetworkPolicy: " err))
  | inl desired =>
      let* a := actualCatalogSourcesNetworkPolicy in
      match a with
      | inr err =>
          if errors_Is (Some err) errInstallConfigParseFailure then mpure (resultStop, None)
          else if IsNotFound (Some err) then
            let* r := k8s_Create KNetworkPolicy desired in mpure (resultNil, err_of r)
          else mpure (resultNil, Some (ErrWrap "retrieving actual NetworkPolicy: " err))
      | inl actual =>
          let currentLabels := Labels (np_Meta actual) in
          let newLabels := labels_Merge currentLabels (Labels (np_Meta desired)) in
          let ownedByAddon := HasSameController (np_Meta actual) (np_Meta desired) in
          let specChanged := negb (DeepEqual (np_Spec actual) (np_Spec desired)) in
          let labelsChanged := negb (labels_Equals currentLabels newLabels) in
          if ownedByAddon && negb specChanged && negb labelsChanged then mpure (resultNil, None)
          else
            let m := set_OwnerReferences (OwnerReferences (np_Meta desired)) (np_Meta actual) in
            let m := set_Labels newLabels m in
            let* r := k8s_Update KNetworkPolicy (mkNP m (np_Spec desired)) in
            mpure (resultNil, err_of r)
      end
  end.

(** ** CatalogSources *)

(*@ controllers/addon/phase_ensure_catalogsource.go:152-183 reconcileCatalogSource *)
Definition reconcileCatalogSource (catalogSource : CatalogSource) : M St (CatalogSource + error) :=
  let* r := k8s_Get Cached KCatalogSource (meta_key (cs_Meta catalogSource)) in
  match r with
  | inr err =>
      if IsNotFound (Some err) then k8s_Create KCatalogSource catalogSource else mpure (inr err)
  | inl current =>
      let ownedByAddon := HasSameController (cs_Meta current) (cs_Meta catalogSource) in
      let specChanged := negb (DeepEqual (cs_Spec catalogSource) (cs_Spec current)) in
      let currentLabels := Labels (cs_Meta current) in
      let newLabels := labels_Merge currentLabels (Labels (cs_Meta catalogSource)) in
      if specChanged || negb ownedByAddon || negb (labels_Equals newLabels currentLabels) then
        let m := set_OwnerReferences (OwnerReferences (cs_Meta catalogSource)) (cs_Meta current) in
        let m := set_Labels newLabels m in
        k8s_Update KCatalogSource (mkCS m (cs_Spec catalogSource) (cs_GRPCConnectionState current))
      else mpure (inl current)
  end.

(** A CatalogSource of the Addon, before its controller is set. *)
(*@ controllers/addon/phase_ensure_catalogsource.go:34-54 catalogSource *)
Definition new_catalog_source (addon : Addon) (ns name image pullSecret : string) : CatalogSource :=
  mkCS
    (AddCommonAnnotations addon (AddCommonLabels addon (new_meta ns name)))
    (mkCSSpec "grpc" catalogSourcePublisher (DisplayName (a_Spec addon)) image "restricted"
       (if str_empty pullSecret then [] else [pullSecret]) "")
    None.

(** The message of an unready connection; [None] when it is ready. *)
(*@ controllers/addon/phase_ensure_catalogsource.go:69-82 GRPCConnectionState *)
Definition connection_message (cs : CatalogSource) : option string :=
  match cs_GRPCConnectionState cs with
  | None => Some ".Status.GRPCConnectionState is nil"
  | Some state =>
      if state =s? "READY" then None
      else Some (".Status.GRPCConnectionState.LastObservedState == " +:+ state)
  end.

(*@ controllers/addon/phase_ensure_catalogsource.go:21-85 ensureCatalogSource *)
Definition ensureCatalogSource : M St (subReconcilerResult * option CatalogSource * option error) :=
  let* commonConfig := parseAddonInstallConfig in
  match commonConfig with
  | None => mpure (resultStop, None, None)
  | Some commonConfig =>
      let* addon := get_addon in
      let catalogSource :=
        new_catalog_source addon (ic_Namespace commonConfig) (CatalogSourceName addon)
          (CatalogSourceImage commonConfig) (PullSecretName commonConfig) in
      match SetControllerReference (a_Meta addon) (cs_Meta catalogSource) with
      | inr err => mpure (resultNil, None, Some err)
      | inl m =>
          let* r := reconcileCatalogSource (mkCS m (cs_Spec catalogSource) None) in
          match r with
          | inr err => mpure (resultNil, None, Some err)
          | inl observed =>
              match connection_message observed with
              | Some message =>
                  do* report (reportCatalogSourceUnreadinessStatus message) in
                  mpure (resultRetry, None, None)
              | None => mpure (resultNil, Some observed, None)
              end
          end
      end
  end.

(** The loop over the additional CatalogSources. *)
(*@ controllers/addon/phase_ensure_catalogsource.go:100-149 additionalCatalogSrc *)
Fixpoint ensure_additional (targetNamespace pullSecret : string) (l : list AdditionalCatalogSource)
  : M St (subReconcilerResult * option error) :=
  match l with
  | [] => mpure (resultNil, None)
  | src :: l' =>
      let* addon := get_addon in
      let catalogSource :=
        new_catalog_source addon targetNamespace (acs_Name src) (acs_Image src) pullSecret in
      match SetControllerReference (a_Meta addon) (cs_Meta catalogSource) with
      | inr err => mpure (resultNil, Some err)
      | inl m =>
          let* r := reconcileCatalogSource (mkCS m (cs_Spec catalogSource) None) in
          match r with
          | inr err => mpure (resultNil, Some err)
          | inl observed =>
              match connection_message observed with
              | Some message =>
                  do* report (reportAdditionalCatalogSourceUnreadinessStatus message) in
                  mpure (resultRetry, None)
              | None => ensure_additional targetNamespace pullSecret l'
              end
          end
      end
  end.

(*@ controllers/addon/phase_ensure_catalogsource.go:87-150 ensureAdditionalCatalogSources *)
Definition ensureAdditionalCatalogSources : M St (subReconcilerResult * option error) :=
  let* addon := get_addon in
  let* has := HasAdditionalCatalogSources addon in
  if negb has then mpure (resultNil, None)
  else
    let* p := parseAddonInstallConfigForAdditionalCatalogSources in
    match p with
    | None => mpure (resultStop, None)
    | Some (additional, targetNamespace, pullSecret) =>
        ensure_additional targetNamespace pullSecret additional
    end.

(** ** Subscription *)

(*@ controllers/addon/phase_ensure_subscription.go:148-159 getSubscriptionEnvObjects *)
Definition getSubscriptionEnvObjects (envObjects : list EnvObject) : list EnvVar :=
  map (fun e => mkEnvVar (eo_Name e) (eo_Value e)) envObjects.

(*@ controllers/addon/phase_ensure_subscription.go:137-146 createSubscriptionConfigObject *)
Definition createSubscriptionConfigObject (o : AddonInstallOLMCommon) : option (list EnvVar) :=
  match Config o with
  | Some c => Some (getSubscriptionEnvObjects (EnvironmentVariables c))
  | None => None
  end.

(*@ controllers/addon/olm_reconciler.go:107-123 GetSubscription *)
Definition GetSubscription (name namespace : string) : M St (Subscription + error) :=
  k8s_Get Cached KSubscription (mkKey namespace name).
(*@ controllers/addon/olm_reconciler.go:125-140 GetInstallPlan *)
Definition GetInstallPlan (name namespace : string) : M St (InstallPlan + error) :=
  k8s_Get Cached KInstallPlan (mkKey namespace name).

(*@ controllers/addon/phase_ensure_subscription.go:119-120 InstallPlanApproval *)
Definition with_approval (approval : string) (s : SubscriptionSpec) : SubscriptionSpec :=
  mkSubSpec (sub_CatalogSource s) (sub_CatalogSourceNamespace s) (sub_Channel s) (sub_Package s)
    (sub_Config s) approval (sub_Rest s).

(** The spec of the desired object is a non-nil pointer; the one of the
    object read is dereferenced. *)
(*@ controllers/addon/phase_ensure_subscription.go:103-135 reconcileSubscription *)
Definition reconcileSubscription (meta : ObjectMeta) (spec : SubscriptionSpec)
  : M St (Subscription + error) :=
  let* r := GetSubscription (Name meta) (Namespace meta) in
  match r with
  | inr err =>
      if IsNotFound (Some err)
      then k8s_Create KSubscription (mkSub meta (Some spec) (mkSubStatus "" "" None))
      else mpure (inr err)
  | inl current =>
      let* currentSpec := deref (sub_Spec current) in
      let spec := with_approval (sub_InstallPlanApproval currentSpec) spec in
      let specChanged := negb (DeepEqual (Some spec) (sub_Spec current)) in
      let ownedByAddon := HasSameController (sub_Meta current) meta in
      let currentLabels := Labels (sub_Meta current) in
      let newLabels := labels_Merge currentLabels (Labels meta) in
      if specChanged || negb ownedByAddon || negb (labels_Equals currentLabels newLabels) then
        let m := set_OwnerReferences (OwnerReferences meta) (sub_Meta current) in
        let m := set_Labels newLabels m in
        k8s_Update KSubscription (mkSub m (Some spec) (sub_Status current))
      else mpure (inl current)
  end.

(*@ controllers/addon/phase_ensure_subscription.go:44-59 SubscriptionSpec *)
Definition desired_subscription_spec (o : AddonInstallOLMCommon) (catalogSource : CatalogSource)
  : SubscriptionSpec :=
  mkSubSpec (Name (cs_Meta catalogSource)) (Namespace (cs_Meta catalogSource)) (Channel o)
    (PackageName o) (createSubscriptionConfigObject o) "" "".

(** The report of a Subscription without an installed or current CSV. *)
(*@ controllers/addon/phase_ensure_subscription.go:81-89 AddonReasonUnreadyCSV *)
Definition reportCSVNotLinked (now : Z) (addon : Addon) : Addon :=
  let addon := set_condition now
    (condition Available ConditionFalse AddonReasonUnreadyCSV
       "CSV not linked in Subscription. Dependency issue?" (a_Generation addon)) addon in
  set_Phase PhaseError (observe_generation addon).

(*@ controllers/addon/phase_ensure_subscription.go:23-101 ensureSubscription *)
Definition ensureSubscription (catalogSource : option CatalogSource)
  : M St (subReconcilerResult * ObjectKey * option error) :=
  let no_key := mkKey "" "" in
  let* addon := get_addon in
  match GetInstallOLMCommon addon with
  | inr err => mpure (resultNil, no_key, Some err)
  | inl o =>
      let* cs := deref catalogSource in
      let m := AddCommonAnnotations addon (AddCommonLabels addon
                 (new_meta (ic_Namespace o) (SubscriptionName addon))) in
      match SetControllerReference (a_Meta addon) m with
      | inr err => mpure (resultNil, no_key, Some (ErrWrap "setting controller reference: " err))
      | inl m =>
          let* r := reconcileSubscription m (desired_subscription_spec o cs) in
          match r with
          | inr err => mpure (resultNil, no_key, Some (ErrWrap "reconciling Subscription: " err))
          | inl observed =>
              if str_empty (sub_InstalledCSV (sub_Status observed)) ||
                 str_empty (sub_CurrentCSV (sub_Status observed))
              then
                do* report reportCSVNotLinked in
                mpure (resultRetry, no_key, None)
              else
                mpure (resultNil,
                  mkKey (ic_Namespace o) (sub_CurrentCSV (sub_Status observed)), None)
          end
      end
  end.
(** ** Observation of the Operator *)

(*@ controllers/addon/phase_observe_operatorresource.go:151-159 addonUpgradeConcluded *)
Definition addonUpgradeConcluded (addon : Addon) (currentCSV : ObjectKey) (phase : string) : bool :=
  if addonUpgradeStarted addon then
    negb (NamespacedName_String currentCSV =s? LastObservedAvailableCSV (a_Status addon)) &&
    (phase =s? CSVPhaseSucceeded)
  else false.

(*@ controllers/addon/handle_installed_condition.go:60-76 deleteConfigMapPresent *)
Definition deleteConfigMapPresent : M St (bool * option error) :=
  let* addon := get_addon in
  let deleteConfigMapLabel := "api.openshift.com/addon-" +:+ a_Name addon +:+ "-delete" in
  let* o := GetCommonInstallOptions addon in
  let* r := k8s_Get Uncached KConfigMap (mkKey (ic_Namespace o) (a_Name addon)) in
  match r with
  | inr err => if IsNotFound (Some err) then mpure (false, None) else mpure (false, Some err)
  | inl cm =>
      mpure (match Labels (cm_Meta cm) !! deleteConfigMapLabel with
             | Some _ => true | None => false end, None)
  end.

(*@ controllers/addon/handle_installed_condition.go:42-58 handleMissingCSV *)
Definition handleMissingCSV : M St (subReconcilerResult * option error) :=
  do* report reportMissingCSV in
  let* r := deleteConfigMapPresent in
  match r with
  | (_, Some err) => mpure (resultRequeue, Some err)
  | (true, None) => do* report reportUninstalledCondition in mpure (resultStop, None)
  | (false, None) => mpure (resultRequeue, None)
  end.

(*@ controllers/addon/handle_installed_condition.go:94-116 isAddonInstanceInstalled *)
Definition isAddonInstanceInstalled : M St (bool * option error) :=
  let* addon := get_addon in
  let* o := GetCommonInstallOptions addon in
  let* r := k8s_Get Cached KAddonInstance (mkKey (ic_Namespace o) DefaultAddonInstanceName) in
  match r with
  | inr err => mpure (false, Some err)
  | inl instance =>
      let ty := AddonInstanceCondition_String AddonInstanceConditionInstalled in
      let conds := ai_Conditions (ai_Status instance) in
      let not_installed :=
        match FindStatusCondition conds ty with
        | None => true
        | Some c => cond_Status c =s? ConditionFalse
        end in
      if not_installed then
        do* report reportPendingAddonInstanceInstallation in mpure (false, None)
      else mpure (IsStatusConditionTrue conds ty, None)
  end.

(*@ controllers/addon/handle_installed_condition.go:78-92 handleInstallAck *)
Definition handleInstallAck : M St (subReconcilerResult * option error) :=
  let* r := isAddonInstanceInstalled in
  match r with
  | (_, Some err) => mpure (resultNil, Some err)
  | (installed, None) =>
      if negb installed then mpure (resultRequeue, None)
      else do* report reportInstalledCondition in mpure (resultNil, None)
  end.

(*@ controllers/addon/handle_installed_condition.go:18-40 handleInstalledCondition *)
Definition handleInstalledCondition (addonCSVRef : option RichReference)
  : M St (subReconcilerResult * option error) :=
  match addonCSVRef with
  | None => handleMissingCSV
  | Some _ =>
      if getCSVPhase addonCSVRef =s? CSVPhaseSucceeded then
        let* addon := get_addon in
        if InstallAckRequired (a_Spec addon) then handleInstallAck
        else do* report reportInstalledCondition in mpure (resultNil, None)
      else mpure (resultNil, None)
  end.

(** The check of the InstallPlan of a Subscription under manual approval:
    [Some] is what the caller returns. *)
(*@ controllers/addon/phase_observe_operatorresource.go:37-52 GetInstallPlanApproval *)
Definition install_plan_pending (currentSub : Subscription)
  : M St (option (subReconcilerResult * option error)) :=
  let* spec := deref (sub_Spec currentSub) in
  if GetInstallPlanApproval spec =s? ApprovalManual then
    let* ref := deref (sub_InstallPlanRef (sub_Status currentSub)) in
    let* r := GetInstallPlan (key_Name ref) (key_Namespace ref) in
    match r with
    | inr err => mpure (Some (resultNil, Some err))
    | inl currentIp =>
        if ip_Phase currentIp =s? InstallPlanPhaseRequiresApproval then
          do* report reportInstallPlanPending in mpure (Some (resultStop, None))
        else mpure None
    end
  else mpure None.

(** A CSV that did not succeed is reported. *)
(*@ controllers/addon/phase_observe_operatorresource.go:96-111 reportUnreadyCSV *)
Definition report_csv_phase (phase : string) : M St (subReconcilerResult * option error) :=
  let message :=
    if phase =s? CSVPhaseSucceeded then ""
    else if phase =s? CSVPhaseFailed then "failed" else "unknown/pending" in
  if negb (str_empty message) then
    do* report (reportUnreadyCSV message) in mpure (resultRetry, None)
  else mpure (resultNil, None).

(** The part after the Operator object is read. *)
(*@ controllers/addon/phase_observe_operatorresource.go:76-111 handleInstalledCondition *)
Definition observe_csv (csvKey : ObjectKey) (operator : Operator)
  : M St (subReconcilerResult * option error) :=
  let addonCSVRef := findConcernedCSVReference csvKey operator in
  let* r := handleInstalledCondition addonCSVRef in
  match r with
  | (_, Some err) => mpure (resultRetry, Some err)
  | (res, None) =>
      if negb (IsZero res) then mpure (res, None)
      else
        let phase := getCSVPhase addonCSVRef in
        let* addon := get_addon in
        do* (if addonUpgradeConcluded addon csvKey phase
             then report reportAddonUpgradeSucceeded else mpure tt) in
        report_csv_phase phase
  end.

(*@ controllers/addon/phase_observe_operatorresource.go:18-112 observeOperatorResource *)
Definition observeOperatorResource (csvKey : ObjectKey)
  : M St (subReconcilerResult * option error) :=
  let* addon := get_addon in
  match GetInstallOLMCommon addon with
  | inr err => mpure (resultRetry, Some err)
  | inl o =>
      let* r := GetSubscription (SubscriptionName addon) (ic_Namespace o) in
      match r with
      | inr err => mpure (resultRetry, Some err)
      | inl currentSub =>
          let* pending := install_plan_pending currentSub in
          match pending with
          | Some res => mpure res
          | None =>
              let* addon := get_addon in
              let* opName := generateOperatorResourceName addon in
              let operatorKey := mkKey "" opName in
              let* changed :=
                modify_handler (Handler.UpdateMap (meta_key (a_Meta addon)) operatorKey) in
              if (changed : bool) then mpure (resultRetry, None)
              else
                let* r := k8s_Get Uncached KOperator operatorKey in
                match r with
                | inr err =>
                    if IsNotFound (Some err) then mpure (resultRetry, None)
                    else mpure (resultNil, Some (ErrWrap "getting operator resource: " err))
                | inl operator => observe_csv csvKey operator
                end
          end
      end
  end.

(** ** The reconciler *)

(** Phases 5 and 6, after the CatalogSources are ready. *)
(*@ controllers/addon/olm_reconciler.go:75-96 ensureSubscription *)
Definition olm_subscription_phases (catalogSource : option CatalogSource)
  : M St (subReconcilerResult * option error) :=
  let* r := ensureSubscription catalogSource in
  match r with
  | (_, _, Some err) => mpure (resultNil, Join (Some err) (Some ErrReconcileSubscription))
  | (result, currentCSVKey, None) =>
      if negb (IsZero result) then mpure (result, None)
      else
        let* r := observeOperatorResource currentCSVKey in
        match r with
        | (_, Some err) => mpure (resultNil, Join (Some err) (Some ErrObserveCSV))
        | (result, None) =>
            if negb (IsZero result) then mpure (result, None)
            else
              do* modify_addon
                (reportLastObservedAvailableCSV (NamespacedName_String currentCSVKey)) in
              mpure (resultNil, None)
        end
  end.

(*@ controllers/addon/olm_reconciler.go:25-97 olmReconciler.Reconcile *)
Definition olm_Reconcile : M St (subReconcilerResult * option error) :=
  let* r := ensureOperatorGroup in
  match r with
  | (_, Some err) => mpure (resultNil, Join (Some err) (Some ErrEnsureOperatorGroup))
  | (requeueResult, None) =>
  if negb (IsZero requeueResult) then mpure (requeueResult, None)
  else
    let* r := ensureCatalogSourcesNetworkPolicy in
    match r with
    | (_, Some err) => mpure (resultNil, Join (Some err) (Some ErrEnsureNetworkPolicy))
    | (requeueResult, None) =>
    if negb (IsZero requeueResult) then mpure (requeueResult, None)
    else
      let* r := ensureCatalogSource in
      match r with
      | (_, _, Some err) => mpure (resultNil, Join (Some err) (Some ErrEnsureCatalogSource))
      | (result, catalogSource, None) =>
      if negb (IsZero result) then mpure (result, None)
      else
        let* r := ensureAdditionalCatalogSources in
        match r with
        | (_, Some err) =>
            mpure (resultNil, Join (Some err) (Some ErrEnsureAdditionalCatalogSource))
        | (result, None) =>
            if negb (IsZero result) then mpure (result, None)
            else olm_subscription_phases catalogSource
        end
      end
    end
  end.

(*@ controllers/addon/olm_reconciler.go:17-23 olmReconciler *)
(*@ controllers/addon/olm_reconciler.go:99-105 Order *)
Definition olmReconciler : addonReconciler :=
  mkSubReconciler OLM_RECONCILER_NAME OLMReconcilerOrder olm_Reconcile None.
End Olm.
