(* ===== verification/OlmProofs.v ===== *)
(** * Theorems about the OLM reconciler

    The order in which the OLM objects of an Addon are written, what each holds,
    and what the zero result of the reconciler says. *)
From S2P Require Export Olm InstallConfig.

(** ** The objects in place *)

(** The CatalogSource of that key was answered with a ready connection. *)
Definition connected (key : ObjectKey) (h : history) : Prop :=
  exists cs : obj KCatalogSource, answered KCatalogSource key cs h /\
    cs_GRPCConnectionState cs = Some "READY".

Lemma connected_later key h h' : h `suffix_of` h' -> connected key h -> connected key h'.
Proof. intros Hh (cs & H & ?). exists cs. split; [by eapply answered_later|done]. Qed.

(** The CatalogSources of the Addon, the first [n] additional ones. *)
Definition connected_sources (addon : Addon) (c : AddonInstallOLMCommon) (n : nat) (h : history) : Prop :=
  connected (mkKey (ic_Namespace c) (CatalogSourceName addon)) h /\
  Forall (fun src => connected (mkKey (ic_Namespace c) (acs_Name src)) h)
    (take n (AdditionalCatalogSources c)).

Section Specification.
Context {L : Lib}.

(** The OperatorGroup watches the namespace of the Addon, or all of them. *)
Definition targets (addon : Addon) (c : AddonInstallOLMCommon) (o : OperatorGroup) : Prop :=
  og_TargetNamespaces (og_Spec o) =
    if Type_ (Install (a_Spec addon)) =s? OLMOwnNamespace then [ic_Namespace c] else [].

Definition group_in_place (addon : Addon) (c : AddonInstallOLMCommon) : history -> Prop :=
  in_place KOperatorGroup (mkKey (ic_Namespace c) DefaultOperatorGroupName) (targets addon c).

(** Ingress to the pods of every CatalogSource of the Addon. *)
Definition policy_in_place (addon : Addon) (c : AddonInstallOLMCommon) : history -> Prop :=
  in_place KNetworkPolicy (mkKey (ic_Namespace c) (getCatalogSourceNetworkPolicyName addon))
    (fun o => np_Spec o = np_Spec (network_policy addon c)).

(** A Subscription to the package of the Addon, whatever its approval. *)
Definition subscribes (addon : Addon) (c : AddonInstallOLMCommon) (s : option SubscriptionSpec) : Prop :=
  exists spec, s = Some spec /\ sub_Package spec = PackageName c /\ sub_Channel spec = Channel c /\
    sub_Config spec = createSubscriptionConfigObject c.

Definition subscription_in_place (addon : Addon) (c : AddonInstallOLMCommon) : history -> Prop :=
  in_place KSubscription (mkKey (ic_Namespace c) (SubscriptionName addon))
    (fun o => subscribes addon c (sub_Spec o)).

(** A CatalogSource has the image of one of the sources of the Addon. *)
Definition source_image (c : AddonInstallOLMCommon) (cs : CatalogSource) : Prop :=
  cs_Image (cs_Spec cs) = CatalogSourceImage c \/
  exists src, src ∈ AdditionalCatalogSources c /\ cs_Image (cs_Spec cs) = acs_Image src.

(** The writes of the reconciler and when it makes them: every object after
    the ones it depends on, and an existing Subscription with the approval it
    was just read with. *)
Definition olm_write (addon : Addon) (c : AddonInstallOLMCommon) (h : history) (call : call) : Prop :=
  match call with
  | CCreate KOperatorGroup o | CUpdate KOperatorGroup o => targets addon c o
  | CCreate KNetworkPolicy o | CUpdate KNetworkPolicy o =>
      np_Spec o = np_Spec (network_policy addon c) /\ group_in_place addon c h
  | CCreate KCatalogSource o | CUpdate KCatalogSource o =>
      source_image c o /\ group_in_place addon c h /\ policy_in_place addon c h
  | CCreate KSubscription o =>
      subscribes addon c (sub_Spec o) /\
      connected_sources addon c (length (AdditionalCatalogSources c)) h
  | CUpdate KSubscription o =>
      subscribes addon c (sub_Spec o) /\
      connected_sources addon c (length (AdditionalCatalogSources c)) h /\
      exists key (cur : obj KSubscription) h', h = Ev (CGet Cached KSubscription key) (inl cur) :: h' /\
        sub_InstallPlanApproval <$> sub_Spec o = sub_InstallPlanApproval <$> sub_Spec cur
  | _ => is_write call = false
  end.

(** The Operator of the Addon was read, and its first component for [csvKey]
    reports success. *)
Definition csv_succeeded (c : AddonInstallOLMCommon) (csvKey : ObjectKey) (h : history) : Prop :=
  exists op : obj KOperator,
    Ev (CGet Uncached KOperator (mkKey "" (PackageName c +:+ "." +:+ ic_Namespace c))) (inl op) ∈ h /\
    getCSVPhase (findConcernedCSVReference csvKey op) = CSVPhaseSucceeded.

(** The AddonInstance of an Addon that requires it says that it is installed. *)
Definition install_acknowledged (addon : Addon) (c : AddonInstallOLMCommon) (h : history) : Prop :=
  InstallAckRequired (a_Spec addon) = true ->
  exists ai : obj KAddonInstance,
    Ev (CGet Cached KAddonInstance (mkKey (ic_Namespace c) DefaultAddonInstanceName)) (inl ai) ∈ h /\
    IsStatusConditionTrue (ai_Conditions (ai_Status ai))
      (AddonInstanceCondition_String AddonInstanceConditionInstalled) = true.

(** Without a usable configuration there is no write. *)
Definition olm_call (addon : Addon) (h : history) (call : call) : Prop :=
  is_write call = false \/ exists c, parsed addon = Some c /\ olm_write addon c h call.

(** The only panics follow the read of a Subscription without a specification,
    or of one under manual approval without a reference to its InstallPlan. *)
Definition olm_panic (h : history) (_ : stop) : Prop :=
  exists key (sub : obj KSubscription) h', h = Ev (CGet Cached KSubscription key) (inl sub) :: h' /\
    match sub_Spec sub with
    | None => True
    | Some spec => GetInstallPlanApproval spec = ApprovalManual /\
        sub_InstallPlanRef (sub_Status sub) = None
    end.
End Specification.

Section OlmPhases.
Context {L : Lib} {LOk : LibOk L}.
Context (addon : Addon).
Notation E := (log_env (olm_call addon) olm_panic).

Lemma olm_reads h c : is_write c = false -> env_allow E h c.
Proof. by left. Qed.

(** The key that the metadata of a wanted object has. *)
Lemma owned_key (a : Addon) owner ns n m :
  SetControllerReference owner (AddCommonAnnotations a (AddCommonLabels a (new_meta ns n))) = inl m ->
  meta_key m = mkKey ns n.
Proof.
  destruct (AddCommonAnnotations_meta a (AddCommonLabels a (new_meta ns n))) as [x ->].
  rewrite set_controller_fresh by done. by intros [= <-].
Qed.

Ltac wanted_key :=
  match goal with H : SetControllerReference _ _ = inl _ |- _ => apply owned_key in H; rewrite ?H end.

(** The object read has the wanted specification. *)
Ltac same_spec_read :=
  bools; match goal with
  | H : DeepEqual _ _ = true |- _ => apply (proj1 (deep_equal_eq _ _)) in H; first [rewrite H | rewrite <- H]
  end.

Lemma ensureOperatorGroup_spec s h :
  same_identity (st_addon s) addon ->
  wpM E ensureOperatorGroup s h (fun h' r s' => same_identity (st_addon s') addon /\
    (r = (resultNil, None) -> exists c, parsed addon = Some c /\ group_in_place addon c h')).
Proof.
  intros Hs. unfold ensureOperatorGroup, reconcileOperatorGroup. apply wpM_bind, wpM_parse; [by intros; apply olm_reads|..].
  2: { intros h' s' Hs'. wp_run. split; [by rewrite Hs'|done]. }
  intros c Hc. rewrite Hs in Hc.
  assert (targets addon c (desired_operator_group (st_addon s) c)) as Ht.
  { unfold targets. simpl. by rewrite (proj2 Hs). }
  wp_run; try (by apply olm_reads); try (right; by exists c); (split; [done|]); try done;
    wanted_key.
  - intros [= [o' ->]%err_of_none]. exists c. split; [done|]. by apply in_place_updated.
  - intros _. exists c. split; [done|]. apply in_place_read. unfold targets.
    same_spec_read. exact Ht.
  - intros [= [o' ->]%err_of_none]. exists c. split; [done|]. by apply in_place_created.
Qed.

Lemma ensureCatalogSourcesNetworkPolicy_spec s h :
  same_identity (st_addon s) addon ->
  (forall c, parsed addon = Some c -> group_in_place addon c h) ->
  wpM E ensureCatalogSourcesNetworkPolicy s h (fun h' r s' => same_identity (st_addon s') addon /\
    (r = (resultNil, None) -> forall c, parsed addon = Some c -> policy_in_place addon c h')).
Proof.
  intros Hs Hg. unfold ensureCatalogSourcesNetworkPolicy, desiredCatalogSourcesNetworkPolicy,
    actualCatalogSourcesNetworkPolicy. apply wpM_bind, wpM_bind, wpM_parse; [by intros; apply olm_reads|..].
  2: { intros h' s' Hs'. wp_run; (split; [by rewrite Hs'|done]). }
  intros c Hc. rewrite Hs in Hc.
  assert (np_Spec (network_policy (st_addon s) c) = np_Spec (network_policy addon c)) as Hn.
  { unfold network_policy, getPrimaryCatalogSourceName, a_Name. simpl. by rewrite (proj1 Hs). }
  assert (getCatalogSourceNetworkPolicyName (st_addon s) = getCatalogSourceNetworkPolicyName addon) as Hk.
  { unfold getCatalogSourceNetworkPolicyName, a_Name. by rewrite (proj1 Hs). }
  apply wpM_bind, wpM_get_addon. destruct (SetControllerReference _ _) as [m|] eqn:Hm; wp_run.
  apply wpM_parse; [by intros; apply olm_reads|..].
  2: { intros h' s' Hs'. wp_run; (split; [by rewrite Hs', Hs|done]). }
  intros c' Hc'. rewrite Hs, Hc in Hc'. injection Hc' as <-.
  wp_run; try (by apply olm_reads); try (split; [done|]); try done;
    try (right; exists c; split; [done|]; split; [done|]; eapply in_place_later, Hg; [|done];
         by apply suffix_cons_r).
  - intros _ ? [= <-]%(eq_trans (eq_sym Hc)). rewrite Hk. apply in_place_read.
    rewrite <- Hn. by same_spec_read.
  - intros [= [o' ->]%err_of_none] ? [= <-]%(eq_trans (eq_sym Hc)). by apply in_place_updated.
  - intros [= [o' ->]%err_of_none] ? [= <-]%(eq_trans (eq_sym Hc)). by apply in_place_created.
Qed.

Section Sources.
Context (c : AddonInstallOLMCommon) (Hc : parsed addon = Some c).

(** The OperatorGroup and the NetworkPolicy are in place. *)
Definition network_ready (h : history) : Prop := group_in_place addon c h /\ policy_in_place addon c h.

Lemma network_ready_later h h' : h `suffix_of` h' -> network_ready h -> network_ready h'.
Proof. intros Hh [H1 H2]. split; by eapply in_place_later. Qed.

Lemma reconcileCatalogSource_spec cs s h :
  source_image c cs -> network_ready h ->
  wpM E (reconcileCatalogSource cs) s h (fun h' r s' => s' = s /\
    forall o, r = inl o -> answered KCatalogSource (meta_key (cs_Meta cs)) o h').
Proof.
  intros Hi Hn. unfold reconcileCatalogSource.
  assert (forall x, network_ready (x :: h)) as Hn'.
  { intros x. eapply network_ready_later; [|done]. by apply suffix_cons_r. }
  wp_run; try (by apply olm_reads); 
    try (right; exists c; split; [done|]; split; [done|apply Hn']);
    (split; [done|]); intros; simplify_eq.
  - right; right. eexists _, _. split; [right; left|]. split; [|left]. done.
  - left. left.
  - right; left. eexists. split; [|left]. done.
Qed.

Lemma wanted_source (a : Addon) ns name image pull m :
  (image = CatalogSourceImage c \/ exists src, src ∈ AdditionalCatalogSources c /\ image = acs_Image src) ->
  source_image c (mkCS m (cs_Spec (new_catalog_source a ns name image pull)) None).
Proof. done. Qed.

Lemma connection_ready cs : connection_message cs = None -> cs_GRPCConnectionState cs = Some "READY".
Proof.
  unfold connection_message. destruct (cs_GRPCConnectionState cs) as [st|]; [|done].
  destruct (st =s? "READY") eqn:E; bools; [by subst|done].
Qed.

Lemma ensureCatalogSource_spec s h :
  same_identity (st_addon s) addon -> network_ready h ->
  wpM E ensureCatalogSource s h (fun h' r s' => same_identity (st_addon s') addon /\
    forall cs, r = (resultNil, cs, None) -> exists o, cs = Some o /\ connected_sources addon c 0 h').
Proof.
  intros Hs Hn. unfold ensureCatalogSource. apply wpM_bind, wpM_parse; [by intros; apply olm_reads|..].
  2: { intros h' s' Hs'. wp_run. split; [by rewrite Hs'|done]. }
  intros c' Hc'. rewrite Hs, Hc in Hc'. injection Hc' as <-.
  apply wpM_bind, wpM_get_addon. destruct (SetControllerReference _ _) as [m|] eqn:Hm; [|by wp_run].
  apply wpM_bind. eapply wpM_mono; [apply reconcileCatalogSource_spec; [|done]|].
  { apply wanted_source. by left. }
  intros h1 [o|e] s1 [-> Ho]; [|by wp_run]. specialize (Ho o eq_refl).
  destruct (connection_message o) as [msg|] eqn:Hmsg.
  - apply wpM_bind, wpM_report; [by apply olm_reads|]. intros now h' ->. wp_run.
  - apply wpM_pure. split; [done|]. intros cs [= <-]. exists o. split; [done|].
    split; [|by constructor]. exists o. split; [|by apply connection_ready].
    simpl in Hm, Ho. apply owned_key in Hm. rewrite Hm in Ho.
    unfold CatalogSourceName, a_Name in *. by rewrite <- (proj1 Hs).
Qed.

Lemma ensure_additional_spec ns pull l s h :
  (forall src, src ∈ l -> src ∈ AdditionalCatalogSources c) ->
  same_identity (st_addon s) addon -> network_ready h ->
  wpM E (ensure_additional ns pull l) s h (fun h' r s' => same_identity (st_addon s') addon /\
    (r = (resultNil, None) -> Forall (fun src => connected (mkKey ns (acs_Name src)) h') l)).
Proof.
  revert s h. induction l as [|src l IH]; intros s h Hl Hs Hn; simpl; [by wp_run|].
  apply wpM_bind, wpM_get_addon.
  destruct (SetControllerReference _ _) as [m|] eqn:Hm; [|by wp_run].
  apply wpM_bind. eapply wpM_mono; [apply wpM_log_grows, reconcileCatalogSource_spec; [|done]|].
  { apply (wanted_source (st_addon s) ns (acs_Name src) _ pull). right. exists src. split; [|done]. apply Hl. left. }
  intros h1 [o|e] s1 [[-> Ho] Hh]; [|by wp_run]. specialize (Ho o eq_refl).
  destruct (connection_message o) as [msg|] eqn:Hmsg.
  - apply wpM_bind, wpM_report; [by apply olm_reads|]. intros now h' ->. wp_run.
  - eapply wpM_mono; [apply wpM_log_grows, IH; [|done|by eapply network_ready_later]|].
    { intros x Hx. apply Hl. by right. }
    intros h2 r s2 [[Hs2 Hr] Hh2]. split; [done|]. intros ->. constructor; [|by apply Hr].
    apply owned_key in Hm. simpl in Ho. rewrite Hm in Ho. eapply connected_later; [exact Hh2|].
    exists o. split; [done|by apply connection_ready].
Qed.

Lemma check_additional_spec msg l acc s h Q :
  Q h (Some (acc ++ l)) s ->
  (forall h' s', same_identity (st_addon s') (st_addon s) -> Q h' None s') ->
  wpM E (check_additional msg l acc) s h Q.
Proof.
  revert acc. induction l as [|x l IH]; intros acc H1 H2; simpl; [by rewrite app_nil_r in H1|].
  destruct (_ || _).
  - apply wpM_bind, wpM_report; [by apply olm_reads|]. intros now h' ->. by apply wpM_pure, H2.
  - apply IH; [|done]. by rewrite <- app_assoc.
Qed.

Lemma ensureAdditionalCatalogSources_spec s h :
  same_identity (st_addon s) addon -> network_ready h -> connected_sources addon c 0 h ->
  wpM E ensureAdditionalCatalogSources s h (fun h' r s' => same_identity (st_addon s') addon /\
    (r = (resultNil, None) -> connected_sources addon c (length (AdditionalCatalogSources c)) h')).
Proof.
  intros Hs Hn [Hp _]. unfold ensureAdditionalCatalogSources, HasAdditionalCatalogSources,
    parseAddonInstallConfigForAdditionalCatalogSources.
  assert (forall ns pull l s' h', same_identity (st_addon s') addon -> h `suffix_of` h' ->
    ns = ic_Namespace c -> l = AdditionalCatalogSources c ->
    wpM E (ensure_additional ns pull l) s' h' (fun h' r s' => same_identity (st_addon s') addon /\
      (r = (resultNil, None) -> connected_sources addon c (length (AdditionalCatalogSources c)) h')))
    as Hloop.
  { intros ns pull l s' h' Hs' Hh -> ->.
    eapply wpM_mono; [apply wpM_log_grows, ensure_additional_spec; [done..|by eapply network_ready_later]|].
    intros h2 r s2 [[Hs2 Hr] Hh2]. split; [done|]. intros Hr'. split.
    - eapply connected_later; [|exact Hp]. by etrans.
    - rewrite firstn_all. by apply Hr. }
  assert (bool_decide (0 < length (AdditionalCatalogSources c)) = false ->
    connected_sources addon c (length (AdditionalCatalogSources c)) h) as Hnone.
  { intros Hl. bools. split; [done|]. destruct (AdditionalCatalogSources c); [constructor|simpl in *; lia]. }
  apply wpM_bind, wpM_get_addon, wpM_bind. simpl. rewrite (proj2 Hs).
  destruct (parsed_cases addon c Hc) as [[Ht Hi]|(Ho & Ht & Hi)]; rewrite Ht, Hi; simpl.
  all: apply wpM_pure; destruct (bool_decide (0 < _)) eqn:Hl; simpl; [|by wp_run; split; [|auto]].
  all: apply wpM_bind, wpM_bind, wpM_get_addon; simpl; rewrite (proj2 Hs), Ht, Hi; simpl.
  all: apply wpM_bind, wpM_pure, wpM_bind, check_additional_spec; simpl; [by apply wpM_pure, Hloop|].
  all: intros h' s' Hs'; apply wpM_pure, wpM_pure; split; [by rewrite Hs'|done].
Qed.

(** ** The Subscription *)

Lemma reconcileSubscription_spec m spec s h :
  meta_key m = mkKey (ic_Namespace c) (SubscriptionName addon) ->
  subscribes addon c (Some spec) ->
  connected_sources addon c (length (AdditionalCatalogSources c)) h ->
  wpM E (reconcileSubscription m spec) s h (fun h' r s' => s' = s /\
    forall o, r = inl o -> subscription_in_place addon c h').
Proof.
  intros Hk Hw Hcs. unfold reconcileSubscription, GetSubscription, subscription_in_place.
  assert (forall x, connected_sources addon c (length (AdditionalCatalogSources c)) (x :: h)) as Hcs'.
  { intros x. destruct Hcs as [H1 H2]. split; [eapply connected_later; [|done]; by apply suffix_cons_r|].
    eapply Forall_impl; [exact H2|]. intros src. apply connected_later. by apply suffix_cons_r. }
  assert (forall a, subscribes addon c (Some (with_approval a spec))) as Ha.
  { intros a. destruct Hw as (sp & [= <-] & Hw). by eexists. }
  assert (mkKey (Namespace m) (Name m) = mkKey (ic_Namespace c) (SubscriptionName addon)) as -> by done.
  wp_run; try (by apply olm_reads).
  - right. exists c. split; [done|]. split; [apply Ha|]. split; [apply Hcs'|].
    eexists _, _, h. split; [done|]. simpl.
    by match goal with H : sub_Spec _ = Some _ |- _ => rewrite H end.
  - split; [done|]. intros o' ->. apply in_place_updated. apply Ha.
  - split; [done|]. intros ? [= <-]. apply in_place_read. same_spec_read. apply Ha.
  - eexists _, _, h. split; [done|].
    by match goal with H : sub_Spec _ = None |- _ => rewrite H end.
  - right. exists c. split; [done|]. split; [apply Hw|apply Hcs'].
  - split; [done|]. intros o' ->. apply in_place_created. apply Hw.
Qed.

Lemma ensureSubscription_spec cs s h :
  same_identity (st_addon s) addon ->
  connected_sources addon c (length (AdditionalCatalogSources c)) h ->
  wpM E (ensureSubscription (Some cs)) s h (fun h' r s' => same_identity (st_addon s') addon /\
    forall key, r = (resultNil, key, None) -> subscription_in_place addon c h').
Proof.
  intros Hs Hcs. unfold ensureSubscription. apply wpM_bind, wpM_get_addon.
  assert (parsed (st_addon s) = Some c) as Hc' by by rewrite Hs.
  rewrite (parsed_common _ _ Hc'). apply wpM_bind, wpM_pure.
  destruct (SetControllerReference _ _) as [m|] eqn:Hm; [|by wp_run]. apply owned_key in Hm.
  assert (SubscriptionName (st_addon s) = SubscriptionName addon) as Hn.
  { unfold SubscriptionName, a_Name. by rewrite (proj1 Hs). }
  rewrite Hn in Hm. apply wpM_bind. eapply wpM_mono; [apply reconcileSubscription_spec; [done| |done]|].
  { by eexists. }
  intros h1 [o|e] s1 [-> Ho]; [|by wp_run]. specialize (Ho o eq_refl).
  destruct (_ || _); [|by wp_run].
  apply wpM_bind, wpM_report; [by apply olm_reads|]. intros now h' ->. wp_run.
Qed.

(** ** The Operator *)

Lemma handleInstalledCondition_spec ref s h :
  same_identity (st_addon s) addon ->
  wpM E (handleInstalledCondition ref) s h (fun h' r s' => same_identity (st_addon s') addon /\
    (r = (resultNil, None) -> ref <> None /\
       (getCSVPhase ref = CSVPhaseSucceeded -> install_acknowledged addon c h'))).
Proof.
  intros Hs. assert (parsed (st_addon s) = Some c) as Hc' by by rewrite Hs.
  destruct (parsed_options _ _ Hc') as [Hok Ho].
  unfold handleInstalledCondition. destruct ref as [ref|].
  - destruct (getCSVPhase _ =s? _) eqn:Hp; [|by wp_run; split; [|bools]].
    apply wpM_bind, wpM_get_addon. rewrite (proj2 Hs). destruct (InstallAckRequired _) eqn:Ha.
    + unfold handleInstallAck, isAddonInstanceInstalled. apply wpM_bind, wpM_bind, wpM_get_addon.
      apply wpM_bind, wpM_GetCommonInstallOptions; [done|]. rewrite Ho.
      wp_run; try (by apply olm_reads); try (split; [done|]); try done.
      intros _. split; [done|]. intros _ _. eexists. split; [right; left|]. by bools.
    + apply wpM_bind, wpM_report; [by apply olm_reads|]. intros now h' ->. apply wpM_pure.
      split; [done|]. intros _. split; [done|]. intros _ Hreq. congruence.
  - unfold handleMissingCSV, deleteConfigMapPresent. apply wpM_bind, wpM_report; [by apply olm_reads|].
    intros now h' ->. apply wpM_bind, wpM_bind, wpM_get_addon, wpM_bind, wpM_GetCommonInstallOptions; [done|].
    wp_run; try (by apply olm_reads); (split; [|done]); try done.
    unfold reportUninstalledCondition. by destruct (find_condition _ _).
Qed.

Lemma install_acknowledged_later h h' :
  h `suffix_of` h' -> install_acknowledged addon c h -> install_acknowledged addon c h'.
Proof. intros Hh H (ai & Hai & ?)%H. exists ai. eauto with addon. Qed.

Lemma report_csv_phase_spec phase s h0 h :
  same_identity (st_addon s) addon -> h0 `suffix_of` h ->
  (phase = CSVPhaseSucceeded -> install_acknowledged addon c h0) ->
  wpM E (report_csv_phase phase) s h (fun h' r s' => same_identity (st_addon s') addon /\
    (r = (resultNil, None) -> phase = CSVPhaseSucceeded /\ install_acknowledged addon c h')).
Proof.
  intros Hs Hh Hack. unfold report_csv_phase. destruct (phase =s? CSVPhaseSucceeded) eqn:Hp; simpl.
  - bools. apply wpM_pure. split; [done|]. intros _. split; [done|].
    eapply install_acknowledged_later; [done|by apply Hack].
  - destruct (phase =s? CSVPhaseFailed); simpl; (apply wpM_bind, wpM_report; [by apply olm_reads|]);
      intros now h' ->; by apply wpM_pure.
Qed.

Lemma observe_csv_spec csvKey op s h :
  same_identity (st_addon s) addon ->
  wpM E (observe_csv csvKey op) s h (fun h' r s' => same_identity (st_addon s') addon /\
    (r = (resultNil, None) ->
       getCSVPhase (findConcernedCSVReference csvKey op) = CSVPhaseSucceeded /\
       install_acknowledged addon c h')).
Proof.
  intros Hs. unfold observe_csv. apply wpM_bind.
  eapply wpM_mono; [by apply handleInstalledCondition_spec|]. intros h1 [res [e|]] s1 [Hs1 Hr]; [by wp_run|].
  destruct (IsZero res) eqn:Hz; simpl; [|by wp_run; split; [|intros [= ->]]].
  apply IsZero_true in Hz as ->. destruct (Hr eq_refl) as [_ Hack].
  set (phase := getCSVPhase _) in *. apply wpM_bind, wpM_get_addon, wpM_bind.
  destruct (addonUpgradeConcluded _ _ _).
  - apply wpM_report; [by apply olm_reads|]. intros now h' ->.
    apply report_csv_phase_spec with (h0 := h1); [|by apply suffix_cons_r|done].
    simpl. unfold reportAddonUpgradeSucceeded. by destruct (find_condition _ _).
  - by apply report_csv_phase_spec with (h0 := h1).
Qed.

Lemma observeOperatorResource_spec csvKey s h :
  same_identity (st_addon s) addon ->
  wpM E (observeOperatorResource csvKey) s h (fun h' r s' => same_identity (st_addon s') addon /\
    (r = (resultNil, None) -> csv_succeeded c csvKey h' /\ install_acknowledged addon c h')).
Proof.
  intros Hs. assert (parsed (st_addon s) = Some c) as Hc' by by rewrite Hs.
  destruct (parsed_options _ _ Hc') as [Hok Ho].
  unfold observeOperatorResource. apply wpM_bind, wpM_get_addon. rewrite (parsed_common _ _ Hc').
  unfold GetSubscription, k8s_Get. apply wpM_bind, wpM_log_call; [by apply olm_reads|].
  intros [sub|e]; [|by wp_run]. apply wpM_bind.
  assert (wpM E (install_plan_pending sub) s
    (Ev (CGet Cached KSubscription (mkKey (ic_Namespace c) (SubscriptionName (st_addon s)))) (inl sub) :: h)
    (fun h' r s' => same_identity (st_addon s') addon /\ r <> Some (resultNil, None) /\
       (r = None -> s' = s))) as Hplan.
  { unfold install_plan_pending, GetInstallPlan. wp_run; try (by apply olm_reads).
    - eexists _, _, h. split; [done|]. destruct (sub_Spec sub) as [sp|]; [|done].
      simplify_eq. by bools.
    - eexists _, _, h. split; [done|]. by destruct (sub_Spec sub). }
  eapply wpM_mono; [exact Hplan|]. intros h1 [r|] s1 (Hs1 & Hr & Hnone).
  { apply wpM_pure. split; [done|]. by intros ->. }
  rewrite (Hnone eq_refl) in *. clear Hplan. apply wpM_bind, wpM_get_addon, wpM_bind.
  unfold generateOperatorResourceName. apply wpM_bind, wpM_GetCommonInstallOptions; [done|].
  apply wpM_pure. rewrite Ho. apply wpM_bind, wpM_modify_handler.
  destruct (Handler.UpdateMap _ _ _) as [[] hd]; simpl; [by wp_run|].
  apply wpM_bind, wpM_log_call; [by apply olm_reads|]. intros [op|e].
  - eapply wpM_mono; [by apply wpM_log_grows, observe_csv_spec|].
    intros h2 r s2 [[Hs2 Hr2] Hh2]. split; [done|]. intros [Hp Hack]%Hr2. split; [|done].
    exists op. split; [|done]. eapply suffix_elem_of; [exact Hh2|left].
  - destruct (IsNotFound _); by wp_run.
Qed.

(** ** The phases in order *)

(** What the zero result of the reconciler says. *)
Definition olm_reconciled (h : history) (a : Addon) : Prop :=
  network_ready h /\
  connected_sources addon c (length (AdditionalCatalogSources c)) h /\
  subscription_in_place addon c h /\
  exists csvKey, csv_succeeded c csvKey h /\ install_acknowledged addon c h /\
    LastObservedAvailableCSV (a_Status a) = NamespacedName_String csvKey.

Lemma connected_sources_later n h h' :
  h `suffix_of` h' -> connected_sources addon c n h -> connected_sources addon c n h'.
Proof.
  intros Hh [H1 H2]. split; [by eapply connected_later|].
  eapply Forall_impl; [exact H2|]. intros src. by apply connected_later.
Qed.

Lemma olm_subscription_phases_spec cs s h :
  same_identity (st_addon s) addon -> network_ready h ->
  connected_sources addon c (length (AdditionalCatalogSources c)) h ->
  wpM E (olm_subscription_phases (Some cs)) s h (fun h' r s' => same_identity (st_addon s') addon /\
    (r = (resultNil, None) -> olm_reconciled h' (st_addon s'))).
Proof.
  intros Hs Hn Hcs. unfold olm_subscription_phases. apply wpM_bind.
  eapply wpM_mono; [apply wpM_log_grows, ensureSubscription_spec; done|].
  intros h1 [[res key] [e|]] s1 [[Hs1 Hr] Hh1]; [by wp_run|].
  destruct (IsZero res) eqn:Hz; simpl; [|by wp_run; split; [|intros [= ->]]].
  apply IsZero_true in Hz as ->. specialize (Hr key eq_refl). apply wpM_bind.
  eapply wpM_mono; [apply wpM_log_grows, observeOperatorResource_spec; done|].
  intros h2 [res [e|]] s2 [[Hs2 Hr2] Hh2]; [by wp_run|].
  destruct (IsZero res) eqn:Hz; simpl; [|by wp_run; split; [|intros [= ->]]].
  apply IsZero_true in Hz as ->. destruct (Hr2 eq_refl) as [Hcsv Hack]. wp_run. split; [done|]. intros _.
  assert (h `suffix_of` h2) as Hh by by etrans.
  split; [by eapply network_ready_later|]. split; [by eapply connected_sources_later|].
  split; [by eapply in_place_later, Hr|]. by exists key.
Qed.
End Sources.

Lemma olm_phases s h :
  same_identity (st_addon s) addon ->
  wpM E olm_Reconcile s h (fun h' r s' => same_identity (st_addon s') addon /\
    (r = (resultNil, None) -> exists c, parsed addon = Some c /\ olm_reconciled c h' (st_addon s'))).
Proof.
  intros Hs. unfold olm_Reconcile. apply wpM_bind.
  eapply wpM_mono; [by apply ensureOperatorGroup_spec|]. intros h1 [res [e|]] s1 [Hs1 Hr1]; [by wp_run|].
  destruct (IsZero res) eqn:Hz; simpl; [|by wp_run; split; [|intros [= ->]]].
  apply IsZero_true in Hz as ->. destruct (Hr1 eq_refl) as (c & Hc & Hg). apply wpM_bind.
  eapply wpM_mono; [apply wpM_log_grows, ensureCatalogSourcesNetworkPolicy_spec; [done|]|].
  { intros c' Hc'. rewrite Hc in Hc'. by injection Hc' as <-. }
  intros h2 [res [e|]] s2 [[Hs2 Hr2] Hh2]; [by wp_run|].
  destruct (IsZero res) eqn:Hz; simpl; [|by wp_run; split; [|intros [= ->]]].
  apply IsZero_true in Hz as ->. specialize (Hr2 eq_refl c Hc). apply wpM_bind.
  assert (network_ready c h2) as Hn by (split; [by eapply in_place_later|done]).
  eapply wpM_mono; [by apply wpM_log_grows, (ensureCatalogSource_spec c Hc)|].
  intros h3 [[res cs] [e|]] s3 [[Hs3 Hr3] Hh3]; [by wp_run|].
  destruct (IsZero res) eqn:Hz; simpl; [|by wp_run; split; [|intros [= ->]]].
  apply IsZero_true in Hz as ->. destruct (Hr3 cs eq_refl) as (o & -> & Hc3).
  apply (network_ready_later c _ _ Hh3) in Hn. apply wpM_bind.
  eapply wpM_mono; [by apply wpM_log_grows, (ensureAdditionalCatalogSources_spec c Hc)|].
  intros h4 [res [e|]] s4 [[Hs4 Hr4] Hh4]; [by wp_run|].
  destruct (IsZero res) eqn:Hz; simpl; [|by wp_run; split; [|intros [= ->]]].
  apply IsZero_true in Hz as ->. apply (network_ready_later c _ _ Hh4) in Hn.
  eapply wpM_mono; [apply (olm_subscription_phases_spec c Hc); [done..|by apply Hr4]|].
  intros h5 r s5 [Hs5 Hr5]. split; [done|]. intros Hr. exists c. split; [done|by apply Hr5].
Qed.
End OlmPhases.

Section OlmTheorems.
Context {L : Lib} {LOk : LibOk L}.

(** C14: Whatever the server answers, the OLM reconciler writes the objects of an
    Addon in the order of their dependencies: the NetworkPolicy only when the
    OperatorGroup is in place, CatalogSources only when both are, the
    Subscription only when every CatalogSource was answered as READY, and an
    existing Subscription keeps the approval strategy it was just read with.
    Without a usable configuration it writes nothing, it deletes nothing, and
    it panics only on a Subscription without specification or under manual
    approval without a reference to its InstallPlan. *)
Theorem olm_objects_in_order (s : St) :
  wpM (log_env (olm_call (st_addon s)) olm_panic) olm_Reconcile s [] (fun _ _ s' =>
    same_identity (st_addon s') (st_addon s)).
Proof. eapply wpM_mono; [by apply olm_phases|]. by intros h r s' [H _]. Qed.

(** C15: When the OLM reconciler returns the zero result without an error, every
    object is in place, every CatalogSource was answered as READY, the
    Operator of the Addon reports that its CSV succeeded, the AddonInstance
    says that it is installed where the Addon requires it, and that CSV is
    recorded as the last one observed available. *)
Theorem olm_zero_result_means_available (s : St) :
  wpM (log_env (fun _ _ => True) (fun _ _ => True)) olm_Reconcile s [] (fun h r s' =>
    r = (resultNil, None) -> exists c, parsed (st_addon s) = Some c /\
      olm_reconciled (st_addon s) c h (st_addon s')).
Proof.
  eapply wpM_mono.
  - eapply wp_weaken; [| |by apply (olm_phases (st_addon s))]; done.
  - by intros h r s' [_ H].
Qed.
End OlmTheorems.
