(* ===== verification/Server.v ===== *)
(** * A server that stores what it is sent

    The environment in which the controllers come to rest.  [stores_verbatim]
    answers reads with the stored objects, as far as the cache of the client
    holds them, and stores writes with the keys, owners, labels and
    specifications they have; statuses, UIDs and further annotations are its own.
    A deleted object is gone or marked for deletion.  Any call may fail.

    A reconcile that has nothing left to do is one whose writes are all
    [unchanged]; [wp_at_rest] reduces that to one pass over the program in an
    environment that accepts other writes only while the cluster is not settled. *)
From S2P Require Export OlmProofs.

(** ** Objects *)

(** The objects of the cluster. *)
Definition objects : Type := forall k : kind, ObjectKey -> option (obj k).

Definition same_content (k : kind) : obj k -> obj k -> Prop :=
  match k with
  | KAddon => fun a b => a_Spec a = a_Spec b
  | KAddonInstance => fun a b => ai_Spec a = ai_Spec b
  | KSecret => fun a b => sec_Data a = sec_Data b
  | KNetworkPolicy => fun a b => np_Spec a = np_Spec b
  | KOperatorGroup => fun a b => og_Spec a = og_Spec b
  | KCatalogSource => fun a b => cs_Spec a = cs_Spec b
  | KSubscription => fun a b => sub_Spec a = sub_Spec b
  | KServiceMonitor => fun a b => sm_Spec a = sm_Spec b
  | KMonitoringStack => fun a b => ms_Spec a = ms_Spec b
  | KClusterObjectTemplate => fun a b => cot_Spec a = cot_Spec b
  | _ => fun _ _ => True
  end.

#[export] Instance same_content_equiv k : Equivalence (same_content k).
Proof. split; destruct k; simpl; first [done|by intros ?|by intros ? ? ?|intros ? ? ?; congruence]. Qed.

(** What a client that writes [b] determines of the object. *)
Definition same_stored (k : kind) (a b : obj k) : Prop :=
  obj_key k a = obj_key k b /\ OwnerReferences (obj_meta k a) = OwnerReferences (obj_meta k b) /\
  Labels (obj_meta k a) = Labels (obj_meta k b) /\ same_content k a b.

#[export] Instance same_stored_equiv k : Equivalence (same_stored k).
Proof.
  split.
  - intros a. split_and!; done || reflexivity.
  - intros a b (H1 & H2 & H3 & H4). split_and!; by symmetry.
  - intros a b c (H1 & H2 & H3 & H4) (H1' & H2' & H3' & H4'). split_and!; by etrans.
Qed.

(** The object was deleted, and waits for its finalizers. *)
Definition deleting (k : kind) (o : obj k) : Prop := DeletionTimestamp (obj_meta k o) <> None.

(** [a] is the object [b] at a later time: its status may have changed, and
    annotations may have been added. *)
Definition kept (k : kind) (a b : obj k) : Prop :=
  same_stored k a b /\ Annotations (obj_meta k b) ⊆ Annotations (obj_meta k a) /\
  (deleting k a <-> deleting k b).

#[export] Instance kept_preorder k : PreOrder (kept k).
Proof.
  split; [by intros a|]. intros a b c (H1 & H2 & H3) (H1' & H2' & H3').
  split; [by etrans|]. split; [by etrans|]. by rewrite H3.
Qed.

(** A change of the status. *)
Lemma same_meta_kept k a b : obj_meta k a = obj_meta k b -> same_content k a b -> kept k a b.
Proof.
  intros Hm Hc. unfold kept, same_stored, deleting, obj_key. by rewrite Hm.
Qed.

(** The object of that key is the only one that changed. *)
Definition only_wrote (k : kind) (key : ObjectKey) (w w' : objects) : Prop :=
  forall k' key', ~ (k' = k /\ key' = key) -> w' k' key' = w k' key'.

(** ** Regions *)

(** A part of the cluster, and that nothing outside of it changed. *)
Definition region : Type := kind -> ObjectKey -> Prop.
Definition changed_in (F : region) (w w' : objects) : Prop :=
  forall k key, ~ F k key -> w' k key = w k key.

#[export] Instance changed_in_preorder F : PreOrder (changed_in F).
Proof. split; [done|]. intros w1 w2 w3 H1 H2 k key Hk. by rewrite H2, H1. Qed.

Lemma changed_in_mono (F F' : region) w w' :
  (forall k key, F k key -> F' k key) -> changed_in F w w' -> changed_in F' w w'.
Proof. intros HF Hw k key Hk. apply Hw. by intros H%HF. Qed.

Lemma only_wrote_changed k key (F : region) w w' :
  F k key -> only_wrote k key w w' -> changed_in F w w'.
Proof. intros HF Hw k' key' Hk. apply Hw. by intros [-> ->]. Qed.

(** ** The server *)

(** The cache that the watches read from: it holds only the Secrets with the
    cache label. *)
(*@ main.go:266-274 ByObject *)
Definition cache_holds (k : kind) : obj k -> bool :=
  match k with
  | KSecret => fun s => bool_decide (Labels (sec_Meta s) !! CommonCacheLabel = Some CommonCacheValue)
  | _ => fun _ => true
  end.
Definition in_view (cl : client) (k : kind) (o : obj k) : bool :=
  match cl with Cached => cache_holds k o | Uncached => true end.

(** An error of the API server is none of the operator's own. *)
Definition api_error (e : error) : Prop := forall target, errors_Is (Some e) target = false.

(** What the server makes of [o], sent in a write. *)
Definition stored (k : kind) (o : obj k) (w : objects) (o' : obj k) : Prop :=
  same_stored k o' o /\ Annotations (obj_meta k o) ⊆ Annotations (obj_meta k o') /\
  (deleting k o' <-> exists cur, w k (obj_key k o) = Some cur /\ deleting k cur).

Definition wrote (k : kind) (o : obj k) (w : objects) (r : obj k + error) (w' : objects) : Prop :=
  match r with
  | inl o' => stored k o w o' /\ w' k (obj_key k o) = Some o' /\ only_wrote k (obj_key k o) w w'
  | inr e => api_error e /\ w' = w
  end.

(** The object is gone, or marked. *)
Definition deleted (k : kind) (key : ObjectKey) (w w' : objects) : Prop :=
  only_wrote k key w w' /\
  match w k key, w' k key with
  | _, None => True
  | Some o, Some o' => same_stored k o' o /\ Annotations (obj_meta k o) ⊆ Annotations (obj_meta k o') /\
      deleting k o'
  | None, Some _ => False
  end.

(** The objects that a list call finds. *)
Definition listable (cl : client) (ns : option string) (sel : labels) (k : kind) (o : obj k) : Prop :=
  in_view cl k o = true /\ sel ⊆ Labels (obj_meta k o) /\
  (forall n, ns = Some n -> Namespace (obj_meta k o) = n) /\
  (k = KNamespace -> Namespace (obj_meta k o) = "").

Lemma listable_same cl ns sel k a b : same_stored k a b -> listable cl ns sel k a -> listable cl ns sel k b.
Proof.
  intros (Hk & _ & Hl & _) (H1 & H2 & H3 & H4). unfold listable.
  assert (Namespace (obj_meta k b) = Namespace (obj_meta k a)) as -> by by injection Hk.
  rewrite <- Hl. split; [|done]. rewrite <- H1.
  destruct cl, k; try done. simpl in *. by rewrite Hl.
Qed.

Section Server.
Context {L : Lib} {LOk : LibOk L}.

(** The OCM client in place. *)
Context (ocm : option ClientOptions).

Definition stores_verbatim (w : objects) (c : call) : resp c -> objects -> Prop :=
  match c with
  | CGet cl k key => fun r w' => w' = w /\
      match r with
      | inl o => w k key = Some o /\ obj_key k o = key /\ in_view cl k o = true
      | inr e => api_error e /\
          (IsNotFound (Some e) = true -> forall o, w k key = Some o -> in_view cl k o = false)
      end
  | CList cl k ns sel => fun r w' => w' = w /\
      match r with
      | inl items => forall o, o ∈ items <-> w k (obj_key k o) = Some o /\ listable cl ns sel k o
      | inr e => api_error e
      end
  | CCreate k o => fun r w' => wrote k o w r w' /\
      match r with
      | inl _ => w k (obj_key k o) = None
      | inr e => IsAlreadyExists (Some e) = true -> w k (obj_key k o) <> None
      end
  | CUpdate k o => fun r w' => wrote k o w r w' /\ forall o', r = inl o' -> w k (obj_key k o) <> None
  | CPatch k o base => fun r w' => only_wrote k (obj_key k o) w w' /\
      (w k (obj_key k o) = Some base -> wrote k o w r w')
  | CStatusUpdate k o => fun r w' =>
      match r with
      | inl o' => exists cur, w k (obj_key k o) = Some cur /\ obj_meta k o' = obj_meta k cur /\
          same_content k o' cur /\ w' k (obj_key k o) = Some o' /\ only_wrote k (obj_key k o) w w'
      | inr e => api_error e /\ w' = w
      end
  | CDelete k key => fun r w' =>
      match r with
      | None => deleted k key w w'
      | Some e => w' = w /\ (IsNotFound (Some e) = true -> w k key = None)
      end
  | CLoadOCMClient => fun r w' => r = ocm /\ w' = w
  | c => fun _ w' => w' = w
  end.

Definition verbatim (allow : objects -> call -> Prop) : env objects :=
  mkEnv stores_verbatim allow (fun _ _ => True).

Lemma stores_read w c r w' : is_write c = false -> stores_verbatim w c r w' -> w' = w.
Proof. destruct c; simpl; intros Hc; try done; intros H; by first [apply H|done]. Qed.

(** A program that only reads leaves the cluster as it is. *)
Lemma wp_verbatim_reads {A} allow (m : prog A) h w (Q : A -> Prop) :
  (forall w c, is_write c = false -> allow w c) ->
  wp (only (fun c => is_write c = false)) m h (fun _ a => Q a) ->
  wp (verbatim allow) m w (fun w' a => w' = w /\ Q a).
Proof.
  intros Ha. revert h. induction m as [a|s|c k IH]; intros h; simpl; [done|done|].
  intros [Hc Hk]. split; [by apply Ha|]. intros r w' Hs. apply (stores_read _ _ _ _ Hc) in Hs as ->.
  by eapply IH, Hk.
Qed.

Lemma wpM_verbatim_reads {S A} allow (m : M S A) s w (Q : A -> S -> Prop) :
  (forall w c, is_write c = false -> allow w c) ->
  wpM (only (fun c => is_write c = false)) m s [] (fun _ a s' => Q a s') ->
  wpM (verbatim allow) m s w (fun w' a s' => w' = w /\ Q a s').
Proof.
  intros Ha H. eapply wp_mono; [|apply (wp_verbatim_reads allow (m s) [] w (fun '(a, s') => Q a s') Ha)].
  - by intros w' [a s'].
  - eapply wp_mono; [|exact H]. by intros h [a s'].
Qed.

(** Where writes need a cluster that is not [P], a cluster that is stays as it
    is. *)
Lemma wp_no_writes {A} (P : objects -> Prop) (m : prog A) w Q :
  P w -> wp (verbatim (fun w c => is_write c = true -> P w -> False)) m w Q ->
  wp (verbatim (fun _ c => is_write c = false)) m w (fun w' _ => w' = w).
Proof.
  intros HP. induction m as [a|s|c k IH]; simpl; [done|done|].
  intros [Hc Hk]. assert (is_write c = false) as Hr by (destruct (is_write c); [by destruct Hc|done]).
  split; [done|]. intros r w' Hs. pose proof (stores_read _ _ _ _ Hr Hs) as ->. by apply IH, Hk.
Qed.

(** *** The calls, one by one *)

Section calls.
Context {S : Type} (allow : objects -> call -> Prop).
Hypothesis Hreads : forall w c, is_write c = false -> allow w c.
Implicit Types (s : S) (w : objects).

Lemma wpM_server_get cl k key s w (Q : objects -> (obj k + error) -> S -> Prop) :
  (forall o, w k key = Some o -> obj_key k o = key -> in_view cl k o = true -> Q w (inl o) s) ->
  (forall e, api_error e ->
     (IsNotFound (Some e) = true -> forall o, w k key = Some o -> in_view cl k o = false) ->
     Q w (inr e) s) ->
  wpM (verbatim allow) (do_call (CGet cl k key)) s w Q.
Proof.
  intros H1 H2. apply wpM_call; [by apply Hreads|].
  intros [o|e] w' [-> H]; [by apply H1; apply H|by apply H2; apply H].
Qed.

Lemma wpM_server_list cl k ns sel s w (Q : objects -> (list (obj k) + error) -> S -> Prop) :
  (forall items, (forall o, o ∈ items <-> w k (obj_key k o) = Some o /\ listable cl ns sel k o) ->
     Q w (inl items) s) ->
  (forall e, api_error e -> Q w (inr e) s) ->
  wpM (verbatim allow) (do_call (CList cl k ns sel)) s w Q.
Proof.
  intros H1 H2. apply wpM_call; [by apply Hreads|]. intros [l|e] w' [-> H]; [by apply H1|by apply H2].
Qed.

Lemma wpM_server_create k o s w (Q : objects -> (obj k + error) -> S -> Prop) :
  allow w (CCreate k o) ->
  (forall o' w', w k (obj_key k o) = None -> stored k o w o' -> w' k (obj_key k o) = Some o' ->
     only_wrote k (obj_key k o) w w' -> Q w' (inl o') s) ->
  (forall e, api_error e -> (IsAlreadyExists (Some e) = true -> w k (obj_key k o) <> None) ->
     Q w (inr e) s) ->
  wpM (verbatim allow) (do_call (CCreate k o)) s w Q.
Proof.
  intros Ha H1 H2. apply wpM_call; [done|].
  intros [o'|e] w' [Hw H]; [by apply H1; try apply Hw|by destruct Hw as [He ->]; apply H2].
Qed.

Lemma wpM_server_update k o s w (Q : objects -> (obj k + error) -> S -> Prop) :
  allow w (CUpdate k o) ->
  (forall o' w', stored k o w o' -> w' k (obj_key k o) = Some o' ->
     only_wrote k (obj_key k o) w w' -> Q w' (inl o') s) ->
  (forall e, api_error e -> Q w (inr e) s) ->
  wpM (verbatim allow) (do_call (CUpdate k o)) s w Q.
Proof.
  intros Ha H1 H2. apply wpM_call; [done|].
  intros [o'|e] w' [Hw H]; [by apply H1; apply Hw|by destruct Hw as [He ->]; apply H2].
Qed.

Lemma wpM_server_delete k key s w (Q : objects -> option error -> S -> Prop) :
  allow w (CDelete k key) ->
  (forall w', deleted k key w w' -> Q w' None s) ->
  (forall e, (IsNotFound (Some e) = true -> w k key = None) -> Q w (Some e) s) ->
  wpM (verbatim allow) (do_call (CDelete k key)) s w Q.
Proof.
  intros Ha H1 H2. apply wpM_call; [done|].
  intros [e|] w' H; [by destruct H as [-> H]; apply H2|by apply H1].
Qed.
End calls.

(** ** A cluster at rest *)

(** What a controller has a stake in: the objects it wants, and the keys and
    labels by which it finds others. *)
Record stake := mkStake {
  wants : kind -> ObjectKey -> Prop;
  claims : kind -> ObjectKey -> labels -> Prop
}.
Definition claimed (st : stake) (k : kind) (key : ObjectKey) (o : obj k) : Prop :=
  claims st k key (Labels (obj_meta k o)).

Context (st : stake).

(** From [w] to [w'] nothing happened that concerns the controller: what it
    wants is kept; what it claims is kept or, when it was being deleted, is gone;
    nothing else has come to be claimed. *)
Definition still (w w' : objects) : Prop := forall k key,
  let dropped o := ~ wants st k key /\ (deleting k o \/ ~ claimed st k key o) in
  match w k key, w' k key with
  | Some o, Some o' => kept k o' o \/ (dropped o /\ ~ claimed st k key o')
  | Some o, None => dropped o
  | None, Some o' => ~ claimed st k key o'
  | None, None => True
  end.

Lemma kept_claimed k key a b : kept k a b -> claimed st k key a <-> claimed st k key b.
Proof. intros [(_ & _ & Hl & _) _]. unfold claimed. by rewrite Hl. Qed.

#[export] Instance still_preorder : PreOrder still.
Proof.
  split.
  - intros w k key. destruct (w k key); [by left|done].
  - intros w1 w2 w3 H1 H2 k key. specialize (H1 k key). specialize (H2 k key).
    cbv zeta in *.
    assert (forall a b, kept k a b -> (deleting k a \/ ~ claimed st k key a) -> deleting k b \/ ~ claimed st k key b) as Hback.
    { intros a b Hk [Hd|Hn]; [left; by apply Hk|right; by rewrite <- (kept_claimed _ _ _ _ Hk)]. }
    destruct (w1 k key) as [o1|], (w2 k key) as [o2|], (w3 k key) as [o3|]; try done.
    + destruct H1 as [H1|[[Hw Hd] Hc]], H2 as [H2|[[Hw' Hd'] Hc']].
      * left. by etrans.
      * right. split; [split; [done|by eapply Hback]|done].
      * right. split; [done|]. by rewrite (kept_claimed _ _ _ _ H2).
      * by right.
    + destruct H2 as [Hw Hd], H1 as [H1|[H1 _]]; [|done]. split; [done|by eapply Hback].
    + by right.
    + destruct H2 as [H2|[_ Hc]]; [|done]. by rewrite (kept_claimed _ _ _ _ H2).
Qed.

(** The write leaves what is stored as it is. *)
Definition unchanged (w : objects) (c : call) : Prop :=
  match c with
  | CCreate k o => w k (obj_key k o) <> None
  | CUpdate k o => exists cur, w k (obj_key k o) = Some cur /\ same_stored k o cur /\
      Annotations (obj_meta k o) = Annotations (obj_meta k cur)
  | CStatusUpdate _ _ => True
  | CDelete k key => forall o, w k key = Some o -> deleting k o /\ ~ wants st k key
  | c => is_write c = false
  end.

Lemma only_wrote_still k key w w' :
  only_wrote k key w w' ->
  match w k key, w' k key with
  | Some o, Some o' => kept k o' o
  | Some o, None => deleting k o /\ ~ wants st k key
  | None, Some o' => False
  | None, None => True
  end -> still w w'.
Proof.
  intros Hw Hk k' key'. destruct (decide (k' = k /\ key' = key)) as [[-> ->]|Hne].
  - destruct (w k key), (w' k key); naive_solver.
  - rewrite Hw by done. destruct (w k' key'); [by left|done].
Qed.

Lemma unchanged_still w c r w' :
  (is_write c = true -> unchanged w c) -> stores_verbatim w c r w' -> still w w'.
Proof.
  intros Hu Hs. destruct (is_write c) eqn:Hc; [|by rewrite (stores_read _ _ _ _ Hc Hs)].
  specialize (Hu eq_refl). destruct c as [| |k o|k o|k o|k o base|k key| | | | | | | | | | |]; try done; simpl in *.
  - destruct r as [o'|e]; [by destruct Hs|by destruct Hs as [[_ ->] _]].
  - destruct r as [o'|e]; [|by destruct Hs as [[_ ->] _]].
    destruct Hu as (cur & Hcur & Hst & Ha), Hs as [((Hst' & Ha' & Hd) & Hw & Ho) _].
    apply (only_wrote_still k (obj_key k o)); [done|]. rewrite Hcur, Hw.
    split; [by etrans|]. split; [by rewrite <- Ha|]. rewrite Hd. naive_solver.
  - destruct r as [o'|e]; [|by destruct Hs as [_ ->]]. destruct Hs as (cur & Hcur & Hm & Hk & Hw & Ho).
    apply (only_wrote_still k (obj_key k o)); [done|]. rewrite Hcur, Hw. by apply same_meta_kept.
  - destruct r as [e|]; [by destruct Hs as [-> _]|]. destruct Hs as [Ho Hs].
    apply (only_wrote_still k key); [done|]. destruct (w k key) as [o|], (w' k key) as [o'|]; try done.
    + destruct (Hu o eq_refl) as [Hd _]. destruct Hs as (H1 & H2 & H3). done.
    + by apply Hu.
Qed.

(** What every accepted call does to the cluster, the program does. *)
Lemma wp_related {A} (R : objects -> objects -> Prop) `{!PreOrder R} allow (m : prog A) w Q :
  (forall w c r w', allow w c -> stores_verbatim w c r w' -> R w w') ->
  wp (verbatim allow) m w Q -> wp (verbatim allow) m w (fun w' a => Q w' a /\ R w w').
Proof.
  intros HR. revert w. induction m as [a|s|c k IH]; intros w; simpl; [done|done|].
  intros [Hc Hk]. split; [done|]. intros r w' Hs. eapply wp_mono; [|by apply IH, Hk].
  intros w2 a [HQ H]. split; [done|]. etrans; [by eapply HR|done].
Qed.

(** A program whose writes on a cluster that is [P] leave it unchanged keeps it
    so: [b] says that it started on one. *)
Section Rest.
Context (P : objects -> Prop) (Hst : forall w w', P w -> still w w' -> P w') (allow : objects -> call -> Prop).

Lemma wp_remains {A} (b : Prop) (m : prog A) w Q :
  (forall w c, allow w c -> is_write c = true -> b /\ P w -> unchanged w c) -> (b -> P w) ->
  wp (verbatim allow) m w Q -> wp (verbatim allow) m w (fun w' a => Q w' a /\ (b -> P w')).
Proof.
  intros Hu. revert w. induction m as [a|s|c k IH]; intros w HP; simpl; [done|done|].
  intros [Hc Hk]. split; [done|]. intros r w' Hs. apply IH; [|by apply Hk].
  intros Hb. apply (Hst w); [by apply HP|]. eapply unchanged_still; [|exact Hs].
  intros Hw. apply Hu; [done|done|]. split; [done|by apply HP].
Qed.

Lemma wp_at_rest {A} (m : prog A) w Q :
  (forall w c, allow w c -> is_write c = true -> P w -> unchanged w c) -> P w ->
  wp (verbatim allow) m w Q ->
  wp (verbatim (fun w c => is_write c = true -> unchanged w c)) m w (fun w' _ => still w w').
Proof.
  intros Hu. revert w. induction m as [a|s|c k IH]; intros w HP; simpl; [done|done|].
  intros [Hc Hk]. assert (is_write c = true -> unchanged w c) as Huc by (intros Hw; by apply Hu).
  split; [done|]. intros r w' Hs. pose proof (unchanged_still w c r w' Huc Hs) as Hq.
  eapply wp_mono; [|apply IH; [by eapply Hst|by apply Hk]]. intros w2 a H. by etrans.
Qed.
End Rest.
End Server.
