(* ===== verification/Convergence.v ===== *)
(** * Convergence of the OLM reconciler

    What a second reconcile does after one that succeeded.  The server is one
    that stores what it is sent: [stores_verbatim] answers reads with the stored
    objects and stores writes with the keys, owners, labels and specifications
    they have; statuses, UIDs and annotations are its own.  Any call may fail.

    The proof is one pass over the phases in an environment that accepts a write
    only while the cluster is not [settled]; a settled cluster is then one that
    the reconciler never writes to. *)
From S2P Require Export Server.

(** Statuses may change at any time. *)
Definition undisturbed (w w' : objects) : Prop :=
  forall k key o, w k key = Some o -> exists o', w' k key = Some o' /\ same_stored k o' o.

(** ** Objects that a reconcile leaves alone *)

Section Settled.
Context {L : Lib} {LOk : LibOk L}.

(** The stored object has the wanted specification, owner and labels. *)
Definition settled_as (k : kind) (key : ObjectKey) (want : ObjectMeta) (spec : obj k -> Prop)
    (w : objects) : Prop :=
  exists o, w k key = Some o /\ HasSameController (obj_meta k o) want = true /\
    labels_Merge (Labels (obj_meta k o)) (Labels want) = Labels (obj_meta k o) /\ spec o.

Lemma settled_kept k key want spec w w' :
  w' k key = w k key -> settled_as k key want spec w -> settled_as k key want spec w'.
Proof. intros Hw (o & H & Ho). exists o. by rewrite Hw. Qed.

Lemma settled_undisturbed k key want (spec : obj k -> Prop) w w' :
  (forall a b, same_content k a b -> spec b -> spec a) -> undisturbed w w' ->
  settled_as k key want spec w -> settled_as k key want spec w'.
Proof.
  intros Hspec Hw (o & (o' & H & Hk & Hor & Hl & Hs)%Hw & Hc & Hm & Ho). exists o'.
  split; [done|]. split; [|split; [by rewrite Hl|by eapply Hspec]].
  unfold HasSameController in *. rewrite get_controller, Hor, <- get_controller. exact Hc.
Qed.

(** The metadata [m] with the Addon set as its controller. *)
Definition owned_meta (addon : Addon) (m : ObjectMeta) : ObjectMeta :=
  set_OwnerReferences [mkOwner (Name (a_Meta addon)) (UID (a_Meta addon)) true] m.
(** The metadata of an object of the Addon, with its controller set. *)
Definition wanted_meta (addon : Addon) (ns name : string) : ObjectMeta :=
  owned_meta addon (AddCommonAnnotations addon (AddCommonLabels addon (new_meta ns name))).

Lemma wanted_controller addon ns name :
  SetControllerReference (a_Meta addon)
    (AddCommonAnnotations addon (AddCommonLabels addon (new_meta ns name))) =
  inl (wanted_meta addon ns name).
Proof.
  unfold wanted_meta. destruct (AddCommonAnnotations_meta addon (AddCommonLabels addon (new_meta ns name))) as [x ->].
  by apply set_controller_fresh.
Qed.

Lemma wanted_meta_key addon ns name : meta_key (wanted_meta addon ns name) = mkKey ns name.
Proof. eapply owned_key, wanted_controller. Qed.

Lemma wanted_meta_identity a b ns name :
  same_identity a b -> wanted_meta a ns name = wanted_meta b ns name.
Proof.
  intros [Hm Hs]. unfold wanted_meta, owned_meta, AddCommonAnnotations, AddCommonLabels, common_label_writes, a_Name.
  by rewrite Hm, Hs.
Qed.

Lemma same_controller m want :
  OwnerReferences m = OwnerReferences want -> is_Some (GetControllerOf want) ->
  HasSameController m want = true.
Proof.
  intros H [ref Hr]. unfold HasSameController. assert (GetControllerOf m = Some ref) as ->.
  { rewrite <- Hr, !get_controller. by rewrite H. }
  rewrite Hr. by apply bool_decide_eq_true.
Qed.
Lemma controller_same m want :
  OwnerReferences m = OwnerReferences want -> is_Some (GetControllerOf want) ->
  HasSameController want m = true.
Proof.
  intros H [ref Hr]. unfold HasSameController. rewrite Hr. rewrite get_controller, H, <- get_controller, Hr.
  by apply bool_decide_eq_true.
Qed.
Lemma owned_controller addon m : is_Some (GetControllerOf (owned_meta addon m)).
Proof. rewrite get_controller. by eexists. Qed.

Lemma merge_again (a b : labels) : labels_Merge (labels_Merge a b) b = labels_Merge a b.
Proof. rewrite !merge_union, map_union_assoc. by rewrite map_union_idemp. Qed.

(** What a write of a wanted object leaves settled: its labels have been merged
    into the ones there were. *)
Lemma write_settles k want (spec : obj k -> Prop) l o o' w w' :
  (forall a b, same_content k a b -> spec b -> spec a) -> spec o -> is_Some (GetControllerOf want) ->
  OwnerReferences (obj_meta k o) = OwnerReferences want ->
  Labels (obj_meta k o) = labels_Merge l (Labels want) ->
  stored k o w o' -> w' k (obj_key k o) = Some o' -> settled_as k (obj_key k o) want spec w'.
Proof.
  intros Hspec Ho Hc Hor Hl ((_ & Hor' & Hl' & Hs) & _) Hw. exists o'.
  split; [done|]. split; [apply same_controller; [congruence|done]|]. split; [|by eapply Hspec].
  rewrite Hl', Hl. apply merge_again.
Qed.

Lemma merged_from_nothing (l : labels) : l = labels_Merge ∅ l.
Proof. by rewrite merge_union, map_union_empty. Qed.

Lemma only_wrote_refl k key w : only_wrote k key w w.
Proof. done. Qed.
Lemma wrote_only k o w r w' : wrote k o w r w' -> only_wrote k (obj_key k o) w w'.
Proof. destruct r; simpl; [by intros (_ & _ & H)|by intros [_ ->]]. Qed.
(** What the three checks of a reconcile of an object say. *)
Lemma checks (P Q : Prop) (a b d : bool) :
  (a = false <-> P) -> (d = true <-> Q) ->
  if a || negb b || negb d then ~ (P /\ b = true /\ Q) else P /\ b = true /\ Q.
Proof. destruct a, b, d; simpl; naive_solver. Qed.
Lemma andb_all (a b d : bool) : b && negb a && negb d = negb (a || negb b || d).
Proof. by destruct a, b, d. Qed.

Lemma spec_checked {T} `{EqDecision T} (x y : T) : negb (DeepEqual x y) = false <-> x = y.
Proof. rewrite negb_false_iff. apply deep_equal_eq. Qed.
Lemma labels_checked (x y : labels) : labels_Equals x y = true <-> y = x.
Proof. rewrite equals_eq. done. Qed.
Lemma labels_equal_to (x y : labels) : labels_Equals y x = true <-> y = x.
Proof. apply equals_eq. Qed.

(** The client finds every object but a Secret. *)
Lemma absent_unless_secret k key (w : objects) e :
  (forall o : obj k, in_view Cached k o = true) ->
  api_error e /\ (true = true -> forall o, w k key = Some o -> in_view Cached k o = false) ->
  w k key = None.
Proof.
  intros Hv [_ H]. destruct (w k key) as [o|] eqn:Ho; [|done].
  specialize (H eq_refl o eq_refl). by rewrite Hv in H.
Qed.

(** The writes of the key that leave the labels wanted. *)
Definition permits (F : objects -> call -> Prop) (k : kind) (key : ObjectKey) (want : ObjectMeta) : Prop :=
  forall w o, obj_key k o = key -> (exists l, Labels (obj_meta k o) = labels_Merge l (Labels want)) ->
    F w (CCreate k o) /\ F w (CUpdate k o).

(** The writes for one object: none when it is settled, and one that settles it
    and touches nothing else when it is not. *)
Section Writes.
Context (ocm : option ClientOptions) (F : objects -> call -> Prop) (P : objects -> Prop) (U : objects -> call -> Prop).
Notation E := (verbatim ocm (fun w c' => is_write c' = true -> F w c' /\ (P w -> U w c'))).
Context (k : kind) (key : ObjectKey) (want : ObjectMeta) (spec : obj k -> Prop).
Context (HF : permits F k key want).
Context (HP : forall w, P w -> settled_as k key want spec w).
Context (Hspec : forall a b, same_content k a b -> spec b -> spec a).
Context (Hwant : is_Some (GetControllerOf want)).

(** What is left to show after a write of [o]. *)
Definition settles (o : obj k) s w (Q : objects -> (obj k + error) -> St -> Prop) : Prop :=
  (forall o' w', only_wrote k key w w' -> same_stored k o' o -> settled_as k key want spec w' ->
     Q w' (inl o') s) /\ (forall e, api_error e -> Q w (inr e) s).

Lemma wpM_create_settled o s w Q :
  spec o -> obj_key k o = key -> OwnerReferences (obj_meta k o) = OwnerReferences want ->
  Labels (obj_meta k o) = Labels want -> w k key = None -> settles o s w Q ->
  wpM E (k8s_Create k o) s w Q.
Proof.
  intros Ho Hk Hor Hl Hw [HQ He]. apply wpM_server_create.
  - intros _. split; [|intros Hp; destruct (HP w Hp) as (x & Hx & _); congruence].
    apply HF; [done|]. exists ∅. rewrite Hl. apply merged_from_nothing.
  - rewrite Hk. intros o' w' _ Hst Hw' Hwr. apply HQ; [done|apply Hst|]. rewrite <- Hk in Hw' |- *.
    eapply (write_settles k want spec ∅ o o'); [done|done|done|done| |exact Hst|done].
    rewrite Hl. apply merged_from_nothing.
  - intros e Hae _. by apply He.
Qed.

Lemma wpM_update_settled cur o s w Q :
  spec o -> w k key = Some cur -> obj_key k cur = key ->
  obj_meta k o = set_Labels (labels_Merge (Labels (obj_meta k cur)) (Labels want))
    (set_OwnerReferences (OwnerReferences want) (obj_meta k cur)) ->
  ~ (spec cur /\ HasSameController (obj_meta k cur) want = true /\
     labels_Merge (Labels (obj_meta k cur)) (Labels want) = Labels (obj_meta k cur)) ->
  settles o s w Q -> wpM E (k8s_Update k o) s w Q.
Proof.
  intros Ho Hw Hk Hm Hno [HQ He]. assert (obj_key k o = key) as Hk'.
  { unfold obj_key. rewrite Hm. exact Hk. }
  apply wpM_server_update; [| |done].
  - intros _. split; [apply HF; [done|]; rewrite Hm; by eexists|].
    intros Hp. destruct (HP w Hp) as (x & Hx & H1 & H2 & H3). rewrite Hw in Hx. injection Hx as <-. by destruct Hno.
  - rewrite Hk'. intros o' w' Hst Hw' Hwr. apply HQ; [done|apply Hst|]. rewrite <- Hk' in Hw' |- *.
    eapply (write_settles k want spec (Labels (obj_meta k cur)) o o'); try done; by rewrite Hm.
Qed.
End Writes.
End Settled.

(** ** The objects of an Addon, settled *)

Section Objects.
Context {L : Lib} (addon : Addon) (c : AddonInstallOLMCommon).

Definition group_settled (w : objects) : Prop :=
  settled_as KOperatorGroup (mkKey (ic_Namespace c) DefaultOperatorGroupName)
    (wanted_meta addon (ic_Namespace c) DefaultOperatorGroupName)
    (fun o => og_Spec o = og_Spec (desired_operator_group addon c)) w.

Definition policy_settled (w : objects) : Prop :=
  settled_as KNetworkPolicy (mkKey (ic_Namespace c) (getCatalogSourceNetworkPolicyName addon))
    (wanted_meta addon (ic_Namespace c) (getCatalogSourceNetworkPolicyName addon))
    (fun o => np_Spec o = np_Spec (network_policy addon c)) w.

Definition source_settled (name image : string) (w : objects) : Prop :=
  settled_as KCatalogSource (mkKey (ic_Namespace c) name) (wanted_meta addon (ic_Namespace c) name)
    (fun o => cs_Spec o =
       cs_Spec (new_catalog_source addon (ic_Namespace c) name image (PullSecretName c))) w.

(** The Subscription to the package, from the Addon's CatalogSource, whatever
    its approval. *)
Definition wanted_subscription : SubscriptionSpec :=
  mkSubSpec (CatalogSourceName addon) (ic_Namespace c) (Channel c) (PackageName c)
    (createSubscriptionConfigObject c) "" "".
Definition subscription_settled (w : objects) : Prop :=
  settled_as KSubscription (mkKey (ic_Namespace c) (SubscriptionName addon))
    (wanted_meta addon (ic_Namespace c) (SubscriptionName addon))
    (fun o => exists approval, sub_Spec o = Some (with_approval approval wanted_subscription)) w.

(** The CatalogSources: a name and an image each. *)
Definition additional_sources : list (string * string) :=
  map (fun src => (acs_Name src, acs_Image src)) (AdditionalCatalogSources c).
Definition sources_settled (l : list (string * string)) (w : objects) : Prop :=
  Forall (fun '(name, image) => source_settled name image w) l.

Definition source_names : list string := CatalogSourceName addon :: map acs_Name (AdditionalCatalogSources c).

(** The keys that the reconciler writes. *)
Definition olm_keys (k : kind) (key : ObjectKey) : Prop :=
  match k with
  | KOperatorGroup => key = mkKey (ic_Namespace c) DefaultOperatorGroupName
  | KNetworkPolicy => key = mkKey (ic_Namespace c) (getCatalogSourceNetworkPolicyName addon)
  | KCatalogSource => key ∈ map (mkKey (ic_Namespace c)) source_names
  | KSubscription => key = mkKey (ic_Namespace c) (SubscriptionName addon)
  | _ => False
  end.

Definition settled (w : objects) : Prop :=
  group_settled w /\ policy_settled w /\
  sources_settled ((CatalogSourceName addon, CatalogSourceImage c) :: additional_sources) w /\
  subscription_settled w.
End Objects.

Lemma sources_named {L : Lib} addon c :
  map fst ((CatalogSourceName addon, CatalogSourceImage c) :: additional_sources c) = source_names addon c.
Proof. unfold source_names, additional_sources. simpl. by rewrite map_map. Qed.

Section Phases.
Context {L : Lib} {LOk : LibOk L}.
Context (ocm : option ClientOptions).
Context (addon : Addon) (c : AddonInstallOLMCommon) (Hc : parsed addon = Some c).
(** Clusters in which nothing is left to do, and the writes accepted there. *)
Context (P : objects -> Prop) (HPset : forall w, P w -> settled addon c w).
Context (U : objects -> call -> Prop).
(** The writes accepted anywhere. *)
Context (F : objects -> call -> Prop) (HF : forall k key want, olm_keys addon c k key -> permits F k key want).
Notation E := (verbatim ocm (fun w c' => is_write c' = true -> F w c' /\ (P w -> U w c'))).

Lemma settled_reads w c' : is_write c' = false -> env_allow E w c'.
Proof. simpl. congruence. Qed.

Lemma reconcileOperatorGroup_settles s w :
  wpM E (reconcileOperatorGroup (mkOG (wanted_meta addon (ic_Namespace c) DefaultOperatorGroupName)
      (og_Spec (desired_operator_group addon c)))) s w
    (fun w' e s' => s' = s /\ only_wrote KOperatorGroup (mkKey (ic_Namespace c) DefaultOperatorGroupName) w w' /\
       (e = None -> group_settled addon c w')).
Proof.
  set (spec := fun o => og_Spec o = og_Spec (desired_operator_group addon c)).
  assert (forall a b, same_content KOperatorGroup a b -> spec b -> spec a) as Hspec by (unfold spec; simpl; congruence).
  assert (forall w, P w -> group_settled addon c w) as HP by (intros w' Hw'%HPset; apply Hw').
    unfold reconcileOperatorGroup. cbn [og_Meta og_Spec]. rewrite wanted_meta_key. apply wpM_bind, wpM_call.
  { by apply settled_reads. }
  intros [cur|e] w1 [-> H].
  - pose proof (checks _ _ _ (HasSameController (og_Meta cur)
      (wanted_meta addon (ic_Namespace c) DefaultOperatorGroupName)) _
      (spec_checked (og_Spec cur) (og_Spec (desired_operator_group addon c)))
      (labels_checked (Labels (og_Meta cur)) (labels_Merge (Labels (og_Meta cur))
        (Labels (wanted_meta addon (ic_Namespace c) DefaultOperatorGroupName))))) as Hchk.
    destruct (_ || _).
    + eapply wpM_bind, (wpM_update_settled ocm F P U KOperatorGroup _ _ spec (HF KOperatorGroup _ _ eq_refl) HP Hspec (owned_controller _ _) cur);
        [done|apply H|apply H|done|exact Hchk|].
      split; [intros o' w' Hw _ Hset|intros e _]; by apply wpM_pure.
    + split; [done|]. split; [done|]. intros _. exists cur. split; [apply H|].
      destruct Hchk as (H1 & H2 & H3). done.
  - destruct (IsNotFound (Some e)) eqn:Hnf; [|by apply wpM_pure]. apply wpM_bind.
    eapply (wpM_create_settled ocm F P U KOperatorGroup _ _ spec (HF KOperatorGroup _ _ eq_refl) HP Hspec (owned_controller _ _));
      [done|apply wanted_meta_key|done|done|by eapply absent_unless_secret|].
    split; [intros o' w' Hw _ Hset|intros e' _]; by apply wpM_pure.
Qed.
(** What depends on the metadata and the specification of the Addon only. *)
Lemma desired_operator_group_identity a : same_identity a addon ->
  desired_operator_group a c = desired_operator_group addon c.
Proof. clear Hc HPset HF. intros [Hm Hs]. destruct a, addon. simpl in *. by subst. Qed.
Lemma network_policy_identity a : same_identity a addon -> network_policy a c = network_policy addon c.
Proof. clear Hc HPset HF. intros [Hm Hs]. destruct a, addon. simpl in *. by subst. Qed.
Lemma policy_name_identity a : same_identity a addon ->
  getCatalogSourceNetworkPolicyName a = getCatalogSourceNetworkPolicyName addon.
Proof. intros [Hm _]. unfold getCatalogSourceNetworkPolicyName, a_Name. by rewrite Hm. Qed.
Lemma source_identity a name image pull : same_identity a addon ->
  new_catalog_source a (ic_Namespace c) name image pull =
  new_catalog_source addon (ic_Namespace c) name image pull.
Proof. clear Hc HPset HF. intros [Hm Hs]. destruct a, addon. simpl in *. by subst. Qed.
Lemma names_identity a : same_identity a addon ->
  CatalogSourceName a = CatalogSourceName addon /\ SubscriptionName a = SubscriptionName addon.
Proof. intros [Hm _]. unfold CatalogSourceName, SubscriptionName, a_Name. by rewrite Hm. Qed.

Lemma wpM_parse_here s w (Q : objects -> option AddonInstallOLMCommon -> St -> Prop) :
  same_identity (st_addon s) addon -> Q w (Some c) s -> wpM E parseAddonInstallConfig s w Q.
Proof. by apply wpM_parse_config. Qed.

Lemma ensureOperatorGroup_settles s w :
  same_identity (st_addon s) addon ->
  wpM E ensureOperatorGroup s w (fun w' r s' => same_identity (st_addon s') addon /\
    only_wrote KOperatorGroup (mkKey (ic_Namespace c) DefaultOperatorGroupName) w w' /\
    (r = (resultNil, None) -> group_settled addon c w')).
Proof.
  intros Hs. unfold ensureOperatorGroup. apply wpM_bind, wpM_parse_here; [done|].
  apply wpM_bind, wpM_get_addon. rewrite desired_operator_group_identity by done.
  rewrite (proj1 Hs). unfold desired_operator_group at 1. cbn [og_Meta].
  rewrite wanted_controller. apply wpM_bind. eapply wpM_mono; [apply reconcileOperatorGroup_settles|].
  intros w' e s' (-> & Hw & He). apply wpM_pure. split; [done|]. split; [done|].
  intros [= ->]. by apply He.
Qed.

Lemma ensureCatalogSourcesNetworkPolicy_settles s w :
  same_identity (st_addon s) addon ->
  wpM E ensureCatalogSourcesNetworkPolicy s w (fun w' r s' => same_identity (st_addon s') addon /\
    only_wrote KNetworkPolicy (mkKey (ic_Namespace c) (getCatalogSourceNetworkPolicyName addon)) w w' /\
    (r = (resultNil, None) -> policy_settled addon c w')).
Proof.
  set (name := getCatalogSourceNetworkPolicyName addon).
  set (spec := fun o => np_Spec o = np_Spec (network_policy addon c)).
  assert (forall a b, same_content KNetworkPolicy a b -> spec b -> spec a) as Hspec by (unfold spec; simpl; congruence).
  assert (forall w, P w -> policy_settled addon c w) as HP by (intros w' Hw'%HPset; apply Hw').
  intros Hs. unfold ensureCatalogSourcesNetworkPolicy, desiredCatalogSourcesNetworkPolicy,
    actualCatalogSourcesNetworkPolicy. apply wpM_bind, wpM_bind, wpM_parse_here; [done|].
  apply wpM_bind, wpM_get_addon. rewrite network_policy_identity by done. rewrite (proj1 Hs).
  unfold network_policy at 1. cbn [np_Meta]. rewrite wanted_controller.
  apply wpM_pure, wpM_bind, wpM_bind, wpM_parse_here; [done|]. apply wpM_bind, wpM_get_addon.
  rewrite policy_name_identity by done. fold name. apply wpM_bind, wpM_call.
  { by apply settled_reads. }
  intros [cur|e] w1 [-> H]; apply wpM_pure.
  - cbn [np_Meta np_Spec]. pose proof (checks _ _ _ (HasSameController (np_Meta cur) (wanted_meta addon (ic_Namespace c) name)) _
      (spec_checked (np_Spec cur) (np_Spec (network_policy addon c)))
      (labels_checked (Labels (np_Meta cur)) (labels_Merge (Labels (np_Meta cur))
        (Labels (wanted_meta addon (ic_Namespace c) name))))) as Hchk.
    rewrite (andb_all _ _ _). destruct (_ || _); simpl negb; cbv iota.
    + eapply wpM_bind, (wpM_update_settled ocm F P U KNetworkPolicy _ _ spec (HF KNetworkPolicy _ _ eq_refl) HP Hspec (owned_controller _ _) cur);
        [done|apply H|apply H|done|exact Hchk|].
      split; [intros o' w' Hw _ Hset|intros e _]; by apply wpM_pure.
    + split; [done|]. split; [done|]. intros _. exists cur. split; [apply H|].
      destruct Hchk as (H1 & H2 & H3). done.
  - destruct (errors_Is _ _); [by apply wpM_pure|]. rewrite not_found_wrap.
    destruct (IsNotFound (Some e)) eqn:Hnf; [|by apply wpM_pure].
    apply wpM_bind.
    eapply (wpM_create_settled ocm F P U KNetworkPolicy _ _ spec (HF KNetworkPolicy _ _ eq_refl) HP Hspec (owned_controller _ _));
      [done|apply wanted_meta_key|done|done|by eapply absent_unless_secret|].
    split; [intros o' w' Hw _ Hset|intros e' _]; by apply wpM_pure.
Qed.

(** ** The CatalogSources *)

Lemma settled_source name image w :
  (name, image) ∈ (CatalogSourceName addon, CatalogSourceImage c) :: additional_sources c ->
  settled addon c w -> source_settled addon c name image w.
Proof. intros Hin (_ & _ & Hl & _). apply (proj1 (Forall_forall _ _) Hl _ Hin). Qed.

(** A CatalogSource of the Addon, as the code builds it. *)
Definition owned_source (name image : string) : CatalogSource :=
  mkCS (wanted_meta addon (ic_Namespace c) name)
    (cs_Spec (new_catalog_source addon (ic_Namespace c) name image (PullSecretName c))) None.

Lemma reconcileCatalogSource_settles name image s w :
  (name, image) ∈ (CatalogSourceName addon, CatalogSourceImage c) :: additional_sources c ->
  wpM E (reconcileCatalogSource (owned_source name image)) s w
    (fun w' r s' => s' = s /\ only_wrote KCatalogSource (mkKey (ic_Namespace c) name) w w' /\
       forall o, r = inl o -> source_settled addon c name image w' /\
         meta_key (cs_Meta o) = mkKey (ic_Namespace c) name).
Proof.
  intros Hin. assert (olm_keys addon c KCatalogSource (mkKey (ic_Namespace c) name)) as Hkey.
  { apply list_elem_of_fmap. exists name. split; [done|]. rewrite <- (sources_named addon c).
    apply list_elem_of_fmap. by exists (name, image). }
  set (spec := fun o => cs_Spec o = cs_Spec (owned_source name image)).
  assert (forall a b, same_content KCatalogSource a b -> spec b -> spec a) as Hspec by (unfold spec; simpl; congruence).
  assert (forall w, P w -> settled_as KCatalogSource (mkKey (ic_Namespace c) name)
    (wanted_meta addon (ic_Namespace c) name) spec w) as HP by (intros w' Hw'%HPset; by eapply settled_source).
  unfold reconcileCatalogSource. cbn [owned_source cs_Meta cs_Spec]. rewrite wanted_meta_key.
  apply wpM_bind, wpM_call; [by apply settled_reads|]. intros [cur|e] w1 [-> H].
  - pose proof (checks _ _ _ (HasSameController (cs_Meta cur) (wanted_meta addon (ic_Namespace c) name)) _
      (spec_checked (cs_Spec (owned_source name image)) (cs_Spec cur))
      (labels_equal_to (Labels (cs_Meta cur)) (labels_Merge (Labels (cs_Meta cur))
        (Labels (wanted_meta addon (ic_Namespace c) name))))) as Hchk.
    cbn [owned_source cs_Meta cs_Spec] in Hchk. destruct (_ || _).
    + eapply (wpM_update_settled ocm F P U KCatalogSource _ _ spec (HF KCatalogSource _ _ Hkey) HP Hspec (owned_controller _ _) cur); [done|apply H|apply H|done| |].
      * intros (H1 & H2). apply Hchk. split; [by symmetry|done].
      * split; [|done]. intros o' w' Hw (Hk & _) Hset. split; [done|]. split; [done|]. intros x [= <-].
        split; [done|]. unfold obj_key in Hk. simpl in Hk. rewrite Hk. apply H.
    + split; [done|]. split; [done|]. intros o [= <-]. destruct Hchk as (H1 & H2 & H3). split; [|apply H].
      exists cur. split; [apply H|done].
  - destruct (IsNotFound (Some e)) eqn:Hnf; [|by apply wpM_pure].
    eapply (wpM_create_settled ocm F P U KCatalogSource _ _ spec (HF KCatalogSource _ _ Hkey) HP Hspec (owned_controller _ _));
      [done|apply wanted_meta_key|done|done|by eapply absent_unless_secret|].
    split; [|done]. intros o' w' Hw (Hk & _) Hset. split; [done|]. split; [done|]. intros x [= <-].
    split; [done|]. unfold obj_key in Hk. simpl in Hk. by rewrite Hk, wanted_meta_key.
Qed.

Lemma wpM_settled_report f s w (Q : objects -> unit -> St -> Prop) :
  (forall now, Q w tt (with_addon (f now) s)) -> wpM E (report f) s w Q.
Proof. intros H. apply wpM_report; [by apply settled_reads|]. intros now w' Hw. by rewrite Hw. Qed.

Lemma ensureCatalogSource_settles s w :
  same_identity (st_addon s) addon ->
  wpM E ensureCatalogSource s w (fun w' r s' => same_identity (st_addon s') addon /\
    only_wrote KCatalogSource (mkKey (ic_Namespace c) (CatalogSourceName addon)) w w' /\
    forall cs, r = (resultNil, cs, None) ->
      source_settled addon c (CatalogSourceName addon) (CatalogSourceImage c) w' /\
      exists o, cs = Some o /\ meta_key (cs_Meta o) = mkKey (ic_Namespace c) (CatalogSourceName addon)).
Proof.
  intros Hs. unfold ensureCatalogSource. apply wpM_bind, wpM_parse_here; [done|].
  apply wpM_bind, wpM_get_addon. rewrite source_identity by done. rewrite (proj1 (names_identity _ Hs)), (proj1 Hs).
  unfold new_catalog_source at 1. cbn [cs_Meta]. rewrite wanted_controller. apply wpM_bind.
  eapply wpM_mono; [apply (reconcileCatalogSource_settles (CatalogSourceName addon) (CatalogSourceImage c)); left|].
  intros w' [o|e] s' (-> & Hw & Ho); [|by apply wpM_pure]. destruct (connection_message o).
  - apply wpM_bind, wpM_settled_report. intros now. by apply wpM_pure.
  - apply wpM_pure. split; [done|]. split; [done|]. intros cs [= <-]. destruct (Ho o eq_refl). by eauto.
Qed.

(** Only CatalogSources of these names changed. *)
Definition only_wrote_sources (names : list string) (w w' : objects) : Prop :=
  forall k key, ~ (k = KCatalogSource /\ exists name, name ∈ names /\ key = mkKey (ic_Namespace c) name) ->
    w' k key = w k key.

Lemma ensure_additional_settles l s w :
  (forall src, src ∈ l -> src ∈ AdditionalCatalogSources c) -> NoDup (map acs_Name l) ->
  same_identity (st_addon s) addon ->
  wpM E (ensure_additional (ic_Namespace c) (PullSecretName c) l) s w
    (fun w' r s' => same_identity (st_addon s') addon /\ only_wrote_sources (map acs_Name l) w w' /\
       (r = (resultNil, None) ->
          sources_settled addon c (map (fun src => (acs_Name src, acs_Image src)) l) w')).
Proof.
  revert s w. induction l as [|src l IH]; intros s w Hl Hd Hs; cbn [ensure_additional map].
  { apply wpM_pure. split; [done|]. split; [done|]. intros _. constructor. }
  inversion Hd as [|? ? Hnot Hd']; subst. apply wpM_bind, wpM_get_addon.
  rewrite source_identity by done. rewrite (proj1 Hs). unfold new_catalog_source at 1. cbn [cs_Meta].
  rewrite wanted_controller. apply wpM_bind.
  eapply wpM_mono; [apply (reconcileCatalogSource_settles (acs_Name src) (acs_Image src))|].
  { right. apply list_elem_of_fmap. exists src. split; [done|]. apply Hl. left. }
  intros w1 r s1 (-> & Hw & Hr).
  assert (only_wrote_sources (acs_Name src :: map acs_Name l) w w1) as Hw1.
  { intros k key Hk. apply Hw. intros [-> ->]. apply Hk. split; [done|]. eexists. split; [left|done]. }
  destruct r as [o|e]; [|by apply wpM_pure]. destruct (Hr o eq_refl) as [Hset _].
  destruct (connection_message o).
  { apply wpM_bind, wpM_settled_report. intros now. by apply wpM_pure. }
  eapply wpM_mono; [apply IH; [|done|done]|].
  { intros x Hx. apply Hl. by right. }
  intros w2 r s2 (Hs2 & Hw2 & Hr2). split; [done|]. split.
  - intros k key Hk. rewrite Hw2; [by apply Hw1|]. intros [-> (name & Hn & ->)]. apply Hk. split; [done|].
    exists name. split; [by right|done].
  - intros Hz. constructor; [|by apply Hr2]. destruct Hset as (x & Hx & Hx'). exists x. split; [|done].
    rewrite Hw2; [done|]. intros [_ (name & Hn & [= <-])]. done.
Qed.

Lemma check_additional_settles msg l acc s w Q :
  Q w (Some (acc ++ l)) s ->
  (forall s', same_identity (st_addon s') (st_addon s) -> Q w None s') ->
  wpM E (check_additional msg l acc) s w Q.
Proof.
  revert acc. induction l as [|x l IH]; intros acc H1 H2; simpl; [by rewrite app_nil_r in H1|].
  destruct (_ || _).
  - apply wpM_bind, wpM_settled_report. intros now. by apply wpM_pure, H2.
  - apply IH; [|done]. by rewrite <- app_assoc.
Qed.

Lemma ensureAdditionalCatalogSources_settles s w :
  NoDup (map acs_Name (AdditionalCatalogSources c)) -> same_identity (st_addon s) addon ->
  wpM E ensureAdditionalCatalogSources s w (fun w' r s' => same_identity (st_addon s') addon /\
    only_wrote_sources (map acs_Name (AdditionalCatalogSources c)) w w' /\
    (r = (resultNil, None) -> sources_settled addon c (additional_sources c) w')).
Proof.
  intros Hd Hs. unfold ensureAdditionalCatalogSources, HasAdditionalCatalogSources,
    parseAddonInstallConfigForAdditionalCatalogSources.
  apply wpM_bind, wpM_get_addon, wpM_bind. simpl. rewrite (proj2 Hs).
  destruct (parsed_cases addon c Hc) as [[Ht Hi]|(Ho & Ht & Hi)]; rewrite Ht, Hi; simpl.
  all: apply wpM_pure; destruct (bool_decide (0 < _)) eqn:Hl; simpl.
  2,4: apply wpM_pure; split; [done|]; split; [done|]; intros _; bools; unfold additional_sources;
    destruct (AdditionalCatalogSources c); [constructor|simpl in *; lia].
  all: apply wpM_bind, wpM_bind, wpM_get_addon; simpl; rewrite (proj2 Hs), Ht, Hi; simpl.
  all: apply wpM_bind, wpM_pure, wpM_bind, check_additional_settles; simpl;
    [by apply wpM_pure, ensure_additional_settles|].
  all: intros s' Hs'; apply wpM_pure, wpM_pure; split; [by rewrite Hs'|done].
Qed.

(** ** The Subscription *)

Lemma approval_checked (cur : SubscriptionSpec) :
  negb (DeepEqual (Some (with_approval (sub_InstallPlanApproval cur) (wanted_subscription addon c)))
    (Some cur)) = false <->
  exists approval, Some cur = Some (with_approval approval (wanted_subscription addon c)).
Proof.
  rewrite spec_checked. split; [by intros <-; eexists|]. by intros [a [= ->]].
Qed.

Lemma reconcileSubscription_settles s w :
  wpM E (reconcileSubscription (wanted_meta addon (ic_Namespace c) (SubscriptionName addon))
      (wanted_subscription addon c)) s w
    (fun w' r s' => s' = s /\ only_wrote KSubscription (mkKey (ic_Namespace c) (SubscriptionName addon)) w w' /\
       forall o, r = inl o -> subscription_settled addon c w').
Proof.
  set (name := SubscriptionName addon).
  set (spec := fun o => exists a, sub_Spec o = Some (with_approval a (wanted_subscription addon c))).
  assert (forall a b, same_content KSubscription a b -> spec b -> spec a) as Hspec.
  { intros a b Hab [x Hx]. exists x. by rewrite <- Hx. }
  assert (forall w, P w -> settled_as KSubscription (mkKey (ic_Namespace c) name)
    (wanted_meta addon (ic_Namespace c) name) spec w) as HP by (intros w' Hw'%HPset; apply Hw').
  unfold reconcileSubscription, GetSubscription.
  change (mkKey (Namespace (wanted_meta addon (ic_Namespace c) name)) (Name (wanted_meta addon (ic_Namespace c) name)))
    with (meta_key (wanted_meta addon (ic_Namespace c) name)).
  rewrite wanted_meta_key.
  apply wpM_bind, wpM_call; [by apply settled_reads|]. intros [cur|e] w1 [-> H].
  - apply wpM_bind, wpM_deref; [|done]. intros sp Hsp.
    pose proof (checks _ _ _ (HasSameController (sub_Meta cur) (wanted_meta addon (ic_Namespace c) name)) _
      (approval_checked sp) (labels_checked (Labels (sub_Meta cur)) (labels_Merge (Labels (sub_Meta cur))
        (Labels (wanted_meta addon (ic_Namespace c) name))))) as Hchk.
    rewrite Hsp. destruct (_ || _).
    + eapply (wpM_update_settled ocm F P U KSubscription _ _ spec (HF KSubscription _ _ eq_refl) HP Hspec (owned_controller _ _) cur);
        [by eexists|apply H|apply H|done| |].
      * intros ([a Ha] & H2). apply Hchk. split; [|done]. exists a. by rewrite <- Hsp.
      * split; [|done]. intros o' w' Hw _ Hset. split; [done|]. by split.
    + split; [done|]. split; [done|]. intros o [= <-]. destruct Hchk as ([a Ha] & H2 & H3).
      exists cur. split; [apply H|]. split; [done|]. split; [done|]. exists a. by rewrite Hsp.
  - destruct (IsNotFound (Some e)) eqn:Hnf; [|by apply wpM_pure].
    eapply (wpM_create_settled ocm F P U KSubscription _ _ spec (HF KSubscription _ _ eq_refl) HP Hspec (owned_controller _ _));
      [by exists ""|apply wanted_meta_key|done|done|by eapply absent_unless_secret|].
    split; [|done]. intros o' w' Hw _ Hset. split; [done|]. by split.
Qed.

Lemma ensureSubscription_settles cs s w :
  meta_key (cs_Meta cs) = mkKey (ic_Namespace c) (CatalogSourceName addon) ->
  same_identity (st_addon s) addon ->
  wpM E (ensureSubscription (Some cs)) s w (fun w' r s' => same_identity (st_addon s') addon /\
    only_wrote KSubscription (mkKey (ic_Namespace c) (SubscriptionName addon)) w w' /\
    forall key, r = (resultNil, key, None) -> subscription_settled addon c w').
Proof.
  intros Hk Hs. unfold ensureSubscription. apply wpM_bind, wpM_get_addon.
  assert (parsed (st_addon s) = Some c) as Hc' by by rewrite Hs.
  rewrite (parsed_common _ _ Hc'). apply wpM_bind, wpM_pure.
  rewrite wanted_controller, (wanted_meta_identity _ addon) by done. rewrite (proj2 (names_identity _ Hs)).
  assert (desired_subscription_spec c cs = wanted_subscription addon c) as ->.
  { unfold desired_subscription_spec, wanted_subscription. injection Hk as -> ->. done. }
  apply wpM_bind. eapply wpM_mono; [apply reconcileSubscription_settles|].
  intros w' [o|e] s' (-> & Hw & Ho); [|by apply wpM_pure]. specialize (Ho o eq_refl).
  destruct (_ || _); [|by apply wpM_pure]. apply wpM_bind, wpM_settled_report. intros now. by apply wpM_pure.
Qed.

(** ** The observation only reads *)

Lemma observe_reads csvKey s :
  wpM (only (fun c => is_write c = false)) (observeOperatorResource csvKey) s []
    (fun _ _ s' => same_identity (st_addon s') (st_addon s)).
Proof.
  unfold observeOperatorResource, GetSubscription, install_plan_pending, GetInstallPlan,
    generateOperatorResourceName, observe_csv, handleInstalledCondition, handleMissingCSV,
    deleteConfigMapPresent, handleInstallAck, isAddonInstanceInstalled, report_csv_phase,
    GetCommonInstallOptions.
  unfold only. wp_run; split; unfold reportUninstalledCondition, reportAddonUpgradeSucceeded;
    by repeat case_match.
Qed.

(** ** The phases in order *)

(** What the phases before the CatalogSources settle. *)
Definition network_settled (w : objects) : Prop := group_settled addon c w /\ policy_settled addon c w.
Lemma network_settled_kept w w' :
  (forall key, w' KOperatorGroup key = w KOperatorGroup key) ->
  (forall key, w' KNetworkPolicy key = w KNetworkPolicy key) -> network_settled w -> network_settled w'.
Proof. intros H1 H2 [Hg Hp]. split; (eapply settled_kept; [|eassumption]); auto. Qed.

(** The kinds that the reconciler writes. *)
Definition olm_region : region :=
  fun k _ => match k with KOperatorGroup | KNetworkPolicy | KCatalogSource | KSubscription => True | _ => False end.

Lemma olm_subscription_phases_settle cs s w :
  meta_key (cs_Meta cs) = mkKey (ic_Namespace c) (CatalogSourceName addon) ->
  same_identity (st_addon s) addon -> network_settled w ->
  sources_settled addon c ((CatalogSourceName addon, CatalogSourceImage c) :: additional_sources c) w ->
  wpM E (olm_subscription_phases (Some cs)) s w (fun w' r s' => same_identity (st_addon s') addon /\
    changed_in olm_region w w' /\ (r = (resultNil, None) -> settled addon c w')).
Proof.
  intros Hk Hs Hn Hcs. unfold olm_subscription_phases. apply wpM_bind.
  eapply wpM_mono; [by apply ensureSubscription_settles|].
  intros w1 [[res key] [e|]] s1 (Hs1 & Hw1 & Hr).
  all: assert (changed_in olm_region w w1) as Hc1 by (eapply only_wrote_changed; [|exact Hw1]; done).
  1: by apply wpM_pure.
  destruct (IsZero res) eqn:Hz; simpl; [|by apply wpM_pure; split; [done|]; split; [done|]; intros [= ->]].
  apply IsZero_true in Hz as ->. specialize (Hr key eq_refl). apply wpM_bind.
  eapply wpM_mono; [apply wpM_verbatim_reads; [apply settled_reads|apply observe_reads]|].
  assert (settled addon c w1) as Hset.
  { apply (network_settled_kept _ w1) in Hn as [Hg Hp]; [|intros; apply Hw1; by intros [? _]..].
    split; [done|]. split; [done|]. split; [|done].
    eapply Forall_impl; [exact Hcs|]. intros [name image]. apply settled_kept, Hw1. by intros [? _]. }
  intros w2 [res [e|]] s2 [-> Hs2]; [apply wpM_pure; split; [by rewrite Hs2|done]|].
  destruct (IsZero res) eqn:Hz; simpl; [|by apply wpM_pure; split; [by rewrite Hs2|split; [done|intros [= ->]]]].
  apply wpM_bind, wpM_modify_addon, wpM_pure. split; [by rewrite <- Hs1, <- Hs2|done].
Qed.

Lemma olm_settles s w :
  NoDup (source_names addon c) -> same_identity (st_addon s) addon ->
  wpM E olm_Reconcile s w (fun w' r s' => same_identity (st_addon s') addon /\
    changed_in olm_region w w' /\ (r = (resultNil, None) -> settled addon c w')).
Proof.
  intros Hd Hs. inversion Hd as [|? ? Hmain Hd']; subst. unfold olm_Reconcile. apply wpM_bind.
  eapply wpM_mono; [by apply ensureOperatorGroup_settles|].
  intros w1 [res [e|]] s1 (Hs1 & Hw1 & Hr1).
  all: assert (changed_in olm_region w w1) as Hc1 by (eapply only_wrote_changed; [|exact Hw1]; done).
  1: by apply wpM_pure.
  destruct (IsZero res) eqn:Hz; simpl; [|by apply wpM_pure; split; [done|]; split; [done|]; intros [= ->]].
  apply IsZero_true in Hz as ->. specialize (Hr1 eq_refl). apply wpM_bind.
  eapply wpM_mono; [by apply ensureCatalogSourcesNetworkPolicy_settles|].
  intros w2 [res [e|]] s2 (Hs2 & Hw2 & Hr2).
  all: assert (changed_in olm_region w w2) as Hc2 by (etrans; [exact Hc1|]; eapply only_wrote_changed; [|exact Hw2]; done).
  1: by apply wpM_pure.
  destruct (IsZero res) eqn:Hz; simpl; [|by apply wpM_pure; split; [done|]; split; [done|]; intros [= ->]].
  apply IsZero_true in Hz as ->. specialize (Hr2 eq_refl). apply wpM_bind.
  assert (network_settled w2) as Hn.
  { split; [|done]. eapply settled_kept; [|exact Hr1]. apply Hw2. by intros [? _]. }
  eapply wpM_mono; [by apply ensureCatalogSource_settles|].
  intros w3 [[res cs] [e|]] s3 (Hs3 & Hw3 & Hr3).
  all: assert (changed_in olm_region w w3) as Hc3 by (etrans; [exact Hc2|]; eapply only_wrote_changed; [|exact Hw3]; done).
  1: by apply wpM_pure.
  destruct (IsZero res) eqn:Hz; simpl; [|by apply wpM_pure; split; [done|]; split; [done|]; intros [= ->]].
  apply IsZero_true in Hz as ->. destruct (Hr3 cs eq_refl) as (Hsrc & o & -> & Hk).
  apply (network_settled_kept _ w3) in Hn; [|intros; apply Hw3; by intros [? _]..].
  apply wpM_bind. eapply wpM_mono; [by apply ensureAdditionalCatalogSources_settles|].
  intros w4 [res [e|]] s4 (Hs4 & Hw4 & Hr4).
  all: assert (changed_in olm_region w w4) as Hc4 by (etrans; [exact Hc3|];
    intros k key Hno; apply Hw4; by intros [-> _]).
  1: by apply wpM_pure.
  destruct (IsZero res) eqn:Hz; simpl; [|by apply wpM_pure; split; [done|]; split; [done|]; intros [= ->]].
  apply IsZero_true in Hz as ->. eapply wpM_mono; [apply olm_subscription_phases_settle; [done|done| |]|].
  - eapply network_settled_kept; [..|exact Hn]; intros; apply Hw4; by intros [? _].
  - constructor; [|by apply Hr4]. eapply settled_kept; [|exact Hsrc].
    apply Hw4. intros [_ (name & Hname & [= <-])]. done.
  - intros w5 r s5 (Hs5 & Hc5 & Hr5). split; [done|]. split; [by etrans|done].
Qed.

Lemma settled_again w w' : undisturbed w w' -> settled addon c w -> settled addon c w'.
Proof.
  intros Hu (H1 & H2 & H3 & H4). split; [|split; [|split]].
  - eapply settled_undisturbed; [|done|exact H1]. simpl. congruence.
  - eapply settled_undisturbed; [|done|exact H2]. simpl. congruence.
  - eapply Forall_impl; [exact H3|]. intros [name image]. apply settled_undisturbed; [|done]. simpl. congruence.
  - eapply settled_undisturbed; [|done|exact H4]. simpl. intros a b Hab [x Hx]. exists x. congruence.
Qed.
End Phases.

Section ConvergenceTheorem.
Context {L : Lib} {LOk : LibOk L}.

(** C16: The OLM reconciler converges.  On a server that stores what it is sent,
    for an Addon whose CatalogSources have different names: after a run that
    returned the zero result, whatever calls failed before, another run for
    the same metadata and specification writes nothing, whatever happened to
    statuses and to objects of others in between, and whichever of its calls
    fail. *)
Theorem olm_converges (ocm : option ClientOptions) (addon : Addon) (c : AddonInstallOLMCommon) (s : St) (w : objects) :
  parsed addon = Some c -> NoDup (source_names addon c) -> same_identity (st_addon s) addon ->
  wpM (verbatim ocm (fun _ _ => True)) olm_Reconcile s w (fun w' r _ => r = (resultNil, None) ->
    forall s2 w2, same_identity (st_addon s2) addon -> undisturbed w' w2 ->
      wpM (verbatim ocm (fun _ c => is_write c = false)) olm_Reconcile s2 w2 (fun w3 _ _ => w3 = w2)).
Proof.
  intros Hc Hd Hs.
  assert (forall s w, same_identity (st_addon s) addon -> _) as Hsettles
    by exact (fun s w => olm_settles ocm addon c Hc (settled addon c) (fun _ H => H) (fun _ _ => False)
      (fun _ _ => True) (fun _ _ _ _ _ _ _ _ => conj I I) s w Hd).
  eapply wpM_mono; [eapply wp_allow_mono; [|by apply Hsettles]; done|].
  intros w' r s' (_ & _ & Hr) Hz s2 w2 Hs2 Hu. specialize (Hr Hz). apply (settled_again _ _ _ _ Hu) in Hr.
  eapply wp_mono; [|eapply wp_no_writes; [exact Hr|]; eapply wp_allow_mono; [|by apply Hsettles]].
  2: { intros w1 c1 H1 Hw HP. by apply H1. }
  by intros w3 [a s3].
Qed.

(** The names have to differ: no cluster is settled for an Addon with two
    CatalogSources of one name and different images, so that the reconciler may
    write again after every run. *)
Theorem colliding_sources_never_settle (addon : Addon) (c : AddonInstallOLMCommon)
    (name image image' : string) (w : objects) :
  let l := (CatalogSourceName addon, CatalogSourceImage c) :: additional_sources c in
  (name, image) ∈ l -> (name, image') ∈ l -> image <> image' -> ~ settled addon c w.
Proof.
  intros l H1 H2 Hne Hw. destruct (settled_source _ _ _ _ _ H1 Hw) as (o1 & Ho1 & _ & _ & Hs1).
  destruct (settled_source _ _ _ _ _ H2 Hw) as (o2 & Ho2 & _ & _ & Hs2). simplify_eq.
  rewrite Hs1 in Hs2. injection Hs2. done.
Qed.
End ConvergenceTheorem.
