(* ===== verification/MonitoringProofs.v ===== *)
(** * Theorems about monitoring federation and the MonitoringStack *)
From S2P Require Export Monitoring OlmProofs.

(** ** What the federation reconciler writes *)

Section Federation.
Context {L : Lib} {LOk : LibOk L}.
Variable opns : string.
Context (addon : Addon).

Definition prom_token_key : ObjectKey := mkKey opns "addon-operator-prom-token".

(** The ServiceMonitors listed by the labels of the Addon. *)
Definition listed_monitors (h : history) (l : list ServiceMonitor) : Prop :=
  Ev (CList Cached KServiceMonitor None (CommonLabelsAsLabelSelector addon))
    (inl (l : list (obj KServiceMonitor))) ∈ h.

(** The deletion of a ServiceMonitor was accepted, or found nothing. *)
Definition monitor_gone (h : history) (sm : ServiceMonitor) : Prop :=
  exists e, Ev (CDelete KServiceMonitor (meta_key (sm_Meta sm))) e ∈ h /\ IgnoreNotFound e = None.

Definition federation_call (h : history) (c : call) : Prop :=
  match c with
  | CDelete KServiceMonitor k =>
      exists l sm, listed_monitors h l /\ sm ∈ l /\ k = meta_key (sm_Meta sm) /\
        (HasMonitoringFederation addon = true ->
           Name (sm_Meta sm) <> GetMonitoringFederationServiceMonitorName addon)
  | CDelete KSecret k =>
      k = bearer_token_key addon /\ exists sm, monitor_gone h sm
  | CDelete KNamespace k =>
      HasMonitoringFederation addon = false /\ k = mkKey "" (GetMonitoringNamespaceName addon) /\
      exists l, listed_monitors h l /\ Forall (fun sm => Name (sm_Meta sm) <> "" -> monitor_gone h sm) l
  | CCreate KSecret o | CUpdate KSecret o =>
      HasMonitoringFederation addon = true /\
      exists prom : obj KSecret, Ev (CGet Uncached KSecret prom_token_key) (inl prom) ∈ h /\
        sec_Data o = sec_Data prom
  | CCreate KServiceMonitor o | CUpdate KServiceMonitor o =>
      exists m fed (token : obj KSecret), Monitoring (a_Spec addon) = Some m /\ Federation m = Some fed /\
        Ev (CGet Uncached KSecret (bearer_token_key addon)) (inl token) ∈ h /\
        sm_Spec o = mkSMSpec (GetMonitoringFederationServiceMonitorEndpoints fed token)
                      [fed_Namespace fed] (fed_MatchLabels fed) ""
  | CCreate KNamespace o => HasMonitoringFederation addon = true /\
      Name (ns_Meta o) = GetMonitoringNamespaceName addon
  | CUpdate KNamespace _ => HasMonitoringFederation addon = true
  | _ => is_write c = false
  end.

Notation E := (hist_env federation_call (fun _ => False)).

Lemma federation_reads h c : is_write c = false -> env_allow E h c.
Proof. by destruct c as [| |[]|[]|[]|[]|[]| | | | | | | | | | |]. Qed.

Lemma monitor_gone_later h h' sm : h `suffix_of` h' -> monitor_gone h sm -> monitor_gone h' sm.
Proof. intros Hh (e & H & ?). exists e. eauto with addon. Qed.

Lemma same_addon_names a :
  same_identity a addon ->
  GetMonitoringNamespaceName a = GetMonitoringNamespaceName addon /\
  GetMonitoringFederationServiceMonitorName a = GetMonitoringFederationServiceMonitorName addon /\
  bearer_token_key a = bearer_token_key addon /\
  HasMonitoringFederation a = HasMonitoringFederation addon /\
  CommonLabelsAsLabelSelector a = CommonLabelsAsLabelSelector addon.
Proof. destruct a, addon. intros [? ?]. simpl in *. by subst. Qed.

Lemma ensureMonitoringNamespace_spec s h :
  same_identity (st_addon s) addon -> HasMonitoringFederation addon = true ->
  wpM E ensureMonitoringNamespace s h (fun _ _ s' => same_identity (st_addon s') addon).
Proof.
  intros Hs Hf. destruct (same_addon_names _ Hs) as (Hn & _).
  unfold ensureMonitoringNamespace, desiredMonitoringNamespace, actualMonitoringNamespace.
  apply wpM_bind, wpM_get_addon. rewrite set_controller_fresh by done. rewrite Hn.
  wp_run; try (by apply federation_reads).
Qed.

Lemma desired_bearer_token_spec a prom :
  exists m, desired_bearer_token a prom = inl (mkSecret m (sec_Data prom) "") /\
    meta_key m = bearer_token_key a.
Proof. unfold desired_bearer_token. rewrite set_controller_fresh by done. by eexists. Qed.

Lemma reconcileBearerToken_spec s h :
  same_identity (st_addon s) addon -> HasMonitoringFederation addon = true ->
  wpM E (reconcileBearerTokenSecretForAddon opns) s h (fun h' r s' => s' = s /\
    forall token, r = (resultNil, token, None) -> exists t : Secret, token = Some t /\
      Ev (CGet Uncached KSecret (bearer_token_key addon)) (inl (t : obj KSecret)) ∈ h').
Proof.
  intros Hs Hf. destruct (same_addon_names _ Hs) as (_ & _ & Hk & _).
  unfold reconcileBearerTokenSecretForAddon. apply wpM_bind, wpM_get_addon.
  unfold k8s_Get at 1. apply wpM_bind, wpM_hist_call; [done|]. intros [prom|e]; [|by wp_run].
  destruct (desired_bearer_token_spec (st_addon s) prom) as (m & -> & Hm). simpl. rewrite Hm, Hk.
  wp_run; try (split; [done|]; by exists prom; split; [right; left|]).
  - split; [done|]. intros token [= <-]. eexists. split; [done|left].
Qed.

Lemma reconcileServiceMonitor_spec s h :
  same_identity (st_addon s) addon -> HasMonitoringFederation addon = true ->
  wpM E (reconcileServiceMonitor opns) s h (fun _ _ s' => same_identity (st_addon s') addon).
Proof.
  intros Hs Hf. unfold reconcileServiceMonitor. apply wpM_bind, wpM_get_addon, wpM_bind.
  eapply wpM_mono; [by apply reconcileBearerToken_spec|].
  intros h1 [[res token] [e|]] s1 [-> Ht]; [by wp_run|].
  destruct (IsZero res) eqn:Hz; simpl; [|by wp_run]. apply IsZero_true in Hz as ->.
  destruct (Ht token eq_refl) as (t & -> & Htoken). apply wpM_bind, wpM_pure.
  unfold HasMonitoringFederation in Hf. destruct (Monitoring (a_Spec addon)) as [m|] eqn:Hm; [|done].
  destruct (Federation m) as [fed|] eqn:Hfed; [|done].
  unfold desiredServiceMonitor, actualServiceMonitor. rewrite (proj2 Hs), Hm.
  apply wpM_bind, wpM_bind, wpM_pure. rewrite Hfed. apply wpM_bind, wpM_pure.
  rewrite set_controller_fresh by done.
  wp_run; try (by apply federation_reads); exists m, fed, t; do 2 (split; [done|]);
    (split; [by right|done]).
Qed.

Lemma ensureMonitoringFederation_spec s h :
  same_identity (st_addon s) addon ->
  wpM E (ensureMonitoringFederation opns) s h (fun _ _ s' => same_identity (st_addon s') addon).
Proof.
  intros Hs. destruct (same_addon_names _ Hs) as (_ & _ & _ & Hh & _).
  unfold ensureMonitoringFederation. apply wpM_bind, wpM_get_addon. rewrite Hh.
  destruct (HasMonitoringFederation addon) eqn:Hf; simpl; [|by wp_run].
  apply wpM_bind. eapply wpM_mono; [by apply ensureMonitoringNamespace_spec|].
  intros h1 [res [e|]] s1 Hs1; [by wp_run|]. destruct (negb _); [by wp_run|].
  apply wpM_bind. eapply wpM_mono; [by apply reconcileServiceMonitor_spec|].
  intros h2 [res2 [e|]] s2 Hs2; [by wp_run|]. destruct (negb _); by wp_run.
Qed.

Lemma ignored e : match IgnoreNotFound e with Some _ => true | None => false end = false ->
  IgnoreNotFound e = None.
Proof. by destruct (IgnoreNotFound e). Qed.

(** The deletion loop over a part of the listed ServiceMonitors. *)
Lemma delete_unwanted_monitors_spec wanted l0 l s h :
  same_identity (st_addon s) addon -> l ⊆ l0 -> listed_monitors h l0 ->
  (HasMonitoringFederation addon = true -> wanted = GetMonitoringFederationServiceMonitorName addon) ->
  wpM E (delete_unwanted_monitors wanted l) s h (fun h' r s' => same_identity (st_addon s') addon /\
    (r = None -> Forall (fun sm => Name (sm_Meta sm) <> wanted -> monitor_gone h' sm) l)).
Proof.
  intros Hs Hl. revert s h Hs. induction l as [|sm l IH]; intros s h Hs HL Hw; simpl; [by wp_run|].
  assert (sm ∈ l0 /\ l ⊆ l0) as [Hsm Hl'] by set_solver.
  destruct (Name (sm_Meta sm) =s? wanted) eqn:E1; bools.
  { eapply wpM_mono; [by apply IH|]. intros h' r s' [H1 H2]. split; [done|]. intros Hr.
    constructor; [by intros ?|by apply H2]. }
  apply wpM_bind. unfold k8s_Delete. apply wpM_hist_call.
  { exists l0, sm. split; [done|]. split; [done|]. split; [done|]. intros Hf. by rewrite <- Hw. }
  intros e1. destruct (IgnoreNotFound e1) eqn:He1; [by apply wpM_pure|].
  set (h1 := Ev _ e1 :: h).
  assert (monitor_gone h1 sm) as Hgone by (exists e1; split; [left|done]).
  apply wpM_bind, wpM_get_addon, wpM_bind, wpM_hist_call.
  { split; [|by exists sm]. by destruct (same_addon_names _ Hs) as (_ & _ & ? & _). }
  intros e2. destruct (IgnoreNotFound e2) eqn:He2; [by apply wpM_pure|].
  eapply wpM_mono; [apply wpM_grows, IH; [done|done| |done]|].
  { unfold h1, listed_monitors. by do 2 right. }
  intros h' r s' [[H1 H2] Hh]. split; [done|]. intros Hr. constructor; [|by apply H2].
  intros _. eapply monitor_gone_later; [|exact Hgone]. etrans; [|exact Hh]. by apply suffix_cons_r.
Qed.

Lemma federation_spec s h :
  same_identity (st_addon s) addon ->
  wpM E (federation_Reconcile opns) s h (fun _ _ s' => same_identity (st_addon s') addon).
Proof.
  intros Hs. unfold federation_Reconcile. apply wpM_bind.
  eapply wpM_mono; [by apply ensureMonitoringFederation_spec|]. intros h1 [res err] s1 Hs1.
  destruct (same_addon_names _ Hs1) as (Hn & Hm & _ & Hh & Hsel).
  destruct (errors_Is err _); [by wp_run|]. destruct err as [e|]; [by wp_run|].
  destruct (negb _); [by wp_run|].
  unfold ensureDeletionOfUnwantedMonitoringFederation, getOwnedServiceMonitorsViaCommonLabels.
  apply wpM_bind, wpM_bind, wpM_bind, wpM_get_addon, wpM_bind. rewrite Hsel. apply wpM_hist_call; [done|].
  intros [l|e]; [|by wp_run]. apply wpM_pure, wpM_bind, wpM_get_addon, wpM_bind. rewrite Hh, Hm.
  eapply wpM_mono; [apply wpM_grows, (delete_unwanted_monitors_spec _ l l); [done|done|left|]|].
  { by destruct (HasMonitoringFederation addon). }
  intros h2 [e|] s2 [[Hs2 Hr] Hh2]; [by wp_run|]. specialize (Hr eq_refl).
  destruct (HasMonitoringFederation addon) eqn:Hf; [by wp_run|].
  apply wpM_bind. unfold ensureNamespaceDeletion, k8s_Delete. apply wpM_bind, wpM_hist_call.
  - split; [done|]. rewrite Hn. split; [done|]. exists l. split; [|done].
    eapply suffix_elem_of; [exact Hh2|left].
  - intros e. wp_run.
Qed.
End Federation.

Section MonitoringTheorems.
Context {L : Lib} {LOk : LibOk L}.

(** C26: Whatever the server answers, the federation reconciler never panics and
    removes only what is unwanted: a ServiceMonitor that was listed by the
    Addon's labels and is not the wanted one, the token of the Addon after
    such a removal, and the monitoring namespace only when the Addon has no
    federation and every listed ServiceMonitor is gone.  It writes the token
    with the data of the operator's own token, a ServiceMonitor only for the
    token that was read, and nothing when the Addon has no federation. *)
Theorem federation_removes_only_unwanted (opns : string) (s : St) :
  wpM (hist_env (federation_call opns (st_addon s)) (fun _ => False)) (federation_Reconcile opns) s []
    (fun _ _ s' => same_identity (st_addon s') (st_addon s)).
Proof. by apply federation_spec. Qed.

(** ** The status of a MonitoringStack *)

Definition find_obo (ty : string) (l : list OboCondition) : option OboCondition :=
  head (filter (fun c => obo_Type c = ty) l).

Lemma scan_found l a r : scan_conditions l (Some a) (Some r) = (Some a, Some r).
Proof. by destruct l. Qed.

Lemma find_obo_cons ty c l : find_obo ty (c :: l) = if obo_Type c =s? ty then Some c else find_obo ty l.
Proof.
  unfold find_obo. rewrite filter_cons. destruct (decide (obo_Type c = ty)) as [H|H];
    [by rewrite bool_decide_true|by rewrite bool_decide_false].
Qed.

Lemma find_obo_none ty l : ty ∉ map obo_Type l -> find_obo ty l = None.
Proof.
  induction l as [|c l IH]; [done|]. simpl. rewrite not_elem_of_cons, find_obo_cons. intros [H1 H2].
  rewrite bool_decide_false by congruence. by apply IH.
Qed.

(** With one condition of each type, the loop finds the two conditions. *)
Lemma scan_conditions_spec l a r :
  NoDup (map obo_Type l) ->
  (a <> None -> AvailableCondition ∉ map obo_Type l) ->
  (r <> None -> ReconciledCondition ∉ map obo_Type l) ->
  scan_conditions l a r =
    (match a with Some _ => a | None => find_obo AvailableCondition l end,
     match r with Some _ => r | None => find_obo ReconciledCondition l end).
Proof.
  revert a r. induction l as [|c l IH]; intros a r Hnd Ha Hr; [by destruct a, r|].
  simpl in Hnd. apply NoDup_cons in Hnd as [Hc Hnd]. rewrite !find_obo_cons. simpl in *.
  destruct a as [a|], r as [r|]; simpl; try done;
    destruct (obo_Type c =s? AvailableCondition) eqn:E1;
    destruct (obo_Type c =s? ReconciledCondition) eqn:E2; bools;
    try (exfalso; rewrite ?E1, ?E2 in *; first [by apply Ha; [|left] | by apply Hr; [|left] | done]);
    rewrite IH; try done; try (intros _; congruence || set_solver);
    try (intros H; exfalso; by apply H).
Qed.

(** The status a MonitoringStack reports: available or not. *)
Definition stack_available (ms : MonitoringStack) : Prop :=
  exists c, find_obo AvailableCondition (ms_Conditions ms) = Some c /\ obo_Status c = ConditionTrue.

(** The Addon is pending for its MonitoringStack. *)
Definition pending_for_stack (a : Addon) : Prop :=
  Phase (a_Status a) = PhasePending /\ IsAvailable a = false /\
  exists c, find_condition Available a = Some c /\ cond_Reason c = AddonReasonUnreadyMonitoringStack.

Lemma unready_stack_pending msg now a :
  pending_for_stack (reportUnreadyMonitoringStack msg now a) /\
  same_identity (reportUnreadyMonitoringStack msg now a) a.
Proof.
  unfold pending_for_stack, reportUnreadyMonitoringStack, reportPendingStatus. rewrite IsAvailable_find.
  rewrite find_set_Phase, find_observe_generation, find_set_condition by done.
  rewrite bool_decide_true by done. split; [|done]. split; [done|]. split; [done|]. by eexists.
Qed.

Definition stack_call (addon : Addon) (_ : history) (c : call) : Prop :=
  match c with
  | CCreate KMonitoringStack o | CUpdate KMonitoringStack o =>
      exists c, parsed addon = Some c /\ HasMonitoringStack addon = true /\
        ms_ResourceSelector (ms_Spec o) = {[ MSOLabel := a_Name addon ]}
  | _ => is_write c = false
  end.

(** With one condition of each type. *)
Definition well_formed_stack (ms : MonitoringStack) : Prop := NoDup (map obo_Type (ms_Conditions ms)).

Lemma propagate_spec addon ms s h :
  same_identity (st_addon s) addon ->
  wpM (hist_env (stack_call addon) (fun _ => False)) (propagateMonitoringStackStatusToAddon ms) s h
    (fun h' b s' => same_identity (st_addon s') addon /\ h `suffix_of` h' /\
       if b then well_formed_stack ms -> stack_available ms
       else (well_formed_stack ms -> ~ stack_available ms) /\ pending_for_stack (st_addon s')).
Proof.
  intros Hs. unfold propagateMonitoringStackStatusToAddon, stack_available.
  assert (well_formed_stack ms -> find_obo AvailableCondition (ms_Conditions ms) =
    (scan_conditions (ms_Conditions ms) None None).1) as Hscan.
  { intros Hnd. by rewrite scan_conditions_spec. }
  assert (forall msg now, same_identity (st_addon (with_addon (reportUnreadyMonitoringStack msg now) s)) addon /\
    pending_for_stack (st_addon (with_addon (reportUnreadyMonitoringStack msg now) s))) as Hrep.
  { intros msg now. destruct (unready_stack_pending msg now (st_addon s)) as [H1 H2].
    split; [by etrans; [exact H2|]|done]. }
  destruct (scan_conditions _ None None) as [[c|] rec]; simpl in Hscan;
    [destruct (obo_Status c =s? ConditionTrue) eqn:E; bools|
     destruct rec as [rec|]; [destruct (obo_Status rec =s? ConditionTrue)|]].
  1: { apply wpM_pure. split; [done|]. split; [done|]. intros Hw. exists c. by rewrite (Hscan Hw). }
  all: apply wpM_bind, wpM_report; [done|]; intros now h' ->; apply wpM_pure;
    match goal with |- context [reportUnreadyMonitoringStack ?msg] =>
      destruct (Hrep msg now) as [H1 H2] end;
    split; [done|]; (split; [by apply suffix_cons_r|]); split; [|done];
    intros Hw (c' & Hc' & Ht); rewrite (Hscan Hw) in Hc'; congruence.
Qed.

(** No answer of the server is the operator's own sentinel error. *)
Definition foreign_errors (h : history) : Prop :=
  forall ev, ev ∈ h -> errors_Is (resp_error (ev_call ev) (ev_resp ev)) errMonitoringStackSpecNotFound = false.

(** An error of this reconciler other than its sentinel: an answer of the
    server or a new error. *)
Definition plain_error (h : history) (e : error) : Prop :=
  foreign_errors h -> errors_Is (Some e) errMonitoringStackSpecNotFound = false.

Lemma getDesiredMonitoringStack_spec addon s h :
  same_identity (st_addon s) addon -> HasMonitoringStack addon = true ->
  wpM (hist_env (stack_call addon) (fun _ => False)) getDesiredMonitoringStack s h (fun h' r s' =>
    same_identity (st_addon s') addon /\
    match r with
    | inl d => parsed addon <> None /\
        ms_ResourceSelector (ms_Spec d) = {[ MSOLabel := a_Name addon ]}
    | inr e => plain_error h' e
    end).
Proof.
  intros Hs Hh. unfold getDesiredMonitoringStack. apply wpM_bind, wpM_parse; [done| |].
  2: { intros h' s' Hs'. wp_run. split; [by rewrite Hs'|done]. }
  intros c Hc. rewrite Hs in Hc. apply wpM_bind, wpM_get_addon. rewrite (proj2 Hs).
  unfold HasMonitoringStack in Hh. destruct (Monitoring _) as [m|]; [|done].
  apply wpM_bind, wpM_pure. destruct (MonitoringStackOf m); [|done]. apply wpM_bind, wpM_pure.
  rewrite set_controller_fresh by done. apply wpM_pure. split; [done|]. split; [by rewrite Hc|]. simpl.
  unfold a_Name. by rewrite (proj1 Hs).
Qed.

Lemma reconcileMonitoringStack_spec addon d s h :
  HasMonitoringStack addon = true -> parsed addon <> None ->
  ms_ResourceSelector (ms_Spec d) = {[ MSOLabel := a_Name addon ]} ->
  wpM (hist_env (stack_call addon) (fun _ => False)) (reconcileMonitoringStack d) s h (fun h' r s' =>
    s' = s /\ match r with
               | inl ms => answered KMonitoringStack (meta_key (ms_Meta d)) ms h'
               | inr e => plain_error h' e
               end).
Proof.
  intros Hh Hp Hd. destruct (parsed addon) as [c|] eqn:Hc; [|done].
  assert (forall c (r : resp c) h0 e, resp_error c r = Some e -> plain_error (Ev c r :: h0) e) as He.
  { intros c0 r h0 e Hr Hf. rewrite <- Hr. apply (Hf (Ev c0 r)). left. }
  unfold reconcileMonitoringStack. wp_run; try (by exists c); (split; [done|]); try (by apply He).
  - destruct r as [ms'|e]; [|by apply He]. right; right. eexists _, _.
    split; [right; left|]. split; [|left]. done.
  - left. left.
  - destruct r as [ms'|e']; [|by apply He]. right; left. eexists. split; [|left]. done.
Qed.

Lemma stack_failed addon (e : error) s h (P Q : history -> St -> Prop) :
  same_identity (st_addon s) addon -> plain_error h e ->
  wpM (hist_env (stack_call addon) (fun _ => False))
    (if errors_Is (Some e) errMonitoringStackSpecNotFound then mpure (resultNil, None)
     else mpure (resultNil, Join (Some e) (Some ErrEnsureCreateMonitoringStack))) s h (fun h r s' =>
    same_identity (st_addon s') addon /\
    (foreign_errors h -> r = (resultNil, None) -> P h s') /\ (r = (resultRequeue, None) -> Q h s')).
Proof.
  intros Hs He. destruct (errors_Is _ _) eqn:E; apply wpM_pure; (split; [done|]); (split; [|done]).
  - intros Hf. unfold plain_error in He. rewrite He in E by done. done.
  - done.
Qed.

(** C27: The MonitoringStack reconciler never panics and writes at most the
    MonitoringStack of an Addon that asks for one. As long as no error of the
    server is the reconciler's own errMonitoringStackSpecNotFound, it returns
    the zero result only when the Addon asks for none, or when the
    MonitoringStack the server answered with reports that it is available; when
    it asks for a requeue that MonitoringStack is not available, and the Addon
    is reported as pending. Both statements on availability are for a
    MonitoringStack with at most one condition of each type; of several of one
    type the code may read a later one. *)
Theorem monitoring_stack_status (s : St) :
  wpM (hist_env (stack_call (st_addon s)) (fun _ => False)) stack_Reconcile s [] (fun h r s' =>
    same_identity (st_addon s') (st_addon s) /\
    (foreign_errors h -> r = (resultNil, None) -> HasMonitoringStack (st_addon s) = false \/
       exists key ms, answered KMonitoringStack key ms h /\ (well_formed_stack ms -> stack_available ms)) /\
    (r = (resultRequeue, None) -> pending_for_stack (st_addon s') /\
       exists key ms, answered KMonitoringStack key ms h /\ (well_formed_stack ms -> ~ stack_available ms))).
Proof.
  unfold stack_Reconcile, ensureMonitoringStack. apply wpM_bind, wpM_bind, wpM_get_addon.
  destruct (HasMonitoringStack (st_addon s)) eqn:Hh; cbn [negb].
  2: { apply wpM_pure. simpl. apply wpM_pure. split; [done|]. split; [by left|done]. }
  apply wpM_bind. eapply wpM_mono; [by apply getDesiredMonitoringStack_spec|].
  intros h1 [d|e] s1 [Hs1 Hd]; [destruct Hd as [Hp Hsel]|by apply wpM_pure, stack_failed].
  eapply wpM_mono; [by apply reconcileMonitoringStack_spec|].
  intros h2 [ms|e] s2 [-> Hms]; [|by apply stack_failed].
  apply wpM_bind. eapply wpM_mono; [by apply propagate_spec|].
  intros h3 b s3 (Hs3 & Hh3 & Hb). apply wpM_pure. split; [done|].
  assert (exists key, answered KMonitoringStack key ms h3) as [key Hk].
  { exists (meta_key (ms_Meta d)). by eapply answered_later, Hms. }
  destruct b; simpl; split; [intros _ _|done|done|intros _]; [right|split; [apply Hb|]];
    exists key, ms; (split; [done|]); apply Hb.
Qed.
End MonitoringTheorems.
