(* ===== verification/PackageOperator.v ===== *)
(** * controllers/addon/package_operator_reconciler.go: the ClusterObjectTemplate
    of an Addon *)
From S2P Require Export Samples.

(*@ controllers/addon/package_operator_reconciler.go:39-40 packageOperatorName *)
Definition packageOperatorName : string := "packageOperatorReconciler".
(*@ controllers/addon/package_operator_reconciler.go:41-41 ClusterIDConfigKey *)
Definition ClusterIDConfigKey : string := "clusterID".
(*@ controllers/addon/package_operator_reconciler.go:42-42 DeadMansSnitchUrlConfigKey *)
Definition DeadMansSnitchUrlConfigKey : string := "deadMansSnitchUrl".
(*@ controllers/addon/package_operator_reconciler.go:43-43 OcmClusterIDConfigKey *)
Definition OcmClusterIDConfigKey : string := "ocmClusterID".
(*@ controllers/addon/package_operator_reconciler.go:44-44 OcmClusterNameConfigKey *)
Definition OcmClusterNameConfigKey : string := "ocmClusterName".
(*@ controllers/addon/package_operator_reconciler.go:45-45 PagerDutyKeyConfigKey *)
Definition PagerDutyKeyConfigKey : string := "pagerDutyKey".
(*@ controllers/addon/package_operator_reconciler.go:46-46 ParametersConfigKey *)
Definition ParametersConfigKey : string := "parameters".
(*@ controllers/addon/package_operator_reconciler.go:47-47 TargetNamespaceConfigKey *)
Definition TargetNamespaceConfigKey : string := "targetNamespace".
(*@ controllers/addon/package_operator_reconciler.go:48-49 SendGridConfigKey *)
Definition SendGridConfigKey : string := "smtp".

(*@ controllers/addon/package_operator_reconciler.go:51-54 OcmClusterInfo *)
Record OcmClusterInfo := mkClusterInfo { info_ID : string; info_Name : string }.

(** [fmt.Sprintf(PkoPkgTemplate, ...)]: the arguments are named by their
    position in the format. *)
(*@ controllers/addon/package_operator_reconciler.go:22-37 PkoPkgTemplate *)
Definition PkoPkgTemplate (a1 a2 a3 a4 a5 a6 a7 a8 a9 a10 a11 a12 a13 : string) : string :=
  let q s := dquote +:+ s +:+ dquote in
  let tab := String (ascii_of_N 9) EmptyString in
  let has k :=
    tab +:+ tab +:+ tab +:+ "(hasKey .config " +:+ q k +:+ " | ternary (dict " +:+ q k +:+
    " (index .config " +:+ q k +:+ " | b64decMap)) (dict))" in
  join nl
    [ "";
      "apiVersion: " +:+ q a1;
      "kind: ClusterPackage";
      "metadata:";
      "  name: " +:+ q a2;
      "spec:";
      "  image: " +:+ q a3;
      "  config:";
      "    addonsv1: {{toJson (";
      tab +:+ tab +:+ "merge";
      tab +:+ tab +:+ tab +:+ "(.config | b64decMap)";
      has a4;
      has a13;
      tab +:+ tab +:+ tab +:+ "(dict " +:+ q a5 +:+ " " +:+ q a6 +:+ " " +:+ q a7 +:+ " " +:+ q a8
        +:+ " " +:+ q a9 +:+ " " +:+ q a10 +:+ " " +:+ q a11 +:+ " " +:+ q a12 +:+ ")";
      tab +:+ ")}}";
      "" ].

(** An optional source Secret with one item. *)
(*@ controllers/addon/package_operator_reconciler.go:122-134 ObjectTemplateSource *)
Definition secret_source (name ns key destination : string) : ObjectTemplateSource :=
  mkSource true "v1" "Secret" name ns [(key, "." +:+ destination)].

Section PackageOperator.
Context {L : Lib}.
(** [r.ClusterID]. *)
Variable ClusterID : string.

(*@ controllers/addon/package_operator_reconciler.go:254-267 extractDestinationNamespace *)
Definition extractDestinationNamespace (addon : Addon) : M St string :=
  let i := Install (a_Spec addon) in
  if Type_ i =s? OLMAllNamespaces then
    let* c := deref (OLMAllNamespacesOf i) in
    mpure (if str_empty (ic_Namespace c) then "openshift-operators" else ic_Namespace c)
  else if Type_ i =s? OLMOwnNamespace then
    let* c := deref (OLMOwnNamespaceOf i) in mpure (ic_Namespace c)
  else mpure "".

(*@ controllers/addon/addon_controller.go:254-266 GetOCMClusterInfo *)
Definition GetOCMClusterInfo : M St OcmClusterInfo :=
  with_rlock ocmClientMux
    (let* c := do_call CLoadOCMClient in
     mpure (match c with
            | None => mkClusterInfo "" ""
            | Some c => mkClusterInfo (Effects.ClusterID c) (ClusterName c)
            end)).

(*@ controllers/addon/package_operator_reconciler.go:283-287 getExistingClusterObjectTemplate *)
Definition getExistingClusterObjectTemplate (addon : Addon) : M St (ClusterObjectTemplate + error) :=
  k8s_Get Cached KClusterObjectTemplate (mkKey (Namespace (a_Meta addon)) (a_Name addon)).

(*@ controllers/addon/package_operator_reconciler.go:269-281 ensureClusterObjectTemplateTornDown *)
Definition ensureClusterObjectTemplateTornDown : M St (option error) :=
  let* addon := get_addon in
  let* r := getExistingClusterObjectTemplate addon in
  match r with
  | inr err =>
      if IsNotFound (Some err) then mpure None
      else mpure (Some (ErrWrap "getting ClusterObjectTemplate object: " err))
  | inl existing =>
      let* err := k8s_Delete KClusterObjectTemplate (meta_key (cot_Meta existing)) in
      match err with
      | Some e => mpure (Some (ErrWrap "deleting ClusterObjectTemplate object: " e))
      | None => mpure None
      end
  end.

(*@ controllers/addon/package_operator_reconciler.go:241-243 SetAddonUnreadyStatus *)
Definition pko_SetAddonUnreadyStatus : M St unit := report reportUnreadyClusterObjectTemplate.

(** The Available condition is True and current. *)
(*@ controllers/addon/package_operator_reconciler.go:235-237 availableCondition *)
Definition template_available (cot : ClusterObjectTemplate) : bool :=
  match FindStatusCondition (cot_Conditions cot) PackageAvailable with
  | None => false
  | Some c =>
      (cond_Status c =s? ConditionTrue) &&
      (cond_ObservedGeneration c =? Generation (cot_Meta cot))%Z
  end.

(*@ controllers/addon/package_operator_reconciler.go:245-252 updateAddonStatus *)
Definition updateAddonStatus (clusterObjectTemplate : ClusterObjectTemplate) : M St unit :=
  match FindStatusCondition (cot_Conditions clusterObjectTemplate) PackageAvailable with
  | None => pko_SetAddonUnreadyStatus
  | Some c =>
      if negb (cond_ObservedGeneration c =? Generation (cot_Meta clusterObjectTemplate))%Z ||
         negb (cond_Status c =s? ConditionTrue)
      then pko_SetAddonUnreadyStatus else mpure tt
  end.

(** The specification wanted for an Addon. *)
(*@ controllers/addon/package_operator_reconciler.go:103-176 templateString *)
Definition desired_template_spec (addon : Addon) (image : string) (info : OcmClusterInfo)
    (ns : string) : ObjectTemplateSpec :=
  let name := a_Name addon in
  mkOTSpec
    (PkoPkgTemplate pko_GroupVersion name image ParametersConfigKey
       ClusterIDConfigKey ClusterID OcmClusterIDConfigKey (info_ID info)
       OcmClusterNameConfigKey (info_Name info) TargetNamespaceConfigKey ns SendGridConfigKey)
    [ secret_source ("addon-" +:+ name +:+ "-parameters") ns ".data" ParametersConfigKey;
      secret_source (name +:+ "-deadmanssnitch") ns ".data.SNITCH_URL" DeadMansSnitchUrlConfigKey;
      secret_source (name +:+ "-pagerduty") ns ".data.PAGERDUTY_KEY" PagerDutyKeyConfigKey;
      secret_source (name +:+ "-smtp") ns ".data" SendGridConfigKey ].

(*@ controllers/addon/package_operator_reconciler.go:190-193 ErrReconcileClusterObjectTemplate *)
Definition template_error (prefix : string) (err : error) : subReconcilerResult * option error :=
  (resultNil, Join (Some (ErrWrap prefix err)) (Some ErrReconcileClusterObjectTemplate)).

(** Create, update or observe the object on the server. *)
(*@ controllers/addon/package_operator_reconciler.go:186-222 existingClusterObjectTemplate *)
Definition apply_template (addon : Addon) (clusterObjectTemplate : ClusterObjectTemplate)
  : M St (subReconcilerResult * option error) :=
  let* r := getExistingClusterObjectTemplate addon in
  match r with
  | inr err =>
      if IsNotFound (Some err) then
        let* r := k8s_Create KClusterObjectTemplate clusterObjectTemplate in
        match r with
        | inr err => mpure (template_error "creating ClusterObjectTemplate object: " err)
        | inl _ => mpure (resultNil, None)
        end
      else mpure (template_error "getting ClusterObjectTemplate object: " err)
  | inl existing =>
      let ownedByAdo := HasSameController (cot_Meta existing) (cot_Meta clusterObjectTemplate) in
      let specChanged := negb (DeepEqual (cot_Spec existing) (cot_Spec clusterObjectTemplate)) in
      if specChanged || negb ownedByAdo then
        let m := set_OwnerReferences (OwnerReferences (cot_Meta clusterObjectTemplate))
                   (cot_Meta existing) in
        let* r := k8s_Update KClusterObjectTemplate
          (mkCOT m (cot_Spec clusterObjectTemplate) (cot_Conditions existing)) in
        match r with
        | inr err => mpure (template_error "updating ClusterObjectTemplate object: " err)
        | inl _ => mpure (resultNil, None)
        end
      else
        do* updateAddonStatus existing in mpure (resultNil, None)
  end.

(** [image] is [addon.Spec.AddonPackageOperator.Image]. *)
(*@ controllers/addon/package_operator_reconciler.go:89-223 reconcileClusterObjectTemplate *)
Definition reconcileClusterObjectTemplate (image : string)
  : M St (subReconcilerResult * option error) :=
  let* addon := get_addon in
  let* addonDestNamespace := extractDestinationNamespace addon in
  if str_empty addonDestNamespace then
    mpure (resultNil,
      Join (Some (ErrNew ("no destination namespace configured in addon " +:+ a_Name addon)))
        (Some ErrReconcileClusterObjectTemplate))
  else
    let* ocmClusterInfo := GetOCMClusterInfo in
    let spec := desired_template_spec addon image ocmClusterInfo addonDestNamespace in
    match SetControllerReference (a_Meta addon) (new_meta "" (a_Name addon)) with
    | inr err => mpure (template_error "setting owner reference: " err)
    | inl m => apply_template addon (mkCOT m spec [])
    end.

(*@ controllers/addon/package_operator_reconciler.go:76-87 PackageOperatorReconciler.Reconcile *)
Definition pko_Reconcile : M St (subReconcilerResult * option error) :=
  let* addon := get_addon in
  match AddonPackageOperator (a_Spec addon) with
  | None =>
      let* err := ensureClusterObjectTemplateTornDown in
      match err with
      | Some e => mpure (resultNil, Join (Some e) (Some ErrEnsureDeleteClusterObjectTemplate))
      | None => mpure (resultNil, None)
      end
  | Some p => reconcileClusterObjectTemplate (apo_Image p)
  end.

(*@ controllers/addon/package_operator_reconciler.go:225-239 IsReconciliationSuccessful *)
Definition pko_IsReconciliationSuccessful : M St (bool * option error) :=
  let* addon := get_addon in
  match AddonPackageOperator (a_Spec addon) with
  | None => mpure (true, None)
  | Some _ =>
      let* r := k8s_Get Cached KClusterObjectTemplate
        (mkKey (Namespace (a_Meta addon)) (a_Name addon)) in
      match r with
      | inr err => mpure (false, Some (ErrWrap "getting ClusterObjectTemplate object: " err))
      | inl existing => mpure (template_available existing, None)
      end
  end.

(*@ controllers/addon/package_operator_reconciler.go:56-74 PackageOperatorReconciler *)
Definition PackageOperatorReconciler : addonReconciler :=
  mkSubReconciler packageOperatorName PackageReconcilerOrder pko_Reconcile
    (Some (mkNonBlocking pko_IsReconciliationSuccessful pko_SetAddonUnreadyStatus)).
End PackageOperator.

(** ** Theorems *)

Section PackageTheorems.
Context {L : Lib} {LOk : LibOk L}.
Variable ClusterID : string.

(** The namespace the package is configured for. *)
Definition destination (addon : Addon) : string :=
  let i := Install (a_Spec addon) in
  if Type_ i =s? OLMAllNamespaces then
    match OLMAllNamespacesOf i with
    | Some c => if str_empty (ic_Namespace c) then "openshift-operators" else ic_Namespace c
    | None => ""
    end
  else if Type_ i =s? OLMOwnNamespace then
    match OLMOwnNamespaceOf i with Some c => ic_Namespace c | None => "" end
  else "".

(** What OCM says about the cluster, empty without a client. *)
Definition cluster_info (client : option ClientOptions) : OcmClusterInfo :=
  match client with
  | None => mkClusterInfo "" ""
  | Some c => mkClusterInfo (Effects.ClusterID c) (ClusterName c)
  end.

(** The key of the template of an Addon. *)
Definition template_key (addon : Addon) : ObjectKey := mkKey (Namespace (a_Meta addon)) (a_Name addon).

(** A template that is wanted for the package and what OCM answered. *)
Definition wanted_template (addon : Addon) (h : history) (o : ClusterObjectTemplate) : Prop :=
  exists p client, AddonPackageOperator (a_Spec addon) = Some p /\ destination addon <> "" /\
    Ev CLoadOCMClient client ∈ h /\
    cot_Spec o = desired_template_spec ClusterID addon (apo_Image p) (cluster_info client) (destination addon).

Definition package_call (addon : Addon) (h : history) (c : call) : Prop :=
  match c with
  | CDelete KClusterObjectTemplate k =>
      AddonPackageOperator (a_Spec addon) = None /\
      exists (o : obj KClusterObjectTemplate) h',
        h = Ev (CGet Cached KClusterObjectTemplate (template_key addon)) (inl o) :: h' /\
        k = meta_key (cot_Meta o)
  | CCreate KClusterObjectTemplate o | CUpdate KClusterObjectTemplate o => wanted_template addon h o
  | _ => is_write c = false
  end.

Notation E a := (hist_env (package_call a) (fun _ => ~ install_ok a)).

Lemma extractDestinationNamespace_spec {W} (En : env W) addon s w :
  (~ install_ok addon -> forall why, env_abort En w (Panicked why)) ->
  wpM En (extractDestinationNamespace addon) s w (fun w' ns s' =>
    w' = w /\ s' = s /\ ns = destination addon).
Proof.
  intros Hok. unfold extractDestinationNamespace, destination.
  destruct (Type_ _ =s? OLMAllNamespaces) eqn:E1; [|destruct (Type_ _ =s? OLMOwnNamespace) eqn:E2; [|done]];
    bools; apply wpM_bind, wpM_deref.
  - by intros c ->.
  - intros Hn why. apply Hok. intros [H _]. by apply H.
  - by intros c ->.
  - intros Hn why. apply Hok. intros [_ H]. by apply H.
Qed.

(** The template read is not available, or its status is of an older
    generation: then the Addon is reported unready. *)
Lemma updateAddonStatus_spec {W} (En : env W) cot s w :
  env_allow En w CNow ->
  wpM En (updateAddonStatus cot) s w (fun _ _ s' => same_identity (st_addon s') (st_addon s) /\
    if template_available cot then s' = s else IsAvailable (st_addon s') = false).
Proof.
  intros Ha. unfold updateAddonStatus, template_available, pko_SetAddonUnreadyStatus.
  assert (forall now, IsAvailable (reportUnreadyClusterObjectTemplate now (st_addon s)) = false) as Hr.
  { intros now. rewrite IsAvailable_find. unfold reportUnreadyClusterObjectTemplate, reportPendingStatus.
    by rewrite find_set_Phase, find_observe_generation, find_set_condition, bool_decide_true by done. }
  destruct (FindStatusCondition _ _) as [c|];
    [destruct (cond_ObservedGeneration c =? _)%Z, (cond_Status c =s? ConditionTrue)|]; simpl;
    first [by apply wpM_pure | apply wpM_report; [done|]; intros now w' _; split; [done|apply Hr]].
Qed.

Lemma wanted_template_later addon h h' o :
  h `suffix_of` h' -> wanted_template addon h o -> wanted_template addon h' o.
Proof. intros Hh (p & c & H1 & H2 & H3 & H4). exists p, c. eauto with addon. Qed.

Lemma apply_template_spec addon cot s h :
  same_identity (st_addon s) addon -> wanted_template addon h cot ->
  wpM (E addon) (apply_template (st_addon s) cot) s h (fun h' r s' => same_identity (st_addon s') addon /\
    (r = (resultNil, None) ->
       in_place KClusterObjectTemplate (template_key addon) (wanted_template addon h') h')).
Proof.
  intros Hs Hw. unfold apply_template, getExistingClusterObjectTemplate.
  replace (mkKey _ _) with (template_key addon)
    by (unfold template_key, a_Name; by rewrite (proj1 Hs)).
  assert (forall x o, cot_Spec o = cot_Spec cot -> wanted_template addon (x :: h) o) as Hw'.
  { intros x o Ho. destruct Hw as (p & c & H1 & H2 & H3 & H4). exists p, c. rewrite Ho. split_and!; try done. by right. }
  assert (forall x y o, cot_Spec o = cot_Spec cot -> wanted_template addon (y :: x :: h) o) as Hw''.
  { intros x y o Ho. eapply wanted_template_later; [by apply suffix_cons_r|by apply Hw']. }
  unfold k8s_Get. apply wpM_bind, wpM_hist_call; [done|]. intros [o|e].
  - destruct (_ || _) eqn:Hsync.
    + apply wpM_bind, wpM_hist_call; [by apply Hw'|]. intros [r|e]; apply wpM_pure; (split; [done|]); [|done].
      intros _. apply in_place_updated. by apply Hw''.
    + apply wpM_bind. bools. apply (proj1 (deep_equal_eq _ _)) in H.
      assert (forall h', (Ev (CGet Cached KClusterObjectTemplate (template_key addon)) (inl o) :: h) `suffix_of` h' ->
        in_place KClusterObjectTemplate (template_key addon) (wanted_template addon h') h') as Hin.
      { intros h' Hh. eapply in_place_later; [exact Hh|]. apply in_place_read.
        eapply wanted_template_later; [exact Hh|]. by apply Hw'. }
      eapply wpM_mono; [apply wpM_grows, updateAddonStatus_spec; done|].
      intros h' [] s' [[Hs' _] Hh]. apply wpM_pure. split; [by rewrite Hs'|]. intros _. by apply Hin.
  - destruct (IsNotFound _); [|by apply wpM_pure].
    apply wpM_bind, wpM_hist_call; [by apply Hw'|]. intros [r|e']; apply wpM_pure; (split; [done|]); [|done].
    intros _. apply in_place_created. by apply Hw''.
Qed.


(** The answer to the read of a template. *)
Definition template_answer (e : event) : option (ClusterObjectTemplate + error) :=
  match ev_call e as c return resp c -> option (ClusterObjectTemplate + error) with
  | CGet _ KClusterObjectTemplate _ => Some
  | _ => fun _ => None
  end (ev_resp e).

Lemma template_answer_inj cl key (r r' : ClusterObjectTemplate + error) :
  [Ev (CGet cl KClusterObjectTemplate key) r] = [Ev (CGet cl KClusterObjectTemplate key) r'] -> r = r'.
Proof. intros H. apply (f_equal (fun h => head h ≫= template_answer)) in H. by injection H. Qed.

(** The check of the package succeeds without an error exactly when the
    Addon has no package or the ClusterObjectTemplate it reads is available at
    its current generation; it makes no other call and never panics. *)
Theorem package_status_checked (s : St) :
  wpM (hist_env (fun _ c => c = CGet Cached KClusterObjectTemplate (template_key (st_addon s))) (fun _ => False))
    pko_IsReconciliationSuccessful s [] (fun h r s' => s' = s /\
      (r = (true, None) <->
         (AddonPackageOperator (a_Spec (st_addon s)) = None /\ h = []) \/
         (exists (o : obj KClusterObjectTemplate) c,
            h = [Ev (CGet Cached KClusterObjectTemplate (template_key (st_addon s))) (inl o)] /\
            FindStatusCondition (cot_Conditions o) PackageAvailable = Some c /\
            cond_Status c = ConditionTrue /\ cond_ObservedGeneration c = Generation (cot_Meta o)))).
Proof.
  unfold pko_IsReconciliationSuccessful, template_available. apply wpM_bind, wpM_get_addon.
  destruct (AddonPackageOperator _) as [p|]; [|apply wpM_pure; split; [done|]; split; [by left|done]].
  apply wpM_bind, wpM_hist_call; [done|]. intros [o|e]; apply wpM_pure; (split; [done|]); split.
  - intros Hr. right. destruct (FindStatusCondition _ _) as [c|] eqn:Hc; [|done].
    injection Hr as Hr. bools. apply Z.eqb_eq in H0. by exists o, c.
  - intros [[? _]|(o' & c & Ho & Hf & Ht & Hg)]; [done|]. apply template_answer_inj in Ho. injection Ho as ->.
    by rewrite Hf, Ht, Hg, bool_decide_true, Z.eqb_refl.
  - done.
  - by intros [[? _]|(o' & c & Ho%template_answer_inj & _)].
Qed.
End PackageTheorems.
