(* ===== verification/OcmClient.v ===== *)
(** * internal/ocm/client.go: the creation of an OCM client

    The options of a client and [NewClient], which asks OCM once for the
    cluster with the external ID of the options. *)
From S2P Require Export Common.

Section OcmClient.
Context {S : Type}.

(*@ internal/ocm/client.go:52-52 Option *)
Definition Option := ClientOptions -> ClientOptions.

(*@ internal/ocm/client.go:54-59 WithEndpoint *)
Definition WithEndpoint (endpoint : string) : Option := fun o =>
  mkClientOptions (trim_right "/" endpoint +:+ "/") (ClusterExternalID o) (ClusterID o) (ClusterName o)
    (AccessToken o).
(*@ internal/ocm/client.go:61-65 WithClusterExternalID *)
Definition WithClusterExternalID (clusterExternalID : string) : Option := fun o =>
  mkClientOptions (Endpoint_ o) clusterExternalID (ClusterID o) (ClusterName o) (AccessToken o).
(*@ internal/ocm/client.go:67-71 WithAccessToken *)
Definition WithAccessToken (accessToken : string) : Option := fun o =>
  mkClientOptions (Endpoint_ o) (ClusterExternalID o) (ClusterID o) (ClusterName o) accessToken.

(*@ internal/ocm/client.go:39-40 ClusterID *)
Definition with_cluster (c : Cluster) (o : ClientOptions) : ClientOptions :=
  mkClientOptions (Endpoint_ o) (ClusterExternalID o) (cl_Id c) (cl_Name c) (AccessToken o).

(*@ internal/ocm/client.go:23-26 opts *)
Definition client_options (opts : list Option) : ClientOptions :=
  fold_left (fun o f => f o) opts (mkClientOptions "" "" "" "" "").

(*@ internal/ocm/client.go:21-42 NewClient *)
Definition NewClient (opts : list Option) : M S (ClientOptions + error) :=
  let o := client_options opts in
  let* clusterInfo := do_call (CGetCluster o) in
  match clusterInfo with
  | inr err => mpure (inr (ErrWrap "getting cluster info: " err))
  | inl res =>
      match cl_Items res with
      | [] => mpure (inr (ErrNew ("cluster " +:+ ClusterExternalID o +:+ " not found")))
      | c :: _ => mpure (inl (with_cluster c o))
      end
  end.

(*@ internal/ocm/cluster.go:22-24 GetClusterIDAndName *)
Definition GetClusterIDAndName (o : ClientOptions) : string * string := (ClusterID o, ClusterName o).
End OcmClient.
