(* ===== verification/OcmHttp.v ===== *)
(** * internal/ocm: the HTTP client of OCM

    The requests of the client as HTTP exchanges: [do] builds the URL, the body
    and the headers, and tells errors from results by the status code.  The
    network is an interface, [Transport]; the version string set at build time
    and the check of IPv6 addresses are parameters. *)
From S2P Require Export OcmClient JsonStruct NetUrl.

(** ** HTTP *)

Record http_request := mkHttpRequest {
  rq_method : string; rq_url : string; rq_headers : list (string * string); rq_body : string
}.

(** Reading the body of a response may fail. *)
Record http_response := mkHttpResponse { rs_status : Z; rs_body : string + error }.

(** [http.Client.Do]: what answers a request, in some state. *)
Class Transport (W : Type) := exchange : W -> http_request -> (http_response + error) * W.

Class Platform := { ip6_literal : string -> bool; build_version : string }.

Definition MethodGet : string := "GET".
Definition MethodPost : string := "POST".
Definition MethodPatch : string := "PATCH".

(** The errors of [encoding/json] and [net/url]. *)
Definition json_error : error := ErrNew "json".
Definition url_error : error := ErrNew "url".

(** ** Payloads *)

(** The tags of AddOnStatusCondition. *)
(*@ api/v1alpha1/addon_types.go:413-418 AddOnStatusCondition *)
Definition condition_json (c : AddOnStatusCondition) : json :=
  JObject [("status_type", JString (StatusType c)); ("status_value", JString (StatusValue c));
           ("reason", JString (aosc_Reason c)); ("message", JString (aosc_Message c))].
Definition zero_condition : AddOnStatusCondition := mkAOSC "" "" "" "".
(*@ api/v1alpha1/addon_types.go:413-418 AddOnStatusCondition *)
Definition decode_condition : decoder AddOnStatusCondition := decode_struct [
  string_field "status_type" (fun s c => mkAOSC s (StatusValue c) (aosc_Reason c) (aosc_Message c));
  string_field "status_value" (fun s c => mkAOSC (StatusType c) s (aosc_Reason c) (aosc_Message c));
  string_field "reason" (fun s c => mkAOSC (StatusType c) (StatusValue c) s (aosc_Message c));
  string_field "message" (fun s c => mkAOSC (StatusType c) (StatusValue c) (aosc_Reason c) s)].

(*@ internal/ocm/addon_status.go:12-20 AddOnStatusPostRequest *)
Definition post_json (r : AddOnStatusPostRequest) : json :=
  JObject [("addon_id", JString (post_AddonID r)); ("correlation_id", JString (post_CorrelationID r));
           ("version", JString (post_AddonVersion r));
           ("status_conditions", JArray (map condition_json (post_StatusConditions r)))].

(*@ internal/ocm/addon_status.go:22-29 AddOnStatusPatchRequest *)
Record AddOnStatusPatchRequest := mkPatchReq {
  patch_CorrelationID : string; patch_AddonVersion : string;
  patch_StatusConditions : list AddOnStatusCondition
}.
(*@ internal/ocm/addon_status.go:22-29 AddOnStatusPatchRequest *)
Definition patch_json (r : AddOnStatusPatchRequest) : json :=
  JObject [("correlation_id", JString (patch_CorrelationID r)); ("version", JString (patch_AddonVersion r));
           ("status_conditions", JArray (map condition_json (patch_StatusConditions r)))].

(*@ internal/ocm/addon_status.go:33-42 AddOnStatusResponse *)
Record AddOnStatusResponse := mkStatusRes {
  asr_Kind : string; asr_AddonID : string; asr_CorrelationID : string; asr_AddonVersion : string;
  asr_StatusConditions : option (slice AddOnStatusCondition)
}.
Definition zero_status_response : AddOnStatusResponse := mkStatusRes "" "" "" "" None.
(*@ internal/ocm/addon_status.go:33-42 AddOnStatusResponse *)
Definition decode_status_response : decoder AddOnStatusResponse := decode_struct [
  string_field "kind" (fun s r => mkStatusRes s (asr_AddonID r) (asr_CorrelationID r) (asr_AddonVersion r)
    (asr_StatusConditions r));
  string_field "addon_id" (fun s r => mkStatusRes (asr_Kind r) s (asr_CorrelationID r) (asr_AddonVersion r)
    (asr_StatusConditions r));
  string_field "correlation_id" (fun s r => mkStatusRes (asr_Kind r) (asr_AddonID r) s (asr_AddonVersion r)
    (asr_StatusConditions r));
  string_field "version" (fun s r => mkStatusRes (asr_Kind r) (asr_AddonID r) (asr_CorrelationID r) s
    (asr_StatusConditions r));
  with_field "status_conditions" asr_StatusConditions
    (fun l r => mkStatusRes (asr_Kind r) (asr_AddonID r) (asr_CorrelationID r) (asr_AddonVersion r) l)
    (decode_slice decode_condition zero_condition)].

Definition zero_cluster : Cluster := mkCluster "" "" "".
(*@ internal/ocm/cluster.go:16-20 Cluster *)
Definition decode_cluster : decoder Cluster := decode_struct [
  string_field "id" (fun s c => mkCluster s (cl_Name c) (cl_ExternalId c));
  string_field "name" (fun s c => mkCluster (cl_Id c) s (cl_ExternalId c));
  string_field "external_id" (fun s c => mkCluster (cl_Id c) (cl_Name c) s)].
(*@ internal/ocm/cluster.go:12-14 ClusterGetResponse *)
Definition decode_clusters : decoder (option (slice Cluster)) := decode_struct [
  with_field "items" (fun l => l) (fun l _ => l) (decode_slice decode_cluster zero_cluster)].

(*@ internal/ocm/upgradepolicy.go:20-24 UpgradePolicyPatchRequest *)
Definition upgrade_patch_json (r : UpgradePolicyPatchRequest) : json :=
  JObject [("id", JString (upp_ID r)); ("value", JString (upp_Value r));
           ("description", JString (upp_Description r))].
(*@ internal/ocm/upgradepolicy.go:44-46 UpgradePolicyGetRequest *)
Definition upgrade_get_json (r : UpgradePolicyGetRequest) : json := JObject [("id", JString (upg_ID r))].
(*@ internal/ocm/upgradepolicy.go:48-51 UpgradePolicyGetResponse *)
Definition decode_policy : decoder UpgradePolicyGetResponse := decode_struct [
  string_field "value" (fun s r => mkUPGetRes s (upgr_Description r));
  string_field "description" (fun s r => mkUPGetRes (upgr_Value r) s)].
(*@ internal/ocm/upgradepolicy.go:26-26 UpgradePolicyPatchResponse *)
Definition decode_nothing : decoder unit := decode_struct [].

(** The code and the reason of an OCMError. *)
(*@ internal/ocm/client.go:73-77 OCMError *)
Definition decode_ocm_error : decoder (string * string) := decode_struct [
  string_field "code" (fun s e => (s, e.2)); string_field "reason" (fun s e => (e.1, s))].

(** ** Requests *)

Section Client.
Context {N : Platform} {W : Type} {T : Transport W}.

(** The URL of a request, without and with its parameters. *)
(*@ internal/ocm/client.go:90-116 ResolveReference *)
Definition request_url (endpoint path : string) (params : Values) : option string :=
  match Parse ip6_literal endpoint with
  | None => None
  | Some base =>
      let reqURL := URL_String (resolve_path_reference base (trim_left "/" path)) in
      Some (if decide (params = ∅) then reqURL else reqURL +:+ "?" +:+ Values_Encode params)
  end.

(*@ internal/ocm/client.go:123-127 httpReq *)
Definition request_headers (o : ClientOptions) : list (string * string) :=
  [("Authorization", "AccessToken " +:+ ClusterID o +:+ ":" +:+ AccessToken o);
   ("User-Agent", "AddonOperator/" +:+ build_version);
   ("Content-Type", "application/json")].

Definition is_error_status (status : Z) : bool := ((400 <=? status) && (status <=? 599))%Z.

(*@ internal/ocm/client.go:134-160 httpRes *)
Definition handle_response {A} (fullUrl : string) (result : decoder A) (zero : A) (res : http_response)
  : A + error :=
  if is_error_status (rs_status res) then
    match rs_body res with
    | inr err => inr (ErrWrap ("reading error response body " +:+ fullUrl +:+ ": ") err)
    | inl body =>
        match Unmarshal_into decode_ocm_error body ("", "") with
        | ((code, reason), true) => inr (ErrOCM (rs_status res) code reason)
        | (_, false) =>
            inr (ErrWrap ("HTTP " +:+ show_Z (rs_status res) +:+ ": unmarshal json error response " +:+ body +:+ ": ")
                   json_error)
        end
    end
  else
    match rs_body res with
    | inr err => inr (ErrWrap ("reading response body " +:+ fullUrl +:+ ": ") err)
    | inl body =>
        match Unmarshal_into result body zero with
        | (a, true) => inl a
        | (_, false) => inr (ErrWrap ("unmarshal json response " +:+ fullUrl +:+ ": ") json_error)
        end
    end.

(*@ internal/ocm/client.go:83-163 do *)
Definition do {A} (o : ClientOptions) (httpMethod path : string) (params : Values) (payload : json)
    (result : decoder A) (zero : A) (w : W) : (A + error) * W :=
  match request_url (Endpoint_ o) path params with
  | None => (inr (ErrWrap "parsing endpoint URL: " url_error), w)
  | Some fullUrl =>
      match Parse ip6_literal fullUrl with
      | None => (inr (ErrWrap "creating http request: " url_error), w)
      | Some _ =>
          match exchange w (mkHttpRequest httpMethod fullUrl (request_headers o) (Marshal payload)) with
          | (inr err, w') => (inr (ErrWrap "executing http request: " err), w')
          | (inl res, w') => (handle_response fullUrl result zero res, w')
          end
      end
  end.

Definition status_path (o : ClientOptions) : string :=
  "/api/addons_mgmt/v1/clusters/" +:+ ClusterID o +:+ "/status".

(*@ internal/ocm/addon_status.go:44-58 GetAddOnStatus *)
Definition GetAddOnStatus (o : ClientOptions) (addonID : string) : W -> (AddOnStatusResponse + error) * W :=
  do o MethodGet (status_path o +:+ "/" +:+ addonID) ∅ (JObject []) decode_status_response zero_status_response.

(*@ internal/ocm/addon_status.go:60-74 PostAddOnStatus *)
Definition PostAddOnStatus (o : ClientOptions) (payload : AddOnStatusPostRequest)
  : W -> (AddOnStatusResponse + error) * W :=
  do o MethodPost (status_path o) ∅ (post_json payload) decode_status_response zero_status_response.

(*@ internal/ocm/addon_status.go:76-90 PatchAddOnStatus *)
Definition PatchAddOnStatus (o : ClientOptions) (addonID : string) (payload : AddOnStatusPatchRequest)
  : W -> (AddOnStatusResponse + error) * W :=
  do o MethodPatch (status_path o +:+ "/" +:+ addonID) ∅ (patch_json payload)
    decode_status_response zero_status_response.

(*@ internal/ocm/cluster.go:26-40 GetCluster *)
Definition GetCluster (o : ClientOptions) (w : W) : (ClusterGetResponse + error) * W :=
  let '(r, w') := do o MethodGet "/api/clusters_mgmt/v1/clusters"
    (Values_Add "search" ("external_id = '" +:+ ClusterExternalID o +:+ "'") ∅) (JObject [])
    decode_clusters None w in
  (match r with inl l => inl (mkClusterRes (slice_items l)) | inr err => inr err end, w').

Definition policy_path (o : ClientOptions) (id : string) : string :=
  "api/clusters_mgmt/v1/clusters/" +:+ ClusterID o +:+ "/addon_upgrade_policies/" +:+ id +:+ "/state".

(*@ internal/ocm/upgradepolicy.go:28-42 PatchUpgradePolicy *)
Definition PatchUpgradePolicy (o : ClientOptions) (req : UpgradePolicyPatchRequest) : W -> (unit + error) * W :=
  do o MethodPatch (policy_path o (upp_ID req)) ∅ (upgrade_patch_json req) decode_nothing tt.

(*@ internal/ocm/upgradepolicy.go:53-67 GetUpgradePolicy *)
Definition GetUpgradePolicy (o : ClientOptions) (req : UpgradePolicyGetRequest)
  : W -> (UpgradePolicyGetResponse + error) * W :=
  do o MethodGet (policy_path o (upg_ID req)) ∅ (upgrade_get_json req) decode_policy (mkUPGetRes "" "").

(** The OCM calls of the operator, answered by this client; [other] answers
    the rest. *)
Definition error_of {A} (r : A + error) : option error := match r with inl _ => None | inr e => Some e end.

Definition with_ocm (other : server W) : server W := fun w c =>
  match c as c return resp c * W with
  | CGetCluster o => GetCluster o w
  | CPostAddOnStatus o r => let '(a, w') := PostAddOnStatus o r w in (error_of a, w')
  | CPatchUpgradePolicy o r => let '(a, w') := PatchUpgradePolicy o r w in (error_of a, w')
  | CGetUpgradePolicy o r => GetUpgradePolicy o r w
  | c => other w c
  end.
End Client.
