(* ===== verification/ApiMock.v ===== *)
(** * cmd/api-mock: the OCM server the operator is tested against

    The endpoints as handlers over the server's stores, the routing of requests
    to them, and the server as a [Transport] of the HTTP client.  The router
    (gorilla/mux) is an interface; how a float64 is written is a parameter. *)
From S2P Require Export OcmHttp NetUrlLaws.

(** ** State *)

(*@ cmd/api-mock/main.go:135-141 addonStatus *)
Record addonStatus := mkAddonStatusData {
  as_AddonID : string; as_CorrelationID : string; as_AddonVersion : string;
  as_StatusConditions : option (list json)
}.
(*@ cmd/api-mock/main.go:130-133 addonStatusKey *)
Record addonStatusKey := mkStatusKey { sk_clusterID : string; sk_addonID : string }.
#[export] Instance addonStatusKey_eq : EqDecision addonStatusKey.
Proof. solve_decision. Defined.
#[export] Instance addonStatusKey_countable : Countable addonStatusKey.
Proof.
  refine (inj_countable' (fun k => (sk_clusterID k, sk_addonID k)) (fun '(c, a) => mkStatusKey c a) _).
  by intros [].
Defined.
(*@ cmd/api-mock/main.go:301-303 UpgradePolicyStateKey *)
Record UpgradePolicyStateKey := mkPolicyKey { pk_ClusterID : string; pk_UpgradePolicyID : string }.
#[export] Instance UpgradePolicyStateKey_eq : EqDecision UpgradePolicyStateKey.
Proof. solve_decision. Defined.
#[export] Instance UpgradePolicyStateKey_countable : Countable UpgradePolicyStateKey.
Proof.
  refine (inj_countable' (fun k => (pk_ClusterID k, pk_UpgradePolicyID k)) (fun '(c, a) => mkPolicyKey c a) _).
  by intros [].
Defined.

(** The status store, the policies and the configuration. *)
(*@ cmd/api-mock/main.go:125-128 addonStatusStore *)
Record mock := mkMock {
  m_statuses : gmap addonStatusKey addonStatus;
  m_policies : gmap UpgradePolicyStateKey string;
  m_FailOnAddonStatusCreateEndpoint : bool
}.
(*@ cmd/api-mock/main.go:143-147 NewAddonStatusStore *)
Definition new_mock : mock := mkMock ∅ ∅ false.

(*@ internal/ocm/ocmtest/mock.go:12-12 MockClusterId *)
Definition MockClusterId : string := "1ou".
(*@ internal/ocm/ocmtest/mock.go:13-13 MockClusterName *)
Definition MockClusterName : string := "openshift-mock-cluster-name".

(** ** Requests and responses *)

(** What a handler sees of a request: reading the body may fail. *)
Record server_request := mkServerRequest {
  sr_Method : string; sr_Vars : list (string * string); sr_Query : Values; sr_Body : option string
}.
Record reply := mkReply { rp_status : Z; rp_body : string }.

Definition StatusOK : Z := 200.
Definition StatusCreated : Z := 201.
Definition StatusBadRequest : Z := 400.
Definition StatusNotFound : Z := 404.
Definition StatusMethodNotAllowed : Z := 405.
Definition StatusInternalServerError : Z := 500.
Definition StatusNotImplemented : Z := 501.

(** [mux.Vars(r)[name]]. *)
Definition var (r : server_request) (name : string) : string :=
  default "" (snd <$> head (filter (fun v => v.1 = name) (sr_Vars r))).

(** [fmt.Fprintln]. *)
Definition line (s : string) : string := s +:+ nl.

(** A text with double quotes, written with single ones. *)
Fixpoint dq (s : string) : string :=
  match s with
  | EmptyString => EmptyString
  | String c s' => String (if Ascii.eqb c "'" then json_quote else c) (dq s')
  end.

(** ** Handlers *)

Section Handlers.
Context (float : number -> number).

(*@ cmd/api-mock/main.go:135-141 addonStatus *)
Definition status_json (s : addonStatus) : json :=
  JObject [("addon_id", JString (as_AddonID s)); ("correlation_id", JString (as_CorrelationID s));
           ("version", JString (as_AddonVersion s)); ("status_conditions", any_slice_json (as_StatusConditions s))].

(*@ cmd/api-mock/main.go:354-360 marshalAddonStatus *)
Definition marshalAddonStatus (s : addonStatus) : string := Marshal (status_json s).

Definition zero_status : addonStatus := mkAddonStatusData "" "" "" None.
(*@ cmd/api-mock/main.go:135-141 addonStatus *)
Definition decode_status : decoder addonStatus := decode_struct [
  string_field "addon_id" (fun s a => mkAddonStatusData s (as_CorrelationID a) (as_AddonVersion a)
    (as_StatusConditions a));
  string_field "correlation_id" (fun s a => mkAddonStatusData (as_AddonID a) s (as_AddonVersion a)
    (as_StatusConditions a));
  string_field "version" (fun s a => mkAddonStatusData (as_AddonID a) (as_CorrelationID a) s
    (as_StatusConditions a));
  with_field "status_conditions" as_StatusConditions
    (fun l a => mkAddonStatusData (as_AddonID a) (as_CorrelationID a) (as_AddonVersion a) l)
    (decode_any_slice float)].

(*@ cmd/api-mock/main.go:362-368 unmarshalPayloadToAddonStatus *)
Definition unmarshalPayloadToAddonStatus (data : string) : option addonStatus :=
  match Unmarshal_into decode_status data zero_status with (s, true) => Some s | (_, false) => None end.

Definition store_status (k : addonStatusKey) (s : addonStatus) (m : mock) : mock :=
  mkMock (<[k := s]> (m_statuses m)) (m_policies m) (m_FailOnAddonStatusCreateEndpoint m).
Definition store_policy (k : UpgradePolicyStateKey) (data : string) (m : mock) : mock :=
  mkMock (m_statuses m) (<[k := data]> (m_policies m)) (m_FailOnAddonStatusCreateEndpoint m).

Definition empty_error : reply := mkReply StatusInternalServerError (line "{}").

(*@ cmd/api-mock/main.go:51-53 Health *)
Definition Health (r : server_request) (m : mock) : reply * mock := (mkReply StatusOK "", m).

(** The first match of ['.*'] without its quotes: from a quote to the last one
    before the end of the line. *)
Fixpoint upto_newline (s : string) : string :=
  match s with
  | EmptyString => EmptyString
  | String c s' => if (byte_code c =? 10)%N then EmptyString else String c (upto_newline s')
  end.
Fixpoint quoted (s : string) : option string :=
  match s with
  | EmptyString => None
  | String c s' =>
      if Ascii.eqb c "'" then
        match cut_last "'" (upto_newline s') with Some (inside, _) => Some inside | None => quoted s' end
      else quoted s'
  end.

(** [strings.Trim(s, "'")]. *)
Definition trim_quotes (s : string) : string := trim_right "'" (trim_left "'" s).

(*@ cmd/api-mock/main.go:70-112 ServeHTTP *)
Definition clusters_ServeHTTP (r : server_request) (m : mock) : reply * mock :=
  if sr_Method r =s? MethodGet then
    match quoted (Values_Get (sr_Query r) "search") with
    | None => (mkReply StatusOK (dq "{'items': []}"), m)
    | Some inside =>
        let clusterExternalId := trim_quotes inside in
        (mkReply StatusOK
           (dq "{'items': [{'kind': 'Cluster','id': '" +:+ MockClusterId +:+ dq "','name': '" +:+ MockClusterName +:+
            dq "', 'external_id': '" +:+ clusterExternalId +:+ dq "'}]}"), m)
    end
  else (mkReply StatusNotImplemented "", m).

(** The failure that [configure] switches on. *)
(*@ cmd/api-mock/main.go:173-179 OCMError *)
Definition mock_failure : json :=
  JObject [("code", JString "OCM-MGMT");
           ("reason", JString "mock failure on addon status create endpoint")].

(*@ cmd/api-mock/main.go:159-221 ServeHTTP *)
Definition status_create_ServeHTTP (r : server_request) (m : mock) : reply * mock :=
  if sr_Method r =s? MethodPost then
    match sr_Body r with
    | None => (empty_error, m)
    | Some payload =>
        if m_FailOnAddonStatusCreateEndpoint m then (mkReply StatusBadRequest (Marshal mock_failure), m)
        else
          match Unmarshal_into decode_status payload zero_status with
          | (_, false) => (empty_error, m)
          | (status, true) =>
              let addonID := as_AddonID status in
              if str_empty addonID then
                (mkReply StatusBadRequest (line (dq "{'code':'error','reason':'addonID missing'}")), m)
              else
                (mkReply StatusCreated (line payload),
                 store_status (mkStatusKey (var r "cluster_id") addonID) status m)
          end
    end
  else (mkReply StatusNotImplemented "", m).

(*@ cmd/api-mock/main.go:233-299 ServeHTTP *)
Definition status_ServeHTTP (r : server_request) (m : mock) : reply * mock :=
  if sr_Method r =s? MethodGet then
    match m_statuses m !! mkStatusKey (var r "cluster_id") (var r "addon_id") with
    | None => (mkReply StatusNotFound (line (dq "{'code':'not found','reason':'addon status not found'}")), m)
    | Some data => (mkReply StatusOK (line (marshalAddonStatus data)), m)
    end
  else if sr_Method r =s? MethodPost then
    match sr_Body r with
    | None => (empty_error, m)
    | Some payload =>
        match unmarshalPayloadToAddonStatus payload with
        | None => (empty_error, m)
        | Some status =>
            (mkReply StatusOK (line (marshalAddonStatus status)),
             store_status (mkStatusKey (var r "cluster_id") (as_AddonID status)) status m)
        end
    end
  else (mkReply StatusNotImplemented "", m).

(*@ cmd/api-mock/main.go:319-323 UpgradePolicyStateKey *)
Definition policy_key (r : server_request) : UpgradePolicyStateKey :=
  mkPolicyKey (var r "cluster_id") (var r "upgrade_policy_id").

(*@ cmd/api-mock/main.go:305-352 ServeHTTP *)
Definition policy_ServeHTTP (r : server_request) (m : mock) : reply * mock :=
  if sr_Method r =s? MethodPatch then
    match sr_Body r with
    | None => (empty_error, m)
    | Some payload => (mkReply StatusOK (line "{}"), store_policy (policy_key r) payload m)
    end
  else if sr_Method r =s? MethodGet then
    match m_policies m !! policy_key r with
    | None => (mkReply StatusNotFound (line (dq "{'code':'not found','reason':'upgrade policy not found'}")), m)
    | Some data => (mkReply StatusOK (line data), m)
    end
  else (mkReply StatusNotImplemented "", m).

(** [json.Decoder.Decode]: the first value of the body. *)
Definition decode_first {A} (d : decoder A) (text : string) (a : A) : A * bool :=
  match parse_value (S (String.length text)) max_depth text with
  | Some (v, _) => d v a
  | None => (a, false)
  end.

(*@ cmd/api-mock/main.go:379-393 configure *)
Definition configure (r : server_request) (m : mock) : reply * mock :=
  match sr_Body r with
  | None => (mkReply StatusBadRequest "", m)
  | Some body =>
      match decode_first (decode_struct [bool_field "failOnAddonStatusCreateEndpoint" (fun b _ => b)]) body false with
      | (_, false) => (mkReply StatusBadRequest "", m)
      | (conf, true) =>
          (mkReply StatusOK "", if conf then mkMock (m_statuses m) (m_policies m) true else m)
      end
  end.

(** ** Routing *)

Inductive endpoint :=
| HealthEndpoint | ClustersEndpoint | UpgradePolicyStateEndpoint | AddonStatusEndpoint
| AddonStatusCreateEndpoint | ConfigureEndpoint.

(** The templates, in the order they are registered. *)
(*@ cmd/api-mock/main.go:19-41 main *)
Definition routes : list (string * endpoint) := [
  ("/healthz", HealthEndpoint); ("/readyz", HealthEndpoint);
  ("/api/clusters_mgmt/v1/clusters", ClustersEndpoint);
  ("/api/clusters_mgmt/v1/clusters/{cluster_id}/addon_upgrade_policies/{upgrade_policy_id}/state",
   UpgradePolicyStateEndpoint);
  ("/api/addons_mgmt/v1/clusters/{cluster_id}/status/{addon_id}", AddonStatusEndpoint);
  ("/api/addons_mgmt/v1/clusters/{cluster_id}/status", AddonStatusCreateEndpoint);
  ("/configure", ConfigureEndpoint)].

Definition serve_endpoint (e : endpoint) (r : server_request) (m : mock) : reply * mock :=
  match e with
  | HealthEndpoint => Health r m
  | ClustersEndpoint => clusters_ServeHTTP r m
  | UpgradePolicyStateEndpoint => policy_ServeHTTP r m
  | AddonStatusEndpoint => status_ServeHTTP r m
  | AddonStatusCreateEndpoint => status_create_ServeHTTP r m
  | ConfigureEndpoint =>
      if sr_Method r =s? MethodPatch then configure r m else (mkReply StatusMethodNotAllowed "", m)
  end.
End Handlers.

(** gorilla/mux: the variables of a template that matches a path. *)
Class Router := template_match : string -> string -> option (list (string * string)).

(** What the router documents: a template matches a clean path segment by
    segment; a name in braces matches one segment that is not empty. *)
Definition segment_name (t : string) : option string :=
  match t with
  | String c t' => if Ascii.eqb c "{" then Some (trim_right "}" t') else None
  | EmptyString => None
  end.

Fixpoint match_segments (ts ps : list string) : option (list (string * string)) :=
  match ts, ps with
  | [], [] => Some []
  | t :: ts, p :: ps =>
      match segment_name t, match_segments ts ps with
      | Some name, Some vars => if str_empty p then None else Some ((name, p) :: vars)
      | None, Some vars => if t =s? p then Some vars else None
      | _, None => None
      end
  | _, _ => None
  end.

Class RouterOk (R : Router) : Prop :=
  router_law template path :
    Forall clean_segment (tail (split_on "/" path)) ->
    template_match template path = match_segments (split_on "/" template) (split_on "/" path).

Section Server.
Context {N : Platform} {R : Router} (float : number -> number).

Fixpoint find_route (l : list (string * endpoint)) (path : string) : option (endpoint * list (string * string)) :=
  match l with
  | [] => None
  | (template, e) :: l' =>
      match template_match template path with
      | Some vars => Some (e, vars)
      | None => find_route l' path
      end
  end.

(** The server on one request of the client. *)
Definition serve (m : mock) (rq : http_request) : (http_response + error) * mock :=
  match Parse ip6_literal (rq_url rq) with
  | None => (inr url_error, m)
  | Some u =>
      match find_route routes (u_Path u) with
      | None => (inl (mkHttpResponse StatusNotFound (inl (line "404 page not found"))), m)
      | Some (e, vars) =>
          let '(a, m') := serve_endpoint float e (mkServerRequest (rq_method rq) vars (Query u) (Some (rq_body rq))) m in
          (inl (mkHttpResponse (rp_status a) (inl (rp_body a))), m')
      end
  end.

#[export] Instance mock_transport : Transport mock := serve.
End Server.
