(* ===== verification/Reporting.v ===== *)
(** * controllers/addon: reporting to OCM

    status_reporting.go (add-on status) and upgradepolicy_status.go (upgrade
    policies).  The OCM client is read from the shared variable of the Addon
    reconciler; the requests are calls. *)
From S2P Require Export Samples.

(** The settings of the Addon reconciler that do not change after it is
    built. *)
(*@ controllers/addon/addon_controller.go:59-83 AddonReconciler *)
Record AddonReconciler := mkAddonReconciler {
  ClusterExternalID_ : string;
  AddonOperatorNamespace : string;
  statusReportingEnabled : bool;
  upgradePolicyStatusEnabled : bool;
  subReconcilers : list addonReconciler
}.

Section Reporting.
Context {L : Lib}.

(** ** Add-on status *)

(*@ controllers/addon/status_reporting.go:89-95 isCurrentStatusDifferentFromPrevious *)
Definition isCurrentStatusDifferentFromPrevious (addon : Addon) : bool :=
  match OCMReportedStatusHash (a_Status addon) with
  | Some h => negb (StatusHash h =s? HashCurrentAddonStatus addon)
  | None => true
  end.

(*@ controllers/addon/status_reporting.go:97-102 setLastReportedStatus *)
Definition setLastReportedStatus (addon : Addon) : Addon :=
  set_OCMReportedStatusHash (Some (mkHash (HashCurrentAddonStatus addon) (a_Generation addon))) addon.

(*@ controllers/addon/status_reporting.go:61-63 statusReportingRequired *)
Definition statusReportingRequired (r : AddonReconciler) (addon : Addon) : bool :=
  statusReportingEnabled r && isCurrentStatusDifferentFromPrevious addon.

(** A request followed by the observation of its duration. *)
(*@ controllers/addon/status_reporting.go:65-74 recordAddonServiceRequestDuration *)
Definition recordAddonServiceRequestDuration {A} (reqFunc : M St A) : M St A :=
  let* a := reqFunc in
  do* modify_recorder (fmap RecordAddonServiceAPIRequests) in mpure a.

(** The client is read again here; neither read takes the lock. *)
(*@ controllers/addon/status_reporting.go:48-59 postAddonStatus *)
Definition postAddonStatus : M St (option error) :=
  let* addon := get_addon in
  recordAddonServiceRequestDuration
    (let* ocmClient := do_call CLoadOCMClient in
     let* client := deref ocmClient in
     do_call (CPostAddOnStatus client
       (mkPostReq (a_Name addon) (CorrelationID (a_Spec addon)) (Version (a_Spec addon))
          (mapToAddonStatusConditions (Conditions (a_Status addon)))))).

(*@ controllers/addon/status_reporting.go:15-46 handleOCMAddOnStatusReporting *)
Definition handleOCMAddOnStatusReporting (r : AddonReconciler) : M St (option error) :=
  let* addon := get_addon in
  if negb (statusReportingRequired r addon) then mpure None
  else
    let* ocmClient := do_call CLoadOCMClient in
    match ocmClient with
    | None => mpure None
    | Some _ =>
        let* err := postAddonStatus in
        match err with
        | Some e => mpure (Some e)
        | None => do* modify_addon setLastReportedStatus in mpure None
        end
    end.

(** ** Upgrade policies *)

(*@ controllers/addon/upgradepolicy_status.go:101-105 requiresReporting *)
Definition requiresReporting (addon : Addon) : bool :=
  negb (str_empty (Version (a_Spec addon))) &&
  (match UpgradePolicy (a_Spec addon) with Some _ => true | None => false end) &&
  negb (UpgradeCompleteForCurrentVersion addon).

(*@ controllers/addon/upgradepolicy_status.go:186-197 recordOCMRequestDuration *)
Definition recordOCMRequestDuration {A} (reqFunc : M St A) : M St A :=
  let* a := reqFunc in
  do* modify_recorder (fmap RecordOCMAPIRequests) in mpure a.

(*@ controllers/addon/upgradepolicy_status.go:168-175 handlePatchUpgradePolicy *)
Definition handlePatchUpgradePolicy (client : ClientOptions) (req : UpgradePolicyPatchRequest)
  : M St (option error) :=
  recordOCMRequestDuration (do_call (CPatchUpgradePolicy client req)).

(*@ controllers/addon/upgradepolicy_status.go:177-184 handleGetUpgradePolicyState *)
Definition handleGetUpgradePolicyState (client : ClientOptions) (req : UpgradePolicyGetRequest)
  : M St (UpgradePolicyGetResponse + error) :=
  recordOCMRequestDuration (do_call (CGetUpgradePolicy client req)).

(*@ controllers/addon/upgradepolicy_status.go:107-120 getPreviousUpgradePolicyStateValue *)
Definition getPreviousUpgradePolicyStateValue (client : ClientOptions) (policyID : string)
  : M St (string + error) :=
  let* res := handleGetUpgradePolicyState client (mkUPGet policyID) in
  match res with
  | inr err =>
      mpure (inr (ErrWrap ("getting UpgradePolicy " +:+ quote policyID +:+ " state: ") err))
  | inl res => mpure (inl (upgr_Value res))
  end.

(** [addon.SetUpgradePolicyStatus(val)] on the Addon in hand. *)
Definition set_upgrade_policy_status (val : string) : M St unit :=
  let* addon := get_addon in
  let* addon := deref (SetUpgradePolicyStatus val addon) in
  set_addon addon.

(*@ controllers/addon/upgradepolicy_status.go:122-143 reportUpgradeStarted *)
Definition reportUpgradeStarted (client : ClientOptions) : M St (option error) :=
  let* addon := get_addon in
  let* policy := deref (UpgradePolicy (a_Spec addon)) in
  let policyID := up_ID policy in
  let version := Version (a_Spec addon) in
  let req := mkUPPatch policyID UpgradePolicyValueStarted
               ("Upgrading addon to version " +:+ quote version +:+ ".") in
  let* err := handlePatchUpgradePolicy client req in
  match err with
  | Some e =>
      mpure (Some (ErrWrap ("patching UpgradePolicy " +:+ quote policyID +:+ " at version " +:+
                            quote version +:+ " as 'Started': ") e))
  | None => do* set_upgrade_policy_status AddonUpgradePolicyValueStarted in mpure None
  end.

(*@ controllers/addon/upgradepolicy_status.go:145-166 reportUpgradeCompleted *)
Definition reportUpgradeCompleted (client : ClientOptions) : M St (option error) :=
  let* addon := get_addon in
  let* policy := deref (UpgradePolicy (a_Spec addon)) in
  let policyID := up_ID policy in
  let version := Version (a_Spec addon) in
  let req := mkUPPatch policyID UpgradePolicyValueCompleted
               ("Addon was healthy at least once at version " +:+ quote version +:+ ".") in
  let* err := handlePatchUpgradePolicy client req in
  match err with
  | Some e =>
      mpure (Some (ErrWrap ("patching UpgradePolicy " +:+ quote policyID +:+ " at version " +:+
                            quote version +:+ " to 'Completed': ") e))
  | None => do* set_upgrade_policy_status AddonUpgradePolicyValueCompleted in mpure None
  end.

(** The end of the report for an available Addon at the reported version. *)
(*@ controllers/addon/upgradepolicy_status.go:84-98 IsAvailable *)
Definition report_available (client : ClientOptions) (stateVal : string) : M St (option error) :=
  let* err :=
    (if stateVal =s? UpgradePolicyValueScheduled
     then
       let* err := reportUpgradeStarted client in
       match err with
       | Some e => mpure (Some (ErrWrap "reporting upgrade as started: " e))
       | None => mpure None
       end
     else mpure None) in
  match err with
  | Some e => mpure (Some e)
  | None => reportUpgradeCompleted client
  end.

(** The decision once the previous state of the policy is known. *)
(*@ controllers/addon/upgradepolicy_status.go:51-98 UpgradePolicy *)
Definition report_upgrade_policy (client : ClientOptions) (stateVal : string)
  : M St (option error) :=
  let* addon := get_addon in
  match UpgradePolicyStatus (a_Status addon) with
  | None => reportUpgradeStarted client
  | Some status =>
      if str_empty (ups_Version status) &&
         ((stateVal =s? UpgradePolicyValueCompleted) || (stateVal =s? UpgradePolicyValuePending))
      then do* set_upgrade_policy_status AddonUpgradePolicyValueCompleted in mpure None
      else if negb (ups_Version status =s? Version (a_Spec addon))
      then reportUpgradeStarted client
      else if IsAvailable addon then report_available client stateVal
      else mpure None
  end.

(** What is done under the read lock of the OCM client, which is read once: no
    other goroutine stores it meanwhile. *)
(*@ controllers/addon/upgradepolicy_status.go:29-99 ocmClient *)
Definition report_policy_locked : M St (option error) :=
  let* addon := get_addon in
  let* ocmClient := do_call CLoadOCMClient in
  match ocmClient with
  | None => mpure None
  | Some client =>
      let* policy := deref (UpgradePolicy (a_Spec addon)) in
      let* state := getPreviousUpgradePolicyStateValue client (up_ID policy) in
      match state with
      | inr err => mpure (Some (ErrWrap "getting previous UpgradePolicy state value: " err))
      | inl stateVal => report_upgrade_policy client stateVal
      end
  end.

(*@ controllers/addon/upgradepolicy_status.go:15-99 handleUpgradePolicyStatusReporting *)
Definition handleUpgradePolicyStatusReporting (r : AddonReconciler) : M St (option error) :=
  let* addon := get_addon in
  if negb (requiresReporting addon) || negb (upgradePolicyStatusEnabled r) then mpure None
  else with_rlock ocmClientMux report_policy_locked.
End Reporting.

(** ** Theorems *)

Section ReportingTheorems.
Context {L : Lib} {LOk : LibOk L}.
Variable r : AddonReconciler.

(** A report that makes no call, changes nothing and returns no error. *)
Definition silent (m : M St (option error)) (s : St) : Prop :=
  forall h, wpM (hist_env (fun _ _ => False) (fun _ => False)) m s h
    (fun h' e s' => h' = h /\ e = None /\ s' = s).

(** *** Add-on status *)

(** What is posted for an Addon. *)
Definition status_request (addon : Addon) : AddOnStatusPostRequest :=
  mkPostReq (a_Name addon) (CorrelationID (a_Spec addon)) (Version (a_Spec addon))
    (mapToAddonStatusConditions (Conditions (a_Status addon))).

(** Nobody takes the client away: once a load answered with one, every later
    load does, though maybe with another. *)
Definition client_stays (h : history) (e : event) : Prop :=
  match ev_call e as c return resp c -> Prop with
  | CLoadOCMClient => fun r => r = None -> forall c, Ev CLoadOCMClient (Some c) ∉ h
  | _ => fun _ => True
  end (ev_resp e).

(** The client is loaded when a report is due, twice, and the status is posted
    with the client that was loaded last. *)
Definition status_call (addon : Addon) (h : history) (c : call) : Prop :=
  statusReportingRequired r addon = true /\
  match c with
  | CLoadOCMClient => h = [] \/ exists client, h = [Ev CLoadOCMClient (Some client)]
  | CPostAddOnStatus client req =>
      (exists client', h = [Ev CLoadOCMClient (Some client); Ev CLoadOCMClient (Some client')]) /\
      req = status_request addon
  | _ => False
  end.

Lemma reported_status_current addon :
  isCurrentStatusDifferentFromPrevious (setLastReportedStatus addon) = false.
Proof.
  unfold isCurrentStatusDifferentFromPrevious, setLastReportedStatus. simpl.
  rewrite bool_decide_true; [done|]. unfold HashCurrentAddonStatus, a_Name. done.
Qed.

Lemma not_required_silent s :
  statusReportingRequired r (st_addon s) = false -> silent (handleOCMAddOnStatusReporting r) s.
Proof.
  intros Hr h. unfold handleOCMAddOnStatusReporting. apply wpM_bind, wpM_get_addon. rewrite Hr.
  by apply wpM_pure.
Qed.

(** C30: The status of an Addon is posted to OCM only when reporting is enabled
    and the status differs from the last one posted.  A post that is accepted
    is remembered, so that reporting again makes no call; a post that fails is
    the error returned, and leaves the Addon as it was, so that it is tried
    again.  The client may be replaced between the two reads of it, but as long
    as nobody takes it away the report never panics. *)
Theorem status_posted_once (s : St) :
  wpM (rely_env client_stays (status_call (st_addon s)) (fun _ => False)) (handleOCMAddOnStatusReporting r) s []
    (fun h e s' =>
       (exists client client', h = [Ev (CPostAddOnStatus client (status_request (st_addon s))) e;
                            Ev CLoadOCMClient (Some client); Ev CLoadOCMClient (Some client')] /\
          (e = None -> silent (handleOCMAddOnStatusReporting r) s') /\
          (e <> None -> st_addon s' = st_addon s)) \/
       (h = [Ev CLoadOCMClient None] /\ e = None /\ s' = s) \/
       (h = [] /\ e = None /\ s' = s /\ silent (handleOCMAddOnStatusReporting r) s)).
Proof.
  unfold handleOCMAddOnStatusReporting at 1. apply wpM_bind, wpM_get_addon.
  destruct (statusReportingRequired r (st_addon s)) eqn:Hr; simpl.
  2: { apply wpM_pure. do 2 right. do 3 (split; [done|]). by apply not_required_silent. }
  apply wpM_bind, wpM_rely_call; [by split; [|left]|]. intros [client'|] _; [|by apply wpM_pure; right; left].
  apply wpM_bind. unfold postAddonStatus, recordAddonServiceRequestDuration.
  apply wpM_bind, wpM_get_addon, wpM_bind, wpM_bind, wpM_rely_call; [split; [done|right; by eexists]|].
  intros [client|] Hstays; [|by destruct (Hstays eq_refl client'); left].
  apply wpM_bind, wpM_pure, wpM_rely_call; [split; [done|split; [by eexists|done]]|]. intros [e|] _.
  - apply wpM_bind, wpM_modify_recorder, wpM_pure, wpM_pure. left. by exists client, client'.
  - apply wpM_bind, wpM_modify_recorder, wpM_pure. simpl. apply wpM_bind, wpM_modify_addon, wpM_pure.
    left. exists client, client'. split; [done|]. split; [|done]. intros _. apply not_required_silent.
    apply andb_false_intro2, reported_status_current.
Qed.

(** *** Upgrade policies *)

(** The Addon is at the version of the last upgrade report. *)
Definition started_at_version (addon : Addon) : Prop :=
  exists st, UpgradePolicyStatus (a_Status addon) = Some st /\ ups_Version st = Version (a_Spec addon).

(** Under the read lock, a patch is made with the client that was loaded, for
    the policy of the Addon: to started, or to completed for an available Addon whose start was
    reported at this version. *)
Definition policy_call (addon : Addon) (h : history) (c : call) : Prop :=
  requiresReporting addon = true /\ upgradePolicyStatusEnabled r = true /\
  match c with
  | CMutex m op => m = ocmClientMux /\ (op = RLock /\ h = [] \/ op = RUnlock)
  | CLoadOCMClient => h = [Ev (CMutex ocmClientMux RLock) tt]
  | CGetUpgradePolicy client req =>
      h = [Ev CLoadOCMClient (Some client); Ev (CMutex ocmClientMux RLock) tt] /\ Some (upg_ID req) = up_ID <$> UpgradePolicy (a_Spec addon)
  | CPatchUpgradePolicy client req =>
      Ev CLoadOCMClient (Some client) ∈ h /\ Some (upp_ID req) = up_ID <$> UpgradePolicy (a_Spec addon) /\
      (upp_Value req = UpgradePolicyValueStarted \/
       (upp_Value req = UpgradePolicyValueCompleted /\ IsAvailable addon = true /\ started_at_version addon))
  | _ => False
  end.

(** OCM accepted a value for the policy. *)
Definition patched (value : string) (h : history) : Prop :=
  exists client req, Ev (CPatchUpgradePolicy client req) None ∈ h /\ upp_Value req = value.

(** What was reported is recorded in the status. *)
Definition recorded (value : string) (addon : Addon) : Prop :=
  exists st, UpgradePolicyStatus (a_Status addon) = Some st /\ ups_Value st = value /\
    ups_Version st = Version (a_Spec addon).

Lemma completed_silent s :
  UpgradeCompleteForCurrentVersion (st_addon s) = true -> silent (handleUpgradePolicyStatusReporting r) s.
Proof.
  intros Hc h. unfold handleUpgradePolicyStatusReporting, requiresReporting. apply wpM_bind, wpM_get_addon.
  rewrite Hc, andb_false_r. by apply wpM_pure.
Qed.

Lemma recorded_complete addon :
  recorded AddonUpgradePolicyValueCompleted addon -> UpgradeCompleteForCurrentVersion addon = true.
Proof.
  intros (st & H1 & H2 & H3). unfold UpgradeCompleteForCurrentVersion. rewrite H1, H2, H3.
  by rewrite !bool_decide_true.
Qed.

Lemma set_upgrade_policy_status_spec {W} (En : env W) v s w Q :
  UpgradePolicy (a_Spec (st_addon s)) <> None ->
  (forall s', a_Spec (st_addon s') = a_Spec (st_addon s) ->
     Conditions (a_Status (st_addon s')) = Conditions (a_Status (st_addon s)) ->
     recorded v (st_addon s') -> Q w tt s') ->
  wpM En (set_upgrade_policy_status v) s w Q.
Proof.
  intros Hp HQ. unfold set_upgrade_policy_status, SetUpgradePolicyStatus. apply wpM_bind, wpM_get_addon.
  destruct (UpgradePolicy _) as [p|]; [|done]. apply wpM_bind, wpM_pure, wpM_set_addon, HQ; [done..|].
  eexists. split; [done|]. done.
Qed.

Section policy.
Context (addon : Addon).
Notation E := (hist_env (policy_call addon) (fun _ => False)).
Hypothesis Hreq : requiresReporting addon = true.
Hypothesis Hen : upgradePolicyStatusEnabled r = true.

(** The state in which the reports run: the specification and the conditions
    are the ones of the Addon, and the client was loaded. *)
Definition reporting (client : ClientOptions) (s : St) (h : history) : Prop :=
  a_Spec (st_addon s) = a_Spec addon /\
  Conditions (a_Status (st_addon s)) = Conditions (a_Status addon) /\
  Ev CLoadOCMClient (Some client) ∈ h.

Lemma policy_there : exists p, UpgradePolicy (a_Spec addon) = Some p.
Proof.
  unfold requiresReporting in Hreq. destruct (UpgradePolicy (a_Spec addon)) as [p|]; [by exists p|].
  by rewrite andb_false_r in Hreq.
Qed.

(** One patch: its value is recorded when it is accepted, and its failure is
    returned with the Addon as it was. *)
Definition after_patch (value recordedAs : string) (s : St) (h : history)
    (h' : history) (e : option error) (s' : St) : Prop :=
  match e with
  | None => patched value h' /\ recorded recordedAs (st_addon s') /\
      h `suffix_of` h' /\ a_Spec (st_addon s') = a_Spec (st_addon s) /\
      Conditions (a_Status (st_addon s')) = Conditions (a_Status (st_addon s))
  | Some _ => st_addon s' = st_addon s
  end.

Lemma reportUpgradeStarted_spec client s h :
  reporting client s h ->
  wpM E (reportUpgradeStarted client) s h
    (after_patch UpgradePolicyValueStarted AddonUpgradePolicyValueStarted s h).
Proof.
  intros (Hs & Hc & Hl). destruct policy_there as [p Hp].
  unfold reportUpgradeStarted, handlePatchUpgradePolicy, recordOCMRequestDuration.
  apply wpM_bind, wpM_get_addon. rewrite Hs, Hp. apply wpM_bind, wpM_pure.
  apply wpM_bind, wpM_bind, wpM_hist_call.
  { split; [done|]. split; [done|]. split; [done|]. rewrite Hp. split; [done|by left]. }
  intros e. apply wpM_bind, wpM_modify_recorder, wpM_pure. destruct e as [e|]; [by apply wpM_pure|].
  apply wpM_bind, set_upgrade_policy_status_spec; simpl; [by rewrite Hs, Hp|].
  intros s' Hs1 Hc1 Hr. apply wpM_pure. split; [eexists _, _; split; [left|done]|].
  split; [done|]. split; [by apply suffix_cons_r|done].
Qed.

Lemma reportUpgradeCompleted_spec client s h :
  reporting client s h -> IsAvailable addon = true -> started_at_version addon ->
  wpM E (reportUpgradeCompleted client) s h
    (after_patch UpgradePolicyValueCompleted AddonUpgradePolicyValueCompleted s h).
Proof.
  intros (Hs & Hc & Hl) Ha Hst. destruct policy_there as [p Hp].
  unfold reportUpgradeCompleted, handlePatchUpgradePolicy, recordOCMRequestDuration.
  apply wpM_bind, wpM_get_addon. rewrite Hs, Hp. apply wpM_bind, wpM_pure.
  apply wpM_bind, wpM_bind, wpM_hist_call.
  { split; [done|]. split; [done|]. split; [done|]. rewrite Hp. split; [done|by right]. }
  intros e. apply wpM_bind, wpM_modify_recorder, wpM_pure. destruct e as [e|]; [by apply wpM_pure|].
  apply wpM_bind, set_upgrade_policy_status_spec; simpl; [by rewrite Hs, Hp|].
  intros s' Hs1 Hc1 Hr. apply wpM_pure. split; [eexists _, _; split; [left|done]|].
  split; [done|]. split; [by apply suffix_cons_r|done].
Qed.

(** What a successful report says, for the Addon before it. *)
Definition reported (a : Addon) : Prop :=
  started_at_version a /\
  (started_at_version addon -> IsAvailable addon = true -> UpgradeCompleteForCurrentVersion a = true).

Lemma recorded_started v a : recorded v a -> started_at_version a.
Proof. intros (st & H1 & _ & H3). by exists st. Qed.

Lemma version_there : Version (a_Spec addon) <> "".
Proof.
  intros Hv. unfold requiresReporting in Hreq. rewrite Hv in Hreq. done.
Qed.

Lemma report_available_spec client v s h :
  reporting client s h -> IsAvailable addon = true -> started_at_version addon ->
  wpM E (report_available client v) s h (fun _ e s' => e = None -> reported (st_addon s')).
Proof.
  intros Hs Ha Hst. unfold report_available. apply wpM_bind.
  assert (forall s1 h1, reporting client s1 h1 ->
    wpM E (reportUpgradeCompleted client) s1 h1 (fun _ e s' => e = None -> reported (st_addon s'))) as Hend.
  { intros s1 h1 Hs1. eapply wpM_mono; [by apply reportUpgradeCompleted_spec|].
    intros h2 e s2 H ->. destruct H as (_ & Hr & _). split; [by eapply recorded_started|].
    intros _ _. by apply recorded_complete. }
  destruct (v =s? UpgradePolicyValueScheduled); [|by apply wpM_pure, Hend].
  apply wpM_bind. eapply wpM_mono; [by apply reportUpgradeStarted_spec|].
  intros h1 [e|] s1 H; apply wpM_pure; [by apply wpM_pure|]. destruct H as (_ & _ & Hh & H1 & H2).
  apply Hend. destruct Hs as (Hs1 & Hs2 & Hl). split; [congruence|]. split; [congruence|].
  by eapply suffix_elem_of.
Qed.

Lemma report_upgrade_policy_spec client v s h :
  st_addon s = addon -> reporting client s h ->
  wpM E (report_upgrade_policy client v) s h (fun _ e s' => e = None -> reported (st_addon s')).
Proof.
  intros Hs Hr. pose proof version_there as Hv. destruct policy_there as [p Hp].
  assert (~ started_at_version addon ->
    wpM E (reportUpgradeStarted client) s h (fun _ e s' => e = None -> reported (st_addon s'))) as Hstart.
  { intros Hn. eapply wpM_mono; [by apply reportUpgradeStarted_spec|]. intros h1 e s1 H ->.
    destruct H as (_ & H & _). split; [by eapply recorded_started|done]. }
  unfold report_upgrade_policy. apply wpM_bind, wpM_get_addon. rewrite Hs.
  destruct (UpgradePolicyStatus (a_Status addon)) as [st|] eqn:Hst.
  2: { apply Hstart. intros (st & H & _). congruence. }
  destruct (str_empty (ups_Version st) && _) eqn:E1.
  { apply wpM_bind, set_upgrade_policy_status_spec; [by rewrite Hs, Hp|]. intros s' _ _ H.
    apply wpM_pure. intros _. split; [by eapply recorded_started|]. intros _ _. by apply recorded_complete. }
  destruct (ups_Version st =s? Version (a_Spec addon)) eqn:E2; cbn [negb]; bools.
  - destruct (IsAvailable addon) eqn:Ha; [apply report_available_spec; try done; by exists st|].
    apply wpM_pure. intros _. rewrite Hs. split; [by exists st|]. intros _ H. congruence.
  - apply Hstart. intros (st' & H & ?). congruence.
Qed.
End policy.

(** The client that a load answered with. *)
Definition client_loaded (e : event) : option ClientOptions :=
  match ev_call e as c return resp c -> option ClientOptions with
  | CLoadOCMClient => fun r => r
  | _ => fun _ => None
  end (ev_resp e).

(** C29: An upgrade is reported to OCM only for an Addon with a version and an
    upgrade policy that is not yet complete: as started, or as completed when
    the Addon is available and its start at this version was recorded before.
    A report without an error leaves the version recorded; for an available
    Addon whose start was recorded before it leaves the upgrade complete, and
    then reporting again makes no call. *)
Theorem upgrade_reported_in_order (s : St) :
  wpM (hist_env (policy_call (st_addon s)) (fun _ => False)) (handleUpgradePolicyStatusReporting r) s []
    (fun h e s' => e = None -> (exists client, Ev CLoadOCMClient (Some client) ∈ h) ->
       started_at_version (st_addon s') /\
       (started_at_version (st_addon s) -> IsAvailable (st_addon s) = true ->
          UpgradeCompleteForCurrentVersion (st_addon s') = true /\
          silent (handleUpgradePolicyStatusReporting r) s')).
Proof.
  unfold handleUpgradePolicyStatusReporting at 1. apply wpM_bind, wpM_get_addon.
  destruct (requiresReporting (st_addon s)) eqn:Hreq; cbn [negb orb].
  2: { apply wpM_pure. intros _ [c Hc]. by apply not_elem_of_nil in Hc. }
  destruct (upgradePolicyStatusEnabled r) eqn:Hen; cbn [negb].
  2: { apply wpM_pure. intros _ [c Hc]. by apply not_elem_of_nil in Hc. }
  unfold with_rlock. apply wpM_locked; [by intros ? ? ? ? H; exact H|done|by do 3 (split; [done|]); left|].
  intros []. enough (wpM (hist_env (policy_call (st_addon s)) (fun _ => False)) report_policy_locked s
    [Ev (CMutex ocmClientMux RLock) tt] (fun h e s' => e = None ->
      (exists client, Ev CLoadOCMClient (Some client) ∈ h) -> reported (st_addon s) (st_addon s'))) as Hlocked.
  { eapply wpM_mono; [exact Hlocked|]. intros h e s' H. split; [by do 3 (split; [done|]); right|].
    intros [] He [c [Hc|Hc]%elem_of_cons]; [by apply (f_equal client_loaded) in Hc|].
    destruct (H He (ex_intro _ c Hc)) as [H1 H2]. split; [done|]. intros H3 H4. split; [by apply H2|].
    by apply completed_silent, H2. }
  unfold report_policy_locked. apply wpM_bind, wpM_get_addon.
  apply wpM_bind, wpM_hist_call; [done|]. intros [client|].
  2: { apply wpM_pure. intros _ [c [Hc|Hc]%elem_of_cons]; [by apply (f_equal client_loaded) in Hc|].
       by apply list_elem_of_singleton, (f_equal client_loaded) in Hc. }
  destruct (policy_there _ Hreq) as [p Hp]. rewrite Hp. apply wpM_bind, wpM_pure.
  unfold getPreviousUpgradePolicyStateValue, handleGetUpgradePolicyState, recordOCMRequestDuration.
  apply wpM_bind, wpM_bind, wpM_bind, wpM_hist_call.
  { split; [done|]. split; [done|]. split; [done|]. by rewrite Hp. }
  intros [res|e]; apply wpM_bind, wpM_modify_recorder, wpM_pure, wpM_pure; [|by apply wpM_pure].
  eapply wpM_mono; [apply report_upgrade_policy_spec; [done|done|done|]|].
  - split; [done|]. split; [done|]. right. left.
  - intros h e s' H He _. by apply H.
Qed.
End ReportingTheorems.
