(* ===== verification/OcmRoundTrip.v ===== *)
(** * The OCM client against the API mock

    Requests go below the configured endpoint, and what the client writes to
    the mock it reads back: the status of an Addon, the state of an upgrade
    policy, and the cluster of a new client. *)
From S2P Require Export ApiMock Reporting.

(** ** URLs of requests *)

Fixpoint slash_run (n : nat) : string := match n with 0 => "" | S n => "/" +:+ slash_run n end.

Lemma trim_left_run n s : str_in "/" s = false -> trim_left "/" (slash_run n +:+ s) = s.
Proof.
  intros Hs. induction n as [|n IH]; simpl.
  - destruct s as [|c s]; [done|]. simpl in *. by apply orb_false_iff in Hs as [-> _].
  - done.
Qed.

Lemma trim_right_app_empty c a b : trim_right c b = "" -> trim_right c (a +:+ b) = trim_right c a.
Proof. intros Hb. induction a as [|d a IH]; [done|]. rewrite str_app_cons. simpl. by rewrite IH. Qed.

Lemma trim_right_run n : trim_right "/" (slash_run n) = "".
Proof.
  induction n as [|n IH]; [done|]. change (slash_run (S n)) with (String "/" (slash_run n)). cbn [trim_right].
  by rewrite IH.
Qed.

Lemma trim_right_kept c a b : str_in c b = false -> b <> "" -> trim_right c (a +:+ b) = a +:+ b.
Proof.
  intros Hb Hne. assert (forall s, s <> "" -> str_in c s = false -> trim_right c s = s) as Hs.
  { induction s as [|d s IH]; [done|]. simpl. intros _ [H1 H2]%orb_false_iff. destruct s as [|e s].
    - simpl. by rewrite H1.
    - by rewrite IH. }
  induction a as [|d a IH]; [by apply Hs|]. rewrite str_app_cons. simpl. rewrite IH.
  destruct (a +:+ b) eqn:E; [|done]. destruct a; simpl in E; [by subst|done].
Qed.

Lemma segment_no_slash s : segment s -> s <> "" /\ str_in "/" s = false.
Proof. intros [[Hs _] Hp]. split; [done|]. by apply plain_no_slash. Qed.

Lemma join_start s segs rest :
  segment s -> str_in "/" rest = false -> trim_left "/" (GoStd.join "/" (s :: segs)) = GoStd.join "/" (s :: segs).
Proof.
  intros [Hne Hs]%segment_no_slash _. destruct s as [|c s]; [done|]. simpl in Hs.
  apply orb_false_iff in Hs as [Hs _]. destruct segs; simpl; by rewrite Hs.
Qed.

Lemma trim_left_run_join n s segs :
  segment s -> trim_left "/" (slash_run n +:+ GoStd.join "/" (s :: segs)) = GoStd.join "/" (s :: segs).
Proof.
  intros Hs. induction n as [|n IH]; [by apply (join_start s segs "")|done].
Qed.

(** The URL of a site and the segments below it. *)
Definition site_path (x : plain_site) (l : list string) : string := site_url x +:+ slashes l.

Lemma site_path_not_trimmed x l n :
  site_ok x = true -> Forall segment l -> trim_right "/" (site_path x l +:+ slash_run n) = site_path x l.
Proof.
  intros Hx Hl. rewrite trim_right_app_empty by apply trim_right_run. unfold site_path.
  destruct (decide (l = [])) as [->|Hne].
  - simpl. rewrite str_append_empty_r. unfold site_url. rewrite <- str_append_assoc.
    pose proof (authority_chars x Hx) as Ha. destruct (site_parts x Hx) as (_ & _ & Hh & _).
    apply trim_right_kept; [not_in|]. unfold site_authority. by destruct (site_host x).
  - destruct (exists_last Hne) as (l' & s & ->). apply Forall_app in Hl as [_ [Hs _]%Forall_cons].
    apply segment_no_slash in Hs as [Hs1 Hs2]. rewrite slashes_app. simpl. rewrite str_append_empty_r, <- !str_append_assoc.
    by apply trim_right_kept.
Qed.

Section Urls.
Context {N : Platform} (x : plain_site).
Hypothesis Hx : site_ok x = true.

Lemma request_url_below dirs s segs params endpoint n :
  Forall segment dirs -> Forall segment (s :: segs) -> endpoint = site_path x dirs +:+ "/" ->
  request_url endpoint (slash_run n +:+ GoStd.join "/" (s :: segs)) params =
    Some (site_path x (dirs ++ s :: segs) +:+
          (if decide (params = ∅) then "" else "?" +:+ Values_Encode params)).
Proof.
  intros Hd Hs ->. unfold request_url.
  assert (exists p, slashes dirs +:+ "/" = "/" +:+ p /\ all_chars path_char p = true) as (p & Hp & Hc).
  { pose proof (slashes_chars _ Hd) as Hc. destruct dirs as [|d dirs]; [by exists ""|].
    simpl in Hc |- *. eexists. split; [done|]. rewrite !all_chars_app in *. apply andb_true_iff in Hc as [_ Hc].
    by rewrite Hc. }
  pose proof (Parse_plain ip6_literal x Hx p "" Hc eq_refl) as HP. simpl in HP. rewrite str_append_empty_r in HP.
  unfold site_path at 1. rewrite str_append_assoc, Hp. rewrite HP.
  rewrite trim_left_run_join by by apply Forall_cons in Hs as [? _].
  rewrite (resolve_plain x _ dirs s segs) by (try done; simpl; by rewrite Hp).
  f_equal. assert (exists q, slashes (dirs ++ s :: segs) = "/" +:+ q /\ all_chars path_char q = true) as (q & Hq & Hqc).
  { assert (Forall segment (dirs ++ s :: segs)) as Hall by by apply Forall_app.
    pose proof (slashes_chars _ Hall) as H. destruct (dirs ++ s :: segs) as [|t l] eqn:E; [by destruct dirs|].
    simpl in H |- *. eexists. split; [done|]. rewrite !all_chars_app in *. by apply andb_true_iff in H as [_ H]. }
  rewrite Hq, URL_String_plain by done. unfold site_path. rewrite Hq.
  destruct (decide (params = ∅)); [by rewrite str_append_empty_r|done].
Qed.

(** Requests go below the configured endpoint: when its scheme, host, port
    and path are of plain characters, with any number of slashes at its end,
    the URL of a request is the endpoint followed, after exactly one slash, by
    the path of the request, whose leading slashes do not count, and by its
    encoded parameters if there are any. *)
Theorem requests_below_endpoint (dirs segs : list string) (s : string) (params : Values) (o : ClientOptions) (n m : nat) :
  Forall segment dirs -> Forall segment (s :: segs) ->
  request_url (Endpoint_ (WithEndpoint (site_path x dirs +:+ slash_run n) o))
      (slash_run m +:+ GoStd.join "/" (s :: segs)) params =
    Some (site_path x (dirs ++ s :: segs) +:+
          (if decide (params = ∅) then "" else "?" +:+ Values_Encode params)).
Proof.
  intros Hd Hs. apply request_url_below; [done..|]. simpl. by rewrite site_path_not_trimmed.
Qed.
End Urls.

(** ** One request *)

Section Mock.
Context {N : Platform} {R : Router} {ROk : RouterOk R} (float : number -> number) (x : plain_site).
Hypothesis Hx : site_ok x = true.
#[local] Instance transport : Transport mock := mock_transport float.

(** The endpoint and the variables for the segments of a path. *)
Fixpoint route_segments (l : list (string * endpoint)) (segs : list string)
  : option (endpoint * list (string * string)) :=
  match l with
  | [] => None
  | (template, e) :: l' =>
      match match_segments (split_on "/" template) ("" :: segs) with
      | Some vars => Some (e, vars)
      | None => route_segments l' segs
      end
  end.

Lemma find_route_segments l segs :
  Forall segment segs -> find_route l (slashes segs) = route_segments l segs.
Proof.
  intros Hs. induction l as [|[template e] l IH]; [done|]. simpl.
  rewrite router_law, split_slashes, IH by (try done; rewrite split_slashes by done; simpl;
    by eapply Forall_impl; [exact Hs|intros s [? _]]). done.
Qed.

(** The parameters a request of the client has. *)
Definition client_params (params : Values) : Prop := params = ∅ \/ exists k v, params = Values_Add k v ∅.

Definition mock_endpoint (o : ClientOptions) : Prop := Endpoint_ o = site_url x +:+ "/".

Lemma serve_plain m method headers body s segs params :
  Forall segment (s :: segs) -> client_params params ->
  let url := site_path x (s :: segs) +:+ (if decide (params = ∅) then "" else "?" +:+ Values_Encode params) in
  is_Some (Parse ip6_literal url) /\
  serve float m (mkHttpRequest method url headers body) =
    match route_segments routes (s :: segs) with
    | None => (inl (mkHttpResponse StatusNotFound (inl (line "404 page not found"))), m)
    | Some (e, vars) =>
        let '(a, m') := serve_endpoint float e (mkServerRequest method vars params (Some body)) m in
        (inl (mkHttpResponse (rp_status a) (inl (rp_body a))), m')
    end.
Proof.
  intros Hs Hp url. unfold serve. simpl rq_url.
  assert (exists q, slashes (s :: segs) = "/" +:+ q /\ all_chars path_char q = true) as (q & Hq & Hqc).
  { pose proof (slashes_chars _ Hs) as H. simpl in H |- *. eexists. split; [done|].
    rewrite !all_chars_app in *. by apply andb_true_iff in H as [_ H]. }
  assert (exists query, url = site_url x +:+ "/" +:+ q +:+ query_suffix query /\
    all_chars query_char query = true /\ forall u, u_RawQuery u = query -> Query u = params) as (query & -> & Hc & HQ).
  { subst url. unfold site_path. rewrite Hq, !str_append_assoc. destruct Hp as [->|(k & v & ->)].
    - exists "". split; [by rewrite decide_True|]. split; [done|]. intros u Hu. unfold Query. by rewrite Hu.
    - exists (Values_Encode (Values_Add k v ∅)). rewrite decide_False.
      2: { unfold Values_Add. apply insert_non_empty. }
      split; [|split; [apply Encode_single_chars|intros u; apply Query_single]].
      unfold query_suffix. rewrite bool_decide_false; [done|].
      rewrite Values_Encode_single. by destruct (QueryEscape k). }
  rewrite (Parse_plain ip6_literal x Hx) by done. split; [done|]. simpl u_Path.
  rewrite <- Hq, find_route_segments by done. rewrite HQ by done. done.
Qed.

Lemma do_on_mock {A} o method path n s segs params payload (d : decoder A) zero m :
  mock_endpoint o -> Forall segment (s :: segs) -> client_params params ->
  path = slash_run n +:+ GoStd.join "/" (s :: segs) ->
  exists url, do o method path params payload d zero m =
    match route_segments routes (s :: segs) with
    | None => (handle_response url d zero (mkHttpResponse StatusNotFound (inl (line "404 page not found"))), m)
    | Some (e, vars) =>
        let '(a, m') := serve_endpoint float e (mkServerRequest method vars params (Some (Marshal payload))) m in
        (handle_response url d zero (mkHttpResponse (rp_status a) (inl (rp_body a))), m')
    end.
Proof.
  intros Ho Hs Hp ->. unfold do.
  rewrite (request_url_below x Hx [] s segs params _ n)
    by (done || unfold site_path; simpl; by rewrite str_append_empty_r).
  simpl app. destruct (serve_plain m method (request_headers o) (Marshal payload) s segs params Hs Hp) as [[u Hu] Hserve].
  rewrite Hu. unfold exchange, transport, mock_transport. rewrite Hserve. eexists.
  destruct (route_segments routes (s :: segs)) as [[e vars]|]; [|done]. by destruct (serve_endpoint _ _ _ _).
Qed.


(** ** The status of an Addon *)

(** What the mock stores for a post, and what it answers. *)
Definition stored_status (r : AddOnStatusPostRequest) : addonStatus :=
  mkAddonStatusData (post_AddonID r) (post_CorrelationID r) (post_AddonVersion r)
    (Some (map (fun c => any_value float (condition_json c)) (post_StatusConditions r))).
Definition status_response (r : AddOnStatusPostRequest) : AddOnStatusResponse :=
  mkStatusRes "" (post_AddonID r) (post_CorrelationID r) (post_AddonVersion r)
    (Some (mkSlice (post_StatusConditions r) [])).

Lemma parse_line v :
  writable v = true -> (nesting v <= max_depth)%N -> parse_json (line (Marshal v)) = Some v.
Proof.
  intros Hv Hd. unfold parse_json, line.
  destruct (reads_all (S (String.length (Marshal v +:+ nl)))) as [H _].
  rewrite H; [done|done|done|]. rewrite length_append. lia.
Qed.

Lemma nesting_conditions f l :
  (forall c : AddOnStatusCondition, (nesting (f c) <= 1)%N) -> (nesting (JArray (map f l)) <= 2)%N.
Proof.
  intros Hf. cbn [nesting]. induction l as [|c l IH]; [done|]. specialize (Hf c). simpl in *. lia.
Qed.

Lemma decode_conditions (f : AddOnStatusCondition -> json) l :
  (forall c, decode_condition (f c) zero_condition = (c, true)) ->
  decode_slice decode_condition zero_condition (JArray (map f l)) None = (Some (mkSlice l []), true).
Proof.
  intros Hf. destruct l as [|c l]; [done|]. unfold decode_slice. rewrite map_cons, <- map_cons.
  rewrite (decode_elements_fresh _ _ _ (c :: l)); [done|]. generalize (c :: l). clear c l.
  induction l as [|c l IH]; constructor; auto.
Qed.

Lemma decode_condition_json c : decode_condition (condition_json c) zero_condition = (c, true).
Proof. by destruct c. Qed.
Lemma decode_condition_any c : decode_condition (any_value float (condition_json c)) zero_condition = (c, true).
Proof. by destruct c. Qed.

(** A response with these members decodes to these values. *)
Lemma decode_response id corr version f l :
  (forall c, decode_condition (f c) zero_condition = (c, true)) ->
  decode_status_response (JObject [("addon_id", JString id); ("correlation_id", JString corr);
    ("version", JString version); ("status_conditions", JArray (map f l))]) zero_status_response =
  (mkStatusRes "" id corr version (Some (mkSlice l [])), true).
Proof.
  intros Hf. eapply (decode_last _ [("addon_id", JString id); ("correlation_id", JString corr); ("version", JString version)]
    "status_conditions"); [reflexivity|reflexivity|].
  exact (with_field_decodes "status_conditions" asr_StatusConditions _ _ _ (mkStatusRes "" id corr version None)
    _ _ (decode_conditions f l Hf)).
Qed.

Lemma decode_posted r :
  writable (post_json r) = true -> decode_status float (post_json r) zero_status = (stored_status r, true).
Proof.
  intros Hw. eapply (decode_last _ [("addon_id", JString (post_AddonID r));
    ("correlation_id", JString (post_CorrelationID r)); ("version", JString (post_AddonVersion r))]
    "status_conditions"); [reflexivity|reflexivity|].
  apply (with_field_decodes "status_conditions" as_StatusConditions
    (fun l a => mkAddonStatusData (as_AddonID a) (as_CorrelationID a) (as_AddonVersion a) l) (decode_any_slice float)
    _ (mkAddonStatusData (post_AddonID r) (post_CorrelationID r) (post_AddonVersion r) None)).
  unfold decode_any_slice. rewrite map_map, writable_fits; [done|].
  cbn [post_json writable forallb] in Hw |- *. by bools.
Qed.

Lemma nesting_payload k k1 k2 k3 a b c v :
  (nesting v <= 2)%N ->
  (nesting (JObject [(k1, JString a); (k2, JString b); (k3, JString c); (k, v)]) <= max_depth)%N.
Proof. intros Hv. unfold max_depth. cbn [nesting fold_right map]. lia. Qed.

Lemma nesting_post r : (nesting (post_json r) <= max_depth)%N.
Proof. apply nesting_payload. exact (nesting_conditions condition_json _ (fun c => N.le_refl 1)). Qed.

Lemma nesting_stored r : (nesting (status_json (stored_status r)) <= max_depth)%N.
Proof.
  apply nesting_payload. exact (nesting_conditions (fun c => any_value float (condition_json c)) _ (fun c => N.le_refl 1)).
Qed.

Lemma writable_any c : writable (condition_json c) = true -> writable (any_value float (condition_json c)) = true.
Proof. destruct c as [a b d e]. simpl. intros H. bools. repeat (apply andb_true_iff; split); done. Qed.

Lemma writable_stored r : writable (post_json r) = true -> writable (status_json (stored_status r)) = true.
Proof.
  intros Hw. change (status_json (stored_status r)) with
    (JObject [("addon_id", JString (post_AddonID r)); ("correlation_id", JString (post_CorrelationID r));
              ("version", JString (post_AddonVersion r));
              ("status_conditions", JArray (map (fun c => any_value float (condition_json c)) (post_StatusConditions r)))]).
  unfold post_json in Hw. cbn [writable forallb] in Hw |- *. bools.
  repeat (apply andb_true_iff; split); try done.
  match goal with H : forallb _ (map condition_json _) = true |- _ => rename H into Hl end.
  apply forallb_forall. intros j (c & <- & Hc)%in_map_iff. apply writable_any.
  rewrite forallb_forall in Hl. apply Hl. by apply in_map.
Qed.

Definition status_key (o : ClientOptions) (id : string) : addonStatusKey := mkStatusKey (ClusterID o) id.

Lemma status_segments c : segment c -> Forall segment ["api"; "addons_mgmt"; "v1"; "clusters"; c; "status"].
Proof. intros Hc. repeat constructor; done || apply Hc. Qed.

Lemma get_status_on_mock o id m :
  mock_endpoint o -> segment (ClusterID o) -> segment id ->
  exists url, GetAddOnStatus o id m =
    (match m_statuses m !! status_key o id with
     | Some data => handle_response url decode_status_response zero_status_response
         (mkHttpResponse StatusOK (inl (line (marshalAddonStatus data))))
     | None => handle_response url decode_status_response zero_status_response
         (mkHttpResponse StatusNotFound (inl (line (dq "{'code':'not found','reason':'addon status not found'}"))))
     end, m).
Proof.
  intros Ho Hc Hi. unfold GetAddOnStatus.
  assert (Forall segment ["api"; "addons_mgmt"; "v1"; "clusters"; ClusterID o; "status"; id]) as Hs
    by (repeat constructor; done || apply Hc || apply Hi).
  destruct (do_on_mock o MethodGet (status_path o +:+ "/" +:+ id) 1 "api"
    ["addons_mgmt"; "v1"; "clusters"; ClusterID o; "status"; id] ∅ (JObject []) decode_status_response
    zero_status_response m Ho Hs) as [url ->]; [by left|by unfold status_path; rewrite !str_append_assoc|].
  exists url. destruct Hc as [[Hc _] _], Hi as [[Hi _] _]. unfold status_key.
  destruct (ClusterID o) as [|a c]; [done|]. destruct id as [|b i]; [done|].
  change (route_segments routes _) with (Some (AddonStatusEndpoint, [("cluster_id", String a c); ("addon_id", String b i)])).
  cbv iota beta. unfold serve_endpoint, status_ServeHTTP. rewrite bool_decide_true by done.
  change (var _ "cluster_id") with (String a c). change (var _ "addon_id") with (String b i).
  by destruct (m_statuses m !! _).
Qed.

Lemma post_status_on_mock o r m :
  mock_endpoint o -> segment (ClusterID o) ->
  exists url, PostAddOnStatus o r m =
    let '(a, m') := status_create_ServeHTTP float
      (mkServerRequest MethodPost [("cluster_id", ClusterID o)] ∅ (Some (Marshal (post_json r)))) m in
    (handle_response url decode_status_response zero_status_response (mkHttpResponse (rp_status a) (inl (rp_body a))), m').
Proof.
  intros Ho Hc. unfold PostAddOnStatus. pose proof (status_segments _ Hc) as Hs.
  destruct (do_on_mock o MethodPost (status_path o) 1 "api" ["addons_mgmt"; "v1"; "clusters"; ClusterID o; "status"]
    ∅ (post_json r) decode_status_response zero_status_response m Ho Hs) as [url ->]; [by left|done|].
  exists url. destruct Hc as [[Hc _] _]. destruct (ClusterID o) as [|a c]; [done|].
  change (route_segments routes _) with (Some (AddonStatusCreateEndpoint, [("cluster_id", String a c)])). done.
Qed.

Lemma handle_ok {A} url (d : decoder A) zero status v a :
  is_error_status status = false -> writable v = true -> (nesting v <= max_depth)%N -> d v zero = (a, true) ->
  handle_response url d zero (mkHttpResponse status (inl (line (Marshal v)))) = inl a.
Proof.
  intros Hs Hw Hn Hd. unfold handle_response. simpl. rewrite Hs. unfold Unmarshal_into. by rewrite parse_line, Hd.
Qed.

(** What a post does to the mock. *)
Lemma post_accepted o r m :
  mock_endpoint o -> segment (ClusterID o) -> post_AddonID r <> "" -> writable (post_json r) = true ->
  m_FailOnAddonStatusCreateEndpoint m = false ->
  PostAddOnStatus o r m =
    (inl (status_response r), store_status (status_key o (post_AddonID r)) (stored_status r) m).
Proof.
  intros Ho Hc Hid Hw Hf. destruct (post_status_on_mock o r m Ho Hc) as [url ->].
  unfold status_create_ServeHTTP. rewrite bool_decide_true, Hf by done. cbn [sr_Body]. cbv iota.
  unfold Unmarshal_into. rewrite (parse_Marshal (post_json r)) by (done || apply nesting_post).
  rewrite decode_posted by done. change (as_AddonID (stored_status r)) with (post_AddonID r).
  rewrite bool_decide_false by done. cbn [rp_status rp_body].
  rewrite (handle_ok _ _ _ _ _ (status_response r)); [done|done|done|apply nesting_post|].
  by apply decode_response, decode_condition_json.
Qed.

Lemma post_failed o r m :
  mock_endpoint o -> segment (ClusterID o) -> m_FailOnAddonStatusCreateEndpoint m = true ->
  PostAddOnStatus o r m = (inr (ErrOCM 400 "OCM-MGMT" "mock failure on addon status create endpoint"), m).
Proof.
  intros Ho Hc Hf. destruct (post_status_on_mock o r m Ho Hc) as [url ->]. unfold status_create_ServeHTTP.
  rewrite bool_decide_true, Hf by done. reflexivity.
Qed.

Lemma get_stored o r m :
  mock_endpoint o -> segment (ClusterID o) -> segment (post_AddonID r) -> writable (post_json r) = true ->
  m_statuses m !! status_key o (post_AddonID r) = Some (stored_status r) ->
  GetAddOnStatus o (post_AddonID r) m = (inl (status_response r), m).
Proof.
  intros Ho Hc Hid Hw Hl. destruct (get_status_on_mock o _ m Ho Hc Hid) as [url ->]. rewrite Hl. f_equal.
  apply handle_ok; [done|by apply writable_stored|apply nesting_stored|].
  apply (decode_response _ _ _ (fun c => any_value float (condition_json c))), decode_condition_any.
Qed.

(** C31: A status that the client posts to the mock is the one it reads back: the
    post is accepted and answered with the posted fields and conditions, every
    later read of this Addon and cluster answers the same until the mock's entry
    changes, and the reads of every other Addon or cluster answer what they did
    before. When the mock is configured to fail, the post is an OCM error with
    the status code and the reason of the mock, and the mock is unchanged. The
    endpoint is the mock's; the cluster and Addon identifiers are non-empty path
    segments of characters that need no escape, other than . and ..; and the
    posted strings are valid UTF-8. *)
Theorem posted_status_is_read (o : ClientOptions) (r : AddOnStatusPostRequest) (m : mock) :
  mock_endpoint o -> segment (ClusterID o) -> segment (post_AddonID r) -> writable (post_json r) = true ->
  if m_FailOnAddonStatusCreateEndpoint m then
    PostAddOnStatus o r m = (inr (ErrOCM 400 "OCM-MGMT" "mock failure on addon status create endpoint"), m)
  else
    exists m', PostAddOnStatus o r m = (inl (status_response r), m') /\
      (forall w, m_statuses w !! status_key o (post_AddonID r) = m_statuses m' !! status_key o (post_AddonID r) ->
         GetAddOnStatus o (post_AddonID r) w = (inl (status_response r), w)) /\
      (forall k, k <> status_key o (post_AddonID r) -> m_statuses m' !! k = m_statuses m !! k) /\
      m_policies m' = m_policies m.
Proof.
  intros Ho Hc Hid Hw. destruct (m_FailOnAddonStatusCreateEndpoint m) eqn:Hf.
  - by apply post_failed.
  - eexists. split; [apply post_accepted; try done; apply Hid|]. split_and!; [|intros k Hk; by apply lookup_insert_ne|done].
    intros w Hl. apply get_stored; try done. rewrite Hl. apply lookup_insert_eq.
Qed.

(** ** Upgrade policies *)

Lemma policy_request {A} o method id payload (d : decoder A) zero m :
  mock_endpoint o -> segment (ClusterID o) -> segment id ->
  exists url, do o method (policy_path o id) ∅ payload d zero m =
    let '(a, m') := policy_ServeHTTP
      (mkServerRequest method [("cluster_id", ClusterID o); ("upgrade_policy_id", id)] ∅ (Some (Marshal payload))) m in
    (handle_response url d zero (mkHttpResponse (rp_status a) (inl (rp_body a))), m').
Proof.
  intros Ho Hc Hi.
  assert (Forall segment ["api"; "clusters_mgmt"; "v1"; "clusters"; ClusterID o; "addon_upgrade_policies"; id; "state"]) as Hs
    by (repeat constructor; done || apply Hc || apply Hi).
  destruct (do_on_mock o method (policy_path o id) 0 "api"
    ["clusters_mgmt"; "v1"; "clusters"; ClusterID o; "addon_upgrade_policies"; id; "state"] ∅ payload d zero m Ho Hs)
    as [url ->]; [by left|unfold policy_path; by rewrite ?str_append_assoc|].
  exists url. destruct Hc as [[Hc _] _], Hi as [[Hi _] _].
  destruct (ClusterID o) as [|a c]; [done|]. destruct id as [|b i]; [done|].
  change (route_segments routes _) with
    (Some (UpgradePolicyStateEndpoint, [("cluster_id", String a c); ("upgrade_policy_id", String b i)])). done.
Qed.

(** A state of an upgrade policy that the client writes to the mock is the
    one it reads back, for this policy and cluster only. *)
Theorem patched_policy_is_read (o : ClientOptions) (req : UpgradePolicyPatchRequest) (m : mock) :
  mock_endpoint o -> segment (ClusterID o) -> segment (upp_ID req) -> writable (upgrade_patch_json req) = true ->
  exists m', PatchUpgradePolicy o req m = (inl tt, m') /\
    GetUpgradePolicy o (mkUPGet (upp_ID req)) m' = (inl (mkUPGetRes (upp_Value req) (upp_Description req)), m') /\
    (forall k, k <> mkPolicyKey (ClusterID o) (upp_ID req) -> m_policies m' !! k = m_policies m !! k) /\
    m_statuses m' = m_statuses m.
Proof.
  intros Ho Hc Hi Hw. unfold PatchUpgradePolicy, GetUpgradePolicy. simpl upg_ID.
  destruct (policy_request o MethodPatch (upp_ID req) (upgrade_patch_json req) decode_nothing tt m Ho Hc Hi) as [url ->].
  unfold policy_ServeHTTP at 1. rewrite bool_decide_true by done. cbn [sr_Body]. cbv iota beta. eexists. split.
  { rewrite (handle_ok _ _ _ _ (JObject []) tt); done. }
  split_and!; [|intros k Hk; by apply lookup_insert_ne|done]. set (m' := store_policy _ _ m).
  destruct (policy_request o MethodGet (upp_ID req) (upgrade_get_json (mkUPGet (upp_ID req))) decode_policy
    (mkUPGetRes "" "") m' Ho Hc Hi) as [url' ->].
  unfold policy_ServeHTTP. rewrite bool_decide_false, bool_decide_true by done.
  change (policy_key (mkServerRequest ?q _ _ _)) with (mkPolicyKey (ClusterID o) (upp_ID req)).
  assert (m_policies m' !! mkPolicyKey (ClusterID o) (upp_ID req) = Some (Marshal (upgrade_patch_json req))) as ->
    by apply lookup_insert_eq.
  cbv iota beta. cbn [rp_status rp_body].
  rewrite (handle_ok _ _ _ _ (upgrade_patch_json req) (mkUPGetRes (upp_Value req) (upp_Description req))); done.
Qed.

(** ** The cluster of a client *)

Lemma parse_string_plain s rest : plain s = true -> parse_string (s +:+ String json_quote rest) = Some (s, rest).
Proof.
  intros Hs. induction s as [|c s IH]; [done|]. unfold plain in Hs. simpl in Hs. apply andb_true_iff in Hs as [Hc Hs].
  assert ((34 <? byte_code c)%N && negb (byte_code c =? 92)%N && (byte_code c <? 128)%N = true) as Hb.
  { revert c Hc. apply char_cases. by vm_compute. }
  apply andb_true_iff in Hb as [[H1 H2]%andb_true_iff H3]. rewrite str_app_cons. cbn [parse_string].
  rewrite N.ltb_lt in H1. rewrite (proj2 (N.eqb_neq (byte_code c) 34)) by lia.
  apply negb_true_iff in H2. rewrite H2, (proj2 (N.ltb_ge _ _)), H3 by lia. by rewrite IH.
Qed.

Definition clusters_value (id : string) : json :=
  JObject [("items", JArray [JObject [("kind", JString "Cluster"); ("id", JString MockClusterId);
    ("name", JString MockClusterName); ("external_id", JString id)]])].

(** Steps of the parsers, from the results for what follows. *)
Lemma members_more n d text k r1 v r2 r3 l r :
  parse_name text = Some (k, r1) -> parse_value n d r1 = Some (v, r2) -> next_separator 125 r2 = Some (More r3) ->
  parse_members n d r3 = Some (l, r) -> parse_members (S n) d text = Some ((k, v) :: l, r).
Proof. intros H1 H2 H3 H4. cbn [parse_members]. by rewrite H1, H2, H3, H4. Qed.
Lemma members_last n d text k r1 v r2 r :
  parse_name text = Some (k, r1) -> parse_value n d r1 = Some (v, r2) -> next_separator 125 r2 = Some (Closed r) ->
  parse_members (S n) d text = Some ([(k, v)], r).
Proof. intros H1 H2 H3. cbn [parse_members]. by rewrite H1, H2, H3. Qed.
Lemma elements_last n d text v r1 r :
  parse_value n d text = Some (v, r1) -> next_separator 93 r1 = Some (Closed r) ->
  parse_elements (S n) d text = Some ([v], r).
Proof. intros H1 H2. cbn [parse_elements]. by rewrite H1, H2. Qed.
Lemma value_object n d c text r l r2 :
  (d =? 0)%N = false -> skip_space text = String c r -> (byte_code c =? 125)%N = false ->
  parse_members n (N.pred d) text = Some (l, r2) -> parse_value (S n) d (String "{" text) = Some (JObject l, r2).
Proof. intros Hd H1 H2 H3. simpl. by rewrite Hd, H1, H2, H3. Qed.
Lemma value_array n d c text r l r2 :
  (d =? 0)%N = false -> skip_space text = String c r -> (byte_code c =? 93)%N = false ->
  parse_elements n (N.pred d) text = Some (l, r2) -> parse_value (S n) d (String " " (String "[" text)) = Some (JArray l, r2).
Proof. intros Hd H1 H2 H3. simpl. by rewrite Hd, H1, H2, H3. Qed.
Lemma value_string n d text s r :
  parse_string text = Some (s, r) -> parse_value (S n) d (String " " (String json_quote text)) = Some (JString s, r).
Proof. intros H. simpl. by rewrite H. Qed.

Lemma parse_clusters id :
  plain id = true ->
  parse_json (dq "{'items': [{'kind': 'Cluster','id': '" +:+ MockClusterId +:+ dq "','name': '" +:+ MockClusterName +:+
    dq "', 'external_id': '" +:+ id +:+ dq "'}]}") = Some (clusters_value id).
Proof.
  intros Hid. unfold parse_json.
  assert (parse_string (id +:+ dq "'}]}") = Some (id, "}]}")) as Htail by by apply parse_string_plain.
  set (tail := id +:+ dq "'}]}") in *.
  assert (parse_value 30 max_depth (dq "{'items': [{'kind': 'Cluster','id': '" +:+ MockClusterId +:+ dq "','name': '" +:+
    MockClusterName +:+ dq "', 'external_id': '" +:+ tail) = Some (clusters_value id, "")) as H.
  { eapply value_object; [reflexivity..|]. eapply members_last; [reflexivity| |]; cycle 1.
    2: { eapply value_array; [reflexivity..|]. eapply elements_last; cycle 1.
         2: { eapply value_object; [reflexivity..|]. do 3 (eapply members_more; [reflexivity|reflexivity|reflexivity|]).
              eapply members_last; [reflexivity|eapply value_string; exact Htail|reflexivity]. }
         reflexivity. }
    reflexivity. }
  apply parse_enough_fuel in H. by rewrite H.
Qed.

Lemma plain_no_newline s t : plain s = true -> upto_newline (s +:+ t) = s +:+ upto_newline t.
Proof.
  induction s as [|c s IH]; [done|]. unfold plain. simpl. intros [Hc Hs]%andb_true_iff. rewrite str_app_cons. simpl.
  assert (negb (byte_code c =? 10)%N = true) as Hn by (revert c Hc; apply char_cases; by vm_compute).
  apply negb_true_iff in Hn. by rewrite Hn, IH.
Qed.

Lemma quoted_search id : plain id = true -> quoted ("external_id = '" +:+ id +:+ "'") = Some id.
Proof.
  intros Hid. transitivity (match cut_last "'" (upto_newline (id +:+ "'")) with
    | Some (inside, _) => Some inside | None => quoted (id +:+ "'") end); [reflexivity|].
  rewrite plain_no_newline by done. change (upto_newline "'") with (String "'" ""). by rewrite cut_last_app.
Qed.

Lemma trim_quotes_plain id : plain id = true -> trim_quotes id = id.
Proof.
  intros Hid. assert (str_in "'" id = false) as Hq by (unfold plain in Hid; not_in).
  unfold trim_quotes. destruct id as [|c id]; [done|].
  assert (trim_left "'" (String c id) = String c id) as ->.
  { simpl in *. by apply orb_false_iff in Hq as [-> _]. }
  by apply (trim_right_kept "'" "").
Qed.

Lemma GetCluster_on_mock o m :
  mock_endpoint o -> plain (ClusterExternalID o) = true ->
  GetCluster o m = (inl (mkClusterRes [mkCluster MockClusterId MockClusterName (ClusterExternalID o)]), m).
Proof.
  intros Ho Hid. unfold GetCluster.
  assert (Forall segment ["api"; "clusters_mgmt"; "v1"; "clusters"]) as Hs by (repeat constructor; done).
  set (search := "external_id = '" +:+ ClusterExternalID o +:+ "'").
  destruct (do_on_mock o MethodGet "/api/clusters_mgmt/v1/clusters" 1 "api" ["clusters_mgmt"; "v1"; "clusters"]
    (Values_Add "search" search ∅) (JObject []) decode_clusters None m Ho Hs) as [url ->];
    [by right; eexists _, _|done|].
  change (route_segments routes _) with (Some (ClustersEndpoint, @nil (string * string))). cbv iota beta.
  unfold serve_endpoint, clusters_ServeHTTP. rewrite bool_decide_true by done. cbn [sr_Query].
  assert (Values_Get (Values_Add "search" search ∅) "search" = search) as ->.
  { unfold Values_Get, Values_Add. by rewrite lookup_empty, lookup_insert_eq. }
  subst search. rewrite quoted_search, trim_quotes_plain by done. cbv zeta iota beta. cbn [rp_status rp_body].
  unfold handle_response. cbn [rs_status rs_body]. change (is_error_status StatusOK) with false. cbv iota.
  unfold Unmarshal_into. rewrite parse_clusters by done. reflexivity.
Qed.

(** A new client against the mock knows the cluster of the mock: its external
    ID makes the way through the query string, the search expression and the
    JSON of the answer, and the options of the client are those given, with the
    ID and the name of the cluster. *)
Theorem new_client_knows_cluster {S} (opts : list Option) (s : S) (other : server mock) (m : mock) :
  mock_endpoint (client_options opts) -> plain (ClusterExternalID (client_options opts)) = true ->
  run (with_ocm other) (NewClient opts s) m =
    (inl (inl (with_cluster (mkCluster MockClusterId MockClusterName (ClusterExternalID (client_options opts)))
                 (client_options opts)), s), m) /\
      GetClusterIDAndName (with_cluster (mkCluster MockClusterId MockClusterName (ClusterExternalID (client_options opts)))
    (client_options opts)) = (MockClusterId, MockClusterName).
Proof.
  intros Ho Hid. split; [|done]. unfold NewClient, mthen, do_call. cbn [run pbind].
  unfold with_ocm at 1. rewrite GetCluster_on_mock by done. reflexivity.
Qed.

(** ** Reporting through the client *)

(** C12: What the Addon controller reports reaches OCM: with a client for the mock
    in the shared variable, a status report that is due leaves the Addon's
    name, correlation ID, version and conditions in the mock's store, where a
    read of the client finds them, and remembers the status as reported; when
    the mock fails the report returns its OCM error, and neither the store nor
    the Addon changes, so that the report stays due. *)
Theorem report_reaches_ocm {L : Lib} (r : AddonReconciler) (s : St) (client : ClientOptions) (other : server mock) (m : mock) :
  statusReportingRequired r (st_addon s) = true -> (forall w, other w CLoadOCMClient = (Some client, w)) ->
  mock_endpoint client -> segment (ClusterID client) -> segment (a_Name (st_addon s)) ->
  writable (post_json (status_request (st_addon s))) = true ->
  let '(out, m') := run (with_ocm other) (handleOCMAddOnStatusReporting r s) m in
  if m_FailOnAddonStatusCreateEndpoint m then
    exists s', out = inl (Some (ErrOCM 400 "OCM-MGMT" "mock failure on addon status create endpoint"), s') /\
      m' = m /\ st_addon s' = st_addon s
  else
    exists s', out = inl (None, s') /\ statusReportingRequired r (st_addon s') = false /\
      GetAddOnStatus client (a_Name (st_addon s)) m' = (inl (status_response (status_request (st_addon s))), m').
Proof.
  intros Hr Hother Ho Hc Hn Hw. unfold handleOCMAddOnStatusReporting.
  unfold mthen at 1, get_addon at 1. cbn [pbind]. rewrite Hr. cbn [negb]. cbv iota.
  unfold mthen at 1, do_call at 1. cbn [run pbind]. cbn [with_ocm]. rewrite Hother.
  unfold postAddonStatus, recordAddonServiceRequestDuration, mthen, get_addon, do_call. cbn [run pbind].
  cbn [with_ocm]. rewrite Hother. cbn [deref]. unfold mpure. cbn [run pbind].
  fold (status_request (st_addon s)).
  change (with_ocm other m (CPostAddOnStatus client ?q)) with
    (let '(a, w) := PostAddOnStatus client q m in (error_of a, w)).
  destruct (m_FailOnAddonStatusCreateEndpoint m) eqn:Hf.
  - rewrite post_failed by done. simpl. eexists. split_and!; done.
  - rewrite post_accepted by (done || apply Hn). cbn [error_of].
    unfold modify_recorder, modify_addon, mpure. cbn [pbind run st_addon st_handler].
    eexists. split; [reflexivity|]. cbn [st_addon]. split.
    + unfold statusReportingRequired. apply andb_false_intro2, reported_status_current.
    + apply (get_stored client (status_request (st_addon s))); [done|done|exact Hn|done|]. apply lookup_insert_eq.
Qed.
End Mock.
