(* ===== verification/AddonController.v ===== *)
(** * controllers/addon/addon_controller.go: the Addon controller

    The list of sub-reconcilers and its order, one reconcile of an Addon with
    its deletion, pause and upgrade branches, metrics, reporting, and the
    operations that the AddonOperator controller calls. *)
From S2P Require Export Deletion SecretPropagation AddonInstanceReconciler Monitoring Olm PackageOperator Reporting.

(** ** The ordered list of sub-reconcilers *)

(** [sort.Slice]: an insertion sort for the few elements of the list. *)
(*@ controllers/addon/addon_controller.go:230-232 Order *)
Fixpoint insert_by_order (x : addonReconciler) (l : list addonReconciler) : list addonReconciler :=
  match l with
  | [] => [x]
  | y :: l' => if (sub_Order x <? sub_Order y)%Z then x :: l else y :: insert_by_order x l'
  end.

(*@ controllers/addon/addon_controller.go:229-235 getOrderedSubReconcilers *)
Definition getOrderedSubReconcilers (r : AddonReconciler) : list addonReconciler :=
  fold_left (fun l x => insert_by_order x l) (subReconcilers r) [].

(** ** Operations used by the AddonOperator controller *)

Section Shared.
Context {S : Type}.

(*@ controllers/addon/addon_controller.go:289-299 requeueAllAddons *)
Definition requeueAllAddons : M S (option error) :=
  let* r := do_call (CList Cached KAddon None ∅) in
  match r with
  | inr err => mpure (Some (ErrWrap "listing Addons, " err))
  | inl items =>
      do* mfor items (fun a => do_call (CEnqueue (meta_key (a_Meta a)))) in
      mpure None
  end.

(*@ controllers/addon/addon_controller.go:278-287 setGlobalPause *)
Definition setGlobalPause (paused : bool) : M S (option error) :=
  with_lock globalPauseMux
    (do* do_call (CStoreGlobalPause paused) in
     let* err := requeueAllAddons in
     match err with
     | Some e => mpure (Some (ErrWrap "requeue all Addons: " e))
     | None => mpure None
     end).

(*@ controllers/addon/addon_controller.go:268-271 EnableGlobalPause *)
Definition EnableGlobalPause : M S (option error) := setGlobalPause true.
(*@ controllers/addon/addon_controller.go:273-276 DisableGlobalPause *)
Definition DisableGlobalPause : M S (option error) := setGlobalPause false.

(*@ controllers/addon/addon_controller.go:237-252 InjectOCMClient *)
Definition InjectOCMClient (c : ClientOptions) : M S (option error) :=
  with_lock ocmClientMux
    (let* current := do_call CLoadOCMClient in
     let* err :=
       (match current with
        | None =>
            let* err := requeueAllAddons in
            mpure (match err with
                   | Some e => Some (ErrWrap "requeue all Addons: " e)
                   | None => None
                   end)
        | Some _ => mpure None
        end) in
     match err with
     | Some e => mpure (Some e)
     | None => do* do_call (CStoreOCMClient c) in mpure None
     end).
End Shared.

Section Controller.
Context {L : Lib}.

(** ** The reconciler and its options *)

(*@ controllers/addon/addon_reconciler_options.go:11-14 AddonReconcilerOptions *)
Inductive AddonReconcilerOption := WithMonitoringStackReconciler | WithPackageOperatorReconciler.

(*@ controllers/addon/addon_reconciler_options.go:21-51 subReconcilers *)
Definition add_subReconciler (s : addonReconciler) (r : AddonReconciler) : AddonReconciler :=
  mkAddonReconciler (ClusterExternalID_ r) (AddonOperatorNamespace r) (statusReportingEnabled r)
    (upgradePolicyStatusEnabled r) (subReconcilers r ++ [s]).

(*@ controllers/addon/addon_reconciler_options.go:16-51 ApplyToAddonReconciler *)
Definition ApplyToAddonReconciler (o : AddonReconcilerOption) (r : AddonReconciler)
  : AddonReconciler :=
  match o with
  | WithMonitoringStackReconciler => add_subReconciler monitoringStackReconciler r
  | WithPackageOperatorReconciler =>
      add_subReconciler (PackageOperatorReconciler (ClusterExternalID_ r)) r
  end.

(*@ controllers/addon/addon_controller.go:121-198 NewAddonReconciler *)
Definition NewAddonReconciler (clusterExternalID addonOperatorNamespace : string)
    (enableStatusReporting enableUpgradePolicyStatus : bool) (opts : list AddonReconcilerOption)
  : AddonReconciler :=
  fold_left (fun r o => ApplyToAddonReconciler o r) opts
    (mkAddonReconciler clusterExternalID addonOperatorNamespace enableStatusReporting
       enableUpgradePolicyStatus
       [ addonDeletionReconciler [legacyDeletionHandler; addonInstanceDeletionHandler];
         namespaceReconciler;
         addonSecretPropagationReconciler addonOperatorNamespace;
         addonInstanceReconciler;
         olmReconciler;
         monitoringFederationReconciler addonOperatorNamespace ]).

(** ** Deletion of the Addon *)

(*@ controllers/addon/utils.go:80-94 ensureClusterPackageDeletion *)
Definition ensureClusterPackageDeletion : M St (ctrl_Result * option error) :=
  let* addon := get_addon in
  let* err := k8s_Delete KClusterObjectTemplate (mkKey "" (a_Name addon)) in
  match err with
  | None => mpure (mkResult false defaultRetryAfterTime, None)
  | Some e =>
      if IsNotFound (Some e) then mpure (no_result, None) else mpure (no_result, Some e)
  end.

(** [r.Update] and [r.Status().Update] of the Addon in hand: a success
    replaces it by the object the server returns. *)
(*@ controllers/addon/addon_controller.go:451-451 Update *)
Definition update_addon : M St (option error) :=
  let* addon := get_addon in
  let* r := k8s_Update KAddon addon in
  match r with
  | inl a => do* set_addon a in mpure None
  | inr err => mpure (Some err)
  end.
(*@ controllers/addon/addon_controller.go:382-382 Update *)
Definition update_addon_status : M St (option error) :=
  let* addon := get_addon in
  let* r := k8s_StatusUpdate KAddon addon in
  match r with
  | inl a => do* set_addon a in mpure None
  | inr err => mpure (Some err)
  end.

(** What follows the status update of a terminating Addon. *)
(*@ controllers/addon/utils.go:61-77 ensureClusterPackageDeletion *)
Definition finalize_addon : M St (ctrl_Result * option error) :=
  let* r := ensureClusterPackageDeletion in
  match r with
  | (res, Some err) => mpure (res, Some (ErrWrap "ensure ClusterPackage deletion: " err))
  | (res, None) =>
      if negb (Result_IsZero res) then mpure (res, None)
      else
        let* addon := get_addon in
        do* modify_handler (fun h => (tt, Handler.Free (meta_key (a_Meta addon)) h)) in
        do* modify_addon (fun a => with_meta (RemoveFinalizer (a_Meta a) cacheFinalizer) a) in
        let* err := update_addon in
        match err with
        | Some e => mpure (res, Some (ErrWrap "failed to remove finalizer: " e))
        | None => mpure (res, None)
        end
  end.

(*@ controllers/addon/utils.go:44-78 handleAddonCRDeletion *)
Definition handleAddonCRDeletion : M St (ctrl_Result * option error) :=
  let* addon := get_addon in
  if negb (ContainsFinalizer (a_Meta addon) cacheFinalizer) then mpure (no_result, None)
  else
    do* report reportTerminationStatus in
    let* err := update_addon_status in
    match err with
    | Some e => mpure (no_result, Some (ErrWrap "updating Addon status: " e))
    | None => finalize_addon
    end.

(** ** One reconcile *)

Definition reconErr : ReconcileError := NewReconcileError "addon" false.
Definition subReconErr : ReconcileError := NewReconcileError "addon" true.
Definition report_error (e : ReconcileError) (err : error) (crName : string) : M St unit :=
  modify_recorder (Report e err crName).

(** The loop over the sub-reconcilers; [Some] is an early return. *)
(*@ controllers/addon/addon_controller.go:457-471 getOrderedSubReconcilers *)
Fixpoint run_subReconcilers (l : list addonReconciler) : M St (option (ctrl_Result * option error)) :=
  match l with
  | [] => mpure None
  | reconciler :: l' =>
      let* r := sub_Reconcile reconciler in
      match r with
      | (_, Some err) =>
          let* addon := get_addon in
          do* report_error subReconErr err (a_Name addon) in
          mpure (Some (no_result,
            Some (ErrWrap (sub_Name reconciler +:+ " : failed to reconcile : ") err)))
      | (res, None) =>
          if sr_Stop res then mpure (Some (no_result, None))
          else if sr_Requeue res then mpure (Some (mkResult true 0, None))
          else
            match sr_RequeueAfter res with
            | Some t => mpure (Some (mkResult false t, None))
            | None => run_subReconcilers l'
            end
      end
  end.

(** The loop of [setAddonCRStatus] over the non-blocking reconcilers;
    [Some] is an early return. *)
(*@ controllers/addon/addon_controller.go:477-488 nonBlocking *)
Fixpoint check_nonBlocking (l : list addonReconciler) : M St (option (ctrl_Result * option error)) :=
  match l with
  | [] => mpure None
  | reconciler :: l' =>
      match sub_NonBlocking reconciler with
      | None => check_nonBlocking l'
      | Some nonBlocking =>
          let* r := IsReconciliationSuccessful nonBlocking in
          match r with
          | (_, Some err) =>
              mpure (Some (no_result, Some (ErrWrap
                ("failed to check reconciliation status of " +:+ sub_Name reconciler +:+ ": ") err)))
          | (success, None) =>
              if negb success then
                do* SetAddonUnreadyStatus nonBlocking in mpure (Some (no_result, None))
              else check_nonBlocking l'
          end
      end
  end.

(*@ controllers/addon/addon_controller.go:476-492 setAddonCRStatus *)
Definition setAddonCRStatus (r : AddonReconciler) : M St (ctrl_Result * option error) :=
  let* ended := check_nonBlocking (getOrderedSubReconcilers r) in
  match ended with
  | Some res => mpure res
  | None => do* report reportReadinessStatus in mpure (no_result, None)
  end.

(** The finalizer is added to the Addon in hand before the update. *)
(*@ controllers/addon/addon_controller.go:448-455 cacheFinalizer *)
Definition ensure_cache_finalizer : M St (option error) :=
  let* addon := get_addon in
  if ContainsFinalizer (a_Meta addon) cacheFinalizer then mpure None
  else
    do* modify_addon (fun a => with_meta (AddFinalizer (a_Meta a) cacheFinalizer) a) in
    let* err := update_addon in
    match err with
    | Some e =>
        let* addon := get_addon in
        do* report_error reconErr ErrUpdateAddon (a_Name addon) in
        mpure (Some (ErrWrap "failed to add finalizer: " e))
    | None => mpure None
    end.

(** What precedes the sub-reconcilers: an Addon without an Installed condition
    gets a false one, and the finalizer is ensured. *)
(*@ controllers/addon/addon_controller.go:443-455 installedConditionMissing *)
Definition prepare_addon : M St (option error) :=
  let* addon := get_addon in
  do* (if installedConditionMissing addon then report reportInstalledConditionFalse else mpure tt) in
  ensure_cache_finalizer.

(** The part of [reconcile] for an Addon that is neither paused nor being
    upgraded. *)
(*@ controllers/addon/addon_controller.go:443-473 setAddonCRStatus *)
Definition reconcile_unpaused (r : AddonReconciler) : M St (ctrl_Result * option error) :=
  let* err := prepare_addon in
  match err with
  | Some e => mpure (no_result, Some e)
  | None =>
      let* ended := run_subReconcilers (getOrderedSubReconcilers r) in
      match ended with
      | Some res => mpure res
      | None => setAddonCRStatus r
      end
  end.

(** What [reconcile] does under the read lock of the global pause. *)
(*@ controllers/addon/addon_controller.go:421-474 globalPause *)
Definition reconcile_locked (r : AddonReconciler) : M St (ctrl_Result * option error) :=
  let* addon := get_addon in
  let* globalPause := do_call CLoadGlobalPause in
  if globalPause then
    do* report (reportAddonPauseStatus AddonOperatorReasonPaused) in mpure (no_result, None)
  else if Paused (a_Spec addon) then
    do* report (reportAddonPauseStatus AddonReasonPaused) in mpure (no_result, None)
  else
    do* modify_addon removeAddonPauseCondition in
    let* addon := get_addon in
    if addonIsBeingUpgraded addon then
      do* report reportAddonUpgradeStarted in mpure (no_result, None)
    else reconcile_unpaused r.

(*@ controllers/addon/addon_controller.go:406-474 reconcile *)
Definition reconcile (r : AddonReconciler) : M St (ctrl_Result * option error) :=
  let* addon := get_addon in
  if negb (Time_IsZero (DeletionTimestamp (a_Meta addon))) then handleAddonCRDeletion
  else with_rlock globalPauseMux (reconcile_locked r).

(** ** Metrics *)

(** [corev1.PodScheduled] false for the reason [corev1.PodReasonUnschedulable]. *)
(*@ controllers/addon/addon_controller.go:529-531 podCond *)
Definition unschedulable (c : PodCondition) : bool :=
  (pc_Type c =s? "PodScheduled") && (pc_Reason c =s? "Unschedulable") &&
  (pc_Status c =s? ConditionFalse).

(** The namespace of the install specification, or the empty string. *)
(*@ controllers/addon/addon_controller.go:502-512 targetNs *)
Definition target_namespace (addon : Addon) : string :=
  let i := Install (a_Spec addon) in
  let of_common (c : option AddonInstallOLMCommon) :=
    match c with Some c => ic_Namespace c | None => "" end in
  if Type_ i =s? OLMAllNamespaces then of_common (OLMAllNamespacesOf i)
  else if Type_ i =s? OLMOwnNamespace then of_common (OLMOwnNamespaceOf i)
  else "".

(** A pod is listed once per matching condition. *)
(*@ controllers/addon/addon_controller.go:494-538 listUnschedulableAddonPods *)
Definition listUnschedulableAddonPods : M St (list Pod * option error) :=
  let* addon := get_addon in
  let targetNs := target_namespace addon in
  if blank targetNs then mpure ([], Some (ErrNew "failed to get addon's namespace"))
  else
    let* r := k8s_List Cached KPod (Some targetNs) ∅ in
    match r with
    | inr err => mpure ([], Some (ErrWrap "failed listing addon pods: " err))
    | inl pods =>
        mpure (concat (map (fun p =>
          map (fun _ => p) (filter (fun c => unschedulable c = true) (pod_Conditions p))) pods), None)
    end.

(*@ controllers/addon/addon_controller.go:93-95 UnschedulableAddonPod *)
Definition UnschedulableAddonPod : string := "UnschedulableAddonPod".

(*@ controllers/addon/addon_controller.go:540-570 recordAddonMetrics *)
Definition recordAddonMetrics : M St (option error) :=
  let* s := get_state in
  match st_recorder s with
  | None => mpure None
  | Some _ =>
      let addon := st_addon s in
      let* listed :=
        (match find_condition Available addon with
         | Some c =>
             if cond_Status c =s? ConditionFalse then listUnschedulableAddonPods
             else mpure ([], None)
         | None => mpure ([], None)
         end) in
      match listed with
      | (_, Some err) => mpure (Some err)
      | (pods, None) =>
          let health := match pods with [] => "" | _ => UnschedulableAddonPod end in
          do* modify_recorder (fmap (RecordAddonMetrics addon health)) in
          mpure None
      end
  end.

(** ** The entry point *)

(*@ controllers/addon/addon_controller.go:389-404 syncWithExternalAPIs *)
Definition syncWithExternalAPIs (r : AddonReconciler) : M St (list error) :=
  let* upgradePolicyErr := handleUpgradePolicyStatusReporting r in
  let multiErr := multierror_Append [] upgradePolicyErr in
  let* ocmStatusReportingErr := handleOCMAddOnStatusReporting r in
  mpure (multierror_Append multiErr ocmStatusReportingErr).

(** The errors of the reporting, counted by their kind. *)
(*@ controllers/addon/addon_controller.go:366-373 errors.As *)
Definition report_sync_errors (multiErr : list error) : M St unit :=
  match multierror_ErrorOrNil multiErr with
  | None => mpure tt
  | Some _ =>
      let* addon := get_addon in
      match errors_As_ocm (ErrMulti multiErr) with
      | Some _ => report_error reconErr ErrOCMClientRequest (a_Name addon)
      | None => report_error reconErr ErrSyncWithExternalAPIs (a_Name addon)
      end
  end.

(** What [Reconcile] does after [reconcile] returned: metrics, reporting,
    the observed version, and the status update. *)
(*@ controllers/addon/addon_controller.go:360-386 recordAddonMetrics *)
Definition finish_reconcile (r : AddonReconciler) (reconcileResult : ctrl_Result)
    (reconcileErr : option error) : M St (ctrl_Result * option error) :=
  do* recordAddonMetrics in
  let* multiErr := syncWithExternalAPIs r in
  do* report_sync_errors multiErr in
  let multiErr := multierror_Append multiErr reconcileErr in
  do* modify_addon reportObservedVersion in
  let* statusErr := update_addon_status in
  match statusErr with
  | Some _ => mpure (no_result, Some (ErrMulti (multierror_Append multiErr statusErr)))
  | None => mpure (reconcileResult, multierror_ErrorOrNil multiErr)
  end.

(*@ controllers/addon/addon_controller.go:343-387 Reconcile *)
Definition Reconcile (r : AddonReconciler) (req : ObjectKey) : M St (ctrl_Result * option error) :=
  let* got := k8s_Get Cached KAddon req in
  match got with
  | inr err =>
      do* report_error reconErr ErrGetAddon "" in
      mpure (no_result, IgnoreNotFound (Some err))
  | inl addon =>
      do* set_addon addon in
      let* reconciled := reconcile r in
      finish_reconcile r reconciled.1 reconciled.2
  end.
End Controller.
