(* ===== verification/AddonOperatorController.v ===== *)
(** * controllers/addonoperator: the AddonOperator controller

    One reconcile of the AddonOperator object: it is created when it is
    missing; the process exits when the feature toggles changed; the global
    pause and the OCM client follow the specification, through the two
    interfaces the Addon controller implements; readiness is reported. *)
From S2P Require Export AddonController.
From S2P Require Export OcmClient.

(** ** The interfaces *)

(** What the controller calls to pause and to unpause every Addon. *)
(*@ controllers/addonoperator/utils.go:14-20 globalPauseManager *)
Class globalPauseManager (S : Type) := {
  gpm_EnableGlobalPause : M S (option error);
  gpm_DisableGlobalPause : M S (option error)
}.
(*@ controllers/addonoperator/utils.go:22-24 ocmClientManager *)
Class ocmClientManager (S : Type) := {
  ocm_InjectOCMClient : ClientOptions -> M S (option error)
}.

(** The call in which a pause becomes visible to the Addon controller. *)
Definition stores_pause (c : call) : bool := match c with CStoreGlobalPause _ => true | _ => false end.
Definition stores_client (c : call) : bool := match c with CStoreOCMClient _ => true | _ => false end.

(** A call that neither changes the cluster nor what is shared with the Addon
    controller. *)
Definition calm (c : call) : bool := negb (is_write c || stores_pause c || stores_client c).

(** What an implementation promises: it keeps the caller's state, it does not
    stop, it sets the flag to the given value exactly once, and the rest of what
    it does is calm. *)
Class PauseManagerOk (S : Type) `{!globalPauseManager S} : Prop := {
  pause_promise W (E : env W) (b : bool) (s : S) (w : W) (Q : W -> option error -> S -> Prop) :
    (forall w c, calm c = true -> env_allow E w c) ->
    (forall w0, rtc (fun w w' => exists c r, calm c = true /\ env_step E w c r w') w w0 ->
       env_allow E w0 (CStoreGlobalPause b)) ->
    (forall w0 w1 w2, rtc (fun w w' => exists c r, calm c = true /\ env_step E w c r w') w w0 ->
       env_step E w0 (CStoreGlobalPause b) tt w1 ->
       rtc (fun w w' => exists c r, calm c = true /\ env_step E w c r w') w1 w2 -> forall e, Q w2 e s) ->
    wpM E (if b then gpm_EnableGlobalPause else gpm_DisableGlobalPause) s w Q
}.

(** An OCM client is stored at most once, and exactly when there is no error. *)
Class ClientManagerOk (S : Type) `{!ocmClientManager S} : Prop := {
  client_promise W (E : env W) (c : ClientOptions) (s : S) (w : W) (Q : W -> option error -> S -> Prop) :
    (forall w c, calm c = true -> env_allow E w c) ->
    (forall w0, rtc (fun w w' => exists c r, calm c = true /\ env_step E w c r w') w w0 ->
       env_allow E w0 (CStoreOCMClient c)) ->
    (forall w1 e, rtc (fun w w' => exists c r, calm c = true /\ env_step E w c r w') w w1 -> Q w1 (Some e) s) ->
    (forall w0 w1 w2, rtc (fun w w' => exists c r, calm c = true /\ env_step E w c r w') w w0 ->
       env_step E w0 (CStoreOCMClient c) tt w1 ->
       rtc (fun w w' => exists c r, calm c = true /\ env_step E w c r w') w1 w2 -> Q w2 None s) ->
    wpM E (ocm_InjectOCMClient c) s w Q
}.

(** The Addon controller is both. *)
#[export] Instance addon_pause_manager (S : Type) : globalPauseManager S := {|
  gpm_EnableGlobalPause := EnableGlobalPause; gpm_DisableGlobalPause := DisableGlobalPause
|}.
#[export] Instance addon_client_manager (S : Type) : ocmClientManager S := {|
  ocm_InjectOCMClient := InjectOCMClient
|}.

(** One calm call. *)
Lemma calm_once {W} {E : env W} c r w w' :
  calm c = true -> env_step E w c r w' ->
  rtc (fun w w' => exists c r, calm c = true /\ env_step E w c r w') w w'.
Proof. intros Hc Hs. apply rtc_once. by exists c, r. Qed.

Section Promises.
Context {S W : Type} (E : env W).
Hypothesis calm_allowed : forall w c, calm c = true -> env_allow E w c.
Notation calm_step := (fun w w' => exists c r, calm c = true /\ env_step E w c r w').

Lemma wpM_enqueue (items : list Addon) (s : S) w :
  wpM E (mfor items (fun a => do_call (CEnqueue (meta_key (a_Meta a))))) s w
    (fun w' _ s' => s' = s /\ rtc calm_step w w').
Proof.
  revert w. induction items as [|a items IH]; intros w; [by apply wpM_pure|].
  apply wpM_bind, wpM_call; [by apply calm_allowed|]. intros r w1 H1.
  eapply wpM_mono; [apply IH|]. intros w2 _ s' [-> H2]. split; [done|].
  eapply rtc_l; [|done]. by exists (CEnqueue (meta_key (a_Meta a))), r.
Qed.

Lemma wpM_requeue (s : S) w :
  wpM E requeueAllAddons s w (fun w' _ s' => s' = s /\ rtc calm_step w w').
Proof.
  unfold requeueAllAddons. apply wpM_bind, wpM_call; [by apply calm_allowed|]. intros r w1 H1.
  assert (rtc calm_step w w1) as Hw1 by (apply rtc_once; by exists (CList Cached KAddon None ∅), r).
  destruct r as [items|err]; [|by apply wpM_pure].
  apply wpM_bind. eapply wpM_mono; [apply wpM_enqueue|]. intros w2 _ s' [-> H2].
  apply wpM_pure. split; [done|]. by etrans.
Qed.
End Promises.

#[export] Instance addon_pause_manager_ok (S : Type) : PauseManagerOk S.
Proof.
  constructor. intros W E b s w Q Hc Ha HQ.
  replace (if b then gpm_EnableGlobalPause else gpm_DisableGlobalPause) with (setGlobalPause (S := S) b)
    by by destruct b.
  unfold setGlobalPause, with_lock. apply wpM_bind, wpM_call; [by apply Hc|]. intros [] w0 H0.
  apply (calm_once (CMutex globalPauseMux Lock)) in H0; [|done].
  apply wpM_defer_total, wpM_bind, wpM_call; [by apply Ha|]. intros [] w1 H1.
  apply wpM_bind. eapply wpM_mono; [by apply wpM_requeue|]. intros w2 [e|] s' [-> H2];
    apply wpM_pure; (split; [by apply Hc|]); intros r w3 H3; (eapply HQ; [done|done|]);
    (etrans; [exact H2|]); by eapply (calm_once (CMutex globalPauseMux Unlock)).
Qed.

#[export] Instance addon_client_manager_ok (S : Type) : ClientManagerOk S.
Proof.
  constructor. intros W E c s w Q Hc Ha Herr Hok. simpl. unfold InjectOCMClient, with_lock.
  apply wpM_bind, wpM_call; [by apply Hc|]. intros [] w0 H0.
  apply (calm_once (CMutex ocmClientMux Lock)) in H0; [|done].
  assert (forall w1 r w2, env_step E w1 (CMutex ocmClientMux Unlock) r w2 -> 
    rtc (fun w w' => exists c r, calm c = true /\ env_step E w c r w') w1 w2) as Hunlock
    by (intros; by eapply (calm_once (CMutex ocmClientMux Unlock))).
  apply wpM_defer_total, wpM_bind, wpM_call; [by apply Hc|]. intros current w1 H1.
  apply (calm_once CLoadOCMClient) in H1; [|done].
  assert (forall w2, rtc (fun w w' => exists c r, calm c = true /\ env_step E w c r w') w1 w2 ->
    wpM (mkEnv (env_step E) (env_allow E) (fun _ _ => False))
      (do* do_call (CStoreOCMClient c) in mpure None) s w2 (fun w3 e s' =>
        env_allow E w3 (CMutex ocmClientMux Unlock) /\
        forall r w4, env_step E w3 (CMutex ocmClientMux Unlock) r w4 -> Q w4 e s')) as Hstore.
  { intros w2 H2. assert (rtc (fun w w' => exists c r, calm c = true /\ env_step E w c r w') w w2) as Hw2
      by (etrans; [exact H0|]; by etrans).
    apply wpM_bind, wpM_call; [by apply Ha|]. intros [] w3 H3. apply wpM_pure. split; [by apply Hc|].
    intros r w4 H4. eapply Hok; [exact Hw2|exact H3|by eapply Hunlock]. }
  apply wpM_bind. destruct current as [old|]; [by apply wpM_pure, Hstore|].
  apply wpM_bind. eapply wpM_mono; [by apply wpM_requeue|]. intros w2 [e|] s' [-> H2]; apply wpM_pure.
  - apply wpM_pure. split; [by apply Hc|]. intros r w3 H3. apply Herr.
    etrans; [exact H0|]. etrans; [exact H1|]. etrans; [exact H2|]. by eapply Hunlock.
  - by apply Hstore.
Qed.

(** ** The controller *)

(** The AddonOperator object in hand, and the recorder. *)
Record OState := mkOState { os_operator : AddonOperator; os_recorder : option Recorder }.

(*@ controllers/addonoperator/addonoperator_controller.go:38-48 AddonOperatorReconciler *)
Record AddonOperatorReconciler := mkAOReconciler {
  aor_ClusterExternalID : string; FeatureTogglesState : list string
}.

(*@ controllers/addonoperator/addonoperator_controller.go:34-36 defaultAddonOperatorRequeueTime *)
Definition defaultAddonOperatorRequeueTime : Z := Minute.

Definition default_operator_key : ObjectKey := mkKey "" DefaultAddonOperatorName.

(** The zero AddonOperator, which a failed read leaves in hand. *)
Definition zero_operator : AddonOperator :=
  mkAO (new_meta "" "") (mkAOSpec false "" None) (mkAOStatus 0 [] zero_time "").

Definition get_operator : M OState AddonOperator := fun s => Ret (os_operator s, s).
Definition modify_operator (f : AddonOperator -> AddonOperator) : M OState unit := fun s =>
  Ret (tt, mkOState (f (os_operator s)) (os_recorder s)).
Definition modify_operator_recorder (f : option Recorder -> option Recorder) : M OState unit := fun s =>
  Ret (tt, mkOState (os_operator s) (f (os_recorder s))).
(*@ controllers/addonoperator/addonoperator_controller.go:85-85 NewReconcileError *)
Definition operator_error (err : error) (name : string) : M OState unit :=
  modify_operator_recorder (Report (NewReconcileError "addonoperator" false) err name).

(** The difference between the occurrences of every string. *)
(*@ controllers/addonoperator/addonoperator_controller.go:130-136 elementsDiffTracker *)
Definition diff_tracker (sliceA sliceB : list string) : gmap string Z :=
  fold_left (fun t s => <[s := (default 0 (t !! s) - 1)%Z]> t) sliceB
    (fold_left (fun t s => <[s := (default 0 (t !! s) + 1)%Z]> t) sliceA ∅).

(*@ controllers/addonoperator/addonoperator_controller.go:126-146 areSlicesEquivalent *)
Definition areSlicesEquivalent (sliceA sliceB : list string) : bool :=
  if negb (length sliceA =? length sliceB) then false
  else forallb (fun '(_, diff) => (diff =? 0)%Z) (map_to_list (diff_tracker sliceA sliceB)).

Section Operator.
Context {L : Lib} {P : globalPauseManager OState} {C : ocmClientManager OState}.

(** [json.Unmarshal] into a [map[string]interface{}]: null leaves it empty. *)
(*@ controllers/addonoperator/addonoperator_controller.go:226-229 Unmarshal *)
Definition Unmarshal_map (text : string) : option (list (string * json)) :=
  match Unmarshal text with
  | Some (JObject l) => Some l
  | Some JNull => Some []
  | _ => None
  end.

(*@ controllers/addonoperator/addonoperator_controller.go:225-240 accessTokenFromDockerConfig *)
Definition accessTokenFromDockerConfig (dockerConfigJson : string) : string + error :=
  match Unmarshal_map dockerConfigJson with
  | None => inr (ErrWrap "unmarshalling docker config json: " (ErrNew "json"))
  | Some dockerConfig =>
      match NestedString dockerConfig ["auths"; "cloud.openshift.com"; "auth"] with
      | (_, _, Some err) => inr (ErrWrap "accessing cloud.openshift.com auth key: " err)
      | (_, false, None) => inr (ErrNew "missing token for cloud.openshift.com")
      | (accessToken, true, None) => inl accessToken
      end
  end.

(** [r.Status().Update]. *)
(*@ controllers/addonoperator/utils.go:56-56 Update *)
Definition operator_status_update : M OState (option error) :=
  let* o := get_operator in
  let* r := do_call (CStatusUpdate KAddonOperator o) in
  match r with
  | inl o' => do* modify_operator (fun _ => o') in mpure None
  | inr err => mpure (Some err)
  end.

(*@ controllers/addonoperator/utils.go:46-52 SetStatusCondition *)
Definition set_operator_condition (now : Z) (c : Condition) (o : AddonOperator) : AddonOperator :=
  let s := ao_Status o in
  set_ao_Status (mkAOStatus (ao_ObservedGeneration s) (SetStatusCondition now (ao_Conditions s) c)
    (ao_LastHeartbeatTime s) (ao_Phase s)) o.
(*@ controllers/addonoperator/utils.go:53-53 ObservedGeneration *)
Definition observe_operator (o : AddonOperator) : AddonOperator :=
  let s := ao_Status o in
  set_ao_Status (mkAOStatus (Generation (ao_Meta o)) (ao_Conditions s) (ao_LastHeartbeatTime s) (ao_Phase s)) o.
(*@ controllers/addonoperator/utils.go:55-55 LastHeartbeatTime *)
Definition operator_heartbeat (now : Z) (o : AddonOperator) : AddonOperator :=
  let s := ao_Status o in
  set_ao_Status (mkAOStatus (ao_ObservedGeneration s) (ao_Conditions s) now (ao_Phase s)) o.
(*@ controllers/addonoperator/utils.go:54-54 Phase *)
Definition set_operator_phase (p : string) (o : AddonOperator) : AddonOperator :=
  let s := ao_Status o in
  set_ao_Status (mkAOStatus (ao_ObservedGeneration s) (ao_Conditions s) (ao_LastHeartbeatTime s) p) o.

(** A condition of the AddonOperator, true at its generation. *)
Definition operator_condition (type reason message : string) (o : AddonOperator) : Condition :=
  condition type ConditionTrue reason message (Generation (ao_Meta o)).

(*@ controllers/addonoperator/utils.go:42-57 reportAddonOperatorReadinessStatus *)
Definition reportAddonOperatorReadinessStatus : M OState (option error) :=
  let* now := do_call CNow in
  do* modify_operator (fun o => set_operator_condition now
        (operator_condition AddonOperatorAvailable AddonOperatorReasonReady "Addon Operator is ready" o) o) in
  do* modify_operator (fun o => set_operator_phase PhaseReady (observe_operator o)) in
  let* now := do_call CNow in
  do* modify_operator (operator_heartbeat now) in
  operator_status_update.

(*@ controllers/addonoperator/utils.go:59-73 reportAddonOperatorPauseStatus *)
Definition reportAddonOperatorPauseStatus : M OState (option error) :=
  let* now := do_call CNow in
  do* modify_operator (fun o => set_operator_condition now
        (operator_condition AddonOperatorPaused AddonOperatorReasonPaused "Addon operator is paused" o) o) in
  do* modify_operator observe_operator in
  let* now := do_call CNow in
  do* modify_operator (operator_heartbeat now) in
  operator_status_update.

(*@ controllers/addonoperator/utils.go:75-81 removeAddonOperatorPauseCondition *)
Definition removeAddonOperatorPauseCondition : M OState (option error) :=
  do* modify_operator (fun o => let s := ao_Status o in
        set_ao_Status (mkAOStatus (ao_ObservedGeneration s)
          (RemoveStatusCondition (ao_Conditions s) PausedCondition) (ao_LastHeartbeatTime s) (ao_Phase s)) o) in
  do* modify_operator observe_operator in
  operator_status_update.

(** Whether the Paused condition is reported. *)
(*@ controllers/addonoperator/addonoperator_controller.go:80-81 IsStatusConditionTrue *)
Definition pause_reported (o : AddonOperator) : bool :=
  IsStatusConditionTrue (ao_Conditions (ao_Status o)) AddonOperatorPaused.

(*@ controllers/addonoperator/addonoperator_controller.go:192-223 handleGlobalPause *)
Definition handleGlobalPause : M OState (option error) :=
  let* o := get_operator in
  if ao_Paused (ao_Spec o) then
    if pause_reported o then mpure None
    else
      let* err := gpm_EnableGlobalPause in
      match err with
      | Some e => mpure (Some (ErrWrap "setting global pause: " e))
      | None =>
          let* err := reportAddonOperatorPauseStatus in
          mpure (ErrWrap "report AddonOperator paused: " <$> err)
      end
  else if negb (pause_reported o) then mpure None
  else
    let* err := gpm_DisableGlobalPause in
    match err with
    | Some e => mpure (Some (ErrWrap "removing global pause: " e))
    | None =>
        let* err := removeAddonOperatorPauseCondition in
        mpure (ErrWrap "remove AddonOperator paused: " <$> err)
    end.

(** The options of the OCM client for a specification and a token. *)
(*@ controllers/addonoperator/addonoperator_controller.go:171-176 NewClient *)
Definition ocm_options (r : AddonOperatorReconciler) (ocm : AddonOperatorOCM) (accessToken : string)
  : list Option :=
  [WithEndpoint (ocm_Endpoint ocm); WithAccessToken accessToken;
   WithClusterExternalID (aor_ClusterExternalID r)].

(*@ controllers/addonoperator/addonoperator_controller.go:159-162 ObjectKey *)
Definition ocm_secret_key (ocm : AddonOperatorOCM) : ObjectKey :=
  mkKey (csr_Namespace (ocm_Secret ocm)) (csr_Name (ocm_Secret ocm)).

(** An error of [NewClient] is dropped: the client is nil. *)
(*@ controllers/addonoperator/addonoperator_controller.go:148-190 handleOCMClient *)
Definition handleOCMClient (r : AddonOperatorReconciler) : M OState (option error) :=
  let* o := get_operator in
  match OCM (ao_Spec o) with
  | None => mpure None
  | Some ocm =>
      let* secret := do_call (CGet Uncached KSecret (ocm_secret_key ocm)) in
      match secret with
      | inr err => mpure (Some (ErrWrap "getting ocm secret: " err))
      | inl secret =>
          match accessTokenFromDockerConfig (default "" (sec_Data secret !! DockerConfigJsonKey)) with
          | inr err => mpure (Some (ErrWrap "extracting access token from .dockerconfigjson: " err))
          | inl accessToken =>
              let* c := NewClient (ocm_options r ocm accessToken) in
              match c with
              | inr _ => mpure None
              | inl c =>
                  let* err := ocm_InjectOCMClient c in
                  mpure (ErrWrap "injecting ocm client: " <$> err)
              end
          end
      end
  end.

(*@ controllers/addonoperator/utils.go:26-40 handleAddonOperatorCreation *)
Definition handleAddonOperatorCreation : M OState (option error) :=
  do* modify_operator_recorder (fmap (SetAddonOperatorPaused false)) in
  let* r := do_call (CCreate KAddonOperator
              (mkAO (new_meta "" DefaultAddonOperatorName) (mkAOSpec false "" None)
                 (mkAOStatus 0 [] zero_time ""))) in
  mpure (err_of r).

(** The deferred update of the metric. *)
(*@ controllers/addonoperator/addonoperator_controller.go:77-83 SetAddonOperatorPaused *)
Definition record_operator_paused : M OState unit :=
  let* o := get_operator in
  modify_operator_recorder (fmap (SetAddonOperatorPaused (pause_reported o))).

(** What follows the read of the AddonOperator. *)
(*@ controllers/addonoperator/addonoperator_controller.go:98-124 areSlicesEquivalent *)
Definition reconcile_operator (r : AddonOperatorReconciler) : M OState (ctrl_Result * option error) :=
  let* o := get_operator in
  if negb (areSlicesEquivalent (FeatureTogglesState r) (split_on comma (FeatureFlags (ao_Spec o))))
  then exit 0
  else
    let* err := handleGlobalPause in
    match err with
    | Some e =>
        let* o := get_operator in
        do* operator_error ErrAddonOperatorHandleGlobalPause (Name (ao_Meta o)) in
        mpure (no_result, Some (ErrWrap "handling global pause: " e))
    | None =>
        let* err := handleOCMClient r in
        match err with
        | Some e =>
            let* o := get_operator in
            do* operator_error ErrCreateOCMClient (Name (ao_Meta o)) in
            mpure (no_result, Some (ErrWrap "handling OCM client: " e))
        | None =>
            let* err := reportAddonOperatorReadinessStatus in
            match err with
            | Some e =>
                let* o := get_operator in
                do* operator_error ErrReportAddonOperatorStatus (Name (ao_Meta o)) in
                mpure (no_result, Some e)
            | None => mpure (mkResult false defaultAddonOperatorRequeueTime, None)
            end
        end
    end.

(*@ controllers/addonoperator/addonoperator_controller.go:66-124 Reconcile *)
Definition operator_Reconcile (r : AddonOperatorReconciler) : M OState (ctrl_Result * option error) :=
  let* got := do_call (CGet Cached KAddonOperator default_operator_key) in
  let* out :=
    match got with
    | inr err =>
        do* modify_operator (fun _ => zero_operator) in
        do* operator_error ErrGetDefaultAddonOperator DefaultAddonOperatorName in
        if IsNotFound (Some err) then
          let* e := handleAddonOperatorCreation in mpure (no_result, e)
        else mpure (no_result, Some err)
    | inl o => do* modify_operator (fun _ => o) in reconcile_operator r
    end in
  do* record_operator_paused in
  mpure out.
End Operator.
