(* ===== verification/AddonOperatorProofs.v ===== *)
(** * Theorems about the AddonOperator controller

    Feature toggles are compared as multisets; the pull secret's token is
    found; the OCM client is the one of the secret; and the global pause of
    the Addon controller follows the specification, as long as what the
    AddonOperator reports agrees with the flag. *)
From S2P Require Export AddonOperatorController InstallConfig.

(** ** Feature toggles *)

Definition occurrences (s : string) (l : list string) : Z := Z.of_nat (count_occ string_dec l s).

Lemma occurrences_cons s x l : occurrences s (x :: l) = ((if decide (x = s) then 1 else 0) + occurrences s l)%Z.
Proof. unfold occurrences. simpl. destruct (string_dec x s), (decide (x = s)); try done; lia. Qed.

Lemma fold_diff_lookup (d : Z) l (t : gmap string Z) s :
  default 0%Z (fold_left (fun t s => <[s := (default 0 (t !! s) + d)%Z]> t) l t !! s) =
  (default 0 (t !! s) + d * occurrences s l)%Z.
Proof.
  revert t. induction l as [|x l IH]; intros t; [unfold occurrences; simpl; lia|]. simpl.
  rewrite IH, occurrences_cons. case_decide as Hx.
  - subst. rewrite lookup_insert_eq. simpl. lia.
  - rewrite lookup_insert_ne by done. lia.
Qed.

Lemma diff_tracker_lookup a b s :
  default 0%Z (diff_tracker a b !! s) = (occurrences s a - occurrences s b)%Z.
Proof.
  unfold diff_tracker.
  assert (forall t : gmap string Z, fold_left (fun t s => <[s := (default 0 (t !! s) - 1)%Z]> t) b t =
    fold_left (fun t s => <[s := (default 0 (t !! s) + -1)%Z]> t) b t) as -> by done.
  rewrite !fold_diff_lookup, lookup_empty. simpl. lia.
Qed.

Lemma equivalent_permutation (sliceA sliceB : list string) :
  areSlicesEquivalent sliceA sliceB = true <-> Permutation sliceA sliceB.
Proof.
  rewrite (Permutation_count_occ string_dec). unfold areSlicesEquivalent. split.
  - destruct (negb _); [done|]. rewrite forallb_forall. intros H s.
    pose proof (diff_tracker_lookup sliceA sliceB s) as Hs. unfold occurrences in Hs.
    destruct (diff_tracker sliceA sliceB !! s) as [d|] eqn:E; simpl in Hs; [|lia].
    apply elem_of_map_to_list in E. apply list_elem_of_In, H in E. lia.
  - intros H. rewrite (proj2 (Nat.eqb_eq _ _)) by (by apply Permutation_length, (Permutation_count_occ string_dec)).
    simpl. apply forallb_forall. intros [s d] Hs. apply list_elem_of_In, elem_of_map_to_list in Hs.
    pose proof (diff_tracker_lookup sliceA sliceB s) as Hd. rewrite Hs in Hd. unfold occurrences in Hd.
    rewrite H in Hd. simpl in Hd. apply Z.eqb_eq. lia.
Qed.

(** C39: [areSlicesEquivalent] tells whether two slices are permutations of each
    other: the same strings, each as often, in any order. *)
Theorem slices_equivalent (sliceA sliceB : list string) :
  areSlicesEquivalent sliceA sliceB = true <-> Permutation sliceA sliceB.
Proof. apply equivalent_permutation. Qed.

(** ** The pull secret *)

Section Token.
Context {L : Lib} {LOk : LibOk L}.

(** A docker configuration that [json.Marshal] wrote gives the access token
    of cloud.openshift.com when it holds one as a string, and an error
    otherwise. *)
Theorem access_token_read (config : list (string * json)) (token : string) :
  writable (JObject config) = true -> (nesting (JObject config) <= max_depth)%N ->
  accessTokenFromDockerConfig (Marshal (JObject config)) = inl token <->
  nested_field (JObject config) ["auths"; "cloud.openshift.com"; "auth"] = Some (JString token).
Proof.
  intros Hw Hn. unfold accessTokenFromDockerConfig, Unmarshal_map.
  rewrite Unmarshal_Marshal, <- nested_string by done.
  destruct (NestedString _ _) as [[t []] [e|]]; split; intros H; congruence.
Qed.
End Token.

(** ** The global pause *)

(** The world the controller acts on: the AddonOperator object that the server
    stores, if any, and the pause flag of the Addon controller. *)
Record world := mkWorld { w_operator : option AddonOperator; w_flag : bool }.

(** How the world answers: a read finds the stored object or fails, a write
    fails without effect or stores the object, the flag takes the value it is
    given.  Everything else leaves the two as they are. *)
Definition world_step (w : world) (c : call) (r : resp c) (w' : world) : Prop :=
  match c as c return resp c -> Prop with
  | CGet _ k _ => fun r => w' = w /\
      match k return obj k + error -> Prop with
      | KAddonOperator => fun r => match r with inl o => w_operator w = Some o | inr e => True end
      | _ => fun _ => True
      end r
  | CCreate k o | CStatusUpdate k o => fun r =>
      match k return obj k -> obj k + error -> Prop with
      | KAddonOperator => fun o r =>
          match r with inl o' => o' = o /\ w' = mkWorld (Some o) (w_flag w) | inr _ => w' = w end
      | _ => fun _ _ => w' = w
      end o r
  | CStoreGlobalPause b => fun _ => w' = mkWorld (w_operator w) b
  | _ => fun _ => w' = w
  end r.

(** A read that answers NotFound tells that there is no object. *)
Definition truthful_step {L : Lib} (w : world) (c : call) (r : resp c) (w' : world) : Prop :=
  world_step w c r w' /\
  match c as c return resp c -> Prop with
  | CGet _ k _ => fun r =>
      match k return obj k + error -> Prop with
      | KAddonOperator => fun r =>
          match r with inl _ => True | inr e => IsNotFound (Some e) = true -> w_operator w = None end
      | _ => fun _ => True
      end r
  | _ => fun _ => True
  end r.

Section Pause.
Context {L : Lib} {LOk : LibOk L}.
Context {P : globalPauseManager OState} {POk : PauseManagerOk OState}.
Context {C : ocmClientManager OState} {COk : ClientManagerOk OState}.

(** The flag is what the AddonOperator reports; without one it is not set. *)
Definition pause_agrees (w : world) : Prop :=
  w_flag w = match w_operator w with Some o => pause_reported o | None => false end.

(** A status update leaves the rest of the stored object as it is. *)
Definition same_object (w : world) (o : AddonOperator) : Prop :=
  exists cur, w_operator w = Some cur /\ ao_Meta o = ao_Meta cur /\ ao_Spec o = ao_Spec cur.

(** The flag is only stored as the specification asks and when it is not what
    is reported; the process exits only when the feature toggles changed. *)
Definition pause_env (r : AddonOperatorReconciler) : env world :=
  mkEnv truthful_step
    (fun w c =>
       match c with
       | CStoreGlobalPause b => exists o, w_operator w = Some o /\ b = ao_Paused (ao_Spec o) /\ pause_reported o <> b
       | CCreate k _ => k = KAddonOperator /\ w_operator w = None
       | CStatusUpdate k o =>
           match k return obj k -> Prop with KAddonOperator => same_object w | _ => fun _ => False end o
       | _ => is_write c = false
       end)
    (fun w s => s = Exited 0 /\ exists o, w_operator w = Some o /\
       ~ Permutation (FeatureTogglesState r) (split_on comma (FeatureFlags (ao_Spec o)))).

Lemma calm_world w c r w' : calm c = true -> truthful_step w c r w' -> w' = w.
Proof. unfold calm. intros Hc [Hs _]. destruct c; try done. by destruct Hs. Qed.

Lemma calm_worlds w w' :
  rtc (fun w w' => exists c r, calm c = true /\ truthful_step w c r w') w w' -> w' = w.
Proof.
  induction 1 as [|w w1 w2 (c & r & Hc & Hs) _ IH]; [done|]. subst. by eapply calm_world.
Qed.

Lemma calm_allowed r w c : calm c = true -> env_allow (pause_env r) w c.
Proof. unfold calm. destruct c; try done; simpl. Qed.

(** The object in hand is the stored one. *)
Definition in_hand (w : world) (s : OState) : Prop := w_operator w = Some (os_operator s).

Lemma pause_reported_set now c o :
  cond_LastTransitionTime c = zero_time ->
  pause_reported (set_operator_condition now c o) =
    (if AddonOperatorPaused =s? cond_Type c then cond_Status c =s? ConditionTrue else pause_reported o).
Proof.
  intros Hc. unfold pause_reported, set_operator_condition. simpl. rewrite !is_true_find, find_set by done.
  by destruct (AddonOperatorPaused =s? cond_Type c).
Qed.

Lemma status_update_spec r w s :
  same_object w (os_operator s) ->
  wpM (pause_env r) operator_status_update s w (fun w' e s' =>
    match e with
    | None => w' = mkWorld (Some (os_operator s)) (w_flag w) /\ os_operator s' = os_operator s
    | Some _ => w' = w
    end).
Proof.
  intros Hw. unfold operator_status_update. apply wpM_bind. split; [done|].
  intros [o|e] w' [Hs _]; simpl in *; [|done]. by destruct Hs as [-> ->].
Qed.

(** A report: it ends with a status update of the object in hand, changed by
    [f] in its status. *)
Definition reports_pause (o o' : AddonOperator) (reported : bool) : Prop :=
  ao_Meta o' = ao_Meta o /\ ao_Spec o' = ao_Spec o /\ pause_reported o' = reported.

Definition report_spec (r : AddonOperatorReconciler) (m : M OState (option error)) (reported : bool) : Prop :=
  forall w s, in_hand w s -> wpM (pause_env r) m s w (fun w' e s' => w_flag w' = w_flag w /\
    match e with
    | None => in_hand w' s' /\ reports_pause (os_operator s) (os_operator s') reported
    | Some _ => w' = w
    end).

Lemma report_update r w s s1 reported :
  in_hand w s -> reports_pause (os_operator s) (os_operator s1) reported ->
  wpM (pause_env r) operator_status_update s1 w (fun w' e s' => w_flag w' = w_flag w /\
    match e with
    | None => in_hand w' s' /\ reports_pause (os_operator s) (os_operator s') reported
    | Some _ => w' = w
    end).
Proof.
  intros Hw (Hm & Hsp & Hr). eapply wpM_mono; [apply status_update_spec; by exists (os_operator s)|].
  intros w' [e|] s' H; [by subst|]. destruct H as [-> Hs']. split; [done|]. unfold in_hand, reports_pause.
  by rewrite Hs'.
Qed.

Lemma wpM_now r s w (Q : world -> Z -> OState -> Prop) :
  (forall now, Q w now s) -> wpM (pause_env r) (do_call CNow) s w Q.
Proof. intros H. split; [done|]. intros now w' [Hw _]. cbn in Hw. subst. apply H. Qed.

Lemma wpM_modify r f s w (Q : world -> unit -> OState -> Prop) :
  Q w tt (mkOState (f (os_operator s)) (os_recorder s)) -> wpM (pause_env r) (modify_operator f) s w Q.
Proof. done. Qed.

Lemma wpM_operator r s w (Q : world -> AddonOperator -> OState -> Prop) :
  Q w (os_operator s) s -> wpM (pause_env r) get_operator s w Q.
Proof. done. Qed.

Lemma report_paused_spec r : report_spec r reportAddonOperatorPauseStatus true.
Proof.
  intros w s Hw. unfold reportAddonOperatorPauseStatus.
  apply wpM_bind, wpM_now. intros now. do 2 apply wpM_bind, wpM_modify. apply wpM_bind, wpM_now. intros now'.
  apply wpM_bind, wpM_modify, report_update; [done|]. split; [done|]. split; [done|].
  exact (pause_reported_set now (operator_condition AddonOperatorPaused AddonOperatorReasonPaused
    "Addon operator is paused" (os_operator s)) (os_operator s) eq_refl).
Qed.

Lemma remove_paused_spec r : report_spec r removeAddonOperatorPauseCondition false.
Proof.
  intros w s Hw. unfold removeAddonOperatorPauseCondition. do 2 apply wpM_bind, wpM_modify. apply report_update; [done|].
  split; [done|]. split; [done|]. unfold pause_reported. simpl. by rewrite is_true_find, find_remove.
Qed.

Lemma report_ready_spec r b w s :
  pause_reported (os_operator s) = b -> in_hand w s ->
  wpM (pause_env r) reportAddonOperatorReadinessStatus s w (fun w' e s' => w_flag w' = w_flag w /\
    match e with
    | None => in_hand w' s' /\ reports_pause (os_operator s) (os_operator s') b
    | Some _ => w' = w
    end).
Proof.
  intros Hb Hw. unfold reportAddonOperatorReadinessStatus.
  apply wpM_bind, wpM_now. intros now. do 2 apply wpM_bind, wpM_modify. apply wpM_bind, wpM_now. intros now'.
  apply wpM_bind, wpM_modify, report_update; [done|]. split; [done|]. split; [done|]. rewrite <- Hb.
  exact (pause_reported_set now (operator_condition AddonOperatorAvailable AddonOperatorReasonReady
    "Addon Operator is ready" (os_operator s)) (os_operator s) eq_refl).
Qed.

(** The specification of the stored object. *)
Definition stored_spec (w : world) (o : AddonOperator) : Prop :=
  exists cur, w_operator w = Some cur /\ ao_Spec cur = ao_Spec o.

Lemma handleGlobalPause_spec r w s :
  in_hand w s -> pause_agrees w ->
  wpM (pause_env r) handleGlobalPause s w (fun w' e s' => stored_spec w' (os_operator s) /\
    match e with
    | None => in_hand w' s' /\ pause_agrees w' /\ w_flag w' = ao_Paused (ao_Spec (os_operator s)) /\
        ao_Spec (os_operator s') = ao_Spec (os_operator s)
    | Some _ => w_flag w' = ao_Paused (ao_Spec (os_operator s))
    end).
Proof.
  intros Hw Ha. unfold pause_agrees in Ha. rewrite Hw in Ha. set (o := os_operator s) in *.
  unfold handleGlobalPause. apply wpM_bind, wpM_operator. fold o.
  assert (forall b m, ao_Paused (ao_Spec o) = b -> pause_reported o = negb b -> report_spec r m b ->
    forall p, wpM (pause_env r) (let* err := m in mpure (ErrWrap p <$> err)) s
      (mkWorld (w_operator w) b) (fun w' e s' => stored_spec w' o /\
    match e with
    | None => in_hand w' s' /\ pause_agrees w' /\ w_flag w' = ao_Paused (ao_Spec o) /\ ao_Spec (os_operator s') = ao_Spec o
    | Some _ => w_flag w' = ao_Paused (ao_Spec o)
    end)) as Hrep.
  { intros b m Hb Hr Hm p. apply wpM_bind. eapply wpM_mono; [by apply Hm|].
    intros w' [e|] s' [Hf H]; apply wpM_pure; simpl in *.
    - subst w'. split; [by exists o|]. simpl. congruence.
    - destruct H as [Hin (H1 & H2 & H3)]. split; [by exists (os_operator s')|].
      unfold pause_agrees. rewrite Hin. split_and!; [done|congruence|congruence|exact H2]. }
  destruct (ao_Paused (ao_Spec o)) eqn:Hp; destruct (pause_reported o) eqn:Hr; simpl.
  1, 4: apply wpM_pure; split; [by exists o|]; unfold pause_agrees; rewrite Hw; split_and!; done || (fold o; congruence).
  - apply wpM_bind, (pause_promise _ _ true).
    + apply calm_allowed.
    + intros w0 ->%calm_worlds. exists o. by rewrite Hp, Hr.
    + intros w0 w1 w2 ->%calm_worlds [-> _] ->%calm_worlds [e|]; [apply wpM_pure; split; [by exists o|done]|].
      by apply Hrep, report_paused_spec.
  - apply wpM_bind, (pause_promise _ _ false).
    + apply calm_allowed.
    + intros w0 ->%calm_worlds. exists o. by rewrite Hp, Hr.
    + intros w0 w1 w2 ->%calm_worlds [-> _] ->%calm_worlds [e|]; [apply wpM_pure; split; [by exists o|done]|].
      by apply Hrep, remove_paused_spec.
Qed.
Lemma handleOCMClient_spec r w s :
  wpM (pause_env r) (handleOCMClient r) s w (fun w' _ s' => w' = w /\ os_operator s' = os_operator s).
Proof.
  unfold handleOCMClient. apply wpM_bind, wpM_operator.
  destruct (OCM (ao_Spec (os_operator s))) as [ocm|]; [|by apply wpM_pure].
  apply wpM_bind, wpM_call; [done|]. intros [secret|e] w1 [[-> _] _]; [|by apply wpM_pure].
  destruct (accessTokenFromDockerConfig _) as [token|e]; [|by apply wpM_pure].
  apply wpM_bind. unfold NewClient. apply wpM_bind, wpM_call; [done|].
  intros [res|e] w1 [->%eq_sym _]; [|by apply wpM_pure, wpM_pure].
  destruct (cl_Items res) as [|c cs]; [by apply wpM_pure, wpM_pure|]. apply wpM_pure, wpM_bind.
  apply client_promise; [apply calm_allowed|done|..].
  - by intros w2 e ->%calm_worlds.
  - by intros w2 w3 w4 ->%calm_worlds [-> _] ->%calm_worlds.
Qed.

Definition follows_spec (w' : world) : Prop :=
  exists o, w_operator w' = Some o /\ w_flag w' = ao_Paused (ao_Spec o).

Lemma reconcile_operator_spec r w s :
  in_hand w s -> pause_agrees w ->
  wpM (pause_env r) (reconcile_operator r) s w (fun w' out _ =>
    follows_spec w' /\ match out.2 with None => pause_agrees w' | Some _ => True end).
Proof.
  intros Hw Ha. unfold reconcile_operator. apply wpM_bind, wpM_operator.
  destruct (areSlicesEquivalent _ _) eqn:Hs; simpl negb; cbv iota.
  2: { split; [done|]. exists (os_operator s). split; [done|]. by rewrite <- equivalent_permutation, Hs. }
  apply wpM_bind. eapply wpM_mono; [by apply handleGlobalPause_spec|].
  intros w1 [e|] s1 [(o & Ho & Hsp) H1].
  { split; [|done]. exists o. by rewrite Hsp. }
  destruct H1 as (Hw1 & Ha1 & Hf & Hs1). apply wpM_bind. eapply wpM_mono; [apply handleOCMClient_spec|].
  intros w2 [e|] s2 [-> Hs2].
  { split; [|done]. exists o. by rewrite Hsp. }
  apply wpM_bind. eapply wpM_mono; [apply report_ready_spec; [done|]; unfold in_hand; by rewrite Hs2|].
  intros w3 [e|] s3 [Hf3 H3].
  { subst. split; [|done]. exists o. by rewrite Hsp. }
  destruct H3 as [Hw3 (H3 & H4 & H5)]. apply wpM_pure. rewrite Hs2 in *. split.
  - exists (os_operator s3). split; [done|]. congruence.
  - unfold pause_agrees in *. rewrite Hw3, H5. rewrite Hw1 in Ha1. congruence.
Qed.

(** C8: The global pause follows the specification.  As long as the flag of the
    Addon controller is what the AddonOperator reports, a reconcile stores the
    flag only when the specification asks for another value than the reported
    one, and stops the process only when the feature toggles are not a
    permutation of the specified ones; when it returns no error the flag, the
    reported condition and the specification of the stored object agree, and
    when it returns one the flag is what the specification asks or what it
    was. *)
Theorem pause_follows_spec (r : AddonOperatorReconciler) (w : world) (s : OState) :
  pause_agrees w ->
  wpM (pause_env r) (operator_Reconcile r) s w (fun w' '(_, err) _ =>
    match err with
    | None => pause_agrees w' /\ follows_spec w'
    | Some _ => w_flag w' = w_flag w \/ follows_spec w'
    end).
Proof.
  intros Ha. unfold operator_Reconcile. apply wpM_bind, wpM_call; [done|].
  intros [o|e] w1 [[-> Hg] Hn]; apply wpM_bind.
  - apply wpM_bind, wpM_modify. eapply wpM_mono; [by apply reconcile_operator_spec|].
    intros w2 [res [e|]] s2 [H1 H2]; simpl in H2; [by right|done].
  - apply wpM_bind, wpM_modify, wpM_bind. simpl in Hn. change (IsNotFound (Some e)) with (IsNotFound (Some e)) in *.
    destruct (IsNotFound (Some e)); [|by left]. specialize (Hn eq_refl).
    unfold handleAddonOperatorCreation. do 2 apply wpM_bind. unfold modify_operator_recorder.
    apply wpM_bind. split; [done|]. intros [o|e'] w2 [H _]; simpl in *; [|subst; by left].
    destruct H as [-> ->]. unfold pause_agrees in *. rewrite Hn in Ha. apply wpM_pure. do 2 apply wpM_pure. split; [|eexists; split; [reflexivity|exact Ha]].
    simpl. unfold pause_reported. by rewrite is_true_find, find_nil.
Qed.
End Pause.

(** ** The OCM client *)

Section OcmClient.
Context {L : Lib} {C : ocmClientManager OState} {COk : ClientManagerOk OState}.

(** The client that a secret and the answer of OCM give. *)
Definition client_of (r : AddonOperatorReconciler) (ocm : AddonOperatorOCM) (h : history) (c : ClientOptions) : Prop :=
  exists secret token cluster clusters,
    let o := mkClientOptions (trim_right "/" (ocm_Endpoint ocm) +:+ "/") (aor_ClusterExternalID r) "" "" token in
    Ev (CGet Uncached KSecret (ocm_secret_key ocm)) (inl secret) ∈ h /\
    accessTokenFromDockerConfig (default "" (sec_Data secret !! DockerConfigJsonKey)) = inl token /\
    Ev (CGetCluster o) (inl (mkClusterRes (cluster :: clusters))) ∈ h /\
    c = mkClientOptions (Endpoint_ o) (ClusterExternalID o) (cl_Id cluster) (cl_Name cluster) token.

(** OCM did not answer with a cluster. *)
Definition no_cluster (h : history) : Prop :=
  exists o a, Ev (CGetCluster o) a ∈ h /\ match a with inl res => cl_Items res = [] | inr _ => True end.

Definition client_env (r : AddonOperatorReconciler) (ocm : AddonOperatorOCM) : env history :=
  hist_env (fun h c =>
    match c with CStoreOCMClient c => client_of r ocm h c | _ => calm c = true end) (fun _ => False).

Lemma rtc_history (allow : history -> call -> Prop) abort (h h' : history) :
  rtc (fun h h' => exists c a, calm c = true /\ env_step (hist_env allow abort) h c a h') h h' ->
  forall e, e ∈ h -> e ∈ h'.
Proof. induction 1 as [|h1 h2 h3 (c & a & _ & H) _ IH]; [done|]. simpl in H. subst h2.
  intros e He. apply IH. by right. Qed.

Lemma client_of_mono r ocm h h' c : (forall e, e ∈ h -> e ∈ h') -> client_of r ocm h c -> client_of r ocm h' c.
Proof.
  intros Hh (secret & token & cluster & clusters & H1 & H2 & H3 & H4).
  exists secret, token, cluster, clusters. cbn zeta. split_and!; auto.
Qed.

(** C9: [handleOCMClient] gives the Addon controller an OCM client only for the
    token of the pull secret that the AddonOperator names, the specified
    endpoint with exactly one trailing slash, and the first cluster OCM
    returned for the external ID; it neither writes to the cluster nor panics;
    and when the specification asks for OCM and there is no error, a client
    was given or OCM returned no cluster. *)
Theorem ocm_client_of_the_secret (r : AddonOperatorReconciler) (ocm : AddonOperatorOCM) (s : OState) :
  OCM (ao_Spec (os_operator s)) = Some ocm ->
  wpM (client_env r ocm) (handleOCMClient r) s [] (fun h e s' => s' = s /\
    (e = None -> no_cluster h \/ exists c, Ev (CStoreOCMClient c) tt ∈ h /\ client_of r ocm h c)).
Proof.
  intros Hocm. unfold handleOCMClient. apply wpM_bind. unfold get_operator. cbn beta iota delta [wpM wp].
  rewrite Hocm. apply wpM_bind, wpM_call; [done|]. intros [secret|e] h1 ->; [|by apply wpM_pure].
  destruct (accessTokenFromDockerConfig _) as [token|e] eqn:Htoken; [|by apply wpM_pure].
  apply wpM_bind. unfold NewClient. apply wpM_bind, wpM_call; [done|]. set (h1 := [_]).
  set (o := client_options _). intros a h2 ->. set (h2 := _ :: h1).
  assert (Ev (CGetCluster o) a ∈ h2) as Ha by left.
  assert (match a with inl res => cl_Items res = [] | inr _ => True end -> no_cluster h2) as Hno
    by (intros H; by exists o, a).
  destruct a as [[[|cluster clusters]]|e]; [by apply wpM_pure, wpM_pure; auto| |by apply wpM_pure, wpM_pure; auto].
  apply wpM_pure, wpM_bind.
  assert (client_of r ocm h2 (with_cluster cluster o)) as Hc.
  { exists secret, token, cluster, clusters. split_and!; [right; left|done|done|done]. }
  apply client_promise.
  - intros h c Hcalm. destruct c; try done; by rewrite Hcalm.
  - intros h Hh. eapply client_of_mono; [by eapply rtc_history|done].
  - done.
  - intros h0 h3 h4 Hh H Hh'. simpl in H. subst h3. apply wpM_pure. split; [done|]. intros _. right.
    pose proof (rtc_history _ _ _ _ Hh') as Hlater.
    eexists. split; [apply Hlater; by left|]. eapply client_of_mono; [|done].
    intros e He. apply Hlater. right. by eapply rtc_history.
Qed.
End OcmClient.
