(* ===== verification/AddonInstanceController.v ===== *)
(** * controllers/addoninstance: the AddonInstance controller, and the heartbeat
    client of pkg/client *)
From S2P Require Export Recorder.
From S2P Require Import Common.

(** ** Phases (internal/phase) *)

(*@ controllers/addoninstance/internal/phase/phase.go:25-28 Result *)
Record phase_Result := mkPhaseResult { phase_Conditions : list Condition; phase_err : option error }.
(*@ controllers/addoninstance/internal/phase/phase.go:13-17 Success *)
Definition phase_Success (conditions : list Condition) : phase_Result := mkPhaseResult conditions None.
(*@ controllers/addoninstance/internal/phase/phase.go:19-23 Error *)
Definition phase_Error (err : error) : phase_Result := mkPhaseResult [] (Some err).

(** The state of one reconcile: the AddonInstance in hand and the recorder. *)
Record IState := mkIState { is_instance : AddonInstance; is_recorder : option Recorder }.

(*@ controllers/addoninstance/addoninstance_controller.go:112-115 Phase *)
Record Phase_ := mkPhase {
  Execute : AddonInstance -> M IState phase_Result;
  Phase_String : string
}.

(** ** The heartbeat phase *)

(*@ controllers/addoninstance/phase_check_heartbeat.go:14-15 conditionHealthyMessageWaiting *)
Definition conditionHealthyMessageWaiting : string := "Waiting for first heartbeat.".
(*@ controllers/addoninstance/phase_check_heartbeat.go:16-16 conditionHealthyMessageHeartbeatReceived *)
Definition conditionHealthyMessageHeartbeatReceived : string := "Heartbeat received within threshold.".
(*@ controllers/addoninstance/phase_check_heartbeat.go:17-18 conditionHealthyMessageHeartbeatNotReceived *)
Definition conditionHealthyMessageHeartbeatNotReceived : string :=
  "Heartbeat not received before timeout threshold.".

(** The multiplier of the configuration: 0 stands for the default. *)
(*@ controllers/addoninstance/phase_check_heartbeat.go:93-105 Default *)
Definition default_ThresholdMultiplier (m : Z) : Z := if (m =? 0)%Z then 3 else m.

(** The multiplication of [time.Duration]s is one of [int64]s. *)
(*@ controllers/addoninstance/phase_check_heartbeat.go:55-55 threshold *)
Definition heartbeat_threshold (multiplier : Z) (instance : AddonInstance) : Z :=
  wrap64 (multiplier * HeartbeatUpdatePeriod (ai_Spec instance)).

(*@ controllers/addoninstance/phase_check_heartbeat.go:47-52 AddonInstanceConditionHealthy *)
Definition healthy_condition (status reason message : string) : Condition :=
  condition (AddonInstanceCondition_String AddonInstanceConditionHealthy) status reason message 0.

(*@ controllers/addoninstance/phase_check_heartbeat.go:35-75 Execute *)
Definition heartbeat_Execute (multiplier : Z) (instance : AddonInstance) : M IState phase_Result :=
  let lastHeartbeatTime := LastHeartbeatTime (ai_Status instance) in
  if (lastHeartbeatTime =? zero_time)%Z then
    mpure (phase_Success [healthy_condition "Unknown"
      AddonInstanceHealthyReasonPendingFirstHeartbeat conditionHealthyMessageWaiting])
  else
    let* now := do_call CNow in
    if time_After now (time_Add lastHeartbeatTime (heartbeat_threshold multiplier instance)) then
      mpure (phase_Success [healthy_condition "Unknown"
        AddonInstanceHealthyReasonHeartbeatTimeout conditionHealthyMessageHeartbeatNotReceived])
    else
      mpure (phase_Success [healthy_condition "True"
        AddonInstanceHealthyReasonReceivingHeartbeats conditionHealthyMessageHeartbeatReceived]).

(*@ controllers/addoninstance/phase_check_heartbeat.go:20-33 NewPhaseCheckHeartbeat *)
(*@ controllers/addoninstance/phase_check_heartbeat.go:77-91 PhaseCheckHeartbeat *)
Definition NewPhaseCheckHeartbeat (multiplier : Z) : Phase_ :=
  mkPhase (heartbeat_Execute (default_ThresholdMultiplier multiplier)) "PhaseCheckHeartbeat".

(** ** The controller *)

(*@ controllers/addoninstance/addoninstance_controller.go:85-90 ControllerConfig *)
Record ControllerConfig := mkConfig { PollingInterval : Z; SerialPhases : list Phase_ }.

(*@ controllers/addoninstance/addoninstance_controller.go:92-106 Default *)
Definition config_Default (c : ControllerConfig) : ControllerConfig :=
  mkConfig (if (PollingInterval c =? 0)%Z then (10 * Second)%Z else PollingInterval c) (SerialPhases c).

Section AddonInstanceController.
Context {L : Lib}.

Definition get_instance : M IState AddonInstance := fun s => Ret (is_instance s, s).
Definition modify_instance (f : AddonInstance -> AddonInstance) : M IState unit := fun s =>
  Ret (tt, mkIState (f (is_instance s)) (is_recorder s)).
Definition instance_error (err : error) (name : string) : M IState unit := fun s =>
  Ret (tt, mkIState (is_instance s)
    (Report (NewReconcileError "addoninstance" true) err name (is_recorder s))).

Definition set_instance_condition (now : Z) (c : Condition) (i : AddonInstance) : AddonInstance :=
  let s := ai_Status i in
  set_ai_Status (mkAIStatus (ai_ObservedGeneration s)
    (SetStatusCondition now (ai_Conditions s) c) (LastHeartbeatTime s)) i.
(*@ controllers/addoninstance/addoninstance_controller.go:147-147 ObservedGeneration *)
Definition observe_instance (i : AddonInstance) : AddonInstance :=
  let s := ai_Status i in
  set_ai_Status (mkAIStatus (Generation (ai_Meta i)) (ai_Conditions s) (LastHeartbeatTime s)) i.

(** The condition of a phase result, with the observed generation. *)
(*@ controllers/addoninstance/addoninstance_controller.go:69-69 ObservedGeneration *)
Definition with_generation (gen : Z) (c : Condition) : Condition :=
  mkCond (cond_Type c) (cond_Status c) gen (cond_LastTransitionTime c) (cond_Reason c)
    (cond_Message c).

(*@ controllers/addoninstance/addoninstance_controller.go:132-144 Get *)
Definition instance_Get (name namespace : string) : M IState (AddonInstance + error) :=
  let* r := do_call (CGet Cached KAddonInstance (mkKey namespace name)) in
  match r with
  | inr err =>
      mpure (inr (ErrWrap ("getting AddonInstance '" +:+ namespace +:+ "/" +:+ name +:+ "': ") err))
  | inl i => mpure (inl i)
  end.

(*@ controllers/addoninstance/addoninstance_controller.go:146-154 UpdateStatus *)
Definition instance_UpdateStatus : M IState (option error) :=
  do* modify_instance observe_instance in
  let* i := get_instance in
  let* r := do_call (CStatusUpdate KAddonInstance i) in
  match r with
  | inr err => mpure (Some (ErrWrap "updating AddonInstance status: " err))
  | inl i => do* modify_instance (fun _ => i) in mpure None
  end.

(** [SetStatusCondition] of every condition of a phase result. *)
(*@ controllers/addoninstance/addoninstance_controller.go:68-72 SetStatusCondition *)
Definition store_conditions (conds : list Condition) : M IState unit :=
  mfor conds (fun cond =>
    let* now := do_call CNow in
    modify_instance (fun i =>
      set_instance_condition now (with_generation (Generation (ai_Meta i)) cond) i)).

(** The loop over the phases; [Some] is the early return of an error. *)
(*@ controllers/addoninstance/addoninstance_controller.go:65-82 SerialPhases *)
Fixpoint run_phases (name : string) (phases : list Phase_) : M IState (option error) :=
  match phases with
  | [] => mpure None
  | p :: ps =>
      let* i := get_instance in
      let* res := Execute p i in
      do* store_conditions (phase_Conditions res) in
      match phase_err res with
      | Some err =>
          do* instance_error ErrExecuteAddonInstanceReconcilePhase name in
          mpure (Some (ErrWrap ("executing phase " +:+ quote (Phase_String p) +:+ ": ") err))
      | None => run_phases name ps
      end
  end.

(** The deferred status update runs after the phases, on both ways out. *)
(*@ controllers/addoninstance/addoninstance_controller.go:42-83 Reconcile *)
Definition instance_Reconcile (cfg : ControllerConfig) (req : ObjectKey)
  : M IState (ctrl_Result * option error) :=
  let* got := instance_Get (key_Name req) (key_Namespace req) in
  match got with
  | inr err =>
      do* instance_error ErrGetAddonInstance (key_Name req) in
      mpure (no_result, IgnoreNotFound (Some err))
  | inl instance =>
      do* modify_instance (fun _ => instance) in
      let* failed := run_phases (key_Name req) (SerialPhases cfg) in
      let* updateErr := instance_UpdateStatus in
      do* (match updateErr with
           | Some _ => instance_error ErrUpdateAddonInstanceStatus (key_Name req)
           | None => mpure tt
           end) in
      mpure (match failed with
             | Some err => (no_result, Some err)
             | None => (mkResult false (PollingInterval cfg), None)
             end)
  end.

(** ** pkg/client: heartbeats sent by an addon *)

(*@ pkg/client/addon_instance.go:86-93 newAddonInstanceCondition *)
Definition newAddonInstanceCondition (cond status reason msg : string) : Condition :=
  condition (AddonInstanceCondition_String cond) status reason msg 0.

(** The conditions of the options, on the copy of the instance. *)
(*@ pkg/client/addon_instance.go:34-52 SendPulse *)
Definition SendPulse (instance : AddonInstance) (conds : list Condition) : M IState (option error) :=
  let* now := do_call CNow in
  let s := ai_Status instance in
  do* modify_instance (fun _ =>
    set_ai_Status (mkAIStatus (ai_ObservedGeneration s) (ai_Conditions s) now) instance) in
  do* store_conditions conds in
  let* i := get_instance in
  let* r := do_call (CStatusUpdate KAddonInstance i) in
  match r with
  | inr err =>
      mpure (Some (ErrWrap ("setting status for AddonInstance " +:+ Namespace (ai_Meta instance)
        +:+ "/" +:+ Name (ai_Meta instance) +:+ ": ") err))
  | inl _ => mpure None
  end.
End AddonInstanceController.

(** ** Theorems *)

Section InstanceTheorems.
Context {L : Lib} {LOk : LibOk L}.

(** A heartbeat arrived within the threshold. *)
Definition alive (multiplier now : Z) (i : AddonInstance) : Prop :=
  (now <= LastHeartbeatTime (ai_Status i) + heartbeat_threshold (default_ThresholdMultiplier multiplier) i)%Z.

Lemma alive_dec_spec m now i :
  time_After now (time_Add (LastHeartbeatTime (ai_Status i))
    (heartbeat_threshold (default_ThresholdMultiplier m) i)) = false <-> alive m now i.
Proof. unfold time_After, time_Add, alive. rewrite Z.ltb_ge. done. Qed.

Lemma heartbeat_Execute_spec {W} (E : env W) m i s w Q :
  env_allow E w CNow ->
  (LastHeartbeatTime (ai_Status i) = zero_time ->
     Q w (phase_Success [healthy_condition "Unknown"
            AddonInstanceHealthyReasonPendingFirstHeartbeat conditionHealthyMessageWaiting]) s) ->
  (forall now w', LastHeartbeatTime (ai_Status i) <> zero_time -> env_step E w CNow now w' ->
     (alive m now i -> Q w' (phase_Success [healthy_condition "True"
        AddonInstanceHealthyReasonReceivingHeartbeats conditionHealthyMessageHeartbeatReceived]) s) /\
     (~ alive m now i -> Q w' (phase_Success [healthy_condition "Unknown"
        AddonInstanceHealthyReasonHeartbeatTimeout conditionHealthyMessageHeartbeatNotReceived]) s)) ->
  wpM E (Execute (NewPhaseCheckHeartbeat m) i) s w Q.
Proof.
  intros Ha H0 H1. simpl. unfold heartbeat_Execute.
  destruct (LastHeartbeatTime (ai_Status i) =? zero_time)%Z eqn:Hz.
  - apply Z.eqb_eq in Hz. by apply wpM_pure, H0.
  - apply Z.eqb_neq in Hz. apply wpM_bind, wpM_call; [done|]. intros now w' Hs.
    destruct (H1 now w' Hz Hs) as [H2 H3]. destruct (time_After _ _) eqn:Ht; apply wpM_pure.
    + apply H3. rewrite <- alive_dec_spec, Ht. done.
    + apply H2. by apply alive_dec_spec.
Qed.

Definition heartbeat_pending : Condition :=
  healthy_condition "Unknown" AddonInstanceHealthyReasonPendingFirstHeartbeat conditionHealthyMessageWaiting.
Definition heartbeat_received : Condition :=
  healthy_condition "True" AddonInstanceHealthyReasonReceivingHeartbeats conditionHealthyMessageHeartbeatReceived.
Definition heartbeat_timeout : Condition :=
  healthy_condition "Unknown" AddonInstanceHealthyReasonHeartbeatTimeout
    conditionHealthyMessageHeartbeatNotReceived.

(** C36: Without a heartbeat the phase reports that it waits for the first one
    and reads no clock; otherwise it reads the clock once and reports a
    heartbeat as received exactly when it is no older than the threshold.  The
    threshold is the update period times the multiplier as long as the product
    fits a signed 64-bit integer: beyond that it wraps around. *)
Theorem heartbeat_within_threshold (m : Z) (i : AddonInstance) (s : IState) (t : history)
    (res : phase_Result) (s' : IState) :
  (trace (Execute (NewPhaseCheckHeartbeat m) i s) t (res, s') <->
     s' = s /\
     if (LastHeartbeatTime (ai_Status i) =? zero_time)%Z
     then t = [] /\ res = phase_Success [heartbeat_pending]
     else exists now, t = [Ev CNow now] /\
       res = phase_Success [if bool_decide (now <= LastHeartbeatTime (ai_Status i) +
                                heartbeat_threshold (default_ThresholdMultiplier m) i)%Z
                            then heartbeat_received else heartbeat_timeout]) /\
  (in_int64 (default_ThresholdMultiplier m * HeartbeatUpdatePeriod (ai_Spec i)) <->
     heartbeat_threshold (default_ThresholdMultiplier m) i =
       (default_ThresholdMultiplier m * HeartbeatUpdatePeriod (ai_Spec i))%Z).
Proof.
  split.
  - simpl. unfold heartbeat_Execute. destruct (_ =? zero_time)%Z.
    + unfold mpure. rewrite trace_ret_iff. naive_solver.
    + unfold do_call, mthen. cbn [pbind]. rewrite trace_vis_iff.
      assert (forall now : Z, time_After now (time_Add (LastHeartbeatTime (ai_Status i))
          (heartbeat_threshold (default_ThresholdMultiplier m) i)) =
        negb (bool_decide (now <= LastHeartbeatTime (ai_Status i) +
          heartbeat_threshold (default_ThresholdMultiplier m) i)%Z)) as Hb.
      { intros now. unfold time_After, time_Add.
        destruct (bool_decide _) eqn:E; bools; simpl; [apply Z.ltb_ge|apply Z.ltb_lt]; lia. }
      split.
      * intros (now & t' & -> & H). revert H. rewrite Hb. destruct (bool_decide _) eqn:E; simpl;
          unfold mpure; intros [-> [= -> ->]]%trace_ret_iff; (split; [done|]); exists now; by rewrite E.
      * intros [-> (now & -> & ->)]. exists now, []. split; [done|]. rewrite Hb.
        destruct (bool_decide _); constructor.
  - unfold heartbeat_threshold. split; [apply wrap64_id|]. intros <-. apply wrap64_range.
Qed.

(** ** One reconcile *)

(** What one reconcile may write for the instance it read: its status with a
    healthy condition, observed at its generation. *)
Definition instance_status (i o : AddonInstance) : Prop :=
  ai_Meta o = ai_Meta i /\ ai_Spec o = ai_Spec i /\
  LastHeartbeatTime (ai_Status o) = LastHeartbeatTime (ai_Status i) /\
  ai_ObservedGeneration (ai_Status o) = Generation (ai_Meta i) /\
  (forall ty, ty <> AddonInstanceCondition_String AddonInstanceConditionHealthy ->
     FindStatusCondition (ai_Conditions (ai_Status o)) ty =
     FindStatusCondition (ai_Conditions (ai_Status i)) ty) /\
  exists c, FindStatusCondition (ai_Conditions (ai_Status o))
      (AddonInstanceCondition_String AddonInstanceConditionHealthy) = Some c /\
    cond_ObservedGeneration c = Generation (ai_Meta i).

Definition instance_call (req : ObjectKey) (h : history) (c : call) : Prop :=
  match c with
  | CStatusUpdate KAddonInstance o =>
      exists (i : obj KAddonInstance), Ev (CGet Cached KAddonInstance req) (inl i) ∈ h /\ instance_status i o
  | _ => is_write c = false
  end.

Lemma instance_reads req h c : is_write c = false -> instance_call req h c.
Proof. by destruct c as [| | | |[] o| | | | | | | | | | | | |]. Qed.

(** Nothing was written so far. *)
Definition quiet (h : history) : Prop := Forall (fun ev => is_write (ev_call ev) = false) h.

(** The conditions of one phase result, stored. *)
Lemma store_healthy (req : ObjectKey) (i : AddonInstance) (st reason msg : string) s h :
  is_instance s = i ->
  wpM (hist_env (instance_call req) (fun _ => False))
    (store_conditions [healthy_condition st reason msg]) s h (fun h' _ s' =>
      (exists e, h' = e :: h /\ is_write (ev_call e) = false) /\
      instance_status i (observe_instance (is_instance s'))).
Proof.
  intros <-. unfold store_conditions. apply wpM_bind, wpM_bind, wpM_hist_call; [done|]. intros now.
  apply wpM_pure. split; [by eexists|]. unfold instance_status. simpl.
  do 4 (split; [done|]). split.
  - intros ty Hty. rewrite find_set by done. by rewrite bool_decide_false.
  - rewrite find_set by done. rewrite bool_decide_true by done. by eexists.
Qed.

(** C37: One reconcile of an AddonInstance with the heartbeat phase makes one
    write, the last call, of the status of the instance it read: a healthy
    condition at the current generation, every other condition and the last
    heartbeat as they were.  It then asks for a requeue after the polling
    interval, even when the status update fails; an instance that does not
    exist is not an error. *)
Theorem instance_reconciled (interval m : Z) (req : ObjectKey) (s : IState) :
  wpM (hist_env (instance_call req) (fun _ => False))
    (instance_Reconcile (mkConfig interval [NewPhaseCheckHeartbeat m]) req) s [] (fun h r _ =>
      (exists (o : obj KAddonInstance) a h', h = Ev (CStatusUpdate KAddonInstance o) a :: h' /\
         quiet h' /\ r = (mkResult false interval, None)) \/
      (exists e, h = [Ev (CGet Cached KAddonInstance req) (inr e)] /\ r.1 = no_result /\
         (r.2 = None <-> IsNotFound (Some e) = true))).
Proof.
  unfold instance_Reconcile, instance_Get.
  replace (mkKey (key_Namespace req) (key_Name req)) with req by by destruct req.
  apply wpM_bind, wpM_bind, wpM_hist_call; [done|]. intros [i|e]; apply wpM_pure.
  2: { apply wpM_bind, wpM_pure. right. exists e. split; [done|]. split; [done|]. simpl.
       rewrite ignore_not_found, not_found_wrap. by destruct (IsNotFound (Some e)). }
  set (h0 := [Ev (CGet Cached KAddonInstance req) (inl i)]). assert (quiet h0) as Hq0 by by repeat constructor.
  apply wpM_bind, wpM_pure, wpM_bind. simpl is_instance. unfold run_phases, SerialPhases.
  apply wpM_bind, wpM_pure, wpM_bind.
  assert (forall h st reason msg, quiet h -> Ev (CGet Cached KAddonInstance req) (inl (i : obj KAddonInstance)) ∈ h ->
    wpM (hist_env (instance_call req) (fun _ => False))
      (do* store_conditions [healthy_condition st reason msg] in mpure (None : option error))
      (mkIState i (is_recorder s)) h (fun h' e s' => quiet h' /\ e = None /\
        Ev (CGet Cached KAddonInstance req) (inl (i : obj KAddonInstance)) ∈ h' /\
        instance_status i (observe_instance (is_instance s')))) as Hstore.
  { intros h st reason msg Hq Hi. apply wpM_bind.
    eapply wpM_mono; [by apply (store_healthy req i)|]. intros h' _ s' [(e & -> & He) H].
    apply wpM_pure. split; [by constructor|]. split; [done|]. split; [by right|done]. }
  assert (wpM (hist_env (instance_call req) (fun _ => False))
    (Execute (NewPhaseCheckHeartbeat m) i) (mkIState i (is_recorder s)) h0
    (fun h r s1 => s1 = mkIState i (is_recorder s) /\ quiet h /\
       Ev (CGet Cached KAddonInstance req) (inl (i : obj KAddonInstance)) ∈ h /\
       exists st reason msg, r = phase_Success [healthy_condition st reason msg])) as Hex.
  { apply heartbeat_Execute_spec; [done| |].
    - intros _. split; [done|]. split; [done|]. split; [left|by eexists _, _, _].
    - intros now h' _ ->. split; intros _; (split; [done|]); (split; [by constructor|]);
        (split; [right; left|]); by eexists _, _, _. }
  eapply wpM_mono; [exact Hex|]. intros h1 r s1 (-> & Hq1 & Hi1 & st & reason & msg & ->).
  eapply wpM_mono; [by apply Hstore|]. intros h2 e s2 (Hq2 & -> & Hi2 & Hst).
  unfold instance_UpdateStatus. apply wpM_bind, wpM_bind, wpM_pure, wpM_bind, wpM_pure.
  apply wpM_bind, wpM_hist_call; [by exists i|]. intros [a|e].
  - left. by eexists _, _, h2.
  - left. by eexists _, _, h2.
Qed.
End InstanceTheorems.
