(* ===== verification/FeatureToggle.v ===== *)
(** * internal/featuretoggle: feature toggles in the AddonOperator object

    The flags are one comma-separated string of the AddonOperator's
    specification.  The two toggles share the code below but for their
    identifier and the reconciler option they add. *)
From S2P Require Export AddonController.

(*@ internal/featuretoggle/feature_toggle_handler.go:47-54 stringPresentInSlice *)
Fixpoint stringPresentInSlice (target : string) (slice : list string) : bool :=
  match slice with
  | [] => false
  | v :: l => if v =s? target then true else stringPresentInSlice target l
  end.

(*@ internal/featuretoggle/addons_plug_and_play_feature_toggle.go:16-16 AddonsPlugAndPlayFeatureToggleIdentifier *)
Definition AddonsPlugAndPlayFeatureToggleIdentifier : string := "ADDONS_PLUG_AND_PLAY".
(*@ internal/featuretoggle/monitoring_stack_feature_toggle.go:29-31 GetFeatureToggleIdentifier *)
Definition MonitoringStackFeatureToggleIdentifier : string := "EXPERIMENTAL_FEATURES".

(** A handler: its identifier and the option its post-setup hook appends. *)
(*@ internal/featuretoggle/feature_toggle_handler.go:14-20 FeatureToggleHandler *)
Record FeatureToggleHandler := mkToggle {
  GetFeatureToggleIdentifier : string;
  toggle_Option : AddonReconcilerOption
}.

(*@ internal/featuretoggle/monitoring_stack_feature_toggle.go:18-46 MonitoringStackFeatureToggle *)
Definition MonitoringStackFeatureToggle : FeatureToggleHandler :=
  mkToggle MonitoringStackFeatureToggleIdentifier WithMonitoringStackReconciler.
(*@ internal/featuretoggle/addons_plug_and_play_feature_toggle.go:20-46 AddonsPlugAndPlayFeatureToggle *)
Definition AddonsPlugAndPlayFeatureToggle : FeatureToggleHandler :=
  mkToggle AddonsPlugAndPlayFeatureToggleIdentifier WithPackageOperatorReconciler.

(*@ internal/featuretoggle/available_feature_toggles.go:10-28 GetAvailableFeatureToggles *)
Definition GetAvailableFeatureToggles : list FeatureToggleHandler :=
  [MonitoringStackFeatureToggle; AddonsPlugAndPlayFeatureToggle].

(*@ internal/featuretoggle/monitoring_stack_feature_toggle.go:39-46 PostManagerSetupHandle *)
Definition PostManagerSetupHandle (h : FeatureToggleHandler) (opts : list AddonReconcilerOption)
  : list AddonReconcilerOption := opts ++ [toggle_Option h].

(*@ internal/featuretoggle/monitoring_stack_feature_toggle_testable.go:41-41 FeatureFlags *)
Definition flags_of (o : AddonOperator) : list string := split_on comma (FeatureFlags (ao_Spec o)).
Definition set_FeatureFlags (f : string) (o : AddonOperator) : AddonOperator :=
  set_ao_Spec (mkAOSpec (ao_Paused (ao_Spec o)) f (OCM (ao_Spec o))) o.

(*@ internal/featuretoggle/feature_toggle_handler.go:30-35 IsEnabled *)
Definition IsEnabled (h : FeatureToggleHandler) (o : AddonOperator) : bool :=
  stringPresentInSlice (GetFeatureToggleIdentifier h) (flags_of o).

(** The new value of the flags, [None] when there is nothing to do. *)
(*@ internal/featuretoggle/addons_plug_and_play_feature_toggle_testable.go:41-51 existingFeatureToggles *)
Definition enabled_flags (id flags : string) : option string :=
  if stringPresentInSlice id (split_on comma flags) then None
  else if str_empty flags then Some id
  else Some (flags +:+ "," +:+ id).

(** The loop of [Disable], which prefixes every kept flag with a comma. *)
(*@ internal/featuretoggle/monitoring_stack_feature_toggle_testable.go:82-88 updatedFeatureToggles *)
Fixpoint kept_flags (id : string) (l : list string) : string :=
  match l with
  | [] => ""
  | featTog :: l' =>
      if featTog =s? id then kept_flags id l' else "," +:+ featTog +:+ kept_flags id l'
  end.

(*@ internal/featuretoggle/monitoring_stack_feature_toggle_testable.go:89-91 updatedFeatureToggles *)
Definition drop_first (s : string) : string :=
  match s with EmptyString => EmptyString | String _ s' => s' end.

(*@ internal/featuretoggle/addons_plug_and_play_feature_toggle_testable.go:77-93 updatedFeatureToggles *)
Definition disabled_flags (id flags : string) : option string :=
  if negb (stringPresentInSlice id (split_on comma flags)) then None
  else Some (drop_first (kept_flags id (split_on comma flags))).

Section Toggle.
Context {L : Lib} {S : Type}.

(*@ internal/featuretoggle/monitoring_stack_feature_toggle_testable.go:25-32 adoObject *)
Definition new_addon_operator (flags : string) : AddonOperator :=
  mkAO (new_meta "" DefaultAddonOperatorName) (mkAOSpec false flags None)
    (mkAOStatus 0 [] zero_time "").

(** Read the AddonOperator, create it with [initial] flags when it is not
    there, otherwise update its flags when [next] asks for it. *)
(*@ internal/featuretoggle/monitoring_stack_feature_toggle_testable.go:21-55 adoInCluster *)
Definition with_flags (initial : string) (next : string -> option string) : M S (option error) :=
  let* r := do_call (CGet Cached KAddonOperator (mkKey "" DefaultAddonOperatorName)) in
  match r with
  | inr err =>
      if IsNotFound (Some err) then
        let* r := do_call (CCreate KAddonOperator (new_addon_operator initial)) in
        mpure (err_of r)
      else mpure (Some err)
  | inl adoInCluster =>
      match next (FeatureFlags (ao_Spec adoInCluster)) with
      | None => mpure None
      | Some flags =>
          let* r := do_call (CUpdate KAddonOperator (set_FeatureFlags flags adoInCluster)) in
          match r with
          | inr err =>
              mpure (Some (ErrWrap
                "failed to enable the feature toggle in the AddonOperator object: " err))
          | inl _ => mpure None
          end
      end
  end.

(*@ internal/featuretoggle/addons_plug_and_play_feature_toggle_testable.go:22-56 Enable *)
(*@ internal/featuretoggle/monitoring_stack_feature_toggle_testable.go:21-55 Enable *)
Definition Enable (h : FeatureToggleHandler) : M S (option error) :=
  with_flags (GetFeatureToggleIdentifier h) (enabled_flags (GetFeatureToggleIdentifier h)).

(*@ internal/featuretoggle/addons_plug_and_play_feature_toggle_testable.go:58-98 Disable *)
(*@ internal/featuretoggle/monitoring_stack_feature_toggle_testable.go:57-97 Disable *)
Definition Disable (h : FeatureToggleHandler) : M S (option error) :=
  with_flags "" (disabled_flags (GetFeatureToggleIdentifier h)).
End Toggle.

(** ** Theorems *)

Lemma stringPresent_spec target l : stringPresentInSlice target l = true <-> target ∈ l.
Proof.
  induction l as [|v l IH]; simpl; [set_solver|].
  destruct (v =s? target) eqn:E; bools; [set_solver|]. rewrite IH. set_solver.
Qed.

(** [Disable] joins the flags that are left. *)
Lemma kept_flags_join id l :
  drop_first (kept_flags id l) = join "," (filter (fun f => f <> id) l).
Proof.
  assert (forall l, kept_flags id l = match filter (fun f => f <> id) l with
    | [] => "" | f => "," +:+ join "," f end) as H.
  { clear l. induction l as [|f l IH]; [done|]. rewrite filter_cons. simpl.
    destruct (f =s? id) eqn:E; bools.
    - rewrite decide_False by (intros Hn; by apply Hn). done.
    - rewrite decide_True by done. rewrite IH. destruct (filter _ l); [|done].
      simpl. by rewrite str_append_empty_r. }
  rewrite H. destruct (filter _ l); done.
Qed.

Lemma no_comma_filter (P : string -> Prop) `{!forall x, Decision (P x)} l :
  Forall (fun w => str_in comma w = false) l -> Forall (fun w => str_in comma w = false) (filter P l).
Proof. intros Hl. apply Forall_forall. intros x [_ Hx]%list_elem_of_filter. exact (proj1 (Forall_forall _ _) Hl x Hx). Qed.

Lemma disabled_flags_spec id flags :
  disabled_flags id flags =
    if bool_decide (id ∈ split_on comma flags)
    then Some (join "," (filter (fun f => f <> id) (split_on comma flags))) else None.
Proof.
  unfold disabled_flags. destruct (stringPresentInSlice id _) eqn:E; simpl.
  - apply stringPresent_spec in E. rewrite bool_decide_true by done. by rewrite kept_flags_join.
  - rewrite bool_decide_false; [done|]. intros H%stringPresent_spec. congruence.
Qed.

(** The flags of a string; the empty string has none. *)
Definition flag_list (flags : string) : list string :=
  if str_empty flags then [] else split_on comma flags.

Lemma enabled_flags_spec id flags :
  str_in comma id = false -> id <> "" ->
  match enabled_flags id flags with
  | None => id ∈ flag_list flags
  | Some flags' => (id ∉ flag_list flags) /\ flag_list flags' = flag_list flags ++ [id]
  end.
Proof.
  intros Hc Hne. unfold enabled_flags, flag_list. destruct (stringPresentInSlice id _) eqn:E.
  - apply stringPresent_spec in E. destruct (str_empty flags) eqn:Hf; bools; [|done].
    subst. simpl in E. set_solver.
  - assert (id ∉ split_on comma flags) as Hn by (intros H%stringPresent_spec; congruence).
    destruct (str_empty flags) eqn:Hf; bools.
    + split; [set_solver|]. rewrite bool_decide_false by done. by rewrite split_no_sep.
    + split; [done|]. rewrite bool_decide_false; [|by destruct flags].
      by apply (split_append comma flags id).
Qed.

(** Enabling a feature appends its identifier to the flags unless it is
    there; disabling removes every occurrence of it and keeps the order of the
    others; and disabling a feature that was just enabled restores the flags,
    character by character. *)
Theorem toggle_round_trip (id flags : string) :
  str_in comma id = false -> id <> "" ->
  (enabled_flags id flags = None <-> id ∈ flag_list flags) /\
  (forall flags', enabled_flags id flags = Some flags' ->
     flag_list flags' = flag_list flags ++ [id] /\ disabled_flags id flags' = Some flags) /\
  (forall flags', disabled_flags id flags = Some flags' ->
     flag_list flags' = filter (fun f => f <> id) (flag_list flags) \/
     (flags' = "" /\ filter (fun f => f <> id) (flag_list flags) = [""])).
Proof.
  intros Hc Hne. pose proof (enabled_flags_spec id flags Hc Hne) as He. split; [|split].
  - destruct (enabled_flags id flags) as [f|]; [|done]. split; [done|]. by destruct He.
  - intros flags' Hf. rewrite Hf in He. destruct He as [Hn He]. split; [done|].
    unfold enabled_flags in Hf. destruct (stringPresentInSlice id _) eqn:E; [done|].
    assert (id ∉ split_on comma flags) as Hn' by (intros H%stringPresent_spec; congruence).
    rewrite disabled_flags_spec. destruct (str_empty flags) eqn:Hz; bools; injection Hf as <-.
    + subst. rewrite split_no_sep by done. rewrite bool_decide_true by left.
      rewrite filter_cons, decide_False; [done|]. intros H. by apply H.
    + replace (flags +:+ "," +:+ id) with (flags +:+ String comma id) by done.
      rewrite split_append by done. rewrite bool_decide_true by set_solver.
      rewrite filter_app, (filter_cons _ id), decide_False by (intros H; by apply H).
      rewrite filter_nil, app_nil_r, list_filter_all.
      * by rewrite join_split.
      * intros x Hx ->. done.
  - intros flags' Hf. rewrite disabled_flags_spec in Hf.
    destruct (bool_decide (id ∈ split_on comma flags)) eqn:E; [|done]. bools. injection Hf as <-.
    assert (flags <> "") as Hz by (intros ->; simpl in E; set_solver).
    unfold flag_list. rewrite (bool_decide_false (flags = "")) by done.
    set (l := filter _ _).
    destruct (decide (l = [])) as [->|Hl]; [by left|].
    assert (split_on comma (join "," l) = l) as Hs.
    { apply split_join; [done|]. apply no_comma_filter, split_on_no_sep. }
    destruct (str_empty (join "," l)) eqn:Hj; bools; [right|by left].
    split; [done|]. rewrite Hj in Hs. by rewrite <- Hs.
Qed.

Lemma flag_list_spec id flags :
  id <> "" -> (id ∈ flag_list flags <-> id ∈ split_on comma flags).
Proof.
  intros Hne. unfold flag_list. destruct (str_empty flags) eqn:E; bools; [|done]. subst. simpl. set_solver.
Qed.

Lemma IsEnabled_spec h o :
  GetFeatureToggleIdentifier h <> "" ->
  (IsEnabled h o = true <-> GetFeatureToggleIdentifier h ∈ flag_list (FeatureFlags (ao_Spec o))).
Proof. intros Hne. unfold IsEnabled, flags_of. by rewrite stringPresent_spec, flag_list_spec. Qed.

(** The available toggles have non-empty identifiers without commas. *)
Lemma available_identifier h :
  h ∈ GetAvailableFeatureToggles ->
  str_in comma (GetFeatureToggleIdentifier h) = false /\ GetFeatureToggleIdentifier h <> "".
Proof.
  unfold GetAvailableFeatureToggles. intros Hh.
  apply elem_of_cons in Hh as [->|Hh]; [done|]. by apply list_elem_of_singleton in Hh as ->.
Qed.

(** [o] is [cur] with the flag of [h] on or off, and every other flag kept. *)
Definition toggled (h : FeatureToggleHandler) (on : bool) (cur o : AddonOperator) : Prop :=
  ao_Meta o = ao_Meta cur /\ ao_Status o = ao_Status cur /\
  ao_Paused (ao_Spec o) = ao_Paused (ao_Spec cur) /\ OCM (ao_Spec o) = OCM (ao_Spec cur) /\
  IsEnabled h o = on /\
  forall f, f <> GetFeatureToggleIdentifier h -> f <> "" ->
    (f ∈ flag_list (FeatureFlags (ao_Spec o)) <-> f ∈ flag_list (FeatureFlags (ao_Spec cur))).

Definition toggle_call (h : FeatureToggleHandler) (on : bool) (hist : history) (c : call) : Prop :=
  match c with
  | CCreate KAddonOperator o =>
      ao_Meta o = new_meta "" DefaultAddonOperatorName /\ IsEnabled h o = on
  | CUpdate KAddonOperator o =>
      exists cur : obj KAddonOperator,
        hist = [Ev (CGet Cached KAddonOperator (mkKey "" DefaultAddonOperatorName)) (inl cur)] /\
        toggled h on cur o
  | _ => is_write c = false
  end.

(** The new flags of an object that is read. *)
Lemma next_flags_spec h (on : bool) (cur : AddonOperator) :
  h ∈ GetAvailableFeatureToggles ->
  match (if on then enabled_flags else disabled_flags) (GetFeatureToggleIdentifier h)
          (FeatureFlags (ao_Spec cur)) with
  | None => IsEnabled h cur = on
  | Some flags => toggled h on cur (set_FeatureFlags flags cur)
  end.
Proof.
  intros Hh. destruct (available_identifier h Hh) as [Hc Hne].
  set (id := GetFeatureToggleIdentifier h) in *. set (flags := FeatureFlags (ao_Spec cur)).
  destruct on.
  - pose proof (enabled_flags_spec id flags Hc Hne) as He. destruct (enabled_flags id flags) as [f|].
    + destruct He as [Hn He]. do 4 (split; [done|]). split.
      * apply IsEnabled_spec; [done|]. simpl. rewrite He. set_solver.
      * intros g Hg _. simpl. rewrite He. set_solver.
    + by apply IsEnabled_spec.
  - rewrite disabled_flags_spec. destruct (bool_decide _) eqn:E; bools.
    + set (l := filter _ _).
      assert (forall g, g <> "" -> (g ∈ flag_list (join "," l) <-> g ∈ l)) as Hl.
      { intros g Hg. rewrite flag_list_spec by done. destruct (decide (l = [])) as [->|Hl]; [simpl; set_solver|].
        change (join "," l) with (join (String comma EmptyString) l). rewrite split_join; [done|done|].
        apply no_comma_filter, split_on_no_sep. }
      do 4 (split; [done|]). split.
      * apply not_true_iff_false. rewrite IsEnabled_spec by done. simpl. rewrite Hl by done.
        unfold l. rewrite list_elem_of_filter. by intros [? _].
      * intros g Hg Hg0. simpl. rewrite Hl, flag_list_spec by done. unfold l.
        rewrite list_elem_of_filter. tauto.
    + apply not_true_iff_false. by rewrite IsEnabled_spec, flag_list_spec.
Qed.

Section ToggleTheorems.
Context {L : Lib} {S : Type}.

(** Enabling or disabling an available feature writes at most once: it
    creates the AddonOperator with the feature as wanted when there is none, or
    updates the one it read in nothing but that flag.  Without an error the
    feature is as wanted in the object that was read or written. *)
Theorem feature_toggled (h : FeatureToggleHandler) (on : bool) (s : S) :
  h ∈ GetAvailableFeatureToggles ->
  wpM (hist_env (toggle_call h on) (fun _ => False)) (if on then Enable h else Disable h) s []
    (fun hist e s' => s' = s /\
       (e = None -> in_place KAddonOperator (mkKey "" DefaultAddonOperatorName)
                      (fun o => IsEnabled h o = on) hist)).
Proof.
  intros Hh. destruct (available_identifier h Hh) as [Hc Hne].
  assert ((if on then Enable h else Disable h) s =
    with_flags (if on then GetFeatureToggleIdentifier h else "")
      ((if on then enabled_flags else disabled_flags) (GetFeatureToggleIdentifier h)) s) as He by by destruct on.
  unfold wpM. rewrite He. fold (wpM (hist_env (toggle_call h on) (fun _ => False))
    (with_flags (if on then GetFeatureToggleIdentifier h else "")
      ((if on then enabled_flags else disabled_flags) (GetFeatureToggleIdentifier h))) s []
    (fun hist e s' => s' = s /\ (e = None ->
       in_place KAddonOperator (mkKey "" DefaultAddonOperatorName) (fun o => IsEnabled h o = on) hist))).
  assert (IsEnabled h (new_addon_operator (if on then GetFeatureToggleIdentifier h else "")) = on) as Hnew.
  { destruct on; [|destruct (IsEnabled _ _) eqn:E; [|done]]; [|rewrite IsEnabled_spec in E by done].
    - apply IsEnabled_spec; [done|]. simpl. unfold flag_list. rewrite bool_decide_false by done.
      rewrite split_no_sep by done. left.
    - simpl in E. by apply not_elem_of_nil in E. }
  unfold with_flags. apply wpM_bind, wpM_hist_call; [done|]. intros [cur|e].
  - pose proof (next_flags_spec h on cur Hh) as Hnext.
    destruct ((if on then enabled_flags else disabled_flags) _ _) as [f|].
    + apply wpM_bind, wpM_hist_call; [by exists cur|].
      intros [o|e]; apply wpM_pure; (split; [done|]); [|done].
      intros _. apply in_place_updated. apply Hnext.
    + apply wpM_pure. split; [done|]. intros _. by apply in_place_read.
  - destruct (IsNotFound _); [|by apply wpM_pure].
    apply wpM_bind, wpM_hist_call; [done|]. intros [o|e']; apply wpM_pure; (split; [done|]); [|done].
    intros _. by apply in_place_created.
Qed.
End ToggleTheorems.
