(* ===== verification/Webhooks.v ===== *)
(** * internal/webhooks: admission of Addon objects *)
From S2P Require Export InstallConfig.

(*@ internal/webhooks/validate.go:12-13 errSpecInstallTypeInvalid *)
Definition errSpecInstallTypeInvalid : error := ErrVar "invalid Addon .spec.install.type".
(*@ internal/webhooks/validate.go:14-14 errSpecInstallOwnNamespaceRequired *)
Definition errSpecInstallOwnNamespaceRequired : error :=
  ErrVar ".spec.install.olmOwnNamespace is required when .spec.install.type = OLMOwnNamespace".
(*@ internal/webhooks/validate.go:15-15 errSpecInstallAllNamespacesRequired *)
Definition errSpecInstallAllNamespacesRequired : error :=
  ErrVar ".spec.install.olmAllNamespaces is required when .spec.install.type = OLMAllNamespaces".
(*@ internal/webhooks/validate.go:16-16 errSpecInstallConfigMutuallyExclusive *)
Definition errSpecInstallConfigMutuallyExclusive : error :=
  ErrVar ".spec.install.olmAllNamespaces is mutually exclusive with .spec.install.olmOwnNamespace".
(*@ internal/webhooks/validate.go:17-18 errAdditionalCatalogSourceNameCollision *)
Definition errAdditionalCatalogSourceNameCollision : error :=
  ErrVar "additional catalog source name collides with the main catalog source name".
(*@ internal/webhooks/validate.go:103-104 errInstallTypeImmutable *)
Definition errInstallTypeImmutable : error := ErrVar ".spec.install.type is immutable".
(*@ internal/webhooks/validate.go:105-106 errInstallImmutable *)
Definition errInstallImmutable : error :=
  ErrVar ".spec.install is immutable, except for .catalogSourceImage".

(** ** Validation *)

(*@ internal/webhooks/validate.go:66-74 additionalCtlgSrcs *)
Fixpoint check_collision (addonName : string) (l : list AdditionalCatalogSource) : option error :=
  match l with
  | [] => None
  | s :: l' =>
      if acs_Name s =s? addonName then Some errAdditionalCatalogSourceNameCollision
      else check_collision addonName l'
  end.

(*@ internal/webhooks/validate.go:54-101 validateInstallSpec *)
Definition validateInstallSpec (i : AddonInstallSpec) (addonName : string) : option error :=
  match OLMAllNamespacesOf i, OLMOwnNamespaceOf i with
  | Some _, Some _ => Some errSpecInstallConfigMutuallyExclusive
  | _, _ =>
      if Type_ i =s? OLMOwnNamespace then
        match OLMOwnNamespaceOf i with
        | None => Some errSpecInstallOwnNamespaceRequired
        | Some c => check_collision addonName (AdditionalCatalogSources c)
        end
      else if Type_ i =s? OLMAllNamespaces then
        match OLMAllNamespacesOf i with
        | None => Some errSpecInstallAllNamespacesRequired
        | Some c => check_collision addonName (AdditionalCatalogSources c)
        end
      else Some errSpecInstallTypeInvalid
  end.

(** A nil pointer of the install configuration panics. *)
(*@ internal/webhooks/validate.go:30-52 validateSecretPropagation *)
Definition validateSecretPropagation {S} (addon : Addon) : M S (option error) :=
  let i := Install (a_Spec addon) in
  let* pullSecretName :=
    (if Type_ i =s? OLMAllNamespaces then
       let* c := deref (OLMAllNamespacesOf i) in mpure (PullSecretName c)
     else if Type_ i =s? OLMOwnNamespace then
       let* c := deref (OLMOwnNamespaceOf i) in mpure (PullSecretName c)
     else mpure "") in
  match SecretPropagation (a_Spec addon) with
  | None => mpure None
  | Some p =>
      if str_empty pullSecretName then mpure None
      else if existsb (fun s => DestinationSecret s =s? pullSecretName) (Secrets p) then mpure None
      else
        mpure (Some (ErrNew ("pullSecretName " +:+ quote pullSecretName +:+
                             " not found as destination in secretPropagation")))
  end.

(*@ internal/webhooks/validate.go:20-28 validateAddon *)
Definition validateAddon {S} (addon : Addon) : M S (option error) :=
  match validateInstallSpec (Install (a_Spec addon)) (a_Name addon) with
  | Some err => mpure (Some err)
  | None => validateSecretPropagation addon
  end.

(** The fields that an update may change are emptied before the comparison. *)
(*@ internal/webhooks/validate.go:114-121 oldSpecInstall *)
Definition without_mutable (c : AddonInstallOLMCommon) : AddonInstallOLMCommon :=
  mkCommon (ic_Namespace c) "" "" (PackageName c) "" None [].
(*@ internal/webhooks/validate.go:113-128 oldSpecInstall *)
Definition comparable_install (i : AddonInstallSpec) : AddonInstallSpec :=
  mkInstall (Type_ i) (without_mutable <$> OLMAllNamespacesOf i)
    (without_mutable <$> OLMOwnNamespaceOf i).

Section Admission.
Context {L : Lib}.

(*@ internal/webhooks/validate.go:108-151 validateAddonImmutability *)
Definition validateAddonImmutability (addon oldAddon : Addon) : option error :=
  let i := Install (a_Spec addon) in
  let old := Install (a_Spec oldAddon) in
  if negb (Type_ i =s? Type_ old) then Some errInstallTypeImmutable
  else if negb (DeepEqual (comparable_install old) (comparable_install i))
  then Some errInstallImmutable
  else None.

(** ** Admission *)

Inductive admission_Response := Allowed | Denied (msg : string) | Errored (err : error).

(** The request: the operation and its decoded objects; a decoding error is
    the error of the decoder. *)
(*@ internal/webhooks/addon_webhook.go:28-50 Operation *)
Inductive admission_Request :=
| ReqCreate (obj : Addon + error)
| ReqUpdate (obj old : Addon + error)
| ReqDelete
| ReqOther (obj : Addon + error).

(*@ internal/webhooks/addon_webhook.go:72-77 validateCreate *)
Definition validateCreate {S} (addon : Addon) : M S admission_Response :=
  let* err := validateAddon addon in
  mpure (match err with Some e => Denied (Error e) | None => Allowed end).

(*@ internal/webhooks/addon_webhook.go:79-88 validateUpdate *)
Definition validateUpdate {S} (addon oldAddon : Addon) : M S admission_Response :=
  let* err := validateAddon addon in
  mpure (match err with
         | Some e => Denied (Error e)
         | None =>
             match validateAddonImmutability addon oldAddon with
             | Some e => Denied (Error e)
             | None => Allowed
             end
         end).

(*@ internal/webhooks/addon_webhook.go:27-65 Handle *)
Definition Handle {S} (req : admission_Request) : M S admission_Response :=
  match req with
  | ReqCreate (inr err) | ReqUpdate (inr err) _ | ReqOther (inr err) => mpure (Errored err)
  | ReqCreate (inl obj) => validateCreate obj
  | ReqUpdate (inl obj) (inl old) => validateUpdate obj old
  | ReqUpdate (inl _) (inr err) => mpure (Errored err)
  | ReqDelete | ReqOther (inl _) => mpure Allowed
  end.
End Admission.

(** ** Theorems *)

(** The installation of an Addon that admission accepts. *)
Definition valid_install (i : AddonInstallSpec) (addonName : string) (c : AddonInstallOLMCommon) : Prop :=
  ((Type_ i = OLMOwnNamespace /\ OLMOwnNamespaceOf i = Some c /\ OLMAllNamespacesOf i = None) \/
   (Type_ i = OLMAllNamespaces /\ OLMAllNamespacesOf i = Some c /\ OLMOwnNamespaceOf i = None)) /\
  Forall (fun s => acs_Name s <> addonName) (AdditionalCatalogSources c).

Definition valid_addon (addon : Addon) : Prop :=
  exists c, valid_install (Install (a_Spec addon)) (a_Name addon) c /\
    forall p, SecretPropagation (a_Spec addon) = Some p -> PullSecretName c <> "" ->
      Exists (fun ref => DestinationSecret ref = PullSecretName c) (Secrets p).

Lemma check_collision_None n l :
  check_collision n l = None <-> Forall (fun s => acs_Name s <> n) l.
Proof.
  induction l as [|s l IH]; simpl; [by split; [constructor|]|].
  rewrite Forall_cons, <- IH. destruct (acs_Name s =s? n) eqn:E; bools; naive_solver.
Qed.

Lemma validateInstallSpec_None i n :
  validateInstallSpec i n = None <-> exists c, valid_install i n c.
Proof.
  unfold validateInstallSpec, valid_install. split.
  - intros H. split_cases; bools; eexists; (split; [|by apply check_collision_None]); auto.
  - intros (c & [(Ht & H1 & H2)|(Ht & H1 & H2)] & Hc); apply check_collision_None in Hc;
      rewrite H1, H2, Ht; done.
Qed.

Lemma existsb_destination l n :
  existsb (fun s => DestinationSecret s =s? n) l = true <->
  Exists (fun ref => DestinationSecret ref = n) l.
Proof.
  induction l as [|s l IH]; simpl; [by split; [|intros []%Exists_nil]|].
  rewrite Exists_cons, <- IH, orb_true_iff, bool_decide_eq_true. done.
Qed.

(** An environment that accepts neither a call nor a stop. *)
Definition pure_env : env history := hist_env (fun _ _ => False) (fun _ => False).

Lemma validateSecretPropagation_spec {S} addon c (s : S) :
  valid_install (Install (a_Spec addon)) (a_Name addon) c ->
  wpM pure_env (validateSecretPropagation addon) s [] (fun h r s' => s' = s /\
    (r = None <-> forall p, SecretPropagation (a_Spec addon) = Some p -> PullSecretName c <> "" ->
      Exists (fun ref => DestinationSecret ref = PullSecretName c) (Secrets p))).
Proof.
  intros [Hc _]. unfold validateSecretPropagation. apply wpM_bind.
  assert (wpM pure_env
    (if Type_ (Install (a_Spec addon)) =s? OLMAllNamespaces
     then let* c := deref (OLMAllNamespacesOf (Install (a_Spec addon))) in mpure (PullSecretName c)
     else if Type_ (Install (a_Spec addon)) =s? OLMOwnNamespace
     then let* c := deref (OLMOwnNamespaceOf (Install (a_Spec addon))) in mpure (PullSecretName c)
     else mpure "") s [] (fun _ r s' => s' = s /\ r = PullSecretName c)) as Hp.
  { destruct Hc as [(Ht & H1 & H2)|(Ht & H1 & H2)]; rewrite Ht, H1; done. }
  eapply wpM_mono; [exact Hp|]. intros h n s' [-> ->].
  destruct (SecretPropagation (a_Spec addon)) as [p|]; [|by wp_prim].
  destruct (str_empty (PullSecretName c)) eqn:He; bools.
  { apply wpM_pure. split; [done|]. split; [|done]. intros _ p' _ Hne. done. }
  destruct (existsb _ _) eqn:Hex; apply wpM_pure; (split; [done|]).
  - apply existsb_destination in Hex. split; [|done]. by intros _ p' [= <-].
  - split; [done|]. intros H. specialize (H p eq_refl He). apply existsb_destination in H. congruence.
Qed.

Lemma validateAddon_spec {S} addon (s : S) :
  wpM pure_env (validateAddon addon) s [] (fun h r s' => s' = s /\ (r = None <-> valid_addon addon)).
Proof.
  unfold validateAddon, valid_addon. destruct (validateInstallSpec _ _) as [e|] eqn:Hi.
  - apply wpM_pure. split; [done|]. split; [done|]. intros (c & Hc & _).
    assert (exists c, valid_install (Install (a_Spec addon)) (a_Name addon) c) as H by eauto.
    apply validateInstallSpec_None in H. congruence.
  - apply validateInstallSpec_None in Hi as [c Hc].
    eapply wpM_mono; [by apply validateSecretPropagation_spec|].
    intros h r s' [-> Hr]. split; [done|]. rewrite Hr. split; [by exists c|].
    intros (c' & Hc' & H). enough (c = c') as -> by done.
    destruct Hc as [[(?&?&?)|(?&?&?)] _], Hc' as [[(?&?&?)|(?&?&?)] _]; congruence.
Qed.

Section AdmissionTheorems.
Context {L : Lib} {LOk : LibOk L}.

(** C33: Admission of a new Addon never panics and calls nothing: it allows
    exactly the Addons whose installation has the configuration of its type
    and no other, without an additional catalog source named like the Addon,
    and whose pull secret, if they propagate secrets, is a destination. *)
Theorem create_allows_exactly_valid {S} (addon : Addon) (s : S) :
  wpM pure_env (Handle (ReqCreate (inl addon))) s [] (fun _ r _ => r = Allowed <-> valid_addon addon).
Proof.
  simpl. unfold validateCreate. apply wpM_bind. eapply wpM_mono; [apply validateAddon_spec|].
  intros h [e|] s' [-> H]; apply wpM_pure; [|naive_solver].
  split; [done|]. intros Hv. by apply H in Hv.
Qed.

(** What an update may not change: the type, which configurations are given,
    and in each the namespace and the package. *)
Definition same_mutable_only (a b : option AddonInstallOLMCommon) : Prop :=
  match a, b with
  | Some a, Some b => ic_Namespace a = ic_Namespace b /\ PackageName a = PackageName b
  | None, None => True
  | _, _ => False
  end.

Lemma without_mutable_eq a b :
  without_mutable <$> a = without_mutable <$> b <-> same_mutable_only a b.
Proof.
  destruct a as [a|], b as [b|]; simpl; try done. unfold without_mutable. split.
  - by intros [= -> ->].
  - by intros [-> ->].
Qed.

(** C34: Admission of an update never panics and calls nothing: it allows
    exactly the updates to a valid Addon that keep the install type and, of
    each install configuration, its presence, namespace and package. *)
Theorem update_allows_exactly_valid {S} (addon old : Addon) (s : S) :
  wpM pure_env (Handle (ReqUpdate (inl addon) (inl old))) s [] (fun _ r _ =>
    r = Allowed <->
    valid_addon addon /\
    Type_ (Install (a_Spec addon)) = Type_ (Install (a_Spec old)) /\
    same_mutable_only (OLMAllNamespacesOf (Install (a_Spec old))) (OLMAllNamespacesOf (Install (a_Spec addon))) /\
    same_mutable_only (OLMOwnNamespaceOf (Install (a_Spec old))) (OLMOwnNamespaceOf (Install (a_Spec addon)))).
Proof.
  simpl. unfold validateUpdate. apply wpM_bind. eapply wpM_mono; [apply validateAddon_spec|].
  intros h [e|] s' [-> H]; apply wpM_pure; [naive_solver|].
  assert (valid_addon addon) as Hv by by apply H.
  unfold validateAddonImmutability. rewrite <- !without_mutable_eq.
  destruct (Type_ (Install (a_Spec addon)) =s? Type_ (Install (a_Spec old))) eqn:Ht; bools; simpl;
    [|naive_solver].
  destruct (DeepEqual _ _) eqn:Hd; simpl.
  - apply (proj1 (deep_equal_eq _ _)) in Hd. split; [|done]. intros _.
    apply (f_equal OLMAllNamespacesOf) in Hd as H1. by apply (f_equal OLMOwnNamespaceOf) in Hd as H2.
  - split; [done|]. intros (_ & _ & H1 & H2).
    assert (comparable_install (Install (a_Spec old)) = comparable_install (Install (a_Spec addon))) as He
      by (unfold comparable_install; by rewrite Ht, H1, H2).
    apply deep_equal_eq in He. congruence.
Qed.
Lemma valid_addon_options addon :
  valid_addon addon -> exists c, GetInstallOLMCommon addon = inl c /\
    install_ok addon /\ install_options addon = c /\
    parsed addon = if str_empty (ic_Namespace c) || str_empty (CatalogSourceImage c) then None else Some c.
Proof.
  intros (c & [[(Ht & H1 & H2)|(Ht & H1 & H2)] _] & _); exists c;
    unfold GetInstallOLMCommon, install_ok, install_options, parsed, usable; by rewrite Ht, H1.
Qed.

Lemma Handle_allowed {S} (addon : Addon) (req : admission_Request) (s : S) :
  req = ReqCreate (inl addon) \/ (exists old, req = ReqUpdate (inl addon) old) ->
  wpM pure_env (Handle req) s [] (fun _ r _ => r = Allowed -> valid_addon addon).
Proof.
  intros [->|[[old|err] ->]]; simpl; [| |done]; unfold validateCreate, validateUpdate; apply wpM_bind;
    (eapply wpM_mono; [apply validateAddon_spec|]); intros h [e|] s' [-> H]; apply wpM_pure; try done;
    intros _; by apply H.
Qed.

(** C35: When admission allows the creation of an Addon, or an update to it,
    the controllers can read its install configuration: [GetInstallOLMCommon]
    finds one without an error; [GetCommonInstallOptions], which dereferences
    the pointer of the install type, does not panic, calls nothing and returns
    that configuration; and [parseAddonInstallConfig], on any state with that
    specification, never panics, calls nothing but the clock, and returns that
    configuration exactly when its namespace and its image are not empty,
    which admission does not check. *)
Theorem accepted_addon_is_usable {S} (addon : Addon) (req : admission_Request) (s : S) (st : St) :
  req = ReqCreate (inl addon) \/ (exists old, req = ReqUpdate (inl addon) old) ->
  a_Spec (st_addon st) = a_Spec addon ->
  wpM pure_env (Handle req) s [] (fun _ r _ => r = Allowed ->
    exists c, GetInstallOLMCommon addon = inl c /\
      wpM pure_env (GetCommonInstallOptions addon) st [] (fun _ c' st' => c' = c /\ st' = st) /\
      wpM (hist_env (fun _ c => c = CNow) (fun _ => False)) parseAddonInstallConfig st [] (fun _ o _ =>
        o = if str_empty (ic_Namespace c) || str_empty (CatalogSourceImage c) then None else Some c)).
Proof.
  intros Hreq Hspec. eapply wpM_mono; [by apply Handle_allowed|]. intros h r s' Hr Ha.
  apply Hr, valid_addon_options in Ha as (c & H1 & H2 & H3 & H4). exists c. split; [done|].
  split; [by apply wpM_GetCommonInstallOptions|].
  eapply wpM_mono; [apply parse_install_config|]. intros h' o st' [-> _].
  rewrite <- H4. unfold parsed. by rewrite Hspec.
Qed.
End AdmissionTheorems.

(** The check for a name collision compares an additional catalog source with
    the Addon's name, not with the name of its main catalog source: an Addon
    whose additional source is its main one is accepted. *)
Definition colliding_addon : Addon :=
  with_spec (mkAddonSpec "" "" false [] ∅ ∅ ""
    (mkInstall OLMOwnNamespace None
      (Some (mkCommon "ns" "image" "" "" "" None [mkACS "addon-reference-addon-catalog" "other"])))
    false false None None None None) sample_addon.

Lemma collision_is_accepted {S} (s : S) :
  wpM pure_env (validateAddon colliding_addon) s [] (fun _ r _ => r = None) /\
  exists c src, OLMOwnNamespaceOf (Install (a_Spec colliding_addon)) = Some c /\
    src ∈ AdditionalCatalogSources c /\ acs_Name src = CatalogSourceName colliding_addon.
Proof.
  split; [done|]. eexists _, _. split; [done|]. split; [left|]. reflexivity.
Qed.
