(* ===== verification/ReconcileWalk.v ===== *)
(** * A walk over the whole reconcile, for invariants and lock protocols

    [Invariant] is what a property of the Addon in hand has to satisfy to hold
    all the time: it survives every report and every other change of the Addon
    in memory, the server answers updates with Addons that have it, and the
    calls of the controller are accepted as long as it holds; a created object
    may be assumed to be controlled by an Addon that has it.  [Protocol] is what
    a property of the calls made so far has to satisfy: it may depend on the
    phase of the reconcile, which changes with the locks and the pause flag.
    [keeps] says that a program preserves both; the walk shows it of every
    sub-reconciler and of the whole reconcile, once for all instances. *)
From S2P Require Export AddonController.

(** ** The changes of the Addon in memory *)

(** Every report of the controller, as a step of the status. *)
Inductive reports {L : Lib} : (Z -> Addon -> Addon) -> Prop :=
| reports_ready : reports reportReadinessStatus
| reports_termination : reports reportTerminationStatus
| reports_configuration m : reports (reportConfigurationError m)
| reports_pause r : reports (reportAddonPauseStatus r)
| reports_deletable v : reports (reportAddonReadyToBeDeletedStatus v)
| reports_timeout : reports reportAddonDeletionTimedOut
| reports_upgraded : reports reportAddonUpgradeSucceeded
| reports_upgrading : reports reportAddonUpgradeStarted
| reports_uninstalled : reports reportUninstalledCondition
| reports_installed : reports reportInstalledCondition
| reports_not_installed : reports reportInstalledConditionFalse
| reports_pending r m : reports (reportPendingStatus r m)
| reports_csv : reports reportCSVNotLinked.

(** The other changes, which read no clock. *)
Inductive quiet {L : Lib} : (Addon -> Addon) -> Prop :=
| quiet_alias i : quiet (alias_labels i)
| quiet_reported : quiet setLastReportedStatus
| quiet_observed_version : quiet reportObservedVersion
| quiet_observed_csv csv : quiet (reportLastObservedAvailableCSV csv)
| quiet_unpause : quiet removeAddonPauseCondition
| quiet_timeout : quiet removeDeleteTimeoutCondition
| quiet_add_finalizer f : quiet (fun a => with_meta (AddFinalizer (a_Meta a) f) a)
| quiet_remove_finalizer f : quiet (fun a => with_meta (RemoveFinalizer (a_Meta a) f) a).

(** The controller reference of the metadata is the one of the Addon. *)
Definition controlled_by {L : Lib} (a : Addon) (m : ObjectMeta) : Prop :=
  GetControllerOf m = Some (mkOwner (Name (a_Meta a)) (UID (a_Meta a)) true).

(** The calls that an invariant says nothing about. *)
Definition indifferent (c : call) : bool :=
  match c with
  | CCreate k _ => bool_decide (k = KConfigMap)
  | CStatusUpdate k _ => negb (bool_decide (k = KAddon))
  | _ => true
  end.

(** The kinds that the controller creates objects of, without options and for
    an option. *)
Definition base_kinds : list kind :=
  [KNamespace; KSecret; KAddonInstance; KOperatorGroup; KNetworkPolicy; KCatalogSource; KSubscription;
   KServiceMonitor].
Definition option_kind (o : AddonReconcilerOption) : kind :=
  match o with
  | WithMonitoringStackReconciler => KMonitoringStack
  | WithPackageOperatorReconciler => KClusterObjectTemplate
  end.

(** ** The phases of a reconcile *)

(** Where a reconcile is: before its lock, in the deletion of an Addon, holding
    the lock before and after it has read the pause flag, and after the lock. *)
Inductive stage := Fresh | Deleting | Entered | Pausing | Working | Done.
(** The stage, and whether the lock of the OCM client is held for reading. *)
Definition phase : Type := stage * bool.
Definition acting (p : phase) : bool := match p.1 with Deleting | Working => true | _ => false end.

(** The calls that change the cluster, other than the reports of the controllers
    (the status updates of Addons and of the AddonOperator) and the creation of
    the AddonOperator object, whose controller does not look at the pause. *)
Definition acts (c : call) : bool :=
  match c with
  | CCreate k _ => negb (bool_decide (k = KAddonOperator))
  | CUpdate _ _ | CPatch _ _ _ | CDelete _ _ => true
  | CStatusUpdate k _ => negb (bool_decide (k = KAddon \/ k = KAddonOperator))
  | _ => false
  end.

(** The calls that are not on the locks and what they protect; the OCM client
    is read without its lock too. *)
Definition plain (c : call) : bool :=
  match c with CMutex _ _ | CLoadGlobalPause | CStoreGlobalPause _ | CStoreOCMClient _ => false | _ => true end.

(** How the phase changes. *)
Inductive moves {L : Lib} : phase -> event -> phase -> Prop :=
| moves_read key (a : obj KAddon) : Time_IsZero (DeletionTimestamp (a_Meta a)) = false ->
    moves (Fresh, false) (Ev (CGet Cached KAddon key) (inl a)) (Deleting, false)
| moves_enter : moves (Fresh, false) (Ev (CMutex globalPauseMux RLock) tt) (Entered, false)
| moves_load (b : bool) :
    moves (Entered, false) (Ev CLoadGlobalPause b) (if b then Pausing else Working, false)
| moves_leave s : s <> Fresh -> s <> Deleting -> s <> Done ->
    moves (s, false) (Ev (CMutex globalPauseMux RUnlock) tt) (Done, false)
| moves_lock s : moves (s, false) (Ev (CMutex ocmClientMux RLock) tt) (s, true)
| moves_unlock s : moves (s, true) (Ev (CMutex ocmClientMux RUnlock) tt) (s, false).

Class Protocol {L : Lib} := {
  follows : history -> call -> Prop;
  at_ : phase -> history -> Prop;
  at_start : at_ (Fresh, false) [];
  at_done h : at_ (Fresh, false) h \/ at_ (Deleting, false) h -> at_ (Done, false) h;
  follows_plain p h c : plain c = true -> (acts c = true -> acting p = true) -> at_ p h -> follows h c;
  at_plain p h e : plain (ev_call e) = true -> at_ p h -> at_ p (e :: h);
  at_moves p e p' h : moves p e p' -> at_ p h -> follows h (ev_call e) /\ at_ p' (e :: h)
}.

(** The protocol that says nothing. *)
Definition any_protocol {L : Lib} : Protocol.
Proof. by refine {| follows := fun _ _ => True; at_ := fun _ _ => True |}. Defined.

(** ** Invariants *)

Class Invariant {L : Lib} := {
  inv : Addon -> Prop;
  relies : history -> event -> Prop;
  sends : call -> Prop;
  creates : kind -> Prop;
  creates_base k : k ∈ base_kinds -> creates k;
  inv_report f now a : reports f -> inv a -> inv (f now a);
  inv_quiet f a : quiet f -> inv a -> inv (f a);
  inv_policy v a a' : SetUpgradePolicyStatus v a = Some a' -> inv a -> inv a';
  inv_updated h (o a : obj KAddon) : relies h (Ev (CUpdate KAddon o) (inl a)) -> inv o -> inv a;
  inv_status_updated h (o a : obj KAddon) :
    relies h (Ev (CStatusUpdate KAddon o) (inl a)) -> inv o -> inv a;
  sends_status (o : obj KAddon) : inv o -> sends (CStatusUpdate KAddon o);
  sends_created k (o : obj k) a : creates k -> inv a -> controlled_by a (obj_meta k o) -> sends (CCreate k o);
  sends_indifferent c : indifferent c = true -> sends c
}.

Section Keeps.
Context {L : Lib} {LOk : LibOk L} {V : Invariant} {T : Protocol}.

(** A program may panic where [I] holds; it never exits. *)
Definition walk_env (I : history -> Prop) : env history :=
  mkEnv (fun h c r h' => relies h (Ev c r) /\ h' = Ev c r :: h) (fun h c => sends c /\ follows h c)
    (fun h st => match st with Panicked _ => I h | Exited _ => False end).
Definition WalkEnv (p : phase) : env history := walk_env (at_ p).

Lemma walk_weaken {A} (I J : history -> Prop) (m : M St A) s h Q :
  (forall h, I h -> J h) -> wpM (walk_env I) m s h Q -> wpM (walk_env J) m s h Q.
Proof. intros HI. apply wp_weaken; [done|]. intros h' [why|code]; [apply HI|done]. Qed.

Context (p : phase).

(** The program preserves the invariant and stays in the phase, and what it
    returns satisfies [Q]. *)
Definition keeps {A} (Q : A -> Prop) (m : M St A) : Prop :=
  forall s h, inv (st_addon s) -> at_ p h ->
    wpM (WalkEnv p) m s h (fun h' a s' => inv (st_addon s') /\ at_ p h' /\ Q a).

Definition any_result {A} (_ : A) : Prop := True.

(** Metadata controlled by an Addon with the invariant. *)
Definition owned (m : ObjectMeta) : Prop := exists a, inv a /\ controlled_by a m.

Lemma wpM_plain (c : call) (s : St) h (Q : history -> resp c -> St -> Prop) :
  sends c -> plain c = true -> (acts c = true -> acting p = true) -> at_ p h ->
  (forall r, relies h (Ev c r) -> at_ p (Ev c r :: h) -> Q (Ev c r :: h) r s) ->
  wpM (WalkEnv p) (do_call c) s h Q.
Proof.
  intros Hs Hc Ha Hh HQ. apply wpM_call; [split; [done|by eapply follows_plain]|].
  intros r h' [Hr ->]. apply HQ; [done|]. by apply at_plain.
Qed.

Lemma keeps_pure {A} (Q : A -> Prop) a : Q a -> keeps Q (mpure a).
Proof. by intros HQ s h Hs. Qed.
Lemma keeps_bind {A B} (Q : A -> Prop) (R : B -> Prop) (m : M St A) (f : A -> M St B) :
  keeps Q m -> (forall a, Q a -> keeps R (f a)) -> keeps R (mthen m f).
Proof.
  intros Hm Hf s h Hs Hh. apply wpM_bind. eapply wpM_mono; [by apply Hm|].
  intros h' a s' (Hs' & Hh' & HQ). by apply Hf.
Qed.
Lemma keeps_mono {A} (Q R : A -> Prop) (m : M St A) : (forall a, Q a -> R a) -> keeps Q m -> keeps R m.
Proof. intros H Hm s h Hs Hh. eapply wpM_mono; [by apply Hm|]. intros h' a s' (? & ? & ?). auto. Qed.
Lemma keeps_get_addon : keeps inv get_addon.
Proof. by intros s h Hs. Qed.
Lemma keeps_get_state : keeps (fun s => inv (st_addon s)) get_state.
Proof. by intros s h Hs. Qed.
Lemma keeps_panic {A} (Q : A -> Prop) why : keeps Q (panic why).
Proof. by intros s h Hs. Qed.
Lemma keeps_deref {A} (Q : A -> Prop) (o : option A) : (forall a, o = Some a -> Q a) -> keeps Q (deref o).
Proof. destruct o; intros H; [by apply keeps_pure, H|apply keeps_panic]. Qed.
Lemma keeps_call c :
  sends c -> plain c = true -> (acts c = true -> acting p = true) -> keeps any_result (do_call c).
Proof. intros Hc Hp Ha s h Hs Hh. by apply wpM_plain. Qed.
Lemma keeps_indifferent c : indifferent c = true -> plain c = true -> (acts c = true -> acting p = true) ->
  keeps any_result (do_call c).
Proof. intros Hc. by apply keeps_call, sends_indifferent. Qed.
Lemma keeps_created k (o : obj k) : acting p = true ->
  creates k -> owned (obj_meta k o) -> keeps any_result (k8s_Create k o).
Proof. intros Hp Hk (a & Ha & Ho). apply keeps_call; [by eapply sends_created|done..]. Qed.
Lemma keeps_report f : reports f -> keeps any_result (report f).
Proof.
  intros Hf s h Hs Hh. unfold report. apply wpM_bind, wpM_plain; [by apply sends_indifferent|done..|].
  intros now _ Hh'. apply wpM_modify_addon. split; [|done]. by apply inv_report.
Qed.
Lemma keeps_modify_addon f : quiet f -> keeps any_result (modify_addon f).
Proof. intros Hf s h Hs Hh. apply wpM_modify_addon. split; [|done]. by apply inv_quiet. Qed.
Lemma keeps_modify_recorder f : keeps any_result (modify_recorder f).
Proof. by intros s h Hs. Qed.
Lemma keeps_modify_handler {A} (f : _ -> A * _) : keeps any_result (modify_handler f).
Proof. intros s h Hs Hh. by apply wpM_modify_handler. Qed.

Lemma keeps_update_addon : acting p = true -> keeps any_result update_addon.
Proof.
  intros Hp s h Hs Hh. unfold update_addon. apply wpM_bind, wpM_get_addon, wpM_bind, wpM_plain;
    [by apply sends_indifferent|done..|].
  intros [a|e] Hr Hh'; [|by apply wpM_pure]. apply wpM_bind, wpM_set_addon, wpM_pure.
  split; [|done]. by eapply inv_updated.
Qed.
Lemma keeps_update_addon_status : keeps any_result update_addon_status.
Proof.
  intros s h Hs Hh. unfold update_addon_status. apply wpM_bind, wpM_get_addon, wpM_bind, wpM_plain;
    [by apply sends_status|done..|].
  intros [a|e] Hr Hh'; [|by apply wpM_pure]. apply wpM_bind, wpM_set_addon, wpM_pure.
  split; [|done]. by eapply inv_status_updated.
Qed.
Lemma keeps_set_upgrade_policy_status v : keeps any_result (set_upgrade_policy_status v).
Proof.
  intros s h Hs Hh. unfold set_upgrade_policy_status. apply wpM_bind, wpM_get_addon.
  destruct (SetUpgradePolicyStatus v (st_addon s)) as [a|] eqn:Ha; [|done].
  apply wpM_bind, wpM_pure, wpM_set_addon. split; [|done]. by eapply inv_policy.
Qed.

(** The metadata of a wanted object, once its controller is set. *)
Lemma owned_fresh a m m' :
  inv a -> OwnerReferences m = [] -> SetControllerReference (a_Meta a) m = inl m' -> owned m'.
Proof.
  intros Ha Hm Hc. rewrite set_controller_fresh in Hc by done. injection Hc as <-. exists a. split; [done|].
  unfold controlled_by. by rewrite get_controller.
Qed.
End Keeps.

Section Critical.
Context {L : Lib} {LOk : LibOk L} {V : Invariant} {T : Protocol}.

(** A critical section: the phase changes when the lock is taken and when it
    is released, also after a panic. *)
Lemma wpM_critical {A} (I : history -> Prop) (p q r : phase) m acquire release (Q : A -> Prop)
    (body : M St A) s h :
  moves p (Ev (CMutex m acquire) tt) q ->
  (forall h, I h -> exists p', moves p' (Ev (CMutex m release) tt) r /\ at_ p' h) ->
  (inv (st_addon s) -> at_ q (Ev (CMutex m acquire) tt :: h) ->
     wpM (walk_env I) body s (Ev (CMutex m acquire) tt :: h)
       (fun h' a s' => inv (st_addon s') /\ I h' /\ Q a)) ->
  inv (st_addon s) -> at_ p h ->
  wpM (WalkEnv r) (mthen (do_call (CMutex m acquire)) (fun _ => defer (CMutex m release) body)) s h
    (fun h' a s' => inv (st_addon s') /\ at_ r h' /\ Q a).
Proof.
  intros Hacq Hrel Hb Hs Hh. destruct (at_moves _ _ _ _ Hacq Hh) as [Hf Hq].
  assert (forall h, I h -> follows h (CMutex m release) /\ at_ r (Ev (CMutex m release) tt :: h)) as Hend.
  { intros h' (p' & Hm & Hp')%Hrel. by eapply (at_moves p' (Ev (CMutex m release) tt)). }
  apply wpM_bind, wpM_call; [split; [by apply sends_indifferent|done]|]. intros [] h1 [_ ->].
  apply (wpM_defer _ (env_abort (walk_env I))); [|done|].
  - intros h2 why [H3 H4]%Hend. split; [split; [by apply sends_indifferent|done]|]. by intros [] h3 [_ ->].
  - eapply wpM_mono; [by apply Hb|]. intros h2 a s2 (H2 & [H5 H6]%Hend & H4).
    split; [split; [by apply sends_indifferent|done]|]. by intros [] h3 [_ ->].
Qed.
End Critical.

Create HintDb keeps discriminated.
#[export] Hint Resolve keeps_get_addon keeps_get_state keeps_panic keeps_modify_recorder
  keeps_modify_handler keeps_update_addon keeps_update_addon_status keeps_set_upgrade_policy_status : keeps.
#[export] Hint Constructors reports quiet : keeps.
#[export] Hint Extern 1 (acting _ = true) => reflexivity : keeps.

(** The metadata of a new object has no owner yet. *)
Lemma no_owner {L : Lib} a m : OwnerReferences (AddCommonAnnotations a m) = OwnerReferences m.
Proof. by destruct (AddCommonAnnotations_meta a m) as [x ->]. Qed.

Create HintDb owned discriminated.
#[export] Hint Extern 1 (owned _) => assumption : owned.
#[export] Hint Extern 2 (owned _) =>
  eapply owned_fresh; [eassumption| |eassumption]; cbn; rewrite ?no_owner; reflexivity : owned.
#[export] Hint Extern 1 (owned _) =>
  match goal with H : forall x, inl ?y = inl x -> owned _ |- _ => exact (H _ eq_refl) end : owned.
Ltac find_owner := cbn [obj_meta]; solve [eauto 3 with owned].

Ltac find_kind := first [assumption | apply creates_base; unfold base_kinds; set_solver].

(** Walk through a program: one rule per construct; what is left are the
    programs that have no rule and no hint. *)
Ltac keep_call c :=
  refine (keeps_indifferent _ c eq_refl eq_refl _);
  let H := fresh in intros H; first [discriminate H|reflexivity].
Ltac keep_step :=
  lazymatch goal with
  | |- keeps _ _ (mthen _ _) =>
      first [ eapply keeps_bind; [solve [eauto 2 with keeps nocore]|intros ? ?]
            | apply (keeps_bind _ any_result); [|intros ? _] ]
  | |- keeps _ _ (mpure _) => apply keeps_pure; try exact I
  | |- keeps _ any_result (deref _) => apply keeps_deref; done
  | |- keeps _ _ (do_call ?c) => keep_call c
  | |- keeps _ _ (k8s_Get ?c ?k ?key) => keep_call (CGet c k key)
  | |- keeps _ _ (k8s_List ?c ?k ?ns ?sel) => keep_call (CList c k ns sel)
  | |- keeps _ _ (k8s_Create KConfigMap ?o) => keep_call (CCreate KConfigMap o)
  | |- keeps _ _ (k8s_Create _ _) => apply keeps_created; [reflexivity|find_kind|find_owner]
  | |- keeps _ _ (k8s_Update ?k ?o) => keep_call (CUpdate k o)
  | |- keeps _ _ (k8s_Patch ?k ?o ?b) => keep_call (CPatch k o b)
  | |- keeps _ _ (k8s_Delete ?k ?key) => keep_call (CDelete k key)
  | |- keeps _ _ (report _) => apply keeps_report; constructor
  | |- keeps _ _ (modify_addon _) => apply keeps_modify_addon; constructor
  | |- keeps _ _ (match ?x with _ => _ end) => first [is_var x; destruct x | destruct x eqn:?]
  | |- keeps _ _ (let '(_, _) := ?x in _) => first [is_var x; destruct x | destruct x eqn:?]
  | |- keeps _ _ _ => solve [eauto 2 with keeps nocore]
  | |- forall _, _ => intros ?
  end.
Ltac keep := repeat keep_step.

Section Walk.
Context {L : Lib} {LOk : LibOk L} {V : Invariant} {T : Protocol}.
Abbreviation working := (Working, false).

Lemma keeps_parse : keeps working any_result parseAddonInstallConfig.
Proof. unfold parseAddonInstallConfig. keep. Qed.
#[local] Hint Resolve keeps_parse : keeps.
Lemma keeps_options a : keeps working any_result (GetCommonInstallOptions a).
Proof. unfold GetCommonInstallOptions. keep. Qed.
#[local] Hint Resolve keeps_options : keeps.

(** ** The sub-reconcilers *)

Lemma owned_namespace a ns n : inv a -> desired_namespace a ns = inl n -> owned (ns_Meta n).
Proof.
  unfold desired_namespace. intros Ha H. destruct (SetControllerReference _ _) eqn:Hm; simplify_eq. find_owner.
Qed.
#[local] Hint Resolve owned_namespace : owned.
Lemma keeps_ensureNamespace i ns : keeps working any_result (ensureNamespace i ns).
Proof. unfold ensureNamespace, reconcileNamespace. keep. Qed.
#[local] Hint Resolve keeps_ensureNamespace : keeps.
Lemma keeps_ensure_namespaces l : forall i unready, keeps working any_result (ensure_namespaces i l unready).
Proof. induction l as [|ns l IH]; intros i unready; simpl; keep. Qed.
Lemma keeps_delete_unwanted w l : keeps working any_result (delete_unwanted w l).
Proof. induction l as [|n l IH]; simpl; unfold ensureNamespaceDeletion; keep. Qed.
#[local] Hint Resolve keeps_ensure_namespaces keeps_delete_unwanted : keeps.
Lemma keeps_namespace : keeps working any_result namespace_Reconcile.
Proof.
  unfold namespace_Reconcile, ensureWantedNamespaces, ensureDeletionOfUnwantedNamespaces,
    getOwnedNamespacesViaCommonLabels. keep.
Qed.

Lemma keeps_cluster_info : keeps working any_result GetOCMClusterInfo.
Proof.
  intros s h. unfold GetOCMClusterInfo. apply (wpM_critical (at_ (Working, true)) _ (Working, true)); [constructor|..].
  - intros h' Hh'. eexists. split; [constructor|done].
  - assert (keeps (Working, true) any_result (let* c := do_call CLoadOCMClient in
      mpure (match c with
             | None => mkClusterInfo "" ""
             | Some c => mkClusterInfo (Effects.ClusterID c) (ClusterName c)
             end))) as Hb by keep.
    apply Hb.
Qed.
#[local] Hint Resolve keeps_cluster_info : keeps.
Lemma keeps_pko cid : creates KClusterObjectTemplate -> keeps working any_result (pko_Reconcile cid).
Proof.
  intros Hk. unfold pko_Reconcile, reconcileClusterObjectTemplate, ensureClusterObjectTemplateTornDown,
    extractDestinationNamespace, apply_template, getExistingClusterObjectTemplate, updateAddonStatus,
    pko_SetAddonUnreadyStatus. keep.
Qed.
Lemma keeps_pko_check : keeps working any_result pko_IsReconciliationSuccessful.
Proof. unfold pko_IsReconciliationSuccessful. keep. Qed.

Lemma keeps_instance : keeps working any_result addonInstance_Reconcile.
Proof. unfold addonInstance_Reconcile, ensureAddonInstance, reconcileAddonInstance. keep. Qed.

Lemma owned_monitoring_namespace a n : inv a -> desiredMonitoringNamespace a = inl n -> owned (ns_Meta n).
Proof.
  unfold desiredMonitoringNamespace. intros Ha H. destruct (SetControllerReference _ _) eqn:Hm; simplify_eq. find_owner.
Qed.
Lemma owned_bearer_token a t s : inv a -> desired_bearer_token a t = inl s -> owned (sec_Meta s).
Proof.
  unfold desired_bearer_token. intros Ha H. destruct (SetControllerReference _ _) eqn:Hm; simplify_eq. find_owner.
Qed.
Lemma keeps_desiredServiceMonitor a t : inv a ->
  keeps working (fun r => forall sm, r = inl sm -> owned (sm_Meta sm)) (desiredServiceMonitor a t).
Proof.
  intros Ha. unfold desiredServiceMonitor. keep; simplify_eq; find_owner.
Qed.
#[local] Hint Resolve owned_monitoring_namespace owned_bearer_token : owned.
#[local] Hint Resolve keeps_desiredServiceMonitor : keeps.

Lemma keeps_delete_unwanted_monitors w l : keeps working any_result (delete_unwanted_monitors w l).
Proof. induction l as [|sm l IH]; simpl; keep. Qed.
#[local] Hint Resolve keeps_delete_unwanted_monitors : keeps.
Lemma keeps_federation opns : keeps working any_result (federation_Reconcile opns).
Proof.
  unfold federation_Reconcile, ensureMonitoringFederation, ensureMonitoringNamespace,
    actualMonitoringNamespace, reconcileServiceMonitor, reconcileBearerTokenSecretForAddon,
    actualServiceMonitor, ensureDeletionOfUnwantedMonitoringFederation,
    getOwnedServiceMonitorsViaCommonLabels, ensureNamespaceDeletion. keep.
Qed.

Lemma keeps_getDesiredMonitoringStack :
  keeps working (fun r => forall ms, r = inl ms -> owned (ms_Meta ms)) getDesiredMonitoringStack.
Proof. unfold getDesiredMonitoringStack. keep; simplify_eq; find_owner. Qed.
#[local] Hint Resolve keeps_getDesiredMonitoringStack : keeps.
Lemma keeps_stack : creates KMonitoringStack -> keeps working any_result stack_Reconcile.
Proof.
  intros Hk. unfold stack_Reconcile, ensureMonitoringStack, reconcileMonitoringStack,
    propagateMonitoringStackStatusToAddon. keep.
Qed.

(** OLM objects. *)
Lemma keeps_reconcileCatalogSource cs : owned (cs_Meta cs) -> keeps working any_result (reconcileCatalogSource cs).
Proof. intros Hcs. unfold reconcileCatalogSource. keep. Qed.
Lemma keeps_reconcileOperatorGroup o : owned (og_Meta o) -> keeps working any_result (reconcileOperatorGroup o).
Proof. intros Ho. unfold reconcileOperatorGroup. keep. Qed.
Lemma keeps_reconcileSubscription m spec : owned m -> keeps working any_result (reconcileSubscription m spec).
Proof. intros Ho. unfold reconcileSubscription, GetSubscription. keep. Qed.
Lemma keeps_desired_policy :
  keeps working (fun r => forall np, r = inl np -> owned (np_Meta np)) desiredCatalogSourcesNetworkPolicy.
Proof. unfold desiredCatalogSourcesNetworkPolicy. keep; simplify_eq; find_owner. Qed.
#[local] Hint Resolve keeps_desired_policy : keeps.
#[local] Hint Extern 1 (keeps _ _ (reconcileCatalogSource _)) => apply keeps_reconcileCatalogSource; find_owner : keeps.
#[local] Hint Extern 1 (keeps _ _ (reconcileOperatorGroup _)) => apply keeps_reconcileOperatorGroup; find_owner : keeps.
#[local] Hint Extern 1 (keeps _ _ (reconcileSubscription _ _)) => apply keeps_reconcileSubscription; find_owner : keeps.
Lemma keeps_check_additional m l : forall acc, keeps working any_result (check_additional m l acc).
Proof. induction l as [|x l IH]; intros acc; simpl; keep. Qed.
#[local] Hint Resolve keeps_check_additional : keeps.
Lemma keeps_ensure_additional ns p l : keeps working any_result (ensure_additional ns p l).
Proof. induction l as [|x l IH]; simpl; keep. Qed.
#[local] Hint Resolve keeps_ensure_additional : keeps.
Lemma keeps_observe csvKey : keeps working any_result (observeOperatorResource csvKey).
Proof.
  unfold observeOperatorResource, install_plan_pending, GetInstallPlan, GetSubscription,
    generateOperatorResourceName, observe_csv, report_csv_phase, handleInstalledCondition,
    handleInstallAck, isAddonInstanceInstalled, handleMissingCSV, deleteConfigMapPresent. keep.
Qed.
#[local] Hint Resolve keeps_observe : keeps.
Lemma keeps_olm : keeps working any_result olm_Reconcile.
Proof.
  unfold olm_Reconcile, ensureOperatorGroup, ensureCatalogSourcesNetworkPolicy,
    actualCatalogSourcesNetworkPolicy, ensureCatalogSource, ensureAdditionalCatalogSources,
    HasAdditionalCatalogSources, parseAddonInstallConfigForAdditionalCatalogSources,
    olm_subscription_phases, ensureSubscription. keep.
Qed.

(** Secrets: the ones to copy are owned, in whatever namespace. *)
Definition all_owned (l : list Secret) : Prop := Forall (fun d => owned (sec_Meta d)) l.

Lemma keeps_getReferencedSecret key : keeps working any_result (getReferencedSecret key).
Proof. unfold getReferencedSecret, getReferencedSecret_uncached. keep. Qed.
Lemma keeps_reconcileSecret d : owned (sec_Meta d) -> keeps working any_result (reconcileSecret d).
Proof. intros Hd. unfold reconcileSecret. keep. Qed.
#[local] Hint Resolve keeps_getReferencedSecret keeps_reconcileSecret : keeps.
Lemma owned_destination a name src d : inv a -> destination_secret a name src = inl d -> owned (sec_Meta d).
Proof.
  unfold destination_secret. intros Ha H. destruct (SetControllerReference _ _) eqn:Hm; simplify_eq. find_owner.
Qed.
#[local] Hint Resolve owned_destination : owned.
Lemma keeps_destination_secrets opns l : forall acc, all_owned acc ->
  keeps working (fun r => all_owned r.1.1) (destination_secrets opns l acc).
Proof.
  induction l as [|x l IH]; intros acc Hacc; simpl; keep; simpl; try done; try by constructor.
  apply IH, Forall_app. split; [done|]. apply Forall_singleton. find_owner.
Qed.
Lemma keeps_destinations opns :
  keeps working (fun r => all_owned r.1.1) (getDestinationSecretsWithoutNamespace opns).
Proof.
  unfold getDestinationSecretsWithoutNamespace. keep; simpl; try by constructor.
  apply keeps_destination_secrets. constructor.
Qed.
Lemma keeps_reconcile_placements l : forall known, all_owned l ->
  keeps working any_result (reconcile_placements l known).
Proof.
  induction l as [|x l IH]; intros known Hl; simpl; [by apply keeps_pure|].
  apply Forall_cons in Hl as [Hx Hl]. keep.
Qed.
Lemma placements_owned l ns : all_owned l -> all_owned (placements l ns).
Proof.
  unfold placements, all_owned. induction 1 as [|d l (a & Ha & Hd) Hl IH]; simpl; [constructor|].
  apply Forall_app. split; [|done]. apply Forall_forall. intros d' (n & -> & _)%list_elem_of_fmap.
  exists a. split; [done|]. unfold controlled_by in *. by rewrite get_controller in *.
Qed.
Lemma keeps_delete_unknown known l : keeps working any_result (delete_unknown known l).
Proof. induction l as [|x l IH]; simpl; keep. Qed.
#[local] Hint Resolve keeps_destinations keeps_delete_unknown : keeps.
Lemma keeps_secret opns : keeps working any_result (secret_Reconcile opns).
Proof.
  unfold secret_Reconcile, cleanupUnknownSecrets, reconcileSecretsInAddonNamespaces. keep.
  by apply keeps_reconcile_placements, placements_owned.
Qed.

Lemma keeps_deletion : keeps working any_result (deletion_Reconcile [legacyDeletionHandler; addonInstanceDeletionHandler]).
Proof.
  unfold deletion_Reconcile. cbn [run_handlers NotifyAddon AckReceivedFromAddon legacyDeletionHandler
    addonInstanceDeletionHandler]. unfold deletionTimedOut, legacy_NotifyAddon, legacy_AckReceivedFromAddon,
    createDeleteConfigMap, instance_NotifyAddon, instance_AckReceivedFromAddon, fetchAddonInstance,
    generateOperatorResourceName. keep.
Qed.

(** The parts of a sub-reconciler keep the invariant. *)
Definition sub_keeps (x : addonReconciler) : Prop :=
  keeps working any_result (sub_Reconcile x) /\
  match sub_NonBlocking x with
  | Some nb => keeps working any_result (IsReconciliationSuccessful nb) /\
      keeps working any_result (SetAddonUnreadyStatus nb)
  | None => True
  end.

Lemma keeps_run_subReconcilers l : Forall sub_keeps l -> keeps working any_result (run_subReconcilers l).
Proof.
  induction 1 as [|x l [Hx _] _ IH]; simpl; [by apply keeps_pure|]. unfold report_error. keep.
Qed.
Lemma keeps_check_nonBlocking l : Forall sub_keeps l -> keeps working any_result (check_nonBlocking l).
Proof.
  induction 1 as [|x l [_ Hx] _ IH]; simpl; [by apply keeps_pure|].
  destruct (sub_NonBlocking x) as [nb|]; [destruct Hx|]; keep.
Qed.

Lemma keeps_finalizer : keeps working any_result ensure_cache_finalizer.
Proof. unfold ensure_cache_finalizer, report_error. keep. Qed.
#[local] Hint Resolve keeps_run_subReconcilers keeps_check_nonBlocking keeps_finalizer : keeps.

(** What is done with an Addon that is not paused globally. *)
Lemma keeps_unpaused r : Forall sub_keeps (getOrderedSubReconcilers r) ->
  keeps working any_result (reconcile_unpaused r).
Proof. intros Hr. unfold reconcile_unpaused, prepare_addon, setAddonCRStatus. keep. Qed.

Lemma keeps_deleted : keeps (Deleting, false) any_result handleAddonCRDeletion.
Proof. unfold handleAddonCRDeletion, finalize_addon, ensureClusterPackageDeletion. keep. Qed.

Lemma Forall_insert P x l : P x -> Forall P l -> Forall P (insert_by_order x l).
Proof.
  intros Hx. induction 1 as [|y l Hy Hl IH]; simpl; [by constructor|].
  destruct (_ <? _)%Z; by repeat constructor.
Qed.

Lemma Forall_ordered P r : Forall P (subReconcilers r) -> Forall P (getOrderedSubReconcilers r).
Proof.
  unfold getOrderedSubReconcilers. assert (Forall P []) as Hacc by constructor. revert Hacc.
  generalize (@nil addonReconciler). induction (subReconcilers r) as [|x l IH]; intros acc Hacc; [done|].
  intros [Hx Hl]%Forall_cons. apply IH; [by apply Forall_insert|done].
Qed.

Lemma subReconcilers_keep ext ns b1 b2 opts :
  Forall (fun o => creates (option_kind o)) opts ->
  Forall sub_keeps (subReconcilers (NewAddonReconciler ext ns b1 b2 opts)).
Proof.
  unfold NewAddonReconciler. match goal with |- context [fold_left _ _ ?r0] => set (r := r0) end.
  assert (Forall sub_keeps (subReconcilers r)) as Hr.
  { repeat constructor; auto using keeps_deletion, keeps_namespace, keeps_instance, keeps_olm;
      [apply keeps_secret|apply keeps_federation]. }
  intros Hopts. revert Hr. generalize r. clear r.
  induction Hopts as [|o opts Ho Hopts IH]; intros r Hr; [done|]. apply IH. destruct o; apply Forall_app; (split; [done|]); apply Forall_singleton.
  - split; [by apply keeps_stack|exact I].
  - split; [by apply keeps_pko|]. split; [apply keeps_pko_check|]. apply keeps_report. constructor.
Qed.
End Walk.

(** ** Metrics and reporting *)

Section Finish.
Context {L : Lib} {LOk : LibOk L} {V : Invariant} {T : Protocol}.
Context (p : phase).

Lemma keeps_status_reporting r : keeps p any_result (handleOCMAddOnStatusReporting r).
Proof.
  unfold handleOCMAddOnStatusReporting, postAddonStatus, recordAddonServiceRequestDuration. keep.
Qed.
Lemma keeps_started c : keeps p any_result (reportUpgradeStarted c).
Proof. unfold reportUpgradeStarted, handlePatchUpgradePolicy, recordOCMRequestDuration. keep. Qed.
Lemma keeps_completed c : keeps p any_result (reportUpgradeCompleted c).
Proof. unfold reportUpgradeCompleted, handlePatchUpgradePolicy, recordOCMRequestDuration. keep. Qed.
#[local] Hint Resolve keeps_started keeps_completed : keeps.
Lemma keeps_policy_locked : keeps p any_result report_policy_locked.
Proof.
  unfold report_policy_locked, getPreviousUpgradePolicyStateValue, handleGetUpgradePolicyState,
    recordOCMRequestDuration, report_upgrade_policy, report_available. keep.
Qed.
End Finish.

Section Whole.
Context {L : Lib} {LOk : LibOk L} {V : Invariant} {T : Protocol}.
Abbreviation done := (Done, false).

Lemma keeps_upgrade_reporting r : keeps done any_result (handleUpgradePolicyStatusReporting r).
Proof.
  unfold handleUpgradePolicyStatusReporting. keep.
  intros s h. unfold with_rlock. apply (wpM_critical (at_ (Done, true)) _ (Done, true)); [constructor|..].
  - intros h' Hh'. eexists. split; [constructor|done].
  - apply (keeps_policy_locked (Done, true)).
Qed.
#[local] Hint Resolve keeps_status_reporting keeps_upgrade_reporting : keeps.

Lemma keeps_finish r res err : keeps done any_result (finish_reconcile r res err).
Proof.
  unfold finish_reconcile, recordAddonMetrics, listUnschedulableAddonPods, syncWithExternalAPIs,
    report_sync_errors, report_error. keep.
Qed.

(** Under the lock of the global pause. *)
Definition in_section (h : history) : Prop := exists st, st ∈ [Entered; Pausing; Working] /\ at_ (st, false) h.
Lemma in_section_at st h : st ∈ [Entered; Pausing; Working] -> at_ (st, false) h -> in_section h.
Proof. intros. by exists st. Qed.

Lemma keeps_section {A} st (m : M St A) s h :
  st ∈ [Entered; Pausing; Working] -> keeps (st, false) any_result m -> inv (st_addon s) -> at_ (st, false) h ->
  wpM (walk_env in_section) m s h (fun h' a s' => inv (st_addon s') /\ in_section h' /\ any_result a).
Proof.
  intros Hst Hm Hs Hh. eapply wpM_mono; [eapply walk_weaken; [|by apply Hm]; by intros; eapply in_section_at|].
  intros h' a s' (H1 & H2 & H3). split; [done|]. split; [by eapply in_section_at|done].
Qed.

Lemma walk_locked r s h :
  Forall sub_keeps (getOrderedSubReconcilers r) -> inv (st_addon s) -> at_ (Entered, false) h ->
  wpM (walk_env in_section) (reconcile_locked r) s h
    (fun h' a s' => inv (st_addon s') /\ in_section h' /\ any_result a).
Proof.
  intros Hr Hs Hh. unfold reconcile_locked. apply wpM_bind, wpM_get_addon, wpM_bind, wpM_call.
  { split; [by apply sends_indifferent|]. by apply (at_moves _ _ _ _ (moves_load true)). }
  intros b h1 [_ ->]. destruct (at_moves _ _ _ _ (moves_load b) Hh) as [_ Hb]. destruct b.
  - eapply (keeps_section Pausing); [set_solver| |done|done]. keep.
  - pose proof (keeps_unpaused r Hr). eapply (keeps_section Working); [set_solver| |done|done]. keep.
Qed.

Lemma walk_reconcile r s h :
  Forall sub_keeps (getOrderedSubReconcilers r) -> inv (st_addon s) ->
  at_ (if Time_IsZero (DeletionTimestamp (a_Meta (st_addon s))) then Fresh else Deleting, false) h ->
  wpM (WalkEnv done) (reconcile r) s h (fun h' a s' => inv (st_addon s') /\ at_ done h' /\ any_result a).
Proof.
  intros Hr Hs Hh. unfold reconcile. apply wpM_bind, wpM_get_addon. destruct (Time_IsZero _); simpl.
  - unfold with_rlock. apply (wpM_critical in_section (Fresh, false) (Entered, false)); [constructor| |..|done|done].
    + intros h' (st & Hst & Hh'). exists (st, false). split; [|done].
      constructor; intros ->; set_solver.
    + intros _ Hh'. by apply walk_locked.
  - eapply wpM_mono; [eapply walk_weaken; [|by apply keeps_deleted]; by intros; apply at_done; right|].
    intros h' a s' (H1 & H2 & H3). split; [done|]. split; [by apply at_done; right|done].
Qed.

(** The reconcile of an Addon that is read with the invariant. *)
Lemma wpM_Reconcile ext ns b1 b2 opts req s :
  Forall (fun o => creates (option_kind o)) opts ->
  (forall a, relies [] (Ev (CGet Cached KAddon req) (inl a)) -> inv a) ->
  wpM (WalkEnv done) (Reconcile (NewAddonReconciler ext ns b1 b2 opts) req) s [] (fun h _ s' => at_ done h /\
    (inv (st_addon s') \/ exists e, h = [Ev (CGet Cached KAddon req) (inr e)])).
Proof.
  intros Ho Hread. set (r := NewAddonReconciler ext ns b1 b2 opts).
  assert (Forall sub_keeps (getOrderedSubReconcilers r)) as Hr by by apply Forall_ordered, subReconcilers_keep.
  unfold Reconcile. apply wpM_bind, wpM_call.
  { split; [by apply sends_indifferent|]. by apply (follows_plain (Fresh, false)), at_start. }
  intros [a|e] h1 [Ha ->].
  - apply wpM_bind, wpM_set_addon, wpM_bind. eapply wpM_mono; [apply walk_reconcile; [done|by apply Hread|]|].
    + simpl. destruct (Time_IsZero _) eqn:Hd; [by apply at_plain, at_start|].
      by apply (at_moves _ _ _ _ (moves_read req a Hd)), at_start.
    + intros h2 res s2 (H1 & H2 & _). eapply wpM_mono; [by apply keeps_finish|].
      intros h3 out s3 (H3 & H4 & _). split; [done|by left].
  - apply wpM_bind. unfold report_error. apply wpM_modify_recorder, wpM_pure.
    split; [by apply at_done; left; apply at_plain, at_start|]. right. by exists e.
Qed.
End Whole.

(** Without a protocol. *)
Section Unlocked.
Context {L : Lib} {LOk : LibOk L} {V : Invariant}.

Lemma wpM_Reconcile_rely ext ns b1 b2 opts req s :
  Forall (fun o => creates (option_kind o)) opts ->
  (forall a, relies [] (Ev (CGet Cached KAddon req) (inl a)) -> inv a) ->
  wpM (rely_env relies (fun _ => sends) (fun _ => True))
    (Reconcile (NewAddonReconciler ext ns b1 b2 opts) req) s [] (fun h _ s' =>
      inv (st_addon s') \/ exists e, h = [Ev (CGet Cached KAddon req) (inr e)]).
Proof.
  intros Ho Hread. eapply wpM_mono; [eapply wp_weaken; [| |by apply (wpM_Reconcile (T := any_protocol))]|].
  - by intros h c [H _].
  - done.
  - by intros h out s' [_ H].
Qed.
End Unlocked.
