(* ===== verification/StatusInvariant.v ===== *)
(** * An invariant of the Addon status that the whole controller keeps

    A status is [good] when its phase is Ready exactly when the Addon is
    available, and when it does not say both that an upgrade started and that
    it succeeded.  Every report and every other change of the Addon in memory
    keeps it, so that it is an [Invariant] of the walk over the reconcile: no
    status update ever writes a status that is not good. *)
From S2P Require Export ReconcileWalk.

Section Good.
Context {L : Lib} {LOk : LibOk L}.

Definition good (a : Addon) : Prop :=
  (Phase (a_Status a) = PhaseReady <-> IsAvailable a = true) /\
  (find_condition UpgradeStarted a = None \/ find_condition UpgradeSucceeded a = None).

(** The status is good by its phase and its conditions alone. *)
Lemma good_ext a b :
  Phase (a_Status a) = Phase (a_Status b) -> Conditions (a_Status a) = Conditions (a_Status b) ->
  good b -> good a.
Proof. unfold good, IsAvailable, find_condition. by intros -> ->. Qed.

(** A report of availability with a phase that agrees. *)
Lemma good_availability now c p a :
  cond_Type c = Available -> cond_LastTransitionTime c = zero_time ->
  (p = PhaseReady <-> cond_Status c = ConditionTrue) ->
  good a -> good (set_Phase p (observe_generation (set_condition now c a))).
Proof.
  intros Hty Hz Hp [_ H2]. unfold good. rewrite IsAvailable_find, !find_set_Phase, !find_observe_generation,
    !find_set_condition by done. rewrite Hty.
  rewrite (bool_decide_true (Available = _)), (bool_decide_false (UpgradeStarted = _)),
    (bool_decide_false (UpgradeSucceeded = _)) by done.
  split; [|done]. change (Phase (a_Status (set_Phase p _))) with p. rewrite Hp. simpl.
  rewrite bool_decide_eq_true. reflexivity.
Qed.

(** A report of another condition. *)
Lemma good_other now c a :
  cond_LastTransitionTime c = zero_time -> cond_Type c <> Available ->
  (cond_Type c = UpgradeStarted -> find_condition UpgradeSucceeded a = None) ->
  (cond_Type c = UpgradeSucceeded -> find_condition UpgradeStarted a = None) ->
  good a -> good (observe_generation (set_condition now c a)).
Proof.
  intros Hz Hty H1 H2 [Ha Hu]. unfold good. rewrite IsAvailable_find, !find_observe_generation,
    !find_set_condition by done.
  rewrite (bool_decide_false (Available = _)) by congruence. rewrite IsAvailable_find in Ha. split; [done|].
  destruct (UpgradeStarted =s? cond_Type c) eqn:E1, (UpgradeSucceeded =s? cond_Type c) eqn:E2; bools; try done.
  - rewrite <- E1 in E2. done.
  - right. by apply H1.
  - left. by apply H2.
Qed.

Lemma good_remove ty a : ty <> Available -> good a -> good (remove_condition ty a).
Proof.
  intros Hty [Ha Hu]. unfold good. rewrite IsAvailable_find in *. rewrite !find_remove_condition.
  rewrite (bool_decide_false (Available = _)) by congruence. split; [done|].
  destruct (UpgradeStarted =s? ty), (UpgradeSucceeded =s? ty); first [done | by left | by right].
Qed.

(** ** Reports *)

Lemma good_report f now a : reports f -> good a -> good (f now a).
Proof.
  intros [] Ha.
  - eapply good_ext; [..|eapply (good_availability now _ PhaseReady); [..|exact Ha]]; done.
  - by apply good_availability.
  - by apply good_availability.
  - by apply good_other.
  - unfold reportAddonReadyToBeDeletedStatus. destruct (v =s? ConditionTrue); by apply good_other.
  - by apply good_other.
  - unfold reportAddonUpgradeSucceeded. destruct (find_condition UpgradeStarted a); [|done].
    apply good_other; try done; [|by apply good_remove].
    intros _. by rewrite find_remove_condition, bool_decide_true.
  - unfold reportAddonUpgradeStarted. destruct (find_condition UpgradeSucceeded a) eqn:E; apply good_other;
      try done; [|by apply good_remove].
    intros _. by rewrite find_remove_condition, bool_decide_true.
  - unfold reportUninstalledCondition. destruct (find_condition Installed a); [by apply good_other|done].
  - by apply good_other.
  - by apply good_other.
  - by apply good_availability.
  - by apply good_availability.
Qed.

(** ** Programs that keep it *)

(** The server answers with good Addons, and is sent no status that is not. *)
Definition good_answer (_ : history) (e : event) : Prop :=
  match ev_call e as c return resp c -> Prop with
  | CGet _ k _ => match k return obj k + error -> Prop with
                  | KAddon => fun r => match r with inl a => good a | inr _ => True end
                  | _ => fun _ => True end
  | CUpdate k _ => match k return obj k + error -> Prop with
                  | KAddon => fun r => match r with inl a => good a | inr _ => True end
                  | _ => fun _ => True end
  | CStatusUpdate k _ => match k return obj k + error -> Prop with
                  | KAddon => fun r => match r with inl a => good a | inr _ => True end
                  | _ => fun _ => True end
  | _ => fun _ => True
  end (ev_resp e).

Definition good_update (_ : history) (c : call) : Prop :=
  match c with CStatusUpdate KAddon o => good o | _ => True end.

Definition GoodEnv : env history := rely_env good_answer good_update (fun _ => True).

Lemma good_quiet f a : quiet f -> good a -> good (f a).
Proof.
  intros [] Ha; try (by eapply good_ext; [..|exact Ha]); by apply good_remove.
Qed.

#[export] Instance good_invariant : Invariant.
Proof.
  refine {| inv := good; relies := good_answer; sends := good_update []; creates := fun _ => True |}; try done.
  - intros f now a. apply good_report.
  - intros f a. apply good_quiet.
  - unfold SetUpgradePolicyStatus. intros v a a' H Ha. destruct (UpgradePolicy _); simplify_eq.
    by eapply good_ext; [..|exact Ha].
  - by intros c Hc; destruct c as [| | | |[] o| | | | | | | | | | | | |].
Defined.

(** C2: Given Addons whose phase is Ready exactly when they are available and
    that do not report an upgrade both as started and as succeeded, the
    reconcile of the operator, with all of its sub-reconcilers and any of its
    options, never sends a status that is not so, at any of its status
    updates and whatever the server answers otherwise. *)
Theorem status_stays_good (ext ns : string) (b1 b2 : bool) (opts : list AddonReconcilerOption)
    (req : ObjectKey) (s : St) :
  wpM GoodEnv (Reconcile (NewAddonReconciler ext ns b1 b2 opts) req) s [] (fun h out s' =>
    good (st_addon s') \/ exists e, h = [Ev (CGet Cached KAddon req) (inr e)]).
Proof. apply (wpM_Reconcile_rely (V := good_invariant)); [by apply Forall_true|done]. Qed.
End Good.
