(* ===== verification/Interleaving.v ===== *)
(** * Interleavings of the controllers, and their locks

    The reconciles of Addons and of the AddonOperator run as threads that share
    the pause flag, the OCM client and the two read-write locks of the Addon
    reconciler.  [step] lets any thread make its next call, and a new thread
    start, at any time; what the API server answers is left open.  The threads
    follow a discipline of locks, which is proved with the walk of
    [ReconcileWalk]; the theorems are about every reachable state. *)
From S2P Require Export ReconcileWalk AddonOperatorController.

(** ** What a thread holds *)

Inductive mode := Reading | Writing.
#[export] Instance mode_eq : EqDecision mode.
Proof. solve_decision. Defined.

(** What the calls of a thread, the most recent first, leave it holding. *)
Definition held_after (m : mutex) (c : call) (before : option mode) : option mode :=
  match c with
  | CMutex m' op =>
      if decide (m' = m) then
        match op with Lock => Some Writing | RLock => Some Reading | Unlock | RUnlock => None end
      else before
  | _ => before
  end.
Fixpoint held (m : mutex) (h : history) : option mode :=
  match h with [] => None | e :: h' => held_after m (ev_call e) (held m h') end.

(** The pause flag that was read since the lock on it was last taken. *)
Definition saw_after (e : event) (before : option bool) : option bool :=
  match ev_call e as c return resp c -> option bool with
  | CLoadGlobalPause => fun b => Some b
  | CMutex globalPauseMux _ => fun _ => None
  | _ => fun _ => before
  end (ev_resp e).
Fixpoint saw (h : history) : option bool :=
  match h with [] => None | e :: h' => saw_after e (saw h') end.

Definition unlocked (h : history) : Prop := forall m, held m h = None.

(** The thread holds the lock of the pause flag, which it read as false. *)
Definition works (h : history) : Prop := held globalPauseMux h = Some Reading /\ saw h = Some false.

Section Threads.
Context {L : Lib}.

(** The thread is in the reconcile of a deleted Addon. *)
Definition deletes (h : history) : Prop :=
  exists key (a : obj KAddon), Ev (CGet Cached KAddon key) (inl a) ∈ h /\
    Time_IsZero (DeletionTimestamp (a_Meta a)) = false.

(** The discipline: locks are not taken twice, and not the one of the flag
    while holding the one of the client; what a lock protects is read and
    written under it, except for reads of the client; and nothing in the
    cluster is changed but by a thread that works or deletes. *)
Definition disciplined (h : history) (c : call) : Prop :=
  match c with
  | CMutex m (Lock | RLock) => held m h = None /\ (m = globalPauseMux -> held ocmClientMux h = None)
  | CMutex m Unlock => held m h = Some Writing
  | CMutex m RUnlock => held m h = Some Reading
  | CLoadGlobalPause => held globalPauseMux h = Some Reading
  | CStoreGlobalPause _ => held globalPauseMux h = Some Writing
  | CStoreOCMClient _ => held ocmClientMux h = Some Writing
  | c => acts c = true -> works h \/ deletes h
  end.

(** A thread that returns or stops holds nothing. *)
Definition Discipline : env history := log_env disciplined (fun h _ => unlocked h).

Lemma held_plain m e h : plain (ev_call e) = true -> held m (e :: h) = held m h.
Proof. simpl. by destruct (ev_call e). Qed.
Lemma held_other m m' op res h : m' <> m -> held m' (Ev (CMutex m op) res :: h) = held m' h.
Proof. intros Hm. simpl. by rewrite decide_False by congruence. Qed.
Lemma held_same m op res h : held m (Ev (CMutex m op) res :: h) =
  match op with Lock => Some Writing | RLock => Some Reading | Unlock | RUnlock => None end.
Proof. simpl. by rewrite decide_True. Qed.
Lemma saw_plain e h : plain (ev_call e) = true -> saw (e :: h) = saw h.
Proof. simpl. unfold saw_after. destruct e as [c r]. simpl. by destruct c. Qed.
Lemma deletes_later e h : deletes h -> deletes (e :: h).
Proof. intros (key & a & Hin & Ha). exists key, a. split; [by right|done]. Qed.

End Threads.

(** ** Addon threads *)

Section AddonThreads.
Context {L : Lib} {LOk : LibOk L}.

(** What the history says in each phase of a reconcile. *)
Definition lock_at (p : phase) (h : history) : Prop :=
  held globalPauseMux h =
    match p.1 with Entered | Pausing | Working => Some Reading | _ => None end /\
  held ocmClientMux h = (if p.2 then Some Reading else None) /\
  match p.1 with Working => saw h = Some false | Deleting => deletes h | _ => True end.

#[export] Instance lock_protocol : Protocol.
Proof.
  refine {| follows := disciplined; at_ := lock_at |}.
  - done.
  - by intros h [(H1 & H2 & _)|(H1 & H2 & _)].
  - intros [st o] h c Hp Hact (H1 & H2 & H3). destruct c; simpl in *; try done;
      intros Ha%Hact; destruct st; try done; first [by left|by right].
  - intros [st o] h e Hp (H1 & H2 & H3). unfold lock_at.
    rewrite !held_plain, saw_plain by done. split_and!; try done.
    destruct st; try done. by apply deletes_later.
  - intros p e p' h Hm (H1 & H2 & H3). destruct Hm as [key a Ha| |b|st Hn1 Hn2 Hn3|st|st]; simpl in *.
    + split; [done|]. split_and!; [done|done|]. exists key, a. split; [left|done].
    + done.
    + split; [done|]. by destruct b.
    + split; [by destruct st|done].
    + destruct st; (split; [by split|]); unfold lock_at; simpl; split_and!; try done; by apply deletes_later.
    + destruct st; (split; [done|]); unfold lock_at; simpl; split_and!; try done; by apply deletes_later.
Defined.

(** No invariant of the Addon is needed. *)
Definition any_invariant : Invariant.
Proof.
  by refine {| inv := fun _ => True; relies := fun _ _ => True; sends := fun _ => True; creates := fun _ => True |}.
Defined.

Lemma addon_thread ext ns b1 b2 opts req s :
  wpM Discipline (Reconcile (NewAddonReconciler ext ns b1 b2 opts) req) s [] (fun h _ _ => unlocked h).
Proof.
  assert (forall h, lock_at (Done, false) h -> unlocked h) as Hdone by (by intros h (H1 & H2 & _) []).
  eapply wpM_mono; [eapply wp_env_mono; [| | |apply (wpM_Reconcile (V := any_invariant) (T := lock_protocol))]|].
  - done.
  - by intros h c [_ H].
  - intros h [why|code]; [apply Hdone|done].
  - by apply Forall_true.
  - done.
  - intros h out s' [H _]. by apply Hdone.
Qed.
End AddonThreads.

(** ** Threads of the AddonOperator controller *)

Section OperatorThreads.
Context {L : Lib} {LOk : LibOk L}.

(** A program that follows the discipline from and to histories with [I], and
    panics only there; it exits holding nothing. *)
Definition orderly_env (I : history -> Prop) : env history :=
  log_env disciplined (fun h st => match st with Panicked _ => I h | Exited _ => unlocked h end).
Definition orderly {A} (I : history -> Prop) (m : M OState A) : Prop :=
  forall s h, I h -> wpM (orderly_env I) m s h (fun h' _ _ => I h').

Lemma orderly_bind I {A B} (m : M OState A) (f : A -> M OState B) :
  orderly I m -> (forall a, orderly I (f a)) -> orderly I (mthen m f).
Proof.
  intros Hm Hf s h Hh. apply wpM_bind. eapply wpM_mono; [by apply Hm|]. intros h' a s' Hh'. by apply Hf.
Qed.
Lemma orderly_pure I {A} (f : OState -> A * OState) : orderly I (fun s => Ret (f s)).
Proof. intros s h Hh. unfold wpM. simpl. by destruct (f s). Qed.
Lemma orderly_exit {A} code : orderly unlocked (exit (A := A) code).
Proof. by intros s h Hh. Qed.
Lemma orderly_call I c :
  (forall h, I h -> disciplined h c) -> (forall h r, I h -> I (Ev c r :: h)) -> orderly I (do_call c).
Proof. intros H1 H2 s h Hh. apply wpM_log_call; [by apply H1|]. intros r. by apply H2. Qed.
Lemma orderly_for I {A} (l : list A) (body : A -> M OState unit) :
  (forall a, orderly I (body a)) -> orderly I (mfor l body).
Proof. intros Hb. induction l as [|a l IH]; simpl; [apply (orderly_pure I (fun s => (tt, s)))|by apply orderly_bind]. Qed.

(** Only the lock [m] is held, for writing. *)
Definition locked (m : mutex) (h : history) : Prop :=
  forall m', held m' h = if decide (m' = m) then Some Writing else None.

Lemma orderly_locked m {A} (body : M OState A) :
  orderly (locked m) body -> orderly unlocked (with_lock m body).
Proof.
  intros Hb s h Hh. unfold with_lock. apply wpM_bind, wpM_log_call; [by split|]. intros [].
  assert (forall h, locked m h -> disciplined h (CMutex m Unlock) /\ unlocked (Ev (CMutex m Unlock) tt :: h)) as Hend.
  { intros h' Hh'. split; [simpl; by rewrite Hh', decide_True|]. intros m'. simpl.
    case_decide; [done|]. by rewrite Hh', decide_False. }
  apply (wpM_defer _ (env_abort (orderly_env (locked m)))); [|done|].
  - intros h' why [H1 H2]%Hend. split; [done|]. by intros [] h2 ->.
  - eapply wpM_mono; [apply Hb|].
    + intros m'. simpl. case_decide; subst; [by rewrite decide_True|by rewrite decide_False].
    + intros h' a s' [H1 H2]%Hend. split; [done|]. by intros [] h2 ->.
Qed.

(** Where a program keeps what it holds: with nothing or with one lock. *)
Class Steady (I : history -> Prop) : Prop := {
  steady h e : (match ev_call e with CMutex _ _ => False | _ => True end) -> I h -> I (e :: h)
}.
Lemma held_steady m h e : (match ev_call e with CMutex _ _ => False | _ => True end) -> held m (e :: h) = held m h.
Proof. simpl. by destruct (ev_call e). Qed.
#[export] Instance unlocked_steady : Steady unlocked.
Proof. constructor. intros h e He Hh m. by rewrite held_steady. Qed.
#[export] Instance locked_steady m : Steady (locked m).
Proof. constructor. intros h e He Hh m'. by rewrite held_steady. Qed.

Lemma orderly_plain I {S : Steady I} c : plain c = true -> acts c = false -> orderly I (do_call c).
Proof.
  intros Hp Ha. apply orderly_call; intros h; [intros _|intros r; apply steady; by destruct c].
  destruct c; try done; simpl in *; by rewrite Ha.
Qed.
Lemma orderly_store_pause b : orderly (locked globalPauseMux) (do_call (CStoreGlobalPause b)).
Proof. apply orderly_call; [intros h Hh; apply Hh|intros h r; by apply steady]. Qed.
Lemma orderly_store_client c : orderly (locked ocmClientMux) (do_call (CStoreOCMClient c)).
Proof. apply orderly_call; [intros h Hh; apply Hh|intros h r; by apply steady]. Qed.

Ltac orderly_step :=
  lazymatch goal with
  | |- orderly _ (mthen _ _) => apply orderly_bind; [|intros ?]
  | |- orderly _ (with_lock _ _) => apply orderly_locked
  | |- orderly _ (do_call (CStoreGlobalPause _)) => apply orderly_store_pause
  | |- orderly _ (do_call (CStoreOCMClient _)) => apply orderly_store_client
  | |- orderly ?I (do_call ?c) => exact (orderly_plain I c eq_refl eq_refl)
  | |- orderly _ (mfor _ _) => apply orderly_for; intros ?
  | |- orderly _ (exit _) => apply orderly_exit
  | |- orderly ?I (mpure ?a) => exact (orderly_pure I (fun s => (a, s)))
  | |- orderly ?I get_operator => exact (orderly_pure I (fun s => (os_operator s, s)))
  | |- orderly ?I (modify_operator ?f) =>
      exact (orderly_pure I (fun s => (tt, mkOState (f (os_operator s)) (os_recorder s))))
  | |- orderly ?I (modify_operator_recorder ?f) =>
      exact (orderly_pure I (fun s => (tt, mkOState (os_operator s) (f (os_recorder s)))))
  | |- orderly _ (operator_error _ _) => unfold operator_error
  | |- orderly _ (match ?x with _ => _ end) => destruct x
  end.
Ltac orderly := repeat orderly_step.

Lemma pause_orderly : orderly unlocked handleGlobalPause.
Proof.
  unfold handleGlobalPause. cbn [gpm_EnableGlobalPause gpm_DisableGlobalPause addon_pause_manager].
  unfold EnableGlobalPause, DisableGlobalPause, setGlobalPause, requeueAllAddons, reportAddonOperatorPauseStatus,
    removeAddonOperatorPauseCondition, operator_status_update. orderly.
Qed.
Lemma client_orderly r : orderly unlocked (handleOCMClient r).
Proof.
  unfold handleOCMClient, NewClient. cbn [ocm_InjectOCMClient addon_client_manager].
  unfold InjectOCMClient, requeueAllAddons. orderly.
Qed.

Lemma operator_thread r s :
  wpM Discipline (operator_Reconcile r) s [] (fun h _ _ => unlocked h).
Proof.
  assert (orderly unlocked (operator_Reconcile r)) as H.
  { unfold operator_Reconcile, reconcile_operator, reportAddonOperatorReadinessStatus, operator_status_update,
      handleAddonOperatorCreation, record_operator_paused. orderly; [apply pause_orderly|apply client_orderly]. }
  eapply (wp_env_mono (orderly_env unlocked)); [done|done| |by apply H]. by intros h [why|code].
Qed.
End OperatorThreads.

(** ** The system *)

(** A read-write lock: its readers, and whether a writer holds it. *)
Record rwlock := mkRW { rw_readers : nat; rw_writer : bool }.
Definition holds (l : rwlock) (md : mode) : nat :=
  match md with Reading => rw_readers l | Writing => if rw_writer l then 1 else 0 end.

(** What an operation of [sync.RWMutex] does to it, when it does not block. *)
Definition lock_step (op : mutex_op) (l : rwlock) : option rwlock :=
  match op with
  | Lock => if (rw_readers l =? 0) && negb (rw_writer l) then Some (mkRW 0 true) else None
  | RLock => if negb (rw_writer l) then Some (mkRW (S (rw_readers l)) false) else None
  | Unlock => if rw_writer l then Some (mkRW (rw_readers l) false) else None
  | RUnlock => match rw_readers l with S n => Some (mkRW n (rw_writer l)) | 0 => None end
  end.

(** What the threads share. *)
(*@ controllers/addon/addon_controller.go:70-77 ocmClient *)
Record shared := mkShared {
  sh_globalPause : bool; sh_ocmClient : option ClientOptions; sh_lock : mutex -> rwlock
}.
Definition initial : shared := mkShared false None (fun _ => mkRW 0 false).
Definition set_lock (m : mutex) (l : rwlock) (f : mutex -> rwlock) : mutex -> rwlock :=
  fun m' => if decide (m' = m) then l else f m'.

(** The answer to a call, and what it does to what is shared; the answers of
    the API server, of OCM and of the clock are left open. *)
Definition answers (sh : shared) (c : call) : resp c -> shared -> Prop :=
  match c with
  | CMutex m op => fun _ sh' => exists l, lock_step op (sh_lock sh m) = Some l /\
      sh' = mkShared (sh_globalPause sh) (sh_ocmClient sh) (set_lock m l (sh_lock sh))
  | CLoadGlobalPause => fun b sh' => b = sh_globalPause sh /\ sh' = sh
  | CStoreGlobalPause b => fun _ sh' => sh' = mkShared b (sh_ocmClient sh) (sh_lock sh)
  | CLoadOCMClient => fun c sh' => c = sh_ocmClient sh /\ sh' = sh
  | CStoreOCMClient c => fun _ sh' => sh' = mkShared (sh_globalPause sh) (Some c) (sh_lock sh)
  | _ => fun _ sh' => sh' = sh
  end.

(** A thread: its calls, the most recent first, and the rest of its program. *)
Record thread := mkThread { t_history : history; t_code : prog unit }.
Record system := mkSystem { s_shared : shared; s_threads : list thread }.

Definition discard {A} (m : prog A) : prog unit := pbind m (fun _ => Ret tt).

Section System.
Context {L : Lib} (r : AddonReconciler) (ro : AddonOperatorReconciler).

(** The programs that threads start with: a reconcile of any Addon, or of the
    AddonOperator, in any state of the memory that only they use. *)
Inductive starts : prog unit -> Prop :=
| starts_addon req s : starts (discard (Reconcile r req s))
| starts_operator s : starts (discard (operator_Reconcile ro s)).

Inductive step : system -> system -> Prop :=
| step_call ts1 h c k res sh sh' ts2 :
    answers sh c res sh' ->
    step (mkSystem sh (ts1 ++ mkThread h (Vis c k) :: ts2))
         (mkSystem sh' (ts1 ++ mkThread (Ev c res :: h) (k res) :: ts2))
| step_start sh ts p : starts p -> step (mkSystem sh ts) (mkSystem sh (mkThread [] p :: ts)).

Definition reachable : system -> Prop := rtc step (mkSystem initial []).
End System.

(** ** The invariant *)

Section SystemInvariant.
Context {L : Lib} {LOk : LibOk L}.

(** How many threads hold a lock in a mode. *)
Definition holders (m : mutex) (md : mode) (ts : list thread) : nat :=
  length (filter (fun t => held m (t_history t) = Some md) ts).

Lemma holders_at m md ts1 t ts2 :
  holders m md (ts1 ++ t :: ts2) =
  holders m md (ts1 ++ ts2) + (if decide (held m (t_history t) = Some md) then 1 else 0).
Proof.
  unfold holders. rewrite !filter_app, filter_cons, !length_app. case_decide; simpl; lia.
Qed.

Record consistent (σ : system) : Prop := {
  c_threads : Forall (fun t => wp Discipline (t_code t) (t_history t) (fun h _ => unlocked h)) (s_threads σ);
  c_locks m md : holds (sh_lock (s_shared σ) m) md = holders m md (s_threads σ);
  c_exclusive m : rw_writer (sh_lock (s_shared σ) m) = true -> rw_readers (sh_lock (s_shared σ) m) = 0;
  c_paused : sh_globalPause (s_shared σ) = true -> Forall (fun t => ~ works (t_history t)) (s_threads σ)
}.

Lemma consistent_initial : consistent (mkSystem initial []).
Proof. constructor; [constructor|by intros m []|done|done]. Qed.

Lemma holders_none m md ts : (forall t, t ∈ ts -> held m (t_history t) = None) -> holders m md ts = 0.
Proof.
  intros H. induction ts as [|t ts IH]; [done|]. unfold holders in *. rewrite filter_cons.
  rewrite (H t) by left. rewrite decide_False by done. apply IH. intros t' Ht'. apply H. by right.
Qed.

Lemma holder_counted m md ts t : t ∈ ts -> held m (t_history t) = Some md -> 0 < holders m md ts.
Proof.
  intros (ts1 & ts2 & ->)%list_elem_of_split Ht. rewrite holders_at, decide_True by done. lia.
Qed.

(** While a thread holds a lock for writing, no other holds it. *)
Lemma sole_holder σ m ts1 t ts2 t' :
  consistent σ -> s_threads σ = ts1 ++ t :: ts2 -> held m (t_history t) = Some Writing ->
  t' ∈ ts1 ++ ts2 -> held m (t_history t') = None.
Proof.
  intros Hc Hs Ht Ht'. destruct (held m (t_history t')) as [md|] eqn:E; [|done]. exfalso.
  pose proof (holder_counted _ _ _ _ Ht' E) as Hpos.
  assert (rw_writer (sh_lock (s_shared σ) m) = true) as Hw.
  { pose proof (c_locks _ Hc m Writing) as Hl. rewrite Hs, holders_at, decide_True in Hl by done.
    simpl in Hl. destruct (rw_writer _); [done|lia]. }
  pose proof (c_locks _ Hc m md) as Hl. rewrite Hs, holders_at, Ht in Hl.
  destruct md; simpl in Hl.
  - rewrite (c_exclusive _ Hc m Hw) in Hl. lia.
  - rewrite Hw in Hl. lia.
Qed.

(** ** Every step keeps it *)

(** The lock of a mutex follows what the thread that uses it holds. *)
Lemma lock_follows op l l' before after n1 n2 :
  lock_step op l = Some l' ->
  (match op with
   | Lock => before = None /\ after = Some Writing
   | RLock => before = None /\ after = Some Reading
   | Unlock => before = Some Writing /\ after = None
   | RUnlock => before = Some Reading /\ after = None
   end) ->
  (forall md, holds l md = (match md with Reading => n1 | Writing => n2 end) +
     (if decide (before = Some md) then 1 else 0)) ->
  (rw_writer l = true -> rw_readers l = 0) ->
  (forall md, holds l' md = (match md with Reading => n1 | Writing => n2 end) +
     (if decide (after = Some md) then 1 else 0)) /\
  (rw_writer l' = true -> rw_readers l' = 0).
Proof.
  destruct l as [n b]. intros Hl Hop Hn Hx. pose proof (Hn Reading) as HR. pose proof (Hn Writing) as HW.
  destruct op; destruct Hop as [-> ->]; simpl in *; destruct b, n; simplify_eq/=;
    (split; [intros []; simpl|]); try done; try lia; intros _; lia.
Qed.

Definition ev_load (e : event) : option bool :=
  match ev_call e as c return resp c -> option bool with
  | CLoadGlobalPause => fun b => Some b
  | _ => fun _ => None
  end (ev_resp e).

Lemma works_after e h :
  works (e :: h) -> works h \/ e = Ev CLoadGlobalPause false.
Proof.
  intros [Hh Hs]. destruct e as [c res]. unfold works. simpl in *. unfold saw_after in Hs. simpl in Hs.
  destruct c as [| | | | | | | | | | | | | [] op | | | |]; simpl in *; try (by left).
  right. by injection Hs as ->.
Qed.

Lemma step_keeps_locks σ ts1 h c k res sh' ts2 :
  consistent σ -> s_threads σ = ts1 ++ mkThread h (Vis c k) :: ts2 ->
  disciplined h c -> answers (s_shared σ) c res sh' ->
  (forall m md, holds (sh_lock sh' m) md = holders m md (ts1 ++ mkThread (Ev c res :: h) (k res) :: ts2)) /\
  (forall m, rw_writer (sh_lock sh' m) = true -> rw_readers (sh_lock sh' m) = 0).
Proof.
  intros Hc Hs Hd Ha. pose proof (c_locks _ Hc) as Hl. pose proof (c_exclusive _ Hc) as Hx. rewrite Hs in Hl.
  assert ((sh_lock sh' = sh_lock (s_shared σ) /\ forall m, held m (Ev c res :: h) = held m h) \/
    exists m op l, c = CMutex m op /\ lock_step op (sh_lock (s_shared σ) m) = Some l /\
      sh_lock sh' = set_lock m l (sh_lock (s_shared σ))) as [[Hsame Hheld]|(m & op & l & -> & Hop & Hlock)].
  { destruct c; simpl in Ha; try (left; split; [first [by rewrite Ha|by destruct Ha as [_ ->]]|done]).
    right. destruct Ha as (l & Hop & ->). by exists m, op, l. }
  - rewrite Hsame. split; [|done]. intros m md. rewrite Hl, !holders_at. simpl t_history. by rewrite Hheld.
  - rewrite Hlock. unfold set_lock. split; intros m'; case_decide as Hm; subst.
    2: { intros md. rewrite Hl, !holders_at. simpl t_history. by rewrite held_other. }
    3: { apply Hx. }
    all: destruct (lock_follows op (sh_lock (s_shared σ) m) l (held m h) (held m (Ev (CMutex m op) res :: h))
      (holders m Reading (ts1 ++ ts2)) (holders m Writing (ts1 ++ ts2)) Hop) as [Hn Hw];
      [rewrite held_same; destruct op; simpl in Hd; by (destruct Hd || split)
      |intros md; rewrite Hl, holders_at; by destruct md|apply Hx|].
    + intros md. rewrite Hn, holders_at. by destruct md.
    + exact Hw.
Qed.

Lemma step_keeps_pause σ ts1 h c k res sh' ts2 :
  consistent σ -> s_threads σ = ts1 ++ mkThread h (Vis c k) :: ts2 ->
  disciplined h c -> answers (s_shared σ) c res sh' ->
  sh_globalPause sh' = true ->
  Forall (fun t => ~ works (t_history t)) (ts1 ++ mkThread (Ev c res :: h) (k res) :: ts2).
Proof.
  intros Hc Hs Hd Ha Hp.
  assert (Forall (fun t => ~ works (t_history t)) (s_threads σ)) as Hold.
  { destruct (sh_globalPause (s_shared σ)) eqn:Hp0; [by apply (c_paused _ Hc)|].
    assert (c = CStoreGlobalPause true) as ->.
    { destruct c; simpl in Ha;
        first [rewrite Ha in Hp|destruct Ha as [_ ->]|destruct Ha as (l & _ & ->)]; simpl in Hp; congruence. }
    simpl in Hd. rewrite Hs. apply Forall_app.
    assert (forall t, t ∈ ts1 ++ ts2 -> ~ works (t_history t)) as Hrest.
    { intros t Ht [Hw _]. by rewrite (sole_holder σ _ ts1 (mkThread h (Vis (CStoreGlobalPause true) k)) ts2 t) in Hw. }
    split; [|apply Forall_cons; split].
    - apply Forall_forall. intros t Ht. apply Hrest. set_solver.
    - intros [Hw _]. simpl in Hw. congruence.
    - apply Forall_forall. intros t Ht. apply Hrest. set_solver. }
  rewrite Hs in Hold. apply Forall_app in Hold as [H1 [H2 H3]%Forall_cons].
  apply Forall_app. split; [done|]. apply Forall_cons. split; [|done].
  simpl. intros [Hw|He]%works_after; [done|]. apply (f_equal ev_load) in He.
  destruct c; try done. simpl in Ha. injection He as ->. destruct Ha as [Hf ->]. congruence.
Qed.

Lemma step_consistent ext ns b1 b2 opts ro σ σ' :
  step (NewAddonReconciler ext ns b1 b2 opts) ro σ σ' -> consistent σ -> consistent σ'.
Proof.
  intros Hstep Hc. destruct Hstep as [ts1 h c k res sh sh' ts2 Ha|sh ts p Hp].
  - pose proof (c_threads _ Hc) as Ht. simpl in Ht.
    apply Forall_app in Ht as [H1 [[Hd Hk] H3]%Forall_cons]. simpl in Hd, Hk.
    destruct (step_keeps_locks _ _ _ _ _ _ _ _ Hc eq_refl Hd Ha) as [Hl Hx].
    constructor; [|done|done|by eapply step_keeps_pause].
    apply Forall_app. split; [done|]. apply Forall_cons. split; [by apply Hk|done].
  - destruct Hc as [H1 H2 H3 H4]. simpl in *.
    assert (wp Discipline p [] (fun h _ => unlocked h)) as Hw.
    { destruct Hp as [req s|s]; apply wp_pbind.
      - eapply wp_mono; [|apply addon_thread]. by intros h [a s'].
      - eapply wp_mono; [|apply operator_thread]. by intros h [a s']. }
    constructor; simpl; [by constructor| |done|].
    + intros m md. rewrite H2. unfold holders. rewrite filter_cons. by rewrite decide_False by done.
    + intros Hpause. constructor; [by intros [? _]|by apply H4].
Qed.

Lemma reachable_consistent ext ns b1 b2 opts ro σ :
  reachable (NewAddonReconciler ext ns b1 b2 opts) ro σ -> consistent σ.
Proof.
  intros Hr. unfold reachable in Hr. remember (mkSystem initial []) as σ0 eqn:H0.
  assert (consistent σ0) as Hc by (subst; apply consistent_initial). clear H0.
  induction Hr as [|σ1 σ2 σ3 Hs Hr IH]; [done|]. apply IH. by eapply step_consistent.
Qed.
End SystemInvariant.

(** ** What holds in every reachable state *)

Definition next_call (t : thread) : option call :=
  match t_code t with Vis c _ => Some c | _ => None end.

(** The call touches the pause flag, or replaces the OCM client. *)
Definition on_flag (c : call) : bool :=
  match c with CLoadGlobalPause | CStoreGlobalPause _ => true | _ => false end.

Section SystemTheorems.
Context {L : Lib} {LOk : LibOk L}.
Context (ext ns : string) (b1 b2 : bool) (opts : list AddonReconcilerOption) (ro : AddonOperatorReconciler).
Notation r := (NewAddonReconciler ext ns b1 b2 opts).

Lemma next_disciplined σ t c :
  consistent σ -> t ∈ s_threads σ -> next_call t = Some c -> disciplined (t_history t) c.
Proof.
  intros Hc Ht Hn. apply (proj1 (Forall_forall _ _) (c_threads _ Hc)) in Ht.
  unfold next_call in Hn. destruct (t_code t); simplify_eq. apply Ht.
Qed.

(** C10: The global pause stops the work, however the reconciles of Addons and of
    the AddonOperator interleave: while the pause flag is set no reconcile, also
    one that began before the flag was set, is about to create, update, patch or
    delete any object or to write a status, unless it is the reconcile of an
    Addon that was read as deleted. Exempt are only the status reports of Addons
    and of the AddonOperator, and the creation of the AddonOperator object,
    which its controller makes whenever the object is missing, paused or not. *)
Theorem global_pause_stops_work (σ : system) (t : thread) (c : call) :
  reachable r ro σ -> sh_globalPause (s_shared σ) = true ->
  t ∈ s_threads σ -> next_call t = Some c -> acts c = true -> deletes (t_history t).
Proof.
  intros Hr%reachable_consistent Hp Ht Hn Ha.
  pose proof (next_disciplined _ _ _ Hr Ht Hn) as Hd.
  apply (proj1 (Forall_forall _ _) (c_paused _ Hr Hp)) in Ht.
  destruct c; try done; by destruct (Hd Ha).
Qed.

(** No data race on the pause flag: while a thread is about to set it, no
    other is about to read or set it. *)
Theorem pause_flag_race_free (σ : system) (ts1 : list thread) (t : thread) (ts2 : list thread) (t' : thread)
    (b : bool) (c : call) :
  reachable r ro σ -> s_threads σ = ts1 ++ t :: ts2 -> next_call t = Some (CStoreGlobalPause b) ->
  t' ∈ ts1 ++ ts2 -> next_call t' = Some c -> on_flag c = false.
Proof.
  intros Hr%reachable_consistent Hs Hn Ht' Hn'.
  assert (t ∈ s_threads σ /\ t' ∈ s_threads σ) as [Hin Hin'] by (rewrite Hs; set_solver).
  apply (next_disciplined _ _ _ Hr Hin) in Hn. apply (next_disciplined _ _ _ Hr Hin') in Hn'. simpl in Hn.
  pose proof (sole_holder _ _ _ _ _ _ Hr Hs Hn Ht') as Hnone. destruct c; simpl in *; congruence.
Qed.
End SystemTheorems.

(** ** The threads finish *)

(** A reader waits while a writer does, as [sync.RWMutex] has it. *)
Definition waits_to_write (m : mutex) (t : thread) : bool :=
  match next_call t with Some (CMutex m' Lock) => bool_decide (m' = m) | _ => false end.
Definition unblocked (ts : list thread) (c : call) : Prop :=
  match c with
  | CMutex m RLock => existsb (waits_to_write m) ts = false
  | _ => True
  end.

(** A call of a thread, when no new thread starts. *)
Inductive go_step : system -> system -> Prop :=
| go_call ts1 h c k res sh sh' ts2 :
    answers sh c res sh' -> unblocked (ts1 ++ mkThread h (Vis c k) :: ts2) c ->
    go_step (mkSystem sh (ts1 ++ mkThread h (Vis c k) :: ts2))
            (mkSystem sh' (ts1 ++ mkThread (Ev c res :: h) (k res) :: ts2)).

Definition finished (t : thread) : Prop := next_call t = None.
#[export] Instance finished_dec t : Decision (finished t).
Proof. unfold finished. destruct (next_call t); [by right|by left]. Defined.

Section Termination.
Context {L : Lib} {LOk : LibOk L}.

Lemma go_step_reachable ext ns b1 b2 opts ro σ σ' :
  go_step σ σ' -> reachable (NewAddonReconciler ext ns b1 b2 opts) ro σ ->
  reachable (NewAddonReconciler ext ns b1 b2 opts) ro σ'.
Proof. intros Hs Hr. eapply rtc_r; [exact Hr|]. destruct Hs. by constructor. Qed.

(** One of a list of programs goes on after an answer. *)
Definition goes_on {A} (p q : prog A) : Prop :=
  match p with Vis c k => exists res, q = k res | _ => False end.
Inductive advances : list (prog unit) -> list (prog unit) -> Prop :=
| advances_here p q l : goes_on p q -> advances (q :: l) (p :: l)
| advances_later p l l' : advances l' l -> advances (p :: l') (p :: l).

Lemma goes_on_wf {A} (p : prog A) : Acc (fun q p => goes_on p q) p.
Proof.
  induction p as [a|st|c k IH]; constructor; intros q Hq; [done|done|]. destruct Hq as [res ->]. apply IH.
Qed.

Lemma advances_cons p l : Acc (fun q p => goes_on p q) p -> Acc advances l -> Acc advances (p :: l).
Proof.
  intros Hp. revert l. induction Hp as [p _ IHp]. intros l Hl. induction Hl as [l Hl IHl].
  constructor. intros l' Hl'. inversion Hl' as [? q ? Hq|? ? l1 H1]; subst; [|by apply IHl].
  apply IHp; [done|by constructor].
Qed.

Lemma advances_wf l : Acc advances l.
Proof.
  induction l as [|p l IH]; [constructor; by inversion 1|]. apply advances_cons; [apply goes_on_wf|done].
Qed.

(** Without new threads there is no infinite run. *)
Lemma go_step_wf σ : Acc (fun σ2 σ1 => go_step σ1 σ2) σ.
Proof.
  destruct σ as [sh ts]. remember (map t_code ts) as l eqn:Hl. pose proof (advances_wf l) as Hacc.
  revert sh ts Hl. induction Hacc as [l _ IH]. intros sh ts ->. constructor. intros σ' Hs.
  inversion Hs as [ts1 h c k res sh1 sh2 ts2 Ha Hu]; subst. eapply IH; [|reflexivity].
  rewrite !map_app. clear. induction ts1 as [|t ts1 IH]; simpl; [|by constructor].
  apply advances_here. by exists res.
Qed.

(** Every call has an answer. *)
Definition some_answer (c : call) : resp c :=
  match c with
  | CGet _ _ _ | CList _ _ _ _ | CCreate _ _ | CUpdate _ _ | CStatusUpdate _ _ | CPatch _ _ _
  | CGetUpgradePolicy _ _ | CGetCluster _ => inr (ErrNew "")
  | CDelete _ _ | CPostAddOnStatus _ _ | CPatchUpgradePolicy _ _ | CLoadOCMClient => None
  | CNow => 0%Z
  | CLoadGlobalPause => false
  | CMutex _ _ | CEnqueue _ | CStoreGlobalPause _ | CStoreOCMClient _ => tt
  end.

(** The operation of a lock that a call is, when it may block. *)
Definition acquires (c : call) : option mutex :=
  match c with CMutex m (Lock | RLock) => Some m | _ => None end.

(** A thread whose next call takes no lock can make it. *)
Lemma can_go_on σ t c :
  consistent σ -> t ∈ s_threads σ -> next_call t = Some c -> acquires c = None -> exists σ', go_step σ σ'.
Proof.
  intros Hc Ht Hn Ha. pose proof (next_disciplined _ _ _ Hc Ht Hn) as Hd.
  destruct t as [h p]. destruct p as [|?|c' k]; simplify_eq/=. unfold next_call in Hn. simpl in Hn. injection Hn as ->.
  apply list_elem_of_split in Ht as (ts1 & ts2 & Hs). destruct σ as [sh ts]. simpl in Hs. subst ts.
  assert (exists res sh', answers sh c res sh') as (res & sh' & Hres).
  { destruct c as [| | | | | | | | | | | | |m []| | | |]; try done; try (by eexists (some_answer _), _);
      try (by eexists _, _).
    - exists tt. eexists. exists (mkRW (rw_readers (sh_lock sh m)) false). split; [|done].
      pose proof (c_locks _ Hc m Writing) as Hl. simpl in Hl, Hd. rewrite holders_at in Hl. simpl in Hl.
      rewrite Hd, decide_True in Hl by done. unfold lock_step. destruct (rw_writer _); [done|lia].
    - exists tt. pose proof (c_locks _ Hc m Reading) as Hl. simpl in Hl, Hd.
      rewrite holders_at in Hl. simpl in Hl. rewrite Hd, decide_True in Hl by done.
      destruct (rw_readers (sh_lock sh m)) as [|n] eqn:E; [lia|]. eexists. exists (mkRW n (rw_writer (sh_lock sh m))).
      split; [|done]. simpl. by rewrite E. }
  eexists. apply go_call; [exact Hres|]. by destruct c as [| | | | | | | | | | | | |m []| | | |].
Qed.

(** A lock that nobody holds can be taken, by a writer first. *)
Lemma can_acquire σ t m :
  consistent σ -> t ∈ s_threads σ -> (next_call t ≫= acquires) = Some m ->
  (forall t', t' ∈ s_threads σ -> held m (t_history t') = None) -> exists σ', go_step σ σ'.
Proof.
  intros Hc Ht Hn Hfree.
  assert (forall md, holds (sh_lock (s_shared σ) m) md = 0) as Hzero.
  { intros md. rewrite (c_locks _ Hc). by apply holders_none. }
  pose proof (Hzero Reading) as HR. pose proof (Hzero Writing) as HW. simpl in HR, HW.
  assert (rw_writer (sh_lock (s_shared σ) m) = false) as Hw by (by destruct (rw_writer _)).
  assert (forall t' op l, t' ∈ s_threads σ -> next_call t' = Some (CMutex m op) ->
    lock_step op (sh_lock (s_shared σ) m) = Some l -> unblocked (s_threads σ) (CMutex m op) ->
    exists σ', go_step σ σ') as Hgo.
  { intros [h p] op l (ts1 & ts2 & Hs)%list_elem_of_split Hn' Hl Hu. destruct p as [|?|c k]; try done.
    unfold next_call in Hn'. simpl in Hn'. injection Hn' as ->. destruct σ as [sh ts]. simpl in Hs. subst ts.
    eexists. apply (go_call ts1 h (CMutex m op) k tt); [by exists l|done]. }
  destruct (existsb (waits_to_write m) (s_threads σ)) eqn:Hex.
  - apply existsb_exists in Hex as (t' & Ht'%list_elem_of_In & Hn'). unfold waits_to_write in Hn'.
    destruct (next_call t') as [[| | | | | | | | | | | | |m' []| | | |]|] eqn:E; try done. bools. subst m'.
    eapply Hgo; [done|exact E| |done]. simpl. by rewrite HR, Hw.
  - destruct (next_call t) as [c|] eqn:E; [|done]. simpl in Hn.
    destruct c as [| | | | | | | | | | | | |m' []| | | |]; simplify_eq/=.
    + assert (existsb (waits_to_write m) (s_threads σ) = true) as Htrue; [|congruence].
      apply existsb_exists. exists t. split; [by apply list_elem_of_In|]. unfold waits_to_write. rewrite E.
      by apply bool_decide_eq_true.
    + eapply Hgo; [done|done|simpl; by rewrite Hw|done].
Qed.

Lemma holder_unfinished σ t m :
  consistent σ -> t ∈ s_threads σ -> held m (t_history t) <> None ->
  exists c, next_call t = Some c /\ disciplined (t_history t) c.
Proof.
  intros Hc Ht Hh.
  pose proof (proj1 (Forall_forall _ _) (c_threads _ Hc) _ Ht) as Hw. destruct t as [h [[]|st|c k]]; simpl in *.
  - by destruct Hh.
  - by destruct Hh.
  - exists c. split; [done|]. apply Hw.
Qed.

(** No deadlock: a thread that holds the lock of the client waits for none, and
    one that holds the lock of the flag only for that of the client. *)
Lemma progress σ :
  consistent σ -> ~ Forall finished (s_threads σ) -> exists σ', go_step σ σ'.
Proof.
  intros Hc Hnot.
  assert (exists t c, t ∈ s_threads σ /\ next_call t = Some c) as (t & c & Ht & Hn).
  { apply not_Forall_Exists in Hnot; [|apply _].
    apply Exists_exists in Hnot as (t & Ht & Hn). unfold compose, finished in Hn.
    destruct (next_call t) as [c|] eqn:E; [by exists t, c|done]. }
  assert (forall m, (exists t, t ∈ s_threads σ /\ held m (t_history t) <> None) \/
    forall t, t ∈ s_threads σ -> held m (t_history t) = None) as Hholder.
  { intros m. destruct (decide (Exists (fun t => held m (t_history t) <> None) (s_threads σ))) as [H|H].
    - left. by apply Exists_exists in H as (x & ? & ?); exists x.
    - right. apply not_Exists_Forall in H; [|solve_decision]. intros x Hx.
      apply (proj1 (Forall_forall _ _) H) in Hx. unfold compose in Hx. by apply dec_stable. }
  destruct (Hholder ocmClientMux) as [(t1 & Ht1 & Hh1)|Hclient].
  { destruct (holder_unfinished _ _ _ Hc Ht1 Hh1) as (c1 & Hn1 & Hd1). eapply can_go_on; [done|done|done|].
    destruct c1 as [| | | | | | | | | | | | |[] []| | | |]; try done; by destruct Hd1 as [H1 H2]; first [rewrite H1 in Hh1|rewrite H2 in Hh1 by done]. }
  assert (forall t c, t ∈ s_threads σ -> next_call t = Some c ->
    acquires c = Some globalPauseMux \/ exists σ', go_step σ σ') as Hall.
  { intros t2 c2 Ht2 Hn2. destruct (acquires c2) as [[]|] eqn:Ha; [by left|right..].
    - eapply can_acquire; [done|exact Ht2|by rewrite Hn2|done].
    - by eapply can_go_on. }
  destruct (Hholder globalPauseMux) as [(t1 & Ht1 & Hh1)|Hflag].
  - destruct (holder_unfinished _ _ _ Hc Ht1 Hh1) as (c1 & Hn1 & Hd1).
    destruct (Hall _ _ Ht1 Hn1) as [Ha|Hgo]; [|done].
    destruct c1 as [| | | | | | | | | | | | |[] []| | | |]; try done; by destruct Hd1 as [H1 H2].
  - destruct (Hall _ _ Ht Hn) as [Ha|Hgo]; [|done].
    eapply can_acquire; [done|exact Ht|by rewrite Hn|done].
Qed.

(** C11: The threads finish.  From every reachable state, once no new reconciles
    start, there is no infinite run, whatever is answered to their calls; and a
    run in which no thread can go on, where readers wait for waiting writers as
    [sync.RWMutex] has them, has no unfinished thread and leaves both locks
    free: there is no deadlock, and a pause that waits for the reconciles under
    way gets its lock. *)
Theorem threads_finish ext ns b1 b2 opts ro (σ : system) :
  reachable (NewAddonReconciler ext ns b1 b2 opts) ro σ ->
  Acc (fun σ2 σ1 => go_step σ1 σ2) σ /\
  forall σ', rtc go_step σ σ' -> (forall σ'', ~ go_step σ' σ'') ->
    Forall finished (s_threads σ') /\ forall m, sh_lock (s_shared σ') m = mkRW 0 false.
Proof.
  intros Hr. split; [apply go_step_wf|]. intros σ' Hrun Hstuck.
  assert (consistent σ') as Hc.
  { induction Hrun as [|σ1 σ2 σ3 Hs _ IH]; [by eapply reachable_consistent|].
    apply IH; [by eapply go_step_reachable|done]. }
  assert (Forall finished (s_threads σ')) as Hf.
  { apply dec_stable. intros Hn. destruct (progress _ Hc Hn) as [σ'' Hs]. by apply (Hstuck σ''). }
  split; [done|]. intros m.
  assert (forall md, holds (sh_lock (s_shared σ') m) md = 0) as Hzero.
  { intros md. rewrite (c_locks _ Hc). apply holders_none. intros t Ht. apply dec_stable. intros Hh.
    destruct (holder_unfinished _ _ _ Hc Ht Hh) as (c & Hn & _).
    apply (proj1 (Forall_forall _ _) Hf) in Ht. unfold finished in Ht. congruence. }
  pose proof (Hzero Reading) as HR. pose proof (Hzero Writing) as HW. simpl in HR, HW.
  destruct (sh_lock (s_shared σ') m) as [n []]; simpl in *; [done|]. by subst.
Qed.
End Termination.

(** ** Executions *)

Section Execution.
Context {L : Lib} (r : AddonReconciler) (ro : AddonOperatorReconciler).

(** The answer to a call, where the outside answers [f]; none when it blocks. *)
Definition serve (f : forall c, resp c) (sh : shared) (c : call) : option (resp c * shared) :=
  match c return option (resp c * shared) with
  | CMutex m op =>
      match lock_step op (sh_lock sh m) with
      | Some l => Some (tt, mkShared (sh_globalPause sh) (sh_ocmClient sh) (set_lock m l (sh_lock sh)))
      | None => None
      end
  | CLoadGlobalPause => Some (sh_globalPause sh, sh)
  | CStoreGlobalPause b => Some (tt, mkShared b (sh_ocmClient sh) (sh_lock sh))
  | CLoadOCMClient => Some (sh_ocmClient sh, sh)
  | CStoreOCMClient c => Some (tt, mkShared (sh_globalPause sh) (Some c) (sh_lock sh))
  | c => Some (f c, sh)
  end.

Lemma serve_answers f sh c res sh' : serve f sh c = Some (res, sh') -> answers sh c res sh'.
Proof.
  destruct c; simpl; try (by intros [= <- <-]). destruct (lock_step _ _) as [l|]; [|done].
  intros [= <- <-]. by exists l.
Qed.

(** The next call of the i-th thread. *)
Fixpoint go (f : forall c, resp c) (sh : shared) (ts : list thread) (i : nat) : option system :=
  match ts, i with
  | mkThread h (Vis c k) :: ts', 0 =>
      match serve f sh c with
      | Some (res, sh') => Some (mkSystem sh' (mkThread (Ev c res :: h) (k res) :: ts'))
      | None => None
      end
  | t :: ts', S i' =>
      match go f sh ts' i' with Some (mkSystem sh' ts'') => Some (mkSystem sh' (t :: ts'')) | None => None end
  | _, _ => None
  end.

(** A schedule: which thread goes on, again and again. *)
Fixpoint play (f : forall c, resp c) (schedule : list nat) (σ : system) : option system :=
  match schedule with
  | [] => Some σ
  | i :: l => match go f (s_shared σ) (s_threads σ) i with Some σ' => play f l σ' | None => None end
  end.

Lemma go_sound f sh ts i σ' : go f sh ts i = Some σ' -> step r ro (mkSystem sh ts) σ'.
Proof.
  enough (forall ts0, go f sh ts i = Some σ' ->
    step r ro (mkSystem sh (ts0 ++ ts)) (mkSystem (s_shared σ') (ts0 ++ s_threads σ'))) as H.
  { intros Hg%(H []). by destruct σ'. }
  revert i σ'. induction ts as [|[h p] ts IH]; intros i σ' ts0 Hg; [done|]. destruct i as [|i]; simpl in Hg.
  - destruct p as [a|st|c k]; [done|done|]. destruct (serve f sh c) as [[res sh']|] eqn:Hs; [|done].
    injection Hg as <-. apply step_call. by eapply serve_answers.
  - assert (exists sh' ts'', go f sh ts i = Some (mkSystem sh' ts'') /\
      σ' = mkSystem sh' (mkThread h p :: ts'')) as (sh' & ts'' & Hg' & ->).
    { destruct p; destruct (go f sh ts i) as [[sh' ts'']|]; simplify_eq; by eexists _, _. }
    apply (IH _ _ (ts0 ++ [mkThread h p])) in Hg'. by rewrite <- !app_assoc in Hg'.
Qed.

Lemma play_sound f schedule σ σ' : play f schedule σ = Some σ' -> rtc (step r ro) σ σ'.
Proof.
  revert σ. induction schedule as [|i l IH]; intros σ; simpl; [by intros [= ->]|].
  destruct (go _ _ _ i) as [σ1|] eqn:Hg; [|done]. intros Hp. eapply rtc_l; [|by apply IH].
  destruct σ. by eapply go_sound.
Qed.

(** Threads that have just started. *)
Definition started (l : list (prog unit)) : system := mkSystem initial (map (mkThread []) l).
Lemma started_reachable l : Forall (starts r ro) l -> reachable r ro (started l).
Proof. induction 1 as [|p l Hp Hl IH]; [apply rtc_refl|]. eapply rtc_r; [exact IH|]. by apply step_start. Qed.

Lemma played_reachable f schedule l σ :
  Forall (starts r ro) l -> play f schedule (started l) = Some σ -> reachable r ro σ.
Proof. intros Hl Hp. unfold reachable. etrans; [by apply started_reachable|by eapply play_sound]. Qed.
End Execution.

(** A schedule that leads to a system with a property. *)
Lemma played_to {L : Lib} (r : AddonReconciler) (ro : AddonOperatorReconciler) f schedule l (P : system -> bool) :
  Forall (starts r ro) l -> P <$> play f schedule (started l) = Some true ->
  exists σ, reachable r ro σ /\ P σ = true.
Proof.
  intros Hl HP. destruct (play f schedule (started l)) as [σ|] eqn:Hp; [|done].
  exists σ. split; [by eapply played_reachable|]. by injection HP.
Qed.

(** Some thread is about to make a call of a kind. *)
Definition about_to (P : call -> bool) (t : thread) : bool :=
  match next_call t with Some c => P c | None => false end.
Lemma about_to_spec P t : about_to P t = true -> exists c, next_call t = Some c /\ P c = true.
Proof. unfold about_to. destruct (next_call t) as [c|]; [|done]. by exists c. Qed.
