(* ===== verification/Watches.v ===== *)
(** * The watches of the Addon controller

    Which Addons a change of an object reconciles (SetupWithManager of
    controllers/addon/addon_controller.go and the options of
    addon_reconciler_options.go), and that the objects the controller creates
    are among those whose changes come back to it. *)
From S2P Require Export ReconcileWalk Server.

(** ** What controller-runtime does for an owner *)

(** [handler.EnqueueRequestForOwner] for the Addon type: the requests for the
    owners of an object, or for its controller alone.  Addons are cluster-scoped,
    so that the requests have no namespace.  The handler passes over owners of
    other kinds; the owner references of the model carry no kind, and the law is
    for those of Addons ([controlled_by]), the only ones that the operator
    sets. *)
Class Enqueue := {
  enqueue_owner : bool (* OnlyControllerOwner *) -> ObjectMeta -> list ObjectKey
}.
Class EnqueueOk {L : Lib} (Q : Enqueue) : Prop := {
  enqueue_controller only m a :
    controlled_by a m -> mkKey "" (Name (a_Meta a)) ∈ enqueue_owner only m
}.

(** ** The watches *)

Inductive watch :=
| For_ (k : kind)                (* the object itself *)
| Owns (k : kind)                (* its controller *)
| WatchesOwners (k : kind)       (* every owner *)
| WatchesOperators               (* the operator resource handler, on metadata *)
| WatchesRequeues.               (* the channel of requeued Addons *)
#[export] Instance watch_eq : EqDecision watch.
Proof. solve_decision. Defined.

(*@ controllers/addon/addon_reconciler_options.go:29-51 ApplyToControllerBuilder *)
Definition ApplyToControllerBuilder (o : AddonReconcilerOption) : list watch :=
  match o with
  | WithMonitoringStackReconciler => [Owns KMonitoringStack]
  | WithPackageOperatorReconciler => [Owns KClusterObjectTemplate]
  end.

(*@ controllers/addon/addon_controller.go:306-341 SetupWithManager *)
Definition addon_watches (opts : list AddonReconcilerOption) : list watch :=
  [For_ KAddon; Owns KNamespace; Owns KOperatorGroup; Owns KCatalogSource; Owns KSubscription;
   Owns KAddonInstance; Owns KServiceMonitor; WatchesOwners KSecret; WatchesOperators; WatchesRequeues] ++
  concat (map ApplyToControllerBuilder opts).

Section Watches.
Context {L : Lib} {Q : Enqueue}.

(** The requests that one watch makes of a change of an object. *)
Definition watch_requests (h : Handler.OperatorResourceHandler) (k : kind) (o : obj k) (w : watch)
  : list ObjectKey :=
  match w with
  | For_ k' => if decide (k' = k) then [obj_key k o] else []
  | Owns k' => if decide (k' = k) then enqueue_owner true (obj_meta k o) else []
  | WatchesOwners k' => if decide (k' = k) then enqueue_owner false (obj_meta k o) else []
  | WatchesOperators =>
      if decide (k = KOperator) then option_list (Handler.enqueueObject h (obj_key k o)) else []
  | WatchesRequeues => []
  end.

Definition requests (opts : list AddonReconcilerOption) (h : Handler.OperatorResourceHandler) (k : kind)
    (o : obj k) : list ObjectKey :=
  if cache_holds k o then concat (map (watch_requests h k o) (addon_watches opts)) else [].
End Watches.

(** ** Created objects come back *)

(** The kinds that the controller creates and does not watch: ConfigMaps have no
    owner, and the NetworkPolicy is missing from the watches. *)
Definition unwatched (k : kind) : bool := bool_decide (k = KConfigMap \/ k = KNetworkPolicy).

Section Created.
Context {L : Lib} {LOk : LibOk L} {Q : Enqueue} {QOk : EnqueueOk Q}.
Context (opts : list AddonReconcilerOption) (req : ObjectKey).

Lemma owned_requests (k : kind) (o : obj k) (a : Addon) h :
  cache_holds k o = true ->
  Owns k ∈ addon_watches opts \/ WatchesOwners k ∈ addon_watches opts -> controlled_by a (obj_meta k o) ->
  mkKey "" (Name (a_Meta a)) ∈ requests opts h k o.
Proof.
  intros Hheld Hk Hc. unfold requests. rewrite Hheld. apply list_elem_of_In, in_concat.
  assert (forall only, mkKey "" (Name (a_Meta a)) ∈ enqueue_owner only (obj_meta k o)) as He
    by (intros only; by apply enqueue_controller).
  destruct Hk as [Hk|Hk]; eexists; (split; [apply list_elem_of_In, list_elem_of_fmap; eexists; split; [reflexivity|exact Hk]|]);
    simpl; rewrite decide_True by done; by apply list_elem_of_In.
Qed.

(** A kind the controller creates is watched by its owners. *)
Definition creates_watched (k : kind) : Prop :=
  unwatched k = true \/ Owns k ∈ addon_watches opts \/ WatchesOwners k ∈ addon_watches opts.

Lemma base_watched k : k ∈ base_kinds -> creates_watched k.
Proof.
  intros Hk. unfold creates_watched, addon_watches.
  enough (unwatched k = true \/ Owns k ∈ addon_watches [] \/ WatchesOwners k ∈ addon_watches []) as H.
  { unfold addon_watches in H. rewrite app_nil_r in H. set_solver. }
  revert k Hk. apply Forall_forall, (bool_decide_unpack _). by vm_compute.
Qed.

Lemma option_watched o : o ∈ opts -> creates_watched (option_kind o).
Proof.
  intros Ho. right; left. unfold addon_watches. apply elem_of_app. right.
  apply list_elem_of_In, in_concat. exists (ApplyToControllerBuilder o).
  split; [by apply in_map, list_elem_of_In|]. by destruct o; left.
Qed.

(** The server answers for the Addon it is asked for. *)
Definition same_addon (_ : history) (e : event) : Prop :=
  match ev_call e as c return resp c -> Prop with
  | CGet _ k key => match k return obj k + error -> Prop with
                  | KAddon => fun r => match r with inl a => meta_key (a_Meta a) = key | inr _ => True end
                  | _ => fun _ => True end
  | CUpdate k o | CStatusUpdate k o =>
      match k return obj k -> obj k + error -> Prop with
      | KAddon => fun o r => match r with inl a => meta_key (a_Meta a) = meta_key (a_Meta o) | inr _ => True end
      | _ => fun _ _ => True end o
  | _ => fun _ => True
  end (ev_resp e).

(** A created object requests the Addon that the reconcile is of, whenever an
    event of it arrives. *)
Definition comes_back (c : call) : Prop :=
  match c with
  | CCreate k o => unwatched k = true \/ cache_holds k o = false \/
      forall h, mkKey "" (key_Name req) ∈ requests opts h k o
  | _ => True
  end.

#[export] Instance watch_invariant : Invariant.
Proof.
  refine {| inv := fun a => meta_key (a_Meta a) = req; relies := same_addon; sends := comes_back;
            creates := creates_watched |}.
  - exact base_watched.
  - intros f now a [] Ha; try done.
    + unfold reportAddonReadyToBeDeletedStatus. by destruct (v =s? ConditionTrue).
    + unfold reportAddonUpgradeSucceeded. by destruct (find_condition _ _).
    + unfold reportAddonUpgradeStarted. by destruct (find_condition _ _).
    + unfold reportUninstalledCondition. by destruct (find_condition _ _).
  - intros f a [] Ha; try done; simpl.
    + by destruct (add_finalizer (a_Meta a) f0) as (l & -> & _).
    + by destruct (remove_finalizer (a_Meta a) f0) as (l & -> & _).
  - unfold SetUpgradePolicyStatus. intros v a a' H Ha. by destruct (UpgradePolicy _); simplify_eq.
  - intros h o a Hr Ho. simpl in *. congruence.
  - intros h o a Hr Ho. simpl in *. congruence.
  - done.
  - intros k o a [Hk|Hk] Ha Hc; [by left|right].
    destruct (cache_holds k o) eqn:Hheld; [right|by left]. intros h. rewrite <- Ha. by apply owned_requests.
  - intros c Hc. destruct c as [| |k o| | | | | | | | | | | | | | |]; try done. left. simpl in Hc. bools. subst. done.
Defined.
End Created.

Section WatchTheorem.
Context {L : Lib} {LOk : LibOk L} {Q : Enqueue} {QOk : EnqueueOk Q}.

(** C17: Whatever the operator creates in the reconcile of an Addon, with any of
    its options, is watched: every later event of the created object, as it
    was sent, requests a reconcile of that Addon.  The exceptions are the
    deletion ConfigMap, which has no owner, the NetworkPolicy, and Secrets
    without the label that the cache selects by. *)
Theorem created_objects_come_back (ext ns : string) (b1 b2 : bool) (opts : list AddonReconcilerOption)
    (name : string) (s : St) :
  wpM (rely_env same_addon (fun _ => comes_back opts (mkKey "" name)) (fun _ => True))
    (Reconcile (NewAddonReconciler ext ns b1 b2 opts) (mkKey "" name)) s [] (fun h _ s' =>
      a_Name (st_addon s') = name \/ exists e, h = [Ev (CGet Cached KAddon (mkKey "" name)) (inr e)]).
Proof.
  eapply wpM_mono; [apply (wpM_Reconcile_rely (V := watch_invariant opts (mkKey "" name)))|].
  - apply Forall_forall. intros o Ho. by apply option_watched.
  - done.
  - intros h out s' [H|H]; [left|by right]. unfold a_Name. simpl in H. by injection H.
Qed.

(** The NetworkPolicy is created with the Addon as its controller, and yet no
    event of it requests anything. *)
Theorem network_policy_unwatched (opts : list AddonReconcilerOption) h (o : obj KNetworkPolicy) :
  requests opts h KNetworkPolicy o = [].
Proof.
  unfold requests, addon_watches. rewrite map_app, concat_app. simpl.
  induction opts as [|[] opts IH]; simpl; done.
Qed.

(** Nor does one of the copy of the bearer token: it has no labels. *)
Theorem bearer_token_unwatched (opts : list AddonReconcilerOption) h (a : Addon) (token s : Secret) :
  desired_bearer_token a token = inl s -> requests opts h KSecret s = [].
Proof.
  unfold desired_bearer_token. rewrite set_controller_fresh by done. by intros [= <-].
Qed.

(** A propagated secret is held by the cache unless the labels the Addon asks
    for redefine the cache label. *)
Theorem propagated_secret_held (a : Addon) (name ns : string) (src dest : Secret) :
  destination_secret a name src = inl dest -> CommonLabels (a_Spec a) !! CommonCacheLabel = None ->
  cache_holds KSecret (in_namespace ns dest) = true.
Proof.
  unfold destination_secret. intros Hd Hl.
  destruct (AddCommonAnnotations_meta a (AddCommonLabels a (new_meta "" name))) as [x Hx]. rewrite Hx in Hd.
  rewrite set_controller_fresh in Hd by done. injection Hd as <-. apply bool_decide_eq_true.
  change (Labels (AddCommonLabels a (new_meta "" name)) !! CommonCacheLabel = Some CommonCacheValue).
  rewrite Labels_AddCommonLabels, lookup_union, Hl, common_label_writes_lookup. by vm_compute.
Qed.
End WatchTheorem.
