(* ===== verification/Options.v ===== *)
(** * options.go: the options of the operator process

    Flags, environment variables and the service account's namespace file, in
    the order in which [Process] consults them. *)
From S2P Require Export Common GoFlag.

(** ** The options *)

(*@ options.go:11-22 options *)
Record options := mkOptions {
  EnableLeaderElection : bool; EnableMetricsRecorder : bool; LeaderElectionNamespace : string;
  MetricsAddr : string; MetricsTlsDir : string; Namespace_ : string; PprofAddr : string;
  ProbeAddr : string; StatusReportingEnabled : bool; EnableUpgradePolicyStatus : bool
}.

Definition set_EnableLeaderElection b o := mkOptions b (EnableMetricsRecorder o)
  (LeaderElectionNamespace o) (MetricsAddr o) (MetricsTlsDir o) (Namespace_ o) (PprofAddr o) (ProbeAddr o)
  (StatusReportingEnabled o) (EnableUpgradePolicyStatus o).
Definition set_EnableMetricsRecorder b o := mkOptions (EnableLeaderElection o) b
  (LeaderElectionNamespace o) (MetricsAddr o) (MetricsTlsDir o) (Namespace_ o) (PprofAddr o) (ProbeAddr o)
  (StatusReportingEnabled o) (EnableUpgradePolicyStatus o).
Definition set_LeaderElectionNamespace s o := mkOptions (EnableLeaderElection o) (EnableMetricsRecorder o)
  s (MetricsAddr o) (MetricsTlsDir o) (Namespace_ o) (PprofAddr o) (ProbeAddr o)
  (StatusReportingEnabled o) (EnableUpgradePolicyStatus o).
Definition set_MetricsAddr s o := mkOptions (EnableLeaderElection o) (EnableMetricsRecorder o)
  (LeaderElectionNamespace o) s (MetricsTlsDir o) (Namespace_ o) (PprofAddr o) (ProbeAddr o)
  (StatusReportingEnabled o) (EnableUpgradePolicyStatus o).
Definition set_MetricsTlsDir s o := mkOptions (EnableLeaderElection o) (EnableMetricsRecorder o)
  (LeaderElectionNamespace o) (MetricsAddr o) s (Namespace_ o) (PprofAddr o) (ProbeAddr o)
  (StatusReportingEnabled o) (EnableUpgradePolicyStatus o).
Definition set_Namespace_ s o := mkOptions (EnableLeaderElection o) (EnableMetricsRecorder o)
  (LeaderElectionNamespace o) (MetricsAddr o) (MetricsTlsDir o) s (PprofAddr o) (ProbeAddr o)
  (StatusReportingEnabled o) (EnableUpgradePolicyStatus o).
Definition set_PprofAddr s o := mkOptions (EnableLeaderElection o) (EnableMetricsRecorder o)
  (LeaderElectionNamespace o) (MetricsAddr o) (MetricsTlsDir o) (Namespace_ o) s (ProbeAddr o)
  (StatusReportingEnabled o) (EnableUpgradePolicyStatus o).
Definition set_ProbeAddr s o := mkOptions (EnableLeaderElection o) (EnableMetricsRecorder o)
  (LeaderElectionNamespace o) (MetricsAddr o) (MetricsTlsDir o) (Namespace_ o) (PprofAddr o) s
  (StatusReportingEnabled o) (EnableUpgradePolicyStatus o).
Definition set_reporting status policy o := mkOptions (EnableLeaderElection o) (EnableMetricsRecorder o)
  (LeaderElectionNamespace o) (MetricsAddr o) (MetricsTlsDir o) (Namespace_ o) (PprofAddr o) (ProbeAddr o)
  status policy.

(*@ options.go:37-95 parseFlags *)
Definition operator_flags : flag_set options :=
  [ ("enable-leader-election", BoolVar set_EnableLeaderElection);
    ("enable-metrics-recorder", BoolVar set_EnableMetricsRecorder);
    ("leader-election-namspace", StringVar set_LeaderElectionNamespace);
    ("metrics-addr", StringVar set_MetricsAddr);
    ("metrics-tls-dir", StringVar set_MetricsTlsDir);
    ("namespace", StringVar set_Namespace_);
    ("pprof-addr", StringVar set_PprofAddr);
    ("health-probe-bind-address", StringVar set_ProbeAddr) ].

Section Process.
(** String flags that imported packages define for themselves. *)
Variable foreign_flags : list string.
(** [os.LookupEnv], and the content of the namespace file if it can be read. *)
Variable LookupEnv : string -> option string.
Variable namespace_file : option string.

Definition formal_flags : flag_set options :=
  operator_flags ++ map (fun name => (name, StringVar (fun _ o => o))) foreign_flags.

(*@ options.go:37-98 parseFlags *)
Definition parseFlags (args : list string) (o : options) : (options * list string) + Z :=
  flag_Parse formal_flags args o.

Definition Getenv (name : string) : string := default "" (LookupEnv name).
(** An option that is only set when it is empty. *)
Definition or_else (s s' : string) : string := if str_empty s then s' else s.

(*@ options.go:112-117 enableStatusReporting *)
Definition env_enabled (name : string) : bool :=
  match LookupEnv name with Some v => v =s? "true" | None => false end.

(*@ options.go:100-124 processEnv *)
Definition processEnv (o : options) : options :=
  let ns := Getenv "ADDON_OPERATOR_NAMESPACE" in
  let o := if negb (str_empty ns) then
             if str_empty (Namespace_ o) then set_Namespace_ ns o else o
           else o in
  let ns := Getenv "ADDON_OPERATOR_LE_NAMESPACE" in
  let o := if negb (str_empty ns) then
             if str_empty (LeaderElectionNamespace o) then set_LeaderElectionNamespace ns o else o
           else o in
  set_reporting (env_enabled "ENABLE_STATUS_REPORTING") (env_enabled "ENABLE_UPGRADEPOLICY_STATUS") o.

(*@ options.go:126-142 processSecrets *)
Definition processSecrets (o : options) : options :=
  let namespace := match namespace_file with Some ns => ns | None => "" end in
  if str_empty (Namespace_ o) then set_Namespace_ namespace o else o.

(*@ options.go:144-148 applyValuesFromOptions *)
Definition applyValuesFromOptions (o : options) : options :=
  if str_empty (LeaderElectionNamespace o) then set_LeaderElectionNamespace (Namespace_ o) o else o.

(*@ options.go:150-150 errInvalidOption *)
Definition errInvalidOption : error := ErrVar "invalid option".
(*@ options.go:152-158 validate *)
Definition validate (o : options) : option error :=
  if str_empty (Namespace_ o)
  then Some (ErrWrap "'Namespace' must not be empty: " errInvalidOption) else None.

(** The process exits in the parser, or the options are returned with an error
    or without. *)
Inductive processed := ExitedWith (code : Z) | Processed (o : options) (err : option error).

(*@ options.go:27-35 Process *)
Definition Process (args : list string) (o : options) : processed :=
  match parseFlags args o with
  | inr code => ExitedWith code
  | inl (o, _) =>
      let o := applyValuesFromOptions (processSecrets (processEnv o)) in
      Processed o (validate o)
  end.
End Process.

Section ProcessTheorem.
Variable foreign_flags : list string.
Variable LookupEnv : string -> option string.
Variable namespace_file : option string.
Notation env := (Getenv LookupEnv).

(** The first of the strings that is not empty. *)
Definition first_of (l : list string) : string := fold_right or_else "" l.

Lemma or_else_assoc a b c : or_else a (or_else b (or_else c "")) = or_else (or_else a b) c.
Proof. unfold or_else. repeat case_bool_decide; by subst. Qed.

Lemma processEnv_spec o :
  processEnv LookupEnv o =
    mkOptions (EnableLeaderElection o) (EnableMetricsRecorder o)
      (or_else (LeaderElectionNamespace o) (env "ADDON_OPERATOR_LE_NAMESPACE")) (MetricsAddr o) (MetricsTlsDir o)
      (or_else (Namespace_ o) (env "ADDON_OPERATOR_NAMESPACE")) (PprofAddr o) (ProbeAddr o)
      (bool_decide (LookupEnv "ENABLE_STATUS_REPORTING" = Some "true"))
      (bool_decide (LookupEnv "ENABLE_UPGRADEPOLICY_STATUS" = Some "true")).
Proof.
  assert (forall name, env_enabled LookupEnv name = bool_decide (LookupEnv name = Some "true")) as Henv.
  { intros name. unfold env_enabled. destruct (LookupEnv name); [|done]. apply bool_decide_ext. split; congruence. }
  unfold processEnv, or_else, set_reporting. rewrite !Henv. generalize (env "ADDON_OPERATOR_NAMESPACE").
  intros e1. generalize (env "ADDON_OPERATOR_LE_NAMESPACE"). intros e2. destruct o as [le mr len ma mt n pp pr sr up].
  simpl. f_equal; repeat case_bool_decide; simpl in *; subst; done.
Qed.

Lemma processSecrets_spec o :
  processSecrets namespace_file o =
    mkOptions (EnableLeaderElection o) (EnableMetricsRecorder o) (LeaderElectionNamespace o) (MetricsAddr o)
      (MetricsTlsDir o) (or_else (Namespace_ o) (default "" namespace_file)) (PprofAddr o) (ProbeAddr o)
      (StatusReportingEnabled o) (EnableUpgradePolicyStatus o).
Proof. unfold processSecrets, or_else. destruct o, namespace_file; simpl; by case_bool_decide. Qed.

Lemma applyValues_spec o :
  applyValuesFromOptions o =
    mkOptions (EnableLeaderElection o) (EnableMetricsRecorder o) (or_else (LeaderElectionNamespace o) (Namespace_ o))
      (MetricsAddr o) (MetricsTlsDir o) (Namespace_ o) (PprofAddr o) (ProbeAddr o) (StatusReportingEnabled o)
      (EnableUpgradePolicyStatus o).
Proof. unfold applyValuesFromOptions, or_else. destruct o; simpl; by case_bool_decide. Qed.

(** C40: The options of the process.  On a command line of defined flags, in any
    of the ways they can be written, [Process] returns: the flags that were
    set, the last setting of each counting; the namespace of the flag, else of
    the environment, else of the service account; the leader election
    namespace of its flag, else of the environment, else that namespace; the
    two reporting switches from the environment alone; and it fails exactly
    when there is no namespace. *)
Theorem options_processed (l : list (bool * setting)) (rest : list string) (o o1 : options) :
  Forall (fun name => plain_name name = true) foreign_flags ->
  apply_settings (formal_flags foreign_flags) l o = Some o1 -> positional rest ->
  let ns := first_of [Namespace_ o1; env "ADDON_OPERATOR_NAMESPACE"; default "" namespace_file] in
  Process foreign_flags LookupEnv namespace_file (concat (map (fun '(two, s) => render two s) l) ++ rest) o =
    Processed
      (mkOptions (EnableLeaderElection o1) (EnableMetricsRecorder o1)
         (first_of [LeaderElectionNamespace o1; env "ADDON_OPERATOR_LE_NAMESPACE"; ns])
         (MetricsAddr o1) (MetricsTlsDir o1) ns (PprofAddr o1) (ProbeAddr o1)
         (bool_decide (LookupEnv "ENABLE_STATUS_REPORTING" = Some "true"))
         (bool_decide (LookupEnv "ENABLE_UPGRADEPOLICY_STATUS" = Some "true")))
      (if bool_decide (ns = "") then Some (ErrWrap "'Namespace' must not be empty: " errInvalidOption) else None).
Proof.
  intros Hforeign Hl Hrest ns. unfold Process, parseFlags.
  rewrite (rendered_parsed _) with (o' := o1); [|  |done|done].
  2: { apply Forall_app. split; [by repeat constructor|]. apply Forall_map. eapply Forall_impl; [exact Hforeign|]. done. }
  rewrite processEnv_spec, processSecrets_spec, applyValues_spec. unfold ns, first_of, validate.
  cbn [fold_right Namespace_ LeaderElectionNamespace EnableLeaderElection EnableMetricsRecorder MetricsAddr
    MetricsTlsDir PprofAddr ProbeAddr StatusReportingEnabled EnableUpgradePolicyStatus].
  by rewrite !or_else_assoc.
Qed.
End ProcessTheorem.
