(* ===== verification/Setup.v ===== *)
(** * main.go: the start of the operator process

    [setup] reads the AddonOperator, turns its feature toggles into options of
    the Addon controller, processes the options and wires the controllers.  What
    the process gets from its host and from controller-runtime, errors included,
    is in [Host].  The theorems are about what is wired together: the features
    in force in a process are those of every AddonOperator that its AddonOperator
    controller acts on. *)
From S2P Require Export AddonOperatorProofs FeatureToggle AddonInstanceController Options Watches.

(** ** The controllers that are wired *)

(*@ controllers/addonoperator/addonoperator_controller.go:58-64 enqueueAddonOperator *)
Definition enqueueAddonOperator : list ObjectKey := [default_operator_key].

(** An option of the AddonInstance controller; its logger is left out. *)
(*@ controllers/addoninstance/options.go:27-37 ConfigureController *)
Inductive ControllerOption := WithPollingInterval (d : Z) | WithSerialPhases (phases : list Phase_).
(*@ controllers/addoninstance/options.go:29-37 ConfigureController *)
Definition ConfigureController (o : ControllerOption) (c : ControllerConfig) : ControllerConfig :=
  match o with
  | WithPollingInterval d => mkConfig d (SerialPhases c)
  | WithSerialPhases phases => mkConfig (PollingInterval c) phases
  end.
(*@ controllers/addoninstance/addoninstance_controller.go:19-29 NewController *)
Definition NewController (opts : list ControllerOption) : ControllerConfig :=
  config_Default (fold_left (fun c o => ConfigureController o c) opts (mkConfig 0 [])).

(*@ main.go:187-198 fetchMetricsOptions *)
Record metricsOptions := mkMetricsOptions { BindAddress : string; SecureServing : bool; CertDir : string }.
(*@ main.go:187-198 fetchMetricsOptions *)
Definition fetchMetricsOptions (o : options) : metricsOptions :=
  if negb (str_empty (MetricsTlsDir o)) then mkMetricsOptions (MetricsAddr o) true (MetricsTlsDir o)
  else mkMetricsOptions (MetricsAddr o) false "".

(** What [mgr.Start] starts. *)
Record wiring := mkWiring {
  w_options : options;
  w_metrics : metricsOptions;
  w_addon : AddonReconciler;
  w_watches : list watch;
  w_operator_reconciler : AddonOperatorReconciler;
  w_instance : ControllerConfig;
  w_recorder : option Recorder
}.

(** ** The host of the process *)

Record Host := mkHost {
  Args : list string;
  host_LookupEnv : string -> option string;
  host_namespace_file : option string;
  host_flags : list string;                     (* flags of imported packages *)
  client_New : option error;                    (* both clients of [setup] and [initReconcilers] *)
  mgr_client_New : option error;
  NewManager : option error;
  mgr_Add : option error;                       (* of the pprof server *)
  AddHealthzCheck : option error;
  AddReadyzCheck : option error;
  clusterversion : string + error;              (* the ClusterID of the ClusterVersion "version" *)
  Complete : kind -> option error;              (* of the controller for that kind *)
  Start : option error
}.

Section Setup.
Context {L : Lib} (H : Host).

(** A step that may fail, with the text its error is wrapped in. *)
Definition step {A} (e : option error) (prefix : string) (next : A + error) : A + error :=
  match e with Some e => inr (ErrWrap prefix e) | None => next end.

(*@ main.go:65-146 initReconcilers *)
Definition initReconcilers (o : options) (addonOperatorInCluster : AddonOperator)
    (opts : list AddonReconcilerOption) : wiring + error :=
  step (mgr_client_New H) "unable to set up uncached client: "
    match clusterversion H with
    | inr e => inr (ErrWrap "getting clusterversion: " e)
    | inl clusterExternalID =>
        let recorder := if EnableMetricsRecorder o then Some NewRecorder else None in
        let addonReconciler :=
          NewAddonReconciler clusterExternalID (Namespace_ o) (StatusReportingEnabled o)
            (EnableUpgradePolicyStatus o) opts in
        step (Complete H KAddon) "unable to create Addon controller: "
          (step (Complete H KAddonOperator) "unable to create AddonOperator controller: "
            (step (Complete H KAddonInstance) "setting up AddonInstance controller: "
              (inl (mkWiring o (fetchMetricsOptions o) addonReconciler (addon_watches opts)
                (mkAOReconciler clusterExternalID (split_on comma (FeatureFlags (ao_Spec addonOperatorInCluster))))
                (NewController [WithSerialPhases [NewPhaseCheckHeartbeat 0]])
                recorder))))
    end.

(*@ main.go:235-246 options *)
Definition default_options : options :=
  mkOptions false true "" ":8080" "" "" "127.0.0.1:8070" ":8081" false false.

(** The two loops over the feature toggles: the first only extends the scheme
    and cannot fail, the second collects the options. *)
(*@ main.go:280-287 featureToggleHandlers *)
Definition toggled_options (o : AddonOperator) : list AddonReconcilerOption :=
  fold_left (fun opts h => if IsEnabled h o then PostManagerSetupHandle h opts else opts)
    GetAvailableFeatureToggles [].

Inductive outcome :=
| Exits (code : Z)                      (* [os.Exit] on the way *)
| Failed (e : error)                    (* [setup] returns it before the manager starts *)
| Started (w : wiring) (e : option error).  (* and what [mgr.Start] returned in the end *)

(*@ main.go:210-216 addonOperatorObjectInCluster *)
Definition operator_in_cluster (got : AddonOperator + error) : AddonOperator + error :=
  match got with
  | inl o => inl o
  | inr e =>
      if negb (IsNotFound (Some e)) then inr (ErrWrap "failed to GET the AddonOperator object: " e)
      else inl zero_operator
  end.

(** Everything after the read of the AddonOperator. *)
(*@ main.go:218-311 setup *)
Definition setup_with (o : AddonOperator) : outcome :=
  match Process (host_flags H) (host_LookupEnv H) (host_namespace_file H) (Args H) default_options with
  | ExitedWith code => Exits code
  | Processed opts (Some e) => Failed (ErrWrap "processing options: " e)
  | Processed opts None =>
      match NewManager H with
      | Some e => Failed (ErrWrap "unable to start manager: " e)
      | None =>
          let reconcilerOptions := toggled_options o in
          if negb (str_empty (PprofAddr opts)) && (match mgr_Add H with Some _ => true | None => false end)
          then Exits 1
          else
            match step (AddHealthzCheck H) "unable to set up health check: "
                    (step (AddReadyzCheck H) "unable to set up ready check: " (inl tt)) with
            | inr e => Failed e
            | inl _ =>
                match initReconcilers opts o reconcilerOptions with
                | inr e => Failed (ErrWrap "init reconcilers: " e)
                | inl w => Started w (ErrWrap "problem running manager: " <$> Start H)
                end
            end
      end
  end.

(*@ main.go:200-311 setup *)
Definition setup : prog outcome :=
  match client_New H with
  | Some e => Ret (Failed (ErrWrap "unable to set up uncached client: " e))
  | None =>
      Vis (CGet Uncached KAddonOperator default_operator_key) (fun got =>
        match operator_in_cluster got with
        | inr e => Ret (Failed e)
        | inl o => Ret (setup_with o)
        end)
  end.

(** The code of the process, once [setup] returned. *)
(*@ main.go:313-318 main *)
Definition main : prog Z :=
  pbind setup (fun out =>
    match out with
    | Exits code => Stop (Exited code)
    | Failed _ | Started _ (Some _) => Stop (Exited 1)
    | Started _ None => Ret 0%Z
    end).
End Setup.

(** ** The features in force *)

(** The process has the sub-reconcilers and the watches that the AddonOperator
    asks for. *)
Definition in_force {L : Lib} (w : wiring) (o : AddonOperator) : Prop :=
  w_addon w = NewAddonReconciler (aor_ClusterExternalID (w_operator_reconciler w)) (Namespace_ (w_options w))
    (StatusReportingEnabled (w_options w)) (EnableUpgradePolicyStatus (w_options w)) (toggled_options o) /\
  w_watches w = addon_watches (toggled_options o).

Lemma toggled_options_permuted o o' :
  Permutation (flags_of o) (flags_of o') -> toggled_options o = toggled_options o'.
Proof.
  intros Hp. assert (forall h, IsEnabled h o = IsEnabled h o') as He.
  { intros h. unfold IsEnabled. apply eq_true_iff_eq. rewrite !stringPresent_spec. by rewrite Hp. }
  unfold toggled_options. generalize (@nil AddonReconcilerOption).
  induction GetAvailableFeatureToggles as [|h l IH]; intros opts; simpl; [done|]. by rewrite He, IH.
Qed.

Section InForce.
Context {L : Lib} {LOk : LibOk L}.

(** What a start wires together. *)
Lemma started_wiring H o w e :
  setup_with H o = Started w e ->
  in_force w o /\ FeatureTogglesState (w_operator_reconciler w) = flags_of o.
Proof.
  unfold setup_with, initReconcilers, step. intros Hs. repeat case_match; simplify_eq/=; done.
Qed.

Lemma setup_started H t w e :
  trace (setup H) t (Started w e) -> exists o,
    in_force w o /\ FeatureTogglesState (w_operator_reconciler w) = flags_of o.
Proof.
  unfold setup. destruct (client_New H); [by intros [_ ?]%trace_ret_iff|].
  intros (got & t' & -> & Ht)%trace_vis_iff. destruct (operator_in_cluster got) as [o|e']; apply trace_ret_iff in Ht as [_ Ht];
    [|done]. exists o. eapply started_wiring. by rewrite <- Ht.
Qed.

(** A read of the AddonOperator through the cache. *)
Definition reads_operator (c : call) : bool :=
  match c with CGet Cached k _ => bool_decide (k = KAddonOperator) | _ => false end.

(** The AddonOperator that an event answers with. *)
Definition operator_read (e : event) : option AddonOperator :=
  match ev_call e as c return resp c -> option AddonOperator with
  | CGet _ k _ => match k return obj k + error -> option AddonOperator with
                  | KAddonOperator => fun r => match r with inl o => Some o | inr _ => None end
                  | _ => fun _ => None end
  | _ => fun _ => None
  end (ev_resp e).

(** A program that does not read the AddonOperator makes its calls under what
    was read before. *)
Lemma wp_nothing_read {A} (P : AddonOperator -> Prop) abort (m : prog A) h h' :
  wp (hist_env (fun _ c => reads_operator c = false) abort) m h' (fun _ _ => True) ->
  (forall key o, Ev (CGet Cached KAddonOperator key) (inl o) ∈ h -> P o) ->
  wp (hist_env (fun h _ => forall key o, Ev (CGet Cached KAddonOperator key) (inl o) ∈ h -> P o) abort) m h
    (fun h _ => forall key o, Ev (CGet Cached KAddonOperator key) (inl o) ∈ h -> P o).
Proof.
  revert h h'. induction m as [a|s|c k IH]; intros h h'; simpl; [done|done|].
  intros [Hc Hk] Hh. split; [done|]. intros r h1 ->. eapply IH; [by apply Hk|].
  intros key o [He|He]%elem_of_cons; [|by eapply Hh]. exfalso.
  assert (c = CGet Cached KAddonOperator key) as -> by by inversion He. done.
Qed.

(** Programs that make no call in [P] and stop only by exiting with code 0. *)
Definition avoids {A} (P : call -> bool) (m : M OState A) : Prop := forall s h,
  wpM (hist_env (fun _ c => P c = false) (fun st => st = Exited 0)) m s h (fun _ _ _ => True).

Lemma avoids_bind P {A B} (m : M OState A) (f : A -> M OState B) :
  avoids P m -> (forall a, avoids P (f a)) -> avoids P (mthen m f).
Proof. intros Hm Hf s h. apply wpM_bind. eapply wpM_mono; [apply Hm|]. intros h' a s' _. apply Hf. Qed.
Lemma avoids_call (P : call -> bool) c : P c = false -> avoids P (do_call c).
Proof. intros Hc s h. by apply wpM_hist_call. Qed.
Lemma avoids_defer (P : call -> bool) {A} c (m : M OState A) : P c = false -> avoids P m -> avoids P (defer c m).
Proof.
  intros Hc Hm s h. apply (wpM_defer _ (fun _ st => st = Exited 0)); [done|done|]. eapply wpM_mono; [apply Hm|]. by intros h' a s' _.
Qed.
Lemma avoids_pure P {A} (f : OState -> A * OState) : avoids P (fun s => Ret (f s)).
Proof. intros s h. unfold wpM. simpl. by destruct (f s). Qed.
Lemma avoids_for P {A} (l : list A) (body : A -> M OState unit) :
  (forall a, avoids P (body a)) -> avoids P (mfor l body).
Proof. intros Hb. induction l as [|a l IH]; simpl; [apply (avoids_pure P (fun s => (tt, s)))|by apply avoids_bind]. Qed.

Ltac avoid_step :=
  lazymatch goal with
  | |- avoids _ (mthen _ _) => apply avoids_bind; [|intros ?]
  | |- avoids _ (do_call _) => apply avoids_call; reflexivity
  | |- avoids _ (defer _ _) => apply avoids_defer; [reflexivity|]
  | |- avoids _ (mfor _ _) => apply avoids_for; intros ?
  | |- avoids ?P (mpure ?a) => exact (avoids_pure P (fun s => (a, s)))
  | |- avoids ?P get_operator => exact (avoids_pure P (fun s => (os_operator s, s)))
  | |- avoids ?P (modify_operator ?f) =>
      exact (avoids_pure P (fun s => (tt, mkOState (f (os_operator s)) (os_recorder s))))
  | |- avoids ?P (modify_operator_recorder ?f) =>
      exact (avoids_pure P (fun s => (tt, mkOState (os_operator s) (f (os_recorder s)))))
  | |- avoids ?P (operator_error _ _) => unfold operator_error
  | |- avoids ?P (match ?x with _ => _ end) => destruct x
  end.
Ltac avoid := repeat avoid_step.

Lemma pause_reads_nothing : avoids reads_operator handleGlobalPause.
Proof.
  unfold handleGlobalPause. cbn [gpm_EnableGlobalPause gpm_DisableGlobalPause addon_pause_manager].
  unfold EnableGlobalPause, DisableGlobalPause, setGlobalPause, with_lock, requeueAllAddons, reportAddonOperatorPauseStatus,
    removeAddonOperatorPauseCondition, operator_status_update. avoid.
Qed.
Lemma ocm_avoids r : avoids reads_operator (handleOCMClient r) /\ avoids stores_pause (handleOCMClient r).
Proof.
  unfold handleOCMClient, NewClient. cbn [ocm_InjectOCMClient addon_client_manager].
  unfold InjectOCMClient, with_lock, requeueAllAddons. split; avoid.
Qed.
Lemma ready_avoids : avoids reads_operator reportAddonOperatorReadinessStatus /\
  avoids stores_pause reportAddonOperatorReadinessStatus.
Proof. unfold reportAddonOperatorReadinessStatus, operator_status_update. split; avoid. Qed.

(** C18: The features in force.  Once the process has started, from whatever it
    read and whatever its command line, every reconcile of the AddonOperator
    makes the calls that follow the read of an AddonOperator only if the Addon
    controller of the process runs exactly the sub-reconcilers and the watches
    that its feature toggles ask for, and otherwise exits with code 0: the
    process that is started next wires the features anew. *)
Theorem features_in_force (H : Host) (t : list event) (w : wiring) (e : option error) (s : OState) :
  trace (setup H) t (Started w e) ->
  wpM (hist_env
        (fun h _ => forall key o, Ev (CGet Cached KAddonOperator key) (inl o) ∈ h -> in_force w o)
        (fun st => st = Exited 0))
    (operator_Reconcile (w_operator_reconciler w)) s [] (fun h _ _ =>
      forall key o, Ev (CGet Cached KAddonOperator key) (inl o) ∈ h -> in_force w o).
Proof.
  intros (o0 & [Ha Hw] & Hf)%setup_started. set (r := w_operator_reconciler w) in *.
  assert (forall {A} (m : M OState A) s h,
    (forall key o, Ev (CGet Cached KAddonOperator key) (inl o) ∈ h -> in_force w o) -> avoids reads_operator m ->
    wpM (hist_env (fun h _ => forall key o, Ev (CGet Cached KAddonOperator key) (inl o) ∈ h -> in_force w o)
      (fun st => st = Exited 0)) m s h (fun h _ _ =>
      forall key o, Ev (CGet Cached KAddonOperator key) (inl o) ∈ h -> in_force w o)) as Hrest.
  { intros A m s' h Hh Hm. eapply wp_mono; [|eapply (wp_nothing_read _ _ _ _ []); [|exact Hh]].
    - by intros h' [a s1].
    - eapply wp_mono; [|apply (Hm s' [])]. by intros h' [a s1]. }
  unfold operator_Reconcile. apply wpM_bind, wpM_hist_call; [by intros key o ?%not_elem_of_nil|].
  intros [o|err].
  - apply wpM_bind, wpM_bind. cbn beta iota delta [modify_operator wpM wp]. unfold reconcile_operator.
    apply wpM_bind. cbn beta iota delta [get_operator wpM wp]. cbn [os_operator].
    destruct (areSlicesEquivalent _ _) eqn:Hs; [|done]. cbn [negb]. apply Hrest.
    + intros key o' Hin%list_elem_of_singleton. apply (f_equal operator_read) in Hin. injection Hin as ->.
      apply equivalent_permutation in Hs. rewrite Hf in Hs. unfold in_force.
      by rewrite <- (toggled_options_permuted _ _ Hs).
    + avoid; first [apply pause_reads_nothing|apply ocm_avoids|apply ready_avoids].
  - apply Hrest.
    + intros key o' Hin%list_elem_of_singleton. by apply (f_equal operator_read) in Hin.
    + unfold handleAddonOperatorCreation, record_operator_paused. avoid.
Qed.

(** ** A restart forgets the global pause *)

(** Fewer answers keep a program correct. *)
Lemma wp_rely {A} rely allow abort (m : prog A) h Q :
  wp (hist_env allow abort) m h Q -> wp (rely_env rely allow abort) m h Q.
Proof. apply wp_env_mono; [by intros ? ? ? ? [_ ?]|done..]. Qed.

Lemma avoided {A} P rely (m : M OState A) s h :
  avoids P m -> wpM (rely_env rely (fun _ c => P c = false) (fun st => st = Exited 0)) m s h (fun _ _ _ => True).
Proof. intros Hm. apply wp_rely. eapply wp_mono; [|apply (Hm s h)]. by intros h' [a s']. Qed.

(** The process starts with the flag of the Addon controller down, and a
    reconcile of an AddonOperator that is paused and already says so never
    raises it: after a restart the Addons are reconciled although the
    AddonOperator is paused. *)
Theorem restart_forgets_pause (r : AddonOperatorReconciler) (s : OState) :
  wpM (rely_env
        (fun _ e => forall o, operator_read e = Some o -> ao_Paused (ao_Spec o) = true /\ pause_reported o = true)
        (fun _ c => stores_pause c = false) (fun st => st = Exited 0))
    (operator_Reconcile r) s [] (fun _ _ _ => True).
Proof.
  unfold operator_Reconcile. apply wpM_bind, wpM_rely_call; [done|]. intros [o|err] Ho.
  - destruct (Ho o eq_refl) as [Hp Hr]. apply wpM_bind, wpM_bind.
    cbn beta iota delta [modify_operator wpM wp]. unfold reconcile_operator.
    apply wpM_bind. cbn beta iota delta [get_operator wpM wp]. cbn [os_operator].
    destruct (areSlicesEquivalent _ _); [|done]. cbn [negb].
    apply wpM_bind. unfold handleGlobalPause. apply wpM_bind. cbn beta iota delta [get_operator wpM wp].
    cbn [os_operator]. rewrite Hp, Hr. apply wpM_pure.
    eapply wpM_mono; [apply avoided; avoid; first [apply ocm_avoids|apply ready_avoids]|].
    intros h out s' _. apply avoided. unfold record_operator_paused. avoid.
  - apply avoided. unfold handleAddonOperatorCreation, record_operator_paused. avoid.
Qed.
End InForce.
