(* ===== verification/WebhookMain.v ===== *)
(** * cmd/addon-operator-webhook: the webhook process

    Its flags, and its steps up to the serving of the admission webhook under
    /validate-addon.  What the process gets from its host and from
    controller-runtime, errors included, is in [Host] of [Setup]. *)
From S2P Require Export Webhooks Setup.

Section WebhookMain.
Context {L : Lib} (H : Host).
(** [ctrl.GetConfigOrDie] exits with code 1 when there is no configuration. *)
Context (config_found : bool).

(*@ cmd/addon-operator-webhook/main.go:31-35 certDir *)
Record webhook_options := mkWebhookOptions { port : Z; certDir : string; probeAddr : string }.

Definition set_port p o := mkWebhookOptions p (certDir o) (probeAddr o).
Definition set_certDir s o := mkWebhookOptions (port o) s (probeAddr o).
Definition set_probeAddr s o := mkWebhookOptions (port o) (certDir o) s.

(*@ cmd/addon-operator-webhook/main.go:37-42 IntVar *)
Definition webhook_flags : flag_set webhook_options :=
  [ ("port", IntVar set_port); ("cert-dir", StringVar set_certDir);
    ("health-probe-bind-address", StringVar set_probeAddr) ].
(*@ cmd/addon-operator-webhook/main.go:37-42 IntVar *)
Definition webhook_defaults : webhook_options := mkWebhookOptions 8080 "" ":8081".
Definition webhook_formal : flag_set webhook_options :=
  webhook_flags ++ map (fun name => (name, StringVar (fun _ o => o))) (host_flags H).

(** The paths of the webhook server. *)
Definition routes : Type := list (string * (admission_Request -> M unit admission_Response)).

(** What the manager was started with, if it was, and the exit code. *)
Record ran_server := mkRanServer { served : option (webhook_options * routes); exit_code : Z }.

(** A step that must not fail. *)
Definition or_exit (e : option error) (next : ran_server) : ran_server :=
  match e with Some _ => mkRanServer None 1 | None => next end.

(** [InjectDecoder] only stores the decoder. *)
(*@ internal/webhooks/addon_webhook.go:67-70 InjectDecoder *)
Definition InjectDecoder : option error := None.

(*@ cmd/addon-operator-webhook/main.go:30-93 main *)
Definition webhook_main : ran_server :=
  match flag_Parse webhook_formal (Args H) webhook_defaults with
  | inr code => mkRanServer None code
  | inl (o, _) =>
      if negb config_found then mkRanServer None 1
      else
        or_exit (NewManager H) (or_exit (AddHealthzCheck H) (or_exit (AddReadyzCheck H) (or_exit InjectDecoder
          (mkRanServer (Some (o, [("/validate-addon", Handle)]))
             (match Start H with Some _ => 1 | None => 0 end)))))
  end.

(** The flags are named plainly, as far as those of others are. *)
Lemma webhook_flags_plain : Forall (fun name => plain_name name = true) (host_flags H) ->
  Forall (fun '(name, _) => plain_name name = true) webhook_formal.
Proof.
  intros Hf. apply Forall_app. split; [by repeat constructor|]. apply Forall_map. eapply Forall_impl; [exact Hf|done].
Qed.

(** On a command line that sets the options to [o], the process serves
    /validate-addon, and nothing else, with these options, exactly when the
    configuration is there and no step before fails; it then ends with code 0
    if the manager stops without an error, and with code 1 in every other case.
    What is served is the admission of [Webhooks]. *)
Theorem webhook_is_served l rest o : Forall (fun name => plain_name name = true) (host_flags H) ->
  Args H = concat (map (fun '(two, s) => render two s) l) ++ rest -> positional rest ->
  apply_settings webhook_formal l webhook_defaults = Some o ->
  let up := config_found = true /\ NewManager H = None /\ AddHealthzCheck H = None /\ AddReadyzCheck H = None in
  (forall o' r, served webhook_main = Some (o', r) <->
    up /\ o' = o /\ r = [("/validate-addon", Handle)]) /\
  (exit_code webhook_main = 0%Z \/ exit_code webhook_main = 1%Z) /\
  (exit_code webhook_main = 0%Z <-> up /\ Start H = None).
Proof.
  intros Hf Hargs Hrest Hl up. unfold webhook_main. rewrite Hargs.
  rewrite (rendered_parsed _ (webhook_flags_plain Hf) _ _ _ _ Hl Hrest). subst up. unfold or_exit, InjectDecoder.
  destruct config_found, (NewManager H), (AddHealthzCheck H), (AddReadyzCheck H), (Start H); cbn;
    (split; [intros o' r; split; [try done; by intros [= <- <-]|by intros [(?&?&?&?) [-> ->]]]|]);
    (split; [auto|]); split; try done; by intros [(?&?&?&?) ?].
Qed.
End WebhookMain.
