(* ===== verification/ControllerProofs.v ===== *)
(** * Theorems about the Addon controller *)
From S2P Require Export AddonController.

(** ** The order of the sub-reconcilers *)

Definition order_le (x y : addonReconciler) : Prop := (sub_Order x <= sub_Order y)%Z.
#[export] Instance order_le_trans : Transitive order_le.
Proof. unfold order_le. intros x y z. lia. Qed.

Lemma insert_by_order_perm x l : insert_by_order x l ≡ₚ x :: l.
Proof.
  induction l as [|y l IH]; simpl; [done|]. destruct (sub_Order x <? sub_Order y)%Z; [done|].
  rewrite IH. apply Permutation_swap.
Qed.

Lemma insert_by_order_sorted x l : Sorted order_le l -> Sorted order_le (insert_by_order x l).
Proof.
  induction 1 as [|y l Hl IH Hy]; simpl; [by repeat constructor|].
  destruct (sub_Order x <? sub_Order y)%Z eqn:E.
  - apply Z.ltb_lt in E. constructor; [by constructor|]. constructor. unfold order_le. lia.
  - apply Z.ltb_ge in E. constructor; [done|].
    destruct l as [|z l]; simpl; [by constructor|].
    destruct (sub_Order x <? sub_Order z)%Z; [by constructor|]. by inversion Hy; constructor.
Qed.

Lemma getOrdered_acc l acc :
  Sorted order_le acc ->
  Sorted order_le (fold_left (fun l x => insert_by_order x l) l acc) /\
  fold_left (fun l x => insert_by_order x l) l acc ≡ₚ l ++ acc.
Proof.
  revert acc. induction l as [|x l IH]; intros acc Hacc; simpl; [done|].
  destruct (IH (insert_by_order x acc)) as [H1 H2]; [by apply insert_by_order_sorted|].
  split; [done|]. rewrite H2, insert_by_order_perm. symmetry. apply Permutation_middle.
Qed.

(** Sorting the sub-reconcilers loses and adds none, orders them, and, when
    no two have the same order, has one possible result whatever algorithm
    sorts them. *)
Theorem ordered_subReconcilers (r : AddonReconciler) :
  getOrderedSubReconcilers r ≡ₚ subReconcilers r /\
  Sorted order_le (getOrderedSubReconcilers r) /\
  (NoDup (map sub_Order (subReconcilers r)) -> forall l,
     l ≡ₚ subReconcilers r -> Sorted order_le l -> l = getOrderedSubReconcilers r).
Proof.
  destruct (getOrdered_acc (subReconcilers r) []) as [Hs Hp]; [constructor|].
  rewrite app_nil_r in Hp. split; [done|]. split; [done|]. intros Hnd l Hl Hsl.
  apply (sorted_permutation_unique order_le); [|exact Hsl|exact Hs|by etrans].
  intros x y Hx Hy. rewrite Hl in Hx, Hy. unfold order_le. intros H1 H2.
  assert (sub_Order x = sub_Order y) as He by lia. clear -Hnd Hx Hy He.
  induction (subReconcilers r) as [|z l IH]; [by apply not_elem_of_nil in Hx|].
  simpl in Hnd. apply NoDup_cons in Hnd as [Hz Hnd].
  apply elem_of_cons in Hx as [->|Hx], Hy as [->|Hy]; [done| | |by apply IH].
  - destruct Hz. rewrite He. by apply list_elem_of_fmap_2.
  - destruct Hz. rewrite <- He. by apply list_elem_of_fmap_2.
Qed.

#[export] Instance AddonReconcilerOption_eq : EqDecision AddonReconcilerOption.
Proof. solve_decision. Defined.

Section Order.
Context {L : Lib}.

(** The reconciler that the operator builds, with any choice of its
    options and in any order, runs deletion first, then the namespaces, the
    package, the secrets, the AddonInstance, the OLM objects and the
    monitoring. *)
Theorem subReconcilers_of_the_operator ext ns b1 b2 opts :
  NoDup opts ->
  map sub_Name (getOrderedSubReconcilers (NewAddonReconciler ext ns b1 b2 opts)) =
    [DELETION_RECONCILER_NAME; NAMESPACE_RECONCILER_NAME] ++
    (if decide (WithPackageOperatorReconciler ∈ opts) then [packageOperatorName] else []) ++
    [SECRET_RECONCILER_NAME; ADDON_INSTANCE_RECONCILER_NAME; OLM_RECONCILER_NAME;
     MONITORING_FEDERATION_RECONCILER_NAME] ++
    (if decide (WithMonitoringStackReconciler ∈ opts) then [MONITORING_STACK_RECONCILER_NAME] else []).
Proof.
  intros Hnd. destruct opts as [|[] [|[] [|o opts]]]; try reflexivity; exfalso;
    repeat (apply NoDup_cons in Hnd as [? Hnd]); try destruct o; set_solver.
Qed.
End Order.

(** ** Deletion of the Addon *)

Section Deletion.
Context {L : Lib} {LOk : LibOk L}.

(** The calls of the deletion of an Addon: the report of its termination, then
    the deletion of its ClusterObjectTemplate by the name the server answered,
    then, once that was answered as not found, the removal of the finalizer. *)
Definition deletion_call (h : history) (c : call) : Prop :=
  match c with
  | CNow => h = []
  | CStatusUpdate KAddon o =>
      (exists now, h = [Ev CNow now]) /\ Phase (a_Status o) = PhaseTerminating /\
      IsAvailable o = false
  | CDelete KClusterObjectTemplate key =>
      exists o (a : obj KAddon) h', h = Ev (CStatusUpdate KAddon o) (inl a) :: h' /\
        key = mkKey "" (a_Name a)
  | CUpdate KAddon o =>
      (exists e h', h = Ev (CDelete KClusterObjectTemplate (mkKey "" (a_Name o))) (Some e) :: h' /\
        IsNotFound (Some e) = true) /\
      cacheFinalizer ∉ Finalizers (a_Meta o)
  | _ => False
  end.

Lemma remove_finalizer_gone m f : f ∉ Finalizers (RemoveFinalizer m f).
Proof.
  destruct (remove_finalizer m f) as (l & -> & Hl). simpl. rewrite Hl. by intros [_ ?].
Qed.

Lemma remove_finalizer_key m f : meta_key (RemoveFinalizer m f) = meta_key m.
Proof. by destruct (remove_finalizer m f) as (l & -> & _). Qed.

(** What one reconcile of a deleted Addon comes to. *)
Definition deletion_result (s : St) (h : history) (res : ctrl_Result * option error) (s' : St) : Prop :=
  (res = (no_result, None) ->
     cacheFinalizer ∉ Finalizers (a_Meta (st_addon s)) \/
     exists (o a : obj KAddon) h', h = Ev (CUpdate KAddon o) (inl a) :: h') /\
  (st_handler s' = st_handler s \/
   exists (o : obj KAddon) r h', h = Ev (CUpdate KAddon o) r :: h' /\
     st_handler s' = Handler.Free (meta_key (a_Meta o)) (st_handler s)).

Lemma zero_is_zero : Result_IsZero no_result = true.
Proof. by apply result_is_zero. Qed.
Lemma requeue_is_not_zero : Result_IsZero (mkResult false defaultRetryAfterTime) = false.
Proof. apply not_true_iff_false. by rewrite result_is_zero. Qed.

Lemma finalize_addon_spec s0 s o a h :
  st_handler s = st_handler s0 -> st_addon s = a ->
  wpM (hist_env deletion_call (fun _ => False)) finalize_addon s (Ev (CStatusUpdate KAddon o) (inl a) :: h)
    (deletion_result s0).
Proof.
  intros Hh Ha. unfold finalize_addon, ensureClusterPackageDeletion, deletion_result.
  apply wpM_bind, wpM_bind, wpM_get_addon, wpM_bind, wpM_hist_call.
  { exists o, a, h. by rewrite Ha. }
  intros [e|]; [destruct (IsNotFound (Some e)) eqn:Hnf|]; apply wpM_pure.
  - rewrite zero_is_zero. simpl. unfold update_addon.
    pose proof (remove_finalizer_key (a_Meta a) cacheFinalizer) as Hk. wp_run; rewrite ?Ha in *; simpl in *.
    + split; [|apply remove_finalizer_gone]. exists e. eexists. split; [|done].
      unfold a_Name. simpl. by replace (Name (RemoveFinalizer (a_Meta a) cacheFinalizer))
        with (Name (a_Meta a)) by (by injection Hk).
    + split; [right; by eexists _, _, _|]. right. eexists _, _, _. split; [done|]. simpl. by rewrite Hk, Hh.
    + split; [done|]. right. eexists _, _, _. split; [done|]. simpl. by rewrite Hk, Hh.
  - apply wpM_pure. split; [done|by left].
  - rewrite requeue_is_not_zero. apply wpM_pure. split; [done|by left].
Qed.

Lemma terminating_not_available now addon :
  IsAvailable (reportTerminationStatus now addon) = false.
Proof.
  rewrite IsAvailable_find. unfold reportTerminationStatus.
  rewrite find_set_Phase, find_observe_generation, find_set_condition by done.
  by rewrite bool_decide_true.
Qed.

(** C6: An Addon with a deletion timestamp is deleted even when it is paused,
    in order: its termination is reported; its ClusterObjectTemplate is
    deleted until the server answers that there is none; only then its event
    mapping is freed and its finalizer is removed.  No other call is made, the
    reconcile never panics, and it returns the zero result only when there was
    no finalizer or its removal was accepted. *)
Theorem deletion_in_order (r : AddonReconciler) (s : St) :
  Time_IsZero (DeletionTimestamp (a_Meta (st_addon s))) = false ->
  wpM (hist_env deletion_call (fun _ => False)) (reconcile r) s [] (deletion_result s).
Proof.
  intros Hd. unfold reconcile. apply wpM_bind, wpM_get_addon. rewrite Hd. simpl.
  unfold handleAddonCRDeletion. apply wpM_bind, wpM_get_addon.
  destruct (ContainsFinalizer _ _) eqn:Hf; simpl.
  - apply wpM_bind, wpM_report; [done|]. intros now h ->.
    apply wpM_bind. unfold update_addon_status.
    apply wpM_bind, wpM_get_addon, wpM_bind, wpM_hist_call.
    + split; [by exists now|]. split; [done|]. apply terminating_not_available.
    + intros [a|e]; [|by wp_run; split; [|left]].
      apply wpM_bind, wpM_set_addon, wpM_pure. by apply finalize_addon_spec.
  - apply wpM_pure. split; [|by left]. left. rewrite <- contains_finalizer. congruence.
Qed.
End Deletion.

(** ** Metrics and reporting leave the Addon's identity alone *)

Section Reports.
Context {L : Lib} {LOk : LibOk L}.
Context {W : Type} (E : env W).
Hypothesis Hallow : forall w c, is_write c = false -> env_allow E w c.

(** What reporting to OCM keeps of the Addon. *)
Definition same_but_reports (a b : Addon) : Prop :=
  a_Meta a = a_Meta b /\ a_Spec a = a_Spec b /\
  Conditions (a_Status a) = Conditions (a_Status b) /\ Phase (a_Status a) = Phase (a_Status b).

#[local] Instance same_but_reports_refl : Reflexive same_but_reports.
Proof. done. Qed.

Lemma same_but_reports_trans : Transitive same_but_reports.
Proof. intros x y z (?&?&?&?) (?&?&?&?). repeat split; congruence. Qed.

(** And of the state. *)
Definition framed (s' s : St) : Prop :=
  same_but_reports (st_addon s') (st_addon s) /\ st_handler s' = st_handler s.
Lemma framed_trans s1 s2 s3 : framed s1 s2 -> framed s2 s3 -> framed s1 s3.
Proof. intros [H1 H2] [H3 H4]. split; [by eapply same_but_reports_trans|congruence]. Qed.

Lemma recordAddonMetrics_frame s w :
  wpM E recordAddonMetrics s w (fun _ _ s' => st_addon s' = st_addon s /\ st_handler s' = st_handler s).
Proof.
  unfold recordAddonMetrics, listUnschedulableAddonPods. wp_run; try (by apply Hallow).
Qed.

Lemma report_sync_errors_frame errs s w :
  wpM E (report_sync_errors errs) s w (fun _ _ s' => st_addon s' = st_addon s /\ st_handler s' = st_handler s).
Proof. unfold report_sync_errors, report_error. wp_run. Qed.

Lemma set_upgrade_policy_status_frame v p s w :
  UpgradePolicy (a_Spec (st_addon s)) = Some p ->
  wpM E (set_upgrade_policy_status v) s w (fun _ _ s' => framed s' s).
Proof. intros Hp. unfold set_upgrade_policy_status, SetUpgradePolicyStatus. wp_run; by rewrite Hp in *; simplify_eq. Qed.

Lemma reportUpgrade_frame started client p s w :
  UpgradePolicy (a_Spec (st_addon s)) = Some p ->
  wpM E (if started : bool then reportUpgradeStarted client else reportUpgradeCompleted client) s w
    (fun _ _ s' => framed s' s).
Proof.
  intros Hp. destruct started; unfold reportUpgradeStarted, reportUpgradeCompleted,
    handlePatchUpgradePolicy, recordOCMRequestDuration; wp_run; try (by apply Hallow); try congruence;
    (eapply wpM_mono; [by eapply set_upgrade_policy_status_frame|]); intros w1 a1 s1 Hs1; by wp_run.
Qed.

Lemma report_upgrade_policy_frame client v p s w :
  UpgradePolicy (a_Spec (st_addon s)) = Some p ->
  wpM E (report_upgrade_policy client v) s w (fun _ _ s' => framed s' s).
Proof.
  intros Hp. unfold report_upgrade_policy. apply wpM_bind, wpM_get_addon.
  destruct (UpgradePolicyStatus _) as [u|]; [|by apply (reportUpgrade_frame true _ p)].
  destruct (_ && _).
  { apply wpM_bind. eapply wpM_mono; [by eapply set_upgrade_policy_status_frame|]. intros; by wp_run. }
  destruct (negb _); [by apply (reportUpgrade_frame true _ p)|].
  destruct (IsAvailable _); [|done]. unfold report_available. apply wpM_bind.
  destruct (v =s? UpgradePolicyValueScheduled).
  - apply wpM_bind. eapply wpM_mono; [by apply (reportUpgrade_frame true _ p)|].
    intros w1 [e|] s1 Hs1; [done|]. apply wpM_pure.
    eapply wpM_mono; [apply (reportUpgrade_frame false _ p)|].
    + destruct Hs1 as [(_ & -> & _) _]. done.
    + intros w2 e s2 Hs2. exact (framed_trans _ _ _ Hs2 Hs1).
  - apply wpM_pure. by apply (reportUpgrade_frame false _ p).
Qed.

Lemma report_policy_locked_frame p s w :
  UpgradePolicy (a_Spec (st_addon s)) = Some p ->
  wpM E report_policy_locked s w (fun _ _ s' => framed s' s).
Proof.
  intros Hp. unfold report_policy_locked, getPreviousUpgradePolicyStateValue, handleGetUpgradePolicyState,
    recordOCMRequestDuration. apply wpM_bind, wpM_get_addon. rewrite Hp.
  wp_run; try (by apply Hallow).
  exact (report_upgrade_policy_frame c _ p (mkSt (st_addon s) _ _) _ Hp).
Qed.
End Reports.

Section Frames.
Context {L : Lib} {LOk : LibOk L}.
Context {W : Type} (E : env W).
Hypothesis Hallow : forall w c, is_write c = false -> env_allow E w c.

(** A client that was there and is gone is the only reason for a panic. *)
Hypothesis Hstays : forall w c w1 w2,
  env_step E w CLoadOCMClient (Some c) w1 -> env_step E w1 CLoadOCMClient None w2 ->
  forall why, env_abort E w2 (Panicked why).

Lemma handleOCMAddOnStatusReporting_frame r s w :
  wpM E (handleOCMAddOnStatusReporting r) s w (fun _ _ s' => framed s' s).
Proof.
  unfold handleOCMAddOnStatusReporting, postAddonStatus, recordAddonServiceRequestDuration.
  wp_run; try (by apply Hallow). subst. eapply Hstays; eassumption.
Qed.

Lemma handleUpgradePolicyStatusReporting_frame r s w :
  wpM E (handleUpgradePolicyStatusReporting r) s w
    (fun _ _ s' => framed s' s).
Proof.
  unfold handleUpgradePolicyStatusReporting, requiresReporting. apply wpM_bind, wpM_get_addon.
  destruct (UpgradePolicy (a_Spec (st_addon s))) as [p|] eqn:Hp;
    [|rewrite andb_false_r; simpl; done].
  destruct (_ || _); [done|]. unfold with_rlock.
  apply wpM_bind, wpM_call; [by apply Hallow|]. intros [] w1 _. apply wpM_defer_total.
  eapply wpM_mono; [by eapply report_policy_locked_frame|].
  intros w2 e s2 H2. split; [by apply Hallow|]. by intros [] w3 _.
Qed.

Lemma syncWithExternalAPIs_frame r s w :
  wpM E (syncWithExternalAPIs r) s w (fun _ _ s' => framed s' s).
Proof.
  unfold syncWithExternalAPIs. apply wpM_bind.
  eapply wpM_mono; [apply handleUpgradePolicyStatusReporting_frame|]. intros w1 e s1 Hs1.
  apply wpM_bind. eapply wpM_mono; [apply handleOCMAddOnStatusReporting_frame|]. intros w2 e2 s2 Hs2.
  apply wpM_pure. exact (framed_trans _ _ _ Hs2 Hs1).
Qed.

(** The end of a reconcile: one status update, of the Addon at hand with its
    observed version. *)
Lemma finish_reconcile_spec r res err s w :
  (forall w' a, same_but_reports a (st_addon s) ->
     env_allow E w' (CStatusUpdate KAddon (reportObservedVersion a))) ->
  wpM E (finish_reconcile r res err) s w (fun w' out s' => exists w1 a resp,
    same_but_reports a (st_addon s) /\
    env_step E w1 (CStatusUpdate KAddon (reportObservedVersion a)) resp w' /\
    out.1 = match resp with inl _ => res | inr _ => no_result end /\ st_handler s' = st_handler s).
Proof.
  intros Ha. unfold finish_reconcile. apply wpM_bind.
  eapply wpM_mono; [by apply recordAddonMetrics_frame|]. intros w1 e1 s1 [Hs1 Hh1].
  apply wpM_bind. eapply wpM_mono; [apply syncWithExternalAPIs_frame|]. intros w2 errs s2 [Hs2 Hh2].
  apply wpM_bind. eapply wpM_mono; [apply report_sync_errors_frame|]. intros w3 e3 s3 [Hs3 Hh3].
  rewrite Hs1 in Hs2. rewrite <- Hs3 in Hs2. assert (st_handler s3 = st_handler s) as Hh by congruence.
  apply wpM_bind, wpM_modify_addon, wpM_bind. unfold update_addon_status.
  apply wpM_bind, wpM_get_addon, wpM_bind, wpM_call; [by apply Ha|].
  intros [a|e] w4 Hstep.
  - apply wpM_bind, wpM_set_addon, wpM_pure, wpM_pure. exists w3, (st_addon s3), (inl a). done.
  - apply wpM_pure, wpM_pure. exists w3, (st_addon s3), (inr e). done.
Qed.
End Frames.

Section EntryPoint.
Context {L : Lib} {LOk : LibOk L}.

Lemma wpM_any {W S A} (E : env W) (m : M S A) s w :
  (forall w c, env_allow E w c) -> (forall w s, env_abort E w s) ->
  wpM E m s w (fun _ _ _ => True).
Proof. intros H1 H2. eapply wp_mono; [|by apply wp_any]. by intros w' [a s']. Qed.

(** Whatever the sub-reconcilers do, a reconcile that returns ends with a
    status update of the Addon whose observed version is the version of its
    specification, unless the Addon could not be read: then it makes no other
    call and hides only that the Addon does not exist. *)
Theorem observed_version_is_reported (r : AddonReconciler) (req : ObjectKey) (s : St) :
  wpM (hist_env (fun _ _ => True) (fun _ => True)) (Reconcile r req) s [] (fun h out _ =>
    (exists (o : obj KAddon) resp h', h = Ev (CStatusUpdate KAddon o) resp :: h' /\
       ObservedVersion (a_Status o) = Version (a_Spec o)) \/
    (exists e, h = [Ev (CGet Cached KAddon req) (inr e)] /\
       out = (no_result, IgnoreNotFound (Some e)))).
Proof.
  unfold Reconcile. apply wpM_bind, wpM_hist_call; [done|]. intros [addon|e].
  - apply wpM_bind, wpM_set_addon, wpM_bind. eapply wpM_mono; [by apply wpM_any|].
    intros h1 [res err] s1 _. eapply wpM_mono; [by apply finish_reconcile_spec|].
    intros h2 out s2 (h3 & a & resp & _ & -> & _). left. by eexists _, _, _.
  - apply wpM_bind. unfold report_error. apply wpM_modify_recorder, wpM_pure. right. by exists e.
Qed.

(** The Addon is read, not deleted, as [addon], the global pause flag is
    [paused], and nobody takes the OCM client away. *)
Definition reads (req : ObjectKey) (addon : Addon) (paused : bool) (h : history) (e : event) : Prop :=
  client_stays h e /\
  match ev_call e as c return resp c -> Prop with
  | CGet Cached KAddon key => fun r => key = req -> r = inl addon
  | CLoadGlobalPause => fun b => b = paused
  | _ => fun _ => True
  end (ev_resp e).

(** The only write is a status update that keeps the Addon's identity and
    satisfies [P]. *)
Definition only_status_update (addon : Addon) (P : Addon -> Prop) (_ : history) (c : call) : Prop :=
  match c with
  | CStatusUpdate KAddon o => a_Meta o = a_Meta addon /\ a_Spec o = a_Spec addon /\ P o
  | _ => is_write c = false
  end.

Lemma only_status_update_reads addon P h c :
  is_write c = false -> only_status_update addon P h c.
Proof. by destruct c as [| | | |[] o| | | | | | | | | | | | |]. Qed.

(** A reconcile that ends before the sub-reconcilers: its only write is the
    final status update. *)
Lemma finish_early r req addon paused err s h P :
  a_Meta (st_addon s) = a_Meta addon -> a_Spec (st_addon s) = a_Spec addon ->
  (forall a, same_but_reports a (st_addon s) -> P (reportObservedVersion a)) ->
  wpM (rely_env (reads req addon paused) (only_status_update addon P) (fun _ => False))
    (finish_reconcile r no_result err) s h (fun h' out _ =>
      out.1 = no_result /\ exists (o : obj KAddon) resp h'', h' = Ev (CStatusUpdate KAddon o) resp :: h'').
Proof.
  intros Hm Hs HP. eapply wpM_mono; [apply finish_reconcile_spec|].
  - intros. by apply only_status_update_reads.
  - intros h1 c h2 h3 [_ ->] [[Hs' _] _]. destruct (Hs' eq_refl c). left.
  - intros h' a Ha. destruct (Ha) as (Ha1 & Ha2 & _). simpl. rewrite Ha1, Ha2, Hm, Hs.
    split; [done|]. split; [done|]. by apply HP.
  - intros h' out s' (h1 & a & resp & _ & [_ ->] & -> & _). split; [by destruct resp|]. by eexists _, _, _.
Qed.

(** The Addon has a condition [ty], of status True and the given reason. *)
Definition has_true (ty reason : string) (a : Addon) : Prop :=
  exists c, find_condition ty a = Some c /\ cond_Status c = ConditionTrue /\ cond_Reason c = reason.

Lemma has_true_conditions ty reason a b :
  Conditions (a_Status a) = Conditions (a_Status b) -> has_true ty reason b -> has_true ty reason a.
Proof. intros He (c & Hc & H). exists c. unfold find_condition. by rewrite He. Qed.

Lemma paused_has_true reason now addon : has_true PausedCondition reason (reportAddonPauseStatus reason now addon).
Proof.
  unfold has_true, reportAddonPauseStatus. rewrite find_observe_generation, find_set_condition by done.
  rewrite bool_decide_true by done. by eexists.
Qed.

(** C7: An Addon that is paused, by its specification or globally, and not
    deleted is left alone: one reconcile never panics, its only write is a
    status update of the Addon that says why it is paused, and it asks for no
    requeue. *)
Theorem paused_addon_untouched (r : AddonReconciler) (req : ObjectKey) (addon : Addon)
    (paused : bool) (s : St) :
  Time_IsZero (DeletionTimestamp (a_Meta addon)) = true ->
  paused || Paused (a_Spec addon) = true ->
  wpM (rely_env (reads req addon paused)
         (only_status_update addon (has_true PausedCondition
            (if paused then AddonOperatorReasonPaused else AddonReasonPaused)))
         (fun _ => False))
    (Reconcile r req) s [] (fun h out _ =>
      out.1 = no_result /\
      ((exists o resp h', h = Ev (CStatusUpdate KAddon o) resp :: h') \/
       exists e, h = [Ev (CGet Cached KAddon req) (inr e)])).
Proof.
  intros Hd Hp. unfold Reconcile. apply wpM_bind, wpM_rely_call; [done|]. intros [a|e] [_ Hr]; simpl in Hr.
  2: { wp_run. split; [done|]. right. by exists e. }
  specialize (Hr eq_refl). injection Hr as ->.
  apply wpM_bind, wpM_set_addon, wpM_bind. unfold reconcile. apply wpM_bind, wpM_get_addon.
  simpl. rewrite Hd. simpl. wp_section; [done|]. unfold reconcile_locked.
  apply wpM_bind, wpM_get_addon, wpM_bind, wpM_rely_call; [done|]. intros b [_ ->].
  destruct paused; simpl in *; [|rewrite Hp]; apply wpM_bind, wpM_report; try done;
    intros now h' [_ ->]; apply wpM_pure;
    (eapply wpM_mono; [apply finish_early; [done|done|]|]);
    try (intros h' out s' [H1 H2]; split; [done|]; by left);
    intros a (_ & _ & Hc & _); unfold reportObservedVersion;
    (eapply has_true_conditions; [exact Hc|]); apply paused_has_true.
Qed.

(** What the status says of an Addon whose upgrade starts. *)
Definition upgrade_started_status (a : Addon) : Prop :=
  has_true UpgradeStarted AddonReasonUpgradeStarted a /\
  find_condition UpgradeSucceeded a = None /\ find_condition PausedCondition a = None /\
  ObservedVersion (a_Status a) = Version (a_Spec a) /\ addonIsBeingUpgraded a = false.

Lemma upgrade_started now a :
  find_condition PausedCondition a = None ->
  forall b, same_but_reports b (reportAddonUpgradeStarted now a) ->
    upgrade_started_status (reportObservedVersion b).
Proof.
  intros Hp b (_ & _ & Hc & _). unfold upgrade_started_status.
  assert (forall ty, find_condition ty (reportObservedVersion b) =
    find_condition ty (reportAddonUpgradeStarted now a)) as Hf.
  { intros ty. unfold find_condition. simpl. by rewrite Hc. }
  split_and!.
  - unfold has_true. rewrite Hf. unfold reportAddonUpgradeStarted.
    rewrite find_observe_generation, find_set_condition, bool_decide_true by done. by eexists.
  - rewrite Hf. unfold reportAddonUpgradeStarted.
    rewrite find_observe_generation, find_set_condition, bool_decide_false by done.
    destruct (find_condition UpgradeSucceeded a) eqn:E; [|done].
    by rewrite find_remove_condition, bool_decide_true.
  - rewrite Hf. unfold reportAddonUpgradeStarted.
    rewrite find_observe_generation, find_set_condition, bool_decide_false by done.
    destruct (find_condition UpgradeSucceeded a) eqn:E; [|done].
    by rewrite find_remove_condition, bool_decide_false.
  - done.
  - unfold addonIsBeingUpgraded. simpl. rewrite (bool_decide_true (Version _ = Version _)) by done.
    by destruct (_ && _).
Qed.

(** C13: When the version of an Addon that is neither deleted nor paused changed,
    one reconcile only starts the upgrade: no sub-reconciler runs, and its only
    write is a status update with UpgradeStarted, without UpgradeSucceeded, and
    with the new version as observed version, so that the next reconcile of
    that status does not start the upgrade again. *)
Theorem upgrade_starts_alone (r : AddonReconciler) (req : ObjectKey) (addon : Addon) (s : St) :
  Time_IsZero (DeletionTimestamp (a_Meta addon)) = true ->
  Paused (a_Spec addon) = false -> addonIsBeingUpgraded addon = true ->
  wpM (rely_env (reads req addon false) (only_status_update addon upgrade_started_status)
         (fun _ => False))
    (Reconcile r req) s [] (fun h out _ =>
      out.1 = no_result /\
      ((exists o resp h', h = Ev (CStatusUpdate KAddon o) resp :: h') \/
       exists e, h = [Ev (CGet Cached KAddon req) (inr e)])).
Proof.
  intros Hd Hp Hu. unfold Reconcile. apply wpM_bind, wpM_rely_call; [done|]. intros [a|e] [_ Hr]; simpl in Hr.
  2: { wp_run. split; [done|]. right. by exists e. }
  specialize (Hr eq_refl). injection Hr as ->.
  apply wpM_bind, wpM_set_addon, wpM_bind. unfold reconcile. apply wpM_bind, wpM_get_addon.
  simpl. rewrite Hd. simpl. wp_section; [done|]. unfold reconcile_locked.
  apply wpM_bind, wpM_get_addon, wpM_bind, wpM_rely_call; [done|]. intros b [_ ->]. simpl. rewrite Hp.
  apply wpM_bind, wpM_modify_addon, wpM_bind, wpM_get_addon. simpl.
  change (addonIsBeingUpgraded (removeAddonPauseCondition addon)) with (addonIsBeingUpgraded addon).
  rewrite Hu. apply wpM_bind, wpM_report; [done|]. intros now h' [_ ->]. apply wpM_pure.
  eapply wpM_mono; [apply finish_early|].
  - simpl. unfold reportAddonUpgradeStarted. by destruct (find_condition _ _).
  - simpl. unfold reportAddonUpgradeStarted. by destruct (find_condition _ _).
  - simpl. apply upgrade_started. unfold removeAddonPauseCondition.
    by rewrite find_observe_generation, find_remove_condition, bool_decide_true.
  - intros h' out s' [H1 H2]. split; [done|]. by left.
Qed.
End EntryPoint.

(** ** The operations of the AddonOperator controller *)

Section SharedTheorems.
Context {S : Type}.
Implicit Types (s : S).

Lemma trace_call {T} c (s : T) t x :
  trace (do_call c s) t x <-> exists r, t = [Ev c r] /\ x = (r, s).
Proof.
  unfold do_call. rewrite trace_vis_iff. split.
  - intros (r & t' & -> & [-> ->]%trace_ret_iff). by exists r.
  - intros (r & -> & ->). exists r, []. split; [done|]. constructor.
Qed.

Lemma trace_called {T} c (s : T) r : trace (do_call c s) [Ev c r] (r, s).
Proof. apply trace_call. by exists r. Qed.

Lemma trace_pure {T A} (a b : A) (s s' : T) t :
  trace (mpure a s) t (b, s') <-> t = [] /\ b = a /\ s' = s.
Proof. unfold mpure. rewrite trace_ret_iff. naive_solver. Qed.

(** The events of a critical section. *)
Definition section (m : mutex) (t : history) : history :=
  Ev (CMutex m Lock) tt :: t ++ [Ev (CMutex m Unlock) tt].

Lemma trace_with_lock {T A} m (body : M T A) (s : T) t x :
  trace (with_lock m body s) t x <-> exists t', t = section m t' /\ trace (body s) t' x.
Proof.
  unfold with_lock, section. destruct x as [a s']. rewrite trace_mthen. split.
  - intros (t1 & t2 & [] & s1 & -> & (? & -> & [= <- ->])%(trace_call (CMutex _ _)) & (t' & [] & -> & H)%trace_pdefer).
    by exists t'.
  - intros (t' & -> & H). exists [Ev (CMutex m Lock) tt], (t' ++ [Ev (CMutex m Unlock) tt]), tt, s.
    split; [done|]. split; [by apply (trace_called (CMutex _ _))|]. apply trace_pdefer. by exists t', tt.
Qed.

(** The events that requeue the Addons of a list. *)
Definition enqueued (items : list Addon) : history :=
  map (fun a => Ev (CEnqueue (meta_key (a_Meta a))) tt) items.

Definition list_addons (r : list (obj KAddon) + error) : event :=
  Ev (CList Cached KAddon None ∅) r.

Lemma trace_enqueue (items : list Addon) s t u s' :
  trace (mfor items (fun a => do_call (CEnqueue (meta_key (a_Meta a)))) s) t (u, s') <->
  t = enqueued items /\ s' = s.
Proof.
  destruct u. revert t. induction items as [|a items IH]; intros t; simpl.
  - rewrite trace_pure. naive_solver.
  - rewrite trace_mthen. split.
    + intros (t1 & t2 & r & s1 & -> & (? & -> & [= <- ->])%(trace_call (CEnqueue _)) & [-> ->]%IH). by destruct r.
    + intros [-> ->]. exists [Ev (CEnqueue (meta_key (a_Meta a))) tt], (enqueued items), tt, s.
      split; [done|]. split; [by apply (trace_called (CEnqueue _))|by apply IH].
Qed.

(** What a requeue of every Addon can come to. *)
Inductive requeued : history -> option error -> Prop :=
| requeued_all items : requeued (list_addons (inl items) :: enqueued items) None
| requeued_none err : requeued [list_addons (inr err)] (Some (ErrWrap "listing Addons, " err)).

Lemma trace_requeue s t e s' :
  trace (requeueAllAddons s) t (e, s') <-> requeued t e /\ s' = s.
Proof.
  unfold requeueAllAddons. rewrite trace_mthen. split.
  - intros (t1 & t2 & [items|err] & s1 & -> & (? & -> & [= <- ->])%(trace_call (CList _ _ _ _)) & H).
    + apply trace_mthen in H as (t3 & t4 & u & s2 & -> & [-> ->]%trace_enqueue & (-> & -> & ->)%trace_pure).
      rewrite app_nil_r. split; [apply requeued_all|done].
    + apply trace_pure in H as (-> & -> & ->). split; [apply requeued_none|done].
  - intros [[items|err] ->].
    + exists [list_addons (inl items)], (enqueued items), (inl items), s.
      split; [done|]. split; [by apply (trace_called (CList _ _ _ _))|]. apply trace_mthen.
      exists (enqueued items), [], tt, s. rewrite app_nil_r. split; [done|].
      split; [by apply trace_enqueue|by apply trace_pure].
    + exists [list_addons (inr err)], [], (inr err), s. split; [done|].
      split; [by apply (trace_called (CList _ _ _ _))|by apply trace_pure].
Qed.

(** Enabling or disabling the global pause sets the flag under the lock, and
    still under it requeues every Addon the server lists, each once and in
    order, so that each is reconciled with the new flag; when the list fails
    the error is returned with the flag already set. *)
Theorem global_pause_requeues_all (b : bool) (s : S) (t : history) (e : option error) (s' : S) :
  trace ((if b then EnableGlobalPause else DisableGlobalPause) s) t (e, s') <->
  s' = s /\ exists t' e', t = section globalPauseMux (Ev (CStoreGlobalPause b) tt :: t') /\ requeued t' e' /\
    e = (ErrWrap "requeue all Addons: ") <$> e'.
Proof.
  assert ((if b then EnableGlobalPause else DisableGlobalPause) s = setGlobalPause b s) as -> by by destruct b.
  unfold setGlobalPause. rewrite trace_with_lock. setoid_rewrite trace_mthen. split.
  - intros (t0 & -> & t1 & t2 & r & s1 & -> & (? & -> & [= <- ->])%(trace_call (CStoreGlobalPause _)) & H); destruct r.
    apply trace_mthen in H as (t3 & t4 & e' & s2 & -> & [Hr ->]%trace_requeue & H).
    destruct e' as [e'|]; apply trace_pure in H as (-> & -> & ->); (split; [done|]);
      rewrite app_nil_r; by eexists _, _.
  - intros (-> & t' & e' & -> & Hr & ->).
    eexists. split; [done|]. exists [Ev (CStoreGlobalPause b) tt], t', tt, s.
    split; [done|]. split; [by apply (trace_called (CStoreGlobalPause _))|].
    apply trace_mthen. exists t', [], e', s. rewrite app_nil_r. split; [done|].
    split; [by apply trace_requeue|]. by destruct e'; apply trace_pure.
Qed.

(** Under its lock, the first OCM client that is injected requeues every Addon
    before it is stored, and is not stored when that fails; a later client
    replaces the stored one without a requeue. *)
Theorem first_client_requeues_all (c : ClientOptions) (s : S) (t : history) (e : option error) (s' : S) :
  trace (InjectOCMClient c s) t (e, s') <->
  s' = s /\ exists t0, t = section ocmClientMux t0 /\
  ((exists t', t0 = Ev CLoadOCMClient None :: t' ++ [Ev (CStoreOCMClient c) tt] /\ requeued t' None /\ e = None) \/
   (exists t' err, t0 = Ev CLoadOCMClient None :: t' /\ requeued t' (Some err) /\
      e = Some (ErrWrap "requeue all Addons: " err)) \/
   (exists old, t0 = [Ev CLoadOCMClient (Some old); Ev (CStoreOCMClient c) tt] /\ e = None)).
Proof.
  unfold InjectOCMClient. rewrite trace_with_lock. setoid_rewrite trace_mthen. split.
  - intros (t0 & -> & t1 & t2 & [old|] & s1 & -> & (? & -> & [= <- ->])%(trace_call CLoadOCMClient) & H);
      apply trace_mthen in H as (t3 & t4 & e1 & s2 & -> & H1 & H2).
    + apply trace_pure in H1 as (-> & -> & ->).
      apply trace_mthen in H2 as (t5 & t6 & u & s3 & -> & (? & -> & [= <- ->])%(trace_call (CStoreOCMClient _)) & (-> & -> & ->)%trace_pure); destruct u.
      split; [done|]. eexists. split; [done|]. do 2 right. by exists old.
    + apply trace_mthen in H1 as (t5 & t6 & e2 & s3 & -> & [Hr ->]%trace_requeue & (-> & -> & ->)%trace_pure).
      rewrite app_nil_r. destruct e2 as [err|].
      * apply trace_pure in H2 as (-> & -> & ->). rewrite app_nil_r. split; [done|]. eexists. split; [done|].
        right. left. by exists t5, err.
      * apply trace_mthen in H2 as (t7 & t8 & u & s4 & -> & (? & -> & [= <- ->])%(trace_call (CStoreOCMClient _)) & (-> & -> & ->)%trace_pure); destruct u.
        split; [done|]. eexists. split; [done|]. left. by exists t5.
  - intros (-> & t0 & -> & H). exists t0. split; [done|].
    destruct H as [(t' & -> & Hr & ->)|[(t' & err & -> & Hr & ->)|(old & -> & ->)]].
    + exists [Ev CLoadOCMClient None], (t' ++ [Ev (CStoreOCMClient c) tt]), None, s.
      split; [done|]. split; [by apply (trace_called CLoadOCMClient)|]. apply trace_mthen.
      exists t', [Ev (CStoreOCMClient c) tt], None, s. split; [done|]. split.
      * apply trace_mthen. exists t', [], None, s. rewrite app_nil_r. split; [done|].
        split; [by apply trace_requeue|by apply trace_pure].
      * apply trace_mthen. exists [Ev (CStoreOCMClient c) tt], [], tt, s. split; [done|].
        split; [by apply (trace_called (CStoreOCMClient _))|by apply trace_pure].
    + exists [Ev CLoadOCMClient None], t', None, s. split; [done|]. split; [by apply (trace_called CLoadOCMClient)|].
      apply trace_mthen. exists t', [], (Some (ErrWrap "requeue all Addons: " err)), s.
      rewrite app_nil_r. split; [done|]. split; [|by apply trace_pure].
      apply trace_mthen. exists t', [], (Some err), s. rewrite app_nil_r. split; [done|].
      split; [by apply trace_requeue|by apply trace_pure].
    + exists [Ev CLoadOCMClient (Some old)], [Ev (CStoreOCMClient c) tt], (Some old), s.
      split; [done|]. split; [by apply (trace_called CLoadOCMClient)|]. apply trace_mthen.
      exists [], [Ev (CStoreOCMClient c) tt], None, s. split; [done|]. split; [by apply trace_pure|].
      apply trace_mthen. exists [Ev (CStoreOCMClient c) tt], [], tt, s. split; [done|].
      split; [by apply (trace_called (CStoreOCMClient _))|by apply trace_pure].
Qed.
End SharedTheorems.
