(* ===== verification/Settling.v ===== *)
(** * When a cluster is settled

    What it takes for the Addon controller to come to rest: statements about the
    stored objects, and their stability while nothing happens that concerns the
    controller ([still]); the Addons that a reconcile does not tell apart; the
    stake that the controller has in a cluster; and its footprint, the writes it
    makes there ([own_write]). *)
From S2P Require Export Convergence MonitoringProofs AddonController.

(** ** Facts about single objects *)

(** A good object is there; no object is, but for one being deleted; the only
    objects of a selection are those kept and those being deleted. *)
Definition stands (k : kind) (key : ObjectKey) (good : obj k -> Prop) (w : objects) : Prop :=
  exists o, w k key = Some o /\ good o.
Definition gone (k : kind) (key : ObjectKey) (w : objects) : Prop :=
  forall o, w k key = Some o -> deleting k o.
Definition cleaned (k : kind) (sel : obj k -> Prop) (keep : ObjectKey -> Prop) (w : objects) : Prop :=
  forall o, w k (obj_key k o) = Some o -> sel o -> ~ keep (obj_key k o) -> deleting k o.

Lemma stands_elsewhere k key good F w w' :
  changed_in F w w' -> ~ F k key -> stands k key good w -> stands k key good w'.
Proof. intros Hw Hk (o & Ho & Hg). exists o. by rewrite Hw. Qed.
Lemma gone_elsewhere k key F w w' : changed_in F w w' -> ~ F k key -> gone k key w -> gone k key w'.
Proof. intros Hw Hk Hg o. rewrite Hw by done. apply Hg. Qed.
Lemma cleaned_elsewhere k sel keep F w w' :
  changed_in F w w' -> (forall key, F k key -> keep key) -> cleaned k sel keep w -> cleaned k sel keep w'.
Proof.
  intros Hw Hk Hc o Ho Hs Hn. apply Hc; [|done|done]. rewrite <- Ho. symmetry. apply Hw. naive_solver.
Qed.

(** *** Deletions *)

(** Objects of the kind may have been deleted, and these keys alone. *)
Definition shrunk (k : kind) (w w' : objects) : Prop :=
  forall key o', w' k key = Some o' ->
    exists o, w k key = Some o /\ same_stored k o' o /\ (deleting k o -> deleting k o').
Definition pruned (k : kind) (D : ObjectKey -> Prop) (w w' : objects) : Prop :=
  changed_in (fun k' key => k' = k /\ D key) w w' /\ shrunk k w w'.

#[export] Instance shrunk_preorder k : PreOrder (shrunk k).
Proof.
  split; [intros w key o Ho; by exists o|]. intros w1 w2 w3 H1 H2 key o3 (o2 & Ho2 & Hs & Hd)%H2.
  destruct (H1 _ _ Ho2) as (o1 & Ho1 & Hs' & Hd'). exists o1. split; [done|]. split; [by etrans|auto].
Qed.
#[export] Instance pruned_preorder k D : PreOrder (pruned k D).
Proof. split; [by intros w|]. intros w1 w2 w3 [H1 H2] [H3 H4]. split; by etrans. Qed.

Lemma deleted_pruned k (D : ObjectKey -> Prop) key w w' :
  D key -> deleted k key w w' -> pruned k D w w' /\ gone k key w'.
Proof.
  intros HD [Hw Hd]. split; [split|].
  - by apply (only_wrote_changed k key).
  - intros key' o' Ho'. destruct (decide (key' = key)) as [->|Hne].
    + rewrite Ho' in Hd. destruct (w k key) as [o|]; [|done]. exists o. split; [done|].
      split; [apply Hd|intros _; apply Hd].
    + rewrite Hw in Ho' by naive_solver. by exists o'.
  - intros o' Ho'. rewrite Ho' in Hd. by destruct (w k key) as [o|]; [apply Hd|].
Qed.

Lemma gone_shrunk k key w w' : shrunk k w w' -> gone k key w -> gone k key w'.
Proof. intros Hp Hg o' (o & Ho & _ & Hd)%Hp. by apply Hd, Hg. Qed.

(** What a list call has to do with it. *)
Definition lists (cl : client) (sel : labels) (k : kind) (w : objects) (items : list (obj k)) : Prop :=
  forall o, o ∈ items <-> w k (obj_key k o) = Some o /\ listable cl None sel k o.

Lemma listed_later cl sel k w0 w items n x :
  lists cl sel k w0 items -> shrunk k w0 w -> n ∈ items -> w k (obj_key k n) = Some x ->
  listable cl None sel k x /\ obj_key k x = obj_key k n.
Proof.
  intros Hl Hp [Hn Hsel]%Hl Hx. destruct (Hp _ _ Hx) as (n' & Hn' & Hs & _). rewrite Hn in Hn'.
  injection Hn' as <-. split; [|apply Hs]. by eapply listable_same; [symmetry|].
Qed.

Lemma listed_deleting cl sel k keep w0 w items n :
  lists cl sel k w0 items -> shrunk k w0 w -> n ∈ items -> ~ keep (obj_key k n) ->
  cleaned k (listable cl None sel k) keep w -> gone k (obj_key k n) w.
Proof.
  intros Hl Hp Hn Hk Hc x Hx. destruct (listed_later _ _ _ _ _ _ _ x Hl Hp Hn Hx) as [Hsel Hkey].
  apply Hc; by rewrite ?Hkey.
Qed.

Lemma cleaned_after cl sel k (keep : ObjectKey -> Prop) w w' items :
  lists cl sel k w items -> shrunk k w w' ->
  (forall n, n ∈ items -> ~ keep (obj_key k n) -> gone k (obj_key k n) w') ->
  cleaned k (listable cl None sel k) keep w'.
Proof.
  intros Hl Hp Hg o Ho Hsel Hk. destruct (Hp _ _ Ho) as (o0 & Ho0 & Hs & _).
  assert (obj_key k o = obj_key k o0) as Hkey by apply Hs. rewrite Hkey in *.
  apply (Hg o0); [|done|done]. apply Hl. split; [done|]. by eapply listable_same.
Qed.

Lemma controllers_of_owners {L : Lib} {LOk : LibOk L} m m' want :
  OwnerReferences m = OwnerReferences m' -> HasSameController m want = HasSameController m' want.
Proof. intros H. unfold HasSameController. by rewrite !get_controller, H. Qed.

Section Still.
Context (st : stake) (w w' : objects) (Hq : still st w w').

(** What is claimed was there. *)
Lemma still_claimed k key o' : w' k key = Some o' -> claimed st k key o' ->
  exists o, w k key = Some o /\ kept k o' o.
Proof.
  intros Ho' Hc. specialize (Hq k key). cbv zeta in Hq. rewrite Ho' in Hq.
  destruct (w k key) as [o|]; [|done]. exists o. split; [done|]. by destruct Hq as [Hk|[_ Hn]].
Qed.

Lemma stands_still k key (good : obj k -> Prop) :
  (forall a b, kept k a b -> good b -> good a) -> wants st k key ->
  stands k key good w -> stands k key good w'.
Proof.
  intros Hg Hw (o & Ho & Hgo). specialize (Hq k key). cbv zeta in Hq. rewrite Ho in Hq.
  destruct (w' k key) as [o'|] eqn:Ho'; [|naive_solver]. exists o'. split; [done|].
  destruct Hq as [Hk|Hk]; [by eapply Hg|naive_solver].
Qed.

Lemma gone_still k key : (forall l, claims st k key l) -> gone k key w -> gone k key w'.
Proof.
  intros Hc Hg o' Ho'. destruct (still_claimed k key o' Ho' (Hc _)) as (o & Ho & Hk). apply Hk. by apply Hg.
Qed.

Lemma cleaned_still k (sel : obj k -> Prop) keep :
  (forall o, sel o -> claimed st k (obj_key k o) o) -> (forall a b, kept k a b -> sel a -> sel b) ->
  cleaned k sel keep w -> cleaned k sel keep w'.
Proof.
  intros Hc Hs Hcl o' Ho' Hsel Hk. destruct (still_claimed _ _ o' Ho' (Hc _ Hsel)) as (o & Ho & Hkept).
  assert (obj_key k o' = obj_key k o) as Hkey by apply Hkept. rewrite Hkey in Ho, Hk.
  apply Hkept. apply Hcl; [done| |done]. by eapply Hs.
Qed.

Lemma settled_as_still {L : Lib} {LOk : LibOk L} k key want (spec : obj k -> Prop) :
  (forall a b, same_content k a b -> spec b -> spec a) -> wants st k key ->
  settled_as k key want spec w -> settled_as k key want spec w'.
Proof.
  intros Hs Hw (o & Ho & Hg). apply (stands_still k key (fun o => HasSameController (obj_meta k o) want = true /\
    labels_Merge (Labels (obj_meta k o)) (Labels want) = Labels (obj_meta k o) /\ spec o)); [|done|by exists o].
  intros a b [(_ & Hor & Hl & Hsp) _] (H1 & H2 & H3). split; [|split; [by rewrite Hl|by eapply Hs]].
  by rewrite (controllers_of_owners _ (obj_meta k b)).
Qed.
End Still.

(** ** Addons that are alike *)

(** The loop over the namespaces writes into the label maps of the Addon in
    memory ([alias_labels]); what it writes is what the operator would add
    anyway. *)
Section Alike.
Context {L : Lib} {LOk : LibOk L}.

Definition relabelled (a : Addon) (ns : AddonNamespace) : AddonNamespace :=
  mkAddonNs (an_Name ns) (common_label_writes a <$> an_Labels ns) (an_Annotations ns).
Definition blank_status : AddonStatus := mkAddonStatus 0 [] "" None None "" "".
Definition canonical (a : Addon) : Addon :=
  with_status blank_status (set_Namespaces (map (relabelled a) (Namespaces (a_Spec a))) a).
Definition alike (a b : Addon) : Prop := canonical a = canonical b.

#[export] Instance alike_equiv : Equivalence alike.
Proof. split; [done|by intros a b|]. intros a b d. unfold alike. congruence. Qed.

(** What does not tell an Addon from its canonical form does not tell two that
    are alike. *)
Lemma alike_eq {T} (f : Addon -> T) a b : (forall a, f (canonical a) = f a) -> alike a b -> f a = f b.
Proof. intros Hf H. by rewrite <- (Hf a), <- (Hf b), H. Qed.

Lemma same_identity_alike a b : same_identity a b -> alike a b.
Proof. destruct a, b. intros [Hm Hs]. simpl in *. by subst. Qed.

Lemma writes_twice a (l : labels) : common_label_writes a (common_label_writes a l) = common_label_writes a l.
Proof.
  apply map_eq. intros k. unfold common_label_writes.
  destruct (decide (k = CommonInstanceLabel)) as [->|H1]; [by rewrite !lookup_insert_eq|].
  rewrite !(lookup_insert_ne _ CommonInstanceLabel) by done.
  destruct (decide (k = CommonCacheLabel)) as [->|H2]; [by rewrite !lookup_insert_eq|].
  rewrite !(lookup_insert_ne _ CommonCacheLabel) by done.
  destruct (decide (k = CommonManagedByLabel)) as [->|H3]; [by rewrite !lookup_insert_eq|].
  rewrite !(lookup_insert_ne _ CommonManagedByLabel) by done.
  rewrite !(lookup_insert_ne _ CommonInstanceLabel), !(lookup_insert_ne _ CommonCacheLabel),
    !(lookup_insert_ne _ CommonManagedByLabel) by done. done.
Qed.

Lemma relabel_aliased a i l :
  map (relabelled a) (alter (fun n => mkAddonNs (an_Name n) (common_label_writes a <$> an_Labels n)
    (an_Annotations n)) i l) = map (relabelled a) l.
Proof.
  revert i. induction l as [|n l IH]; intros [|i]; [done|done| |].
  - cbn. f_equal. unfold relabelled. simpl. f_equal.
    destruct (an_Labels n) as [x|]; simpl; [|done]. by rewrite writes_twice.
  - cbn. f_equal. apply IH.
Qed.

Lemma alias_alike i a : alike (alias_labels i a) a.
Proof.
  unfold alike, canonical. cbn [alias_labels set_Namespaces with_spec a_Spec Namespaces].
  change (relabelled (alias_labels i a)) with (relabelled a).
  match goal with |- context [map _ ?l] => change l with (alter (fun n => mkAddonNs (an_Name n)
    (common_label_writes a <$> an_Labels n) (an_Annotations n)) i (Namespaces (a_Spec a))) end.
  by rewrite relabel_aliased.
Qed.

Lemma relabelled_names a : map an_Name (Namespaces (a_Spec (canonical a))) = map an_Name (Namespaces (a_Spec a)).
Proof. unfold canonical. simpl. by rewrite map_map. Qed.

Section Equal.
Context (a b : Addon) (Hab : alike a b).
Lemma selector_alike : CommonLabelsAsLabelSelector a = CommonLabelsAsLabelSelector b.
Proof. by apply (alike_eq CommonLabelsAsLabelSelector). Qed.
Lemma names_alike : map an_Name (Namespaces (a_Spec a)) = map an_Name (Namespaces (a_Spec b)).
Proof. apply (alike_eq (fun a => map an_Name (Namespaces (a_Spec a)))); [apply relabelled_names|done]. Qed.
Lemma wanted_names_alike : wanted_names a = wanted_names b.
Proof.
  apply (alike_eq wanted_names); [|done]. intros d. unfold wanted_names. by rewrite relabelled_names.
Qed.
End Equal.
End Alike.

(** ** The stake of the Addon controller in a cluster *)

Section Stake.
Context (opns : string) (addon : Addon) (c : AddonInstallOLMCommon).

(** The secrets to propagate, and where they come from. *)
Definition propagated : list AddonSecretPropagationReference :=
  match SecretPropagation (a_Spec addon) with Some p => Secrets p | None => [] end.
Definition source_keys : list ObjectKey := map (fun ref => mkKey opns (SourceSecret ref)) propagated.

Definition namespace_keys : list ObjectKey :=
  map (fun ns => mkKey "" (an_Name ns)) (Namespaces (a_Spec addon)).
Definition monitoring_namespace_key : ObjectKey := mkKey "" (GetMonitoringNamespaceName addon).
Definition monitor_key : ObjectKey :=
  mkKey (GetMonitoringNamespaceName addon) (GetMonitoringFederationServiceMonitorName addon).

Definition stack_key : ObjectKey := mkKey (ic_Namespace c) (getMonitoringStackName (a_Name addon)).

Definition addon_wants (k : kind) (key : ObjectKey) : Prop :=
  match k with
  | KNamespace => key ∈ namespace_keys \/ HasMonitoringFederation addon = true /\ key = monitoring_namespace_key
  | KSecret => key ∈ placement_keys addon \/ key ∈ source_keys \/
      HasMonitoringFederation addon = true /\ (key = prom_token_key opns \/ key = bearer_token_key addon)
  | KAddonInstance => key = instance_key c
  | KOperatorGroup => key = mkKey (ic_Namespace c) DefaultOperatorGroupName
  | KNetworkPolicy => key = mkKey (ic_Namespace c) (getCatalogSourceNetworkPolicyName addon)
  | KCatalogSource => key ∈ map (mkKey (ic_Namespace c)) (source_names addon c)
  | KSubscription => key = mkKey (ic_Namespace c) (SubscriptionName addon)
  | KServiceMonitor => HasMonitoringFederation addon = true /\ key = monitor_key
  | KMonitoringStack => key = stack_key
  | KClusterObjectTemplate => AddonPackageOperator (a_Spec addon) <> None /\ key = template_key addon
  | _ => False
  end.

(** The objects found by the labels of the Addon, and those found by their key
    also when they are not wanted. *)
Definition addon_claims (k : kind) (key : ObjectKey) (l : labels) : Prop :=
  match k with
  | KNamespace => CommonLabelsAsLabelSelector addon ⊆ l \/ key = monitoring_namespace_key
  | KSecret => l !! CommonInstanceLabel = Some (a_Name addon) \/ key = bearer_token_key addon
  | KServiceMonitor => CommonLabelsAsLabelSelector addon ⊆ l
  | KClusterObjectTemplate => key = template_key addon
  | _ => False
  end.

Definition addon_stake : stake := mkStake addon_wants addon_claims.
End Stake.

(** ** What a reconcile writes *)

Section Footprint.
Context {L : Lib} {LOk : LibOk L}.
Context (opns : string) (addon : Addon) (c : AddonInstallOLMCommon).

(** The keys that it creates and updates. *)
Definition addon_writes (k : kind) (key : ObjectKey) : Prop :=
  match k with
  | KNamespace => key ∈ namespace_keys addon \/ key = monitoring_namespace_key addon
  | KSecret => key ∈ placement_keys addon \/ key = bearer_token_key addon
  | KAddonInstance => key = instance_key c
  | KServiceMonitor => key = monitor_key addon
  | KMonitoringStack => key = stack_key addon c
  | KClusterObjectTemplate => key = template_key addon
  | k => olm_keys addon c k key
  end.

(** The kinds in which objects are found by the labels of the Addon, and the
    label that tells the Addons apart. *)
Definition by_label (k : kind) : Prop :=
  match k with KNamespace | KSecret | KServiceMonitor => True | _ => False end.
Definition instance_label (k : kind) (o : obj k) : option string := Labels (obj_meta k o) !! CommonInstanceLabel.

(** The Addon's common labels do not say that its objects are another's. *)
Definition own_labels : Prop :=
  forall v, CommonLabels (a_Spec addon) !! CommonInstanceLabel = Some v -> v = a_Name addon.

(** An object gets the label of the Addon, but for the token, or keeps the one
    it has. *)
Definition is_token (k : kind) (key : ObjectKey) : Prop := k = KSecret /\ key = bearer_token_key addon.
Definition labelled (w : objects) (k : kind) (o : obj k) : Prop := by_label k -> own_labels ->
  instance_label k o = Some (a_Name addon) /\ ~ is_token k (obj_key k o) \/
  instance_label k o = w k (obj_key k o) ≫= instance_label k.

(** The metadata of the copied token, and what makes it a good copy. *)
Definition token_meta : ObjectMeta :=
  owned_meta addon (new_meta (key_Namespace (bearer_token_key addon)) (key_Name (bearer_token_key addon))).
Definition token_good (data : labels) (o : Secret) : Prop :=
  HasSameController token_meta (sec_Meta o) = true /\ sec_Data o = data.
Definition token_settled (w : objects) : Prop := exists data,
  stands KSecret (prom_token_key opns) (fun o => sec_Data o = data) w /\
  stands KSecret (bearer_token_key addon) (token_good data) w.

(** What is written for the token is a copy of the operator's. *)
Definition copies_token (w : objects) (k : kind) : obj k -> Prop :=
  match k with
  | KSecret => fun o => meta_key (sec_Meta o) = bearer_token_key addon ->
      exists p, w KSecret (prom_token_key opns) = Some p /\ token_good (sec_Data p) o
  | _ => fun _ => True
  end.

(** The writes of a reconcile: at its own keys, deletions also of what has its
    label but never of what it wants, the patch that marks a source for the
    cache, and the status of the Addon. *)
Definition own_write (w : objects) (c' : call) : Prop :=
  match c' with
  | CCreate k o | CUpdate k o => addon_writes k (obj_key k o) /\ labelled w k o /\ copies_token w k o
  | CPatch k o base => k = KSecret /\ obj_key k o ∈ source_keys opns addon /\
      w k (obj_key k o) = Some base /\ in_view Cached k base = false /\ in_view Cached k o = true /\
      instance_label k o = instance_label k base /\ same_content k o base
  | CDelete k key => ~ addon_wants opns addon c k key /\
      (addon_writes k key \/
       by_label k /\ forall o, w k key = Some o -> instance_label k o = Some (a_Name addon))
  | CStatusUpdate k _ => k = KAddon
  | _ => True
  end.

Lemma copies_token_other w k (o : obj k) : ~ is_token k (obj_key k o) -> copies_token w k o.
Proof. intros Ht. destruct k; try done. intros Hk. by destruct Ht. Qed.

Lemma common_labelled m : own_labels -> Labels (AddCommonLabels addon m) !! CommonInstanceLabel = Some (a_Name addon).
Proof.
  intros Ho. rewrite Labels_AddCommonLabels, lookup_union, common_label_writes_lookup.
  assert (CommonLabelsAsLabelSelector addon !! CommonInstanceLabel = Some (a_Name addon)) as ->.
  { unfold CommonLabelsAsLabelSelector, common_label_writes. by rewrite lookup_insert_eq. }
  destruct (CommonLabels (a_Spec addon) !! CommonInstanceLabel) as [v|] eqn:Hv; [|done].
  by rewrite (Ho v Hv).
Qed.

Lemma selected_label l : CommonLabelsAsLabelSelector addon ⊆ l -> l !! CommonInstanceLabel = Some (a_Name addon).
Proof.
  intros Hl. eapply lookup_weaken; [|exact Hl].
  unfold CommonLabelsAsLabelSelector, common_label_writes. by rewrite lookup_insert_eq.
Qed.

(** What was listed may be deleted. *)
Lemma listed_own w0 w k items n : by_label k -> ~ addon_wants opns addon c k (obj_key k n) ->
  lists Cached (CommonLabelsAsLabelSelector addon) k w0 items -> shrunk k w0 w -> n ∈ items ->
  own_write w (CDelete k (obj_key k n)).
Proof.
  intros Hb Hnw Hl Hp Hn. split; [done|]. right. split; [done|]. intros x Hx. apply selected_label.
  by destruct (listed_later _ _ _ _ _ _ _ x Hl Hp Hn Hx) as [(_ & Hsel & _) _].
Qed.

Lemma own_permits k key want : addon_writes k key -> ~ is_token k key ->
  (by_label k -> own_labels -> Labels want !! CommonInstanceLabel = Some (a_Name addon)) ->
  permits own_write k key want.
Proof.
  intros Hk Ht Hl w o Ho [l Hm]. simpl. rewrite Ho.
  assert (copies_token w k o) as Hcopy by (apply copies_token_other; by rewrite Ho).
  assert (labelled w k o) as Hlab; [|done]. intros Hb Hown. left. rewrite Ho. split; [|done]. unfold instance_label.
  rewrite Hm, merge_union, lookup_union, Hl by done. by destruct (l !! CommonInstanceLabel).
Qed.

Lemma olm_permits k key want : olm_keys addon c k key -> permits own_write k key want.
Proof. intros Hk. apply own_permits; [by destruct k|by intros [-> _]|by destruct k]. Qed.
End Footprint.

(** ** The objects of the OLM reconciler, later *)

Section OlmLater.
Context {L : Lib} {LOk : LibOk L} (opns : string) (addon : Addon) (c : AddonInstallOLMCommon).

Lemma olm_still w w' : still (addon_stake opns addon c) w w' -> settled addon c w -> settled addon c w'.
Proof.
  intros Hq (H1 & H2 & H3 & H4). split; [|split; [|split]].
  - revert H1. apply (settled_as_still _ _ _ Hq); [simpl; congruence|done].
  - revert H2. apply (settled_as_still _ _ _ Hq); [simpl; congruence|done].
  - apply Forall_forall. intros [name image] Hin. apply (proj1 (Forall_forall _ _) H3) in Hin as Hs.
    revert Hs. apply (settled_as_still _ _ _ Hq); [simpl; congruence|].
    change (mkKey (ic_Namespace c) name ∈ map (mkKey (ic_Namespace c)) (source_names addon c)).
    apply list_elem_of_fmap. exists name. split; [done|].
    assert (map fst ((CatalogSourceName addon, CatalogSourceImage c) :: additional_sources c) =
      source_names addon c) as <- by (unfold source_names, additional_sources; simpl; by rewrite map_map).
    apply list_elem_of_fmap. by exists (name, image).
  - revert H4. apply (settled_as_still _ _ _ Hq); [|done]. simpl. intros a b Hab [x Hx]. exists x. congruence.
Qed.
End OlmLater.
