(* ===== verification/Footprint.v ===== *)
(** * What the writes of a reconcile do

    The footprint of a reconcile ([own_write]), as effects on the objects of the
    cluster, one key at a time, and what these effects keep: the objects that the
    Addon wants stay there, the operator's token and the sources stay, and a good
    copy of the token stays good. *)
From S2P Require Export Settling.

Section Footprint.
Context {L : Lib} {LOk : LibOk L}.
Context (ocm : option ClientOptions) (opns : string) (addon : Addon) (c : AddonInstallOLMCommon).
Abbreviation writes := (addon_writes addon c).

(** The objects that an Addon may delete. *)
Definition may_remove (k : kind) (key : ObjectKey) (o : obj k) : Prop :=
  ~ addon_wants opns addon c k key /\
  (writes k key \/ by_label k /\ instance_label k o = Some (a_Name addon)).

Inductive effect (w w' : objects) (k : kind) (key : ObjectKey) : Prop :=
  | effect_none : w' k key = w k key -> effect w w' k key
  | effect_status o o' : w k key = Some o -> w' k key = Some o' ->
      obj_meta k o' = obj_meta k o -> same_content k o' o -> effect w w' k key
  | effect_written o' : writes k key -> w' k key = Some o' -> obj_key k o' = key ->
      (by_label k -> instance_label k o' = Some (a_Name addon) /\ ~ is_token addon k key \/
         instance_label k o' = w k key ≫= instance_label k) ->
      copies_token opns addon w k o' -> effect w w' k key
  | effect_marked o o' : k = KSecret -> key ∈ source_keys opns addon ->
      w k key = Some o -> in_view Cached k o = false -> w' k key = Some o' -> in_view Cached k o' = true ->
      instance_label k o' = instance_label k o -> same_content k o' o -> effect w w' k key
  | effect_removed o : may_remove k key o -> w k key = Some o -> w' k key = None -> effect w w' k key
  | effect_deleting o o' : may_remove k key o -> w k key = Some o -> w' k key = Some o' ->
      same_stored k o' o -> effect w w' k key.

Lemma only_wrote_effect k key w w' : only_wrote k key w w' -> effect w w' k key -> forall k' key', effect w w' k' key'.
Proof.
  intros Hw He k' key'. destruct (decide (k' = k)) as [->|Hk]; [|apply effect_none, Hw; naive_solver].
  destruct (decide (key' = key)) as [->|Hkey]; [done|]. apply effect_none, Hw. naive_solver.
Qed.

Lemma copies_token_stored w k o o' : same_stored k o' o -> copies_token opns addon w k o -> copies_token opns addon w k o'.
Proof.
  destruct k; try done. simpl. intros (Hk & Hor & _ & Hd) Hc Hkey. unfold obj_key in Hk. simpl in Hk, Hor.
  destruct Hc as (p & Hp & Hs & Hdata); [by rewrite <- Hk|]. exists p. split; [done|]. split; [|congruence].
  unfold HasSameController in *. by rewrite (get_controller (sec_Meta o')), Hor, <- get_controller.
Qed.

Lemma written_effect k (o : obj k) w o' w' : own_labels addon ->
  writes k (obj_key k o) -> labelled addon w k o -> copies_token opns addon w k o -> stored k o w o' ->
  w' k (obj_key k o) = Some o' -> effect w w' k (obj_key k o).
Proof.
  intros Hown Hw Hlab Hcopy [Hst _] Ho'. apply (effect_written _ _ _ _ o'); try done.
  - apply Hst.
  - intros Hb. assert (instance_label k o' = instance_label k o) as -> by (unfold instance_label; by destruct Hst as (_ & _ & -> & _)).
    by apply Hlab.
  - by eapply copies_token_stored.
Qed.

Lemma own_write_effect w c' r w' : own_labels addon ->
  (is_write c' = true -> own_write opns addon c w c') -> stores_verbatim ocm w c' r w' -> forall k key, effect w w' k key.
Proof.
  intros Hown Hc Hs.
  destruct (is_write c') eqn:Hw; [|intros k key; apply effect_none; by rewrite (stores_read _ _ _ _ _ Hw Hs)].
  specialize (Hc eq_refl). assert (forall k key, w' = w -> effect w w' k key) as Hsame by (intros k key ->; by apply effect_none).
  destruct c' as [| |k o|k o|k o|k o base|k key| | | | | | | | | | |]; try done; simpl in Hs.
  - destruct Hs as [Hs _], Hc as (Hk & Hlab & Hcopy). destruct r as [o'|e]; [|destruct Hs; auto]. destruct Hs as (Hst & Ho' & Ho).
    apply (only_wrote_effect k (obj_key k o)); [done|]. by eapply written_effect.
  - destruct Hs as [Hs _], Hc as (Hk & Hlab & Hcopy). destruct r as [o'|e]; [|destruct Hs; auto]. destruct Hs as (Hst & Ho' & Ho).
    apply (only_wrote_effect k (obj_key k o)); [done|]. by eapply written_effect.
  - destruct r as [o'|e]; [|destruct Hs; auto]. destruct Hs as (cur & Hcur & Hm & Hsp & Ho' & Ho).
    apply (only_wrote_effect k (obj_key k o)); [done|]. by eapply effect_status.
  - destruct Hc as (-> & Hk & Hb & Hv & Hv' & Hl & Hcont), Hs as [Ho Hs]. specialize (Hs Hb).
    destruct r as [o'|e]; [|destruct Hs; auto]. destruct Hs as [[(Hk' & _ & Hlab & Hd) _] [Ho' _]].
    apply (only_wrote_effect KSecret (obj_key KSecret o)); [done|].
    apply (effect_marked _ _ _ _ base o'); try done; simpl in *; unfold instance_label in *; simpl in *; rewrite ?Hlab; congruence.
  - destruct r as [e|]; [destruct Hs; auto|]. destruct Hs as [Ho Hs].
    apply (only_wrote_effect k key); [done|].
    destruct (w k key) as [o|] eqn:Hcur; [|apply effect_none; by destruct (w' k key)].
    assert (may_remove k key o) as Hdel by (destruct Hc as [Hn [Hc|[Hb Hc]]]; (split; [done|]); [by left|right; auto]).
    destruct (w' k key) as [o'|] eqn:Ho'; [|by eapply effect_removed].
    eapply effect_deleting; [done..|apply Hs].
Qed.
End Footprint.
