(* ===== verification/SettledSingles.v ===== *)
(** * What the sub-reconcilers of one object settle

    The AddonInstance, the MonitoringStack and the ClusterObjectTemplate: that a
    run which returns the zero result leaves them as wanted, that it writes no
    other object, and that it leaves them alone once they are. *)
From S2P Require Export Settling.

Section Single.
Context {L : Lib} {LOk : LibOk L}.
Context (ocm : option ClientOptions) (opns : string).
Context (addon : Addon) (c : AddonInstallOLMCommon) (Hc : parsed addon = Some c).
Context (P : objects -> Prop) (U : objects -> call -> Prop).
Abbreviation F := (own_write opns addon c).
Notation E := (verbatim ocm (fun w c' => is_write c' = true -> F w c' /\ (P w -> U w c'))).

Lemma reads_accepted w c' : is_write c' = false -> env_allow E w c'.
Proof. simpl. congruence. Qed.

(** *** The AddonInstance *)

Definition instance_settled : objects -> Prop :=
  stands KAddonInstance (instance_key c)
    (fun o => HeartbeatUpdatePeriod (ai_Spec o) = DefaultAddonInstanceHeartbeatUpdatePeriod).

Lemma addonInstance_settles s w :
  (forall w, P w -> instance_settled w) -> same_identity (st_addon s) addon ->
  wpM E addonInstance_Reconcile s w (fun w' r s' => same_identity (st_addon s') addon /\
    only_wrote KAddonInstance (instance_key c) w w' /\ (r = (resultNil, None) -> instance_settled w')).
Proof.
  intros HP Hs. unfold addonInstance_Reconcile, ensureAddonInstance.
  apply wpM_bind, wpM_bind, wpM_parse_here with addon c; [done|done|].
  apply wpM_bind, wpM_get_addon. rewrite set_controller_fresh by done. unfold reconcileAddonInstance.
  match goal with |- context [k8s_Get Cached KAddonInstance ?k] => change k with (instance_key c) end.
  apply wpM_bind. apply (wpM_server_get ocm); [apply reads_accepted|..].
  - intros cur Hcur Hk _. simpl. destruct (negb _) eqn:Hd.
    + apply wpM_bind. apply (wpM_server_update ocm).
      * intros _. split; [split; [exact Hk|split; [by intros []|done]]|]. intros (o & Ho & Hp)%HP. rewrite Hcur in Ho. injection Ho as <-.
        rewrite negb_true_iff in Hd. apply not_true_iff_false in Hd. exfalso. apply Hd, deep_equal_eq.
        rewrite <- Hp. by destruct (ai_Spec cur).
      * change (obj_key _ _) with (obj_key KAddonInstance cur). rewrite Hk.
        intros o' w' Hst Hw Ho. do 2 apply wpM_pure. split; [done|]. split; [done|]. intros _.
        exists o'. split; [done|]. destruct Hst as [(_ & _ & _ & Hsp) _]. simpl in Hsp. by rewrite Hsp.
      * intros e _. by do 2 apply wpM_pure.
    + do 2 apply wpM_pure. split; [done|]. split; [done|]. intros _. exists cur. split; [done|].
      bools. apply (proj1 (deep_equal_eq _ _)) in Hd. by rewrite Hd.
  - intros e _ Hnf. destruct (IsNotFound (Some e)); [|by do 2 apply wpM_pure].
    apply wpM_bind. apply (wpM_server_create ocm).
    + intros _. split; [split; [done|split; [by intros []|done]]|]. intros (o & Ho & _)%HP. by specialize (Hnf eq_refl o Ho).
    + intros o' w' _ Hst Hw Ho. do 2 apply wpM_pure. split; [done|]. split; [done|]. intros _.
      exists o'. split; [done|]. destruct Hst as [(_ & _ & _ & Hsp) _]. simpl in Hsp. by rewrite Hsp.
    + intros e' _ _. by do 2 apply wpM_pure.
Qed.

(** *** The MonitoringStack *)

Definition desired_stack_spec (stack : AddonMonitoringStackSpec) : MonitoringStackSpec :=
  mkMSSpec "30d" {[ MSOLabel := a_Name addon ]}
    [match RHOBSRemoteWriteConfig stack with
     | None => mkRemoteWrite "" None []
     | Some c => mkRemoteWrite (rhobs_URL c) (rhobs_OAuth2 c) (getWriteRelabelConfigFromAllowlist (rhobs_Allowlist c))
     end] "".
Definition stack_meta : ObjectMeta :=
  owned_meta addon (AddCommonLabels addon (new_meta (ic_Namespace c) (getMonitoringStackName (a_Name addon)))).

(** The specification of the stack, if one is wanted. *)
Definition wanted_stack : option AddonMonitoringStackSpec :=
  Monitoring (a_Spec addon) ≫= MonitoringStackOf.
Definition stack_settled (w : objects) : Prop :=
  match wanted_stack with
  | Some stack =>
      settled_as KMonitoringStack (stack_key addon c) stack_meta (fun o => ms_Spec o = desired_stack_spec stack) w
  | None => True
  end.

Lemma reconcileMonitoringStack_settles stack s w :
  (forall w, P w -> stack_settled w) -> wanted_stack = Some stack ->
  wpM E (reconcileMonitoringStack (mkMS stack_meta (desired_stack_spec stack) [])) s w (fun w' r s' =>
    s' = s /\ only_wrote KMonitoringStack (stack_key addon c) w w' /\
    match r with inl _ => stack_settled w' | inr e => api_error e end).
Proof.
  intros HP Hst. unfold reconcileMonitoringStack, stack_settled in *. rewrite Hst in *.
  set (spec := fun o => ms_Spec o = desired_stack_spec stack) in *.
  assert (forall a b, same_content KMonitoringStack a b -> spec b -> spec a) as Hspec by (unfold spec; simpl; congruence).
  assert (permits F KMonitoringStack (stack_key addon c) stack_meta) as Hperm by (apply own_permits; [done|by intros []|done]).
  change (meta_key (ms_Meta _)) with (stack_key addon c).
  apply wpM_bind. apply (wpM_server_get ocm); [apply reads_accepted|..].
  - intros cur Hcur Hk _. cbn [ms_Meta ms_Spec].
    pose proof (checks _ _ _ (HasSameController (ms_Meta cur) stack_meta) _
      (spec_checked (desired_stack_spec stack) (ms_Spec cur))
      (labels_equal_to (Labels (ms_Meta cur)) (labels_Merge (Labels (ms_Meta cur)) (Labels stack_meta)))) as Hchk.
    destruct (_ || _).
    + eapply (wpM_update_settled ocm F P U KMonitoringStack _ _ spec Hperm HP Hspec (owned_controller _ _) cur); [done..| |].
      * intros (H1 & H2). apply Hchk. split; [by symmetry|done].
      * split; [intros o' w' Hw _ Hset|intros e He]; done.
    + apply wpM_pure. split; [done|]. split; [done|]. destruct Hchk as (H1 & H2 & H3). by exists cur.
  - intros e He Hnf. destruct (IsNotFound (Some e)); [|by apply wpM_pure].
    eapply (wpM_create_settled ocm F P U KMonitoringStack _ _ spec Hperm HP Hspec (owned_controller _ _));
      [done..|by eapply absent_unless_secret|].
    split; [intros o' w' Hw _ Hset|intros e' He']; done.
Qed.

Lemma propagate_reports stack s w :
  wpM E (propagateMonitoringStackStatusToAddon stack) s w
    (fun w' _ s' => w' = w /\ same_identity (st_addon s') (st_addon s)).
Proof.
  unfold propagateMonitoringStackStatusToAddon.
  destruct (scan_conditions _ _ _) as [[a|] [b|]]; try destruct (_ =s? ConditionTrue);
    first [by apply wpM_pure|by apply wpM_bind, wpM_settled_report; intros now; apply wpM_pure].
Qed.

Lemma stack_settles s w :
  (forall w, P w -> stack_settled w) -> same_identity (st_addon s) addon ->
  wpM E stack_Reconcile s w (fun w' r s' => same_identity (st_addon s') addon /\
    only_wrote KMonitoringStack (stack_key addon c) w w' /\ (r = (resultNil, None) -> stack_settled w')).
Proof.
  intros HP Hs. unfold stack_Reconcile, ensureMonitoringStack.
  apply wpM_bind, wpM_bind, wpM_get_addon. unfold HasMonitoringStack. rewrite (proj2 Hs).
  destruct wanted_stack as [stack|] eqn:Hst.
  - assert (exists m, Monitoring (a_Spec addon) = Some m /\ MonitoringStackOf m = Some stack) as (m & Hm & Hms).
    { unfold wanted_stack in Hst. destruct (Monitoring _) as [m|]; [by exists m|done]. }
    rewrite Hm, Hms. simpl. unfold getDesiredMonitoringStack.
    apply wpM_bind, wpM_bind, wpM_parse_here with addon c; [done|done|].
    apply wpM_bind, wpM_get_addon. rewrite (proj2 Hs), Hm. apply wpM_bind, wpM_pure. rewrite Hms.
    apply wpM_bind, wpM_pure. rewrite set_controller_fresh by done. apply wpM_pure.
    match goal with |- wpM _ (reconcileMonitoringStack ?d) _ _ _ =>
      replace d with (mkMS stack_meta (desired_stack_spec stack) []) by
        (unfold stack_meta, owned_meta, AddCommonLabels, common_label_writes, desired_stack_spec, a_Name;
         by rewrite (proj1 Hs), (proj2 Hs)) end.
    eapply wpM_mono; [by apply reconcileMonitoringStack_settles|].
    intros w' [o|e] s' (-> & Hw & Hr).
    + apply wpM_bind. eapply wpM_mono; [apply propagate_reports|]. intros w1 av s1 [-> Hs1].
      apply wpM_pure. split; [by rewrite Hs1|done].
    + pose proof (Hr errMonitoringStackSpecNotFound : existsb _ _ = false) as ->. by apply wpM_pure.
  - assert ((match Monitoring (a_Spec addon) with
      | Some m => match MonitoringStackOf m with Some _ => true | None => false end | None => false end) = false) as ->.
    { unfold wanted_stack in Hst. destruct (Monitoring _) as [m|]; [|done]. simpl in Hst. by rewrite Hst. }
    apply wpM_pure. change (errors_Is _ _) with true. apply wpM_pure. unfold stack_settled. by rewrite Hst.
Qed.
End Single.


(** ** The package *)

Section Package.
Context {L : Lib} {LOk : LibOk L}.
Context (ocm : option ClientOptions) (ClusterID opns : string).
Context (addon : Addon) (c : AddonInstallOLMCommon) (Hc : parsed addon = Some c).
Context (P : objects -> Prop).
Abbreviation st := (addon_stake opns addon c).
Abbreviation U := (unchanged st).
Abbreviation F := (own_write opns addon c).
Notation E := (verbatim ocm (fun w c' => is_write c' = true -> F w c' /\ (P w -> U w c'))).

Definition package_good (p : AddonPackageOperatorSpec) (o : ClusterObjectTemplate) : Prop :=
  HasSameController (cot_Meta o) (owned_meta addon (new_meta "" (a_Name addon))) = true /\
  cot_Spec o = desired_template_spec ClusterID addon (apo_Image p) (cluster_info ocm) (destination addon).
Definition package_settled (w : objects) : Prop :=
  match AddonPackageOperator (a_Spec addon) with
  | Some p => stands KClusterObjectTemplate (template_key addon) (package_good p) w
  | None => gone KClusterObjectTemplate (template_key addon) w
  end.

Lemma template_torn_down s w :
  (forall w, P w -> package_settled w) -> AddonPackageOperator (a_Spec addon) = None ->
  same_identity (st_addon s) addon ->
  wpM E ensureClusterObjectTemplateTornDown s w (fun w' e s' => s' = s /\
    only_wrote KClusterObjectTemplate (template_key addon) w w' /\ (e = None -> package_settled w')).
Proof.
  intros HP Hp Hs. unfold package_settled in *. rewrite Hp in *.
  unfold ensureClusterObjectTemplateTornDown, getExistingClusterObjectTemplate.
  apply wpM_bind, wpM_get_addon. unfold a_Name. rewrite (proj1 Hs). change (mkKey _ _) with (template_key addon).
  apply wpM_bind. apply (wpM_server_get ocm); [apply (reads_accepted ocm)|..].
  - intros o Ho Hk _. change (meta_key (cot_Meta o)) with (obj_key KClusterObjectTemplate o). rewrite Hk.
    apply wpM_bind. apply (wpM_server_delete ocm).
    + intros _. assert (~ addon_wants opns addon c KClusterObjectTemplate (template_key addon)) as Hnw
        by (simpl; rewrite Hp; naive_solver).
      split; [split; [done|by left]|]. intros Hg%HP x Hx. split; [by apply Hg|done].
    + intros w' [Hw Hd]. apply wpM_pure. split; [done|]. split; [done|]. intros _ x Hx.
      rewrite Ho, Hx in Hd. apply Hd.
    + intros e _. by apply wpM_pure.
  - intros e _ Hnf. destruct (IsNotFound (Some e)); [|by apply wpM_pure].
    apply wpM_pure. split; [done|]. split; [done|]. intros _ x Hx. by specialize (Hnf eq_refl x Hx).
Qed.

Lemma wpM_cluster_info s w (Q : objects -> OcmClusterInfo -> St -> Prop) :
  Q w (cluster_info ocm) s -> wpM E GetOCMClusterInfo s w Q.
Proof.
  intros HQ. unfold wpM, GetOCMClusterInfo, with_rlock. simpl.
  split; [done|]. intros _ w1 ->. split; [done|]. intros r w2 [-> ->]. split; [done|]. by intros _ w3 ->.
Qed.

Lemma template_meta_key : Namespace (a_Meta addon) = "" ->
  meta_key (owned_meta addon (new_meta "" (a_Name addon))) = template_key addon.
Proof. intros Hns. unfold template_key. by rewrite Hns. Qed.

Lemma template_applied p spec s w :
  (forall w, P w -> package_settled w) -> AddonPackageOperator (a_Spec addon) = Some p ->
  Namespace (a_Meta addon) = "" ->
  spec = desired_template_spec ClusterID addon (apo_Image p) (cluster_info ocm) (destination addon) ->
  same_identity (st_addon s) addon ->
  wpM E (apply_template (st_addon s) (mkCOT (owned_meta addon (new_meta "" (a_Name addon))) spec [])) s w
    (fun w' r s' => same_identity (st_addon s') addon /\
       only_wrote KClusterObjectTemplate (template_key addon) w w' /\
       (r = (resultNil, None) -> package_settled w')).
Proof.
  intros HP Hp Hns -> Hs. unfold package_settled in *. rewrite Hp in *.
  unfold apply_template, getExistingClusterObjectTemplate, a_Name at 1. rewrite (proj1 Hs).
  change (mkKey _ _) with (template_key addon). cbn [cot_Meta cot_Spec].
  assert (forall o : ClusterObjectTemplate, same_content KClusterObjectTemplate o
      (mkCOT (cot_Meta o) (desired_template_spec ClusterID addon (apo_Image p) (cluster_info ocm) (destination addon)) []) ->
    OwnerReferences (cot_Meta o) = OwnerReferences (owned_meta addon (new_meta "" (a_Name addon))) ->
    package_good p o) as Hgood.
  { intros o Hsp Ho. split; [by apply same_controller, owned_controller|done]. }
  apply wpM_bind. apply (wpM_server_get ocm); [apply (reads_accepted ocm)|..].
  - intros cur Hcur Hk _. destruct (_ || _) eqn:Hd.
    + apply wpM_bind. apply (wpM_server_update ocm).
      * intros _. split; [split; [exact Hk|split; [by intros []|done]]|].
        intros (o & Ho & H1 & H2)%HP. exfalso. rewrite Hcur in Ho. injection Ho as <-. rewrite H1, H2 in Hd. simpl in Hd. rewrite orb_false_r, negb_true_iff in Hd.
        apply not_true_iff_false in Hd. by apply Hd, deep_equal_eq.
      * change (obj_key KClusterObjectTemplate _) with (obj_key KClusterObjectTemplate cur). rewrite Hk.
        intros o' w' [(_ & Hor & _ & Hsp) _] Hw Ho. apply wpM_pure. split; [done|]. split; [done|].
        intros _. exists o'. split; [done|]. by apply Hgood.
      * intros e _. by apply wpM_pure.
    + apply wpM_bind. eapply wpM_mono; [apply wpM_verbatim_reads; [apply (reads_accepted ocm)|by apply updateAddonStatus_spec]|].
      intros w' [] s' (-> & Hs' & _). apply wpM_pure. split; [by rewrite Hs'|]. split; [done|]. intros _.
      exists cur. split; [done|]. apply orb_false_iff in Hd as [Hd1 Hd2]. split; [by apply negb_false_iff|].
      rewrite negb_false_iff in Hd1. by apply deep_equal_eq.
  - intros e He Hnf. destruct (IsNotFound (Some e)); [|by apply wpM_pure].
    apply wpM_bind. apply (wpM_server_create ocm).
    + intros _. split; [split; [by apply template_meta_key|split; [by intros []|done]]|].
      intros (o & Ho & _)%HP. by specialize (Hnf eq_refl o Ho).
    + assert (obj_key KClusterObjectTemplate (mkCOT (owned_meta addon (new_meta "" (a_Name addon)))
        (desired_template_spec ClusterID addon (apo_Image p) (cluster_info ocm) (destination addon)) []) =
        template_key addon) as Hk by by apply template_meta_key.
      rewrite Hk. intros o' w' _ [(_ & Hor & _ & Hsp) _] Hw Ho. apply wpM_pure. split; [done|]. split; [done|].
      intros _. exists o'. split; [done|]. by apply Hgood.
    + intros e' _ _. by apply wpM_pure.
Qed.

Lemma package_settles s w :
  (forall w, P w -> package_settled w) -> Namespace (a_Meta addon) = "" -> same_identity (st_addon s) addon ->
  wpM E (pko_Reconcile ClusterID) s w (fun w' r s' => same_identity (st_addon s') addon /\
    only_wrote KClusterObjectTemplate (template_key addon) w w' /\
    (r = (resultNil, None) -> package_settled w')).
Proof.
  intros HP Hns Hs. unfold pko_Reconcile. apply wpM_bind, wpM_get_addon. rewrite (proj2 Hs).
  destruct (AddonPackageOperator (a_Spec addon)) as [p|] eqn:Hp.
  2: { apply wpM_bind. eapply wpM_mono; [by apply template_torn_down|].
    intros w' [e|] s' (-> & Hw & He); apply wpM_pure; [done|]. split; [done|]. split; [done|]. intros _. by apply He. }
  unfold reconcileClusterObjectTemplate. apply wpM_bind, wpM_get_addon, wpM_bind.
  eapply wpM_mono; [by apply extractDestinationNamespace_spec|]. intros w1 ns s1 (-> & -> & ->).
  assert (destination (st_addon s) = destination addon) as -> by (unfold destination; by rewrite (proj2 Hs)).
  destruct (str_empty _); [by apply wpM_pure|]. apply wpM_bind, wpM_cluster_info.
  rewrite set_controller_fresh by done. unfold a_Name. rewrite (proj1 Hs).
  apply template_applied with p; try done. unfold desired_template_spec, a_Name. by rewrite (proj1 Hs).
Qed.

End Package.

(** ** Later *)

Section Later.
Context {L : Lib} {LOk : LibOk L}.
Context (ocm : option ClientOptions) (ClusterID opns : string) (addon : Addon) (c : AddonInstallOLMCommon).
Context (w w' : objects) (Hq : still (addon_stake opns addon c) w w').

Lemma instance_still : instance_settled c w -> instance_settled c w'.
Proof. apply (stands_still _ _ _ Hq); [|done]. intros a b [(_ & _ & _ & Hs) _]. simpl in Hs. by rewrite Hs. Qed.

Lemma stack_still : stack_settled addon c w -> stack_settled addon c w'.
Proof.
  unfold stack_settled. destruct (wanted_stack addon); [|done].
  apply (settled_as_still _ _ _ Hq); [simpl; congruence|done].
Qed.

Lemma package_still : package_settled ocm ClusterID addon w -> package_settled ocm ClusterID addon w'.
Proof.
  unfold package_settled. destruct (AddonPackageOperator _) as [p|] eqn:Hp.
  - apply (stands_still _ _ _ Hq); [|simpl; by rewrite Hp].
    intros a b [(_ & Hor & _ & Hs) _] [H1 H2]. simpl in *. split; [|by rewrite Hs].
    by rewrite (controllers_of_owners _ (cot_Meta b)).
  - by apply (gone_still _ _ _ Hq).
Qed.
End Later.
