(* ===== verification/SettledNamespaces.v ===== *)
(** * What the namespace reconciler settles

    The Addon's namespaces carry its labels, annotations and owner, and no
    other namespace with its labels is left that is not being deleted.  The
    loop writes labels into the Addon in memory, so that a run ends with an
    Addon that is only [alike]. *)
From S2P Require Export SettledSingles.

Section Namespaces.
Context {L : Lib} {LOk : LibOk L}.
Context (ocm : option ClientOptions) (opns : string).
Context (addon : Addon) (c : AddonInstallOLMCommon) (Hc : parsed addon = Some c).
Context (P : objects -> Prop).
Abbreviation st := (addon_stake opns addon c).
Abbreviation U := (unchanged st).
Abbreviation F := (own_write opns addon c).
Notation E := (verbatim ocm (fun w c' => is_write c' = true -> F w c' /\ (P w -> U w c'))).

(** *** The namespaces *)

Definition namespace_meta (a : Addon) (ns : AddonNamespace) : ObjectMeta :=
  owned_meta a (AddCommonAnnotations a (AddCommonLabels a (WithNamespaceAnnotations (an_Annotations ns)
    (WithNamespaceLabels (an_Labels ns) (new_meta "" (an_Name ns)))))).
Definition namespace_good (ns : AddonNamespace) (o : NamespaceObj) : Prop :=
  OwnerReferences (ns_Meta o) = OwnerReferences (namespace_meta addon ns) /\
  Labels (namespace_meta addon ns) ⊆ Labels (ns_Meta o) /\
  Annotations (namespace_meta addon ns) ⊆ Annotations (ns_Meta o).
Definition namespace_settled (ns : AddonNamespace) : objects -> Prop :=
  stands KNamespace (mkKey "" (an_Name ns)) (namespace_good ns).
Definition kept_namespace (key : ObjectKey) : Prop := key_Name key ∈ wanted_names addon.
Definition namespaces_settled (w : objects) : Prop :=
  Forall (fun ns => namespace_settled ns w) (Namespaces (a_Spec addon)) /\
  cleaned KNamespace (listable Cached None (CommonLabelsAsLabelSelector addon) KNamespace) kept_namespace w.

Lemma namespace_meta_alike a b ns : alike a b -> namespace_meta a ns = namespace_meta b ns.
Proof. by apply (alike_eq (fun a => namespace_meta a ns)). Qed.

Lemma desired_namespace_meta a ns : desired_namespace a ns = inl (mkNs (namespace_meta a ns) "").
Proof.
  unfold desired_namespace, namespace_meta.
  destruct (AddCommonAnnotations_meta a (AddCommonLabels a (WithNamespaceAnnotations (an_Annotations ns)
    (WithNamespaceLabels (an_Labels ns) (new_meta "" (an_Name ns)))))) as [x ->].
  by rewrite set_controller_fresh.
Qed.
Lemma namespace_meta_name a ns : Name (namespace_meta a ns) = an_Name ns.
Proof. apply (desired_namespace_name a ns _ (desired_namespace_meta a ns)). Qed.
Lemma namespace_meta_key a ns : meta_key (namespace_meta a ns) = mkKey "" (an_Name ns).
Proof.
  unfold namespace_meta. destruct (AddCommonAnnotations_meta a (AddCommonLabels a (WithNamespaceAnnotations
    (an_Annotations ns) (WithNamespaceLabels (an_Labels ns) (new_meta "" (an_Name ns)))))) as [x ->]. done.
Qed.

Lemma namespace_labelled ns : own_labels addon ->
  Labels (namespace_meta addon ns) !! CommonInstanceLabel = Some (a_Name addon).
Proof.
  intros Ho. unfold namespace_meta.
  match goal with |- context [AddCommonAnnotations addon ?m] => destruct (AddCommonAnnotations_meta addon m) as [x ->] end.
  exact (common_labelled addon _ Ho).
Qed.

Lemma reconcileNamespace_settles ns s w :
  (forall w, P w -> namespace_settled ns w) -> ns ∈ Namespaces (a_Spec addon) ->
  wpM E (reconcileNamespace (mkNs (namespace_meta addon ns) "")) s w (fun w' r s' => s' = s /\
    only_wrote KNamespace (mkKey "" (an_Name ns)) w w' /\ forall n, r = inl n -> namespace_settled ns w').
Proof.
  intros HP Hns. unfold reconcileNamespace. cbn [ns_Meta]. rewrite namespace_meta_name.
  assert (addon_writes addon c KNamespace (mkKey "" (an_Name ns))) as Hkey
    by (left; apply list_elem_of_fmap; by exists ns).
  apply wpM_bind. apply (wpM_server_get ocm); [apply (reads_accepted ocm)|..].
  - intros cur Hcur Hk _. apply (wpM_server_update ocm).
    + intros _. split.
      { split; [by rewrite <- Hk in Hkey|]. split; [|done]. intros _ Hown. left. split; [|by intros []].
        change (labels_Merge (Labels (ns_Meta cur)) (Labels (namespace_meta addon ns)) !! CommonInstanceLabel =
          Some (a_Name addon)). rewrite merge_union, lookup_union, namespace_labelled by done. by destruct (Labels (ns_Meta cur) !! _). }
      intros (o & Ho & H1 & H2 & H3)%HP. rewrite Hcur in Ho. injection Ho as <-. exists cur.
      change (obj_key KNamespace _) with (obj_key KNamespace cur). rewrite Hk. split; [done|]. simpl.
      rewrite !merge_union, !map_subseteq_union by done. done.
    + change (obj_key KNamespace _) with (obj_key KNamespace cur). rewrite Hk.
      intros o' w' [(_ & Hor & Hl & _) [Ha _]] Hw Ho. split; [done|]. split; [done|]. intros _ _.
      exists o'. split; [done|]. simpl in *. rewrite merge_union in Hl, Ha. split; [done|].
      split; [rewrite Hl; apply map_union_subseteq_l|]. etrans; [apply map_union_subseteq_l|exact Ha].
    + intros e _. done.
  - intros e He Hnf. destruct (IsNotFound (Some e)); [|by apply wpM_pure].
    apply (wpM_server_create ocm).
    + intros _. split; [|intros (o & Ho & _)%HP; by specialize (Hnf eq_refl o Ho)].
      split; [by rewrite <- (namespace_meta_key addon) in Hkey|]. split; [|done]. intros _ Hown. left. split; [by apply namespace_labelled|by intros []].
    + unfold obj_key. cbn [obj_meta ns_Meta]. rewrite namespace_meta_key.
      intros o' w' _ [(_ & Hor & Hl & _) [Ha _]] Hw Ho. split; [done|]. split; [done|]. intros _ _.
      exists o'. split; [done|]. simpl in *. split; [done|]. by rewrite Hl.
    + intros e' _ _. done.
Qed.

Definition namespaces_of (l : list AddonNamespace) : region :=
  fun k key => k = KNamespace /\ key ∈ map (fun ns => mkKey "" (an_Name ns)) l.

Lemma ensure_namespaces_settle l : forall i unready s w,
  (forall ns, ns ∈ l -> ns ∈ Namespaces (a_Spec addon) /\ forall w, P w -> namespace_settled ns w) -> NoDup (map an_Name l) ->
  alike (st_addon s) addon ->
  wpM E (ensure_namespaces i l unready) s w (fun w' r s' => alike (st_addon s') addon /\
    changed_in (namespaces_of l) w w' /\
    forall u, r = inl u -> Forall (fun ns => namespace_settled ns w') l).
Proof.
  induction l as [|ns l IH]; intros i unready s w HP Hd Hs; cbn [ensure_namespaces].
  { apply wpM_pure. split; [done|]. split; [done|]. constructor. }
  inversion Hd as [|? ? Hnot Hd']; subst. apply wpM_bind. unfold ensureNamespace.
  apply wpM_bind, wpM_get_addon, wpM_bind, wpM_modify_addon. rewrite desired_namespace_meta, (namespace_meta_alike _ addon) by done.
  eapply wpM_mono; [by apply reconcileNamespace_settles; apply HP; left|].
  intros w1 r s1 (-> & Hw & Hr).
  assert (alike (alias_labels i (st_addon s)) addon) as Hs1 by by rewrite alias_alike.
  assert (changed_in (namespaces_of (ns :: l)) w w1) as Hw1.
  { eapply only_wrote_changed; [|exact Hw]. split; [done|left]. }
  destruct r as [n|e]; [|by apply wpM_pure].
  eapply wpM_mono; [apply IH; [|done|done]|]; [intros x Hx; apply HP; by right|].
  intros w2 r s2 (Hs2 & Hw2 & Hr2). split; [done|]. split.
  - etrans; [exact Hw1|]. eapply changed_in_mono; [|exact Hw2]. intros k key [-> Hk]. split; [done|by right].
  - intros u Hu. constructor; [|by eapply Hr2]. eapply stands_elsewhere; [exact Hw2| |by eapply Hr].
    intros [_ (x & [= Hx] & Hin)%list_elem_of_fmap]. apply Hnot. rewrite Hx. apply list_elem_of_fmap. by exists x.
Qed.

Abbreviation listed_namespaces := (lists Cached (CommonLabelsAsLabelSelector addon) KNamespace).
Abbreviation unkept := (fun key => ~ kept_namespace key).

Lemma kept_namespaces_wanted key : addon_wants opns addon c KNamespace key -> kept_namespace key.
Proof.
  unfold kept_namespace, wanted_names. intros [Hk|[_ ->]]; [|simpl; set_solver].
  apply list_elem_of_fmap in Hk as (ns & -> & Hns). simpl. apply elem_of_union. right.
  apply elem_of_list_to_set, list_elem_of_fmap. by exists ns.
Qed.

Lemma listed_namespace_key w items n :
  listed_namespaces w items -> n ∈ items -> mkKey "" (Name (ns_Meta n)) = obj_key KNamespace n.
Proof. intros Hl [_ (_ & _ & _ & Hn)]%Hl. unfold obj_key, meta_key. by rewrite Hn. Qed.

Lemma delete_unwanted_settles items w0 l s w :
  (forall w, P w -> namespaces_settled w) -> listed_namespaces w0 items ->
  (forall n, n ∈ l -> n ∈ items) -> pruned KNamespace unkept w0 w ->
  wpM E (delete_unwanted (wanted_names addon) l) s w (fun w' e s' => s' = s /\
    pruned KNamespace unkept w w' /\
    (e = None -> forall n : NamespaceObj, n ∈ l -> ~ kept_namespace (obj_key KNamespace n) ->
       gone KNamespace (obj_key KNamespace n) w')).
Proof.
  intros HP Hl. revert w. induction l as [|n l IH]; intros w Hin Hp; cbn [delete_unwanted].
  { apply wpM_pure. split; [done|]. split; [done|]. intros _ n ?%elem_of_nil. done. }
  assert (forall n, n ∈ l -> n ∈ items) as Hin' by (intros; apply Hin; by right).
  case_bool_decide as Hk.
  { eapply wpM_mono; [by apply IH|]. intros w' e s' (-> & Hw & He). split; [done|]. split; [done|].
    intros Hn x [->|Hx]%elem_of_cons Hkx; [by destruct Hkx|by apply He]. }
  assert (n ∈ items) as Hn by (apply Hin; left). pose proof (listed_namespace_key _ _ _ Hl Hn) as Hkey.
  apply wpM_bind. unfold ensureNamespaceDeletion. apply wpM_bind. rewrite Hkey.
  assert (~ kept_namespace (obj_key KNamespace n)) as Hunk by (rewrite <- Hkey; exact Hk).
  assert (forall w1, pruned KNamespace unkept w w1 -> gone KNamespace (obj_key KNamespace n) w1 ->
    wpM E (delete_unwanted (wanted_names addon) l) s w1 (fun w' e s' => s' = s /\
      pruned KNamespace unkept w w' /\
      (e = None -> forall x : NamespaceObj, x ∈ n :: l -> ~ kept_namespace (obj_key KNamespace x) ->
         gone KNamespace (obj_key KNamespace x) w'))) as Hrest.
  { intros w1 Hp1 Hg. eapply wpM_mono; [apply IH; [done|by etrans]|].
    intros w' e s' (-> & Hw & He). split; [done|]. split; [by etrans|].
    intros Hn' x [->|Hx]%elem_of_cons Hkx; [by eapply gone_shrunk; [apply Hw|]|by apply He]. }
  apply (wpM_server_delete ocm).
  - intros _. assert (~ addon_wants opns addon c KNamespace (obj_key KNamespace n)) as Hnw
      by (intros Hw; by apply Hunk, kept_namespaces_wanted).
    split; [by apply (listed_own opns addon c w0 w KNamespace items n); [|done|exact Hl|apply Hp|]|].
    intros Hset%HP x Hx. split.
    + exact (listed_deleting Cached _ KNamespace kept_namespace w0 w items n Hl (proj2 Hp) Hn Hunk (proj2 Hset) x Hx).
    + done.
  - intros w1 Hd. apply (deleted_pruned KNamespace unkept) in Hd as [Hp1 Hg]; [|done].
    assert (negb (IsNotFound None) = true) as -> by by rewrite not_found_none.
    apply wpM_pure. by apply Hrest.
  - intros e Hnf. destruct (IsNotFound (Some e)) eqn:He; simpl.
    + apply wpM_pure, Hrest; [done|]. intros x. by rewrite Hnf.
    + by apply wpM_pure, wpM_pure.
Qed.

(** What the namespace reconciler touches. *)
Definition namespace_region : region :=
  fun k key => k = KNamespace /\ (key ∈ namespace_keys addon \/ ~ kept_namespace key).

Lemma namespaces_settle s w :
  (forall w, P w -> namespaces_settled w) -> NoDup (map an_Name (Namespaces (a_Spec addon))) ->
  same_identity (st_addon s) addon ->
  wpM E namespace_Reconcile s w (fun w' r s' => alike (st_addon s') addon /\
    changed_in namespace_region w w' /\ (r = (resultNil, None) -> namespaces_settled w')).
Proof.
  intros HP Hd Hs. unfold namespace_Reconcile, ensureWantedNamespaces.
  apply wpM_bind, wpM_bind, wpM_get_addon, wpM_bind. rewrite (proj2 Hs).
  eapply wpM_mono; [apply ensure_namespaces_settle; [|done|by apply same_identity_alike]|].
  { intros ns Hns. split; [done|]. intros w' [Hset _]%HP. apply (proj1 (Forall_forall _ _) Hset _ Hns). }
  intros w1 r s1 (Hs1 & Hw1 & Hr).
  assert (changed_in namespace_region w w1) as Hw1'.
  { eapply changed_in_mono; [|exact Hw1]. intros k key [-> Hk]. split; [done|by left]. }
  destruct r as [[|n u]|e]; [|apply wpM_bind, wpM_settled_report; intros now; by do 2 apply wpM_pure|by do 2 apply wpM_pure].
  apply wpM_pure. cbn [IsZero]. change (negb (IsZero resultNil)) with false. specialize (Hr [] eq_refl).
  apply wpM_bind. unfold ensureDeletionOfUnwantedNamespaces, getOwnedNamespacesViaCommonLabels.
  apply wpM_bind, wpM_bind, wpM_get_addon, wpM_bind. rewrite (selector_alike _ addon) by done.
  apply (wpM_server_list ocm); [apply (reads_accepted ocm)| |by intros e _; do 3 apply wpM_pure].
  intros items Hl. apply wpM_pure, wpM_bind, wpM_get_addon. rewrite (wanted_names_alike _ addon) by done.
  eapply wpM_mono; [by apply (delete_unwanted_settles items w1)|].
  intros w2 e s2 (-> & Hp & He).
  assert (changed_in namespace_region w w2) as Hw2.
  { etrans; [exact Hw1'|]. eapply changed_in_mono; [|apply Hp]. intros k key [-> Hk]. split; [done|by right]. }
  destruct e as [e|]; apply wpM_pure; [done|]. split; [done|]. split; [done|]. intros _. split.
  - apply Forall_forall. intros ns Hns. eapply stands_elsewhere; [apply Hp| |by apply (proj1 (Forall_forall _ _) Hr _ Hns)].
    intros [_ Hk]. apply Hk, kept_namespaces_wanted. left. apply list_elem_of_fmap. by exists ns.
  - eapply cleaned_after; [exact Hl|apply Hp|]. by apply He.
Qed.

(** *** Later *)

Lemma namespaces_still w w' : still st w w' -> namespaces_settled w -> namespaces_settled w'.
Proof.
  intros Hq [H1 H2]. split.
  - apply Forall_forall. intros ns Hns. apply (proj1 (Forall_forall _ _) H1) in Hns as Hs.
    eapply (stands_still _ _ _ Hq); [| |exact Hs].
    + intros a b [(_ & Hor & Hl & _) [Ha _]] (G1 & G2 & G3). simpl in *. split; [by rewrite Hor|].
      split; [by rewrite Hl|by etrans].
    + left. apply list_elem_of_fmap. by exists ns.
  - eapply (cleaned_still _ _ _ Hq); [| |exact H2].
    + intros o (_ & Hl & _). by left.
    + intros a b [Hs _]. by apply listable_same.
Qed.
End Namespaces.
