(* ===== verification/SettledSecrets.v ===== *)
(** * What the secret propagation settles

    Every source is held by the cache, every copy has its data, and no other
    secret with the labels of the Addon is left that is not being deleted.  A
    destination that the cache does not hold is left alone: its creation
    answers that it exists, which the code ignores.  Secrets that are read must
    not look like copies ([apart]). *)
From S2P Require Export SettledNamespaces.

Section Copies.
Context {L : Lib} {LOk : LibOk L}.
Context (ocm : option ClientOptions) (opns : string).
Context (addon : Addon) (c : AddonInstallOLMCommon) (Hc : parsed addon = Some c).
Context (P : objects -> Prop).
Abbreviation st := (addon_stake opns addon c).
Abbreviation U := (unchanged st).
Abbreviation F := (own_write opns addon c).
Notation E := (verbatim ocm (fun w c' => is_write c' = true -> F w c' /\ (P w -> U w c'))).

(** *** The secrets *)

(** A destination that the cache does not hold is left alone. *)
Definition secret_good (want : ObjectMeta) (data : labels) (o : Secret) : Prop :=
  cache_holds KSecret o = true ->
  OwnerReferences (sec_Meta o) = OwnerReferences want /\ Labels want ⊆ Labels (sec_Meta o) /\
  sec_Data o = data.
Definition secret_settled (want : ObjectMeta) (data : labels) : objects -> Prop :=
  stands KSecret (meta_key want) (secret_good want data).
Definition copy_meta (ref : AddonSecretPropagationReference) (ns : AddonNamespace) : ObjectMeta :=
  wanted_meta addon (an_Name ns) (DestinationSecret ref).
Definition sourced (ref : AddonSecretPropagationReference) (data : labels) : objects -> Prop :=
  stands KSecret (mkKey opns (SourceSecret ref)) (fun o => cache_holds KSecret o = true /\ sec_Data o = data).
Definition kept_secret (key : ObjectKey) : Prop := key ∈ placement_keys addon.
Definition copies_settled (w : objects) : Prop :=
  Forall (fun ref => exists data, sourced ref data w /\
    Forall (fun ns => secret_settled (copy_meta ref ns) data w) (Namespaces (a_Spec addon))) (propagated addon).
Definition secrets_settled (w : objects) : Prop :=
  copies_settled w /\
  cleaned KSecret (listable Cached None (CommonLabelsAsLabelSelector addon) KSecret) kept_secret w.

(** The secrets that are read and not propagated to: they are not taken for
    copies as long as they do not carry the label of the Addon. *)
Definition read_keys : list ObjectKey := prom_token_key opns :: bearer_token_key addon :: source_keys opns addon.
Definition unlabelled (o : Secret) : Prop := Labels (sec_Meta o) !! CommonInstanceLabel <> Some (a_Name addon).
Definition apart (w : objects) : Prop :=
  forall key o, key ∈ read_keys -> w KSecret key = Some o -> unlabelled o.

Lemma sourced_fun ref d d' w : sourced ref d w -> sourced ref d' w -> d = d'.
Proof. intros (o & Ho & _ & <-) (o' & Ho' & _ & <-). congruence. Qed.

Lemma unlabelled_unlisted cl ns o : unlabelled o -> ~ listable cl ns (CommonLabelsAsLabelSelector addon) KSecret o.
Proof.
  intros Hu (_ & Hl & _). apply Hu. eapply lookup_weaken; [|exact Hl].
  unfold CommonLabelsAsLabelSelector, common_label_writes. by rewrite lookup_insert_eq.
Qed.

(** Sources may have been marked for the cache. *)
Definition marked (o o' : Secret) : Prop :=
  sec_Data o' = sec_Data o /\ (cache_holds KSecret o = true -> cache_holds KSecret o' = true) /\
  instance_label KSecret o' = instance_label KSecret o.
Definition patched (w w' : objects) : Prop :=
  changed_in (fun k key => k = KSecret /\ key ∈ source_keys opns addon) w w' /\
  forall key, match w KSecret key, w' KSecret key with
              | Some o, Some o' => marked o o' | None, None => True | _, _ => False end.

#[export] Instance patched_preorder : PreOrder patched.
Proof.
  split; [intros w; split; [done|]; intros key; by destruct (w KSecret key)|].
  intros w1 w2 w3 [H1 H2] [H3 H4]. split; [by etrans|]. intros key. specialize (H2 key). specialize (H4 key).
  destruct (w1 KSecret key), (w2 KSecret key), (w3 KSecret key); try done.
  destruct H2 as (Ha & Hb & Hc2), H4 as (Ha' & Hb' & Hc3). split; [congruence|]. split; [auto|congruence].
Qed.

Lemma sourced_patched ref data w w' : patched w w' -> sourced ref data w -> sourced ref data w'.
Proof.
  intros [_ Hp] (o & Ho & Hc' & Hd). specialize (Hp (mkKey opns (SourceSecret ref))). rewrite Ho in Hp.
  destruct (w' KSecret _) as [o'|] eqn:Ho'; [|done]. destruct Hp as (Ha & Hb & _). exists o'.
  split; [done|]. split; [auto|congruence].
Qed.

Lemma apart_patched w w' : patched w w' -> apart w -> apart w'.
Proof.
  intros [_ Hp] Ha key o' Hk Ho'. specialize (Hp key). rewrite Ho' in Hp.
  destruct (w KSecret key) as [o|] eqn:Ho; [|done].
  destruct Hp as (_ & _ & Hl). intros Hl'. apply (Ha key o Hk Ho). rewrite <- Hl'. by symmetry.
Qed.

Lemma cache_labelled_marked a o o' : cache_labelled a o = inl o' ->
  marked o o' /\ cache_holds KSecret o' = true /\ obj_key KSecret o' = obj_key KSecret o.
Proof.
  unfold cache_labelled. destruct (SetOwnerReference _ _) as [m|] eqn:Hm; [|done]. intros [= <-].
  apply set_owner in Hm as [l ->]. unfold marked, instance_label. simpl.
  rewrite lookup_insert_eq, (lookup_insert_ne _ CommonCacheLabel CommonInstanceLabel) by done.
  by rewrite (bool_decide_true (Some CommonCacheValue = Some CommonCacheValue)) by done.
Qed.

Lemma getReferencedSecret_settles ref s w :
  ref ∈ propagated addon -> (forall w, P w -> exists data, sourced ref data w) ->
  same_identity (st_addon s) addon ->
  wpM E (getReferencedSecret (mkKey opns (SourceSecret ref))) s w (fun w' '(o, res, err) s' =>
    same_identity (st_addon s') addon /\ patched w w' /\
    (err = None -> IsZero res = true -> exists src, o = Some src /\ sourced ref (sec_Data src) w')).
Proof.
  intros Hin HP Hs. unfold getReferencedSecret. apply wpM_bind.
  apply (wpM_server_get ocm); [apply (reads_accepted ocm)|..].
  { intros o Ho Hk Hv. apply wpM_pure. split; [done|]. split; [done|]. intros _ _. exists o. split; [done|]. by exists o. }
  intros e _ Hnf. destruct (IsNotFound (Some e)); [|by apply wpM_pure]. specialize (Hnf eq_refl).
  assert (~ P w) as HnP.
  { intros (d & o & Ho & Hc' & _)%HP. specialize (Hnf _ Ho). simpl in *. congruence. }
  unfold getReferencedSecret_uncached. apply wpM_bind, wpM_get_addon, wpM_bind.
  apply (wpM_server_get ocm); [apply (reads_accepted ocm)|..].
  2: { intros e' _ _. destruct (IsNotFound (Some e')); [|by apply wpM_pure].
       apply wpM_bind, wpM_settled_report. intros now. by apply wpM_pure. }
  intros o Ho Hk _. destruct (cache_labelled _ _) as [o'|] eqn:Hl; [|by apply wpM_pure].
  apply cache_labelled_marked in Hl as (Hm & Hc' & Hk'). apply wpM_bind, wpM_call.
  { intros _. split; [|done]. split; [done|]. rewrite Hk', Hk. split; [apply list_elem_of_fmap; by exists ref|].
    split; [done|]. split; [by apply Hnf|]. split; [exact Hc'|]. split; [apply Hm|]. apply Hm. }
  intros r w' [Hw Hr]. rewrite Hk', Hk in Hw, Hr. specialize (Hr Ho).
  destruct r as [o2|e2]; simpl; [|by destruct Hr as [_ ->]; apply wpM_pure].
  destruct Hr as [[(_ & _ & Hl2 & Hd2) _] [Hw2 _]]. rewrite Hk', Hk in Hw2. apply wpM_pure.
  assert (marked o o2 /\ cache_holds KSecret o2 = true) as [Hm2 Hc2].
  { unfold marked, instance_label in *. simpl in *. rewrite Hl2, Hd2. done. }
  split; [done|]. split.
  - split; [eapply only_wrote_changed; [|exact Hw]; split; [done|]; apply list_elem_of_fmap; by exists ref|].
    intros key. destruct (decide (key = mkKey opns (SourceSecret ref))) as [->|Hne].
    + by rewrite Ho, Hw2.
    + rewrite Hw by naive_solver. by destruct (w KSecret key).
  - intros _ _. exists o. split; [done|]. exists o2. split; [done|]. split; [done|]. apply Hm2.
Qed.

(** A destination secret that was built from a source that is there. *)
Definition built (w : objects) (ref : AddonSecretPropagationReference) (d : Secret) : Prop :=
  sec_Meta d = wanted_meta addon "" (DestinationSecret ref) /\ sourced ref (sec_Data d) w.

Lemma destination_secrets_settle refs : forall acc s w,
  (forall ref, ref ∈ refs -> ref ∈ propagated addon) ->
  (forall ref, ref ∈ propagated addon -> forall w, P w -> exists data, sourced ref data w) ->
  same_identity (st_addon s) addon ->
  wpM E (destination_secrets opns refs acc) s w (fun w' '(ds, res, err) s' =>
    same_identity (st_addon s') addon /\ patched w w' /\
    (err = None -> IsZero res = true -> exists new, ds = acc ++ new /\ Forall2 (built w') refs new)).
Proof.
  induction refs as [|ref refs IH]; intros acc s w Hin HP Hs; cbn [destination_secrets].
  { apply wpM_pure. split; [done|]. split; [done|]. intros _ _. exists []. by rewrite app_nil_r. }
  assert (ref ∈ propagated addon) as Href by (apply Hin; left).
  apply wpM_bind. eapply wpM_mono; [by apply getReferencedSecret_settles; [|apply HP|]|].
  intros w1 [[o res] [e|]] s1 (Hs1 & Hp1 & Ho); [by apply wpM_pure|].
  destruct (IsZero res) eqn:Hz; simpl; [|by apply wpM_pure; rewrite Hz].
  destruct (Ho eq_refl eq_refl) as (src & -> & Hsrc).
  apply wpM_bind, wpM_get_addon, wpM_bind, wpM_pure. unfold destination_secret.
  rewrite wanted_controller, (wanted_meta_identity _ addon) by done.
  eapply wpM_mono; [apply IH; [|done|done]; intros x Hx; apply Hin; by right|].
  intros w2 [[ds res2] err] s2 (Hs2 & Hp2 & Hr). split; [done|]. split; [by etrans|]. intros He Hz2.
  destruct (Hr He Hz2) as (new & -> & Hnew). eexists (_ :: new). rewrite <- app_assoc. split; [done|].
  constructor; [|done]. split; [done|]. by eapply sourced_patched.
Qed.

Lemma reconcileSecret_settles d s w :
  (P w -> secret_settled (sec_Meta d) (sec_Data d) w) -> kept_secret (meta_key (sec_Meta d)) ->
  (own_labels addon -> instance_label KSecret d = Some (a_Name addon)) ->
  meta_key (sec_Meta d) <> bearer_token_key addon ->
  wpM E (reconcileSecret d) s w (fun w' e s' => s' = s /\
    only_wrote KSecret (meta_key (sec_Meta d)) w w' /\
    (e = None -> secret_settled (sec_Meta d) (sec_Data d) w')).
Proof.
  intros HP Hplaced Hlab Htok. unfold reconcileSecret. apply wpM_bind.
  apply (wpM_server_get ocm); [apply (reads_accepted ocm)|..].
  - intros cur Hcur Hk Hv. apply wpM_bind. apply (wpM_server_update ocm).
    + intros _. split.
      { assert (~ is_token addon KSecret (obj_key KSecret cur)) as Hno by (intros [_ Hk']; apply Htok; by rewrite <- Hk).
        split; [left; by rewrite <- Hk in Hplaced|]. split; [|by apply copies_token_other]. intros _ Hown. left.
        split; [|exact Hno].
        change ((Labels (sec_Meta d) ∪ Labels (sec_Meta cur)) !! CommonInstanceLabel = Some (a_Name addon)).
        specialize (Hlab Hown). unfold instance_label in Hlab. simpl in Hlab. rewrite lookup_union, Hlab.
        by destruct (Labels (sec_Meta cur) !! _). }
      intros (o & Ho & Hg)%HP. rewrite Hcur in Ho. injection Ho as <-. destruct (Hg Hv) as (H1 & H2 & H3).
      exists cur. change (obj_key KSecret _) with (obj_key KSecret cur). rewrite Hk. split; [done|]. simpl.
      rewrite map_subseteq_union by done. done.
    + change (obj_key KSecret _) with (obj_key KSecret cur). rewrite Hk.
      intros o' w' [(_ & Hor & Hl & Hd) _] Hw Ho. apply wpM_pure. split; [done|]. split; [done|]. intros _.
      exists o'. split; [done|]. intros _. simpl in *. split; [done|]. split; [|done].
      rewrite Hl. apply map_union_subseteq_l.
    + intros e _. by apply wpM_pure.
  - intros e _ Hnf. destruct (IsNotFound (Some e)); [|by apply wpM_pure]. specialize (Hnf eq_refl).
    apply wpM_bind. apply (wpM_server_create ocm).
    + intros _. split; [split_and!; [by left|intros _ Hown; left; split; [by apply Hlab|by intros [_ ?]]|by intros ?]|].
      intros (o & Ho & _)%HP. simpl. unfold obj_key. simpl. by rewrite Ho.
    + intros o' w' _ [(_ & Hor & Hl & Hd) _] Hw Ho. apply wpM_pure. split; [done|]. split; [done|]. intros _.
      exists o'. split; [done|]. intros _. simpl in *. by rewrite Hl.
    + intros e' _ Hex. simpl. destruct (IsAlreadyExists (Some e')); simpl; [|by apply wpM_pure].
      apply wpM_pure. split; [done|]. split; [done|]. intros _. specialize (Hex eq_refl).
      unfold obj_key in Hex. simpl in Hex. destruct (w KSecret (meta_key (sec_Meta d))) as [o|] eqn:Ho; [|done].
      exists o. split; [done|]. intros Hv. specialize (Hnf _ eq_refl). unfold in_view in Hnf. congruence.
Qed.

(** A copy for one of the namespaces, built from a source that is there. *)
Definition copy_of (w : objects) (d : Secret) : Prop :=
  exists ref ns, ref ∈ propagated addon /\ ns ∈ Namespaces (a_Spec addon) /\
    sec_Meta d = copy_meta ref ns /\ sourced ref (sec_Data d) w.

Lemma copy_settled_P w d : (forall w, P w -> secrets_settled w) -> copy_of w d -> P w ->
  secret_settled (sec_Meta d) (sec_Data d) w.
Proof.
  intros HP (ref & ns & Hr & Hn & Hm & Hs) [Hset _]%HP.
  apply (proj1 (Forall_forall _ _)) with (x := ref) in Hset as (data & Hd & Hset); [|done].
  rewrite (sourced_fun _ _ _ _ Hs Hd), Hm. by apply (proj1 (Forall_forall _ _)) with (x := ns) in Hset.
Qed.

Lemma copy_key ref ns : meta_key (copy_meta ref ns) = mkKey (an_Name ns) (DestinationSecret ref).
Proof. apply wanted_meta_key. Qed.
Lemma copy_labelled ref ns : own_labels addon ->
  Labels (copy_meta ref ns) !! CommonInstanceLabel = Some (a_Name addon).
Proof.
  intros Ho. unfold copy_meta, wanted_meta.
  match goal with |- context [AddCommonAnnotations addon ?m] => destruct (AddCommonAnnotations_meta addon m) as [x ->] end.
  exact (common_labelled addon _ Ho).
Qed.
Lemma copy_placed ref ns : ref ∈ propagated addon -> ns ∈ Namespaces (a_Spec addon) ->
  kept_secret (meta_key (copy_meta ref ns)).
Proof.
  intros Hr Hn. rewrite copy_key. unfold kept_secret, placement_keys.
  apply list_elem_of_In, in_concat. eexists. split; [apply in_map_iff; exists ref; split; [reflexivity|by apply list_elem_of_In]|].
  apply in_map_iff. exists ns. split; [done|by apply list_elem_of_In].
Qed.

(** The operator's namespace and the monitoring namespace are none of the
    Addon's. *)
Context (Hopns : opns ∉ map an_Name (Namespaces (a_Spec addon))).
Context (Hmon : GetMonitoringNamespaceName addon ∉ map an_Name (Namespaces (a_Spec addon))).

Lemma placement_key_namespace key : kept_secret key -> key_Namespace key ∈ map an_Name (Namespaces (a_Spec addon)).
Proof.
  unfold kept_secret, placement_keys. intros (l & (ref & <- & _)%in_map_iff & (ns & <- & Hn)%in_map_iff)%list_elem_of_In%in_concat.
  apply list_elem_of_fmap. exists ns. split; [done|by apply list_elem_of_In].
Qed.
Lemma source_not_placed ref : ~ kept_secret (mkKey opns (SourceSecret ref)).
Proof. intros H%placement_key_namespace. by apply Hopns. Qed.
Lemma read_not_placed key : key ∈ read_keys -> ~ kept_secret key.
Proof.
  intros [->|[->|Hk]%elem_of_cons]%elem_of_cons H%placement_key_namespace; [by apply Hopns|by apply Hmon|].
  apply list_elem_of_fmap in Hk as (ref & -> & _). by apply Hopns.
Qed.

Definition copies (l : list Secret) : region :=
  fun k key => k = KSecret /\ key ∈ map (fun d => meta_key (sec_Meta d)) l.

Lemma copy_of_elsewhere w w' l d : (forall d, d ∈ l -> copy_of w d) -> changed_in (copies l) w w' ->
  copy_of w d -> copy_of w' d.
Proof.
  intros Hl Hw (ref & ns & Hr & Hn & Hm & Hs). exists ref, ns. split; [done|]. split; [done|]. split; [done|].
  eapply stands_elsewhere; [exact Hw| |exact Hs].
  intros [_ (x & Hx & Hin)%list_elem_of_fmap]. destruct (Hl _ Hin) as (ref' & ns' & Hr' & Hn' & Hm' & _).
  apply (source_not_placed ref). rewrite Hx, Hm'. by apply copy_placed.
Qed.

Lemma reconcile_placements_settle l : forall known s w,
  (forall w, P w -> secrets_settled w) -> (forall d, d ∈ l -> copy_of w d) ->
  NoDup (map (fun d => meta_key (sec_Meta d)) l) ->
  wpM E (reconcile_placements l known) s w (fun w' '(known', e) s' => s' = s /\ changed_in (copies l) w w' /\
    (e = None -> (forall key, key ∈ known' <-> key ∈ known \/ key ∈ map (fun d => meta_key (sec_Meta d)) l) /\
       forall d, d ∈ l -> secret_settled (sec_Meta d) (sec_Data d) w')).
Proof.
  induction l as [|d l IH]; intros known s w HP Hl Hd; cbn [reconcile_placements].
  { apply wpM_pure. split; [done|]. split; [done|]. intros _. split; [set_solver|]. intros d ?%elem_of_nil. done. }
  inversion Hd as [|? ? Hnot Hd']; subst. apply wpM_bind.
  eapply wpM_mono; [apply reconcileSecret_settles|].
  { apply copy_settled_P; [done|]. apply Hl. left. }
  { destruct (Hl d) as (ref & ns & Hr & Hn & -> & _); [left|]. by apply copy_placed. }
  { destruct (Hl d) as (ref & ns & _ & _ & Hm & _); [left|]. unfold instance_label. simpl. rewrite Hm. apply copy_labelled. }
  { destruct (Hl d) as (ref & ns & Hr & Hn & -> & _); [left|]. intros Hk.
    apply (read_not_placed (bearer_token_key addon)); [right; left|]. rewrite <- Hk. by apply copy_placed. }
  intros w1 e s1 (-> & Hw1 & He).
  assert (changed_in (copies [d]) w w1) as Hc1 by (eapply only_wrote_changed; [|exact Hw1]; split; [done|left]).
  assert (changed_in (copies (d :: l)) w w1) as Hc2.
  { eapply changed_in_mono; [|exact Hc1]. intros k key [-> Hk]. split; [done|]. apply list_elem_of_singleton in Hk as ->. left. }
  destruct e as [e|]; [by apply wpM_pure|]. specialize (He eq_refl).
  eapply wpM_mono; [apply IH; [done| |done]|].
  { intros x Hx. eapply (copy_of_elsewhere w w1 [d]); [|done|apply Hl; by right].
    intros y ->%list_elem_of_singleton. apply Hl. left. }
  intros w2 [known' e] s2 (-> & Hw2 & Hr). split; [done|]. split.
  { etrans; [exact Hc2|]. eapply changed_in_mono; [|exact Hw2]. intros k key [-> Hk]. split; [done|by right]. }
  intros Hn. destruct (Hr Hn) as [Hkn Hset]. split; [set_solver|].
  intros x [->|Hx]%elem_of_cons; [|by apply Hset]. eapply stands_elsewhere; [exact Hw2| |exact He].
  by intros [_ Hk].
Qed.

Lemma in_namespace_meta ns name : set_Namespace ns (wanted_meta addon "" name) = wanted_meta addon ns name.
Proof.
  unfold wanted_meta, owned_meta, AddCommonAnnotations. by destruct (bool_decide _).
Qed.

Lemma placements_copies w refs secrets :
  (forall ref, ref ∈ refs -> ref ∈ propagated addon) -> Forall2 (built w) refs secrets ->
  forall d, d ∈ placements secrets (Namespaces (a_Spec addon)) -> copy_of w d.
Proof.
  intros Hin. induction 1 as [|ref x refs secrets [Hm Hs] _ IH]; [by intros d ?%elem_of_nil|].
  intros d [Hd|Hd]%elem_of_app; [|apply IH; [|done]; intros r Hr; apply Hin; by right].
  apply list_elem_of_fmap in Hd as (ns & -> & Hns). exists ref, ns. split; [apply Hin; left|]. split; [done|].
  split; [|exact Hs]. simpl. rewrite Hm. apply in_namespace_meta.
Qed.

Lemma copies_keys w refs secrets : Forall2 (built w) refs secrets ->
  map (fun d => meta_key (sec_Meta d)) (placements secrets (Namespaces (a_Spec addon))) =
  concat (map (fun ref => map (fun ns => mkKey (an_Name ns) (DestinationSecret ref)) (Namespaces (a_Spec addon))) refs).
Proof.
  induction 1 as [|ref x refs secrets [Hm Hs] _ IH]; [done|]. unfold placements in *. simpl.
  rewrite map_app, IH. f_equal. rewrite map_map. apply map_ext. intros ns. simpl.
  rewrite Hm, in_namespace_meta. apply wanted_meta_key.
Qed.

Lemma placements_settled refs secrets w w' :
  Forall2 (built w) refs secrets ->
  (forall d, d ∈ placements secrets (Namespaces (a_Spec addon)) -> secret_settled (sec_Meta d) (sec_Data d) w') ->
  (forall ref data, ref ∈ refs -> sourced ref data w -> sourced ref data w') ->
  Forall (fun ref => exists data, sourced ref data w' /\
    Forall (fun ns => secret_settled (copy_meta ref ns) data w') (Namespaces (a_Spec addon))) refs.
Proof.
  intros Hb Hset Hsrc. revert Hset Hsrc.
  induction Hb as [|ref x refs secrets [Hm Hs] _ IH]; intros Hset Hsrc; [constructor|].
  constructor; [|apply IH; [intros d Hd; apply Hset, elem_of_app; by right|intros r d Hr; apply Hsrc; by right]].
  exists (sec_Data x). split; [apply Hsrc; [left|done]|]. apply Forall_forall. intros ns Hns.
  unfold copy_meta. rewrite <- in_namespace_meta, <- Hm.
  apply (Hset (in_namespace (an_Name ns) x)), elem_of_app. left. apply list_elem_of_fmap. by exists ns.
Qed.

Abbreviation listed_secrets := (lists Cached (CommonLabelsAsLabelSelector addon) KSecret).
Abbreviation unplaced := (fun key => ~ kept_secret key /\ key ∉ read_keys).

Lemma listed_not_read w items n :
  apart w -> listed_secrets w items -> n ∈ items -> obj_key KSecret n ∉ read_keys.
Proof.
  intros Ha Hl [Hn Hsel]%Hl Hk. eapply unlabelled_unlisted; [|exact Hsel]. by eapply Ha.
Qed.
Lemma unplaced_unwanted key : unplaced key -> ~ addon_wants opns addon c KSecret key.
Proof.
  unfold read_keys. intros [H1 H2] [?|[Hw|(_ & [-> | ->])]]; [done| | |]; apply H2.
  - do 2 right. exact Hw.
  - left.
  - right; left.
Qed.

Lemma delete_unknown_settles items known w0 l s w :
  (forall w, P w -> secrets_settled w) -> (forall key, key ∈ known <-> kept_secret key) ->
  apart w0 -> listed_secrets w0 items -> (forall n, n ∈ l -> n ∈ items) -> pruned KSecret unplaced w0 w ->
  wpM E (delete_unknown known l) s w (fun w' e s' => s' = s /\ pruned KSecret unplaced w w' /\
    (e = None -> forall n : Secret, n ∈ l -> ~ kept_secret (obj_key KSecret n) ->
       gone KSecret (obj_key KSecret n) w')).
Proof.
  intros HP Hkn Ha Hl. revert w. induction l as [|n l IH]; intros w Hin Hp; cbn [delete_unknown].
  { apply wpM_pure. split; [done|]. split; [done|]. intros _ n ?%elem_of_nil. done. }
  assert (forall n, n ∈ l -> n ∈ items) as Hin' by (intros; apply Hin; by right).
  change (meta_key (sec_Meta n)) with (obj_key KSecret n). case_bool_decide as Hk.
  { eapply wpM_mono; [by apply IH|]. intros w' e s' (-> & Hw & He). split; [done|]. split; [done|].
    intros Hn x [->|Hx]%elem_of_cons Hkx; [by destruct Hkx; apply Hkn|by apply He]. }
  assert (~ kept_secret (obj_key KSecret n)) as Hunk by by rewrite <- Hkn.
  assert (n ∈ items) as Hn by (apply Hin; left). pose proof (listed_not_read _ _ _ Ha Hl Hn) as Hnr.
  apply wpM_bind. apply (wpM_server_delete ocm).
  - intros _. assert (~ addon_wants opns addon c KSecret (obj_key KSecret n)) as Hnw by by apply unplaced_unwanted.
    split; [by apply (listed_own opns addon c w0 w KSecret items n); [|done|exact Hl|apply Hp|]|].
    intros Hset%HP x Hx. split; [|done].
    exact (listed_deleting Cached _ KSecret kept_secret w0 w items n Hl (proj2 Hp) Hn Hunk (proj2 Hset) x Hx).
  - intros w1 Hd. apply (deleted_pruned KSecret unplaced) in Hd as [Hp1 Hg]; [|done].
    eapply wpM_mono; [apply IH; [done|by etrans]|]. intros w' e s' (-> & Hw & He).
    split; [done|]. split; [by etrans|].
    intros Hn' x [->|Hx]%elem_of_cons Hkx; [by eapply gone_shrunk; [apply Hw|]|by apply He].
  - intros e _. by apply wpM_pure.
Qed.

Lemma apart_elsewhere F w w' :
  changed_in F w w' -> (forall key, F KSecret key -> key ∉ read_keys) -> apart w -> apart w'.
Proof. intros Hw HF Ha key o Hk Ho. apply (Ha key); [done|]. rewrite <- Ho. symmetry. apply Hw. intros Hf. by apply (HF key). Qed.

Lemma cleanup_settles known s w :
  (forall w, P w -> secrets_settled w) -> (forall key, key ∈ known <-> kept_secret key) -> apart w ->
  same_identity (st_addon s) addon ->
  wpM E (cleanupUnknownSecrets known) s w (fun w' e s' => s' = s /\
    changed_in (fun k key => k = KSecret /\ unplaced key) w w' /\ apart w' /\
    (e = None -> cleaned KSecret (listable Cached None (CommonLabelsAsLabelSelector addon) KSecret) kept_secret w')).
Proof.
  intros HP Hkn Ha Hs. unfold cleanupUnknownSecrets. apply wpM_bind, wpM_get_addon.
  rewrite (selector_alike _ addon) by by apply same_identity_alike. apply wpM_bind.
  apply (wpM_server_list ocm); [apply (reads_accepted ocm)| |by intros e _; apply wpM_pure].
  intros items Hl. eapply wpM_mono; [by apply (delete_unknown_settles items known w)|].
  intros w' e s' (-> & Hp & He). split; [done|]. split; [apply Hp|].
  split; [eapply apart_elsewhere; [apply Hp|by intros key [_ [_ Hk]]|done]|]. intros Hn.
  eapply cleaned_after; [exact Hl|apply Hp|by apply He].
Qed.


Lemma source_read key : key ∈ source_keys opns addon -> key ∈ read_keys.
Proof. by do 2 right. Qed.

Definition secret_region : region := fun k _ => k = KSecret.

Lemma copies_elsewhere F w w' : changed_in F w w' ->
  (forall key, F KSecret key -> ~ kept_secret key /\ key ∉ source_keys opns addon) ->
  copies_settled w -> copies_settled w'.
Proof.
  intros Hw HF H. apply Forall_forall. intros ref Hr.
  destruct (proj1 (Forall_forall _ _) H ref Hr) as (data & Hd & Hs). exists data. split.
  - eapply stands_elsewhere; [exact Hw| |exact Hd]. intros [_ Hk]%HF. apply Hk, list_elem_of_fmap. by exists ref.
  - apply Forall_forall. intros ns Hn. eapply stands_elsewhere; [exact Hw| |by apply (proj1 (Forall_forall _ _) Hs)].
    intros [Hk _]%HF. by apply Hk, copy_placed.
Qed.

Lemma copies_settle new s w :
  (forall w, P w -> secrets_settled w) -> NoDup (placement_keys addon) -> apart w ->
  same_identity (st_addon s) addon -> Forall2 (built w) (propagated addon) new ->
  wpM E (reconcileSecretsInAddonNamespaces new) s w (fun w' '(known, e) s' => s' = s /\
    changed_in secret_region w w' /\ apart w' /\
    (e = None -> (forall key, key ∈ known <-> kept_secret key) /\ copies_settled w')).
Proof.
  intros HP Hd Ha Hs Hb. unfold reconcileSecretsInAddonNamespaces. apply wpM_bind, wpM_get_addon. rewrite (proj2 Hs).
  pose proof (copies_keys _ _ _ Hb) as Hpk. change (concat _) with (placement_keys addon) in Hpk.
  assert (forall key, key ∈ map (fun d => meta_key (sec_Meta d)) (placements new (Namespaces (a_Spec addon))) <->
    kept_secret key) as Hkeys by (intros key; by rewrite Hpk).
  eapply wpM_mono; [apply reconcile_placements_settle; [done|by eapply placements_copies|by rewrite Hpk]|].
  intros w' [known e] s' (-> & Hw & Hr). split; [done|].
  split; [eapply changed_in_mono; [|exact Hw]; by intros k key [-> _]|].
  split; [eapply apart_elsewhere; [exact Hw| |done]; intros key [_ Hk%Hkeys] Hk'; by apply (read_not_placed key)|].
  intros Hn. destruct (Hr Hn) as [Hkn Hset]. split; [intros key; rewrite Hkn, Hkeys; set_solver|].
  apply (placements_settled _ new w); [done|done|]. intros ref data Href. apply (stands_elsewhere _ _ _ _ _ _ Hw).
  intros [_ Hk%Hkeys]. by apply (source_not_placed ref).
Qed.

Lemma secrets_settle s w :
  (forall w, P w -> secrets_settled w) -> NoDup (placement_keys addon) -> apart w ->
  same_identity (st_addon s) addon ->
  wpM E (secret_Reconcile opns) s w (fun w' r s' => same_identity (st_addon s') addon /\
    changed_in secret_region w w' /\ apart w' /\ (r = (resultNil, None) -> secrets_settled w')).
Proof.
  intros HP Hd Ha Hs. unfold secret_Reconcile. apply wpM_bind, wpM_get_addon. rewrite (proj2 Hs).
  assert (forall w w', changed_in (fun k key => k = KSecret /\ unplaced key) w w' -> changed_in secret_region w w') as Hreg.
  { intros w1 w2. apply changed_in_mono. by intros k key [-> _]. }
  destruct (match SecretPropagation _ with None => true | Some p => _ end) eqn:Hnone.
  - assert (propagated addon = []) as Hprop.
    { unfold propagated. destruct (SecretPropagation _); [by bools|done]. }
    apply wpM_bind. eapply wpM_mono; [apply cleanup_settles; try done|].
    { intros key. unfold kept_secret. change (placement_keys addon) with (concat (map (fun ref =>
        map (fun ns => mkKey (an_Name ns) (DestinationSecret ref)) (Namespaces (a_Spec addon))) (propagated addon))).
      rewrite Hprop. simpl. set_solver. }
    intros w' [e|] s' (-> & Hp & Ha' & He); apply wpM_pure; (split; [done|]); (split; [by apply Hreg|]);
      (split; [done|]); [done|]. intros _. split; [|by apply He]. unfold copies_settled. by rewrite Hprop.
  - apply wpM_bind. unfold getDestinationSecretsWithoutNamespace. apply wpM_bind, wpM_get_addon. rewrite (proj2 Hs).
    destruct (SecretPropagation (a_Spec addon)) as [p|] eqn:Hsp; [|done].
    assert (propagated addon = Secrets p) as Hprop by (unfold propagated; by rewrite Hsp).
    eapply wpM_mono; [apply destination_secrets_settle; [by rewrite Hprop| |done]|].
    { intros ref Href w1 [Hset _]%HP. destruct (proj1 (Forall_forall _ _) Hset ref Href) as (data & ? & _). by exists data. }
    intros w1 [[ds res] err] s1 (Hs1 & Hp1 & Hr). pose proof (apart_patched _ _ Hp1 Ha) as Ha1.
    assert (changed_in secret_region w w1) as Hw1 by (eapply changed_in_mono; [|apply Hp1]; by intros k key [-> _]).
    destruct err as [e|]; [by apply wpM_pure|].
    destruct (IsZero res) eqn:Hz; simpl; [|apply wpM_pure; naive_solver].
    destruct (Hr eq_refl eq_refl) as (new & -> & Hb). simpl in Hb |- *. rewrite <- Hprop in Hb.
    apply wpM_bind. eapply wpM_mono; [by apply copies_settle|]. intros w2 [known e] s2 (-> & Hw2 & Ha2 & Hr2).
    assert (changed_in secret_region w w2) as Hc2 by (by etrans).
    destruct e as [e|]; [by apply wpM_pure|]. destruct (Hr2 eq_refl) as [Hkn Hset].
    apply wpM_bind. eapply wpM_mono; [by apply cleanup_settles|].
    intros w3 [e|] s3 (-> & Hp3 & Ha3 & He); apply wpM_pure; (split; [done|]);
      (split; [etrans; [exact Hc2|by apply Hreg]|]); (split; [done|]); [done|].
    intros _. split; [|by apply He]. eapply copies_elsewhere; [exact Hp3| |done].
    intros key [_ [H1 H2]]. split; [done|]. intros Hk. by apply H2, source_read.
Qed.

(** *** Later *)

Section Later.
Context (w w' : objects) (Hq : still st w w').

Lemma sourced_still ref data : ref ∈ propagated addon -> sourced ref data w -> sourced ref data w'.
Proof.
  intros Hr. apply (stands_still _ _ _ Hq).
  - intros a b [(_ & _ & Hl & Hd) _] [H1 H2]. simpl in *. by rewrite Hl, Hd.
  - right. left. apply list_elem_of_fmap. by exists ref.
Qed.

Lemma secret_settled_still ref ns data : ref ∈ propagated addon -> ns ∈ Namespaces (a_Spec addon) ->
  secret_settled (copy_meta ref ns) data w -> secret_settled (copy_meta ref ns) data w'.
Proof.
  intros Hr Hn. apply (stands_still _ _ _ Hq).
  - intros a b [(_ & Hor & Hl & Hd) _] Hg. unfold secret_good in *. simpl in *. by rewrite Hl, Hor, Hd.
  - left. by apply copy_placed.
Qed.

Lemma secrets_still : secrets_settled w -> secrets_settled w'.
Proof.
  intros [H1 H2]. split.
  - apply Forall_forall. intros ref Hr. destruct (proj1 (Forall_forall _ _) H1 ref Hr) as (data & Hd & Hs).
    exists data. split; [by apply sourced_still|]. apply Forall_forall. intros ns Hn.
    apply secret_settled_still; [done|done|]. by apply (proj1 (Forall_forall _ _) Hs).
  - revert H2. apply (cleaned_still _ _ _ Hq).
    + intros o Ho. left. apply dec_stable. intros Hu. by eapply unlabelled_unlisted.
    + intros a b [Hs _]. by apply listable_same.
Qed.

Lemma apart_still : apart w -> apart w'.
Proof.
  intros Ha key o' Hk Ho' Hl. destruct (still_claimed _ _ _ Hq KSecret key o' Ho') as (o & Ho & Hkept); [by left|].
  destruct Hkept as [(_ & _ & Hl' & _) _]. apply (Ha key o Hk Ho). simpl in Hl'. by rewrite <- Hl'.
Qed.
End Later.

(** *** Elsewhere *)

(** What happens to objects that are neither copies nor sources, and that are
    not taken for copies, leaves the secrets settled. *)
Lemma secrets_elsewhere w w' :
  changed_in (fun k key => k = KSecret -> key = bearer_token_key addon) w w' ->
  GetMonitoringNamespaceName addon <> opns -> apart w' -> secrets_settled w -> secrets_settled w'.
Proof.
  intros Hw Hne Ha [H1 H2]. split.
  - eapply copies_elsewhere; [exact Hw| |done]. intros key Hk. rewrite Hk by done. split.
    + apply read_not_placed. right; left.
    + intros (ref & [= Hn _] & _)%list_elem_of_fmap. by apply Hne.
  - intros o Ho Hsel Hk. apply H2; [|done|done]. rewrite <- Ho. symmetry. apply Hw. intros Hb.
    eapply unlabelled_unlisted; [|exact Hsel]. apply (Ha (obj_key KSecret o)); [rewrite Hb by done; right; left|done].
Qed.
End Copies.
