(* ===== verification/SettledFederation.v ===== *)
(** * What the monitoring federation settles

    With federation: the monitoring namespace, the copied token, and the one
    ServiceMonitor, as wanted; without: the namespace, the ServiceMonitors with
    the Addon's labels, and the token that goes with them are gone or being
    deleted.  Another ServiceMonitor with the Addon's labels would take the
    token with it ([no_strays]). *)
From S2P Require Export SettledSecrets.

Section Federation.
Context {L : Lib} {LOk : LibOk L}.
Context (ocm : option ClientOptions) (opns : string).
Context (addon : Addon) (c : AddonInstallOLMCommon) (Hc : parsed addon = Some c).
Context (P : objects -> Prop).
Abbreviation st := (addon_stake opns addon c).
Abbreviation U := (unchanged st).
Abbreviation apart := (apart opns addon).
Abbreviation unlabelled := (unlabelled addon).
Abbreviation F := (own_write opns addon c).
Abbreviation token_meta := (token_meta addon).
Abbreviation token_good := (token_good addon).
Abbreviation token_settled := (token_settled opns addon).
Notation E := (verbatim ocm (fun w c' => is_write c' = true -> F w c' /\ (P w -> U w c'))).

(** *** Monitoring federation *)

(** The operator's namespace and the monitoring namespace are none of the
    Addon's. *)
Context (Hopns : opns ∉ map an_Name (Namespaces (a_Spec addon))).
Context (Hmon : GetMonitoringNamespaceName addon ∉ map an_Name (Namespaces (a_Spec addon))).

Definition wanted_federation : option MonitoringFederationSpec := Monitoring (a_Spec addon) ≫= Federation.
Lemma has_federation : HasMonitoringFederation addon = match wanted_federation with Some _ => true | None => false end.
Proof. unfold HasMonitoringFederation, wanted_federation. by destruct (Monitoring _) as [m|]; simpl; [destruct (Federation m)|]. Qed.

Definition federation_namespace_meta : ObjectMeta :=
  owned_meta addon (AddCommonLabels addon (set_Labels {[ "openshift.io/cluster-monitoring" := "true" ]}
    (new_meta "" (GetMonitoringNamespaceName addon)))).
Definition federation_namespace_good (o : NamespaceObj) : Prop :=
  HasSameController (ns_Meta o) federation_namespace_meta = true /\
  Labels (ns_Meta o) = Labels federation_namespace_meta.
Definition monitor_meta : ObjectMeta :=
  owned_meta addon (AddCommonLabels addon (new_meta (key_Namespace (monitor_key addon)) (key_Name (monitor_key addon)))).
Definition monitor_spec (fed : MonitoringFederationSpec) : ServiceMonitorSpec :=
  mkSMSpec (GetMonitoringFederationServiceMonitorEndpoints fed (mkSecret token_meta ∅ ""))
    [fed_Namespace fed] (fed_MatchLabels fed) "".
Definition monitor_settled (fed : MonitoringFederationSpec) : objects -> Prop :=
  settled_as KServiceMonitor (monitor_key addon) monitor_meta (fun o => sm_Spec o = monitor_spec fed).

(** A ServiceMonitor with the labels of the Addon. *)
Definition listed_monitor (w : objects) (sm : ServiceMonitor) : Prop :=
  w KServiceMonitor (obj_key KServiceMonitor sm) = Some sm /\
  listable Cached None (CommonLabelsAsLabelSelector addon) KServiceMonitor sm.
Definition federation_settled (w : objects) : Prop :=
  match wanted_federation with
  | Some fed => stands KNamespace (monitoring_namespace_key addon) federation_namespace_good w /\
      token_settled w /\ monitor_settled fed w
  | None => gone KNamespace (monitoring_namespace_key addon) w /\
      forall sm, listed_monitor w sm -> Name (sm_Meta sm) <> "" ->
        deleting KServiceMonitor sm /\ gone KSecret (bearer_token_key addon) w
  end.

(** With federation the Addon has no other ServiceMonitor. *)
Definition no_strays (w : objects) : Prop := HasMonitoringFederation addon = true ->
  forall sm, listed_monitor w sm -> Name (sm_Meta sm) = GetMonitoringFederationServiceMonitorName addon.

Lemma api_error_wrap p e : api_error e -> api_error (ErrWrap p e).
Proof. intros He v. specialize (He v). simpl in *. done. Qed.

Lemma federation_identity a : same_identity a addon ->
  GetMonitoringNamespaceName a = GetMonitoringNamespaceName addon /\
  GetMonitoringFederationServiceMonitorName a = GetMonitoringFederationServiceMonitorName addon /\
  bearer_token_key a = bearer_token_key addon.
Proof.
  intros [Hm _]. unfold bearer_token_key, GetMonitoringNamespaceName, GetMonitoringFederationServiceMonitorName, a_Name.
  by rewrite Hm.
Qed.

Lemma federation_labelled : own_labels addon ->
  Labels federation_namespace_meta !! CommonInstanceLabel = Some (a_Name addon).
Proof. intros Hown. exact (common_labelled addon _ Hown). Qed.

Lemma ensureMonitoringNamespace_settles s w :
  (forall w, P w -> stands KNamespace (monitoring_namespace_key addon) federation_namespace_good w) ->
  same_identity (st_addon s) addon ->
  wpM E ensureMonitoringNamespace s w (fun w' '(res, err) s' => same_identity (st_addon s') addon /\
    only_wrote KNamespace (monitoring_namespace_key addon) w w' /\
    match err with
    | Some e => api_error e
    | None => IsZero res = true -> stands KNamespace (monitoring_namespace_key addon) federation_namespace_good w'
    end).
Proof.
  intros HP Hs. destruct (federation_identity _ Hs) as (Hn & _).
  unfold ensureMonitoringNamespace, desiredMonitoringNamespace, actualMonitoringNamespace.
  apply wpM_bind, wpM_get_addon. rewrite set_controller_fresh by done.
  match goal with |- context [set_OwnerReferences ?l ?m] => assert (set_OwnerReferences l m = federation_namespace_meta) as -> by
    (unfold federation_namespace_meta, owned_meta, AddCommonLabels, common_label_writes, GetMonitoringNamespaceName, a_Name;
     by rewrite (proj1 Hs), (proj2 Hs)) end.
  rewrite Hn. change (mkKey "" _) with (monitoring_namespace_key addon). apply wpM_bind.
  assert (forall o, OwnerReferences (ns_Meta o) = OwnerReferences federation_namespace_meta ->
    Labels (ns_Meta o) = Labels federation_namespace_meta -> federation_namespace_good o) as Hgood.
  { intros o Ho Hl. split; [by apply same_controller, owned_controller|done]. }
  apply (wpM_server_get ocm); [apply (reads_accepted ocm)|..].
  - intros cur Hcur Hk _. cbn [ns_Meta]. destruct (_ && _) eqn:Hchk.
    + apply wpM_pure. split; [done|]. split; [done|]. intros _. exists cur. split; [done|].
      apply andb_true_iff in Hchk as [H1 H2]. split; [done|]. rewrite negb_involutive in H2. by apply deep_equal_eq.
    + apply wpM_bind. apply (wpM_server_update ocm).
      * intros _. split; [split_and!; [right; exact Hk|intros _ Hown; left; split; [exact (federation_labelled Hown)|by intros []]|done]|].
        intros (o & Ho & H1 & H2)%HP. exfalso. rewrite Hcur in Ho. injection Ho as <-.
        rewrite H1, negb_involutive in Hchk. simpl in Hchk. apply not_true_iff_false in Hchk.
        by apply Hchk, deep_equal_eq.
      * change (obj_key KNamespace _) with (obj_key KNamespace cur). rewrite Hk.
        intros o' w' [(_ & Hor & Hl & _) _] Hw Ho.
        assert (stands KNamespace (monitoring_namespace_key addon) federation_namespace_good w') as Hset
          by (exists o'; split; [done|by apply Hgood]).
        destruct (ns_Phase o' =s? NamespaceActive); [by apply wpM_pure|].
        apply wpM_bind, wpM_settled_report. intros now. by apply wpM_pure.
      * intros e He. apply wpM_pure. split; [done|]. split; [done|]. by apply api_error_wrap.
  - intros e He Hnf. destruct (IsNotFound (Some e)).
    + apply wpM_bind. apply (wpM_server_create ocm).
      * intros _. split; [split_and!; [by right|intros _ Hown; left; split; [exact (federation_labelled Hown)|by intros []]|done]|].
        intros (o & Ho & _)%HP. by specialize (Hnf eq_refl o Ho).
      * intros o' w' _ [(_ & Hor & Hl & _) _] Hw Ho. apply wpM_pure. split; [done|]. split; [done|]. intros _.
        exists o'. split; [done|by apply Hgood].
      * intros e' He' _. by apply wpM_pure.
    + apply wpM_pure. split; [done|]. split; [done|]. by apply api_error_wrap.
Qed.

Lemma token_meta_key : meta_key token_meta = bearer_token_key addon.
Proof. done. Qed.

(** The token is written without a label. *)
Lemma apart_token_write w w' (o' : Secret) :
  only_wrote KSecret (bearer_token_key addon) w w' -> w' KSecret (bearer_token_key addon) = Some o' ->
  unlabelled o' -> apart w -> apart w'.
Proof.
  intros Hw Ho' Hu Ha key o Hk Ho. destruct (decide (key = bearer_token_key addon)) as [->|Hne].
  - rewrite Ho' in Ho. by injection Ho as <-.
  - apply (Ha key); [done|]. rewrite <- Ho. symmetry. apply Hw. naive_solver.
Qed.

Lemma reconcileBearerToken_settles s w :
  (forall w, P w -> token_settled w) -> same_identity (st_addon s) addon ->
  wpM E (reconcileBearerTokenSecretForAddon opns) s w (fun w' '(res, token, err) s' => s' = s /\
    only_wrote KSecret (bearer_token_key addon) w w' /\ (apart w -> apart w') /\
    (err = None -> IsZero res = true -> exists t, token = Some t /\
       obj_key KSecret t = bearer_token_key addon /\ token_settled w')).
Proof.
  intros HP Hs. unfold reconcileBearerTokenSecretForAddon. apply wpM_bind, wpM_get_addon, wpM_bind.
  change (mkKey opns "addon-operator-prom-token") with (prom_token_key opns).
  apply (wpM_server_get ocm); [apply (reads_accepted ocm)| |by intros e _ _; apply wpM_pure].
  intros prom Hprom _ _.
  assert (desired_bearer_token (st_addon s) prom = inl (mkSecret token_meta (sec_Data prom) "")) as ->.
  { unfold desired_bearer_token. rewrite set_controller_fresh by done. unfold token_meta, owned_meta.
    destruct (federation_identity _ Hs) as (_ & _ & ->). by rewrite (proj1 Hs). }
  cbn [sec_Meta sec_Data]. rewrite token_meta_key. apply wpM_bind.
  apply (wpM_server_get ocm); [apply (reads_accepted ocm)|..].
  - intros cur Hcur Hk _. destruct (_ || _) eqn:Hchk.
    + apply wpM_bind. apply (wpM_server_update ocm).
      * intros _. split.
        { split; [right; exact Hk|]. split; [intros _ _; right|intros _; exists prom; split; [done|]; split; [|done]].
          - match goal with |- context [obj_key KSecret ?x] => assert (obj_key KSecret x = bearer_token_key addon) as -> by exact Hk end.
            rewrite Hcur. unfold instance_label. simpl. by rewrite merge_union, map_empty_union.
          - by apply controller_same, owned_controller. }
        intros (data & (o & Ho & <-) & (b & Hb & H1 & H2))%HP. exfalso.
        rewrite Hprom in Ho. injection Ho as <-. rewrite Hcur in Hb. injection Hb as <-.
        rewrite H1 in Hchk. simpl in Hchk. rewrite orb_false_r in Hchk. apply orb_true_iff in Hchk as [Hd|Hd].
        -- rewrite negb_true_iff in Hd. apply not_true_iff_false in Hd. by apply Hd, deep_equal_eq.
        -- rewrite negb_true_iff in Hd. apply not_true_iff_false in Hd. apply Hd, equals_eq.
           by rewrite merge_union, map_empty_union.
      * match goal with |- context [obj_key KSecret ?x] => assert (obj_key KSecret x = obj_key KSecret cur) as -> by reflexivity end. rewrite Hk.
        intros o' w' [(_ & _ & Hl & _) _] Hw Ho. apply wpM_pure. split; [done|]. split; [done|].
        split; [|done]. intros Ha. eapply apart_token_write; [exact Ho|exact Hw| |done].
        unfold SettledSecrets.unlabelled. simpl in Hl. rewrite Hl, merge_union, map_empty_union.
        apply (Ha (bearer_token_key addon)); [right; left|done].
      * intros e _. by apply wpM_pure.
    + apply wpM_pure. split; [done|]. split; [done|]. split; [done|]. intros _ _. exists cur.
      split; [done|]. split; [done|]. exists (sec_Data prom). split; [by exists prom|]. exists cur. split; [done|].
      apply orb_false_iff in Hchk as [Hchk _]. apply orb_false_iff in Hchk as [H1 H2].
      split; [by apply negb_false_iff|]. rewrite negb_false_iff in H1. by apply deep_equal_eq.
  - intros e _ Hnf. destruct (IsNotFound (Some e)); [|by apply wpM_pure]. apply wpM_bind.
    apply (wpM_server_create ocm).
    + intros _. split; [split; [by right|]|intros (data & _ & (b & Hb & _))%HP; by specialize (Hnf eq_refl b Hb)].
      split; [|intros _; exists prom; split; [done|]; split; [by apply controller_same, owned_controller|done]].
      intros _ _. right. unfold obj_key. cbn [obj_meta sec_Meta]. rewrite token_meta_key.
      destruct (w KSecret (bearer_token_key addon)) as [b|] eqn:Hb; [by specialize (Hnf eq_refl b eq_refl)|done].
    + unfold obj_key. cbn [obj_meta sec_Meta]. rewrite token_meta_key.
      intros o' w' _ [(_ & _ & Hl & _) _] Hw Ho. apply wpM_pure. split; [done|]. split; [done|].
      split; [|done]. intros Ha. eapply apart_token_write; [exact Ho|exact Hw| |done].
      unfold SettledSecrets.unlabelled. simpl in Hl. by rewrite Hl.
    + intros e' _ _. by apply wpM_pure.
Qed.

Lemma no_strays_elsewhere F w w' : changed_in F w w' ->
  (forall key, F KServiceMonitor key -> key = monitor_key addon) -> no_strays w -> no_strays w'.
Proof.
  intros Hw HF Hn Hf sm [Hsm Hl].
  destruct (decide (obj_key KServiceMonitor sm = monitor_key addon)) as [Hk|Hne]; [by injection Hk|].
  apply Hn; [done|]. split; [|done]. rewrite <- Hsm. symmetry. apply Hw. by intros H%HF.
Qed.

Definition monitor_region : region := fun k key =>
  match k with
  | KSecret => key = bearer_token_key addon
  | KServiceMonitor => key = monitor_key addon
  | _ => False
  end.

Lemma desired_monitor fed a t s w (Q : objects -> (ServiceMonitor + error) -> St -> Prop) :
  wanted_federation = Some fed -> same_identity a addon -> obj_key KSecret t = bearer_token_key addon ->
  Q w (inl (mkSM monitor_meta (monitor_spec fed))) s -> wpM E (desiredServiceMonitor a t) s w Q.
Proof.
  intros Hfed Ha Htk HQ. unfold desiredServiceMonitor. destruct (federation_identity _ Ha) as (-> & -> & _).
  rewrite (proj2 Ha). unfold wanted_federation in Hfed. destruct (Monitoring (a_Spec addon)) as [m|]; [|done].
  simpl in Hfed. apply wpM_bind, wpM_pure. rewrite Hfed. apply wpM_bind, wpM_pure.
  rewrite set_controller_fresh by done. apply wpM_pure.
  assert (GetMonitoringFederationServiceMonitorEndpoints fed t =
    GetMonitoringFederationServiceMonitorEndpoints fed (mkSecret token_meta ∅ "")) as ->.
  { unfold GetMonitoringFederationServiceMonitorEndpoints. by injection Htk as _ ->. }
  match goal with |- context [set_OwnerReferences ?l ?m] => assert (set_OwnerReferences l m = monitor_meta) as -> by
    (unfold monitor_meta, owned_meta, AddCommonLabels, common_label_writes, monitor_key, a_Name;
     by rewrite (proj1 Ha), (proj2 Ha)) end.
  exact HQ.
Qed.

Lemma reconcileServiceMonitor_settles fed s w :
  (forall w, P w -> token_settled w /\ monitor_settled fed w) -> wanted_federation = Some fed ->
  same_identity (st_addon s) addon ->
  wpM E (reconcileServiceMonitor opns) s w (fun w' '(res, err) s' => same_identity (st_addon s') addon /\
    changed_in monitor_region w w' /\ (apart w -> apart w') /\
    (err = None -> IsZero res = true -> token_settled w' /\ monitor_settled fed w')).
Proof.
  intros HP Hfed Hs. unfold reconcileServiceMonitor. apply wpM_bind, wpM_get_addon, wpM_bind.
  eapply wpM_mono; [apply reconcileBearerToken_settles; [|done]; intros w' Hw'%HP; apply Hw'|].
  intros w1 [[res token] err] s1 (-> & Hw1 & Ha1 & Ht).
  assert (changed_in monitor_region w w1) as Hc1 by (eapply only_wrote_changed; [|exact Hw1]; done).
  destruct err as [e|]; [by apply wpM_pure|].
  destruct (IsZero res) eqn:Hz; simpl; [|by apply wpM_pure; rewrite Hz].
  destruct (Ht eq_refl eq_refl) as (t & -> & Htk & Htok). apply wpM_bind, wpM_pure.
  apply wpM_bind, (desired_monitor fed); [done|done|done|]. unfold actualServiceMonitor.
  destruct (federation_identity _ Hs) as (-> & -> & _). change (mkKey _ _) with (monitor_key addon).
  cbn [sm_Meta sm_Spec].
  set (spec := fun o => sm_Spec o = monitor_spec fed).
  assert (forall a b, same_content KServiceMonitor a b -> spec b -> spec a) as Hspec by (unfold spec; simpl; congruence).
  assert (permits F KServiceMonitor (monitor_key addon) monitor_meta) as Hperm
    by (apply own_permits; [done|by intros []|]; intros _ Hown; exact (common_labelled addon _ Hown)).
  assert (forall w, P w -> monitor_settled fed w) as HPm by (intros w' Hw'%HP; apply Hw').
  assert (forall w2, only_wrote KServiceMonitor (monitor_key addon) w1 w2 ->
    changed_in monitor_region w w2 /\ (apart w -> apart w2) /\ token_settled w2) as Hrest.
  { intros w2 Hw2. assert (changed_in (fun k _ => k = KServiceMonitor) w1 w2) as Hc2
      by (eapply only_wrote_changed; [|exact Hw2]; done).
    split; [etrans; [exact Hc1|]; eapply only_wrote_changed; [|exact Hw2]; done|].
    split; [intros Ha; eapply apart_elsewhere; [exact Hc2|done|auto]|].
    destruct Htok as (data & Hd1 & Hd2). exists data. split; eapply stands_elsewhere; try done; by intros. }
  apply wpM_bind. apply (wpM_server_get ocm); [apply (reads_accepted ocm)|..].
  - intros cur Hcur Hk _. pose proof (checks _ _ _ (HasSameController (sm_Meta cur) monitor_meta) _
      (spec_checked (sm_Spec cur) (monitor_spec fed))
      (labels_checked (Labels (sm_Meta cur)) (labels_Merge (Labels (sm_Meta cur)) (Labels monitor_meta)))) as Hchk.
    rewrite (andb_all _ _ _). destruct (_ || _); simpl negb; cbv iota.
    + apply wpM_bind.
      eapply (wpM_update_settled ocm F P U KServiceMonitor _ _ spec Hperm HPm Hspec (owned_controller _ _) cur);
        [done..|exact Hchk|].
      split; [intros o' w' Hw _ Hset|intros e _]; apply wpM_pure; (split; [done|]).
      * destruct (Hrest _ Hw) as (H1 & H2 & H3). done.
      * destruct (Hrest w1) as (H1 & H2 & H3); done.
    + apply wpM_pure. split; [done|]. split; [done|]. split; [done|]. intros _ _. split; [done|].
      destruct Hchk as (H1 & H2 & H3). by exists cur.
  - intros e He Hnf. destruct (IsNotFound (Some e)); [|by apply wpM_pure]. apply wpM_bind.
    eapply (wpM_create_settled ocm F P U KServiceMonitor _ _ spec Hperm HPm Hspec (owned_controller _ _));
      [done..|by eapply absent_unless_secret|].
    split; [intros o' w' Hw _ Hset|intros e' _]; apply wpM_pure; (split; [done|]).
    + destruct (Hrest _ Hw) as (H1 & H2 & H3). done.
    + destruct (Hrest w1) as (H1 & H2 & H3); done.
Qed.

(** What the reconciler touches, and when it only removes. *)
Definition federation_region : region := fun k key =>
  match k with
  | KNamespace => key = monitoring_namespace_key addon
  | KSecret => key = bearer_token_key addon
  | KServiceMonitor => True
  | _ => False
  end.
Definition removal_region : region := fun k key =>
  match k with KSecret => key = bearer_token_key addon | KServiceMonitor => True | _ => False end.

Lemma ensureMonitoringFederation_settles fed s w :
  (forall w, P w -> federation_settled w) -> wanted_federation = Some fed ->
  same_identity (st_addon s) addon ->
  wpM E (ensureMonitoringFederation opns) s w (fun w' '(res, err) s' => same_identity (st_addon s') addon /\
    changed_in federation_region w w' /\ (apart w -> apart w') /\ (no_strays w -> no_strays w') /\
    errors_Is err ErrNotOwnedByUs = false /\
    (err = None -> IsZero res = true -> federation_settled w')).
Proof.
  intros HP Hfed Hs. unfold federation_settled in *. rewrite Hfed in *. unfold ensureMonitoringFederation.
  apply wpM_bind, wpM_get_addon.
  assert (HasMonitoringFederation (st_addon s) = true) as ->.
  { unfold HasMonitoringFederation. rewrite (proj2 Hs). fold (HasMonitoringFederation addon). by rewrite has_federation, Hfed. }
  simpl. apply wpM_bind. eapply wpM_mono; [apply ensureMonitoringNamespace_settles; [|done]; intros w' Hw'%HP; apply Hw'|].
  intros w1 [res err] s1 (Hs1 & Hw1 & Hr).
  assert (changed_in (fun k _ => k = KNamespace) w w1) as Hns by (eapply only_wrote_changed; [|exact Hw1]; done).
  assert (changed_in federation_region w w1) as Hc1 by (eapply only_wrote_changed; [|exact Hw1]; done).
  assert (apart w -> apart w1) as Ha1 by (eapply apart_elsewhere; [exact Hns|done]).
  assert (no_strays w -> no_strays w1) as Hn1 by (eapply no_strays_elsewhere; [exact Hns|done]).
  destruct err as [e|].
  { apply wpM_pure. do 4 (split; [done|]). split; [|done]. apply (api_error_wrap _ _ Hr). }
  destruct (IsZero res) eqn:Hz; simpl; [|by apply wpM_pure; rewrite Hz].
  specialize (Hr eq_refl). apply wpM_bind.
  eapply wpM_mono; [apply (reconcileServiceMonitor_settles fed); [|done|done]; intros w' Hw'%HP; apply Hw'|].
  intros w2 [res2 err2] s2 (Hs2 & Hw2 & Ha2 & Hr2).
  assert (changed_in federation_region w w2) as Hc2.
  { etrans; [exact Hc1|]. eapply changed_in_mono; [|exact Hw2]. by intros []. }
  assert (no_strays w -> no_strays w2) as Hn2.
  { intros Hn%Hn1. eapply no_strays_elsewhere; [exact Hw2|done|done]. }
  assert (stands KNamespace (monitoring_namespace_key addon) federation_namespace_good w2) as Hns2.
  { eapply stands_elsewhere; [exact Hw2|by intros []|done]. }
  destruct err2 as [e|].
  { apply wpM_pure. split; [done|]. split; [done|]. split; [auto|]. done. }
  destruct (IsZero res2) eqn:Hz2; simpl; [|by apply wpM_pure; rewrite Hz2; auto 10].
  apply wpM_pure. split; [done|]. split; [done|]. split; [auto|]. split; [done|]. split; [done|].
  intros _ _. split; [done|]. by apply Hr2.
Qed.

Lemma kept_monitors wanted l s w Q :
  (forall sm, sm ∈ l -> Name (sm_Meta sm) = wanted) -> Q w None s ->
  wpM E (delete_unwanted_monitors wanted l) s w Q.
Proof.
  intros Hl HQ. induction l as [|sm l IH]; cbn [delete_unwanted_monitors]; [by apply wpM_pure|].
  rewrite (Hl sm) by left. rewrite bool_decide_true by done. apply IH. intros x Hx. apply Hl. by right.
Qed.

Lemma apart_shrunk w w' : shrunk KSecret w w' -> apart w -> apart w'.
Proof.
  intros Hp Ha key o' Hk (o & Ho & (_ & _ & Hl & _) & _)%Hp. unfold SettledSecrets.unlabelled. simpl in Hl. rewrite Hl. by apply (Ha key).
Qed.

Lemma deleted_shrunk k k' key w w' : deleted k key w w' -> shrunk k' w w'.
Proof.
  intros Hd. destruct (decide (k' = k)) as [->|Hne].
  - by destruct (deleted_pruned k (fun _ => True) key w w') as [[_ Hp] _].
  - intros key' o' Ho'. destruct Hd as [Hw _]. rewrite Hw in Ho' by naive_solver. by exists o'.
Qed.

(** A deletion that may find nothing. *)
Lemma wpM_delete_ignored k key s w (Q : objects -> option error -> St -> Prop) :
  env_allow E w (CDelete k key) ->
  (forall e w', only_wrote k key w w' -> (forall k', shrunk k' w w') ->
     (IgnoreNotFound e = None -> gone k key w') -> Q w' e s) ->
  wpM E (do_call (CDelete k key)) s w Q.
Proof.
  intros Ha HQ. apply (wpM_server_delete ocm); [exact Ha| |].
  - intros w' Hd. apply HQ; [apply Hd|intros k'; by eapply deleted_shrunk|].
    intros _. by destruct (deleted_pruned k (fun _ => True) key w w').
  - intros e Hnf. apply HQ; [done|done|]. rewrite ignore_not_found.
    destruct (IsNotFound (Some e)); [|done]. intros _ o. by rewrite Hnf.
Qed.

Context (Hmonop : GetMonitoringNamespaceName addon <> opns).

Lemma token_unwanted : HasMonitoringFederation addon = false ->
  ~ addon_wants opns addon c KSecret (bearer_token_key addon).
Proof.
  intros Hf [Hk|[Hk|[Hf' _]]]; [|by apply list_elem_of_fmap in Hk as (ref & [= Hk _] & _)|congruence].
  by apply (read_not_placed opns addon Hopns Hmon (bearer_token_key addon)); [right; left|].
Qed.

(** Without federation.  The deletion of the token is settled by what was known
    at the start: [b] says that the run started on a settled cluster. *)
Section Removal.
Context (b : Prop) (HPb : forall w, P w -> b).
Context (Hfed : wanted_federation = None).

Lemma no_federation : HasMonitoringFederation addon = false.
Proof. by rewrite has_federation, Hfed. Qed.

Lemma delete_monitors_settles items w0 l s : forall w,
  (forall w, P w -> federation_settled w) ->
  lists Cached (CommonLabelsAsLabelSelector addon) KServiceMonitor w0 items ->
  (forall n, n ∈ l -> n ∈ items) -> shrunk KServiceMonitor w0 w -> same_identity (st_addon s) addon ->
  (b -> forall n : ServiceMonitor, n ∈ l -> Name (sm_Meta n) <> "" -> gone KSecret (bearer_token_key addon) w) ->
  wpM E (delete_unwanted_monitors "" l) s w (fun w' e s' => s' = s /\ changed_in removal_region w w' /\
    (forall k, shrunk k w w') /\
    (e = None -> forall n : ServiceMonitor, n ∈ l -> Name (sm_Meta n) <> "" ->
       gone KServiceMonitor (obj_key KServiceMonitor n) w' /\ gone KSecret (bearer_token_key addon) w')).
Proof.
  induction l as [|n l IH]; intros w HP Hl Hin Hp Hs Hb; cbn [delete_unwanted_monitors].
  { apply wpM_pure. do 3 (split; [done|]). intros _ n ?%elem_of_nil. done. }
  assert (forall n, n ∈ l -> n ∈ items) as Hin' by (intros; apply Hin; by right).
  case_bool_decide as Hk.
  { eapply wpM_mono; [apply IH; try done; intros Hb' x Hx; apply Hb; [done|by right]|].
    intros w' e s' (-> & Hw & Hsh & He). do 3 (split; [done|]).
    intros Hn x [->|Hx]%elem_of_cons Hkx; [done|by apply He]. }
  assert (n ∈ items) as Hn by (apply Hin; left). change (meta_key (sm_Meta n)) with (obj_key KServiceMonitor n).
  apply wpM_bind, wpM_delete_ignored.
  { intros _. assert (~ addon_wants opns addon c KServiceMonitor (obj_key KServiceMonitor n)) as Hnw
      by (intros [Hf _]; by rewrite no_federation in Hf).
    split; [by apply (listed_own opns addon c w0 w KServiceMonitor items n)|].
    intros Hset%HP x Hx. unfold federation_settled in Hset. rewrite Hfed in Hset. destruct Hset as [_ Hset].
    split; [|done]. eapply (listed_deleting Cached _ KServiceMonitor (fun key => key_Name key = "") w0 w items n Hl Hp Hn Hk); [|exact Hx].
    intros sm Hsm Hsel Hne. by apply (Hset sm). }
  intros e w1 Hw1 Hsh1 Hg1.
  assert (changed_in removal_region w w1) as Hc1 by (eapply only_wrote_changed; [|exact Hw1]; done).
  destruct (IgnoreNotFound e) as [e'|] eqn:He; [by apply wpM_pure|]. specialize (Hg1 eq_refl).
  apply wpM_bind, wpM_get_addon, wpM_bind. destruct (federation_identity _ Hs) as (_ & _ & ->).
  apply wpM_delete_ignored.
  { intros _. pose proof (token_unwanted no_federation) as Hnw. split; [split; [done|left; by right]|].
    intros Hset x Hx. split; [|done].
    assert (b) as Hb' by by eapply HPb.
    eapply (gone_shrunk KSecret); [apply Hsh1|apply (Hb Hb' n); [left|done]|exact Hx]. }
  intros e2 w2 Hw2 Hsh2 Hg2.
  assert (changed_in removal_region w w2) as Hc2.
  { etrans; [exact Hc1|]. eapply only_wrote_changed; [|exact Hw2]. done. }
  assert (forall k, shrunk k w w2) as Hsh by (intros k; etrans; [apply Hsh1|apply Hsh2]).
  destruct (IgnoreNotFound e2) as [e'|] eqn:He2; [by apply wpM_pure|]. specialize (Hg2 eq_refl).
  eapply wpM_mono; [apply IH; try done; by etrans|].
  intros w' e3 s' (-> & Hw & Hsh' & He3). split; [done|]. split; [by etrans|].
  split; [intros k; etrans; [apply Hsh|apply Hsh']|].
  intros Hn3 x [->|Hx]%elem_of_cons Hkx; [|by apply He3].
  split; (eapply gone_shrunk; [apply Hsh'|]); [|done]. eapply gone_shrunk; [apply Hsh2|done].
Qed.

Lemma federation_removed s w :
  (forall w, P w -> federation_settled w) -> (b -> federation_settled w) -> same_identity (st_addon s) addon ->
  wpM E ensureDeletionOfUnwantedMonitoringFederation s w (fun w' e s' => s' = s /\
    changed_in federation_region w w' /\ shrunk KSecret w w' /\ (e = None -> federation_settled w')).
Proof.
  intros HP Hb Hs. unfold ensureDeletionOfUnwantedMonitoringFederation, getOwnedServiceMonitorsViaCommonLabels.
  apply wpM_bind, wpM_bind, wpM_get_addon, wpM_bind. rewrite (selector_alike _ addon) by by apply same_identity_alike.
  apply (wpM_server_list ocm); [apply (reads_accepted ocm)| |by intros e _; do 2 apply wpM_pure].
  intros items Hl. apply wpM_pure, wpM_bind, wpM_get_addon.
  assert (HasMonitoringFederation (st_addon s) = false) as ->.
  { unfold HasMonitoringFederation. rewrite (proj2 Hs). apply no_federation. }
  apply wpM_bind. eapply wpM_mono; [eapply (delete_monitors_settles items w); try done|].
  { intros Hb' n Hn Hne. specialize (Hb Hb'). unfold federation_settled in Hb. rewrite Hfed in Hb.
    destruct Hb as [_ Hb]. apply (Hb n); [|done]. by apply Hl. }
  intros w1 e s1 (-> & Hw1 & Hsh1 & He).
  assert (changed_in federation_region w w1) as Hc1 by (eapply changed_in_mono; [|exact Hw1]; by intros []).
  destruct e as [e|]; [by apply wpM_pure|]. specialize (He eq_refl).
  rewrite bool_decide_true by done. apply wpM_bind. unfold ensureNamespaceDeletion.
  destruct (federation_identity _ Hs) as (-> & _). change (mkKey "" _) with (monitoring_namespace_key addon).
  apply wpM_bind, wpM_delete_ignored.
  { intros _. assert (~ addon_wants opns addon c KNamespace (monitoring_namespace_key addon)) as Hnw.
    { intros [Hk|[Hf _]]; [|by rewrite no_federation in Hf].
      apply list_elem_of_fmap in Hk as (ns & [= Hk] & Hns). apply Hmon. rewrite Hk. apply list_elem_of_fmap. by exists ns. }
    split; [split; [done|left; by right]|]. intros Hset%HP x Hx. unfold federation_settled in Hset. rewrite Hfed in Hset.
    split; [by apply Hset|done]. }
  intros e w2 Hw2 Hsh2 Hg2.
  assert (changed_in federation_region w w2) as Hc2 by (etrans; [exact Hc1|]; eapply only_wrote_changed; [|exact Hw2]; done).
  assert (shrunk KSecret w w2) as Hsh by (etrans; [apply Hsh1|apply Hsh2]).
  assert (IgnoreNotFound e = None -> federation_settled w2) as Hset.
  { intros Hn. unfold federation_settled. rewrite Hfed. split; [by apply Hg2|].
    intros sm [Hsm Hsel] Hne. rewrite Hw2 in Hsm by naive_solver.
    destruct (Hsh1 KServiceMonitor _ _ Hsm) as (sm0 & Hsm0 & Hst & _).
    assert (obj_key KServiceMonitor sm = obj_key KServiceMonitor sm0) as Hkey by apply Hst.
    assert (sm0 ∈ items) as Hin by (apply Hl; rewrite <- Hkey; split; [done|by eapply listable_same]).
    destruct (He sm0 Hin) as [Hg1 Hg1'].
    { unfold obj_key, meta_key in Hkey. simpl in Hkey. by injection Hkey as _ <-. }
    split; [apply Hg1; by rewrite <- Hkey|]. eapply gone_shrunk; [apply Hsh2|done]. }
  rewrite ignore_not_found in Hset.
  destruct (IsNotFound e) eqn:Hnf; simpl; apply wpM_pure; [|destruct e as [e|]]; apply wpM_pure; split_and!; auto; done.
Qed.
End Removal.

Lemma federation_settles (b : Prop) s w :
  (forall w, P w -> b) -> (forall w, P w -> federation_settled w) -> (b -> federation_settled w) ->
  no_strays w -> same_identity (st_addon s) addon ->
  wpM E (federation_Reconcile opns) s w (fun w' r s' => same_identity (st_addon s') addon /\
    changed_in federation_region w w' /\ (apart w -> apart w') /\ no_strays w' /\
    (r = (resultNil, None) -> federation_settled w')).
Proof.
  intros HPb HP Hb Hn Hs. unfold federation_Reconcile. apply wpM_bind.
  destruct wanted_federation as [fed|] eqn:Hfed.
  - eapply wpM_mono; [by apply (ensureMonitoringFederation_settles fed)|].
    intros w1 [res err] s1 (Hs1 & Hw1 & Ha1 & Hn1 & Hno & Hr). rewrite Hno. specialize (Hn1 Hn).
    destruct err as [e|]; [by apply wpM_pure|].
    destruct (IsZero res) eqn:Hz; simpl; [|apply wpM_pure; naive_solver].
    specialize (Hr eq_refl eq_refl).
    apply wpM_bind. unfold ensureDeletionOfUnwantedMonitoringFederation, getOwnedServiceMonitorsViaCommonLabels.
    apply wpM_bind, wpM_bind, wpM_get_addon, wpM_bind. rewrite (selector_alike _ addon) by by apply same_identity_alike.
    apply (wpM_server_list ocm); [apply (reads_accepted ocm)| |by intros e _; do 3 apply wpM_pure].
    intros items Hl. apply wpM_pure, wpM_bind, wpM_get_addon.
    assert (HasMonitoringFederation addon = true) as Hf by by rewrite has_federation, Hfed.
    assert (HasMonitoringFederation (st_addon s1) = true) as -> by (unfold HasMonitoringFederation in *; by rewrite (proj2 Hs1)).
    destruct (federation_identity _ Hs1) as (_ & -> & _). apply wpM_bind, kept_monitors.
    { intros sm Hsm%Hl. by apply Hn1. }
    rewrite bool_decide_false by done. by do 2 apply wpM_pure.
  - unfold ensureMonitoringFederation. apply wpM_bind, wpM_get_addon.
    assert (HasMonitoringFederation addon = false) as Hf by by rewrite has_federation, Hfed.
    assert (HasMonitoringFederation (st_addon s) = false) as -> by (unfold HasMonitoringFederation in *; by rewrite (proj2 Hs)).
    apply wpM_pure. change (errors_Is None _) with false. change (negb (IsZero resultNil)) with false. cbv iota.
    apply wpM_bind. eapply wpM_mono; [by apply (federation_removed b)|].
    intros w1 e s1 (-> & Hw1 & Hsh & He).
    destruct e as [e|]; apply wpM_pure; (split; [done|]); (split; [done|]); (split; [by apply apart_shrunk|]);
      (split; [by intros Hf'; rewrite Hf in Hf'|]); [done|]. intros _. by apply He.
Qed.
(** *** Later *)

Section Later.
Context (w w' : objects) (Hq : still st w w').

Lemma listed_monitor_still sm : listed_monitor w' sm -> exists sm0, listed_monitor w sm0 /\
  kept KServiceMonitor sm sm0.
Proof.
  intros [Hsm Hl]. destruct (still_claimed _ _ _ Hq KServiceMonitor _ sm Hsm) as (sm0 & Ho & Hk); [apply Hl|].
  exists sm0. split; [|done]. assert (obj_key KServiceMonitor sm = obj_key KServiceMonitor sm0) as Hkey by apply Hk.
  split; [by rewrite <- Hkey|]. eapply listable_same; [|exact Hl]. apply Hk.
Qed.

Lemma no_strays_still : no_strays w -> no_strays w'.
Proof.
  intros Hn Hf sm (sm0 & Hl & (Hkey & _) & _)%listed_monitor_still.
  rewrite <- (Hn Hf sm0 Hl). unfold obj_key, meta_key in Hkey. simpl in Hkey. by injection Hkey.
Qed.

Lemma federation_still : federation_settled w -> federation_settled w'.
Proof.
  unfold federation_settled. destruct wanted_federation as [fed|] eqn:Hfed.
  - assert (HasMonitoringFederation addon = true) as Hf by by rewrite has_federation, Hfed.
    intros (H1 & (data & H2 & H3) & H4). split; [|split].
    + revert H1. apply (stands_still _ _ _ Hq); [|by right].
      intros a b [(_ & Hor & Hl & _) _] [G1 G2]. simpl in *. split; [|by rewrite Hl].
      by rewrite (controllers_of_owners _ (ns_Meta b)).
    + exists data. split; [revert H2|revert H3]; apply (stands_still _ _ _ Hq); try (do 2 right; split; [done|auto]; fail).
      * intros a b [(_ & _ & _ & Hd) _] G. simpl in *. by rewrite Hd.
      * intros a b [(_ & Hor & _ & Hd) _] [G1 G2]. simpl in *. split; [|by rewrite Hd].
        unfold HasSameController in *. rewrite (get_controller (sec_Meta a)), Hor, <- get_controller. exact G1.
    + revert H4. apply (settled_as_still _ _ _ Hq); [simpl; congruence|done].
  - intros [H1 H2]. split.
    + apply (gone_still _ _ _ Hq); [by right|done].
    + intros sm (sm0 & Hl & Hk)%listed_monitor_still Hne.
      assert (obj_key KServiceMonitor sm = obj_key KServiceMonitor sm0) as Hkey by apply Hk.
      destruct (H2 sm0 Hl) as [Hd Hg].
      { unfold obj_key, meta_key in Hkey. simpl in Hkey. by injection Hkey as _ <-. }
      split; [by apply Hk|]. apply (gone_still _ _ _ Hq); [by right|done].
Qed.
End Later.
End Federation.
