(* ===== verification/Quiescence.v ===== *)
(** * The Addon controller comes to rest

    The sub-reconcilers together: one pass over all of them that ends without an
    early return leaves a cluster that is settled for each, and a reconcile of a
    settled cluster writes nothing but the status of the Addon.

    Each part says when a cluster is settled for it ([part_settled]), what a run
    settles and where it writes ([part_settles]), that later parts do not undo
    it ([part_elsewhere]) and that it lasts while nothing happens that concerns
    the controller ([part_still]); the pass is an induction over the ordered
    list. *)
From S2P Require Export SettledFederation ReconcileWalk ControllerProofs.

(** ** The parts *)

Inductive part :=
  | DeletionPart | NamespacesPart | PackagePart | SecretsPart | InstancePart | OlmPart
  | FederationPart | StackPart.

#[export] Instance part_eq : EqDecision part.
Proof. solve_decision. Defined.

Section Parts.
Context {L : Lib} {LOk : LibOk L}.
Context (ocm : option ClientOptions) (ClusterID opns : string) (c : AddonInstallOLMCommon).

Definition reconciler (p : part) : addonReconciler :=
  match p with
  | DeletionPart => addonDeletionReconciler [legacyDeletionHandler; addonInstanceDeletionHandler]
  | NamespacesPart => namespaceReconciler
  | PackagePart => PackageOperatorReconciler ClusterID
  | SecretsPart => addonSecretPropagationReconciler opns
  | InstancePart => addonInstanceReconciler
  | OlmPart => olmReconciler
  | FederationPart => monitoringFederationReconciler opns
  | StackPart => monitoringStackReconciler
  end.

Definition part_settled (p : part) (a : Addon) (w : objects) : Prop :=
  match p with
  | DeletionPart => True
  | NamespacesPart => namespaces_settled a w
  | PackagePart => package_settled ocm ClusterID a w
  | SecretsPart => secrets_settled opns a w
  | InstancePart => instance_settled c w
  | OlmPart => settled a c w
  | FederationPart => federation_settled opns a w
  | StackPart => stack_settled a c w
  end.

(** Where it writes. *)
Definition part_region (p : part) (a : Addon) : region :=
  match p with
  | DeletionPart => fun _ _ => False
  | NamespacesPart => namespace_region a
  | PackagePart => fun k _ => k = KClusterObjectTemplate
  | SecretsPart => secret_region
  | InstancePart => fun k _ => k = KAddonInstance
  | OlmPart => olm_region
  | FederationPart => federation_region a
  | StackPart => fun k _ => k = KMonitoringStack
  end.

(** Addons that can be settled: the configuration is usable, the names are
    different, and the namespaces of the operator and of the monitoring are none
    of the Addon's. *)
Record regular (a : Addon) : Prop := {
  regular_config : parsed a = Some c;
  regular_scope : Namespace (a_Meta a) = "";
  regular_alive : DeletionTimestamp (a_Meta a) = None;
  regular_unmarked : markedForDeletion a = false;
  regular_namespaces : NoDup (map an_Name (Namespaces (a_Spec a)));
  regular_placements : NoDup (placement_keys a);
  regular_sources : NoDup (source_names a c);
  regular_operator : opns ∉ map an_Name (Namespaces (a_Spec a));
  regular_monitoring : GetMonitoringNamespaceName a ∉ map an_Name (Namespaces (a_Spec a));
  regular_apart : GetMonitoringNamespaceName a <> opns
}.

(** No object of others is taken for one of the Addon's. *)
Definition tidy (a : Addon) (w : objects) : Prop := apart opns a w /\ no_strays a w.

(** *** Addons that are alike *)

Lemma placement_keys_canonical a : placement_keys (canonical a) = placement_keys a.
Proof.
  unfold placement_keys, canonical. simpl. f_equal. apply map_ext. intros ref. by rewrite map_map.
Qed.
Lemma stake_canonical a : addon_stake opns (canonical a) c = addon_stake opns a c.
Proof.
  assert (namespace_keys (canonical a) = namespace_keys a) as Hn.
  { unfold namespace_keys, canonical. simpl. by rewrite map_map. }
  unfold addon_stake, addon_wants. rewrite Hn, placement_keys_canonical. done.
Qed.

Lemma regular_alike a b : alike a b -> regular b -> regular a.
Proof.
  intros Hab [H1 H2 H3 H4 H5 H6 H7 H8 H9 H10].
  assert (Namespace (a_Meta a) = Namespace (a_Meta b)) as Hs by by apply (alike_eq (fun a => Namespace (a_Meta a))).
  assert (GetMonitoringNamespaceName a = GetMonitoringNamespaceName b) as Hm by by apply (alike_eq GetMonitoringNamespaceName).
  split; rewrite ?(names_alike a b) by done; rewrite ?Hm; try done.
  - rewrite <- H1. by apply (alike_eq parsed).
  - by rewrite Hs.
  - rewrite <- H3. by apply (alike_eq (fun a => DeletionTimestamp (a_Meta a))).
  - rewrite <- H4. by apply (alike_eq markedForDeletion).
  - by rewrite (alike_eq placement_keys a b placement_keys_canonical Hab).
  - by rewrite (alike_eq (fun a => source_names a c) a b).
Qed.

Lemma tidy_canonical a w : tidy (canonical a) w = tidy a w.
Proof. reflexivity. Qed.

Lemma namespace_meta_canonical a ns : namespace_meta (canonical a) (relabelled a ns) = namespace_meta a ns.
Proof.
  change (namespace_meta (canonical a)) with (namespace_meta a). unfold namespace_meta, AddCommonLabels.
  destruct ns as [n [l|] an]; [|done]. simpl. unfold WithNamespaceLabels. simpl.
  rewrite writes_twice. done.
Qed.

Lemma part_settled_canonical p a w : part_settled p (canonical a) w <-> part_settled p a w.
Proof.
  assert (forall (A B C : Prop), (A <-> B) -> (A /\ C <-> B /\ C)) as Hand by tauto.
  destruct p; try reflexivity; simpl.
  - unfold namespaces_settled.
    assert (kept_namespace (canonical a) = kept_namespace a) as ->.
    { unfold kept_namespace, wanted_names. by rewrite relabelled_names. }
    apply Hand. unfold canonical at 2. simpl. rewrite Forall_map. apply Forall_iff. intros ns.
    unfold namespace_settled, namespace_good. by rewrite namespace_meta_canonical.
  - unfold secrets_settled.
    assert (kept_secret (canonical a) = kept_secret a) as -> by (unfold kept_secret; by rewrite placement_keys_canonical).
    apply Hand. apply Forall_iff. intros ref. apply exist_proper. intros data. 
    assert (forall (A B C : Prop), (A <-> B) -> (C /\ A <-> C /\ B)) as Hand' by tauto. apply Hand'.
    unfold canonical at 2. simpl. by rewrite Forall_map.
Qed.

Lemma part_settled_alike p a b w : alike a b -> part_settled p a w <-> part_settled p b w.
Proof. intros H. by rewrite <- (part_settled_canonical p a), H, part_settled_canonical. Qed.
Lemma tidy_alike a b w : alike a b -> tidy a w = tidy b w.
Proof. intros H. by rewrite <- (tidy_canonical a), H. Qed.
Lemma stake_alike a b : alike a b -> addon_stake opns a c = addon_stake opns b c.
Proof. intros H. by rewrite <- (stake_canonical a), H, stake_canonical. Qed.

Lemma region_alike p a b : alike a b -> part_region p a = part_region p b.
Proof.
  apply (alike_eq (part_region p)). intros d. destruct p; try reflexivity. simpl. unfold namespace_region.
  assert (kept_namespace (canonical d) = kept_namespace d) as ->.
  { unfold kept_namespace, wanted_names. by rewrite relabelled_names. }
  assert (namespace_keys (canonical d) = namespace_keys d) as ->.
  { unfold namespace_keys, canonical. simpl. by rewrite map_map. }
  done.
Qed.

Lemma own_write_alike a b : alike a b -> own_write opns a c = own_write opns b c.
Proof.
  apply (alike_eq (fun a => own_write opns a c)). intros d.
  assert (addon_writes (canonical d) c = addon_writes d c) as Hw.
  { unfold addon_writes. rewrite placement_keys_canonical.
    assert (namespace_keys (canonical d) = namespace_keys d) as -> by
      (unfold namespace_keys, canonical; simpl; by rewrite map_map). done. }
  unfold own_write. rewrite Hw. change (addon_wants opns (canonical d) c) with (wants (addon_stake opns (canonical d) c)).
  by rewrite stake_canonical.
Qed.

(** *** Later and elsewhere *)

Lemma part_still p a w w' : still (addon_stake opns a c) w w' -> part_settled p a w -> part_settled p a w'.
Proof.
  intros Hq. destruct p; simpl; [done|..].
  - by eapply namespaces_still.
  - by eapply package_still.
  - by eapply secrets_still.
  - by eapply instance_still.
  - by eapply olm_still.
  - by eapply federation_still.
  - by eapply stack_still.
Qed.

Lemma tidy_still a w w' : still (addon_stake opns a c) w w' -> tidy a w -> tidy a w'.
Proof. intros Hq [H1 H2]. split; [by eapply apart_still|by eapply no_strays_still]. Qed.

Lemma namespaces_elsewhere a w w' :
  regular a -> changed_in (federation_region a) w w' -> namespaces_settled a w -> namespaces_settled a w'.
Proof.
  intros Hr Hw [H1 H2]. split.
  - apply Forall_forall. intros ns Hns. eapply stands_elsewhere; [exact Hw| |by apply (proj1 (Forall_forall _ _) H1)].
    intros [= Hk]. apply (regular_monitoring _ Hr). rewrite <- Hk. apply list_elem_of_fmap. by exists ns.
  - eapply cleaned_elsewhere; [exact Hw| |exact H2]. intros key Hk. simpl in Hk.
    rewrite Hk. unfold kept_namespace, wanted_names. simpl. set_solver.
Qed.

(** The kinds of the objects that a part settles. *)
Definition part_kinds (p : part) : list kind :=
  match p with
  | DeletionPart => []
  | NamespacesPart => [KNamespace]
  | PackagePart => [KClusterObjectTemplate]
  | SecretsPart => [KSecret]
  | InstancePart => [KAddonInstance]
  | OlmPart => [KOperatorGroup; KNetworkPolicy; KCatalogSource; KSubscription]
  | FederationPart => [KNamespace; KSecret; KServiceMonitor]
  | StackPart => [KMonitoringStack]
  end.

Lemma part_kinds_elsewhere p (F : region) a w w' :
  changed_in F w w' -> (forall k key, k ∈ part_kinds p -> ~ F k key) -> part_settled p a w -> part_settled p a w'.
Proof.
  intros Hw HF. assert (forall k, k ∈ part_kinds p -> forall key, w' k key = w k key) as Hsame.
  { intros k Hk key. by apply Hw, HF. }
  destruct p; simpl in *; [done|..].
  - intros [H1 H2]. split.
    + eapply Forall_impl; [exact H1|]. intros ns. apply (stands_elsewhere _ _ _ F); [done|]. apply HF. set_solver.
    + eapply cleaned_elsewhere; [exact Hw| |exact H2]. intros key Hk. exfalso. eapply HF; [|exact Hk]. set_solver.
  - unfold package_settled. destruct (AddonPackageOperator _).
    + apply (stands_elsewhere _ _ _ F); [done|]. apply HF. set_solver.
    + apply (gone_elsewhere _ _ F); [done|]. apply HF. set_solver.
  - intros [H1 H2]. split.
    + eapply Forall_impl; [exact H1|]. intros ref (data & (o & Ho & Hd) & Hs). exists data.
      split; [exists o; rewrite Hsame by set_solver; done|].
      eapply Forall_impl; [exact Hs|]. intros ns. apply (stands_elsewhere _ _ _ F); [done|]. apply HF. set_solver.
    + eapply cleaned_elsewhere; [exact Hw| |exact H2]. intros key Hk. exfalso. eapply HF; [|exact Hk]. set_solver.
  - apply (stands_elsewhere _ _ _ F); [done|]. apply HF. set_solver.
  - intros (H1 & H2 & H3 & H4). split; [|split; [|split]].
    + eapply settled_kept; [|exact H1]. apply Hsame. set_solver.
    + eapply settled_kept; [|exact H2]. apply Hsame. set_solver.
    + eapply Forall_impl; [exact H3|]. intros [name image]. apply settled_kept, Hsame. set_solver.
    + eapply settled_kept; [|exact H4]. apply Hsame. set_solver.
  - unfold federation_settled. destruct (wanted_federation a).
    + intros (H1 & (data & (o & Ho & Hd) & (t & Ht & Hg)) & H3). split; [|split].
      * revert H1. apply (stands_elsewhere _ _ _ F); [done|]. apply HF. set_solver.
      * exists data. split; [exists o|exists t]; by rewrite Hsame by set_solver.
      * eapply settled_kept; [|exact H3]. apply Hsame. set_solver.
    + intros [H1 H2]. split; [revert H1; apply (gone_elsewhere _ _ F); [done|]; apply HF; set_solver|].
      intros sm [Hsm Hl] Hne. rewrite Hsame in Hsm by set_solver. destruct (H2 sm (conj Hsm Hl) Hne) as [Hd Hg].
      split; [done|]. revert Hg. apply (gone_elsewhere _ _ F); [done|]. apply HF. set_solver.
  - unfold stack_settled. destruct (wanted_stack a); [|done]. apply settled_kept, Hsame. set_solver.
Qed.

(** A later part does not undo an earlier one. *)
Lemma part_elsewhere p q a w w' :
  regular a -> order_le (reconciler q) (reconciler p) -> p <> q -> apart opns a w' ->
  changed_in (part_region p a) w w' -> part_settled q a w -> part_settled q a w'.
Proof.
  intros Hr Hle Hne Ha Hw.
  destruct (decide (p = FederationPart /\ (q = NamespacesPart \/ q = SecretsPart))) as [[-> [-> | ->]]|Hno].
  - by apply namespaces_elsewhere.
  - apply secrets_elsewhere; try done; try apply Hr. eapply changed_in_mono; [|exact Hw]. by intros k key Hk ->.
  - apply part_kinds_elsewhere with (F := part_region p a); [done|]. intros k key Hk HF.
    unfold secret_region, namespace_region, olm_region, federation_region in HF.
    destruct p, q; try done; simpl in Hk, HF; try (by vm_compute in Hle; destruct Hle); try naive_solver.
    all: repeat match goal with
      | H : _ ∈ _ :: _ |- _ => apply elem_of_cons in H as [->|H]
      | H : _ ∈ [] |- _ => by apply elem_of_nil in H
      end; try done; naive_solver.
Qed.
(** *** One run *)

Section Runs.
Context (P : objects -> Prop) (a : Addon) (Hr : regular a).
Notation E := (verbatim ocm (fun w c' => is_write c' = true -> own_write opns a c w c' /\
  (P w -> unchanged (addon_stake opns a c) w c'))).

Lemma tidy_elsewhere F w w' : changed_in F w w' ->
  (forall k key, F k key -> k <> KSecret /\ k <> KServiceMonitor) -> tidy a w -> tidy a w'.
Proof.
  intros Hw HF [H1 H2]. split.
  - eapply apart_elsewhere; [exact Hw| |done]. intros key Hk. by destruct (HF _ _ Hk).
  - eapply no_strays_elsewhere; [exact Hw| |done]. intros key Hk. by destruct (HF _ _ Hk).
Qed.

Lemma deletion_settles s w : same_identity (st_addon s) a ->
  wpM E (sub_Reconcile (reconciler DeletionPart)) s w (fun w' _ s' => w' = w /\ same_identity (st_addon s') a).
Proof.
  intros Hs. simpl. unfold deletion_Reconcile. apply wpM_bind, wpM_get_addon.
  assert (markedForDeletion (st_addon s) = false) as ->.
  { unfold markedForDeletion. rewrite (proj1 Hs). apply (regular_unmarked _ Hr). }
  by apply wpM_pure.
Qed.

(** Where a run of the part for [a] leaves the cluster. *)
Definition ran (p : part) (w w' : objects) (r : subReconcilerResult * option error) (s' : St) : Prop :=
  alike (st_addon s') a /\ changed_in (part_region p a) w w' /\ tidy a w' /\
  (r = (resultNil, None) -> part_settled p a w').

Lemma ran_apart p w w' r s' : same_identity (st_addon s') a -> changed_in (part_region p a) w w' ->
  (forall k key, part_region p a k key -> k <> KSecret /\ k <> KServiceMonitor) -> tidy a w ->
  (r = (resultNil, None) -> part_settled p a w') -> ran p w w' r s'.
Proof.
  intros Hs Hw HF Ht Hr'. split; [by apply same_identity_alike|]. split; [done|]. split; [|done].
  by eapply tidy_elsewhere.
Qed.

Lemma part_settles (b : Prop) p s w :
  (forall w, P w -> b /\ part_settled p a w) -> (b -> part_settled p a w) -> tidy a w ->
  same_identity (st_addon s) a ->
  wpM E (sub_Reconcile (reconciler p)) s w (fun w' r s' => ran p w w' r s').
Proof.
  intros HP Hb Ht Hs. assert (forall w, P w -> part_settled p a w) as HPp by (intros w' Hw'%HP; apply Hw').
  pose proof (regular_config _ Hr) as Hc. destruct p; simpl in HPp |- *.
  - eapply wpM_mono; [by apply deletion_settles|]. intros w' r s' [-> Hs']. by apply ran_apart.
  - eapply wpM_mono; [apply (namespaces_settle ocm opns a c Hc P); [done|apply Hr|done]|].
    intros w' r s' (Hs' & Hw & Hset). split; [done|]. split; [done|]. split; [|done].
    eapply tidy_elsewhere; [exact Hw| |done]. by intros k key [-> _].
  - eapply wpM_mono; [apply (package_settles ocm ClusterID opns a c P); [done|apply Hr|done]|].
    intros w' r s' (Hs' & Hw & Hset). apply ran_apart; try done; [by eapply only_wrote_changed|by intros k key ->].
  - eapply wpM_mono; [apply (secrets_settle ocm opns a c Hc P); try done; try apply Hr; apply Ht|].
    intros w' r s' (Hs' & Hw & Ha & Hset). split; [by apply same_identity_alike|]. split; [done|]. split; [|done].
    split; [done|]. eapply no_strays_elsewhere; [exact Hw|done|apply Ht].
  - eapply wpM_mono; [apply (addonInstance_settles ocm opns a c Hc P); done|].
    intros w' r s' (Hs' & Hw & Hset). apply ran_apart; try done; [by eapply only_wrote_changed|by intros k key ->].
  - eapply wpM_mono; [apply (olm_settles ocm a c Hc P); [done|apply olm_permits|apply Hr|done]|].
    intros w' r s' (Hs' & Hw & Hset). apply ran_apart; try done. by intros [].
  - eapply wpM_mono; [apply (federation_settles ocm opns a c P) with (b := b); try done; try apply Hr; [|apply Ht]|].
    { intros w' Hw'%HP. apply Hw'. }
    intros w' r s' (Hs' & Hw & Ha & Hn & Hset). split; [by apply same_identity_alike|]. split; [done|]. split; [|done].
    split; [by apply Ha, Ht|done].
  - eapply wpM_mono; [apply (stack_settles ocm opns a c Hc P); done|].
    intros w' r s' (Hs' & Hw & Hset). apply ran_apart; try done; [by eapply only_wrote_changed|by intros k key ->].
Qed.
End Runs.
(** ** One pass *)

Section Pass.
Context (addon : Addon) (Hr : regular addon) (all : list part) (b : Prop).
Abbreviation st := (addon_stake opns addon c).
Definition all_settled (w : objects) : Prop := forall p, p ∈ all -> part_settled p addon w.
(** [b] says that the pass starts on a settled cluster. *)
Definition accepted (w : objects) (c' : call) : Prop := is_write c' = true ->
  own_write opns addon c w c' /\ (b /\ all_settled w -> unchanged st w c').
Notation E := (verbatim ocm accepted).

Lemma all_still w w' : all_settled w -> still st w w' -> all_settled w'.
Proof. intros Hw Hq p Hp. by eapply part_still, Hw. Qed.

Lemma part_runs p s w :
  p ∈ all -> (b -> all_settled w) -> tidy addon w -> alike (st_addon s) addon ->
  wpM E (sub_Reconcile (reconciler p)) s w
    (fun w' r s' => ran addon p w w' r s' /\ (b -> all_settled w')).
Proof.
  intros Hp Hb Ht Hs. unfold wpM.
  eapply wp_mono; [|apply (wp_remains ocm st all_settled all_still accepted b); [|exact Hb|]].
  2: { intros w' c' Ha Hw Hset. by apply Ha. }
  2: { pose proof (part_settles (fun w => b /\ all_settled w) (st_addon s) (regular_alike _ _ Hs Hr) b p s w) as Hrun.
    rewrite (stake_alike _ _ Hs), (own_write_alike _ _ Hs) in Hrun. apply Hrun; [| |by rewrite (tidy_alike _ _ _ Hs)|done].
    - intros w' [Hb' Hw']. split; [done|]. by apply (part_settled_alike _ _ _ _ Hs), Hw'.
    - intros Hb'. by apply (part_settled_alike _ _ _ _ Hs), Hb. }
  intros w' [r s'] [(H1 & H2 & H3 & H4) H5]. split; [|done]. split; [by etrans|].
  rewrite <- (region_alike _ _ _ Hs), <- (tidy_alike _ _ _ Hs). split; [done|]. split; [done|].
  intros Hz. by apply (part_settled_alike _ _ _ _ Hs), H4.
Qed.

Lemma run_settles (l : list part) : forall (before : list part) s w,
  (forall p, p ∈ l -> p ∈ all) -> (b -> all_settled w) -> tidy addon w -> alike (st_addon s) addon ->
  StronglySorted order_le (map reconciler l) ->
  (forall q, q ∈ before -> part_settled q addon w /\ forall p, p ∈ l -> order_le (reconciler q) (reconciler p)) ->
  wpM E (run_subReconcilers (map reconciler l)) s w (fun w' out s' =>
    alike (st_addon s') addon /\ tidy addon w' /\
    (out = None -> forall q, q ∈ before \/ q ∈ l -> part_settled q addon w')).
Proof.
  induction l as [|p l IH]; intros before s w Hl Hb Ht Hs Hsort Hbefore; cbn [map run_subReconcilers].
  { apply wpM_pure. split; [done|]. split; [done|]. intros _ q [Hq|Hq]; [by apply Hbefore|by apply elem_of_nil in Hq]. }
  inversion Hsort as [|? ? Hsort' Hle]; subst. apply wpM_bind.
  eapply wpM_mono; [apply part_runs; [apply Hl; left|done|done|done]|].
  intros w1 [res err] s1 [(Hs1 & Hw1 & Ht1 & Hset) Hb1]. destruct err as [err|].
  { apply wpM_bind, wpM_get_addon, wpM_bind. unfold report_error. by apply wpM_modify_recorder, wpM_pure. }
  destruct (sr_Stop res) eqn:Hstop; [by apply wpM_pure|].
  destruct (sr_Requeue res) eqn:Hrq; [by apply wpM_pure|].
  destruct (sr_RequeueAfter res) eqn:Hra; [by apply wpM_pure|].
  assert (res = resultNil) as -> by (destruct res; simpl in *; by subst). specialize (Hset eq_refl).
  eapply wpM_mono; [apply (IH (p :: before)); try done|].
  - intros q Hq. apply Hl. by right.
  - intros q [->|Hq]%elem_of_cons.
    + split; [done|]. intros x Hx. apply (proj1 (Forall_forall _ _) Hle). by apply list_elem_of_fmap_2.
    + destruct (Hbefore q Hq) as [Hq1 Hq2]. split; [|intros x Hx; apply Hq2; by right].
      destruct (decide (p = q)) as [->|Hne]; [done|].
      eapply part_elsewhere; [done|apply Hq2; left|done|apply Ht1|exact Hw1|done].
  - intros w2 out s2 (Hs2 & Ht2 & Hset2). split; [done|]. split; [done|].
    intros Hn q Hq. apply Hset2; [done|]. set_solver.
Qed.

(** ** One reconcile *)

Context (r : AddonReconciler) (Hall : getOrderedSubReconcilers r = map reconciler all).
Context (Hsort : StronglySorted order_le (map reconciler all)).

Lemma pass_settles s w :
  (b -> all_settled w) -> tidy addon w -> alike (st_addon s) addon ->
  wpM E (run_subReconcilers (getOrderedSubReconcilers r)) s w (fun w' out s' =>
    tidy addon w' /\ (out = None -> all_settled w')).
Proof.
  intros Hb Ht Hs. rewrite Hall.
  eapply wpM_mono; [apply (run_settles all []); try done; by intros q ?%elem_of_nil|].
  intros w' out s' (_ & Ht' & Hset). split; [done|]. intros Hn p Hp. apply Hset; [done|by right].
Qed.

Lemma pass_reads w c' : is_write c' = false -> env_allow E w c'.
Proof. simpl. congruence. Qed.

Lemma setAddonCRStatus_accepted s w : wpM E (setAddonCRStatus r) s w (fun _ _ _ => True).
Proof.
  assert (forall l s w, wpM E (check_nonBlocking (map reconciler l)) s w (fun _ _ _ => True)) as Hcheck.
  { clear s w. intros l. induction l as [|p l IH]; intros s w; [done|]. cbn [map check_nonBlocking].
    destruct p; try apply IH. simpl. apply wpM_bind.
    apply wpM_mono with (Q := fun _ _ _ => True).
    - unfold pko_IsReconciliationSuccessful. wp_run; by apply pass_reads.
    - intros w1 [ok [e|]] s1 _; [by apply wpM_pure|]. destruct (negb ok); [|by apply IH].
      apply wpM_bind, wpM_report; [by apply pass_reads|]. intros now w2 _. by apply wpM_pure. }
  unfold setAddonCRStatus. rewrite Hall. apply wpM_bind. eapply wpM_mono; [apply Hcheck|].
  intros w' [out|] s' _; [by apply wpM_pure|]. apply wpM_bind, wpM_report; [by apply pass_reads|].
  intros now w2 _. by apply wpM_pure.
Qed.

Lemma finish_accepted res err s w : wpM E (finish_reconcile r res err) s w (fun _ _ _ => True).
Proof.
  eapply wpM_mono; [apply (finish_reconcile_spec E); [apply pass_reads| |]|done].
  - intros w0 cl w1 w2 [H1 _] [H2 _] why. congruence.
  - done.
Qed.

Lemma reconcile_accepted req a s w :
  (b -> all_settled w) -> tidy addon w -> w KAddon req = Some a -> same_identity a addon ->
  ContainsFinalizer (a_Meta addon) cacheFinalizer = true ->
  wpM E (Reconcile r req) s w (fun _ _ _ => True).
Proof.
  intros Hb Ht Ha Hs Hf. unfold Reconcile. apply wpM_bind. apply (wpM_server_get ocm); [apply pass_reads|..].
  2: { intros e _ _. unfold report_error. by apply wpM_bind, wpM_modify_recorder, wpM_pure. }
  intros a' Ha' _ _. rewrite Ha in Ha'. injection Ha' as <-. apply wpM_bind, wpM_set_addon, wpM_bind.
  apply wpM_mono with (Q := fun _ _ _ => True); [|intros w' [res err] s' _; apply finish_accepted].
  set (s0 := with_addon _ s). assert (same_identity (st_addon s0) addon) as Hs0 by done. clearbody s0.
  unfold reconcile. apply wpM_bind, wpM_get_addon. rewrite (proj1 Hs0), (regular_alive _ Hr), time_is_zero. cbn [negb].
  unfold with_rlock. apply wpM_bind, wpM_call; [by apply pass_reads|]. intros [] w1 Hw1. simpl in Hw1. subst w1.
  apply wpM_defer with (abort := fun _ _ => True); [intros; by split; [apply pass_reads|]|done|].
  change (mkEnv (env_step E) (env_allow E) (fun _ _ => True)) with E.
  apply wpM_mono with (Q := fun _ _ _ => True); [|intros; by split; [apply pass_reads|]].
  unfold reconcile_locked. apply wpM_bind, wpM_get_addon, wpM_bind, wpM_call; [by apply pass_reads|].
  intros paused w1 Hw1. simpl in Hw1. subst w1.
  destruct paused; [by apply wpM_bind, wpM_report; [apply pass_reads|intros; apply wpM_pure]|].
  destruct (Paused _); [by apply wpM_bind, wpM_report; [apply pass_reads|intros; apply wpM_pure]|].
  apply wpM_bind, wpM_modify_addon, wpM_bind, wpM_get_addon.
  destruct (addonIsBeingUpgraded _); [by apply wpM_bind, wpM_report; [apply pass_reads|intros; apply wpM_pure]|].
  set (s1 := with_addon removeAddonPauseCondition s0). assert (same_identity (st_addon s1) addon) as Hs1 by done.
  clearbody s1. unfold reconcile_unpaused. apply wpM_bind.
  apply wpM_mono with (Q := fun w' e s' => w' = w /\ same_identity (st_addon s') addon).
  2: { intros w1 [e|] s2 [-> Hs2]; [by apply wpM_pure|]. apply wpM_bind.
    eapply wpM_mono; [apply pass_settles; [done|done|by apply same_identity_alike]|].
    intros w3 [out|] s3 _; [by apply wpM_pure|]. apply setAddonCRStatus_accepted. }
  unfold prepare_addon. apply wpM_bind, wpM_get_addon, wpM_bind.
  assert (forall s2 w2, w2 = w -> same_identity (st_addon s2) addon ->
    wpM E ensure_cache_finalizer s2 w2 (fun w' _ s' => w' = w /\ same_identity (st_addon s') addon)) as Hfin.
  { intros s2 w2 -> Hs2. unfold ensure_cache_finalizer. apply wpM_bind, wpM_get_addon. rewrite (proj1 Hs2), Hf.
    by apply wpM_pure. }
  destruct (installedConditionMissing _); [|by apply wpM_pure, Hfin].
  apply wpM_report; [by apply pass_reads|]. intros now w2 Hw2. by apply Hfin.
Qed.
End Pass.
End Parts.

(** ** The theorem *)

Section Rest.
Context {L : Lib} {LOk : LibOk L}.

Lemma ordered_parts ClusterID opns b1 b2 opts : exists l,
  getOrderedSubReconcilers (NewAddonReconciler ClusterID opns b1 b2 opts) = map (reconciler ClusterID opns) l /\
  StronglySorted order_le (map (reconciler ClusterID opns) l).
Proof.
  set (r := NewAddonReconciler ClusterID opns b1 b2 opts).
  assert (Forall (fun x => exists p, x = reconciler ClusterID opns p) (getOrderedSubReconcilers r)) as Hparts.
  { apply Forall_ordered. subst r. unfold NewAddonReconciler.
    match goal with |- context [fold_left _ _ ?r0] => set (r := r0) end.
    assert (ClusterExternalID_ r = ClusterID) as Hid by done.
    assert (Forall (fun x => exists p, x = reconciler ClusterID opns p) (subReconcilers r)) as Hr.
    { repeat constructor; [by exists DeletionPart|by exists NamespacesPart|by exists SecretsPart|
        by exists InstancePart|by exists OlmPart|by exists FederationPart]. }
    revert Hid Hr. generalize r. clear r. induction opts as [|o opts IH]; intros r Hid Hr; [done|].
    apply IH; [by destruct o|]. destruct o; apply Forall_app; (split; [done|]); apply Forall_singleton.
    - by exists StackPart.
    - exists PackagePart. simpl. by rewrite Hid. }
  assert (exists l, getOrderedSubReconcilers r = map (reconciler ClusterID opns) l) as [l Hl].
  { clear -Hparts. induction Hparts as [|x xs [p ->] _ [l ->]]; [by exists []|by exists (p :: l)]. }
  exists l. split; [done|]. rewrite <- Hl. apply Sorted_StronglySorted; [exact order_le_trans|].
  by apply getOrdered_acc.
Qed.

(** A settled cluster stays so, and a reconcile of it changes nothing. *)
Lemma settled_rests (ocm : option ClientOptions) (ClusterID opns : string) (b1 b2 : bool)
    (opts : list AddonReconcilerOption) (addon : Addon) (c : AddonInstallOLMCommon) (l : list part)
    (req : ObjectKey) (w : objects) :
  let r := NewAddonReconciler ClusterID opns b1 b2 opts in
  let st := addon_stake opns addon c in
  getOrderedSubReconcilers r = map (reconciler ClusterID opns) l ->
  StronglySorted order_le (map (reconciler ClusterID opns) l) ->
  regular opns c addon -> ContainsFinalizer (a_Meta addon) cacheFinalizer = true ->
  tidy opns addon w -> all_settled ocm ClusterID opns c addon l w ->
  forall s2 w2 a, still st w w2 -> w2 KAddon req = Some a -> same_identity a addon ->
    wpM (verbatim ocm (fun w c' => is_write c' = true -> unchanged st w c')) (Reconcile r req) s2 w2
      (fun w3 _ _ => still st w2 w3).
Proof.
  intros r st Hl Hsort Hr Hf Ht Hset s2 w2 a Hq Ha Hsa. set (P := all_settled ocm ClusterID opns c addon l).
  assert (forall w w', P w -> still st w w' -> P w') as Hstill by apply all_still.
  eapply wp_mono; [|eapply (wp_at_rest ocm st P Hstill (accepted ocm ClusterID opns c addon l True))].
  - by intros w3 [res s3].
  - intros w3 c' Hacc Hw HP. by apply Hacc.
  - by eapply Hstill.
  - apply (reconcile_accepted ocm ClusterID opns c addon Hr l True r Hl Hsort req a s2 w2); try done.
    + intros _. by eapply Hstill.
    + by eapply tidy_still.
Qed.

(** C3: The Addon controller comes to rest.  On a server that stores what it is
    sent, for a regular Addon in a cluster where no object of others is taken
    for one of its own: after a pass over the sub-reconcilers that ended without
    an early return, whatever calls failed or were answered before, every later
    reconcile of the Addon, with the same metadata and specification, makes no
    write but the report of the Addon's status and writes of what is already
    stored, deletes nothing but what is being deleted, and leaves the cluster
    as it was for the controller; and this however often it happens, and
    whichever of its calls fail, as long as others keep to their own objects. *)
Theorem controller_comes_to_rest (ocm : option ClientOptions) (ClusterID opns : string) (b1 b2 : bool)
    (opts : list AddonReconcilerOption) (addon : Addon) (c : AddonInstallOLMCommon)
    (req : ObjectKey) (s : St) (w : objects) :
  let r := NewAddonReconciler ClusterID opns b1 b2 opts in
  let st := addon_stake opns addon c in
  regular opns c addon -> ContainsFinalizer (a_Meta addon) cacheFinalizer = true ->
  tidy opns addon w -> same_identity (st_addon s) addon ->
  wpM (verbatim ocm (fun _ _ => True)) (run_subReconcilers (getOrderedSubReconcilers r)) s w
    (fun w' out _ => out = None -> forall s2 w2 a,
       still st w' w2 -> w2 KAddon req = Some a -> same_identity a addon ->
       wpM (verbatim ocm (fun w c' => is_write c' = true -> unchanged st w c')) (Reconcile r req) s2 w2
         (fun w3 _ _ => still st w2 w3)).
Proof.
  intros r st Hr Hf Ht Hs. destruct (ordered_parts ClusterID opns b1 b2 opts) as (l & Hl & Hsort).
  eapply wpM_mono; [eapply wp_allow_mono;
    [|exact (pass_settles ocm ClusterID opns c addon Hr l False r Hl Hsort s w (fun H => match H with end) Ht
        (same_identity_alike _ _ Hs))]; done|].
  intros w' out _ [Ht' Hset] Hout. by apply (settled_rests ocm ClusterID opns b1 b2 opts addon c l), Hset.
Qed.
End Rest.
