(* ===== verification/Health.v ===== *)
(** * A healthy server

    The server of [Server] may fail at every call.  A [healthy] one answers: a
    read fails only for what is not there, a creation for what is there already,
    and writes leave the status of an object alone.  What a reconcile makes of
    the cluster of such a server only [grows]: nothing that the Addon wants goes
    away or loses its status, and what it has copied stays a good copy. *)
From S2P Require Export Footprint Quiescence.

(** ** The server *)

(** The status that the controllers look at. *)
Definition same_status (k : kind) : obj k -> obj k -> Prop :=
  match k with
  | KNamespace => fun a b => ns_Phase a = ns_Phase b
  | KAddonInstance => fun a b => ai_Status a = ai_Status b
  | KCatalogSource => fun a b => cs_GRPCConnectionState a = cs_GRPCConnectionState b
  | KSubscription => fun a b => sub_Status a = sub_Status b
  | KMonitoringStack => fun a b => ms_Conditions a = ms_Conditions b
  | KAddon => fun a b => a_Status a = a_Status b
  | _ => fun _ _ => True
  end.

#[export] Instance same_status_preorder k : PreOrder (same_status k).
Proof. split; destruct k; simpl; first [done|by intros ?|by intros ? ? ?|intros ? ? ?; congruence]. Qed.

Section Health.
Context {L : Lib} {LOk : LibOk L}.
Context (ocm : option ClientOptions).

(** The answers, beyond what is stored; the operator is not paused. *)
Definition serves (w : objects) (c : call) : resp c -> Prop :=
  match c with
  | CGet _ k _ => fun r : obj k + error => forall e, r = inr e -> IsNotFound (Some e) = true
  | CList _ k _ _ => fun r : list (obj k) + error => exists items, r = inl items /\ NoDup (map (obj_key k) items)
  | CCreate k _ => fun r : obj k + error => forall e, r = inr e -> IsAlreadyExists (Some e) = true
  | CUpdate k o => fun r : obj k + error => forall cur, w k (obj_key k o) = Some cur -> exists o', r = inl o' /\ same_status k o' cur
  | CPatch k o base => fun r : obj k + error => w k (obj_key k o) = Some base -> exists o', r = inl o' /\ same_status k o' base
  | CStatusUpdate k o => fun r : obj k + error => w k (obj_key k o) <> None -> exists o', r = inl o' /\ same_status k o' o
  | CDelete k key => fun r : option error => match w k key with
      | Some _ => r = None
      | None => forall e, r = Some e -> IsNotFound (Some e) = true
      end
  | CLoadGlobalPause => fun r : bool => r = false
  | _ => fun _ => True
  end.

(** A healthy server, which never sees a panic. *)
Definition healthy : env objects :=
  mkEnv (fun w c r w' => stores_verbatim ocm w c r w' /\ serves w c r) (fun _ _ => True) (fun _ _ => False).
(** One of which more is known. *)
Definition known (R : objects -> objects -> Prop) : env objects :=
  mkEnv (fun w c r w' => (stores_verbatim ocm w c r w' /\ serves w c r) /\ R w w') (fun _ _ => True) (fun _ _ => False).

(** What every accepted call does to the cluster is known of the answers. *)
Lemma wp_known {A} (R : objects -> objects -> Prop) allow (m : prog A) w Q Q' :
  (forall w c r w', allow w c -> stores_verbatim ocm w c r w' -> serves w c r -> R w w') ->
  wp (verbatim ocm allow) m w Q -> wp (known R) m w Q' -> wp healthy m w (fun w' a => Q w' a /\ Q' w' a).
Proof.
  intros HR. revert w. induction m as [a|s|c k IH]; intros w; simpl; [done|done|].
  intros [Hc Hk] [_ Hk']. split; [done|]. intros r w' [Hst Hse]. apply IH; [by apply Hk|]. apply Hk'.
  split; [done|]. by eapply HR.
Qed.

Lemma wp_both {A} (R : objects -> objects -> Prop) allow (m : prog A) w Q Q' :
  wp (verbatim ocm allow) m w Q -> wp (known R) m w Q' -> wp (known R) m w (fun w' a => Q w' a /\ Q' w' a).
Proof.
  revert w. induction m as [a|s|c k IH]; intros w; simpl; [done|done|].
  intros [Hc Hk] [_ Hk']. split; [done|]. intros r w' Hst. apply IH; [apply Hk|apply Hk']; apply Hst.
Qed.

(** A preorder that every answer keeps, a program keeps. *)
Lemma wp_keeps {A} (R : objects -> objects -> Prop) `{!PreOrder R} (m : prog A) w Q :
  wp (known R) m w Q -> wp (known R) m w (fun w' a => Q w' a /\ R w w').
Proof.
  revert w. induction m as [a|s|c k IH]; intros w; simpl; [done|done|].
  intros [Hc Hk]. split; [done|]. intros r w' Hst. eapply wp_mono; [|by apply IH, Hk].
  intros w2 a [HQ H]. split; [done|]. etrans; [apply Hst|done].
Qed.

Lemma wpM_both {S A} (R : objects -> objects -> Prop) allow (m : M S A) s w Q Q' :
  wpM (verbatim ocm allow) m s w Q -> wpM (known R) m s w Q' ->
  wpM (known R) m s w (fun w' a s' => Q w' a s' /\ Q' w' a s').
Proof. intros H H'. eapply wp_mono; [|exact (wp_both R allow _ w _ _ H H')]. by intros w' [a s']. Qed.
Lemma wpM_keeps {S A} (R : objects -> objects -> Prop) `{!PreOrder R} (m : M S A) s w Q :
  wpM (known R) m s w Q -> wpM (known R) m s w (fun w' a s' => Q w' a s' /\ R w w').
Proof. intros H. eapply wp_mono; [|exact (wp_keeps R _ w _ H)]. by intros w' [a s']. Qed.

(** *** The calls *)

Section Calls.
Context {S : Type} (R : objects -> objects -> Prop).
Abbreviation E := (known R).
Implicit Types (s : S) (w : objects).

Lemma wpM_healthy_get cl k key s w (Q : objects -> (obj k + error) -> S -> Prop) :
  (forall o, w k key = Some o -> obj_key k o = key -> Q w (inl o) s) ->
  (forall e, IsNotFound (Some e) = true -> (forall o, w k key = Some o -> in_view cl k o = false) -> Q w (inr e) s) ->
  wpM E (do_call (CGet cl k key)) s w Q.
Proof.
  intros H1 H2. apply wpM_call; [done|]. intros [o|e] w' [[[-> H] Hse] _]; [by apply H1; apply H|].
  specialize (Hse e eq_refl). apply H2; [done|]. by apply H.
Qed.

(** The same for kinds that the cache holds. *)
Lemma wpM_healthy_read cl k key s w (Q : objects -> (obj k + error) -> S -> Prop) :
  (forall o : obj k, in_view cl k o = true) ->
  (forall o, w k key = Some o -> obj_key k o = key -> Q w (inl o) s) ->
  (forall e, IsNotFound (Some e) = true -> w k key = None -> Q w (inr e) s) ->
  wpM E (do_call (CGet cl k key)) s w Q.
Proof.
  intros Hv H1 H2. apply wpM_healthy_get; [done|]. intros e He H. apply H2; [done|].
  destruct (w k key) as [o|]; [|done]. specialize (H o eq_refl). by rewrite Hv in H.
Qed.

Lemma wpM_healthy_list cl k ns sel s w (Q : objects -> (list (obj k) + error) -> S -> Prop) :
  (forall items, (forall o, o ∈ items <-> w k (obj_key k o) = Some o /\ listable cl ns sel k o) ->
     NoDup (map (obj_key k) items) -> Q w (inl items) s) ->
  wpM E (do_call (CList cl k ns sel)) s w Q.
Proof.
  intros H. apply wpM_call; [done|]. intros r w' [[[-> Hr] (items & -> & Hn)] _]. by apply H.
Qed.

Lemma wpM_healthy_create k o s w (Q : objects -> (obj k + error) -> S -> Prop) :
  (forall o' w', w k (obj_key k o) = None -> wrote k o w (inl o') w' -> R w w' ->
     Q w' (inl o') s) ->
  (forall e, IsAlreadyExists (Some e) = true -> w k (obj_key k o) <> None -> Q w (inr e) s) ->
  wpM E (do_call (CCreate k o)) s w Q.
Proof.
  intros H1 H2. apply wpM_call; [done|]. intros [o'|e] w' [[[Hw H] Hse] HR].
  - by apply H1.
  - destruct Hw as [_ ->]. specialize (Hse e eq_refl). apply H2; auto.
Qed.

(** What is not there is created. *)
Lemma wpM_healthy_add k o s w (Q : objects -> (obj k + error) -> S -> Prop) :
  w k (obj_key k o) = None ->
  (forall o' w', wrote k o w (inl o') w' -> R w w' -> Q w' (inl o') s) ->
  wpM E (do_call (CCreate k o)) s w Q.
Proof. intros Hw H. apply wpM_healthy_create; [auto|done]. Qed.

Lemma wpM_healthy_update k o cur s w (Q : objects -> (obj k + error) -> S -> Prop) :
  w k (obj_key k o) = Some cur ->
  (forall o' w', wrote k o w (inl o') w' -> same_status k o' cur -> R w w' ->
     Q w' (inl o') s) ->
  wpM E (do_call (CUpdate k o)) s w Q.
Proof.
  intros Hcur H. apply wpM_call; [done|]. intros r w' [[[Hw _] Hse] HR].
  destruct (Hse cur Hcur) as (o' & -> & Hss). by apply H.
Qed.

Lemma wpM_healthy_patch k o base s w (Q : objects -> (obj k + error) -> S -> Prop) :
  w k (obj_key k o) = Some base ->
  (forall o' w', wrote k o w (inl o') w' -> R w w' -> Q w' (inl o') s) ->
  wpM E (do_call (CPatch k o base)) s w Q.
Proof.
  intros Hcur H. apply wpM_call; [done|]. intros r w' [[[_ Hw] Hse] HR].
  destruct (Hse Hcur) as (o' & -> & _). specialize (Hw Hcur). by apply H.
Qed.

(** A deletion is accepted, or there was nothing to delete. *)
Lemma wpM_healthy_delete k key s w (Q : objects -> option error -> S -> Prop) :
  (forall w', deleted k key w w' -> R w w' -> Q w' None s) ->
  (forall e, w k key = None -> IsNotFound (Some e) = true -> Q w (Some e) s) ->
  wpM E (do_call (CDelete k key)) s w Q.
Proof.
  intros H1 H2. apply wpM_call; [done|]. intros [e|] w' [[Hst Hse] HR]; [|by apply H1].
  simpl in Hst, Hse. destruct (w k key) as [o|] eqn:Ho; [done|]. destruct Hst as [-> _]. apply H2; auto.
Qed.

(** Of other calls nothing is known. *)
Lemma wpM_healthy_other c s w (Q : objects -> resp c -> S -> Prop) :
  (forall r w', stores_verbatim ocm w c r w' -> Q w' r s) -> wpM E (do_call c) s w Q.
Proof. intros H. apply wpM_call; [done|]. intros r w' [[Hs _] _]. by apply H. Qed.
End Calls.
End Health.

(** ** What a reconcile makes of a cluster *)

Section Grows.
Context {L : Lib} {LOk : LibOk L}.
Context (ocm : option ClientOptions) (opns : string) (addon : Addon) (c : AddonInstallOLMCommon).

(** Others write the OLM Operators and the InstallPlans. *)
Definition of_others (k : kind) : Prop := k = KOperator \/ k = KInstallPlan.
Definition lasting (w w' : objects) : Prop := forall k key o, addon_wants opns addon c k key -> w k key = Some o ->
  exists o', w' k key = Some o' /\ same_status k o' o.
Definition grows (w w' : objects) : Prop :=
  lasting w w' /\
  (HasMonitoringFederation addon = true -> token_settled opns addon w -> token_settled opns addon w') /\
  (forall k key, of_others k -> w' k key = w k key) /\
  forall key, w KAddon key <> None -> w' KAddon key <> None.

Lemma grows_wanted w w' : grows w w' -> lasting w w'.
Proof. by intros [? _]. Qed.
Lemma grows_token w w' : grows w w' ->
  HasMonitoringFederation addon = true -> token_settled opns addon w -> token_settled opns addon w'.
Proof. by intros (_ & ? & _). Qed.
Lemma grows_others w w' : grows w w' -> forall k key, of_others k -> w' k key = w k key.
Proof. by intros (_ & _ & ? & _). Qed.
Lemma grows_addons w w' : grows w w' -> forall key, w KAddon key <> None -> w' KAddon key <> None.
Proof. by intros (_ & _ & _ & ?). Qed.

#[export] Instance grows_preorder : PreOrder grows.
Proof.
  split; [intros w; split; [|done]; intros k key o _ Ho; by exists o|].
  intros w1 w2 w3 (H1 & H2 & H3 & H7) (H4 & H5 & H6 & H8). split; [|split; [auto|split; [|auto]]].
  - intros k key o1 Hk (o2 & Ho2 & Hs)%H1; [|done]. destruct (H4 k key o2 Hk Ho2) as (o3 & Ho3 & Hs').
    exists o3. split; [done|]. by etrans.
  - intros k key Hk. by rewrite H6, H3.
Qed.

Lemma grows_same w w' : (forall k key, k <> KAddon -> w' k key = w k key) ->
  (forall key, w KAddon key <> None -> w' KAddon key <> None) -> grows w w'.
Proof.
  intros Hw Ha. split; [|split; [|split; [|done]]].
  - intros k key o Hk Ho. exists o. rewrite Hw by (by intros ->). done.
  - intros _ (d & (p & Hp & Hd) & (t & Ht & Hg)). exists d. split; [exists p|exists t]; by rewrite Hw.
  - intros k key [-> | ->]; by apply Hw.
Qed.

(** A write at a key. *)
Lemma lasting_write k key w w' : only_wrote k key w w' ->
  (forall o, addon_wants opns addon c k key -> w k key = Some o -> exists o', w' k key = Some o' /\ same_status k o' o) ->
  lasting w w'.
Proof.
  intros Hw Hk k' key' o Hk' Ho. destruct (decide (k' = k /\ key' = key)) as [[-> ->]|Hne]; [by apply Hk|].
  exists o. by rewrite Hw.
Qed.

Context (Hr : regular opns c addon).

Lemma federation_keys : HasMonitoringFederation addon = true ->
  addon_wants opns addon c KSecret (prom_token_key opns) /\ addon_wants opns addon c KSecret (bearer_token_key addon) /\
  ~ addon_writes addon c KSecret (prom_token_key opns) /\ bearer_token_key addon ∉ source_keys opns addon.
Proof.
  intros Hf. split; [|split; [|split]].
  - right; right. auto.
  - right; right. auto.
  - intros [Hp|Hb]; [|by injection Hb as Hb; apply (regular_apart _ _ _ Hr)].
    by apply (regular_operator _ _ _ Hr), (placement_key_namespace _ _ Hp).
  - intros (ref & Hk & _)%list_elem_of_fmap. injection Hk as Hk _. by apply (regular_apart _ _ _ Hr).
Qed.

(** The operator's token keeps its content, and its copy stays good. *)
Lemma token_kept key w w' : only_wrote KSecret key w w' -> HasMonitoringFederation addon = true ->
  (key = prom_token_key opns -> forall p, w KSecret key = Some p ->
     exists p', w' KSecret key = Some p' /\ sec_Data p' = sec_Data p) ->
  (key = bearer_token_key addon -> forall p t, w KSecret (prom_token_key opns) = Some p -> w KSecret key = Some t ->
     token_good addon (sec_Data p) t -> exists t', w' KSecret key = Some t' /\ token_good addon (sec_Data p) t') ->
  token_settled opns addon w -> token_settled opns addon w'.
Proof.
  intros Hw Hf Hp Ht (d & (p & Hop & <-) & (t & Hot & Hg)). exists (sec_Data p). split.
  - destruct (decide (key = prom_token_key opns)) as [->|Hne]; [by destruct (Hp eq_refl p Hop) as (p' & ? & ?); exists p'|].
    exists p. split; [|done]. rewrite Hw by naive_solver. done.
  - destruct (decide (key = bearer_token_key addon)) as [->|Hne].
    + by destruct (Ht eq_refl p t Hop Hot Hg) as (t' & ? & ?); exists t'.
    + exists t. split; [|done]. rewrite Hw by naive_solver. done.
Qed.

Lemma token_elsewhere k key w w' : only_wrote k key w w' -> k <> KSecret ->
  token_settled opns addon w -> token_settled opns addon w'.
Proof.
  intros Hw Hk (d & (p & Hp & Hd) & (t & Ht & Hg)). exists d.
  split; [exists p|exists t]; (split; [|done]); rewrite Hw by naive_solver; done.
Qed.

(** A write that creates nothing at these keys and is accepted. *)
Lemma update_token (w w' : objects) (o o' : Secret) : own_write opns addon c w (CUpdate KSecret o) -> stored KSecret o w o' ->
  w' KSecret (obj_key KSecret o) = Some o' -> only_wrote KSecret (obj_key KSecret o) w w' ->
  HasMonitoringFederation addon = true -> token_settled opns addon w -> token_settled opns addon w'.
Proof.
  intros (Hwr & _ & Hcopy) [Hst _] Ho' Hw Hf. destruct (federation_keys Hf) as (_ & _ & Hn & _).
  apply (token_kept (obj_key KSecret o)); [done|done| |].
  - intros Hk. by rewrite Hk in Hwr.
  - intros Hk p t Hp _ _. exists o'. split; [done|]. destruct (Hcopy Hk) as (p' & Hp' & Hg).
    rewrite Hp in Hp'. injection Hp' as <-.
    destruct (copies_token_stored opns addon w KSecret o o' Hst Hcopy) as (x & Hx & Hgx); [|by rewrite Hp in Hx; injection Hx as <-].
    rewrite <- Hk. apply Hst.
Qed.

Lemma accepted_grows w c' r w' : (is_write c' = true -> own_write opns addon c w c') ->
  stores_verbatim ocm w c' r w' -> serves w c' r -> grows w w'.
Proof.
  intros Hc Hs Hse.
  destruct (is_write c') eqn:Hwr; [|by rewrite (stores_read _ _ _ _ _ Hwr Hs)].
  specialize (Hc eq_refl). 
  assert (forall k key, only_wrote k key w w' -> ~ of_others k ->
    (forall o, addon_wants opns addon c k key -> w k key = Some o -> exists o', w' k key = Some o' /\ same_status k o' o) ->
    (k = KSecret -> HasMonitoringFederation addon = true -> token_settled opns addon w -> token_settled opns addon w') ->
    (k = KAddon -> w' k key <> None) -> grows w w') as Hgrow.
  { intros k key Hw Hk H1 H2 H3. split; [by eapply lasting_write|split; [|split]].
    - intros Hf. destruct (decide (k = KSecret)) as [->|Hne]; [by apply H2|by eapply token_elsewhere].
    - intros k' key' Hk'. apply Hw. intros [-> _]. done.
    - intros key' Hno. destruct (decide (KAddon = k /\ key' = key)) as [[<- ->]|Hne]; [by apply H3|by rewrite Hw]. }
  destruct c' as [| |k o|k o|k o|k o base|k key| | | | | | | | | | |]; try done; simpl in Hs, Hse.
  - destruct Hs as [Hs Hn], r as [o'|e]; [|by destruct Hs as [_ ->]]. destruct Hs as (Hst & Ho' & Ho), Hc as (Hk & _).
    apply (Hgrow k (obj_key k o)); [done|by intros [-> | ->]|by intros x _ Hx; rewrite Hn in Hx| |intros _; by rewrite Ho'].
    intros -> Hf. apply (token_kept (obj_key KSecret o)); [done|done|..]; intros _; [intros p Hp|intros p t _ Ht];
      by rewrite Hn in *.
  - destruct Hs as [Hs Hn], r as [o'|e]; [|by destruct Hs as [_ ->]]. destruct Hs as (Hst & Ho' & Ho).
    apply (Hgrow k (obj_key k o)); [done|by destruct Hc as [Hk _]; intros [-> | ->]| | |intros _; by rewrite Ho'].
    + intros cur _ Hcur. destruct (Hse cur Hcur) as (x & [= <-] & Hss). by exists o'.
    + intros ->. by eapply update_token.
  - simpl in Hc. subst k. destruct r as [o'|e]; [|by destruct Hs as [_ ->]]. destruct Hs as (cur & _ & _ & _ & Hs).
    destruct Hs as (Ho' & Ho). apply grows_same; [intros k key Hk; apply Ho; naive_solver|].
    intros key. destruct (decide (key = obj_key KAddon o)) as [->|Hne]; [by rewrite Ho'|]. rewrite Ho; [done|naive_solver].
  - destruct Hc as (-> & Hk & Hb & _ & _ & _ & Hcont), Hs as [Ho Hs]. specialize (Hs Hb).
    destruct (Hse Hb) as (o' & -> & Hss). destruct Hs as ((Hst & _) & Ho' & _).
    apply (Hgrow KSecret (obj_key KSecret o)); [done|by intros []| | |done].
    + intros cur _ _. by exists o'.
    + intros _ Hf. destruct (federation_keys Hf) as (_ & _ & _ & Hn).
      apply (token_kept (obj_key KSecret o)); [done|done| |].
      * intros _ p Hp. rewrite Hb in Hp. injection Hp as <-. exists o'. split; [done|].
        destruct Hst as (_ & _ & _ & Hd). simpl in Hd, Hcont. congruence.
      * intros Hkey. by rewrite Hkey in Hk.
  - destruct r as [e|]; [by destruct Hs as [-> _]|]. destruct Hs as [Ho Hs], Hc as [Hnw Hc].
    apply (Hgrow k key); [done| |done| |].
    + destruct Hc as [Hc|[Hc _]]; by intros [-> | ->].
    + intros -> Hf. destruct (federation_keys Hf) as (H1 & H2 & _).
      apply (token_kept key); [done|done|..]; by intros ->.
    + intros ->. by destruct Hc as [Hc|[Hc _]].
Qed.
End Grows.
