(* ===== verification/Milestones.v ===== *)
(** * What a reconcile waits for

    A pass over the sub-reconcilers returns early when it has created something
    that is not ready yet: a namespace, a CatalogSource, the Subscription, the
    AddonInstance, the MonitoringStack; when it has copied the operator's token;
    and when it has registered the OLM Operator of the Addon with the event
    handler.  These are the [milestones] of an Addon.  On a healthy server where
    what there is gets ready, each part ends without an early return, or has
    reached a milestone ([proceeds]). *)
From S2P Require Export Health.

Inductive milestone := Present (k : kind) (key : ObjectKey) | Registered | TokenCopied.

#[export] Instance milestone_eq : EqDecision milestone.
Proof. solve_decision. Defined.

Section Milestones.
Context {L : Lib} {LOk : LibOk L}.
Context (ocm : option ClientOptions) (opns : string) (addon : Addon) (c : AddonInstallOLMCommon).

(** The Operator object that OLM has for the Addon, and the Subscription. *)
Definition olm_operator_key : ObjectKey := mkKey "" (PackageName c +:+ "." +:+ ic_Namespace c).
Definition subscription_key : ObjectKey := mkKey (ic_Namespace c) (SubscriptionName addon).
Definition registered (h : Handler.OperatorResourceHandler) : Prop :=
  (Handler.UpdateMap (meta_key (a_Meta addon)) olm_operator_key h).1 = false.

Definition milestones : list milestone :=
  map (Present KNamespace) (namespace_keys addon) ++
  (if HasMonitoringFederation addon
   then [Present KNamespace (monitoring_namespace_key addon); TokenCopied] else []) ++
  map (Present KCatalogSource) (map (mkKey (ic_Namespace c)) (source_names addon c)) ++
  [Present KAddonInstance (instance_key c); Present KSubscription subscription_key; Registered] ++
  [Present KMonitoringStack (stack_key addon c)].

Definition reached (s : St) (w : objects) (m : milestone) : Prop :=
  match m with
  | Present k key => w k key <> None
  | Registered => registered (st_handler s)
  | TokenCopied => token_settled opns addon w
  end.

(** ** Objects that are ready *)

(** The InstallPlan of a Subscription under manual approval is approved. *)
Definition approved (w : objects) (o : Subscription) : Prop :=
  exists spec, sub_Spec o = Some spec /\ (sub_InstallPlanApproval spec = ApprovalManual ->
    exists ref plan, sub_InstallPlanRef (sub_Status o) = Some ref /\
      w KInstallPlan (mkKey (key_Namespace ref) (key_Name ref)) = Some plan /\
      ip_Phase plan <> InstallPlanPhaseRequiresApproval).
(** The Subscription has installed a CSV, and OLM reports it as succeeded. *)
Definition csv_succeeded (w : objects) (o : Subscription) : Prop :=
  sub_InstalledCSV (sub_Status o) <> "" /\ sub_CurrentCSV (sub_Status o) <> "" /\
  exists operator ref, w KOperator olm_operator_key = Some operator /\
    findConcernedCSVReference (mkKey (ic_Namespace c) (sub_CurrentCSV (sub_Status o))) operator = Some ref /\
    getCSVPhase (Some ref) = CSVPhaseSucceeded.
(** The add-on has acknowledged its installation, if that is asked of it. *)
Definition acknowledged (o : AddonInstance) : Prop := InstallAckRequired (a_Spec addon) = true ->
  exists cond, FindStatusCondition (ai_Conditions (ai_Status o))
      (AddonInstanceCondition_String AddonInstanceConditionInstalled) = Some cond /\ cond_Status cond = ConditionTrue.
Definition stack_available (o : MonitoringStack) : Prop := exists available reconciled,
  scan_conditions (ms_Conditions o) None None = (Some available, reconciled) /\ obo_Status available = ConditionTrue.

Definition ready (w : objects) (k : kind) : obj k -> Prop :=
  match k with
  | KNamespace => fun o => ns_Phase o = NamespaceActive
  | KCatalogSource => fun o => connection_message o = None
  | KSubscription => csv_succeeded w
  | KAddonInstance => acknowledged
  | KMonitoringStack => stack_available
  | _ => fun _ => True
  end.

(** What the Addon wants and is there is ready. *)
Definition ready_world (w : objects) : Prop :=
  (forall k key o, addon_wants opns addon c k key -> w k key = Some o -> ready w k o) /\
  (forall o, w KSubscription subscription_key = Some o -> approved w o).

(** What must be there from the start. *)
Definition supplied (w : objects) : Prop :=
  (forall key, key ∈ source_keys opns addon -> w KSecret key <> None) /\
  (HasMonitoringFederation addon = true -> w KSecret (prom_token_key opns) <> None).

Abbreviation grows := (grows opns addon c).

Lemma grows_present w w' k key : grows w w' -> addon_wants opns addon c k key -> w k key <> None -> w' k key <> None.
Proof. intros Hg Hk Hw. destruct (w k key) as [o|] eqn:Ho; [|done]. destruct (grows_wanted _ _ _ _ _ Hg k key o Hk Ho) as (o' & -> & _). done. Qed.

Lemma supplied_grows w w' : grows w w' -> supplied w -> supplied w'.
Proof.
  intros Hg [H1 H2]. split.
  - intros key Hk. eapply grows_present; [done| |by apply H1]. right; by left.
  - intros Hf. eapply grows_present; [done| |by apply H2]. right; right. auto.
Qed.

Lemma ready_same w w' k (o o' : obj k) : grows w w' -> same_status k o' o -> ready w k o -> ready w' k o'.
Proof.
  intros Hg Hs. destruct k; simpl in *; try done; rewrite ?Hs; try done.
  - unfold acknowledged. by rewrite Hs.
  - unfold connection_message. by rewrite Hs.
  - unfold csv_succeeded. rewrite Hs, (grows_others _ _ _ _ _ Hg) by (by left). done.
  - unfold stack_available. by rewrite Hs.
Qed.

Lemma approved_same w w' (o o' : Subscription) : grows w w' -> sub_Status o' = sub_Status o ->
  (forall spec, sub_Spec o = Some spec -> exists spec', sub_Spec o' = Some spec' /\
     sub_InstallPlanApproval spec' = sub_InstallPlanApproval spec) ->
  approved w o -> approved w' o'.
Proof.
  intros Hg Hs Hsp (spec & Ho & Hm). destruct (Hsp spec Ho) as (spec' & Ho' & Ha). exists spec'. split; [done|].
  rewrite Ha, Hs. intros H. destruct (Hm H) as (ref & plan & H1 & H2 & H3). exists ref, plan.
  rewrite (grows_others _ _ _ _ _ Hg) by (by right). done.
Qed.

(** ** Progress *)

Lemma milestone_wanted k key : Present k key ∈ milestones -> addon_wants opns addon c k key.
Proof.
  unfold milestones. rewrite !elem_of_app. intros [H|[H|[H|[H|H]]]].
  - apply list_elem_of_fmap in H as (x & [= -> ->] & Hx). by left.
  - destruct (HasMonitoringFederation addon) eqn:Hf; [|by apply elem_of_nil in H].
    apply elem_of_cons in H as [[= -> ->]|[H|H%elem_of_nil]%elem_of_cons]; [by right|done..].
  - apply list_elem_of_fmap in H as (x & [= -> ->] & Hx). exact Hx.
  - apply elem_of_cons in H as [[= -> ->]|[[= -> ->]|[H|H%elem_of_nil]%elem_of_cons]%elem_of_cons]; done.
  - apply elem_of_cons in H as [[= -> ->]|H]; [done|by apply elem_of_nil in H].
Qed.

Lemma token_milestone : TokenCopied ∈ milestones -> HasMonitoringFederation addon = true.
Proof.
  unfold milestones. rewrite !elem_of_app. destruct (HasMonitoringFederation addon); [done|].
  intros [H|[H|[H|[H|H]]]]; [by apply list_elem_of_fmap in H as (? & ? & _)|by apply elem_of_nil in H|
    by apply list_elem_of_fmap in H as (? & ? & _)|set_solver..].
Qed.

(** A milestone that is reached stays so. *)
Definition later (s s' : St) : Prop := registered (st_handler s) -> registered (st_handler s').
Lemma reached_later s w s' w' m : m ∈ milestones -> grows w w' -> later s s' -> reached s w m -> reached s' w' m.
Proof.
  intros Hm Hg Hs. destruct m as [k key| |]; simpl; [|done|].
  - eapply grows_present; [done|by apply milestone_wanted].
  - by apply (grows_token _ _ _ _ _ Hg), token_milestone.
Qed.

(** Also while others keep to their own objects. *)
Lemma present_still w w' k key : still (addon_stake opns addon c) w w' -> addon_wants opns addon c k key ->
  w k key <> None -> w' k key <> None.
Proof.
  intros Hq Hk Hw. destruct (w k key) as [o|] eqn:Ho; [|done].
  destruct (stands_still _ _ _ Hq k key (fun _ => True)) as (o' & -> & _); [done|done|by exists o|done].
Qed.
Lemma token_still w w' : still (addon_stake opns addon c) w w' -> HasMonitoringFederation addon = true ->
  token_settled opns addon w -> token_settled opns addon w'.
Proof.
  intros Hq Hf (data & H1 & H2). exists data. split; [revert H1|revert H2]; apply (stands_still _ _ _ Hq).
  - intros a b [(_ & _ & _ & Hd) _]. simpl in Hd. by rewrite Hd.
  - right; right. auto.
  - intros a b [(_ & Hor & _ & Hd) _] [Hc Hdata]. simpl in Hd, Hor. split; [|congruence].
    unfold HasSameController in *. by rewrite (get_controller (sec_Meta a)), Hor, <- get_controller.
  - right; right. auto.
Qed.
Lemma reached_still s w s' w' m : m ∈ milestones -> still (addon_stake opns addon c) w w' -> later s s' ->
  reached s w m -> reached s' w' m.
Proof.
  intros Hm Hq Hs. destruct m as [k key| |]; simpl; [|done|].
  - eapply present_still; [done|by apply milestone_wanted].
  - by apply token_still, token_milestone.
Qed.
Lemma supplied_still w w' : still (addon_stake opns addon c) w w' -> supplied w -> supplied w'.
Proof.
  intros Hq [H1 H2]. split.
  - intros key Hk. eapply present_still; [done| |by apply H1]. right; by left.
  - intros Hf. eapply present_still; [done| |by apply H2]. right; right. auto.
Qed.

Section Since.
(** The start of the pass. *)
Context (s0 : St) (w0 : objects) (Hready : ready_world w0).

Definition progressed (s : St) (w : objects) : Prop := exists m, m ∈ milestones /\ ~ reached s0 w0 m /\ reached s w m.

Lemma progressed_later s w s' w' : grows w w' -> later s s' -> progressed s w -> progressed s' w'.
Proof. intros Hg Hl (m & Hm & H0 & H). exists m. split; [done|]. split; [done|]. by eapply reached_later. Qed.

(** What was found was ready at the start, or came during the pass. *)
Lemma found_ready k key s w o : Present k key ∈ milestones -> grows w0 w -> w k key = Some o ->
  ready w k o \/ progressed s w.
Proof.
  intros Hm Hg Ho. pose proof (milestone_wanted _ _ Hm) as Hk. destruct (w0 k key) as [o0|] eqn:H0.
  - left. destruct (grows_wanted _ _ _ _ _ Hg k key o0 Hk H0) as (o' & Ho' & Hs).
    rewrite Ho in Ho'. injection Ho' as <-. eapply ready_same; [done|done|]. by eapply Hready.
  - right. exists (Present k key). split; [done|]. simpl. rewrite H0, Ho. split; [by intros []|done].
Qed.
Lemma created_progress k key s w w' : Present k key ∈ milestones -> grows w0 w -> w k key = None -> w' k key <> None ->
  progressed s w'.
Proof.
  intros Hm Hg Hw Hw'. exists (Present k key). split; [done|]. simpl. split; [|done].
  intros H0. by apply (grows_present w0 w k key Hg (milestone_wanted _ _ Hm) H0).
Qed.
End Since.
End Milestones.
