(* ===== verification/Proceeds.v ===== *)
(** * Each part proceeds

    On a healthy server every sub-reconciler ends without an early return, or
    has reached a milestone: it makes no call that fails, and waits only for
    what has just been created. *)
From S2P Require Export Milestones.

Section Proceeds.
Context {L : Lib} {LOk : LibOk L}.
Context (ocm : option ClientOptions) (ClusterID opns : string) (addon : Addon) (c : AddonInstallOLMCommon).
Context (Hr : regular opns c addon).
Context (s0 : St) (w0 : objects) (Hready : ready_world opns addon c w0).
Abbreviation grown := (grows opns addon c).
Abbreviation later := (later addon c).
Abbreviation progress := (progressed opns addon c s0 w0).
Notation E := (known ocm grown).

(** What a part leaves. *)
Definition proceeds (s : St) (w' : objects) (r : subReconcilerResult * option error) (s' : St) : Prop :=
  later s s' /\ (r = (resultNil, None) \/ progress s' w').

(** The steps that touch the Addon in memory alone. *)
Definition same_handler (s s' : St) : Prop := st_handler s' = st_handler s.
Lemma handler_later s s' : same_handler s s' -> later s s'.
Proof. unfold same_handler, Milestones.later. by intros ->. Qed.

Lemma progress_kept s w s' w' : same_handler s s' -> grown w w' -> progress s w -> progress s' w'.
Proof. intros Hs Hg. apply progressed_later; [done|by apply handler_later]. Qed.
Lemma progress_state s s' w : same_handler s s' -> progress s w -> progress s' w.
Proof. intros Hs. by apply progress_kept. Qed.

Lemma wpM_healthy_report f s w (Q : objects -> unit -> St -> Prop) :
  (forall now, Q w tt (with_addon (f now) s)) -> wpM E (report f) s w Q.
Proof. intros H. apply wpM_report; [done|]. intros now w' [[Hs _] _]. simpl in Hs. by subst. Qed.

(** ** The namespaces *)

Lemma reconcileNamespace_proceeds n s w :
  meta_key (ns_Meta n) ∈ namespace_keys addon -> Namespace (ns_Meta n) = "" -> grown w0 w ->
  wpM E (reconcileNamespace n) s w (fun w' r s' => s' = s /\
    exists o, r = inl o /\ (ns_Phase o = NamespaceActive \/ progress s w')).
Proof.
  intros Hk Hns Hg. unfold reconcileNamespace. set (key := mkKey "" (Name (ns_Meta n))).
  assert (meta_key (ns_Meta n) = key) as Hkey by (unfold meta_key; by rewrite Hns). rewrite Hkey in Hk.
  assert (Present KNamespace key ∈ milestones addon c) as Hm.
  { unfold milestones. apply elem_of_app. left. by apply list_elem_of_fmap_2. }
  apply wpM_bind, wpM_healthy_read; [done|..].
  - intros cur Hcur Hck. eapply wpM_healthy_update.
    + change (obj_key KNamespace _) with (obj_key KNamespace cur). rewrite Hck. exact Hcur.
    + intros o' w' _ Hst Hg'. split; [done|]. exists o'. split; [done|].
      destruct (found_ready opns addon c s0 w0 Hready _ _ s w cur Hm Hg Hcur) as [H|H].
      * left. simpl in H, Hst. by rewrite Hst.
      * right. by eapply progress_kept.
  - intros e -> Hno. apply wpM_healthy_add.
    + change (obj_key KNamespace n) with (meta_key (ns_Meta n)). by rewrite Hkey.
    + intros o' w' (_ & Ho' & _) _. split; [done|]. exists o'. split; [done|]. right.
      apply (created_progress opns addon c s0 w0 KNamespace key s w w' Hm Hg Hno).
      rewrite <- Hkey. change (meta_key (ns_Meta n)) with (obj_key KNamespace n). by rewrite Ho'.
Qed.

Lemma ensure_namespaces_proceeds l : forall i unready s w,
  (forall ns, ns ∈ l -> mkKey "" (an_Name ns) ∈ namespace_keys addon) -> grown w0 w -> (unready = [] \/ progress s w) ->
  wpM E (ensure_namespaces i l unready) s w (fun w' r s' => same_handler s s' /\
    exists u, r = inl u /\ (u = [] \/ progress s' w')).
Proof.
  induction l as [|ns l IH]; intros i unready s w Hl Hg Hu; cbn [ensure_namespaces].
  { apply wpM_pure. split; [done|]. by exists unready. }
  apply wpM_bind. unfold ensureNamespace. apply wpM_bind, wpM_get_addon, wpM_bind, wpM_modify_addon.
  rewrite desired_namespace_meta. set (s1 := with_addon _ s).
  eapply wpM_mono; [apply wpM_keeps; [apply _|]; apply reconcileNamespace_proceeds;
    [|exact (f_equal key_Namespace (namespace_meta_key (st_addon s) ns))|done]|].
  { cbn [ns_Meta]. rewrite namespace_meta_key. apply Hl. left. }
  intros w1 r s2 [(-> & o & -> & Ho) Hg1].
  eapply wpM_mono; [apply IH; [intros x Hx; apply Hl; by right|by etrans|]|].
  2: by intros w2 r s2.
  destruct Hu as [->|Hu]; [|right; by eapply progress_kept].
  destruct Ho as [->|Ho]; [left|by right]. done.
Qed.

(** A deletion that may find nothing. *)
Lemma wpM_delete_ignored_healthy k key s w (Q : objects -> option error -> St -> Prop) :
  (forall w' e, IgnoreNotFound e = None -> Q w' e s) -> wpM E (do_call (CDelete k key)) s w Q.
Proof.
  intros H. apply wpM_healthy_delete.
  - intros w' _ _. apply H. by rewrite ignore_not_found; destruct (IsNotFound None).
  - intros e _ He. apply H. by rewrite ignore_not_found, He.
Qed.

Lemma delete_namespace_proceeds name s w :
  wpM E (ensureNamespaceDeletion name) s w (fun _ e s' => s' = s /\ e = None).
Proof.
  unfold ensureNamespaceDeletion. apply wpM_bind, wpM_healthy_delete.
  - intros w' _ _. rewrite not_found_none. by apply wpM_pure.
  - intros e _ ->. by apply wpM_pure.
Qed.

Lemma delete_unwanted_proceeds wanted l s w :
  wpM E (delete_unwanted wanted l) s w (fun _ e s' => s' = s /\ e = None).
Proof.
  revert w. induction l as [|n l IH]; intros w; cbn [delete_unwanted]; [by apply wpM_pure|].
  case_bool_decide; [apply IH|]. apply wpM_bind. eapply wpM_mono; [apply delete_namespace_proceeds|].
  intros w1 e s1 [-> ->]. apply IH.
Qed.

Lemma namespaces_proceed s w : same_identity (st_addon s) addon -> grown w0 w ->
  wpM E namespace_Reconcile s w (proceeds s).
Proof.
  intros Hs Hg. unfold namespace_Reconcile, ensureWantedNamespaces.
  apply wpM_bind, wpM_bind, wpM_get_addon, wpM_bind. rewrite (proj2 Hs).
  eapply wpM_mono; [apply ensure_namespaces_proceeds; [|done|by left]|].
  { intros ns Hns. apply list_elem_of_fmap. by exists ns. }
  intros w1 r s1 (Hs1 & u & -> & Hu). destruct u as [|n u].
  2: { destruct Hu as [Hu|Hu]; [done|]. apply wpM_bind, wpM_healthy_report. intros now.
    do 2 apply wpM_pure. split; [by apply handler_later|]. right. by apply (progress_state s1). }
  apply wpM_pure. change (negb (IsZero resultNil)) with false. apply wpM_bind.
  unfold ensureDeletionOfUnwantedNamespaces, getOwnedNamespacesViaCommonLabels.
  apply wpM_bind, wpM_bind, wpM_get_addon, wpM_bind, wpM_healthy_list. intros items _ _.
  apply wpM_pure, wpM_bind, wpM_get_addon. eapply wpM_mono; [apply delete_unwanted_proceeds|].
  intros w2 e s2 [-> ->]. apply wpM_pure. split; [by apply handler_later|by left].
Qed.

(** ** The package *)

Lemma parsed_destination : destination addon <> "".
Proof.
  pose proof (regular_config _ _ _ Hr) as Hc.
  assert (ic_Namespace c <> "") as Hn.
  { revert Hc. unfold parsed, usable.
    destruct (Type_ _ =s? OLMOwnNamespace); [|destruct (Type_ _ =s? OLMAllNamespaces); [|done]];
      destruct (_ (Install (a_Spec addon))) as [c'|]; simpl; try done; repeat case_bool_decide; simpl; try done; by intros [= <-]. }
  unfold destination. destruct (parsed_cases addon c Hc) as [[Ht Hi]|(Ho & Ht & Hi)]; rewrite Ht, Hi; simpl; [done|].
  by destruct (str_empty _).
Qed.

(** No call fails, and the status of the package is looked at elsewhere. *)
Lemma proceeds_nil s w' s' : same_handler s s' -> proceeds s w' (resultNil, None) s'.
Proof. intros H. split; [by apply handler_later|by left]. Qed.

Lemma template_proceeds cot s s1 w : same_handler s s1 -> same_identity (st_addon s1) addon ->
  obj_key KClusterObjectTemplate cot = template_key addon ->
  wpM E (apply_template (st_addon s1) cot) s1 w (proceeds s).
Proof.
  intros Hh Hs Hk. unfold apply_template, getExistingClusterObjectTemplate, a_Name. rewrite (proj1 Hs).
  change (mkKey _ _) with (template_key addon). apply wpM_bind, wpM_healthy_read; [done|..].
  - intros cur Hcur Hck. destruct (_ || _).
    + apply wpM_bind. eapply wpM_healthy_update; [change (obj_key KClusterObjectTemplate _) with (obj_key KClusterObjectTemplate cur); by rewrite Hck|].
      intros o' w' _ _ _. apply wpM_pure. by apply proceeds_nil.
    + apply wpM_bind. unfold updateAddonStatus, pko_SetAddonUnreadyStatus.
      destruct (FindStatusCondition _ _); [destruct (_ || _)|];
        first [apply wpM_healthy_report; intros now|apply wpM_pure]; apply wpM_pure; by apply proceeds_nil.
  - intros e -> Hno. apply wpM_bind, wpM_healthy_add; [by rewrite Hk|].
    intros o' w' _ _. apply wpM_pure. by apply proceeds_nil.
Qed.

Lemma wpM_healthy_cluster_info s w : wpM E GetOCMClusterInfo s w (fun _ _ s' => s' = s).
Proof.
  unfold wpM, GetOCMClusterInfo, with_rlock. simpl.
  split; [done|]. intros _ w1 _. split; [done|]. intros r w2 _. split; [done|]. by intros _ w3 _.
Qed.

Lemma package_proceeds s w : same_identity (st_addon s) addon ->
  wpM E (pko_Reconcile ClusterID) s w (proceeds s).
Proof.
  intros Hs. unfold pko_Reconcile. apply wpM_bind, wpM_get_addon. rewrite (proj2 Hs).
  destruct (AddonPackageOperator (a_Spec addon)) as [p|].
  2: { apply wpM_bind. unfold ensureClusterObjectTemplateTornDown, getExistingClusterObjectTemplate.
    apply wpM_bind, wpM_get_addon, wpM_bind, wpM_healthy_read; [done|..].
    - intros o Ho Hk. change (meta_key (cot_Meta o)) with (obj_key KClusterObjectTemplate o).
      apply wpM_bind, wpM_healthy_delete; [intros w' _ _|rewrite Hk; intros e Hno; by rewrite Ho in Hno].
      apply wpM_pure, wpM_pure. by apply proceeds_nil.
    - intros e -> _. apply wpM_pure, wpM_pure. by apply proceeds_nil. }
  unfold reconcileClusterObjectTemplate. apply wpM_bind, wpM_get_addon, wpM_bind.
  eapply wpM_mono; [apply extractDestinationNamespace_spec|].
  { intros H. exfalso. apply H. unfold install_ok. rewrite (proj2 Hs). apply (parsed_options addon c), Hr. }
  intros w1 ns s1 (-> & -> & ->).
  assert (destination (st_addon s) = destination addon) as -> by (unfold destination; by rewrite (proj2 Hs)).
  rewrite bool_decide_false by apply parsed_destination. apply wpM_bind.
  eapply wpM_mono; [apply wpM_healthy_cluster_info|]. intros w2 info s2 ->. rewrite set_controller_fresh by done.
  apply template_proceeds; [done|done|]. unfold template_key, obj_key, a_Name. by rewrite (proj1 Hs), (regular_scope _ _ _ Hr).
Qed.

(** ** The secrets *)

Lemma getReferencedSecret_proceeds source s w :
  same_identity (st_addon s) addon -> mkKey opns source ∈ source_keys opns addon -> supplied opns addon w ->
  wpM E (getReferencedSecret (mkKey opns source)) s w (fun _ r s' => s' = s /\
    exists src, r = (Some src, resultNil, None)).
Proof.
  intros Hs Hsrc Hsup. unfold getReferencedSecret. apply wpM_bind, wpM_healthy_get.
  - intros o _ _. apply wpM_pure. split; [done|]. by exists o.
  - intros e -> _. unfold getReferencedSecret_uncached. apply wpM_bind, wpM_get_addon, wpM_bind, wpM_healthy_read; [done|..].
    + intros o Ho Hk. unfold cache_labelled.
      destruct (set_owner_accepted (a_Meta (st_addon s)) (sec_Meta o)) as [m Hm].
      { rewrite (proj1 Hs). apply Hr. }
      rewrite Hm. apply wpM_bind, wpM_healthy_patch.
      * apply set_owner in Hm as [l ->]. change (obj_key KSecret _) with (obj_key KSecret o). by rewrite Hk.
      * intros o' w' _ _. apply wpM_pure. split; [done|]. by exists o.
    + intros e' _ Hno. by destruct (proj1 Hsup _ Hsrc).
Qed.

Lemma destination_secrets_proceeds refs : forall acc s w,
  (forall ref, ref ∈ refs -> mkKey opns (SourceSecret ref) ∈ source_keys opns addon) ->
  same_identity (st_addon s) addon -> supplied opns addon w ->
  wpM E (destination_secrets opns refs acc) s w (fun _ r s' => s' = s /\ exists l, r = (l, resultNil, None)).
Proof.
  induction refs as [|ref refs IH]; intros acc s w Hrefs Hs Hsup; cbn [destination_secrets].
  { apply wpM_pure. split; [done|]. by exists acc. }
  apply wpM_bind. eapply wpM_mono; [apply wpM_keeps; [apply _|]; apply getReferencedSecret_proceeds; [done|apply Hrefs; left|done]|].
  intros w1 r s1 [(-> & src & ->) Hg]. cbn [IsZero negb]. change (negb (IsZero resultNil)) with false.
  apply wpM_bind, wpM_get_addon, wpM_bind, wpM_pure. unfold destination_secret. rewrite wanted_controller.
  apply IH; [intros x Hx; apply Hrefs; by right|done|by eapply supplied_grows].
Qed.

Lemma reconcileSecret_proceeds d s w : wpM E (reconcileSecret d) s w (fun _ e s' => s' = s /\ e = None).
Proof.
  unfold reconcileSecret. apply wpM_bind, wpM_healthy_get.
  - intros cur Hcur Hk. apply wpM_bind. eapply wpM_healthy_update.
    + change (obj_key KSecret _) with (obj_key KSecret cur). by rewrite Hk.
    + intros o' w' _ _ _. by apply wpM_pure.
  - intros e -> _. apply wpM_bind, wpM_healthy_create.
    + intros o' w' _ _ _. by apply wpM_pure.
    + intros e' He' _. simpl. rewrite He'. by apply wpM_pure.
Qed.

Lemma reconcile_placements_proceeds l known s w :
  wpM E (reconcile_placements l known) s w (fun _ r s' => s' = s /\ exists known', r = (known', None)).
Proof.
  revert known w. induction l as [|d l IH]; intros known w; cbn [reconcile_placements].
  { apply wpM_pure. split; [done|]. by exists known. }
  apply wpM_bind. eapply wpM_mono; [apply reconcileSecret_proceeds|]. intros w1 e s1 [-> ->]. apply IH.
Qed.

(** What was listed is there to be deleted, each object once. *)
Lemma delete_unknown_proceeds known l s w :
  (forall x, x ∈ l -> w KSecret (obj_key KSecret x) <> None) -> NoDup (map (obj_key KSecret) l) ->
  wpM E (delete_unknown known l) s w (fun _ e s' => s' = s /\ e = None).
Proof.
  revert w. induction l as [|x l IH]; intros w Hl Hd; cbn [delete_unknown]; [by apply wpM_pure|].
  inversion Hd as [|? ? Hnot Hd']; subst.
  case_bool_decide; [apply IH; [intros y Hy; apply Hl; by right|done]|].
  apply wpM_bind, wpM_healthy_delete.
  - intros w' [Hw _] _. apply IH; [|done]. intros y Hy. rewrite Hw; [apply Hl; by right|].
    intros [_ Hk]. apply Hnot. change (meta_key (sec_Meta x)) with (obj_key KSecret x) in Hk. rewrite <- Hk.
    by apply list_elem_of_fmap_2.
  - intros e Hno. exfalso. apply (Hl x); [left|exact Hno].
Qed.

Lemma cleanup_proceeds known s w : wpM E (cleanupUnknownSecrets known) s w (fun _ e s' => s' = s /\ e = None).
Proof.
  unfold cleanupUnknownSecrets. apply wpM_bind, wpM_get_addon, wpM_bind, wpM_healthy_list. intros items Hl Hd.
  apply delete_unknown_proceeds; [|done]. intros x [Hx _]%Hl. by rewrite Hx.
Qed.

Lemma secrets_proceed s w : same_identity (st_addon s) addon -> supplied opns addon w ->
  wpM E (secret_Reconcile opns) s w (proceeds s).
Proof.
  intros Hs Hsup. unfold secret_Reconcile. apply wpM_bind, wpM_get_addon.
  destruct (match SecretPropagation _ with None => true | Some p => _ end) eqn:Hnone.
  { apply wpM_bind. eapply wpM_mono; [apply cleanup_proceeds|]. intros w1 e s1 [-> ->]. apply wpM_pure. by apply proceeds_nil. }
  apply wpM_bind. unfold getDestinationSecretsWithoutNamespace. apply wpM_bind, wpM_get_addon. rewrite (proj2 Hs) in *.
  destruct (SecretPropagation (a_Spec addon)) as [p|] eqn:Hp; [|done].
  eapply wpM_mono; [apply destination_secrets_proceeds; [|done|done]|].
  { intros ref Href. apply list_elem_of_fmap. exists ref. split; [done|]. unfold propagated. by rewrite Hp. }
  intros w1 r s1 (-> & ds & ->). change (negb (IsZero resultNil)) with false.
  apply wpM_bind. unfold reconcileSecretsInAddonNamespaces. apply wpM_bind, wpM_get_addon.
  eapply wpM_mono; [apply reconcile_placements_proceeds|]. intros w2 r s2 (-> & known & ->).
  apply wpM_bind. eapply wpM_mono; [apply cleanup_proceeds|]. intros w3 e s3 [-> ->]. apply wpM_pure. by apply proceeds_nil.
Qed.

(** ** The AddonInstance and the MonitoringStack *)

Lemma instance_proceeds s w : same_identity (st_addon s) addon ->
  wpM E addonInstance_Reconcile s w (proceeds s).
Proof.
  intros Hs. unfold addonInstance_Reconcile, ensureAddonInstance.
  apply wpM_bind, wpM_bind, wpM_parse_config with addon c; [by apply Hr|done|].
  apply wpM_bind, wpM_get_addon. rewrite set_controller_fresh by done. unfold reconcileAddonInstance.
  apply wpM_bind, wpM_healthy_read; [done|..].
  - intros cur Hcur Hk. destruct (negb _).
    + apply wpM_bind. eapply wpM_healthy_update.
      * change (obj_key KAddonInstance _) with (obj_key KAddonInstance cur). rewrite Hk. exact Hcur.
      * intros o' w' _ _ _. do 2 apply wpM_pure. by apply proceeds_nil.
    + do 2 apply wpM_pure. by apply proceeds_nil.
  - intros e -> Hno. apply wpM_bind, wpM_healthy_add; [exact Hno|].
    intros o' w' _ _. do 2 apply wpM_pure. by apply proceeds_nil.
Qed.

Lemma deletion_proceeds s w : same_identity (st_addon s) addon ->
  wpM E (sub_Reconcile (reconciler ClusterID opns DeletionPart)) s w (proceeds s).
Proof.
  intros Hs. simpl. unfold deletion_Reconcile. apply wpM_bind, wpM_get_addon.
  assert (markedForDeletion (st_addon s) = false) as ->.
  { unfold markedForDeletion. rewrite (proj1 Hs). apply (regular_unmarked _ _ _ Hr). }
  apply wpM_pure. by apply proceeds_nil.
Qed.

(** An object is read and brought up to date, or created. *)
Lemma stack_ensured d s w : meta_key (ms_Meta d) = stack_key addon c -> grown w0 w ->
  wpM E (reconcileMonitoringStack d) s w (fun w' r s' => s' = s /\
    exists o, r = inl o /\ (stack_available o \/ progress s w')).
Proof.
  intros Hk Hg. unfold reconcileMonitoringStack. rewrite Hk.
  assert (Present KMonitoringStack (stack_key addon c) ∈ milestones addon c) as Hm.
  { unfold milestones. rewrite !elem_of_app. do 4 right. left. }
  apply wpM_bind, wpM_healthy_read; [done|..].
  - intros cur Hcur Hck.
    pose proof (found_ready opns addon c s0 w0 Hready _ _ s w cur Hm Hg Hcur) as Hf. destruct (_ || _).
    + eapply wpM_healthy_update.
      * change (obj_key KMonitoringStack _) with (obj_key KMonitoringStack cur). rewrite Hck. exact Hcur.
      * intros o' w' _ Hst Hg'. split; [done|]. exists o'. split; [done|].
        destruct Hf as [Hf|Hf]; [left|right; by eapply progress_kept].
        simpl in Hf, Hst. unfold stack_available in *. by rewrite Hst.
    + apply wpM_pure. split; [done|]. by exists cur.
  - intros e -> Hno. apply wpM_healthy_add.
    + change (obj_key KMonitoringStack d) with (meta_key (ms_Meta d)). by rewrite Hk.
    + intros o' w' (_ & Ho' & _) _. split; [done|]. exists o'. split; [done|]. right.
      apply (created_progress opns addon c s0 w0 _ _ s w w' Hm Hg Hno).
      change (obj_key KMonitoringStack d) with (meta_key (ms_Meta d)) in Ho'. rewrite Hk in Ho'. by rewrite Ho'.
Qed.

Lemma stack_proceeds s w : same_identity (st_addon s) addon -> grown w0 w ->
  wpM E stack_Reconcile s w (proceeds s).
Proof.
  intros Hs Hg. unfold stack_Reconcile, ensureMonitoringStack. apply wpM_bind, wpM_bind, wpM_get_addon.
  unfold HasMonitoringStack. rewrite (proj2 Hs).
  destruct (wanted_stack addon) as [stack|] eqn:Hst; unfold wanted_stack in Hst.
  2: { assert ((match Monitoring (a_Spec addon) with
      | Some m => match MonitoringStackOf m with Some _ => true | None => false end | None => false end) = false) as ->.
    { destruct (Monitoring _) as [m|]; [|done]. simpl in Hst. by rewrite Hst. }
    apply wpM_pure. change (errors_Is _ _) with true. apply wpM_pure. by apply proceeds_nil. }
  destruct (Monitoring (a_Spec addon)) as [m|] eqn:Hm; [|done]. simpl in Hst. rewrite Hst. simpl.
  unfold getDesiredMonitoringStack. apply wpM_bind, wpM_bind, wpM_parse_config with addon c; [by apply Hr|done|].
  apply wpM_bind, wpM_get_addon. rewrite (proj2 Hs), Hm. apply wpM_bind, wpM_pure. rewrite Hst.
  apply wpM_bind, wpM_pure. rewrite set_controller_fresh by done. apply wpM_pure.
  eapply wpM_mono; [apply stack_ensured; [unfold stack_key, a_Name; by rewrite (proj1 Hs)|done]|].
  intros w1 r s1 (-> & o & -> & Ho). apply wpM_bind. unfold propagateMonitoringStackStatusToAddon.
  destruct Ho as [(av & re & -> & ->)|Ho].
  { rewrite bool_decide_true by done. do 2 apply wpM_pure. by apply proceeds_nil. }
  assert (forall b s', same_handler s s' -> proceeds s w1 (if negb b then resultRequeue else resultNil, None) s') as Hend.
  { intros b s' H. split; [by apply handler_later|right; by apply (progress_state s)]. }
  destruct (scan_conditions _ _ _) as [[a|] [b|]]; try destruct (_ =s? ConditionTrue);
    first [by do 2 apply wpM_pure; apply Hend|by apply wpM_bind, wpM_healthy_report; intros now; do 2 apply wpM_pure; apply Hend].
Qed.

(** ** The monitoring federation *)

Section Federation.
Context (fed : MonitoringFederationSpec) (Hfed : wanted_federation addon = Some fed).

Lemma federated : HasMonitoringFederation addon = true.
Proof. by rewrite has_federation, Hfed. Qed.
Lemma federation_milestone m : m ∈ [Present KNamespace (monitoring_namespace_key addon); TokenCopied] -> m ∈ milestones addon c.
Proof. intros Hm. unfold milestones. rewrite !elem_of_app, federated. right; by left. Qed.

Lemma monitoring_namespace_proceeds s w : same_identity (st_addon s) addon -> grown w0 w ->
  wpM E ensureMonitoringNamespace s w (fun w' r s' => same_handler s s' /\ same_identity (st_addon s') addon /\
    exists res, r = (res, None) /\ (res = resultNil \/ progress s' w')).
Proof.
  intros Hs Hg. unfold ensureMonitoringNamespace. apply wpM_bind, wpM_get_addon.
  unfold desiredMonitoringNamespace. rewrite set_controller_fresh by done. unfold actualMonitoringNamespace.
  destruct (federation_identity addon _ Hs) as (-> & _ & _). change (mkKey "" _) with (monitoring_namespace_key addon).
  assert (Present KNamespace (monitoring_namespace_key addon) ∈ milestones addon c) as Hm by (apply federation_milestone; left).
  apply wpM_bind, wpM_healthy_read; [done|..].
  - intros cur Hcur Hk. destruct (_ && _).
    { apply wpM_pure. split; [done|]. split; [done|]. exists resultNil. auto. }
    apply wpM_bind. eapply wpM_healthy_update.
    + change (obj_key KNamespace _) with (obj_key KNamespace cur). rewrite Hk. exact Hcur.
    + intros o' w' _ Hst Hg'. simpl in Hst.
      destruct (found_ready opns addon c s0 w0 Hready _ _ s w cur Hm Hg Hcur) as [H|H].
      * simpl in H. rewrite Hst, H, bool_decide_true by done. apply wpM_pure. split; [done|]. split; [done|].
        exists resultNil. auto.
      * destruct (_ =s? _).
        { apply wpM_pure. split; [done|]. split; [done|]. exists resultNil. auto. }
        apply wpM_bind, wpM_healthy_report. intros now. apply wpM_pure. split; [done|]. split; [done|].
        eexists. split; [done|]. right. by apply (progress_kept s w).
  - intros e -> Hno. apply wpM_bind, wpM_healthy_add; [exact Hno|]. intros o' w' _ _. apply wpM_pure.
    split; [done|]. split; [done|]. exists resultNil. auto.
Qed.

(** The copy is good, or has just been made. *)
Lemma bearer_token_proceeds s w : same_identity (st_addon s) addon -> supplied opns addon w -> grown w0 w ->
  wpM E (reconcileBearerTokenSecretForAddon opns) s w (fun w' r s' => s' = s /\ exists res token, r = (res, token, None) /\
    (res = resultNil /\ token <> None \/ IsZero res = false /\ progress s w')).
Proof.
  intros Hs Hsup Hg. unfold reconcileBearerTokenSecretForAddon. apply wpM_bind, wpM_get_addon, wpM_bind.
  change (mkKey opns "addon-operator-prom-token") with (prom_token_key opns).
  apply wpM_healthy_read; [done| |by intros e _ Hno; destruct (proj2 Hsup federated)].
  intros prom Hprom _.
  assert (desired_bearer_token (st_addon s) prom = inl (mkSecret (token_meta addon) (sec_Data prom) "")) as ->.
  { unfold desired_bearer_token. rewrite set_controller_fresh by done. unfold token_meta, owned_meta.
    destruct (federation_identity addon _ Hs) as (_ & _ & ->). by rewrite (proj1 Hs). }
  cbn [sec_Meta sec_Data]. rewrite token_meta_key.
  assert (bearer_token_key addon <> prom_token_key opns) as Hne by (intros [= H]; by apply (regular_apart _ _ _ Hr)).
  assert (forall (o' : Secret) (w' : objects), ~ token_settled opns addon w -> token_good addon (sec_Data prom) o' ->
    w' KSecret (bearer_token_key addon) = Some o' -> only_wrote KSecret (bearer_token_key addon) w w' -> progress s w') as Hcopied.
  { intros o' w' Hun Hgood Ho' Hw. exists TokenCopied. split; [apply federation_milestone; right; left|]. split.
    - intros H0. apply Hun, (grows_token _ _ _ _ _ Hg federated H0).
    - exists (sec_Data prom). split; [exists prom|by exists o']. split; [|done]. rewrite Hw; [done|naive_solver]. }
  apply wpM_bind, wpM_healthy_read; [done|..].
  - intros cur Hcur Hk. destruct (_ || _) eqn:Hchk.
    + apply wpM_bind. eapply wpM_healthy_update.
      * change (obj_key KSecret _) with (obj_key KSecret cur). rewrite Hk. exact Hcur.
      * intros o' w' ([(_ & Hor & _ & Hd) _] & Hw' & Ho) _ _. change (obj_key KSecret _) with (obj_key KSecret cur) in Hw', Ho.
        rewrite Hk in Hw', Ho. apply wpM_pure. split; [done|]. eexists _, _. split; [done|]. right. split; [done|].
        apply (Hcopied o'); [|split; [by apply controller_same, owned_controller|done]|done|done].
        intros (data & (p & Hp & <-) & (b & Hb & H1 & H2)). rewrite Hprom in Hp. injection Hp as <-.
        rewrite Hcur in Hb. injection Hb as <-. rewrite H1, H2 in Hchk. simpl in Hchk. rewrite merge_union, map_empty_union in Hchk.
        assert (forall l : labels, DeepEqual l l = true) as Hl by (intros l; by apply deep_equal_eq).
        assert (forall l : labels, labels_Equals l l = true) as Hl' by (intros l; by apply equals_eq).
        by rewrite Hl, Hl' in Hchk.
    + apply wpM_pure. split; [done|]. eexists _, _. split; [done|]. by left.
  - intros e -> Hno. apply wpM_bind, wpM_healthy_add; [exact Hno|].
    intros o' w' ([(_ & Hor & _ & Hd) _] & Hw' & Ho) _. apply wpM_pure. split; [done|]. eexists _, _. split; [done|].
    right. split; [done|]. apply (Hcopied o'); [|split; [by apply controller_same, owned_controller|done]|done|done].
    intros (data & _ & (b & Hb & _)). by rewrite Hno in Hb.
Qed.

Lemma service_monitor_proceeds s w : same_identity (st_addon s) addon -> supplied opns addon w -> grown w0 w ->
  wpM E (reconcileServiceMonitor opns) s w (fun w' r s' => s' = s /\
    exists res, r = (res, None) /\ (res = resultNil \/ progress s w')).
Proof.
  intros Hs Hsup Hg. unfold reconcileServiceMonitor. apply wpM_bind, wpM_get_addon, wpM_bind.
  eapply wpM_mono; [by apply bearer_token_proceeds|]. intros w1 r s1 (-> & res & token & -> & Hr1).
  destruct Hr1 as [[-> Ht]|[Hz Hp]].
  2: { rewrite Hz. apply wpM_pure. split; [done|]. exists res. auto. }
  change (negb (IsZero resultNil)) with false. destruct token as [token|]; [|done]. apply wpM_bind, wpM_pure, wpM_bind.
  assert (exists m, Monitoring (a_Spec addon) = Some m /\ Federation m = Some fed) as (m & Hm & Hf).
  { unfold wanted_federation in Hfed. destruct (Monitoring (a_Spec addon)) as [m|]; [|done]. by exists m. }
  unfold desiredServiceMonitor. rewrite (proj2 Hs), Hm. apply wpM_bind, wpM_pure. rewrite Hf. apply wpM_bind, wpM_pure.
  rewrite set_controller_fresh by done. apply wpM_pure. unfold actualServiceMonitor. apply wpM_bind, wpM_healthy_read; [done|..].
  - intros cur Hcur Hk. destruct (_ && _).
    + apply wpM_pure. split; [done|]. exists resultNil. auto.
    + apply wpM_bind. eapply wpM_healthy_update.
      * change (obj_key KServiceMonitor _) with (obj_key KServiceMonitor cur). rewrite Hk. exact Hcur.
      * intros o' w' _ _ _. apply wpM_pure. split; [done|]. exists resultNil. auto.
  - intros e -> Hno. apply wpM_bind, wpM_healthy_add; [exact Hno|]. intros o' w' _ _. apply wpM_pure.
    split; [done|]. exists resultNil. auto.
Qed.
End Federation.

Lemma ensureMonitoringFederation_proceeds s w : same_identity (st_addon s) addon -> supplied opns addon w -> grown w0 w ->
  wpM E (ensureMonitoringFederation opns) s w (fun w' r s' => same_handler s s' /\
    exists res, r = (res, None) /\ (res = resultNil \/ progress s' w')).
Proof.
  intros Hs Hsup Hg. unfold ensureMonitoringFederation. apply wpM_bind, wpM_get_addon.
  assert (HasMonitoringFederation (st_addon s) = HasMonitoringFederation addon) as ->.
  { unfold HasMonitoringFederation. by rewrite (proj2 Hs). }
  rewrite has_federation. destruct (wanted_federation addon) as [fed|] eqn:Hfed; simpl.
  2: { apply wpM_pure. split; [done|]. exists resultNil. auto. }
  apply wpM_bind. eapply wpM_mono; [apply wpM_keeps; [apply _|]; by eapply monitoring_namespace_proceeds|].
  intros w1 r s1 [(Hh & Hs1 & res & -> & Hr1) Hg1]. destruct (IsZero res) eqn:Hz; simpl.
  2: { apply wpM_pure. split; [done|]. exists res. split; [done|]. right. destruct Hr1 as [->|H]; [done|exact H]. }
  apply IsZero_true in Hz as ->.
  apply wpM_bind. eapply wpM_mono; [apply (service_monitor_proceeds fed); [done|done|by eapply supplied_grows|by etrans]|].
  intros w2 r s2 (-> & res & -> & Hr2). destruct (IsZero res) eqn:Hz; simpl; apply wpM_pure; (split; [done|]).
  - exists resultNil. auto.
  - exists res. split; [done|]. right. destruct Hr2 as [->|H]; [done|exact H].
Qed.

(** What is no longer wanted is deleted, or is not there. *)
Lemma delete_monitors_proceeds wanted l s w :
  wpM E (delete_unwanted_monitors wanted l) s w (fun _ e s' => s' = s /\ e = None).
Proof.
  revert w. induction l as [|sm l IH]; intros w; cbn [delete_unwanted_monitors]; [by apply wpM_pure|].
  destruct (_ =s? _); [apply IH|]. apply wpM_bind, wpM_delete_ignored_healthy. intros w1 e1 He1. rewrite He1.
  apply wpM_bind, wpM_get_addon, wpM_bind, wpM_delete_ignored_healthy. intros w2 e2 He2. rewrite He2. apply IH.
Qed.

Lemma federation_proceeds s w : same_identity (st_addon s) addon -> supplied opns addon w -> grown w0 w ->
  wpM E (federation_Reconcile opns) s w (proceeds s).
Proof.
  intros Hs Hsup Hg. unfold federation_Reconcile. apply wpM_bind.
  eapply wpM_mono; [by apply ensureMonitoringFederation_proceeds|]. intros w1 r s1 (Hh & res & -> & Hr1).
  change (errors_Is None ErrNotOwnedByUs) with false. cbv iota. destruct (IsZero res) eqn:Hz; simpl.
  2: { apply wpM_pure. split; [by apply handler_later|]. right. destruct Hr1 as [->|H]; [done|exact H]. }
  apply wpM_bind. unfold ensureDeletionOfUnwantedMonitoringFederation, getOwnedServiceMonitorsViaCommonLabels.
  apply wpM_bind, wpM_bind, wpM_get_addon, wpM_bind, wpM_healthy_list. intros items _ _. apply wpM_pure.
  apply wpM_bind, wpM_get_addon, wpM_bind. eapply wpM_mono; [apply delete_monitors_proceeds|].
  intros w2 e s2 [-> ->]. destruct (str_empty _).
  - apply wpM_bind. eapply wpM_mono; [apply delete_namespace_proceeds|]. intros w3 e s3 [-> ->].
    do 2 apply wpM_pure. by apply proceeds_nil.
  - do 2 apply wpM_pure. by apply proceeds_nil.
Qed.
End Proceeds.
