(* ===== verification/ProceedsOlm.v ===== *)
(** * The OLM reconciler proceeds

    Its phases in order: what they create is ready in a later pass, the Operator
    is registered in one, and then the observation of the CSV ends without an
    early return. *)
From S2P Require Export Proceeds.

Section ProceedsOlm.
Context {L : Lib} {LOk : LibOk L}.
Context (ocm : option ClientOptions) (opns : string) (addon : Addon) (c : AddonInstallOLMCommon).
Context (Hr : regular opns c addon).
Context (s0 : St) (w0 : objects) (Hready : ready_world opns addon c w0).
Abbreviation grown := (grows opns addon c).
Abbreviation later := (later addon c).
Abbreviation progress := (progressed opns addon c s0 w0).
Abbreviation tracked := (milestones addon c).
Notation E := (known ocm grown).

(** ** OperatorGroup and NetworkPolicy *)

Lemma group_proceeds s w : same_identity (st_addon s) addon ->
  wpM E ensureOperatorGroup s w (fun _ r s' => s' = s /\ r = (resultNil, None)).
Proof.
  intros Hs. unfold ensureOperatorGroup. apply wpM_bind, wpM_parse_config with addon c; [by apply Hr|done|].
  apply wpM_bind, wpM_get_addon. rewrite (desired_operator_group_identity addon) by done.
  rewrite (proj1 Hs). unfold desired_operator_group at 1. cbn [og_Meta]. rewrite wanted_controller.
  apply wpM_bind. unfold reconcileOperatorGroup. apply wpM_bind, wpM_healthy_read; [done|..].
  - intros cur Hcur Hk. destruct (_ || _).
    + apply wpM_bind. eapply wpM_healthy_update.
      * change (obj_key KOperatorGroup _) with (obj_key KOperatorGroup cur). rewrite Hk. exact Hcur.
      * intros o' w' _ _ _. by do 2 apply wpM_pure.
    + by do 2 apply wpM_pure.
  - intros e -> Hno. apply wpM_bind, wpM_healthy_add; [exact Hno|]. intros o' w' _ _. by do 2 apply wpM_pure.
Qed.

Lemma policy_proceeds s w : same_identity (st_addon s) addon ->
  wpM E ensureCatalogSourcesNetworkPolicy s w (fun _ r s' => s' = s /\ r = (resultNil, None)).
Proof.
  intros Hs. pose proof (regular_config _ _ _ Hr) as Hc.
  unfold ensureCatalogSourcesNetworkPolicy, desiredCatalogSourcesNetworkPolicy, actualCatalogSourcesNetworkPolicy.
  apply wpM_bind, wpM_bind, wpM_parse_config with addon c; [done|done|].
  apply wpM_bind, wpM_get_addon. rewrite (network_policy_identity addon) by done. rewrite (proj1 Hs).
  unfold network_policy at 1. cbn [np_Meta]. rewrite wanted_controller.
  apply wpM_pure, wpM_bind, wpM_bind, wpM_parse_config with addon c; [done|done|]. apply wpM_bind, wpM_get_addon.
  rewrite (policy_name_identity addon) by done. apply wpM_bind, wpM_call; [done|].
  intros [cur|e] w1 [[[-> H] Hse] _]; apply wpM_pure.
  - destruct (_ && _); [by apply wpM_pure|]. destruct H as (Hcur & Hk & _).
    apply wpM_bind. eapply wpM_healthy_update.
    + change (obj_key KNetworkPolicy _) with (obj_key KNetworkPolicy cur). rewrite Hk. exact Hcur.
    + intros o' w' _ _ _. by apply wpM_pure.
  - destruct H as [Hapi Hnf]. specialize (Hse e eq_refl).
    rewrite (api_error_wrap "getting NetworkPolicy: " e Hapi errInstallConfigParseFailure), not_found_wrap, Hse.
    apply wpM_bind, wpM_healthy_add.
    + unfold obj_key. cbn [obj_meta np_Meta]. rewrite wanted_meta_key.
      destruct (w KNetworkPolicy _) as [o|] eqn:Ho; [|done]. by specialize (Hnf Hse o eq_refl).
    + intros o' w' _ _. by apply wpM_pure.
Qed.

(** ** The CatalogSources *)

Lemma source_tracked name : name ∈ source_names addon c ->
  Present KCatalogSource (mkKey (ic_Namespace c) name) ∈ tracked.
Proof.
  intros Hn. unfold milestones. rewrite !elem_of_app. do 2 right. left.
  by apply list_elem_of_fmap_2, list_elem_of_fmap_2.
Qed.

Lemma source_ensured cs s w : meta_key (cs_Meta cs) ∈ map (mkKey (ic_Namespace c)) (source_names addon c) -> grown w0 w ->
  wpM E (reconcileCatalogSource cs) s w (fun w' r s' => s' = s /\
    exists o, r = inl o /\ (connection_message o = None \/ progress s w')).
Proof.
  intros Hk Hg. unfold reconcileCatalogSource. set (key := meta_key (cs_Meta cs)) in *.
  assert (Present KCatalogSource key ∈ tracked) as Hm.
  { apply list_elem_of_fmap in Hk as (name & -> & Hn). by apply source_tracked. }
  apply wpM_bind, wpM_healthy_read; [done|..].
  - intros cur Hcur Hck.
    pose proof (found_ready opns addon c s0 w0 Hready _ _ s w cur Hm Hg Hcur) as Hf. destruct (_ || _).
    + eapply wpM_healthy_update.
      * change (obj_key KCatalogSource _) with (obj_key KCatalogSource cur). rewrite Hck. exact Hcur.
      * intros o' w' _ Hst Hg'. split; [done|]. exists o'. split; [done|].
        destruct Hf as [Hf|Hf]; [left|right; by apply (progress_kept opns addon c s0 w0 s w)].
        simpl in Hf, Hst. unfold connection_message in *. by rewrite Hst.
    + apply wpM_pure. split; [done|]. by exists cur.
  - intros e -> Hno. apply wpM_healthy_add; [exact Hno|].
    intros o' w' (_ & Ho' & _) _. split; [done|]. exists o'. split; [done|]. right.
    apply (created_progress opns addon c s0 w0 _ _ s w w' Hm Hg Hno).
    change (obj_key KCatalogSource cs) with key in Ho'. by rewrite Ho'.
Qed.

(** A phase that may stop for a milestone. *)
Definition waits (res : subReconcilerResult) (s' : St) (w' : objects) : Prop :=
  res = resultNil \/ IsZero res = false /\ progress s' w'.

Lemma main_source_proceeds s w : same_identity (st_addon s) addon -> grown w0 w ->
  wpM E ensureCatalogSource s w (fun w' r s' => same_handler s s' /\ same_identity (st_addon s') addon /\
    exists res cs, r = (res, cs, None) /\ waits res s' w' /\ (res = resultNil -> cs <> None)).
Proof.
  intros Hs Hg. unfold ensureCatalogSource. apply wpM_bind, wpM_parse_config with addon c; [by apply Hr|done|].
  apply wpM_bind, wpM_get_addon. rewrite (source_identity addon) by done. rewrite (proj1 (names_identity _ _ Hs)), (proj1 Hs).
  unfold new_catalog_source at 1. cbn [cs_Meta]. rewrite wanted_controller. apply wpM_bind.
  eapply wpM_mono; [apply source_ensured; [|done]|].
  { cbn [cs_Meta]. rewrite wanted_meta_key. apply list_elem_of_fmap_2. left. }
  intros w1 r s1 (-> & o & -> & Ho). destruct (connection_message o) as [msg|].
  - apply wpM_bind, wpM_healthy_report. intros now. apply wpM_pure. split; [done|]. split; [done|].
    eexists _, _. split; [done|]. split; [|done]. right. split; [done|]. destruct Ho as [Ho|Ho]; [done|].
    by apply (progress_state opns addon c s0 w0 s).
  - apply wpM_pure. split; [done|]. split; [done|]. eexists _, _. split; [done|]. split; [by left|done].
Qed.

(** Additional CatalogSources with a name and an image each. *)
Definition usable_sources : Prop :=
  Forall (fun src => acs_Name src <> "" /\ acs_Image src <> "") (AdditionalCatalogSources c).

Lemma ensure_additional_proceeds l : forall s w,
  (forall src, src ∈ l -> src ∈ AdditionalCatalogSources c) -> same_identity (st_addon s) addon -> grown w0 w ->
  wpM E (ensure_additional (ic_Namespace c) (PullSecretName c) l) s w (fun w' r s' =>
    same_handler s s' /\ same_identity (st_addon s') addon /\ exists res, r = (res, None) /\ waits res s' w').
Proof.
  induction l as [|src l IH]; intros s w Hl Hs Hg; cbn [ensure_additional].
  { apply wpM_pure. split; [done|]. split; [done|]. exists resultNil. split; [done|by left]. }
  apply wpM_bind, wpM_get_addon. rewrite (source_identity addon) by done. rewrite (proj1 Hs).
  unfold new_catalog_source at 1. cbn [cs_Meta]. rewrite wanted_controller. apply wpM_bind.
  eapply wpM_mono; [apply wpM_keeps; [apply _|]; apply source_ensured; [|done]|].
  { cbn [cs_Meta]. rewrite wanted_meta_key. apply list_elem_of_fmap_2. right. apply list_elem_of_fmap_2, Hl. left. }
  intros w1 r s1 [(-> & o & -> & Ho) Hg1]. destruct (connection_message o) as [msg|].
  - apply wpM_bind, wpM_healthy_report. intros now. apply wpM_pure. split; [done|]. split; [done|].
    eexists. split; [done|]. right. split; [done|]. destruct Ho as [Ho|Ho]; [done|].
    by apply (progress_state opns addon c s0 w0 s).
  - apply IH; [intros x Hx; apply Hl; by right|done|by etrans].
Qed.

Lemma check_additional_proceeds msg l : forall acc s w Q,
  Forall (fun src => acs_Name src <> "" /\ acs_Image src <> "") l -> Q w (Some (acc ++ l)) s ->
  wpM E (check_additional msg l acc) s w Q.
Proof.
  induction l as [|x l IH]; intros acc s w Q Hl HQ; simpl; [by rewrite app_nil_r in HQ|].
  inversion Hl as [|? ? [Hn Hi] Hl']; subst. rewrite !bool_decide_false by done. simpl. apply IH; [done|].
  by rewrite <- app_assoc.
Qed.

Lemma additional_proceed s w : usable_sources -> same_identity (st_addon s) addon -> grown w0 w ->
  wpM E ensureAdditionalCatalogSources s w (fun w' r s' =>
    same_handler s s' /\ same_identity (st_addon s') addon /\ exists res, r = (res, None) /\ waits res s' w').
Proof.
  intros Hu Hs Hg. unfold ensureAdditionalCatalogSources, HasAdditionalCatalogSources,
    parseAddonInstallConfigForAdditionalCatalogSources.
  apply wpM_bind, wpM_get_addon, wpM_bind. simpl. rewrite (proj2 Hs).
  destruct (parsed_cases addon c (regular_config _ _ _ Hr)) as [[Ht Hi]|(Ho & Ht & Hi)]; rewrite Ht, Hi; simpl.
  all: apply wpM_pure; destruct (bool_decide (0 < _)); simpl.
  2,4: apply wpM_pure; split; [done|]; split; [done|]; exists resultNil; split; [done|by left].
  all: apply wpM_bind, wpM_bind, wpM_get_addon; simpl; rewrite (proj2 Hs), Ht, Hi; simpl.
  all: apply wpM_bind, wpM_pure, wpM_bind, check_additional_proceeds; simpl; [done|].
  all: apply wpM_pure, ensure_additional_proceeds; done.
Qed.

(** ** The Subscription *)

Lemma created_approved w (o : Subscription) spec :
  sub_Spec o = Some (with_approval "" spec) -> approved w o.
Proof. intros Ho. exists (with_approval "" spec). split; [done|]. by intros H. Qed.

Abbreviation sub_key := (subscription_key addon c).

Lemma subscription_ensured meta spec s w : meta_key meta = sub_key -> grown w0 w -> sub_InstallPlanApproval spec = "" ->
  (forall o, w KSubscription sub_key = Some o -> approved w o) ->
  wpM E (reconcileSubscription meta spec) s w (fun w' r s' => s' = s /\
    exists o, r = inl o /\ w' KSubscription sub_key = Some o /\ approved w' o /\ (csv_succeeded c w' o \/ progress s w')).
Proof.
  intros Hk Hg Hspec Happ. unfold reconcileSubscription, GetSubscription.
  change (mkKey (Namespace meta) (Name meta)) with (meta_key meta). rewrite Hk.
  assert (Present KSubscription sub_key ∈ tracked) as Hm.
  { unfold milestones. rewrite !elem_of_app. do 3 right. left. right; left. }
  apply wpM_bind, wpM_healthy_read; [done|..].
  - intros cur Hcur Hck. specialize (Happ cur Hcur). destruct Happ as (sp & Hsp & Hplan) eqn:Ha.
    pose proof (found_ready opns addon c s0 w0 Hready _ _ s w cur Hm Hg Hcur) as Hf.
    rewrite Hsp at 1. apply wpM_bind, wpM_pure. destruct (_ || _).
    + eapply wpM_healthy_update.
      * change (obj_key KSubscription _) with (obj_key KSubscription cur). rewrite Hck. exact Hcur.
      * intros o' w' ([Hst _] & Ho' & _) Hss Hg'. change (obj_key KSubscription _) with (obj_key KSubscription cur) in Ho'.
        rewrite Hck in Ho'. split; [done|]. exists o'. split; [done|]. split; [done|].
        destruct Hst as (_ & _ & _ & Hcont). simpl in Hcont, Hss. split.
        -- apply (approved_same opns addon c w w' cur o' Hg' Hss); [|by exists sp].
           intros x Hx. rewrite Hsp in Hx. injection Hx as <-. rewrite Hcont. by eexists.
        -- destruct Hf as [Hf|Hf]; [left|right; by apply (progress_kept opns addon c s0 w0 s w)].
           by apply (ready_same opns addon c w w' KSubscription cur o' Hg' Hss).
    + apply wpM_pure. split; [done|]. exists cur. split; [done|]. split; [done|]. split; [by exists sp|done].
  - intros e -> Hno. apply wpM_healthy_add.
    + change (obj_key KSubscription _) with (meta_key meta). by rewrite Hk.
    + intros o' w' ([Hst _] & Ho' & _) Hg'. change (obj_key KSubscription _) with (meta_key meta) in Ho'. rewrite Hk in Ho'.
      split; [done|]. exists o'. split; [done|]. split; [done|]. destruct Hst as (_ & _ & _ & Hcont). simpl in Hcont. split.
      * apply (created_approved w' o' spec). rewrite Hcont. destruct spec. simpl in *. by subst.
      * right. apply (created_progress opns addon c s0 w0 _ _ s w w' Hm Hg Hno). by rewrite Ho'.
Qed.

Lemma ensureSubscription_proceeds cs s w : same_identity (st_addon s) addon -> grown w0 w ->
  (forall o, w KSubscription sub_key = Some o -> approved w o) ->
  wpM E (ensureSubscription (Some cs)) s w (fun w' r s' => same_handler s s' /\ same_identity (st_addon s') addon /\
    exists res key, r = (res, key, None) /\
      (IsZero res = false /\ progress s' w' \/
       res = resultNil /\ exists o, w' KSubscription sub_key = Some o /\ approved w' o /\
         key = mkKey (ic_Namespace c) (sub_CurrentCSV (sub_Status o)) /\ (csv_succeeded c w' o \/ progress s' w'))).
Proof.
  intros Hs Hg Happ. unfold ensureSubscription. apply wpM_bind, wpM_get_addon.
  assert (parsed (st_addon s) = Some c) as Hc' by (rewrite Hs; apply Hr).
  rewrite (parsed_common _ _ Hc'). apply wpM_bind, wpM_pure.
  rewrite wanted_controller, (wanted_meta_identity _ addon) by done. rewrite (proj2 (names_identity _ _ Hs)).
  apply wpM_bind. eapply wpM_mono; [apply subscription_ensured; [apply wanted_meta_key|done|done|done]|].
  intros w1 r s1 (-> & o & -> & Ho & Ha & Hp).
  destruct (_ || _) eqn:Hcsv.
  - apply wpM_bind, wpM_healthy_report. intros now. apply wpM_pure. split; [done|]. split; [done|].
    eexists _, _. split; [done|]. left. split; [done|]. destruct Hp as [(H1 & H2 & _)|Hp].
    + rewrite !bool_decide_false in Hcsv by done. done.
    + by apply (progress_state opns addon c s0 w0 s).
  - apply wpM_pure. split; [done|]. split; [done|]. eexists _, _. split; [done|]. right. split; [done|]. by exists o.
Qed.

(** ** The observation of the CSV *)

Lemma update_registers h : registered addon c (Handler.UpdateMap (meta_key (a_Meta addon)) (olm_operator_key c) h).2.
Proof.
  unfold registered. rewrite Handler.update_fixpoint; [done|..].
  - by rewrite Handler.rev_update, bool_decide_true.
  - rewrite Handler.keys_of_update, bool_decide_true by done.
    destruct (Handler.isKeyPresent _ _) eqn:Hp; simpl; [by apply Handler.isKeyPresent_spec|set_solver].
Qed.

Lemma common_options s w Q : same_identity (st_addon s) addon -> Q w c s -> wpM E (GetCommonInstallOptions (st_addon s)) s w Q.
Proof.
  intros Hs HQ. assert (parsed (st_addon s) = Some c) as Hc by (rewrite Hs; apply Hr).
  apply parsed_options in Hc as [Hok Ho]. apply wpM_GetCommonInstallOptions; [done|]. by rewrite Ho.
Qed.

(** Whether the add-on has acknowledged its installation. *)
Lemma install_ack_proceeds s w : same_identity (st_addon s) addon -> grown w0 w -> w KAddonInstance (instance_key c) <> None ->
  InstallAckRequired (a_Spec addon) = true ->
  wpM E handleInstallAck s w (fun w' r s' => same_handler s s' /\ same_identity (st_addon s') addon /\
    exists res, r = (res, None) /\ waits res s' w').
Proof.
  intros Hs Hg Hin Hack. unfold handleInstallAck, isAddonInstanceInstalled.
  apply wpM_bind, wpM_bind, wpM_get_addon, wpM_bind, common_options; [done|].
  change (mkKey (ic_Namespace c) DefaultAddonInstanceName) with (instance_key c).
  apply wpM_bind, wpM_healthy_read; [done| |done]. intros o Ho _.
  assert (Present KAddonInstance (instance_key c) ∈ tracked) as Hm.
  { unfold milestones. rewrite !elem_of_app. do 3 right. left. left. }
  destruct (found_ready opns addon c s0 w0 Hready _ _ s w o Hm Hg Ho) as [Hf|Hf].
  - destruct (Hf Hack) as (cond & Hfind & Hst). rewrite Hfind, Hst. simpl.
    rewrite is_true_find, Hfind, Hst, bool_decide_true by done. apply wpM_pure.
    apply wpM_bind, wpM_healthy_report. intros now. apply wpM_pure. split; [done|]. split; [done|].
    eexists. split; [done|]. by left.
  - assert (forall b s', same_handler s s' -> same_identity (st_addon s') addon ->
      wpM E (if negb b then mpure (resultRequeue, @None error) else do* report reportInstalledCondition in mpure (resultNil, None)) s' w
        (fun w' r s' => same_handler s s' /\ same_identity (st_addon s') addon /\ exists res, r = (res, None) /\ waits res s' w')) as Hend.
    { intros b s' Hh Hs'. destruct b; simpl.
      - apply wpM_bind, wpM_healthy_report. intros now. apply wpM_pure. split; [done|]. split; [done|]. eexists. split; [done|]. by left.
      - apply wpM_pure. split; [done|]. split; [done|]. eexists. split; [done|]. right. split; [done|].
        by apply (progress_state opns addon c s0 w0 s). }
    destruct (match FindStatusCondition _ _ with Some _ => _ | None => _ end).
    + apply wpM_bind, wpM_healthy_report. intros now. apply wpM_pure. by apply Hend.
    + apply wpM_pure. by apply Hend.
Qed.

(** The CSV has succeeded. *)
Lemma observe_succeeded key operator ref s w : same_identity (st_addon s) addon -> grown w0 w ->
  w KAddonInstance (instance_key c) <> None ->
  findConcernedCSVReference key operator = Some ref -> getCSVPhase (Some ref) = CSVPhaseSucceeded ->
  wpM E (observe_csv key operator) s w (fun w' r s' => same_handler s s' /\ exists res, r = (res, None) /\ waits res s' w').
Proof.
  intros Hs Hg Hin Href Hph. unfold observe_csv. rewrite Href, Hph. apply wpM_bind.
  assert (forall (b : bool) (s' : St) (w' : objects), same_handler s s' ->
    wpM E (do* (if b then report reportAddonUpgradeSucceeded else mpure tt) in report_csv_phase CSVPhaseSucceeded) s' w'
      (fun w' r s' => same_handler s s' /\ exists res, r = (res, None) /\ waits res s' w')) as Hend.
  { intros b s' w' Hh. apply wpM_bind. destruct b; [apply wpM_healthy_report; intros now|apply wpM_pure];
      apply wpM_pure; (split; [done|]); exists resultNil; (split; [done|]); by left. }
  eapply wpM_mono.
  - unfold handleInstalledCondition. rewrite Hph, bool_decide_true by done. apply wpM_bind, wpM_get_addon. rewrite (proj2 Hs).
    instantiate (1 := fun w' r s' => same_handler s s' /\ exists res, r = (res, None) /\ waits res s' w').
    destruct (InstallAckRequired (a_Spec addon)) eqn:Hack.
    + eapply wpM_mono; [by apply install_ack_proceeds|]. intros w' r s' (H1 & _ & H2). by split.
    + apply wpM_bind, wpM_healthy_report. intros now. apply wpM_pure. split; [done|]. eexists. split; [done|]. by left.
  - intros w1 r s1 (Hh & res & -> & [->|[Hz Hp]]).
    + change (negb (IsZero resultNil)) with false. apply wpM_bind, wpM_get_addon. by apply Hend.
    + rewrite Hz. apply wpM_pure. split; [done|]. exists res. split; [done|]. by right.
Qed.

(** In any case it only reads and reports. *)
Lemma observe_calm key operator s w : same_identity (st_addon s) addon ->
  wpM E (observe_csv key operator) s w (fun _ _ s' => same_handler s s').
Proof.
  intros Hs. unfold observe_csv. apply wpM_bind.
  assert (forall (phase : string) (b : bool) (s' : St) (w' : objects), same_handler s s' ->
    wpM E (do* (if b then report reportAddonUpgradeSucceeded else mpure tt) in report_csv_phase phase) s' w'
      (fun _ _ s' => same_handler s s')) as Hend.
  { intros phase b s' w' Hh. unfold report_csv_phase. apply wpM_bind. destruct b; [apply wpM_healthy_report; intros now|apply wpM_pure];
      (destruct (negb _); [apply wpM_bind, wpM_healthy_report; intros now'|]; by apply wpM_pure). }
  eapply wpM_mono.
  - instantiate (1 := fun _ _ s' => same_handler s s').
    unfold handleInstalledCondition, handleMissingCSV, deleteConfigMapPresent, handleInstallAck, isAddonInstanceInstalled.
    destruct (findConcernedCSVReference key operator) as [ref|].
    + destruct (_ =s? _); [|by apply wpM_pure]. apply wpM_bind, wpM_get_addon.
      destruct (InstallAckRequired _); [|by apply wpM_bind, wpM_healthy_report; intros now; apply wpM_pure].
      apply wpM_bind, wpM_bind, wpM_get_addon, wpM_bind, common_options; [done|].
      apply wpM_bind, wpM_healthy_get; [intros o _ _|intros e _ _; by do 2 apply wpM_pure].
      assert (forall b s', same_handler s s' ->
        wpM E (if negb b then mpure (resultRequeue, @None error) else do* report reportInstalledCondition in mpure (resultNil, None)) s' w
          (fun _ _ s' => same_handler s s')) as Hack.
      { intros [] s' Hh; simpl; [apply wpM_bind, wpM_healthy_report; intros now|]; by apply wpM_pure. }
      destruct (match FindStatusCondition _ _ with Some _ => _ | None => _ end).
      * apply wpM_bind, wpM_healthy_report. intros now. apply wpM_pure. by apply Hack.
      * apply wpM_pure. by apply Hack.
    + apply wpM_bind, wpM_healthy_report. intros now. apply wpM_bind, wpM_bind, wpM_get_addon, wpM_bind, common_options; [done|].
      apply wpM_bind, wpM_healthy_get; [intros o _ _|intros e He _; rewrite He]; apply wpM_pure; [|by apply wpM_pure].
      destruct (_ !! _); [apply wpM_bind, wpM_healthy_report; intros now'|]; by apply wpM_pure.
  - intros w1 [res [e|]] s1 Hh; [by apply wpM_pure|]. destruct (negb (IsZero res)); [by apply wpM_pure|].
    apply wpM_bind, wpM_get_addon. by apply Hend.
Qed.

(** What the observation leaves. *)
Definition observed (s : St) (w' : objects) (r : subReconcilerResult * option error) (s' : St) : Prop :=
  later s s' /\ ((exists res, r = (res, None) /\ waits res s' w') \/ progress s' w').

Lemma install_plan_approved (o : Subscription) s w : approved w o ->
  wpM E (install_plan_pending o) s w (fun w' r s' => w' = w /\ s' = s /\ r = None).
Proof.
  intros (spec & Hsp & Hm). unfold install_plan_pending. rewrite Hsp. apply wpM_bind, wpM_pure.
  destruct (_ =s? _) eqn:He; bools; [|by apply wpM_pure]. apply manual_approval in He.
  destruct (Hm He) as (ref & plan & Href & Hplan & Hph). rewrite Href. apply wpM_bind, wpM_pure. unfold GetInstallPlan.
  apply wpM_bind, wpM_healthy_read; [done| |by intros e _ Hno; rewrite Hplan in Hno].
  intros x Hx _. rewrite Hplan in Hx. injection Hx as <-. rewrite bool_decide_false by done. by apply wpM_pure.
Qed.

Lemma observe_registered o s s1 w : same_identity (st_addon s1) addon -> grown w0 w -> later s s1 ->
  w KAddonInstance (instance_key c) <> None -> csv_succeeded c w o \/ progress s1 w ->
  wpM E (let* r := k8s_Get Uncached KOperator (olm_operator_key c) in
         match r with
         | inr err => if IsNotFound (Some err) then mpure (resultRetry, None)
                      else mpure (resultNil, Some (ErrWrap "getting operator resource: " err))
         | inl operator => observe_csv (mkKey (ic_Namespace c) (sub_CurrentCSV (sub_Status o))) operator
         end) s1 w (observed s).
Proof.
  intros Hs Hg Hl Hin Hp. apply wpM_bind, wpM_healthy_read; [done|..].
  - intros operator Hop _. destruct Hp as [(H1 & H2 & op & ref & Hop' & Href & Hph)|Hp].
    + rewrite Hop in Hop'. injection Hop' as <-.
      eapply wpM_mono; [by eapply observe_succeeded|]. intros w' r s' (Hh & Hres). split; [|by left].
      intros H. by apply (handler_later addon c s1 s' Hh), Hl.
    + eapply wpM_mono; [apply wpM_keeps; [apply _|]; by apply observe_calm|]. intros w' r s' [Hh Hg']. split.
      * intros H. by apply (handler_later addon c s1 s' Hh), Hl.
      * right. by apply (progress_kept opns addon c s0 w0 s1 w).
  - intros e -> Hno. apply wpM_pure. split; [done|]. destruct Hp as [(_ & _ & op & ref & Hop & _)|Hp]; [by rewrite Hno in Hop|].
    by right.
Qed.

Lemma observe_proceeds o s w : same_identity (st_addon s) addon -> grown w0 w -> later s0 s ->
  w KAddonInstance (instance_key c) <> None -> w KSubscription sub_key = Some o -> approved w o ->
  csv_succeeded c w o \/ progress s w ->
  wpM E (observeOperatorResource (mkKey (ic_Namespace c) (sub_CurrentCSV (sub_Status o)))) s w (observed s).
Proof.
  intros Hs Hg Hl Hin Ho Ha Hp. unfold observeOperatorResource. apply wpM_bind, wpM_get_addon.
  assert (parsed (st_addon s) = Some c) as Hc' by (rewrite Hs; apply Hr).
  rewrite (parsed_common _ _ Hc'), (proj2 (names_identity _ _ Hs)). unfold GetSubscription.
  change (mkKey (ic_Namespace c) (SubscriptionName addon)) with sub_key.
  apply wpM_bind, wpM_healthy_read; [done| |by intros e _ Hno; rewrite Ho in Hno].
  intros o' Ho' _. rewrite Ho in Ho'. injection Ho' as <-.
  apply wpM_bind. eapply wpM_mono; [by apply install_plan_approved|]. intros w1 r s1 (-> & -> & ->).
  apply wpM_bind, wpM_get_addon, wpM_bind. unfold generateOperatorResourceName. apply wpM_bind, common_options; [done|].
  apply wpM_pure. change (mkKey "" _) with (olm_operator_key c). rewrite (proj1 Hs).
  apply wpM_bind, wpM_modify_handler.
  pose proof (update_registers (st_handler s)) as Hreg.
  set (u := Handler.UpdateMap _ _ _) in *. set (s1 := mkSt _ _ _).
  assert (later s s1) as Hl1 by by intros _.
  destruct u.1 eqn:Hu.
  - apply wpM_pure. split; [done|]. right. exists Registered. split.
    { unfold milestones. rewrite !elem_of_app. do 3 right. left. do 2 right. left. }
    split; [|exact Hreg]. intros H0%Hl. unfold registered in H0. fold u in H0. congruence.
  - apply observe_registered; try done. destruct Hp as [Hp|Hp]; [by left|right].
    by apply (progressed_later opns addon c s0 w0 s w).
Qed.

(** ** The phases together *)

Lemma subscription_phases_proceed cs s w : same_identity (st_addon s) addon -> grown w0 w -> later s0 s ->
  w KAddonInstance (instance_key c) <> None -> (forall o, w KSubscription sub_key = Some o -> approved w o) ->
  wpM E (olm_subscription_phases (Some cs)) s w (fun w' r s' => proceeds opns addon c s0 w0 s w' r s' /\
    (r = (resultNil, None) -> forall o, w' KSubscription sub_key = Some o -> approved w' o)).
Proof.
  intros Hs Hg Hl Hin Happ. unfold olm_subscription_phases. apply wpM_bind.
  eapply wpM_mono; [apply wpM_keeps; [apply _|]; by apply ensureSubscription_proceeds|].
  intros w1 r s1 [(Hh & Hs1 & res & key & -> & Hr1) Hg1].
  destruct Hr1 as [[Hz Hp]|(-> & o & Ho & Ha & -> & Hp)].
  { rewrite Hz. apply wpM_pure. split; [|by intros [= ->]]. split; [by apply handler_later|by right]. }
  change (negb (IsZero resultNil)) with false. apply wpM_bind.
  assert (grown w0 w1) as Hg2 by by etrans.
  assert (later s s1) as Hl1 by by apply handler_later.
  assert (w1 KAddonInstance (instance_key c) <> None) as Hin1 by by apply (grows_present opns addon c w w1).
  eapply wpM_mono; [apply (wpM_both ocm grown (fun _ _ => True)); [|apply observe_proceeds; try done; by intros H0; apply Hl1, Hl]|].
  { apply wpM_verbatim_reads; [done|apply observe_reads]. }
  intros w2 [res err] s2 [[-> _] [Hl2 Hr2]].
  assert (later s s2) as Hl3 by (intros H; by apply Hl2, Hl1).
  assert (forall o', w1 KSubscription sub_key = Some o' -> approved w1 o') as Happ1.
  { intros o' Ho'. rewrite Ho in Ho'. by injection Ho' as <-. }
  destruct Hr2 as [(res' & [= -> ->] & [->|[Hz Hp']])|Hp'].
  - change (negb (IsZero resultNil)) with false. apply wpM_bind, wpM_modify_addon, wpM_pure.
    split; [|done]. split; [done|by left].
  - rewrite Hz. apply wpM_pure. split; [|by intros [= ->]]. split; [done|by right].
  - destruct err as [e|].
    { apply wpM_pure. split; [|done]. split; [done|by right]. }
    destruct (negb (IsZero res)); [apply wpM_pure|apply wpM_bind, wpM_modify_addon, wpM_pure];
      (split; [|done]); (split; [done|right; done]).
Qed.

(** The phases before leave the Subscription alone. *)
Definition sub_kept (w w' : objects) : Prop := forall key, w' KSubscription key = w KSubscription key.
Lemma approved_kept w w' : grown w w' -> sub_kept w w' -> (forall o, w KSubscription sub_key = Some o -> approved w o) ->
  forall o, w' KSubscription sub_key = Some o -> approved w' o.
Proof.
  intros Hg Hw Happ o Ho. rewrite Hw in Ho. apply (approved_same opns addon c w w' o o Hg); [done| |by apply Happ].
  intros spec Hsp. by exists spec.
Qed.

(** What else is known of a phase. *)
Lemma phase_both {A} (m : M St A) s w (Q Q' : objects -> A -> St -> Prop) :
  wpM (verbatim ocm (fun w c' => is_write c' = true -> True /\ (False -> True))) m s w Q ->
  wpM E m s w Q' -> wpM E m s w (fun w' a s' => (Q w' a s' /\ Q' w' a s') /\ grown w w').
Proof. intros H H'. apply wpM_keeps; [apply _|]. eapply wpM_both; [exact H|exact H']. Qed.

Definition any_permitted (k : kind) (key : ObjectKey) (want : ObjectMeta) (_ : olm_keys addon c k key) :
  permits (fun _ _ => True) k key want := fun _ _ _ _ => conj I I.

Lemma olm_proceeds s w : usable_sources -> same_identity (st_addon s) addon -> grown w0 w -> later s0 s ->
  w KAddonInstance (instance_key c) <> None -> (forall o, w KSubscription sub_key = Some o -> approved w o) ->
  wpM E olm_Reconcile s w (fun w' r s' => proceeds opns addon c s0 w0 s w' r s' /\
    (r = (resultNil, None) -> forall o, w' KSubscription sub_key = Some o -> approved w' o)).
Proof.
  intros Hu Hs Hg Hl Hin Happ. pose proof (regular_config _ _ _ Hr) as Hc.
  pose proof (fun x (H : False) => False_ind (settled addon c x) H) as HP.
  assert (NoDup (map acs_Name (AdditionalCatalogSources c))) as Hd by (pose proof (regular_sources _ _ _ Hr) as H; by inversion H).
  assert (forall res s' w', same_handler s s' -> IsZero res = false -> progress s' w' ->
    proceeds opns addon c s0 w0 s w' (res, None) s' /\
    ((res, @None error) = (resultNil, None) -> forall o, w' KSubscription sub_key = Some o -> approved w' o)) as Hstop.
  { intros res s' w' Hh Hz Hp. split; [split; [by apply handler_later|by right]|]. by intros [= ->]. }
  unfold olm_Reconcile. apply wpM_bind.
  eapply wpM_mono; [apply phase_both; [by apply (ensureOperatorGroup_settles ocm addon c Hc (fun _ => False) HP
    (fun _ _ => True) (fun _ _ => True) any_permitted)|by apply group_proceeds]|].
  intros w1 r s1 [[(_ & Hw1 & _) [-> ->]] Hg1]. change (negb (IsZero resultNil)) with false. apply wpM_bind.
  eapply wpM_mono; [apply phase_both; [by apply (ensureCatalogSourcesNetworkPolicy_settles ocm addon c Hc (fun _ => False) HP
    (fun _ _ => True) (fun _ _ => True) any_permitted)|by apply policy_proceeds]|].
  intros w2 r s2 [[(_ & Hw2 & _) [-> ->]] Hg2]. change (negb (IsZero resultNil)) with false. apply wpM_bind.
  assert (grown w0 w2) as Hg02 by (do 2 (etrans; [eassumption|]); done).
  eapply wpM_mono; [apply phase_both; [by apply (ensureCatalogSource_settles ocm addon c Hc (fun _ => False) HP
    (fun _ _ => True) (fun _ _ => True) any_permitted)|by apply main_source_proceeds]|].
  intros w3 r s3 [[(_ & Hw3 & _) (Hh3 & Hs3 & res & cs & -> & Hr3 & Hcs)] Hg3].
  destruct Hr3 as [->|[Hz Hp]]; [|rewrite Hz; apply wpM_pure; by apply Hstop].
  change (negb (IsZero resultNil)) with false. apply wpM_bind. destruct cs as [cs|]; [|by destruct Hcs].
  assert (grown w0 w3) as Hg03 by by etrans.
  eapply wpM_mono; [apply phase_both; [by apply (ensureAdditionalCatalogSources_settles ocm addon c Hc (fun _ => False) HP
    (fun _ _ => True) (fun _ _ => True) any_permitted)|by apply additional_proceed]|].
  intros w4 r s4 [[(_ & Hw4 & _) (Hh4 & Hs4 & res & -> & Hr4)] Hg4].
  assert (same_handler s s4) as Hh by (unfold same_handler in *; congruence).
  destruct Hr4 as [->|[Hz Hp]]; [|rewrite Hz; apply wpM_pure; by apply Hstop].
  change (negb (IsZero resultNil)) with false.
  assert (grown w w4) as Hgw by (do 3 (etrans; [eassumption|]); done).
  assert (sub_kept w w4) as Hsub.
  { intros key. rewrite Hw4 by (by intros [? _]). rewrite Hw3, Hw2, Hw1 by (by intros [? _]). done. }
  eapply wpM_mono; [apply subscription_phases_proceed; [done|by etrans| | |by eapply approved_kept]|].
  - intros H0. by apply (handler_later addon c s s4 Hh), Hl.
  - by apply (grows_present opns addon c w w4).
  - intros w5 r s5 [[Hl5 Hr5] Ha]. split; [|done]. split; [|done]. intros H. by apply Hl5, (handler_later addon c s s4 Hh).
Qed.
End ProceedsOlm.
