(* ===== verification/Progress.v ===== *)
(** * The Addon controller makes progress

    On a healthy server the controller comes to rest after a bounded number of
    reconciles: each one settles the cluster or reaches a milestone that it had
    not reached before. *)
From S2P Require Export ProceedsOlm.

(** ** Addons that are alike *)

Section Alike.
Context {L : Lib} {LOk : LibOk L}.
Context (opns : string) (c : AddonInstallOLMCommon) (a b : Addon) (Hab : alike a b).

Lemma namespace_keys_canonical d : namespace_keys (canonical d) = namespace_keys d.
Proof. unfold namespace_keys, canonical. simpl. by rewrite map_map. Qed.
Lemma wants_canonical d : addon_wants opns (canonical d) c = addon_wants opns d c.
Proof. exact (f_equal wants (stake_canonical opns c d)). Qed.
Lemma milestones_canonical d : milestones (canonical d) c = milestones d c.
Proof. unfold milestones. by rewrite namespace_keys_canonical. Qed.

Lemma milestones_alike : milestones a c = milestones b c.
Proof. by apply (alike_eq (fun a => milestones a c)); [apply milestones_canonical|]. Qed.
Lemma grows_alike : grows opns a c = grows opns b c.
Proof.
  apply (alike_eq (fun a => grows opns a c)); [|done]. intros d. unfold grows, lasting. by rewrite wants_canonical.
Qed.
Lemma ready_alike : ready_world opns a c = ready_world opns b c.
Proof.
  apply (alike_eq (fun a => ready_world opns a c)); [|done]. intros d. unfold ready_world. by rewrite wants_canonical.
Qed.
Lemma supplied_alike : supplied opns a = supplied opns b.
Proof. by apply (alike_eq (supplied opns)). Qed.
Lemma later_alike : later a c = later b c.
Proof. by apply (alike_eq (fun a => later a c)). Qed.
Lemma proceeds_alike : proceeds opns a c = proceeds opns b c.
Proof.
  apply (alike_eq (fun a => proceeds opns a c)); [|done]. intros d.
  unfold proceeds, progressed. by rewrite milestones_canonical.
Qed.
Lemma subscription_key_alike : subscription_key a c = subscription_key b c.
Proof. by apply (alike_eq (fun a => subscription_key a c)). Qed.
End Alike.

(** ** A pass *)

Section Pass.
Context {L : Lib} {LOk : LibOk L}.
Context (ocm : option ClientOptions) (ClusterID opns : string) (addon : Addon) (c : AddonInstallOLMCommon).
Context (Hr : regular opns c addon) (Hu : usable_sources c).
Abbreviation grown := (grows opns addon c).
Abbreviation later := (later addon c).
Abbreviation reconciler := (reconciler ClusterID opns).
Notation E := (known ocm grown).

(** The Subscription is approved, if there is one. *)
Definition subscription_approved (w : objects) : Prop :=
  forall o, w KSubscription (subscription_key addon c) = Some o -> approved w o.
(** The OLM reconciler looks at the AddonInstance. *)
Definition instance_present (w : objects) : Prop := w KAddonInstance (instance_key c) <> None.

Section Since.
Context (s0 : St) (w0 : objects) (Hready : ready_world opns addon c w0).
Abbreviation progress := (progressed opns addon c s0 w0).
Abbreviation proceeds := (proceeds opns addon c s0 w0).

Lemma part_proceeds p s w : grown w0 w -> later s0 s -> supplied opns addon w -> subscription_approved w ->
  (p = OlmPart -> instance_present w) -> alike (st_addon s) addon ->
  wpM E (sub_Reconcile (reconciler p)) s w (fun w' r s' => proceeds s w' r s' /\
    (p = OlmPart -> r = (resultNil, None) -> subscription_approved w')).
Proof.
  intros Hg Hl Hs Ha Hi Hab. pose proof (regular_alike _ _ _ _ Hab Hr) as Hra.
  unfold subscription_approved in *. rewrite <- (subscription_key_alike c _ _ Hab) in *.
  rewrite <- (grows_alike opns c _ _ Hab) in *. rewrite <- (later_alike c _ _ Hab) in Hl.
  rewrite <- (proceeds_alike opns c _ _ Hab). rewrite <- (ready_alike opns c _ _ Hab) in Hready.
  rewrite <- (supplied_alike opns _ _ Hab) in Hs.
  destruct p; cbn [Quiescence.reconciler sub_Reconcile].
  all: try (eapply wpM_mono; [|intros w' r s' H; split; [exact H|done]]).
  - by apply deletion_proceeds.
  - by apply namespaces_proceed.
  - by apply package_proceeds.
  - by apply secrets_proceed.
  - by apply instance_proceeds.
  - eapply wpM_mono; [apply olm_proceeds; [done|done|done|done|done|done|by apply Hi|done]|].
    intros w' r s' [H1 H2]. by split.
  - by apply federation_proceeds.
  - by apply stack_proceeds.
Qed.

(** The AddonInstance is there, or the part that ensures it is still to come. *)
Definition instance_first (l : list part) (w : objects) : Prop :=
  forall l1 l2, l = l1 ++ OlmPart :: l2 -> InstancePart ∈ l1 \/ instance_present w.

Lemma instance_first_next p l w w' : instance_first (p :: l) w -> grown w w' ->
  (p = InstancePart -> instance_settled c w') -> instance_first l w'.
Proof.
  intros Hf Hg Hset l1 l2 ->. destruct (Hf (p :: l1) l2 eq_refl) as [[H|H]%elem_of_cons|H].
  - right. destruct (Hset (eq_sym H)) as (o & Ho & _). unfold instance_present. by rewrite Ho.
  - by left.
  - right. by eapply grows_present.
Qed.

Lemma run_proceeds l : forall s w,
  grown w0 w -> later s0 s -> supplied opns addon w -> tidy opns addon w -> alike (st_addon s) addon ->
  instance_first l w -> subscription_approved w ->
  wpM E (run_subReconcilers (map reconciler l)) s w (fun w' out s' =>
    later s0 s' /\ alike (st_addon s') addon /\ (out = None \/ progress s' w')).
Proof.
  induction l as [|p l IH]; intros s w Hg Hl Hs Ht Hab Hi Ha; cbn [map run_subReconcilers].
  { apply wpM_pure. split; [done|]. split; [done|by left]. }
  apply wpM_bind. eapply wpM_mono.
  { apply wpM_keeps; [apply _|]. eapply (wpM_both ocm grown).
    - apply (part_runs ocm ClusterID opns c addon Hr [p] False p s w); [left|done|done|done].
    - apply part_proceeds; try done. intros ->. destruct (Hi [] l eq_refl) as [H|H]; [by apply elem_of_nil in H|done]. }
  intros w1 [res err] s1 [[[(Hab1 & Hw1 & Ht1 & Hset) _] [[Hl1 Hp1] Ha1]] Hg1].
  assert (later s0 s1) as Hl2 by (intros H; by apply Hl1, Hl).
  assert (forall out s', same_handler s1 s' -> st_addon s' = st_addon s1 -> (res, err) <> (resultNil, None) ->
    later s0 s' /\ alike (st_addon s') addon /\ (out = @None (ctrl_Result * option error) \/ progress s' w1)) as Hearly.
  { intros out s' Hh Hsa Hne. split; [intros H; by apply (handler_later addon c s1 s' Hh), Hl2|].
    split; [by rewrite Hsa|]. right.
    destruct Hp1 as [Hp1|Hp1]; [done|]. by apply (progress_state opns addon c s0 w0 s1). }
  destruct err as [e|].
  { apply wpM_bind, wpM_get_addon, wpM_bind. unfold report_error. apply wpM_modify_recorder, wpM_pure. by apply Hearly. }
  destruct (sr_Stop res) eqn:Hstop; [apply wpM_pure, Hearly; [done|done|]; by intros [= ->]|].
  destruct (sr_Requeue res) eqn:Hrq; [apply wpM_pure, Hearly; [done|done|]; by intros [= ->]|].
  destruct (sr_RequeueAfter res) eqn:Hra; [apply wpM_pure, Hearly; [done|done|]; by intros [= ->]|].
  assert (res = resultNil) as -> by (destruct res; simpl in *; by subst). apply IH; try done.
  - by etrans.
  - by eapply supplied_grows.
  - eapply instance_first_next; [exact Hi|exact Hg1|]. intros ->. by apply Hset.
  - destruct (decide (p = OlmPart)) as [->|Hne]; [by apply Ha1|].
    assert (sub_kept w w1) as Hsub.
    { intros key. apply Hw1. unfold part_region, secret_region, namespace_region, olm_region, federation_region.
      destruct p; try done; first [by intros []|by intros [? _]]. }
    exact (approved_kept opns addon c w w1 Hg1 Hsub Ha).
Qed.
End Since.

(** ** A reconcile *)

Context (r : AddonReconciler) (all : list part).
Context (Hall : getOrderedSubReconcilers r = map reconciler all) (Hsort : StronglySorted order_le (map reconciler all)).
Context (Hinst : InstancePart ∈ all).
Abbreviation settled_all := (all_settled ocm ClusterID opns c addon all).

Lemma instance_before l l1 l2 : StronglySorted order_le (map reconciler l) -> InstancePart ∈ l ->
  l = l1 ++ OlmPart :: l2 -> InstancePart ∈ l1.
Proof.
  intros Hs Hin ->. apply elem_of_app in Hin as [Hin|[Hin|Hin]%elem_of_cons]; [done|done|]. exfalso.
  induction l1 as [|p l1 IH]; simpl in Hs; inversion Hs as [|? ? Hs' Hle]; subst; [|by apply IH].
  assert (order_le (reconciler OlmPart) (reconciler InstancePart)) as H; [|by apply H].
  apply (proj1 (Forall_forall _ _) Hle). by apply list_elem_of_fmap_2.
Qed.

(** Changes of Addons alone. *)
Definition addons_only (w w' : objects) : Prop := forall k key, k <> KAddon -> w' k key = w k key.
#[local] Instance addons_only_preorder : PreOrder addons_only.
Proof. split; [by intros w|]. intros w1 w2 w3 H1 H2 k key Hk. by rewrite H2, H1. Qed.

Lemma addons_only_still w w' : addons_only w w' -> still (addon_stake opns addon c) w w'.
Proof.
  intros Hw k key. cbv zeta. destruct (decide (k = KAddon)) as [->|Hk].
  - destruct (w KAddon key) as [o|], (w' KAddon key) as [o'|]; try done.
    + right. split; [split; [by intros []|right]|]; by intros [].
    + split; [by intros []|right]; by intros [].
    + by intros [].
  - rewrite Hw by done. destruct (w k key); [by left|done].
Qed.

Definition reports (w : objects) (c' : call) : Prop := is_write c' = false \/ exists o, c' = CStatusUpdate KAddon o.
Lemma reports_only {A} (m : M St A) s w Q : wpM (verbatim ocm reports) m s w Q ->
  wpM (verbatim ocm reports) m s w (fun w' a s' => Q w' a s' /\ addons_only w w').
Proof.
  intros H. eapply wp_mono; [|apply (wp_related ocm addons_only reports); [|exact H]]; [by intros w' [a s']|].
  intros w1 c1 res w2 [Hc|[o ->]] Hs; [by rewrite (stores_read _ _ _ _ _ Hc Hs)|].
  simpl in Hs. destruct res as [o'|e]; [|by destruct Hs as [_ ->]]. destruct Hs as (cur & _ & _ & _ & _ & Hw).
  intros k key Hk. apply Hw. naive_solver.
Qed.

(** The status of an Addon whose components are ready. *)
Definition reported_ready (a : Addon) : Prop := IsAvailable a = true /\ Phase (a_Status a) = PhaseReady.
Lemma readiness_reported now a : reported_ready (reportReadinessStatus now a).
Proof.
  split; [|done]. rewrite IsAvailable_find. unfold reportReadinessStatus.
  by rewrite find_set_ObservedVersion, find_set_Phase, find_observe_generation, find_set_condition, bool_decide_true by done.
Qed.

(** The package of the Addon is available, if it has one. *)
Definition package_available (w : objects) : Prop := AddonPackageOperator (a_Spec addon) <> None ->
  exists o, w KClusterObjectTemplate (template_key addon) = Some o /\ template_available o = true.

(** The status of the Addon: only reads.  [P] says that the package is
    available. *)
Section CRStatus.
Context {W : Type} (En : env W) (P : W -> Prop).
Context (Hreads : forall w c', is_write c' = false -> env_allow En w c').
Context (Hpackage : forall w r w', AddonPackageOperator (a_Spec addon) <> None -> P w ->
  env_step En w (CGet Cached KClusterObjectTemplate (template_key addon)) r w' ->
  P w' /\ exists o, r = inl o /\ template_available o = true).

Lemma package_checked s w : alike (st_addon s) addon ->
  wpM En pko_IsReconciliationSuccessful s w (fun w' r s' => s' = s /\ (P w -> P w' /\ r = (true, None))).
Proof.
  intros Hs. unfold pko_IsReconciliationSuccessful, a_Name. apply wpM_bind, wpM_get_addon.
  pose proof (alike_eq (fun a => AddonPackageOperator (a_Spec a)) _ _ (fun _ => eq_refl) Hs) as Hp.
  pose proof (alike_eq a_Meta _ _ (fun _ => eq_refl) Hs) as Hm. cbv beta in Hp. rewrite Hp, Hm.
  change (mkKey _ _) with (template_key addon). destruct (AddonPackageOperator _) as [p|] eqn:Hpo; [|by apply wpM_pure].
  apply wpM_bind, wpM_call; [by apply Hreads|]. intros res w1 Hst.
  pose proof (fun HP => Hpackage w res w1 (fun H => match eq_sym H with end) HP Hst) as Hav.
  destruct res as [o|e]; apply wpM_pure; (split; [done|]); intros HP; destruct (Hav HP) as (HP1 & o' & Ho & Ha); [|done].
  injection Ho as ->. by rewrite Ha.
Qed.

Lemma checks_calm l : forall s w, alike (st_addon s) addon ->
  wpM En (check_nonBlocking (map reconciler l)) s w (fun w' out s' =>
    same_handler s s' /\ alike (st_addon s') addon /\ (P w -> out = None)).
Proof.
  induction l as [|p l IH]; intros s w Hs; [done|]. cbn [map check_nonBlocking].
  destruct p; try by apply IH. simpl. apply wpM_bind. eapply wpM_mono; [by apply package_checked|].
  intros w1 [ok err] s1 [-> Hok]. destruct err as [e|].
  { apply wpM_pure. split; [done|]. split; [done|]. by intros [_ ?]%Hok. }
  destruct ok; cbn [negb].
  - eapply wpM_mono; [by apply IH|]. intros w2 out s2 (Hh2 & Hs2 & Hn). split; [done|]. split; [done|].
    intros HP. by apply Hn, Hok.
  - apply wpM_bind, wpM_report; [by apply Hreads|]. intros now w2 _. apply wpM_pure.
    split; [done|]. split; [done|]. by intros [_ ?]%Hok.
Qed.

Lemma setAddonCRStatus_calm s w : alike (st_addon s) addon ->
  wpM En (setAddonCRStatus r) s w (fun _ _ s' => same_handler s s' /\ alike (st_addon s') addon /\
    (P w -> reported_ready (st_addon s'))).
Proof.
  intros Hs. unfold setAddonCRStatus. rewrite Hall. apply wpM_bind. eapply wpM_mono; [by apply checks_calm|].
  intros w' [out|] s' (Hh & Hs' & Hok).
  { apply wpM_pure. split; [done|]. split; [done|]. by intros ?%Hok. }
  apply wpM_bind, wpM_report; [by apply Hreads|]. intros now w2 _. apply wpM_pure.
  split; [done|]. split; [done|]. intros _. apply readiness_reported.
Qed.
End CRStatus.

Lemma package_found w r' w' : AddonPackageOperator (a_Spec addon) <> None -> package_available w ->
  env_step E w (CGet Cached KClusterObjectTemplate (template_key addon)) r' w' ->
  package_available w' /\ exists o, r' = inl o /\ template_available o = true.
Proof.
  intros Hp Hw [[[-> Hr'] Hse] _]. destruct (Hw Hp) as (o & Ho & Ha). split; [done|].
  destruct r' as [o'|e].
  - destruct Hr' as [Ho' _]. rewrite Ho in Ho'. injection Ho' as <-. by exists o.
  - destruct Hr' as [_ Hno]. by specialize (Hno (Hse e eq_refl) o Ho).
Qed.
Lemma package_addons_only w w' : addons_only w w' -> package_available w' -> package_available w.
Proof. intros Hw H Hp. rewrite <- Hw by done. by apply H. Qed.

Section Since.
Context (s0 : St) (w0 : objects) (Hready : ready_world opns addon c w0).
Abbreviation progress := (progressed opns addon c s0 w0).

(** What a reconcile leaves: progress, or a settled cluster and [X]. *)
Definition advanced (X : Prop) (w' : objects) (s' : St) : Prop :=
  later s0 s' /\ tidy opns addon w' /\ (settled_all w' /\ X \/ progress s' w').

Lemma advanced_later (X Y : Prop) w w' s s' : grown w w' -> addons_only w w' -> same_handler s s' -> (X -> Y) ->
  advanced X w s -> advanced Y w' s'.
Proof.
  intros Hg Hw Hh HXY (H1 & H2 & H3). pose proof (addons_only_still _ _ Hw) as Hst. split; [|split].
  - intros H. by apply (handler_later addon c s s' Hh), H1.
  - by eapply tidy_still.
  - destruct H3 as [[H3 HX]|H3]; [left; split; [by eapply all_still|auto]|right].
    by apply (progress_kept opns addon c s0 w0 s w).
Qed.

(** A program that only reports keeps it. *)
Lemma tail_advanced {A} (m : M St A) s w (X : Prop) (Y : objects -> St -> Prop) :
  wpM (verbatim ocm reports) m s w (fun _ _ _ => True) ->
  wpM E m s w (fun w' _ s' => same_handler s s' /\ (X -> grown w w' -> addons_only w w' -> Y w' s')) ->
  advanced X w s -> wpM E m s w (fun w' _ s' => advanced (Y w' s') w' s').
Proof.
  intros H1 H2 Ha. eapply wpM_mono; [apply wpM_keeps; [apply _|]; eapply wpM_both; [by apply reports_only|exact H2]|].
  intros w' a s' [[[_ Hw] [Hh HY]] Hg]. eapply advanced_later; [done..| |done]. auto.
Qed.

(** The Addon is still the one of the reconcile, and is reported ready if its
    package is. *)
Definition ready_in_hand (w : objects) (s : St) : Prop :=
  alike (st_addon s) addon /\ (package_available w -> reported_ready (st_addon s)).

Lemma pass_advances s w : grown w0 w -> same_handler s0 s -> supplied opns addon w -> tidy opns addon w ->
  alike (st_addon s) addon -> subscription_approved w ->
  wpM E (run_subReconcilers (getOrderedSubReconcilers r)) s w (fun w' out s' =>
    advanced (out = None) w' s' /\ alike (st_addon s') addon).
Proof.
  intros Hg Hh Hs Ht Hab Ha. eapply wpM_mono; [eapply wpM_both|].
  - by apply (pass_settles ocm ClusterID opns c addon Hr all False r Hall Hsort).
  - rewrite Hall. apply run_proceeds; try done; [by apply handler_later|]. intros l1 l2 Hl. left. by eapply instance_before.
  - intros w' out s' [[Ht' Hset] (Hl & Hab' & Hp)]. split; [|done]. split; [done|]. split; [done|].
    destruct Hp as [->|Hp]; [left; split; [by apply Hset|done]|by right].
Qed.
End Since.

(** The Addon that is reconciled: neither paused nor at the start of an upgrade. *)
Definition reconcilable (a : Addon) : Prop := same_identity a addon /\ addonIsBeingUpgraded a = false.
Context (Hfinal : ContainsFinalizer (a_Meta addon) cacheFinalizer = true) (Hpause : Paused (a_Spec addon) = false).

Lemma upgrade_unpaused a : addonIsBeingUpgraded (removeAddonPauseCondition a) = addonIsBeingUpgraded a.
Proof. done. Qed.

Lemma prepare_calm s w : same_identity (st_addon s) addon ->
  wpM E prepare_addon s w (fun w' e s' => w' = w /\ e = None /\ same_identity (st_addon s') addon /\ same_handler s s').
Proof.
  intros Hs. unfold prepare_addon. apply wpM_bind, wpM_get_addon, wpM_bind.
  assert (forall s2, same_identity (st_addon s2) addon -> same_handler s s2 ->
    wpM E ensure_cache_finalizer s2 w (fun w' e s' => w' = w /\ e = None /\ same_identity (st_addon s') addon /\ same_handler s s')) as Hfin.
  { intros s2 Hs2 Hh. unfold ensure_cache_finalizer. apply wpM_bind, wpM_get_addon. rewrite (proj1 Hs2), Hfinal.
    by apply wpM_pure. }
  destruct (installedConditionMissing _); [|by apply wpM_pure, Hfin].
  apply wpM_healthy_report. intros now. by apply Hfin.
Qed.

(** The status of the stored Addon. *)
Definition stored_ready (req : ObjectKey) (w : objects) : Prop :=
  package_available w -> exists a, w KAddon req = Some a /\ reported_ready a.

Lemma finish_advances s0 w0 req res err s w : w KAddon req <> None -> obj_key KAddon addon = req ->
  advanced s0 w0 (ready_in_hand w s) w s ->
  wpM E (finish_reconcile r res err) s w (fun w' _ s' => advanced s0 w0 (stored_ready req w') w' s').
Proof.
  intros Hw Hreq Ha.
  apply (tail_advanced s0 w0 _ _ _ (ready_in_hand w s) (fun w' _ => stored_ready req w'));
    [|eapply wpM_mono; [apply finish_reconcile_spec; try done|]|done].
  - eapply wpM_mono; [apply (finish_reconcile_spec (verbatim ocm reports))|done].
    + intros w1 c1 Hc. by left.
    + intros w1 c1 w2 w3 [H1 _] [H2 _] why. congruence.
    + intros w1 a _. right. by eexists.
  - intros w1 c1 w2 w3 [[[H1 _] _] _] [[[H2 _] _] _] why. congruence.
  - intros w' out s' (w1 & a & resp & (Hm & _ & Hc & Hp) & [[Hst Hse] Hg] & _ & Hh). split; [exact Hh|].
    intros [Hab Hrep] Hg' Hw' Hpk. specialize (Hrep (package_addons_only _ _ Hw' Hpk)).
    assert (obj_key KAddon (reportObservedVersion a) = req) as Hk.
    { change (meta_key (a_Meta a) = req). rewrite Hm, <- Hreq. by apply (alike_eq (fun a => obj_key KAddon a)). }
    destruct resp as [o'|e]; simpl in Hst, Hse; rewrite Hk in *.
    + destruct Hst as (cur & Hcur & _ & _ & Ho' & _). destruct Hse as (o2 & [= <-] & Hstat); [by rewrite Hcur|].
      exists o'. split; [done|]. destruct Hrep as [H1 H2]. unfold reported_ready, IsAvailable in *. rewrite Hstat. simpl.
      by rewrite Hc, Hp.
    + destruct Hst as [_ ->]. destruct Hse as (o2 & He & _); [|done]. by apply (grows_addons _ _ _ _ _ Hg').
Qed.

Lemma locked_advances s0 s w : ready_world opns addon c w -> supplied opns addon w -> tidy opns addon w ->
  same_handler s0 s -> same_identity (st_addon s) addon -> addonIsBeingUpgraded (st_addon s) = false ->
  wpM E (reconcile_locked r) s w (fun w' _ s' => advanced s0 w (ready_in_hand w' s') w' s').
Proof.
  intros Hready Hsup Ht Hh1 Hs1 Hup1. unfold reconcile_locked. apply wpM_bind, wpM_get_addon, wpM_bind, wpM_call; [done|].
  intros paused w1 [[Hw1 Hp] _]. simpl in Hw1, Hp. subst w1 paused. rewrite (proj2 Hs1), Hpause.
  apply wpM_bind, wpM_modify_addon, wpM_bind, wpM_get_addon. cbn [st_addon with_addon]. rewrite upgrade_unpaused, Hup1.
  set (s2 := with_addon removeAddonPauseCondition s). assert (same_identity (st_addon s2) addon) as Hs2 by done.
  assert (same_handler s0 s2) as Hh2 by done. clearbody s2. unfold reconcile_unpaused. apply wpM_bind.
  eapply wpM_mono; [by apply prepare_calm|]. intros w1 e s3 (-> & -> & Hs3 & Hh3).
  assert (same_handler s0 s3) as Hh by (unfold same_handler in *; congruence).
  apply wpM_bind. eapply wpM_mono; [apply (pass_advances s0 w Hready); try done|].
  - by apply same_identity_alike.
  - exact (proj2 Hready).
  - intros w1 [out|] s4 [(Hl & Ht' & H) Hab].
    { apply wpM_pure. split; [done|]. split; [done|]. destruct H as [[_ H]|H]; [done|by right]. }
    apply (tail_advanced s0 w _ _ _ True ready_in_hand).
    + eapply wpM_mono; [apply (setAddonCRStatus_calm _ (fun _ => False))|done]; [|done..]. intros w2 c2 Hc. by left.
    + eapply wpM_mono; [apply (setAddonCRStatus_calm _ package_available); [done|exact package_found|done]|].
      intros w2 res s5 (Hh5 & Hab5 & Hr5). split; [done|]. intros _ _ Hw2. split; [done|].
      intros Hpk. by apply Hr5, (package_addons_only _ _ Hw2).
    + split; [done|]. split; [done|]. destruct H as [[H _]|H]; [by left|by right].
Qed.

Lemma reconcile_advances req a s w : ready_world opns addon c w -> supplied opns addon w -> tidy opns addon w ->
  w KAddon req = Some a -> reconcilable a ->
  wpM E (Reconcile r req) s w (fun w' _ s' => advanced s w (stored_ready req w') w' s').
Proof.
  intros Hready Hsup Ht Ha [Hs Hup]. unfold Reconcile.
  apply wpM_bind, wpM_healthy_read; [done| |by intros e _ Hno; rewrite Ha in Hno].
  intros a' Ha' Hkey. rewrite Ha in Ha'. injection Ha' as <-. apply wpM_bind, wpM_set_addon, wpM_bind.
  assert (obj_key KAddon addon = req) as Hreq 
    by (rewrite <- Hkey; change (meta_key (a_Meta addon) = meta_key (a_Meta a)); by rewrite (proj1 Hs)).
  apply wpM_mono with (Q := fun w' _ s' => advanced s w (ready_in_hand w' s') w' s' /\ grown w w').
  2: { intros w' [res err] s' [H Hg]. apply finish_advances; [|done|done]. apply (grows_addons _ _ _ _ _ Hg). by rewrite Ha. }
  apply wpM_keeps; [apply _|]. set (s1 := with_addon _ s). assert (same_identity (st_addon s1) addon) as Hs1 by done.
  assert (same_handler s s1) as Hh1 by done. assert (addonIsBeingUpgraded (st_addon s1) = false) as Hup1 by done. clearbody s1.
  unfold reconcile. apply wpM_bind, wpM_get_addon. rewrite (proj1 Hs1), (regular_alive _ _ _ Hr), time_is_zero. cbn [negb].
  unfold with_rlock. apply wpM_bind, wpM_healthy_other. intros [] w1 Hw1. simpl in Hw1. subst w1.
  apply wpM_defer_total. change (mkEnv (env_step E) (env_allow E) (fun _ _ => False)) with E.
  apply wpM_mono with (Q := fun w' _ s' => advanced s w (ready_in_hand w' s') w' s').
  2: { intros w' out s' H. split; [done|]. intros [] w2 [[Hw2 _] _]. simpl in Hw2. by subst w2. }
  by apply locked_advances.
Qed.
End Pass.

(** ** The theorem *)

Section Converges.
Context {L : Lib} {LOk : LibOk L}.
Context (ocm : option ClientOptions) (ClusterID opns : string) (addon : Addon) (c : AddonInstallOLMCommon).
Context (r : AddonReconciler) (req : ObjectKey).
Abbreviation st := (addon_stake opns addon c).

(** What the Addon asks for is in place, for every sub-reconciler, and every
    reconcile from now on changes nothing. *)
Definition rested (w : objects) : Prop :=
  (forall p, reconciler ClusterID opns p ∈ getOrderedSubReconcilers r -> part_settled ocm ClusterID opns c p addon w) /\
  forall s2 w2 a, still st w w2 -> w2 KAddon req = Some a -> same_identity a addon ->
    wpM (verbatim ocm (fun w c' => is_write c' = true -> unchanged st w c')) (Reconcile r req) s2 w2
      (fun w3 _ _ => still st w2 w3).

(** What happens between two reconciles: others keep to their own objects, and
    what there is gets ready.  The operator keeps the event handler. *)
Definition between (s : St) (w : objects) (s1 : St) (w1 : objects) : Prop :=
  later addon c s s1 /\ still st w w1 /\ ready_world opns addon c w1.

(** At most [n] reconciles before one that leaves the cluster at rest, and the
    Addon reported ready. *)
Fixpoint rests_within (n : nat) (s : St) (w : objects) : Prop := forall s1 w1 a,
  between s w s1 w1 -> w1 KAddon req = Some a -> reconcilable addon a ->
  wpM (healthy ocm) (Reconcile r req) s1 w1 (fun w2 _ s2 =>
    (rested w2 /\ stored_ready addon req w2) \/ match n with O => False | S n => rests_within n s2 w2 end).
End Converges.

Section Bounded.
Context {L : Lib} {LOk : LibOk L}.
Context (ocm : option ClientOptions) (ClusterID opns : string) (b1 b2 : bool) (opts : list AddonReconcilerOption).
Context (addon : Addon) (c : AddonInstallOLMCommon) (req : ObjectKey).
Context (Hr : regular opns c addon) (Hu : usable_sources c).
Context (Hfinal : ContainsFinalizer (a_Meta addon) cacheFinalizer = true) (Hpause : Paused (a_Spec addon) = false).
Abbreviation r := (NewAddonReconciler ClusterID opns b1 b2 opts).

Lemma part_in l p : getOrderedSubReconcilers r = map (reconciler ClusterID opns) l ->
  reconciler ClusterID opns p ∈ getOrderedSubReconcilers r -> p ∈ l.
Proof.
  intros -> (q & Hq & Hin)%list_elem_of_fmap. apply (f_equal sub_Name) in Hq. by destruct p, q.
Qed.
Lemma in_place l w : getOrderedSubReconcilers r = map (reconciler ClusterID opns) l ->
  all_settled ocm ClusterID opns c addon l w ->
  forall p, reconciler ClusterID opns p ∈ getOrderedSubReconcilers r -> part_settled ocm ClusterID opns c p addon w.
Proof. intros Hl Hset p Hp. by eapply Hset, part_in. Qed.

Lemma instance_part l : getOrderedSubReconcilers r = map (reconciler ClusterID opns) l -> InstancePart ∈ l.
Proof.
  intros Hl. apply part_in; [done|].
  destruct (getOrdered_acc (subReconcilers r) []) as [_ Hp]; [constructor|].
  unfold getOrderedSubReconcilers. rewrite Hp, app_nil_r. clear Hl Hp. unfold NewAddonReconciler.
  match goal with |- context [fold_left _ _ ?r0] => set (r0' := r0) end.
  assert (reconciler ClusterID opns InstancePart ∈ subReconcilers r0') as H by (simpl; set_solver).
  revert H. generalize r0'. clear. induction opts as [|o l IH]; intros r0 H; [done|]. apply IH.
  destruct o; simpl; apply elem_of_app; by left.
Qed.

(** One healthy reconcile. *)
Lemma healthy_reconcile l s w a : getOrderedSubReconcilers r = map (reconciler ClusterID opns) l ->
  StronglySorted order_le (map (reconciler ClusterID opns) l) ->
  ready_world opns addon c w -> supplied opns addon w -> tidy opns addon w ->
  w KAddon req = Some a -> reconcilable addon a ->
  wpM (healthy ocm) (Reconcile r req) s w (fun w' _ s' =>
    advanced ocm ClusterID opns addon c l s w (stored_ready addon req w') w' s' /\ grows opns addon c w w').
Proof.
  intros Hl Hsort Hready Hsup Ht Ha Hrec.
  eapply wp_mono; [|eapply (wp_known ocm (grows opns addon c) (accepted ocm ClusterID opns c addon l False))].
  2: { intros w1 c1 res w2 Hacc. apply accepted_grows; [done|]. intros Hw. by apply Hacc. }
  2: { apply (reconcile_accepted ocm ClusterID opns c addon Hr l False r Hl Hsort req a s w); try done. by destruct Hrec. }
  2: { apply wpM_keeps; [apply _|]. by apply (reconcile_advances ocm ClusterID opns addon c Hr Hu r l Hl Hsort (instance_part l Hl) Hfinal Hpause req a). }
  by intros w' [out s'] [_ H].
Qed.

(** The milestones that are left bound the number of reconciles. *)
Lemma rests_by l : forall (n : nat) (todo : list milestone) s w,
  getOrderedSubReconcilers r = map (reconciler ClusterID opns) l ->
  StronglySorted order_le (map (reconciler ClusterID opns) l) ->
  (forall m, m ∈ milestones addon c -> m ∈ todo \/ reached opns addon c s w m) -> length todo <= n ->
  tidy opns addon w -> supplied opns addon w ->
  rests_within ocm ClusterID opns addon c r req n s w.
Proof.
  intros n. induction n as [|n IH]; intros todo s w Hl Hsort Htodo Hn Ht Hsup s1 w1 a (Hlater & Hq & Hready) Ha Hrec;
    (assert (tidy opns addon w1) as Ht1 by by eapply tidy_still);
    (assert (supplied opns addon w1) as Hsup1 by by eapply supplied_still);
    (assert (forall m, m ∈ milestones addon c -> m ∈ todo \/ reached opns addon c s1 w1 m) as Htodo1
      by (intros m Hm; destruct (Htodo m Hm) as [H|H]; [by left|right; by eapply reached_still]));
    (eapply wpM_mono; [by eapply healthy_reconcile|]);
    intros w2 out s2 [(Hl2 & Ht2 & [[Hset Hst]|(m & Hm & Hno & Hyes)]) Hg2];
    try (left; split; [split; [by eapply in_place|]|done]; intros s3 w3 a3;
      by apply (settled_rests ocm ClusterID opns b1 b2 opts addon c l));
    (destruct (Htodo1 m Hm) as [Hin|H]; [|done]).
  - destruct todo; [by apply elem_of_nil in Hin|simpl in Hn; lia].
  - right. apply list_elem_of_split in Hin as (l1 & l2 & ->).
    apply (IH (l1 ++ l2)); try done.
    + intros m' Hm'. destruct (decide (m' = m)) as [->|Hne]; [by right|].
      destruct (Htodo1 m' Hm') as [H|H]; [left; set_solver|right; by eapply reached_later].
    + rewrite !length_app in *. simpl in Hn. lia.
    + by eapply supplied_grows.
Qed.

End Bounded.

(** C5: The Addon controller converges. Given: an Addon that is regular (usable
    configuration, distinct names, not deleted or marked for deletion), with a
    name and an image for each additional catalog source, with its finalizer,
    not paused; a cluster that has the Secrets it refers to and where no object
    of others is taken for the Addon's; a healthy server, which refuses no read
    of what is there, no creation of what is not, no update of what is. Before
    each reconcile, others have kept to their own objects; what the Addon wants
    and is there has got ready (namespaces, catalog sources, CSV, AddonInstance,
    MonitoringStack); and the Addon is not being upgraded. Then no reconcile
    panics, and each leaves the cluster at rest or reaches a new milestone. So
    after at most one reconcile more than there are milestones it is at rest:
    all that the sub-reconcilers ensure is in place, the stored Addon is Ready,
    unless its package is not, and each later reconcile changes only the status. *)
Theorem controller_converges {L : Lib} {LOk : LibOk L} ocm ClusterID opns b1 b2 opts addon c req s w :
  regular opns c addon -> usable_sources c ->
  ContainsFinalizer (a_Meta addon) cacheFinalizer = true -> Paused (a_Spec addon) = false ->
  tidy opns addon w -> supplied opns addon w ->
  rests_within ocm ClusterID opns addon c (NewAddonReconciler ClusterID opns b1 b2 opts) req (length (milestones addon c)) s w.
Proof.
  intros Hr Hu Hfinal Hpause Ht Hs. destruct (ordered_parts ClusterID opns b1 b2 opts) as (l & Hl & Hsort).
  apply (rests_by ocm ClusterID opns b1 b2 opts addon c req Hr Hu Hfinal Hpause l _ (milestones addon c)); try done.
  by left.
Qed.
