(* ===== verification/Coexistence.v ===== *)
(** * Addons that share a cluster

    Several Addons with different names, namespaces and install namespaces, all
    reconciled by one controller.  What a reconcile of one of them writes
    ([own_write]) is nothing that another has a stake in; so an Addon that has
    come to rest stays so, whatever happens to the others, in whichever order,
    and wherever their reconciles are cut off. *)
From S2P Require Export Footprint Quiescence AddonInstanceController.

(** ** Executions on a server *)

Section Runs.
Context {L : Lib} (ocm : option ClientOptions).

(** A program was started in [w]; when it ended, or was cut off, the cluster
    was [w']. *)
Inductive runs {A} : prog A -> objects -> objects -> Prop :=
  | runs_stop m w : runs m w w
  | runs_call c k r w w1 w2 : stores_verbatim ocm w c r w1 -> runs (k r) w1 w2 -> runs (Vis c k) w w2.

(** What every accepted call does to the cluster, a run does. *)
Lemma runs_related {A} (R : objects -> objects -> Prop) `{!PreOrder R} allow (m : prog A) w Q w' :
  (forall w c r w', allow w c -> stores_verbatim ocm w c r w' -> R w w') ->
  wp (verbatim ocm allow) m w Q -> runs m w w' -> R w w'.
Proof.
  intros HR Hm Hr. revert Hm. induction Hr as [|c k r w w1 w2 Hs _ IH]; intros Hm; [done|].
  destruct Hm as [Hc Hk]. etrans; [by eapply HR|by apply IH, Hk].
Qed.
End Runs.

(** *** Programs that report statuses alone *)

Section Reports.
Context {L : Lib} {LOk : LibOk L} (ocm : option ClientOptions).

(** Only statuses changed. *)
Definition same_but_status (w w' : objects) : Prop := forall k key,
  match w k key, w' k key with
  | Some o, Some o' => obj_meta k o' = obj_meta k o /\ same_content k o' o
  | None, None => True
  | _, _ => False
  end.
#[export] Instance same_but_status_preorder : PreOrder same_but_status.
Proof.
  split; [intros w k key; by destruct (w k key)|]. intros w1 w2 w3 H1 H2 k key. specialize (H1 k key). specialize (H2 k key).
  destruct (w1 k key), (w2 k key), (w3 k key); try done. destruct H1 as [H1 H1'], H2 as [H2 H2'].
  split; [congruence|by etrans].
Qed.

Definition reports_statuses (_ : objects) (c : call) : Prop :=
  is_write c = true -> match c with CStatusUpdate _ _ => True | _ => False end.

Abbreviation E := (verbatim ocm reports_statuses).

Lemma status_only w c r w' : reports_statuses w c -> stores_verbatim ocm w c r w' -> same_but_status w w'.
Proof.
  intros Hc Hs. destruct (is_write c) eqn:Hw; [|by rewrite (stores_read _ _ _ _ _ Hw Hs)].
  specialize (Hc Hw). destruct c as [| | | |k o| | | | | | | | | | | | |]; try done. simpl in Hs.
  destruct r as [o'|e]; [|by destruct Hs as [_ ->]]. destruct Hs as (cur & Hcur & Hm & Hsp & Ho' & Ho).
  intros k' key'. destruct (decide (k' = k /\ key' = obj_key k o)) as [[-> ->]|Hne]; [by rewrite Hcur, Ho'|].
  rewrite Ho by done. by destruct (w k' key').
Qed.

(** The AddonInstance controller, and the heartbeats of the addons. *)
Lemma store_conditions_reports conds s w : wpM E (store_conditions conds) s w (fun _ _ _ => True).
Proof.
  revert s w. induction conds as [|x l IH]; intros s w; [done|]. apply wpM_bind.
  apply wpM_mono with (Q := fun _ _ _ => True); [|by intros]. by apply wpM_bind, wpM_call.
Qed.

Lemma instance_reports interval m req s w :
  wp E (instance_Reconcile (mkConfig interval [NewPhaseCheckHeartbeat m]) req s) w (fun _ _ => True).
Proof.
  eapply (wp_mono _ _ _ (fun _ '(_, _) => True)); [done|].
  change (wpM E (instance_Reconcile (mkConfig interval [NewPhaseCheckHeartbeat m]) req) s w (fun _ _ _ => True)).
  assert (forall s w, wpM E instance_UpdateStatus s w (fun _ _ _ => True)) as Hup.
  { clear. intros s w. unfold instance_UpdateStatus. apply wpM_bind, wpM_pure, wpM_bind, wpM_pure.
    apply wpM_bind, wpM_call; [done|]. intros [o|e] w' _; [|by apply wpM_pure]. by apply wpM_bind, wpM_pure. }
  unfold instance_Reconcile, instance_Get. apply wpM_bind, wpM_bind, wpM_call; [done|].
  intros [i|e] w1 _; apply wpM_pure; [|by apply wpM_bind].
  apply wpM_bind, wpM_pure, wpM_bind. apply wpM_mono with (Q := fun _ _ _ => True).
  - cbn [run_phases SerialPhases]. apply wpM_bind, wpM_pure, wpM_bind.
    apply heartbeat_Execute_spec; [done| |].
    + intros _. apply wpM_bind. eapply wpM_mono; [apply store_conditions_reports|]. by intros.
    + intros now w2 _ _. split; intros _; (apply wpM_bind; eapply wpM_mono; [apply store_conditions_reports|]; by intros).
  - intros w2 failed s2 _. apply wpM_bind. eapply wpM_mono; [apply Hup|]. intros w3 [e|] s3 _; by apply wpM_bind.
Qed.

Lemma pulse_reports i conds s w : wp E (SendPulse i conds s) w (fun _ _ => True).
Proof.
  eapply (wp_mono _ _ _ (fun _ '(_, _) => True)); [done|].
  change (wpM E (SendPulse i conds) s w (fun _ _ _ => True)). unfold SendPulse.
  apply wpM_bind, wpM_call; [done|]. intros now w1 _. apply wpM_bind, wpM_pure, wpM_bind.
  eapply wpM_mono; [apply store_conditions_reports|]. intros w2 [] s2 _. apply wpM_bind, wpM_pure, wpM_bind, wpM_call; [done|].
  by intros [o|e].
Qed.
End Reports.

(** ** Tenants *)

Record tenant := mkTenant { t_addon : Addon; t_config : AddonInstallOLMCommon; t_key : ObjectKey }.

Section Tenants.
Context {L : Lib} {LOk : LibOk L}.
Context (ocm : option ClientOptions) (ClusterID opns : string).

Abbreviation writes t := (addon_writes (t_addon t) (t_config t)).
Abbreviation stake_of t := (addon_stake opns (t_addon t) (t_config t)).
Abbreviation writes_of t := (own_write opns (t_addon t) (t_config t)).
Abbreviation name_of t := (a_Name (t_addon t)).
Abbreviation effect t := (effect opns (t_addon t) (t_config t)).
Abbreviation may_remove t := (may_remove opns (t_addon t) (t_config t)).

(** The keys an Addon writes, and those it reads. *)
Definition touches (t : tenant) (k : kind) (key : ObjectKey) : Prop :=
  writes t k key \/ k = KSecret /\ (key = prom_token_key opns \/ key ∈ source_keys opns (t_addon t)).

Record separate (s t : tenant) : Prop := {
  separate_keys k key : writes t k key -> ~ touches s k key;
  separate_sources key : key ∈ source_keys opns (t_addon t) -> ~ writes s KSecret key
}.

(** The namespaces an Addon is at work in. *)
Definition territory (t : tenant) : list string :=
  ic_Namespace (t_config t) :: GetMonitoringNamespaceName (t_addon t) :: map an_Name (Namespaces (a_Spec (t_addon t))).

Lemma writes_territory t k key : writes t k key ->
  match k with
  | KNamespace => key_Name key ∈ territory t
  | KClusterObjectTemplate => key_Name key = name_of t
  | _ => key_Namespace key ∈ territory t
  end.
Proof.
  destruct k; simpl; try (intros []; fail); try (intros ->; unfold territory; simpl; set_solver).
  - intros [(ns & -> & Hns)%list_elem_of_fmap| ->]; unfold territory; simpl; [|set_solver]. right. right. apply list_elem_of_fmap. by exists ns.
  - intros [H%placement_key_namespace| ->]; unfold territory; simpl; [|set_solver]. by right; right.
  - change (key ∈ map (mkKey (ic_Namespace (t_config t))) (source_names (t_addon t) (t_config t)) -> key_Namespace key ∈ territory t).
    intros (n & -> & _)%list_elem_of_fmap. left.
Qed.

(** Addons with different names in different namespaces are separate. *)
Lemma separate_by_territory s t : name_of s <> name_of t -> (forall n, n ∈ territory s -> n ∉ territory t) ->
  opns ∉ territory s -> opns ∉ territory t -> separate s t.
Proof.
  intros Hne Hd Hs Ht.
  assert (forall u key, opns ∉ territory u -> key_Namespace key = opns -> ~ writes u KSecret key) as Hop.
  { intros u key Hu <- H%writes_territory. by apply Hu. }
  split.
  - intros k key Hw [H|[-> H]].
    + apply writes_territory in Hw, H. destruct k; try congruence; try (by eapply Hd).
    + apply (Hop t key); [done| |done]. destruct H as [->|(ref & -> & _)%list_elem_of_fmap]; done.
  - intros key (ref & -> & _)%list_elem_of_fmap. by apply Hop.
Qed.

(** The Addon can be settled, its labels are its own, it carries the finalizer,
    and it does not propagate the operator's token. *)
Record settler (t : tenant) : Prop := {
  settler_regular : regular opns (t_config t) (t_addon t);
  settler_labels : own_labels (t_addon t);
  settler_finalizer : ContainsFinalizer (a_Meta (t_addon t)) cacheFinalizer = true;
  settler_sources : prom_token_key opns ∉ source_keys opns (t_addon t)
}.

Context (ts : list tenant).
Context (Hsettler : forall t, t ∈ ts -> settler t).
Context (Hnames : forall s t, s ∈ ts -> t ∈ ts -> name_of s = name_of t -> s = t).
Context (Hseparate : forall s t, s ∈ ts -> t ∈ ts -> name_of s <> name_of t -> separate s t).

(** No object that an Addon touches carries the label of another one, the
    sources that two Addons share are marked for the cache, nothing is taken for an object of an Addon
    that is not, and the Addons are stored as they are. *)
Record peaceful (w : objects) : Prop := {
  peaceful_labels s t k key o : s ∈ ts -> t ∈ ts -> name_of s <> name_of t -> by_label k -> touches s k key ->
    w k key = Some o -> instance_label k o <> Some (name_of t);
  peaceful_sources s t key o : s ∈ ts -> t ∈ ts -> name_of s <> name_of t ->
    key ∈ source_keys opns (t_addon s) -> key ∈ source_keys opns (t_addon t) ->
    w KSecret key = Some o -> in_view Cached KSecret o = true;
  peaceful_tidy t : t ∈ ts -> tidy opns (t_addon t) w;
  peaceful_stored t : t ∈ ts -> exists a, w KAddon (t_key t) = Some a /\ same_identity a (t_addon t)
}.

(** *** Stakes *)

Lemma wanted_touched t k key : addon_wants opns (t_addon t) (t_config t) k key -> touches t k key.
Proof.
  unfold touches. destruct k; simpl; try (by left); try (intros []; fail); try (intros [_ H]; by left).
  - intros [H|[_ H]]; left; [by left|by right].
  - intros [H|[H|[_ [H|H]]]]; [left; by left|right; auto|right; auto|left; by right].
Qed.

Lemma claimed_touched t k key (o : obj k) : claimed (stake_of t) k key o ->
  writes t k key \/ by_label k /\ instance_label k o = Some (name_of t).
Proof.
  destruct k; simpl; try (intros []; fail); try (by left).
  - intros [H|H]; [right; split; [done|by apply selected_label]|left; by right].
  - intros [H|H]; [by right|left; by right].
  - intros H. right. split; [done|by apply selected_label].
Qed.
(** *** Others are not disturbed *)

Section Others.
Context (s t : tenant) (Hs : s ∈ ts) (Ht : t ∈ ts) (Hne : name_of s <> name_of t).

Lemma not_wanted k key : writes t k key -> ~ wants (stake_of s) k key.
Proof. intros Hw H%wanted_touched. by apply (separate_keys s t (Hseparate s t Hs Ht Hne) k key). Qed.

Lemma not_claimed k key (o : obj k) :
  writes t k key -> (by_label k -> instance_label k o <> Some (name_of s)) -> ~ claimed (stake_of s) k key o.
Proof.
  intros Hw Hl [H|[Hb H]]%claimed_touched; [|by apply Hl].
  apply (separate_keys s t (Hseparate s t Hs Ht Hne) k key); [done|by left].
Qed.

(** What an Addon may_remove concerns no other. *)
Lemma deleted_dropped w k key (o : obj k) : peaceful w -> w k key = Some o -> may_remove t k key o ->
  ~ wants (stake_of s) k key /\ ~ claimed (stake_of s) k key o.
Proof.
  intros Hp Ho [_ [Hw|[Hb Hl]]].
  - split; [by apply not_wanted|]. apply not_claimed; [done|]. intros Hb.
    apply (peaceful_labels _ Hp t s k key o); try done. by left.
  - assert (~ touches s k key) as Hn by (intros H; by apply (peaceful_labels _ Hp s t k key o)).
    split; [by intros H%wanted_touched|]. intros [H|[_ H]]%claimed_touched; [by apply Hn; left|congruence].
Qed.

Lemma effect_still w w' : peaceful w -> (forall k key, effect t w w' k key) -> still (stake_of s) w w'.
Proof.
  intros Hp He k key. cbv zeta. destruct (He k key) as
    [Heq|o o' Ho Ho' Hm Hc|o' Hw Ho' Hk Hl _|o o' Hkind Hk Ho Hv Ho' Hv' Hl _|o Hd Ho Ho'|o o' Hd Ho Ho' Hst].
  - rewrite Heq. destruct (w k key) as [o|]; [by left|done].
  - rewrite Ho, Ho'. left. by apply same_meta_kept.
  - rewrite Ho'. assert (forall o, w k key = Some o -> by_label k -> instance_label k o <> Some (name_of s)) as Hold.
    { intros o Ho Hb. apply (peaceful_labels _ Hp t s k key o); try done. by left. }
    assert (~ claimed (stake_of s) k key o') as Hn.
    { apply not_claimed; [done|]. intros Hb. destruct (Hl Hb) as [[Hx _]|Hx]; rewrite Hx; [congruence|].
      destruct (w k key) as [o|]; [by apply Hold|done]. }
    destruct (w k key) as [o|]; [|done]. right. split; [split; [by apply not_wanted|right]|done].
    apply not_claimed; [done|by apply Hold].
  - subst k. rewrite Ho, Ho'. right.
    assert (~ touches s KSecret key) as Hn.
    { intros [H|[_ [H|H]]].
      - by apply (separate_sources s t (Hseparate s t Hs Ht Hne) key).
      - rewrite H in Hk. by apply (settler_sources _ (Hsettler t Ht)).
      - rewrite (peaceful_sources _ Hp s t key o) in Hv; done. }
    assert (instance_label KSecret o <> Some (name_of s)) as Hlo.
    { apply (peaceful_labels _ Hp t s KSecret key o); try done. right; auto. }
    split; [split; [by intros H; apply Hn, (wanted_touched s KSecret key), H|right]|];
      (intros [H|[_ H]]%claimed_touched; [by apply Hn; left|congruence]).
  - rewrite Ho, Ho'. destruct (deleted_dropped w k key o Hp Ho Hd) as [H1 H2]. split; [done|by right].
  - rewrite Ho, Ho'. destruct (deleted_dropped w k key o Hp Ho Hd) as [H1 H2]. right.
    split; [split; [done|by right]|]. unfold claimed. by replace (Labels (obj_meta k o')) with (Labels (obj_meta k o)) by (symmetry; apply Hst).
Qed.
End Others.
(** *** The peace is kept *)

Section Peace.
Context (t : tenant) (Ht : t ∈ ts) (w w' : objects) (Hp : peaceful w) (He : forall k key, effect t w w' k key).

(** The label of an object, after a write. *)
Lemma label_after k key o' : w' k key = Some o' -> by_label k ->
  instance_label k o' = Some (name_of t) /\ writes t k key /\ ~ is_token (t_addon t) k key \/
  instance_label k o' = None \/ exists o, w k key = Some o /\ instance_label k o' = instance_label k o.
Proof.
  intros Ho' Hb. destruct (He k key) as
    [Heq|o x Ho Hx Hm Hc|x Hw Hx Hk Hl _|o x Hkind Hk Ho Hv Hx Hv' Hl _|o Hd Ho Hx|o x Hd Ho Hx Hst];
    try (rewrite Hx in Ho'; injection Ho' as <-); try congruence.
  - right. right. exists o'. by rewrite <- Heq.
  - right. right. exists o. unfold instance_label. by rewrite Hm.
  - destruct (Hl Hb) as [[H1 H2]|H1]; [by left|right]. destruct (w k key) as [o|]; [|by left].
    right. by exists o.
  - right. right. by exists o.
  - right. right. exists o. split; [done|]. unfold instance_label. by destruct Hst as (_ & _ & -> & _).
Qed.

Lemma labels_after s0 t0 k key o' : s0 ∈ ts -> t0 ∈ ts -> name_of s0 <> name_of t0 -> by_label k ->
  touches s0 k key -> w' k key = Some o' -> instance_label k o' <> Some (name_of t0).
Proof.
  intros Hs0 Ht0 Hne Hb Hto Ho'. destruct (label_after k key o' Ho' Hb) as [(Hl & Hw & _)|[Hl|(o & Ho & ->)]].
  - rewrite Hl. destruct (decide (name_of s0 = name_of t)) as [Heq|Hne']; [congruence|].
    by destruct (separate_keys s0 t (Hseparate s0 t Hs0 Ht Hne') k key).
  - congruence.
  - by apply (peaceful_labels _ Hp s0 t0 k key o).
Qed.

Lemma sources_after s0 t0 key o' : s0 ∈ ts -> t0 ∈ ts -> name_of s0 <> name_of t0 ->
  key ∈ source_keys opns (t_addon s0) -> key ∈ source_keys opns (t_addon t0) ->
  w' KSecret key = Some o' -> in_view Cached KSecret o' = true.
Proof.
  intros Hs0 Ht0 Hne Hk1 Hk2 Ho'.
  assert (forall o, w KSecret key = Some o -> in_view Cached KSecret o = true) as Hold
    by (intros o; by apply (peaceful_sources _ Hp s0 t0)).
  assert (~ writes t KSecret key) as Hn.
  { intros Hw. destruct (decide (name_of s0 = name_of t)) as [Heq|Hne'].
    - apply (separate_keys t0 t) with (k := KSecret) (key := key); [apply Hseparate; congruence|done|right; auto].
    - apply (separate_keys s0 t) with (k := KSecret) (key := key); [by apply Hseparate|done|right; auto]. }
  destruct (He KSecret key) as
    [Heq|o x Ho Hx Hm Hc|x Hw Hx Hk Hl _|o x Hkind Hk Ho Hv Hx Hv' Hl _|o Hd Ho Hx|o x Hd Ho Hx Hst];
    try (rewrite Hx in Ho'; injection Ho' as <-); try done.
  - rewrite <- (Hold o'); [done|congruence].
  - rewrite <- (Hold o Ho). simpl in *. by rewrite Hm.
  - congruence.
  - rewrite <- (Hold o Ho). destruct Hst as (_ & _ & Hl & _). simpl in *. by rewrite Hl.
Qed.

Lemma monitor_before sm (o : obj KServiceMonitor) : no_strays (t_addon t) w ->
  HasMonitoringFederation (t_addon t) = true -> w KServiceMonitor (obj_key KServiceMonitor sm) = Some o ->
  same_stored KServiceMonitor sm o -> listable Cached None (CommonLabelsAsLabelSelector (t_addon t)) KServiceMonitor sm ->
  Name (sm_Meta sm) = GetMonitoringFederationServiceMonitorName (t_addon t).
Proof.
  intros Hn Hf Ho Hst Hsel. assert (obj_key KServiceMonitor sm = obj_key KServiceMonitor o) as Hkey by apply Hst.
  rewrite <- (Hn Hf o); [by injection Hkey|]. split; [by rewrite <- Hkey|]. by eapply listable_same.
Qed.

Lemma own_tidy_after : tidy opns (t_addon t) w'.
Proof.
  destruct (peaceful_tidy _ Hp t Ht) as [Ha Hn]. pose proof (settler_regular _ (Hsettler t Ht)) as Hr. split.
  - intros key o' Hk Ho' Hl. destruct (label_after KSecret key o' Ho' I) as [(_ & [Hw|Hw] & Htok)|[Hl'|(o & Ho & Hl')]].
    + by apply (read_not_placed opns (t_addon t) (regular_operator _ _ _ Hr) (regular_monitoring _ _ _ Hr) key).
    + by apply Htok.
    + unfold instance_label in Hl'. simpl in Hl'. congruence.
    + apply (Ha key o Hk Ho). rewrite <- Hl. symmetry. exact Hl'.
  - intros Hf sm [Hsm Hsel]. destruct (He KServiceMonitor (obj_key KServiceMonitor sm)) as
      [Heq|o x Ho Hx Hm Hc|x Hw Hx Hk Hl _|o x Hkind Hk Ho Hv Hx Hv' Hl _|o Hd Ho Hx|o x Hd Ho Hx Hst];
      try (rewrite Hx in Hsm; injection Hsm as ->).
    + apply (Hn Hf). split; [congruence|done].
    + apply (monitor_before sm o); try done. by apply same_meta_kept.
    + by injection Hw.
    + done.
    + congruence.
    + by apply (monitor_before sm o).
Qed.

Lemma stored_after t0 : t0 ∈ ts -> exists a, w' KAddon (t_key t0) = Some a /\ same_identity a (t_addon t0).
Proof.
  intros Ht0. destruct (peaceful_stored _ Hp t0 Ht0) as (a & Ha & Hs).
  destruct (He KAddon (t_key t0)) as
    [Heq|o x Ho Hx Hm Hc|x Hw Hx Hk Hl _|o x Hkind Hk Ho Hv Hx Hv' Hl _|o [_ [Hw|[Hw _]]] Ho Hx|o x [_ [Hw|[Hw _]]] Ho Hx Hst]; try done.
  - exists a. by rewrite Heq.
  - rewrite Ha in Ho. injection Ho as <-. exists x. split; [done|]. by split; [rewrite <- (proj1 Hs)|rewrite <- (proj2 Hs)].
Qed.

Lemma effect_peaceful : peaceful w'.
Proof.
  split.
  - intros s0 t0 k key o. apply labels_after.
  - intros s0 t0 key o. apply sources_after.
  - intros t0 Ht0. destruct (decide (name_of t0 = name_of t)) as [Heq|Hne].
    + rewrite (Hnames t0 t Ht0 Ht Heq). apply own_tidy_after.
    + eapply tidy_still; [by apply (effect_still t0 t)|by apply (peaceful_tidy _ Hp)].
  - apply stored_after.
Qed.
End Peace.

(** ** One controller for all of them *)

Context (b1 b2 : bool) (opts : list AddonReconcilerOption).
Abbreviation r := (NewAddonReconciler ClusterID opns b1 b2 opts).

(** What happens for [t] disturbs neither the peace nor any other Addon. *)
Definition minds_its_own (t : tenant) (w w' : objects) : Prop :=
  peaceful w -> peaceful w' /\ forall s, s ∈ ts -> name_of s <> name_of t -> still (stake_of s) w w'.

#[local] Instance minds_its_own_preorder t : PreOrder (minds_its_own t).
Proof.
  split; [by intros w Hp|]. intros w1 w2 w3 H1 H2 Hp. destruct (H1 Hp) as [Hp2 H3], (H2 Hp2) as [Hp3 H4].
  split; [done|]. intros s Hs Hne. etrans; auto.
Qed.

Lemma own_write_minds t w c r w' : t ∈ ts ->
  (is_write c = true -> writes_of t w c) -> stores_verbatim ocm w c r w' -> minds_its_own t w w'.
Proof.
  intros Ht Hc Hs Hp. pose proof (own_write_effect ocm opns (t_addon t) (t_config t) w c r w' (settler_labels _ (Hsettler t Ht)) Hc Hs) as He.
  split; [by eapply effect_peaceful|]. intros s Hs' Hne. by apply (effect_still s t).
Qed.

(** What can happen in the cluster: a reconcile of an Addon, one of an
    AddonInstance, a heartbeat, complete or cut off, and whatever others do that
    keeps the peace and concerns no Addon. *)
Inductive happens (w w' : objects) : Prop :=
  | event_reconcile t s : t ∈ ts -> runs ocm (Reconcile r (t_key t) s) w w' -> happens w w'
  | event_instance interval m req s :
      runs ocm (instance_Reconcile (mkConfig interval [NewPhaseCheckHeartbeat m]) req s) w w' -> happens w w'
  | event_pulse i conds s : runs ocm (SendPulse i conds s) w w' -> happens w w'
  | event_others : (peaceful w -> peaceful w') -> (forall t, t ∈ ts -> still (stake_of t) w w') -> happens w w'.

(** *** An Addon at rest *)

Context (A : tenant) (HA : A ∈ ts) (l : list part) (Hl : getOrderedSubReconcilers r = map (reconciler ClusterID opns) l).
Context (Hsort : StronglySorted order_le (map (reconciler ClusterID opns) l)).
Abbreviation A_settled := (all_settled ocm ClusterID opns (t_config A) (t_addon A) l).
Definition resting (w : objects) : Prop := peaceful w /\ A_settled w.
Definition rests (w w' : objects) : Prop := resting w -> resting w' /\ still (stake_of A) w w'.

#[local] Instance rests_preorder : PreOrder rests.
Proof.
  split; [by intros w Hp|]. intros w1 w2 w3 H1 H2 Hp. destruct (H1 Hp) as [Hp2 H3], (H2 Hp2) as [Hp3 H4].
  split; [done|]. by etrans.
Qed.

Lemma still_rests w w' : peaceful w' -> still (stake_of A) w w' -> rests w w'.
Proof. intros Hp Hq [_ Hw]. split; [|done]. split; [done|]. by eapply all_still. Qed.

(** What a reconcile may call, of an Addon that is at rest if [b]. *)
Abbreviation accepts t b := (accepted ocm ClusterID opns (t_config t) (t_addon t) l b).

Lemma reconcile_accepts t b s w : t ∈ ts -> peaceful w ->
  (b -> all_settled ocm ClusterID opns (t_config t) (t_addon t) l w) ->
  wp (verbatim ocm (accepts t b)) (Reconcile r (t_key t) s) w (fun _ _ => True).
Proof.
  intros Ht Hp Hb. eapply (wp_mono _ _ _ (fun _ '(_, _) => True)); [done|]. destruct (peaceful_stored _ Hp t Ht) as (a & Ha & Hsa). pose proof (Hsettler t Ht) as [Hr _ Hf _].
  eapply reconcile_accepted; try done. by apply (peaceful_tidy _ Hp).
Qed.

(** A reconcile of any Addon, complete or not. *)
Lemma reconcile_rests t s w w' : t ∈ ts -> runs ocm (Reconcile r (t_key t) s) w w' -> rests w w'.
Proof.
  intros Ht Hr HJ. pose proof HJ as [Hp HA'].
  destruct (decide (name_of A = name_of t)) as [Heq|Hne].
  - rewrite <- (Hnames A t HA Ht Heq) in *.
    apply (runs_related ocm rests (accepts A True) (Reconcile r (t_key A) s) w
      (fun _ _ => True)); [|by eapply (reconcile_accepts A True)|done|done].
    intros w1 c o w2 Ha Hs HJ'. pose proof HJ' as [Hp1 Hset1].
    destruct (own_write_minds A w1 c o w2 HA (fun Hw => proj1 (Ha Hw)) Hs Hp1) as [Hp2 _].
    apply still_rests; [done| |done]. eapply unchanged_still; [|exact Hs]. intros Hw. by apply (proj2 (Ha Hw)).
  - assert (minds_its_own t w w') as Hm.
    { apply (runs_related ocm (minds_its_own t) (accepts t False) (Reconcile r (t_key t) s) w
        (fun _ _ => True)); [|by apply reconcile_accepts|done].
      intros w1 c o w2 Ha Hs. eapply own_write_minds; [done| |exact Hs]. intros Hw. apply (proj1 (Ha Hw)). }
    destruct (Hm Hp) as [Hp' Hq]. apply still_rests; [done|by apply Hq|done].
Qed.

Lemma same_but_status_rests w w' : same_but_status w w' -> rests w w'.
Proof.
  intros Hs HJ. apply still_rests; [| |done].
  - apply (effect_peaceful A HA w w'); [apply HJ|]. intros k key. specialize (Hs k key).
    destruct (w k key) as [o|] eqn:Ho, (w' k key) as [o'|] eqn:Ho'; try done; [|by apply effect_none; rewrite Ho, Ho'].
    by apply (effect_status _ _ _ _ _ _ _ o o'); try apply Hs.
  - intros k key. cbv zeta. specialize (Hs k key). destruct (w k key), (w' k key); try done. left. by apply same_meta_kept; apply Hs.
Qed.

Lemma reporting_rests {T} (m : prog T) w w' :
  wp (verbatim ocm reports_statuses) m w (fun _ _ => True) -> runs ocm m w w' -> rests w w'.
Proof.
  intros Hm Hr. apply same_but_status_rests. eapply (runs_related ocm same_but_status reports_statuses); [|exact Hm|done].
  intros w1 c r w2. apply status_only.
Qed.

Lemma event_rests w w' : happens w w' -> rests w w'.
Proof.
  intros [t s Ht Hr|interval m req s Hr|i conds s Hr|Hp Hq].
  - by eapply reconcile_rests.
  - eapply reporting_rests; [|done]. apply instance_reports.
  - eapply reporting_rests; [|done]. apply pulse_reports.
  - intros HJ. apply still_rests; [apply Hp, HJ|by apply Hq|done].
Qed.

Lemma events_rest w w' : rtc happens w w' -> rests w w'.
Proof. induction 1 as [w1|w1 w2 w3 He _ IH]; [done|]. etrans; [by apply event_rests|done]. Qed.

(** A pass over the sub-reconcilers keeps the peace, and settles the Addon. *)
Lemma pass_rests s w : peaceful w -> same_identity (st_addon s) (t_addon A) ->
  wpM (verbatim ocm (fun _ _ => True)) (run_subReconcilers (getOrderedSubReconcilers r)) s w
    (fun w' out _ => out = None -> resting w').
Proof.
  intros Hp Hs. pose proof (settler_regular _ (Hsettler A HA)) as Hr.
  pose proof (pass_settles ocm ClusterID opns (t_config A) (t_addon A) Hr l False r Hl Hsort s w
    (fun H => match H with end) (peaceful_tidy _ Hp A HA) (same_identity_alike _ _ Hs)) as Hpass.
  apply (wp_related ocm (minds_its_own A)) in Hpass.
  2: { intros w1 c o w2 Ha Hst. eapply own_write_minds; [done| |exact Hst]. intros Hw. apply (proj1 (Ha Hw)). }
  eapply wp_allow_mono; [|eapply wp_mono; [|exact Hpass]]; [done|].
  intros w' [out s'] [[_ Hset] Hm] Hout. split; [by apply Hm|by apply Hset].
Qed.

(** A reconcile of an Addon at rest. *)
Lemma reconcile_at_rest s w : resting w ->
  wpM (verbatim ocm (fun w c => is_write c = true -> unchanged (stake_of A) w c)) (Reconcile r (t_key A)) s w
    (fun w' _ _ => still (stake_of A) w w').
Proof.
  intros [Hp Hw]. eapply wp_mono; [|eapply (wp_at_rest ocm (stake_of A) A_settled) with (allow := accepts A True)].
  - by intros w' [out s'].
  - intros w1 w2. apply all_still.
  - intros w1 c Ha Hc Hset. by apply (proj2 (Ha Hc)).
  - done.
  - by apply reconcile_accepts.
Qed.
End Tenants.

(** ** The theorem *)

Section Together.
Context {L : Lib} {LOk : LibOk L}.

(** C4: Addons that share a cluster come to rest together, on a server that stores
    what it is sent. Each Addon is regular (usable configuration, distinct
    names, not being deleted), is stored with its finalizer, does not propagate
    the operator's own token, and has no common label that names another Addon's
    instance. Their names differ, and none writes what another writes or reads.
    The cluster is peaceful: no object that one touches is labelled as
    another's, Secrets that two of them read carry the cache label, no object of
    others is taken for an Addon's. After a pass over the sub-reconcilers for
    one Addon that ended without an early return, let anything happen in any
    order: reconciles of any Addon or AddonInstance, heartbeats, complete or cut
    off at any call, whichever calls fail, and whatever others do that concerns
    no Addon and keeps this peace. The cluster is then as it was for that Addon,
    and a reconcile of it writes only status reports and what is already stored. *)
Theorem addons_rest_together (ocm : option ClientOptions) (ClusterID opns : string) (b1 b2 : bool)
    (opts : list AddonReconcilerOption) (ts : list tenant) (A : tenant) (s : St) (w : objects) :
  let r := NewAddonReconciler ClusterID opns b1 b2 opts in
  let st := addon_stake opns (t_addon A) (t_config A) in
  (forall t, t ∈ ts -> settler opns t) ->
  (forall s t, s ∈ ts -> t ∈ ts -> a_Name (t_addon s) = a_Name (t_addon t) -> s = t) ->
  (forall s t, s ∈ ts -> t ∈ ts -> a_Name (t_addon s) <> a_Name (t_addon t) -> separate opns s t) ->
  A ∈ ts -> peaceful opns ts w -> same_identity (st_addon s) (t_addon A) ->
  wpM (verbatim ocm (fun _ _ => True)) (run_subReconcilers (getOrderedSubReconcilers r)) s w
    (fun w' out _ => out = None -> forall w2, rtc (happens ocm ClusterID opns ts b1 b2 opts) w' w2 ->
       still st w' w2 /\
       forall s2, wpM (verbatim ocm (fun w c => is_write c = true -> unchanged st w c)) (Reconcile r (t_key A)) s2 w2
         (fun w3 _ _ => still st w2 w3)).
Proof.
  intros r st Hsettler Hnames Hseparate HA Hp Hs. destruct (ordered_parts ClusterID opns b1 b2 opts) as (l & Hl & Hsort).
  eapply wpM_mono; [by eapply (pass_rests ocm ClusterID opns ts Hsettler Hnames Hseparate b1 b2 opts A HA l)|].
  intros w' out s' Hrest Hout w2 Hev. specialize (Hrest Hout).
  assert (rests ocm ClusterID opns ts A l w' w2) as Hr by by eapply events_rest.
  destruct (Hr Hrest) as [Hrest2 Hq]. split; [done|]. intros s2. by eapply reconcile_at_rest.
Qed.

(** The install namespaces have to differ: no cluster is settled for two Addons
    that share one, whose OperatorGroup and AddonInstance have the same names;
    each takes them over from the other. *)
Theorem install_namespace_not_shared (a1 a2 : Addon) (c1 c2 : AddonInstallOLMCommon) (w : objects) :
  ic_Namespace c1 = ic_Namespace c2 -> settled a1 c1 w -> settled a2 c2 w -> UID (a_Meta a1) = UID (a_Meta a2).
Proof.
  intros Hn [(o1 & Ho1 & H1 & _) _] [(o2 & Ho2 & H2 & _) _]. rewrite Hn, Ho2 in Ho1. injection Ho1 as ->.
  unfold HasSameController in *. rewrite !get_controller in *. destruct (head _) as [x|]; [|done].
  simpl in H1, H2. bools. congruence.
Qed.
End Together.
