(* ===== verification/ReconcileSpec.v ===== *)
(** * What one reconcile of an Addon comes to

    An abstract specification of the part of [reconcile] that runs the
    sub-reconcilers and reports readiness, as a relation between the state
    before, the calls made with their answers, the result, and the state after;
    and the refinement: the executions of the code are exactly the ones the
    specification describes, whatever the sub-reconcilers are. *)
From S2P Require Export ControllerProofs.

Section Spec.
Context {L : Lib}.

(** ** The specification *)

(** The decision on the result of one sub-reconciler; [None] goes on. *)
Definition verdict (x : addonReconciler) (out : subReconcilerResult * option error)
  : option (ctrl_Result * option error) :=
  match out with
  | (_, Some err) =>
      Some (no_result, Some (ErrWrap (sub_Name x +:+ " : failed to reconcile : ") err))
  | (res, None) =>
      if sr_Stop res then Some (no_result, None)
      else if sr_Requeue res then Some (mkResult true 0, None)
      else match sr_RequeueAfter res with
           | Some t => Some (mkResult false t, None)
           | None => None
           end
  end.

(** An error is also counted. *)
Definition counted (out : subReconcilerResult * option error) (s : St) : St :=
  match out with
  | (_, Some err) =>
      mkSt (st_addon s) (st_handler s) (Report subReconErr err (a_Name (st_addon s)) (st_recorder s))
  | _ => s
  end.

(** Every sub-reconciler of the list ran, in order, each in the state its
    predecessor left, and returned the zero result. *)
Inductive all_done : list addonReconciler -> St -> history -> St -> Prop :=
| all_done_nil s : all_done [] s [] s
| all_done_cons x l s t s1 t' s' :
    trace (sub_Reconcile x s) t ((resultNil, None), s1) ->
    all_done l s1 t' s' -> all_done (x :: l) s (t ++ t') s'.

(** Every non-blocking sub-reconciler of the list answered, in order, that its
    objects are reconciled. *)
Inductive all_successful : list addonReconciler -> St -> history -> St -> Prop :=
| all_successful_nil s : all_successful [] s [] s
| all_successful_blocking x l s t s' :
    sub_NonBlocking x = None -> all_successful l s t s' -> all_successful (x :: l) s t s'
| all_successful_cons x nb l s t s1 t' s' :
    sub_NonBlocking x = Some nb ->
    trace (IsReconciliationSuccessful nb s) t ((true, None), s1) ->
    all_successful l s1 t' s' -> all_successful (x :: l) s (t ++ t') s'.

(** What the run over an ordered list of sub-reconcilers can come to. *)
Inductive outcome (l : list addonReconciler) (s : St)
  : history -> ctrl_Result * option error -> St -> Prop :=
| outcome_ready t1 s1 t2 s2 now :
    all_done l s t1 s1 -> all_successful l s1 t2 s2 ->
    outcome l s (t1 ++ t2 ++ [Ev CNow now]) (no_result, None)
      (with_addon (reportReadinessStatus now) s2)
| outcome_blocked l1 x l2 t1 s1 t2 out s2 res :
    l = l1 ++ x :: l2 -> all_done l1 s t1 s1 ->
    trace (sub_Reconcile x s1) t2 (out, s2) -> verdict x out = Some res ->
    outcome l s (t1 ++ t2) res (counted out s2)
| outcome_unsuccessful l1 x nb l2 t1 s1 t2 s2 t3 s3 t4 s4 :
    l = l1 ++ x :: l2 -> sub_NonBlocking x = Some nb ->
    all_done l s t1 s1 -> all_successful l1 s1 t2 s2 ->
    trace (IsReconciliationSuccessful nb s2) t3 ((false, None), s3) ->
    trace (SetAddonUnreadyStatus nb s3) t4 (tt, s4) ->
    outcome l s (t1 ++ t2 ++ t3 ++ t4) (no_result, None) s4
| outcome_unknown l1 x nb l2 t1 s1 t2 s2 t3 b err s3 :
    l = l1 ++ x :: l2 -> sub_NonBlocking x = Some nb ->
    all_done l s t1 s1 -> all_successful l1 s1 t2 s2 ->
    trace (IsReconciliationSuccessful nb s2) t3 ((b, Some err), s3) ->
    outcome l s (t1 ++ t2 ++ t3)
      (no_result, Some (ErrWrap ("failed to check reconciliation status of " +:+ sub_Name x +:+ ": ") err))
      s3.

(** ** What precedes the sub-reconcilers *)

(** An Addon without an Installed condition gets one, which is false; an Addon
    that has one keeps it and the clock is not read. *)
Inductive installed_set (s : St) : history -> St -> Prop :=
| installed_present c : find_condition Installed (st_addon s) = Some c -> installed_set s [] s
| installed_missing now c :
    find_condition Installed (st_addon s) = None ->
    find_condition Installed (reportInstalledConditionFalse now (st_addon s)) = Some c ->
    cond_Status c = ConditionFalse ->
    installed_set s [Ev CNow now] (with_addon (reportInstalledConditionFalse now) s).

(** The Addon with the finalizer among those that it has. *)
Definition finalized (a sent : Addon) : Prop :=
  sent = with_meta (AddFinalizer (a_Meta a) cacheFinalizer) a /\
  exists l, sent = with_meta (set_Finalizers l (a_Meta a)) a /\
    forall f, f ∈ l <-> f ∈ Finalizers (a_Meta a) \/ f = cacheFinalizer.

(** An Addon that carries the finalizer is not written; any other is sent with
    it, and the Addon in hand becomes the one the server answers.  A refused
    update is the error, and it is counted. *)
Inductive finalizer_set (s : St) : history -> option error -> St -> Prop :=
| finalizer_present : cacheFinalizer ∈ Finalizers (a_Meta (st_addon s)) -> finalizer_set s [] None s
| finalizer_added sent a :
    cacheFinalizer ∉ Finalizers (a_Meta (st_addon s)) -> finalized (st_addon s) sent ->
    finalizer_set s [Ev (CUpdate KAddon sent) (inl a)] None (with_addon (fun _ => a) s)
| finalizer_refused sent e :
    cacheFinalizer ∉ Finalizers (a_Meta (st_addon s)) -> finalized (st_addon s) sent ->
    finalizer_set s [Ev (CUpdate KAddon sent) (inr e)] (Some (ErrWrap "failed to add finalizer: " e))
      (mkSt sent (st_handler s) (Report reconErr ErrUpdateAddon (a_Name sent) (st_recorder s))).

(** One execution: without the finalizer nothing runs; with it the
    sub-reconcilers of the list do. *)
Inductive execution (l : list addonReconciler) (s : St)
  : history -> ctrl_Result * option error -> St -> Prop :=
| execution_refused t1 s1 t2 e s2 :
    installed_set s t1 s1 -> finalizer_set s1 t2 (Some e) s2 ->
    execution l s (t1 ++ t2) (no_result, Some e) s2
| execution_run t1 s1 t2 s2 t3 out s3 :
    installed_set s t1 s1 -> finalizer_set s1 t2 None s2 -> outcome l s2 t3 out s3 ->
    execution l s (t1 ++ t2 ++ t3) out s3.

(** ** The two loops *)

Lemma verdict_none x out : verdict x out = None <-> out = (resultNil, None).
Proof.
  split; [|by intros ->]. destruct out as [[[] [] [t|]] [e|]]; done.
Qed.

(** One round of the loop. *)
Lemma run_round x l s t res s' :
  trace (run_subReconcilers (x :: l) s) t (res, s') <->
  exists t1 t2 out s1, t = t1 ++ t2 /\ trace (sub_Reconcile x s) t1 (out, s1) /\
    match verdict x out with
    | Some r => t2 = [] /\ res = Some r /\ s' = counted out s1
    | None => trace (run_subReconcilers l s1) t2 (res, s')
    end.
Proof.
  simpl. rewrite trace_mthen. split; intros (t1 & t2 & out & s1 & -> & H1 & H2);
    exists t1, t2, out, s1; (split; [done|]); (split; [done|]);
    destruct out as [[[] [] [a|]] [e|]]; simpl in *;
    first [ apply trace_ret_iff in H2 as [-> [= -> ->]]; done
          | destruct H2 as (-> & -> & ->); constructor
          | done ].
Qed.

Lemma run_spec l : forall s t res s',
  trace (run_subReconcilers l s) t (res, s') <->
  (res = None /\ all_done l s t s') \/
  (exists l1 x l2 t1 s1 t2 out s2 r, l = l1 ++ x :: l2 /\ t = t1 ++ t2 /\ all_done l1 s t1 s1 /\
     trace (sub_Reconcile x s1) t2 (out, s2) /\ verdict x out = Some r /\
     res = Some r /\ s' = counted out s2).
Proof.
  induction l as [|x l IH]; intros s t res s'.
  - simpl. unfold mpure. rewrite trace_ret_iff. split.
    + intros [-> [= -> ->]]. left. split; [done|]. constructor.
    + intros [[-> H]|(l1 & ? & ? & ? & ? & ? & ? & ? & ? & ? & _)]; [by inversion H|by destruct l1].
  - rewrite run_round. split.
    + intros (t1 & t2 & out & s1 & -> & H1 & H2). destruct (verdict x out) as [r|] eqn:Hv.
      * destruct H2 as (-> & -> & ->). right.
        exists [], x, l, [], s, t1, out, s1, r. rewrite app_nil_r. do 2 (split; [done|]).
        split; [constructor|done].
      * apply verdict_none in Hv as ->. apply IH in H2 as [[-> H2]|H2].
        { left. split; [done|]. by econstructor. }
        destruct H2 as (l1 & y & l2 & t3 & s3 & t4 & out & s4 & r & -> & -> & H2 & H3 & H4 & H5).
        right. exists (x :: l1), y, l2, (t1 ++ t3), s3, t4, out, s4, r.
        split; [done|]. split; [by rewrite app_assoc|]. split; [by econstructor|done].
    + intros [[-> H]|(l1 & y & l2 & t1 & s1 & t2 & out & s2 & r & Hl & -> & H1 & H2 & H3 & -> & ->)].
      * inversion H as [|? ? ? t1 s1 t2 ? H1 H2]; subst. exists t1, t2, (resultNil, None), s1.
        do 2 (split; [done|]). simpl. apply IH. by left.
      * destruct l1 as [|z l1]; injection Hl as -> ->.
        { inversion H1; subst. exists t2, [], out, s2. rewrite app_nil_r.
          do 2 (split; [done|]). by rewrite H3. }
        inversion H1 as [|? ? ? t3 s3 t4 ? H4 H5]; subst.
        exists t3, (t4 ++ t2), (resultNil, None), s3. rewrite app_assoc. do 2 (split; [done|]).
        simpl. apply IH. right. by exists l1, y, l2, t4, s1, t2, out, s2, r.
Qed.

(** What ends the check of the non-blocking sub-reconcilers early. *)
Inductive unready (x : addonReconciler) (nb : nonBlockingReconciler) (s : St)
  : history -> ctrl_Result * option error -> St -> Prop :=
| unready_false t1 s1 t2 s2 :
    trace (IsReconciliationSuccessful nb s) t1 ((false, None), s1) ->
    trace (SetAddonUnreadyStatus nb s1) t2 (tt, s2) ->
    unready x nb s (t1 ++ t2) (no_result, None) s2
| unready_error t b err s1 :
    trace (IsReconciliationSuccessful nb s) t ((b, Some err), s1) ->
    unready x nb s t
      (no_result, Some (ErrWrap ("failed to check reconciliation status of " +:+ sub_Name x +:+ ": ") err))
      s1.

Lemma check_round x l s t res s' :
  trace (check_nonBlocking (x :: l) s) t (res, s') <->
  match sub_NonBlocking x with
  | None => trace (check_nonBlocking l s) t (res, s')
  | Some nb =>
      (exists r, res = Some r /\ unready x nb s t r s') \/
      (exists t1 t2 s1, t = t1 ++ t2 /\
         trace (IsReconciliationSuccessful nb s) t1 ((true, None), s1) /\
         trace (check_nonBlocking l s1) t2 (res, s'))
  end.
Proof.
  simpl. destruct (sub_NonBlocking x) as [nb|]; [|done]. rewrite trace_mthen. split.
  - intros (t1 & t2 & [b [err|]] & s1 & -> & H1 & H2).
    + apply trace_ret_iff in H2 as [-> [= -> ->]]. left. eexists. split; [done|].
      rewrite app_nil_r. by econstructor.
    + destruct b; simpl in H2; [by right; exists t1, t2, s1|]. left.
      apply trace_mthen in H2 as (t3 & t4 & [] & s3 & -> & H2 & [-> [= -> ->]]%trace_ret_iff).
      rewrite app_nil_r. eexists. split; [done|]. by econstructor.
  - intros [(r & -> & H)|(t1 & t2 & s1 & -> & H1 & H2)].
    + destruct H as [t1 s1 t2 s2 H1 H2|t b err s1 H1].
      * exists t1, t2, (false, None), s1. do 2 (split; [done|]). simpl.
        apply trace_mthen. exists t2, [], tt, s2. rewrite app_nil_r. do 2 (split; [done|]). constructor.
      * exists t, [], (b, Some err), s1. rewrite app_nil_r. do 2 (split; [done|]). constructor.
    + by exists t1, t2, (true, None), s1.
Qed.

Lemma check_spec l : forall s t res s',
  trace (check_nonBlocking l s) t (res, s') <->
  (res = None /\ all_successful l s t s') \/
  (exists l1 x nb l2 t1 s1 t2 r, l = l1 ++ x :: l2 /\ t = t1 ++ t2 /\
     sub_NonBlocking x = Some nb /\ all_successful l1 s t1 s1 /\
     res = Some r /\ unready x nb s1 t2 r s').
Proof.
  induction l as [|x l IH]; intros s t res s'.
  - simpl. unfold mpure. rewrite trace_ret_iff. split.
    + intros [-> [= -> ->]]. left. split; [done|]. constructor.
    + intros [[-> H]|(l1 & ? & ? & ? & ? & ? & ? & ? & ? & _)]; [by inversion H|by destruct l1].
  - rewrite check_round. destruct (sub_NonBlocking x) as [nb|] eqn:Hx; split.
    + intros [(r & -> & H)|(t1 & t2 & s1 & -> & H1 & H2)].
      { right. exists [], x, nb, l, [], s, t, r. do 3 (split; [done|]). split; [constructor|done]. }
      apply IH in H2 as [[-> H2]|(l1 & y & nb' & l2 & t3 & s3 & t4 & r & -> & -> & Hy & H2 & H3)].
      { left. split; [done|]. by econstructor. }
      right. exists (x :: l1), y, nb', l2, (t1 ++ t3), s3, t4, r.
      split; [done|]. split; [by rewrite app_assoc|]. split; [done|]. split; [by econstructor|done].
    + intros [[-> H]|(l1 & y & nb' & l2 & t1 & s1 & t2 & r & Hl & -> & Hy & H1 & -> & H2)].
      { right. inversion H as [|? ? ? ? ? Hx'|? ? ? ? t1 s1 t2 ? Hx' H1 H2]; simplify_eq.
        exists t1, t2, s1. do 2 (split; [done|]). apply IH. by left. }
      destruct l1 as [|z l1]; injection Hl as -> ->.
      { inversion H1; subst. left. simplify_eq. by exists r. }
      inversion H1 as [|? ? ? ? ? Hz|? ? ? ? t3 s3 t4 ? Hz H4 H5]; simplify_eq.
      right. exists t3, (t4 ++ t2), s3. rewrite app_assoc. do 2 (split; [done|]). apply IH.
      right. by exists l1, y, nb', l2, t4, s1, t2, r.
    + intros [[-> H2]|(l1 & y & nb' & l2 & t3 & s3 & t4 & r & -> & -> & Hy & H2 & H3)]%IH.
      { left. split; [done|]. by constructor. }
      right. exists (x :: l1), y, nb', l2, t3, s3, t4, r. do 3 (split; [done|]).
      split; [by constructor|done].
    + intros [[-> H]|(l1 & y & nb' & l2 & t1 & s1 & t2 & r & Hl & -> & Hy & H1 & -> & H2)]; apply IH.
      { left. inversion H; simplify_eq. done. }
      right. destruct l1 as [|z l1]; injection Hl as -> ->; [congruence|].
      inversion H1; simplify_eq. by exists l1, y, nb', l2, t1, s1, t2, r.
Qed.

Lemma trace_setAddonCRStatus r s t out s' :
  trace (setAddonCRStatus r s) t (out, s') <->
  (exists t1 s1 now, t = t1 ++ [Ev CNow now] /\
     all_successful (getOrderedSubReconcilers r) s t1 s1 /\ out = (no_result, None) /\
     s' = with_addon (reportReadinessStatus now) s1) \/
  (exists l1 x nb l2 t1 s1 t2, getOrderedSubReconcilers r = l1 ++ x :: l2 /\ t = t1 ++ t2 /\
     sub_NonBlocking x = Some nb /\ all_successful l1 s t1 s1 /\ unready x nb s1 t2 out s').
Proof.
  unfold setAddonCRStatus. rewrite trace_mthen. split.
  - intros (t1 & t2 & [res|] & s1 & -> & H1 & H2).
    + apply trace_ret_iff in H2 as [-> [= -> ->]]. right.
      apply check_spec in H1 as [[? _]|(l1 & x & nb & l2 & t3 & s3 & t4 & r' & Hl & -> & H3 & H4 & [= ->] & H5)]; [done|].
      rewrite app_nil_r. by exists l1, x, nb, l2, t3, s3, t4.
    + apply check_spec in H1 as [[_ H1]|(l1 & x & nb & l2 & t3 & s3 & t4 & r' & Hl & -> & H3 & H4 & ? & H5)]; [|done].
      left. apply trace_vis_iff in H2 as (now & t' & -> & [-> [= -> ->]]%trace_ret_iff).
      by exists t1, s1, now.
  - intros [(t1 & s1 & now & -> & H1 & -> & ->)|(l1 & x & nb & l2 & t1 & s1 & t2 & Hl & -> & H1 & H2 & H3)].
    + exists t1, [Ev CNow now], None, s1. split; [done|]. split; [apply check_spec; by left|].
      constructor. constructor.
    + exists (t1 ++ t2), [], (Some out), s'. rewrite app_nil_r. split; [done|]. split; [|constructor].
      apply check_spec. right. by exists l1, x, nb, l2, t1, s1, t2, out.
Qed.

(** ** The refinement *)

(** The run of the sub-reconcilers and the report of the status. *)
Lemma trace_run_outcome r s t out s' :
  trace ((let* ended := run_subReconcilers (getOrderedSubReconcilers r) in
          match ended with Some res => mpure res | None => setAddonCRStatus r end) s) t (out, s') <->
  outcome (getOrderedSubReconcilers r) s t out s'.
Proof.
  rewrite trace_mthen. split.
  - intros (t1 & t2 & [res|] & s1 & -> & H1%run_spec & H2).
    + apply trace_ret_iff in H2 as [-> [= -> ->]]. rewrite app_nil_r.
      destruct H1 as [[? _]|(l1 & x & l2 & t3 & s3 & t4 & o & s4 & r' & Hl & -> & H3 & H4 & H5 & [= ->] & ->)]; [done|].
      by econstructor.
    + destruct H1 as [[_ H1]|(l1 & x & l2 & t3 & s3 & t4 & o & s4 & r' & Hl & -> & H3 & H4 & H5 & ? & ->)]; [|done].
      apply trace_setAddonCRStatus in H2 as [(t3 & s3 & now & -> & H2 & -> & ->)|
        (l1 & x & nb & l2 & t3 & s3 & t4 & Hl & -> & H2 & H3 & H4)]; [by econstructor|].
      destruct H4; by econstructor.
  - intros [t1 s1 t2 s2 now H1 H2|l1 x l2 t1 s1 t2 o s2 res Hl H1 H2 H3
           |l1 x nb l2 t1 s1 t2 s2 t3 s3 t4 s4 Hl Hx H1 H2 H3 H4
           |l1 x nb l2 t1 s1 t2 s2 t3 b err s3 Hl Hx H1 H2 H3].
    + exists t1, (t2 ++ [Ev CNow now]), None, s1. split; [done|]. split; [apply run_spec; by left|].
      apply trace_setAddonCRStatus. left. by exists t2, s2, now.
    + exists (t1 ++ t2), [], (Some res), (counted o s2). rewrite app_nil_r.
      split; [done|]. split; [|constructor]. apply run_spec. right.
      by exists l1, x, l2, t1, s1, t2, o, s2, res.
    + exists t1, (t2 ++ t3 ++ t4), None, s1. split; [done|]. split; [apply run_spec; by left|].
      apply trace_setAddonCRStatus. right. exists l1, x, nb, l2, t2, s2, (t3 ++ t4).
      do 4 (split; [done|]). by econstructor.
    + exists t1, (t2 ++ t3), None, s1. split; [done|]. split; [apply run_spec; by left|].
      apply trace_setAddonCRStatus. right. exists l1, x, nb, l2, t2, s2, t3.
      do 4 (split; [done|]). by econstructor.
Qed.

(** ** What precedes them *)

Context {LOk : LibOk L}.

Lemma trace_installed s t u s' :
  trace ((let* addon := get_addon in
          if installedConditionMissing addon then report reportInstalledConditionFalse else mpure tt) s)
    t (u, s') <-> installed_set s t s'.
Proof.
  rewrite trace_mthen. unfold get_addon, installedConditionMissing. split.
  - intros (t1 & t2 & a & s1 & -> & [-> [= -> ->]]%trace_ret_iff & H).
    destruct (find_condition Installed (st_addon s)) as [c|] eqn:E.
    + apply trace_ret_iff in H as [-> [= -> ->]]. by econstructor.
    + apply trace_vis_iff in H as (now & t' & -> & [-> [= -> ->]]%trace_ret_iff). simpl.
      eapply installed_missing; [done| |].
      * etrans; [apply (find_set_condition now (condition Installed ConditionFalse AddonReasonNotInstalled
          "Addon is not yet installed." (a_Generation (st_addon s))) (st_addon s) Installed); done|].
        by rewrite bool_decide_true.
      * unfold stored_condition. by repeat case_match.
  - intros [c E|now c E Hc Hf]; exists [].
    + exists [], (st_addon s), s. rewrite E. do 2 (split; [done || constructor|]). destruct u. constructor.
    + exists [Ev CNow now], (st_addon s), s. rewrite E. split; [done|]. split; [constructor|].
      destruct u. constructor. constructor.
Qed.

Lemma finalized_iff a sent :
  finalized a sent <-> sent = with_meta (AddFinalizer (a_Meta a) cacheFinalizer) a.
Proof.
  split; [by intros [? _]|]. intros ->. split; [done|].
  destruct (add_finalizer (a_Meta a) cacheFinalizer) as (l & -> & Hl). by exists l.
Qed.

Lemma trace_finalizer s t e s' : trace (ensure_cache_finalizer s) t (e, s') <-> finalizer_set s t e s'.
Proof.
  unfold ensure_cache_finalizer. rewrite trace_mthen. split.
  - intros (t1 & t2 & a & s1 & -> & [-> [= -> ->]]%trace_ret_iff & H).
    destruct (ContainsFinalizer _ _) eqn:E.
    + apply contains_finalizer in E. apply trace_ret_iff in H as [-> [= -> ->]]. by constructor.
    + assert (cacheFinalizer ∉ Finalizers (a_Meta (st_addon s))) as Hn
        by (rewrite <- contains_finalizer, E; discriminate).
      apply trace_vis_iff in H as ([b|err] & t' & -> & [-> [= -> ->]]%trace_ret_iff); simpl;
        constructor; try done; by apply finalized_iff.
  - intros [H|sent a H ->%finalized_iff|sent err H ->%finalized_iff]; exists [].
    all: rewrite <- contains_finalizer in H; try apply not_true_is_false in H.
    + exists [], (st_addon s), s. rewrite H. do 2 (split; [done || constructor|]). constructor.
    + eexists _, (st_addon s), s. rewrite H. split; [done|]. split; [constructor|].
      econstructor. constructor.
    + eexists _, (st_addon s), s. rewrite H. split; [done|]. split; [constructor|].
      econstructor. constructor.
Qed.

Lemma trace_prepare s t e s' :
  trace (prepare_addon s) t (e, s') <->
  exists t1 s1 t2, t = t1 ++ t2 /\ installed_set s t1 s1 /\ finalizer_set s1 t2 e s'.
Proof.
  unfold prepare_addon. rewrite trace_mthen. split.
  - intros (t1 & t2 & a & s1 & -> & H1 & (t3 & t4 & u & s2 & -> & H2 & H3%trace_finalizer)%trace_mthen).
    exists (t1 ++ t3), s2, t4. split; [by rewrite app_assoc|]. split; [|done].
    apply (trace_installed _ _ u), trace_mthen. by exists t1, t3, a, s1.
  - intros (t1 & s1 & t2 & -> & H1 & H2%trace_finalizer).
    apply (trace_installed _ _ tt), trace_mthen in H1 as (t3 & t4 & a & s2 & -> & H1 & H3).
    exists t3, (t4 ++ t2), a, s2. split; [by rewrite app_assoc|]. split; [done|].
    apply trace_mthen. by exists t4, t2, tt, s1.
Qed.

(** C1: The executions of the part of [reconcile] that runs the sub-reconcilers
    are exactly the ones the specification describes, whatever the
    sub-reconcilers do, for one list that has them all, each once, sorted by
    their order. An Addon without Installed condition gets a false one. One that
    lacks the finalizer is sent to the server with it added; if that is
    refused, its error is counted and is the result, and no sub-reconciler
    runs. Otherwise they run in order, each in the state its predecessor left,
    until one fails, stops or asks for a requeue, and its verdict is the result;
    when all returned the zero result, the non-blocking ones are asked in
    order until one is not successful; and the Addon is reported Ready
    exactly when none was left. *)
Theorem reconcile_refines_outcome (r : AddonReconciler) :
  exists l, l ≡ₚ subReconcilers r /\ Sorted order_le l /\
    forall s t out s', trace (reconcile_unpaused r s) t (out, s') <-> execution l s t out s'.
Proof.
  destruct (getOrdered_acc (subReconcilers r) []) as [Hs Hp]; [constructor|]. rewrite app_nil_r in Hp.
  exists (getOrderedSubReconcilers r). split; [exact Hp|]. split; [exact Hs|]. intros s t out s'.
  unfold reconcile_unpaused. rewrite trace_mthen. split.
  - intros (t1 & t2 & [e|] & s1 & -> & (t3 & s2 & t4 & -> & H1 & H2)%trace_prepare & H3).
    + apply trace_ret_iff in H3 as [-> [= -> ->]]. rewrite app_nil_r. by econstructor.
    + rewrite <- app_assoc. econstructor; [done|done|]. by apply trace_run_outcome.
  - intros [t1 s1 t2 e s2 H1 H2|t1 s1 t2 s2 t3 o s3 H1 H2 H3].
    + exists (t1 ++ t2), [], (Some e), s2. rewrite app_nil_r. split; [done|].
      split; [apply trace_prepare; by exists t1, s1, t2|constructor].
    + exists (t1 ++ t2), t3, None, s2. rewrite <- app_assoc. split; [done|].
      split; [apply trace_prepare; by exists t1, s1, t2|by apply trace_run_outcome].
Qed.
End Spec.
