(* ===== verification/Witnesses.v ===== *)
(** * Concrete inputs on which the theorems with hypotheses apply

    Every theorem of the development that has a hypothesis, or that is stated
    against the laws [LibOk], is applied here to the Addon, the states and the
    API server of [Samples]: its hypotheses hold, and an execution of the
    program reaches the branch the theorem is about. *)
From S2P Require Import OcmRoundTrip AddonOperatorProofs Samples ReconcileSpec Interleaving ControllerProofs StatusInvariant Watches Options Setup OlmProofs Convergence Coexistence Progress MonitoringProofs Namespaces SecretPropagation Deletion PackageOperator AddonInstanceReconciler ResourceHandler Webhooks AddonInstanceController FeatureToggle Common InstallConfig.

#[local] Existing Instance RefLib.
#[local] Existing Instance RefLib_ok.

(** What a program returns against the API server. *)
Definition result_of {S A} (m : M S A) (s : S) (st : store) : option A :=
  match run api_server (m s) st with (inl (a, _), _) => Some a | _ => None end.

(** The Addon that a program leaves in memory. *)
Definition addon_after {A} (m : M St A) (s : St) (st : store) : option Addon :=
  match run api_server (m s) st with (inl (_, s'), _) => Some (st_addon s') | _ => None end.

(** The calls of a program that change the cluster, by kind. *)
Inductive write := Created (k : kind) | Updated (k : kind) | Deleted (k : kind) | StatusUpdated (k : kind).

Definition write_of (c : call) : option write :=
  match c with
  | CCreate k _ => Some (Created k)
  | CUpdate k _ | CPatch k _ _ => Some (Updated k)
  | CDelete k _ => Some (Deleted k)
  | CStatusUpdate k _ => Some (StatusUpdated k)
  | _ => None
  end.

Definition writes_of {S A} (m : M S A) (s : S) (st : store) : list write :=
  omap write_of (calls_of api_server (m s) st).

Definition any_call : history -> call -> Prop := fun _ _ => True.
Definition addon_key : ObjectKey := mkKey "" "reference-addon".

(** ** States *)

(** An Addon that is installed and stays. *)
Definition live_meta : ObjectMeta :=
  mkMeta "reference-addon" "" "uid-1" 3 ∅ ∅ [] [cacheFinalizer] None.
Definition live_status : AddonStatus := mkAddonStatus 0 [] "" None None "1.0.0" "".
Definition live_addon : Addon := mkAddon live_meta sample_spec live_status.

(** Its deletion was asked for. *)
Definition deleted_meta : ObjectMeta :=
  mkMeta "reference-addon" "" "uid-1" 3 ∅ {[ DeleteAnnotationFlag := "" ]} []
    [cacheFinalizer] (Some 5%Z).
Definition deleted_addon : Addon := mkAddon deleted_meta sample_spec live_status.

(** Its version changed. *)
Definition upgrading_addon : Addon :=
  mkAddon live_meta sample_spec (mkAddonStatus 3 [] PhaseReady None None "0.9.0" "").

(** It is paused. *)
Definition paused_spec (s : AddonSpec) : AddonSpec :=
  mkAddonSpec (DisplayName s) (Version s) true (Namespaces s) (CommonLabels s)
    (CommonAnnotations s) (CorrelationID s) (Install s) (DeleteAckRequired s)
    (InstallAckRequired s) (UpgradePolicy s) (Monitoring s) (SecretPropagation s)
    (AddonPackageOperator s).
Definition paused_addon : Addon := mkAddon live_meta (paused_spec sample_spec) live_status.

(** The operator after it saw the Operator object of the Addon. *)
Definition operator_key : ObjectKey := mkKey "" "reference-addon.reference-addon".
Definition routed : Handler.OperatorResourceHandler :=
  (Handler.UpdateMap addon_key operator_key Handler.NewOperatorResourceHandler).2.
Definition state_of (a : Addon) : St := mkSt a routed (Some NewRecorder).

(** The reconciler with all its sub-reconcilers. *)
Definition full_reconciler : AddonReconciler :=
  NewAddonReconciler "external-id" "addon-operator" true true
    [WithMonitoringStackReconciler; WithPackageOperatorReconciler].

(** ** Objects of the server *)

Definition operator_token : Secret :=
  mkSecret (new_meta "addon-operator" "addon-operator-prom-token") {[ "token" := "t" ]} "".
Definition source_secret : Secret :=
  mkSecret (new_meta "addon-operator" "source") {[ "password" := "p" ]} "Opaque".
Definition linked_subscription : Subscription :=
  mkSub (new_meta "reference-addon" (SubscriptionName sample_addon))
    (Some (mkSubSpec "" "" "" "" None "" "")) (mkSubStatus "csv-1" "csv-1" None).
Definition succeeded_operator : Operator :=
  mkOp (new_meta "" "reference-addon.reference-addon")
    (Some [mkRef "ClusterServiceVersion" "csv-1" "reference-addon" [("Succeeded", "True")]]).
Definition available_stack : MonitoringStack :=
  mkMS (new_meta "reference-addon" "reference-addon-monitoring-stack") (mkMSSpec "" ∅ [] "")
    [mkObo AvailableCondition ConditionTrue ""].
Definition available_template : ClusterObjectTemplate :=
  mkCOT (new_meta "" "reference-addon") (mkOTSpec "" [])
    [mkCond PackageAvailable ConditionTrue 0 0 "Available" ""].

(** The cluster in which an Addon can become ready. *)
Definition cluster (a : Addon) : store :=
  [existT KAddon a; existT KSecret source_secret; existT KSecret operator_token;
   existT KSubscription linked_subscription; existT KOperator succeeded_operator;
   existT KMonitoringStack available_stack; existT KClusterObjectTemplate available_template].

(** The server after [n] reconciles. *)
Fixpoint reconciled (n : nat) (st : store) : store :=
  match n with
  | 0 => st
  | S n => reconciled n (run api_server (Reconcile full_reconciler addon_key (state_of live_addon)) st).2
  end.

Definition phase_of (st : store) : option string :=
  (fun a => Phase (a_Status a)) <$> find_object KAddon addon_key st.

(** ** The reconcile of an Addon *)

(** Two reconciles bring a new Addon to Ready: the first creates its objects,
    the second its ServiceMonitor. *)
Example addon_becomes_ready :
  phase_of (reconciled 2 (cluster live_addon)) = Some PhaseReady /\
  writes_of (Reconcile full_reconciler addon_key) (state_of live_addon) (cluster live_addon) =
    [Created KNamespace; Created KNamespace; Updated KClusterObjectTemplate; Created KSecret;
     Created KSecret; Created KAddonInstance; Created KOperatorGroup; Created KNetworkPolicy;
     Created KCatalogSource; Created KCatalogSource; Updated KSubscription; Created KNamespace;
     Created KSecret; StatusUpdated KAddon].
Proof. split; by vm_compute. Qed.

(** The server refuses the update that adds the finalizer. *)
Definition fresh_addon : Addon := mkAddon (new_meta "" "reference-addon") sample_spec live_status.
Definition refused_update : list event :=
  [Ev CNow 7%Z;
   Ev (CUpdate KAddon (with_meta (AddFinalizer (a_Meta fresh_addon) cacheFinalizer)
                         (reportInstalledConditionFalse 7 fresh_addon))) (inr not_found)].

Lemma reconcile_refines_outcome_witness : exists l s',
  l ≡ₚ subReconcilers full_reconciler /\ Sorted order_le l /\
  execution l (state_of fresh_addon) refused_update
    (no_result, Some (ErrWrap "failed to add finalizer: " not_found)) s'.
Proof.
  destruct (reconcile_refines_outcome full_reconciler) as (l & Hp & Hs & H). eexists l, _.
  split; [exact Hp|]. split; [exact Hs|]. apply H. unfold refused_update.
  econstructor. econstructor. econstructor.
Defined.

Lemma status_stays_good_witness :
  phase_of (reconciled 2 (cluster live_addon)) = Some PhaseReady /\
  wpM GoodEnv (Reconcile full_reconciler addon_key) (state_of live_addon) [] (fun h out s' =>
    good (st_addon s') \/ exists e, h = [Ev (CGet Cached KAddon addon_key) (inr e)]).
Proof. split; [by vm_compute|apply status_stays_good]. Defined.

Lemma deletion_in_order_witness :
  Time_IsZero (DeletionTimestamp (a_Meta (st_addon (state_of deleted_addon)))) = false /\
  writes_of (reconcile full_reconciler) (state_of deleted_addon) (cluster deleted_addon) =
    [StatusUpdated KAddon; Deleted KClusterObjectTemplate] /\
  writes_of (reconcile full_reconciler) (state_of deleted_addon) [existT KAddon deleted_addon] =
    [StatusUpdated KAddon; Deleted KClusterObjectTemplate; Updated KAddon] /\
  wpM (hist_env deletion_call (fun _ => False)) (reconcile full_reconciler) (state_of deleted_addon) []
    (deletion_result (state_of deleted_addon)).
Proof. do 3 (split; [by vm_compute|]). by apply deletion_in_order. Defined.

(** A server that drops an Addon when its last finalizer is removed, and that
    has no status for what it has not stored. *)
Definition drops (k : kind) : obj k -> bool :=
  match k with
  | KAddon => fun a => bool_decide (Finalizers (a_Meta a) = []) && negb (Time_IsZero (DeletionTimestamp (a_Meta a)))
  | _ => fun _ => false
  end.
Definition dropping_server : server store := fun st c =>
  match c with
  | CUpdate k o =>
      if drops k o then (inl o, remove_object k (obj_key k o) st) else api_server st (CUpdate k o)
  | CStatusUpdate k o =>
      match find_object k (obj_key k o) st with
      | Some _ => api_server st (CStatusUpdate k o)
      | None => (inr not_found, st)
      end
  | c => api_server st c
  end.

(** There, the reconcile that completes the deletion of an Addon ends with the
    error of the status update that follows. *)
Theorem deletion_ends_with_error :
  let '(out, st) := run dropping_server (Reconcile full_reconciler addon_key (state_of deleted_addon))
    [existT KAddon deleted_addon] in
  find_object KAddon addon_key st = None /\
  exists s', out = inl (no_result, Some (ErrMulti [not_found]), s').
Proof. vm_compute. split; [done|]. by eexists. Qed.

Lemma paused_addon_untouched_witness :
  writes_of (Reconcile full_reconciler addon_key) (state_of paused_addon) (cluster paused_addon) =
    [StatusUpdated KAddon] /\
  wpM (rely_env (reads addon_key paused_addon false)
         (only_status_update paused_addon (has_true PausedCondition AddonReasonPaused)) (fun _ => False))
    (Reconcile full_reconciler addon_key) (state_of paused_addon) [] (fun h out _ =>
      out.1 = no_result /\
      ((exists (o : obj KAddon) resp h', h = Ev (CStatusUpdate KAddon o) resp :: h') \/
       exists e, h = [Ev (CGet Cached KAddon addon_key) (inr e)])).
Proof. split; [by vm_compute|]. by apply paused_addon_untouched. Defined.

Lemma upgrade_starts_alone_witness :
  addonIsBeingUpgraded upgrading_addon = true /\
  writes_of (Reconcile full_reconciler addon_key) (state_of upgrading_addon) (cluster upgrading_addon) =
    [StatusUpdated KAddon] /\
  wpM (rely_env (reads addon_key upgrading_addon false)
         (only_status_update upgrading_addon upgrade_started_status) (fun _ => False))
    (Reconcile full_reconciler addon_key) (state_of upgrading_addon) [] (fun h out _ =>
      out.1 = no_result /\
      ((exists (o : obj KAddon) resp h', h = Ev (CStatusUpdate KAddon o) resp :: h') \/
       exists e, h = [Ev (CGet Cached KAddon addon_key) (inr e)])).
Proof. split; [done|]. split; [by vm_compute|]. by apply upgrade_starts_alone. Defined.

(** ** The sub-reconcilers *)

Lemma olm_objects_in_order_witness :
  writes_of olm_Reconcile (state_of live_addon) (cluster live_addon) =
    [Created KOperatorGroup; Created KNetworkPolicy; Created KCatalogSource; Created KCatalogSource;
     Updated KSubscription] /\
  wpM (log_env (olm_call live_addon) olm_panic) olm_Reconcile (state_of live_addon) []
    (fun _ _ s' => same_identity (st_addon s') live_addon).
Proof. split; [by vm_compute|]. apply (olm_objects_in_order (state_of live_addon)). Defined.

(** Against the API server, the run after the first one makes no write. *)
Lemma olm_converges_witness :
  let after := (run api_server (olm_Reconcile (state_of live_addon)) (cluster live_addon)).2 in
  result_of olm_Reconcile (state_of live_addon) (cluster live_addon) = Some (resultNil, None) /\
  writes_of olm_Reconcile (state_of live_addon) after = [] /\
  forall w, wpM (verbatim None (fun _ _ => True)) olm_Reconcile (state_of live_addon) w (fun w' r _ =>
    r = (resultNil, None) -> forall s2 w2, same_identity (st_addon s2) live_addon -> undisturbed w' w2 ->
      wpM (verbatim None (fun _ c => is_write c = false)) olm_Reconcile s2 w2 (fun w3 _ _ => w3 = w2)).
Proof.
  split; [by vm_compute|]. split; [by vm_compute|]. intros w.
  apply (olm_converges None live_addon sample_common); [by vm_compute| |done].
  apply (bool_decide_unpack _). by vm_compute.
Defined.

(** The Addon in its cluster is regular, and nothing of others is taken for its
    own. *)
Definition stored_objects (st : store) : objects := fun k key => find_object k key st.

Lemma live_addon_regular : regular "addon-operator" sample_common live_addon.
Proof. split; first [by vm_compute|apply (bool_decide_unpack _); by vm_compute]. Qed.

Lemma cluster_tidy : tidy "addon-operator" live_addon (stored_objects (cluster live_addon)).
Proof.
  split.
  - intros key o Hk Ho.
    assert (Forall (fun key => match stored_objects (cluster live_addon) KSecret key with
      Some o => unlabelled live_addon o | None => True end) (read_keys "addon-operator" live_addon)) as Hall
      by (repeat constructor; by vm_compute).
    pose proof (proj1 (Forall_forall _ _) Hall key Hk) as H. cbv beta in H. by rewrite Ho in H.
  - intros _ sm [Hsm _]. exfalso. by vm_compute in Hsm.
Qed.

(** One pass over the sub-reconcilers, and the cluster after it. *)
Definition one_pass : M St (option (ctrl_Result * option error)) :=
  run_subReconcilers (getOrderedSubReconcilers full_reconciler).
Definition after_pass (st : store) : store := (run api_server (one_pass (state_of live_addon)) st).2.

(** Against the API server, the second pass is the first that ends without an
    early return; the reconcile after it writes only what is there. *)
Lemma controller_comes_to_rest_witness :
  result_of one_pass (state_of live_addon) (after_pass (cluster live_addon)) = Some None /\
  writes_of (Reconcile full_reconciler addon_key) (state_of live_addon)
      (after_pass (after_pass (cluster live_addon))) =
    [Updated KNamespace; Updated KNamespace; Updated KSecret; Updated KSecret; StatusUpdated KAddon] /\
  let st := addon_stake "addon-operator" live_addon sample_common in
  wpM (verbatim None (fun _ _ => True)) one_pass (state_of live_addon) (stored_objects (cluster live_addon))
    (fun w' out _ => out = None -> forall s2 w2 a,
       still st w' w2 -> w2 KAddon addon_key = Some a -> same_identity a live_addon ->
       wpM (verbatim None (fun w c => is_write c = true -> unchanged st w c))
         (Reconcile full_reconciler addon_key) s2 w2 (fun w3 _ _ => still st w2 w3)).
Proof.
  split; [by vm_compute|]. split; [by vm_compute|].
  exact (controller_comes_to_rest None "external-id" "addon-operator" true true
    [WithMonitoringStackReconciler; WithPackageOperatorReconciler] live_addon sample_common addon_key
    (state_of live_addon) (stored_objects (cluster live_addon))
    live_addon_regular eq_refl cluster_tidy (reflexivity live_addon)).
Defined.

(** What the Addon wants and is in its cluster is ready. *)
Lemma cluster_ready : ready_world "addon-operator" live_addon sample_common (stored_objects (cluster live_addon)).
Proof.
  split.
  - intros k key o Hk Ho. destruct k; try done; simpl in Hk; subst; vm_compute in Ho; try done.
    + injection Ho as <-. split; [done|]. split; [done|]. do 2 eexists. split; [by vm_compute|].
      split; by vm_compute.
    + injection Ho as <-. do 2 eexists. split; by vm_compute.
  - intros o Ho. vm_compute in Ho. injection Ho as <-. eexists. split; [done|]. by vm_compute.
Qed.
Lemma cluster_supplied : supplied "addon-operator" live_addon (stored_objects (cluster live_addon)).
Proof.
  split; [|intros _; by vm_compute]. apply Forall_forall. repeat constructor; by vm_compute.
Qed.

(** The cluster may be there between two reconciles.  Against the API server the
    second reconcile makes the last objects, and the third writes only what is
    there. *)
Lemma controller_converges_witness :
  writes_of (Reconcile full_reconciler addon_key) (state_of live_addon) (reconciled 1 (cluster live_addon)) =
    [Updated KNamespace; Updated KNamespace; Updated KSecret; Updated KSecret; Created KServiceMonitor;
     Updated KMonitoringStack; StatusUpdated KAddon] /\
  writes_of (Reconcile full_reconciler addon_key) (state_of live_addon) (reconciled 2 (cluster live_addon)) =
    [Updated KNamespace; Updated KNamespace; Updated KSecret; Updated KSecret; StatusUpdated KAddon] /\
  phase_of (reconciled 3 (cluster live_addon)) = Some PhaseReady /\
  length (milestones live_addon sample_common) = 10 /\
  wpM (healthy None) (Reconcile full_reconciler addon_key) (state_of live_addon) (stored_objects (cluster live_addon))
    (fun w2 _ s2 => rested None "external-id" "addon-operator" live_addon sample_common full_reconciler addon_key w2 /\
         stored_ready live_addon addon_key w2 \/
       rests_within None "external-id" "addon-operator" live_addon sample_common full_reconciler addon_key 9 s2 w2).
Proof.
  do 4 (split; [by vm_compute|]).
  assert (usable_sources sample_common) as Husable by by repeat constructor.
  assert (ContainsFinalizer (a_Meta live_addon) cacheFinalizer = true) as Hfinal by by vm_compute.
  pose proof (controller_converges None "external-id" "addon-operator" true true
    [WithMonitoringStackReconciler; WithPackageOperatorReconciler] live_addon sample_common addon_key
    (state_of live_addon) (stored_objects (cluster live_addon)) live_addon_regular Husable Hfinal eq_refl
    cluster_tidy cluster_supplied) as H.
  replace (length (milestones live_addon sample_common)) with 10 in H by by vm_compute.
  apply (H (state_of live_addon) (stored_objects (cluster live_addon)) live_addon); [|done|done].
  split; [done|]. split; [done|apply cluster_ready].
Defined.

(** *** Two Addons in one cluster *)

(** A second Addon, in namespaces of its own. *)
Definition other_common : AddonInstallOLMCommon :=
  mkCommon "other-addon" "quay.io/osd-addons/other-index" "alpha" "other-addon" "" None [].
Definition other_addon : Addon :=
  mkAddon (mkMeta "other-addon" "" "uid-2" 1 ∅ ∅ [] [cacheFinalizer] None)
    (mkAddonSpec "Other Addon" "2.0.0" false [mkAddonNs "other-addon" None ∅] ∅ ∅ ""
       (mkInstall OLMOwnNamespace None (Some other_common)) false false None
       (Some (mkMonitoring (Some (mkFederation "other-addon" "http" ["up"] ∅)) None))
       (Some (mkSecretPropagation [mkSecretRef "source-2" "destination"])) None)
    (mkAddonStatus 0 [] "" None None "2.0.0" "").
Definition other_addon_key : ObjectKey := mkKey "" "other-addon".
Definition other_source : Secret :=
  mkSecret (new_meta "addon-operator" "source-2") {[ "password" := "q" ]} "Opaque".
Definition both : list tenant :=
  [mkTenant live_addon sample_common addon_key; mkTenant other_addon other_common other_addon_key].
Definition shared_cluster : store :=
  existT KAddon other_addon :: existT KSecret other_source :: cluster live_addon.

(** Every Addon of the two, and every pair. *)
Ltac each H :=
  repeat (apply elem_of_cons in H as [->|H]); [..|by apply elem_of_nil in H].

Lemma both_settlers t : t ∈ both -> settler "addon-operator" t.
Proof.
  intros Ht. each Ht.
  - split; [apply live_addon_regular|by intros v|done|]. apply (bool_decide_unpack _). by vm_compute.
  - split; [split; first [by vm_compute|apply (bool_decide_unpack _); by vm_compute]|by intros v|done|].
    apply (bool_decide_unpack _). by vm_compute.
Qed.
Lemma both_named s t : s ∈ both -> t ∈ both -> a_Name (t_addon s) = a_Name (t_addon t) -> s = t.
Proof. intros Hs Ht H. each Hs; each Ht; by vm_compute in H || done. Qed.
Lemma both_separate s t : s ∈ both -> t ∈ both -> a_Name (t_addon s) <> a_Name (t_addon t) ->
  separate "addon-operator" s t.
Proof.
  intros Hs Ht H. apply separate_by_territory; [done|..]; each Hs; each Ht; try done.
  all: first [by apply (bool_decide_unpack _); vm_compute|apply Forall_forall; apply (bool_decide_unpack _); by vm_compute].
Qed.

Lemma shared_secrets key o : stored_objects shared_cluster KSecret key = Some o -> Labels (sec_Meta o) = ∅.
Proof.
  intros Ho. assert (o ∈ objects_of KSecret shared_cluster) as Hin.
  { unfold stored_objects, find_object in Ho. apply head_Some_elem_of, list_elem_of_filter in Ho. apply Ho. }
  assert (Forall (fun o => Labels (sec_Meta o) = ∅) (objects_of KSecret shared_cluster)) as Hall by by repeat constructor.
  by apply (proj1 (Forall_forall _ _) Hall).
Qed.
Lemma shared_peaceful : peaceful "addon-operator" both (stored_objects shared_cluster).
Proof.
  assert (forall k key o, by_label k -> stored_objects shared_cluster k key = Some o -> instance_label k o = None) as Hno.
  { intros k key o Hb Ho. destruct k; try done. apply shared_secrets in Ho. unfold instance_label. simpl. by rewrite Ho. }
  split.
  - intros s t k key o _ _ _ Hb _ Ho. by rewrite (Hno k key o).
  - intros s t key o Hs Ht H Hks Hkt _. exfalso. revert H Hks Hkt.
    each Hs; each Ht; try done; intros _ ->%list_elem_of_singleton H%list_elem_of_singleton; done.
  - intros t Ht. split.
    + intros key o _ Ho Hl. apply (Hno KSecret) in Ho; [|done]. unfold instance_label in Ho. simpl in Ho. congruence.
    + intros _ sm [Hsm _]. by vm_compute in Hsm.
  - intros t Ht. each Ht; [by exists live_addon|by exists other_addon].
Qed.

(** Reconciles of the second Addon, and how it finds the cluster. *)
Definition reconcile_other (st : store) : store :=
  (run api_server (Reconcile full_reconciler other_addon_key (state_of other_addon)) st).2.

Lemma addons_rest_together_witness :
  writes_of (Reconcile full_reconciler other_addon_key) (state_of other_addon) (after_pass (after_pass shared_cluster)) =
    [Created KNamespace; Created KSecret; Created KAddonInstance; Created KOperatorGroup; Created KNetworkPolicy;
     Created KCatalogSource; Created KSubscription; StatusUpdated KAddon] /\
  writes_of (Reconcile full_reconciler addon_key) (state_of live_addon)
      (reconcile_other (reconcile_other (after_pass (after_pass shared_cluster)))) =
    [Updated KNamespace; Updated KNamespace; Updated KSecret; Updated KSecret; StatusUpdated KAddon] /\
  let st := addon_stake "addon-operator" live_addon sample_common in
  let opts := [WithMonitoringStackReconciler; WithPackageOperatorReconciler] in
  wpM (verbatim None (fun _ _ => True)) one_pass (state_of live_addon) (stored_objects shared_cluster)
    (fun w' out _ => out = None -> forall w2, rtc (happens None "external-id" "addon-operator" both true true opts) w' w2 ->
       still st w' w2 /\
       forall s2, wpM (verbatim None (fun w c => is_write c = true -> unchanged st w c))
         (Reconcile full_reconciler addon_key) s2 w2 (fun w3 _ _ => still st w2 w3)).
Proof.
  split; [by vm_compute|]. split; [by vm_compute|].
  exact (addons_rest_together None "external-id" "addon-operator" true true
    [WithMonitoringStackReconciler; WithPackageOperatorReconciler] both (mkTenant live_addon sample_common addon_key)
    (state_of live_addon) (stored_objects shared_cluster) both_settlers both_named both_separate
    (list_elem_of_here _ _) shared_peaceful (reflexivity live_addon)).
Defined.

Lemma olm_zero_result_means_available_witness :
  result_of olm_Reconcile (state_of live_addon) (cluster live_addon) = Some (resultNil, None) /\
  wpM (log_env any_call (fun _ _ => True)) olm_Reconcile (state_of live_addon) [] (fun h r s' =>
    r = (resultNil, None) ->
    exists c, parsed live_addon = Some c /\ olm_reconciled live_addon c h (st_addon s')).
Proof. split; [by vm_compute|]. apply (olm_zero_result_means_available (state_of live_addon)). Defined.

(** The namespaces of an Addon, one of which is not wanted any more. *)
Definition old_namespace : NamespaceObj :=
  mkNs (set_Labels (CommonLabelsAsLabelSelector live_addon) (new_meta "" "old")) NamespaceActive.

Lemma namespaces_deleted_only_when_unwanted_witness :
  writes_of namespace_Reconcile (state_of live_addon) [existT KNamespace old_namespace] =
    [Created KNamespace; Created KNamespace; Deleted KNamespace] /\
  wpM (hist_env (may_delete live_addon) (fun _ => False)) namespace_Reconcile (state_of live_addon) []
    (fun _ _ _ => True).
Proof.
  split; [by vm_compute|]. apply (namespaces_deleted_only_when_unwanted (state_of live_addon)).
Defined.

Lemma namespaces_reconciled_witness :
  result_of namespace_Reconcile (state_of live_addon) [existT KNamespace old_namespace] =
    Some (resultNil, None) /\
  wpM (hist_env any_call (fun _ => False)) namespace_Reconcile (state_of live_addon) [] (fun h r _ =>
    r = (resultNil, None) ->
    Forall (fun ns => reported_active h (an_Name ns)) (Namespaces (a_Spec live_addon)) /\
    exists l, Ev (CList Cached KNamespace None (CommonLabelsAsLabelSelector live_addon)) (inl l) ∈ h /\
      Forall (fun n => Name (ns_Meta n) ∉ wanted_names live_addon ->
                       deleted_namespace h (Name (ns_Meta n))) l).
Proof. split; [by vm_compute|]. apply (namespaces_reconciled (state_of live_addon)). Defined.

(** A secret that an earlier specification of the Addon asked for. *)
Definition old_secret : Secret :=
  mkSecret (set_Labels (CommonLabelsAsLabelSelector live_addon) (new_meta "reference-addon" "old")) ∅ "".

Lemma secrets_deleted_only_when_unknown_witness :
  writes_of (secret_Reconcile "addon-operator") (state_of live_addon)
    [existT KSecret source_secret; existT KSecret old_secret] =
    [Created KSecret; Created KSecret; Deleted KSecret] /\
  wpM (hist_env (may_delete_secret live_addon) (fun _ => False)) (secret_Reconcile "addon-operator")
    (state_of live_addon) [] (fun _ _ _ => True).
Proof.
  split; [by vm_compute|]. apply (secrets_deleted_only_when_unknown "addon-operator" (state_of live_addon)).
Defined.

Lemma secrets_propagated_witness :
  result_of (secret_Reconcile "addon-operator") (state_of live_addon) [existT KSecret source_secret] =
    Some (resultNil, None) /\
  wpM (hist_env any_call (fun _ => False)) (secret_Reconcile "addon-operator") (state_of live_addon) []
    (fun h r _ => r = (resultNil, None) ->
      Forall (fun ref => exists data ty,
        source_read "addon-operator" h (SourceSecret ref) data ty /\
        Forall (fun ns => exists d, (written h d \/ hidden h d) /\
            meta_key (sec_Meta d) = mkKey (an_Name ns) (DestinationSecret ref) /\
            sec_Data d = data /\ sec_Type d = ty)
          (Namespaces (a_Spec live_addon)))
        [mkSecretRef "source" "destination"]).
Proof.
  split; [by vm_compute|].
  by apply (secrets_propagated "addon-operator" (state_of live_addon)
    (mkSecretPropagation [mkSecretRef "source" "destination"])).
Defined.

(** A server whose cache holds only the labelled Secrets, and that refuses to
    create what it has. *)
Definition caching_server : server store := fun st c =>
  match c with
  | CGet Cached k key =>
      (match find_object k key st with
       | Some o => if cache_holds k o then inl o else inr not_found
       | None => inr not_found
       end, st)
  | CCreate k o =>
      match find_object k (obj_key k o) st with
      | Some _ => (inr (ErrAPI "AlreadyExists" ""), st)
      | None => api_server st (CCreate k o)
      end
  | c => api_server st c
  end.

(** There, a secret without the label in the destination's place stays as it is,
    reconcile after reconcile, and the reconciler returns the zero result. *)
Definition unlabelled_secret : Secret :=
  mkSecret (new_meta "reference-addon" "destination") {[ "password" := "old" ]} "Opaque".

Example hidden_destination_never_written :
  let st := [existT KSecret source_secret; existT KSecret unlabelled_secret] in
  let once st := run caching_server (secret_Reconcile "addon-operator" (state_of live_addon)) st in
  let data key st := sec_Data <$> find_object KSecret key st in
  let key := mkKey "reference-addon" "destination" in
  (exists s', (once st).1 = inl (resultNil, None, s')) /\
  data key (once st).2 = Some {[ "password" := "old" ]} /\
  data key (once (once st).2).2 = Some {[ "password" := "old" ]} /\
  data (mkKey "addon-operator" "source") (once st).2 = Some {[ "password" := "p" ]}.
Proof. vm_compute. split; [by eexists|done]. Qed.

(** An AddonInstance that confirms the deletion. *)
Definition acknowledging_instance : AddonInstance :=
  mkAI (new_meta "reference-addon" DefaultAddonInstanceName) (mkAISpec true 0)
    (mkAIStatus 0 [mkCond (AddonInstanceCondition_String AddonInstanceConditionReadyToBeDeleted)
                     ConditionTrue 0 0 "Ready" ""] 0).

Definition marked_addon : Addon :=
  mkAddon (set_Annotations {[ DeleteAnnotationFlag := "" ]} live_meta) sample_spec live_status.

Lemma deletion_outcomes_witness :
  result_of (deletion_Reconcile handlers) (state_of marked_addon) [] =
    Some (resultRequeueAfter (3600 * Second), None) /\
  wpM (hist_env (fun _ c => is_delete c = false) (fun _ => False)) (deletion_Reconcile handlers)
    (state_of marked_addon) [] (fun h r s' => exists now,
      deletion_outcome (reportAddonReadyToBeDeletedStatus ConditionFalse now marked_addon) h r (st_addon s')).
Proof.
  split; [by vm_compute|]. by apply (deletion_outcomes (state_of marked_addon)).
Defined.

Lemma ready_to_be_deleted_only_when_acknowledged_witness :
  (awaitingRemoteDeletion <$> addon_after (deletion_Reconcile handlers) (state_of marked_addon)
     [existT KAddonInstance acknowledging_instance]) = Some true /\
  wpM (hist_env (fun _ c => is_delete c = false) (fun _ => False)) (deletion_Reconcile handlers)
    (state_of marked_addon) [] (fun h r s' =>
      (markedForDeletion marked_addon = false \/ awaitingRemoteDeletion marked_addon = true ->
         h = [] /\ r = (resultNil, None) /\ s' = state_of marked_addon) /\
      (awaitingRemoteDeletion marked_addon = false -> awaitingRemoteDeletion (st_addon s') = true ->
         markedForDeletion marked_addon = true /\
         (DeleteAckRequired (a_Spec marked_addon) = false \/ acknowledged_by_addon marked_addon h))).
Proof.
  split; [by vm_compute|]. by apply (ready_to_be_deleted_only_when_acknowledged (state_of marked_addon)).
Defined.


(** A ServiceMonitor that the Addon owns but does not want any more. *)
Definition old_monitor : ServiceMonitor :=
  mkSM (set_OwnerReferences [mkOwner "reference-addon" "uid-1" true]
          (set_Labels (CommonLabelsAsLabelSelector live_addon) (new_meta "reference-addon" "old")))
    (mkSMSpec [] [] ∅ "").

Lemma federation_removes_only_unwanted_witness :
  writes_of (federation_Reconcile "addon-operator") (state_of live_addon)
    (existT KServiceMonitor old_monitor :: reconciled 2 (cluster live_addon)) =
    [Deleted KServiceMonitor; Deleted KSecret] /\
  wpM (hist_env (federation_call "addon-operator" live_addon) (fun _ => False))
    (federation_Reconcile "addon-operator") (state_of live_addon) []
    (fun _ _ s' => same_identity (st_addon s') live_addon).
Proof.
  split; [by vm_compute|]. apply (federation_removes_only_unwanted "addon-operator" (state_of live_addon)).
Defined.

Lemma monitoring_stack_status_witness :
  result_of stack_Reconcile (state_of live_addon) (cluster live_addon) = Some (resultNil, None) /\
  result_of stack_Reconcile (state_of live_addon) [] = Some (resultRequeue, None) /\
  wpM (hist_env (stack_call live_addon) (fun _ => False)) stack_Reconcile (state_of live_addon) []
    (fun h r s' => same_identity (st_addon s') live_addon /\
      (foreign_errors h -> r = (resultNil, None) -> HasMonitoringStack live_addon = false \/
         exists key ms, answered KMonitoringStack key ms h /\ (well_formed_stack ms -> stack_available ms)) /\
      (r = (resultRequeue, None) -> pending_for_stack (st_addon s') /\
         exists key ms, answered KMonitoringStack key ms h /\
           (well_formed_stack ms -> ~ stack_available ms))).
Proof.
  split; [by vm_compute|]. split; [by vm_compute|]. apply (monitoring_stack_status (state_of live_addon)).
Defined.

Lemma addon_instance_ensured_witness :
  result_of addonInstance_Reconcile (state_of live_addon) [] = Some (resultNil, None) /\
  wpM (hist_env (addon_instance_call live_addon) (fun _ => False)) addonInstance_Reconcile
    (state_of live_addon) [] (fun h r s' => same_identity (st_addon s') live_addon /\ r.1 = resultNil /\
      (r.2 = None -> exists conf, parsed live_addon = Some conf /\
         in_place KAddonInstance (instance_key conf)
           (fun o => HeartbeatUpdatePeriod (ai_Spec o) = DefaultAddonInstanceHeartbeatUpdatePeriod) h) /\
      (parsed live_addon = None -> exists e, r.2 = Some e)).
Proof. split; [by vm_compute|]. apply (addon_instance_ensured (state_of live_addon)). Defined.

(** ** Events, admission, AddonInstances and feature toggles *)

Lemma routed_reachable : Handler.reachable routed.
Proof. eapply Handler.reach_step; [apply Handler.reach_new|apply Handler.step_update]. Qed.

Definition other_key : ObjectKey := mkKey "" "other".
Definition other_operator_key : ObjectKey := mkKey "" "other.other".

Lemma operator_events_routed_witness :
  Handler.enqueueObject routed operator_key = Some addon_key /\
  Handler.enqueueObject routed other_operator_key = None /\
  let h' := (Handler.UpdateMap other_key other_operator_key routed).2 in
  Handler.reachable h' /\
  (forall e, Handler.handle_event h' e =
     let o := match e with
              | Handler.CreateEvent o | Handler.UpdateEvent _ o | Handler.DeleteEvent o
              | Handler.GenericEvent o => o
              end in
     if bool_decide (other_operator_key = meta_key (op_Meta o)) then Some other_key
     else Handler.handle_event routed e) /\
  Handler.UpdateMap other_key other_operator_key h' = (false, h') /\
  ((Handler.UpdateMap other_key other_operator_key routed).1 = false <->
     Handler.enqueueObject routed other_operator_key = Some other_key).
Proof.
  split; [by vm_compute|]. split; [by vm_compute|].
  apply (Handler.operator_events_routed routed other_key other_operator_key), routed_reachable.
Defined.

Lemma freed_addon_gets_no_events_witness :
  Handler.enqueueObject routed operator_key = Some addon_key /\
  Handler.enqueueObject (Handler.Free addon_key routed) operator_key = None /\
  Handler.reachable (Handler.Free addon_key routed) /\
  (forall e, Handler.handle_event (Handler.Free addon_key routed) e <> Some addon_key) /\
  (forall op, op ∉ Handler.keys_of routed addon_key ->
     Handler.enqueueObject (Handler.Free addon_key routed) op = Handler.enqueueObject routed op).
Proof.
  split; [by vm_compute|]. split; [by vm_compute|].
  apply Handler.freed_addon_gets_no_events, routed_reachable.
Defined.

(** The update of an Addon to another install type is refused. *)
Definition set_Install (i : AddonInstallSpec) (s : AddonSpec) : AddonSpec :=
  mkAddonSpec (DisplayName s) (Version s) (Paused s) (Namespaces s) (CommonLabels s)
    (CommonAnnotations s) (CorrelationID s) i (DeleteAckRequired s)
    (InstallAckRequired s) (UpgradePolicy s) (Monitoring s) (SecretPropagation s)
    (AddonPackageOperator s).
Definition retyped_addon : Addon :=
  mkAddon sample_meta (set_Install (mkInstall OLMAllNamespaces (Some sample_common) None) sample_spec) sample_status.

Lemma update_allows_exactly_valid_witness :
  result_of (Handle (ReqUpdate (inl sample_addon) (inl sample_addon))) tt [] = Some Allowed /\
  result_of (Handle (ReqUpdate (inl retyped_addon) (inl sample_addon))) tt [] <> Some Allowed /\
  wpM pure_env (Handle (ReqUpdate (inl retyped_addon) (inl sample_addon))) tt [] (fun _ r _ =>
    r = Allowed <->
    valid_addon retyped_addon /\ Type_ (Install (a_Spec retyped_addon)) = Type_ (Install (a_Spec sample_addon)) /\
    same_mutable_only (OLMAllNamespacesOf (Install (a_Spec sample_addon)))
      (OLMAllNamespacesOf (Install (a_Spec retyped_addon))) /\
    same_mutable_only (OLMOwnNamespaceOf (Install (a_Spec sample_addon)))
      (OLMOwnNamespaceOf (Install (a_Spec retyped_addon)))).
Proof.
  split; [by vm_compute|]. split; [by vm_compute|].
  apply (update_allows_exactly_valid retyped_addon sample_addon tt).
Defined.

Lemma sample_addon_valid : valid_addon sample_addon.
Proof.
  exists sample_common. split; [|by intros p [= <-] H].
  split; [by left|]. by repeat constructor.
Qed.

Lemma accepted_addon_is_usable_witness :
  result_of (Handle (ReqCreate (inl sample_addon))) tt [] = Some Allowed /\
  wpM pure_env (Handle (ReqCreate (inl sample_addon))) tt [] (fun _ r _ => r = Allowed ->
    exists c, GetInstallOLMCommon sample_addon = inl c /\
      wpM pure_env (GetCommonInstallOptions sample_addon) (state_of live_addon) []
        (fun _ c' st' => c' = c /\ st' = state_of live_addon) /\
      wpM (hist_env (fun _ c => c = CNow) (fun _ => False)) parseAddonInstallConfig (state_of live_addon) []
        (fun _ o _ =>
           o = if str_empty (ic_Namespace c) || str_empty (CatalogSourceImage c) then None else Some c)).
Proof.
  split; [by vm_compute|].
  apply (accepted_addon_is_usable sample_addon (ReqCreate (inl sample_addon)) tt (state_of live_addon));
    [by left|done].
Defined.

(** An AddonInstance that sent a heartbeat at time 100. *)
Definition beating_instance : AddonInstance :=
  mkAI (new_meta "reference-addon" DefaultAddonInstanceName) (mkAISpec false (10 * Second))
    (mkAIStatus 0 [] 100).

Definition instance_config : ControllerConfig := mkConfig 7 [NewPhaseCheckHeartbeat 3].

Lemma instance_reconciled_witness :
  result_of (instance_Reconcile instance_config (mkKey "reference-addon" DefaultAddonInstanceName))
    (mkIState beating_instance None) [existT KAddonInstance beating_instance] =
    Some (mkResult false 7, None) /\
  wpM (hist_env (instance_call (mkKey "reference-addon" DefaultAddonInstanceName)) (fun _ => False))
    (instance_Reconcile instance_config (mkKey "reference-addon" DefaultAddonInstanceName))
    (mkIState beating_instance None) [] (fun h r _ =>
      (exists (o : obj KAddonInstance) a h', h = Ev (CStatusUpdate KAddonInstance o) a :: h' /\ quiet h' /\
         r = (mkResult false 7, None)) \/
      exists e, h = [Ev (CGet Cached KAddonInstance (mkKey "reference-addon" DefaultAddonInstanceName)) (inr e)] /\
        r.1 = no_result /\ (r.2 = None <-> IsNotFound (Some e) = true)).
Proof. split; [by vm_compute|]. apply instance_reconciled. Defined.

Definition addon_operator : AddonOperator :=
  mkAO (new_meta "" DefaultAddonOperatorName) (mkAOSpec false "OTHER" None) (mkAOStatus 0 [] 0 "").

Lemma feature_toggled_witness :
  writes_of (Enable MonitoringStackFeatureToggle) tt [existT KAddonOperator addon_operator] =
    [Updated KAddonOperator] /\
  wpM (hist_env (toggle_call MonitoringStackFeatureToggle true) (fun _ => False))
    (if true then Enable MonitoringStackFeatureToggle else Disable MonitoringStackFeatureToggle) tt []
    (fun h e s' => s' = tt /\
      (e = None -> in_place KAddonOperator (mkKey "" DefaultAddonOperatorName)
        (fun o => IsEnabled MonitoringStackFeatureToggle o = true) h)).
Proof.
  split; [by vm_compute|]. apply (feature_toggled MonitoringStackFeatureToggle true tt). left.
Defined.

Lemma toggle_round_trip_witness :
  enabled_flags "B" "A" = Some "A,B" /\
  (enabled_flags "B" "A" = None <-> "B" ∈ flag_list "A") /\
  (forall flags', enabled_flags "B" "A" = Some flags' ->
     flag_list flags' = flag_list "A" ++ ["B"] /\ disabled_flags "B" flags' = Some "A") /\
  (forall flags', disabled_flags "B" "A" = Some flags' ->
     flag_list flags' = filter (fun f => f <> "B") (flag_list "A") \/
     flags' = "" /\ filter (fun f => f <> "B") (flag_list "A") = [""]).
Proof. split; [by vm_compute|]. by apply toggle_round_trip. Defined.

(** ** The list of sub-reconcilers, labels and the install configuration *)

Lemma subReconcilers_of_the_operator_witness :
  NoDup [WithMonitoringStackReconciler; WithPackageOperatorReconciler] /\
  map sub_Name (getOrderedSubReconcilers full_reconciler) =
  [DELETION_RECONCILER_NAME; NAMESPACE_RECONCILER_NAME] ++
  (if decide (WithPackageOperatorReconciler ∈ [WithMonitoringStackReconciler; WithPackageOperatorReconciler])
   then [packageOperatorName] else []) ++
  [SECRET_RECONCILER_NAME; ADDON_INSTANCE_RECONCILER_NAME; OLM_RECONCILER_NAME;
   MONITORING_FEDERATION_RECONCILER_NAME] ++
  (if decide (WithMonitoringStackReconciler ∈ [WithMonitoringStackReconciler; WithPackageOperatorReconciler])
   then [MONITORING_STACK_RECONCILER_NAME] else []).
Proof.
  assert (NoDup [WithMonitoringStackReconciler; WithPackageOperatorReconciler]) as Hnd.
  { apply NoDup_cons. split; [by intros ?%list_elem_of_singleton|apply NoDup_singleton]. }
  split; [exact Hnd|]. by apply subReconcilers_of_the_operator.
Defined.

Lemma common_labels_selected_witness :
  Labels (AddCommonLabels live_addon (new_meta "" "x")) !! "team" = Some "sre" /\
  (CommonLabelsAsLabelSelector live_addon ⊆ Labels (AddCommonLabels live_addon (new_meta "" "x")) <->
     forall k v w, CommonLabels (a_Spec live_addon) !! k = Some v ->
       CommonLabelsAsLabelSelector live_addon !! k = Some w -> v = w) /\
  (forall k, CommonLabels (a_Spec live_addon) !! k = None ->
     CommonLabelsAsLabelSelector live_addon !! k = None ->
     Labels (AddCommonLabels live_addon (new_meta "" "x")) !! k = Labels (new_meta "" "x") !! k) /\
  (forall k v, CommonLabels (a_Spec live_addon) !! k = Some v ->
     Labels (AddCommonLabels live_addon (new_meta "" "x")) !! k = Some v).
Proof. split; [by vm_compute|]. apply (common_labels_selected live_addon). Defined.

Lemma parse_install_config_witness :
  parsed live_addon = Some sample_common /\
  wpM (hist_env (fun _ c => c = CNow) (fun _ => False)) parseAddonInstallConfig (state_of live_addon) []
    (fun _ r s' => r = parsed live_addon /\ same_identity (st_addon s') live_addon /\
      match r with
      | Some c => s' = state_of live_addon /\ ic_Namespace c <> "" /\ CatalogSourceImage c <> ""
      | None =>
          if bool_decide (Type_ (Install (a_Spec live_addon)) = OLMOwnNamespace) ||
             bool_decide (Type_ (Install (a_Spec live_addon)) = OLMAllNamespaces)
          then misconfigured (st_addon s') else s' = state_of live_addon
      end).
Proof. split; [by vm_compute|]. apply (parse_install_config (state_of live_addon) []). Defined.

(** ** The AddonOperator controller *)

Definition docker_config : list (string * json) :=
  [("auths", JObject [("cloud.openshift.com", JObject [("auth", JString "token-1")])])].

Lemma access_token_read_witness :
  writable (JObject docker_config) = true /\ (nesting (JObject docker_config) <= max_depth)%N /\
  accessTokenFromDockerConfig (Marshal (JObject docker_config)) = inl "token-1".
Proof.
  assert (writable (JObject docker_config) = true) as Hw by reflexivity.
  assert (nesting (JObject docker_config) <= max_depth)%N as Hn by (vm_compute; discriminate).
  split; [exact Hw|]. split; [exact Hn|]. by apply access_token_read.
Defined.

Definition pull_secret : Secret :=
  mkSecret (new_meta "openshift-config" "pull-secret")
    {[ DockerConfigJsonKey := Marshal (JObject docker_config) ]} "kubernetes.io/dockerconfigjson".

Definition sample_ocm : AddonOperatorOCM :=
  mkAOOCM "https://api.openshift.com//" (mkCSR "pull-secret" "openshift-config").
Definition asked_operator : AddonOperator :=
  mkAO (new_meta "" DefaultAddonOperatorName) (mkAOSpec true "A,B" (Some sample_ocm))
    (mkAOStatus 0 [] zero_time "").
Definition operator_state : OState := mkOState asked_operator None.
Definition operator_store : store := [existT KAddonOperator asked_operator; existT KSecret pull_secret].
Definition operator_reconciler : AddonOperatorReconciler := mkAOReconciler "external-1" ["B"; "A"].

(** The OCM client that an execution stores. *)
Definition stored_clients {S A} (m : M S A) (s : S) (st : store) : list ClientOptions :=
  omap (fun c => match c with CStoreOCMClient o => Some o | _ => None end) (calls_of api_server (m s) st).
Definition stored_pauses {S A} (m : M S A) (s : S) (st : store) : list bool :=
  omap (fun c => match c with CStoreGlobalPause b => Some b | _ => None end) (calls_of api_server (m s) st).

Lemma pause_follows_spec_witness :
  stored_pauses (operator_Reconcile operator_reconciler) operator_state operator_store = [true] /\
  writes_of (operator_Reconcile operator_reconciler) operator_state operator_store =
    [StatusUpdated KAddonOperator; StatusUpdated KAddonOperator] /\
  pause_agrees (mkWorld (Some asked_operator) false) /\
  wpM (pause_env operator_reconciler) (operator_Reconcile operator_reconciler) operator_state
    (mkWorld (Some asked_operator) false) (fun w' '(_, err) _ =>
    match err with
    | None => pause_agrees w' /\ follows_spec w'
    | Some _ => w_flag w' = false \/ follows_spec w'
    end).
Proof.
  split; [by vm_compute|]. split; [by vm_compute|].
  assert (pause_agrees (mkWorld (Some asked_operator) false)) as Ha by reflexivity.
  split; [exact Ha|]. exact (pause_follows_spec operator_reconciler _ operator_state Ha).
Defined.

Lemma ocm_client_of_the_secret_witness :
  stored_clients (handleOCMClient operator_reconciler) operator_state operator_store =
    [mkClientOptions "https://api.openshift.com/" "external-1" "cluster-1" "cluster" "token-1"] /\
  wpM (client_env operator_reconciler sample_ocm) (handleOCMClient operator_reconciler) operator_state []
    (fun h e s' => s' = operator_state /\
      (e = None -> no_cluster h \/
        exists c, Ev (CStoreOCMClient c) tt ∈ h /\ client_of operator_reconciler sample_ocm h c)).
Proof. split; [by vm_compute|]. by apply (ocm_client_of_the_secret operator_reconciler sample_ocm). Defined.

(** ** The OCM client and the mock *)

#[local] Instance sample_platform : Platform := {| ip6_literal := fun _ => false; build_version := "0.1.0" |}.
#[local] Instance segment_router : Router := fun template path =>
  match_segments (split_on "/" template) (split_on "/" path).
#[local] Instance segment_router_ok : RouterOk segment_router.
Proof. by intros template path _. Qed.

Definition same_number (n : number) : number := n.
#[local] Instance sample_transport : Transport mock := transport same_number.

Definition mock_site : plain_site := mkSite "http" "api-mock.api-mock.svc.cluster.local" (Some "80").
Definition mock_client : ClientOptions :=
  mkClientOptions (site_url mock_site +:+ "/") "external-1" MockClusterId MockClusterName "token-1".
Definition sample_conditions : list AddOnStatusCondition :=
  [mkAOSC "Available" "True" "FullyReconciled" "All components are ready"; mkAOSC "Installed" "True" "" ""].
Definition sample_post : AddOnStatusPostRequest := mkPostReq "reference-addon" "corr-1" "1.0.0" sample_conditions.
Definition sample_patch : UpgradePolicyPatchRequest := mkUPPatch "policy-1" "started" "Upgrading addon".


Lemma requests_below_endpoint_witness :
  request_url (Endpoint_ (WithEndpoint "https://api.openshift.com/proxy/v2//" mock_client)) "/api/clusters_mgmt" ∅ =
    Some "https://api.openshift.com/proxy/v2/api/clusters_mgmt".
Proof.
  refine (requests_below_endpoint (mkSite "https" "api.openshift.com" None) _ ["proxy"; "v2"] ["clusters_mgmt"] "api"
    ∅ mock_client 2 1 _ _); repeat constructor; done.
Defined.

Lemma posted_status_is_read_witness :
  exists m', PostAddOnStatus mock_client sample_post new_mock = (inl (status_response sample_post), m') /\
    (forall w, m_statuses w !! status_key mock_client "reference-addon" =
               m_statuses m' !! status_key mock_client "reference-addon" ->
       GetAddOnStatus mock_client "reference-addon" w = (inl (status_response sample_post), w)) /\
    (forall k, k <> status_key mock_client "reference-addon" -> m_statuses m' !! k = m_statuses new_mock !! k) /\
    m_policies m' = m_policies new_mock.
Proof.
  refine (posted_status_is_read same_number mock_site _ mock_client sample_post new_mock _ _ _ _);
    [reflexivity|reflexivity|repeat split; done|repeat split; done|reflexivity].
Defined.

Lemma patched_policy_is_read_witness :
  exists m', PatchUpgradePolicy mock_client sample_patch new_mock = (inl tt, m') /\
    GetUpgradePolicy mock_client (mkUPGet "policy-1") m' = (inl (mkUPGetRes "started" "Upgrading addon"), m') /\
    (forall k, k <> mkPolicyKey MockClusterId "policy-1" -> m_policies m' !! k = m_policies new_mock !! k) /\
    m_statuses m' = m_statuses new_mock.
Proof.
  refine (patched_policy_is_read same_number mock_site _ mock_client sample_patch new_mock _ _ _ _);
    [reflexivity|reflexivity|repeat split; done|repeat split; done|reflexivity].
Defined.

(** A mock that a process with this client in its shared variable talks to. *)
Definition operator_server : server mock := fun w c =>
  match c as c return resp c * mock with
  | CLoadOCMClient => (Some mock_client, w)
  | c => ((api_server [] c).1, w)
  end.

Definition sample_options : list Option :=
  [WithEndpoint (site_url mock_site); WithAccessToken "token-1"; WithClusterExternalID "external-1"].

Lemma new_client_knows_cluster_witness :
  run (with_ocm operator_server) (NewClient sample_options tt) new_mock =
    (inl (inl mock_client, tt), new_mock) /\
  GetClusterIDAndName mock_client = (MockClusterId, MockClusterName).
Proof.
  refine (new_client_knows_cluster same_number mock_site _ sample_options tt operator_server new_mock _ _);
    reflexivity.
Defined.

Definition ready_addon : Addon :=
  mkAddon live_meta sample_spec (mkAddonStatus 3 [condition Available ConditionTrue AddonReasonFullyReconciled "" 3]
    PhaseReady None None "1.0.0" "").

Lemma report_reaches_ocm_witness :
  let '(out, m') := run (with_ocm operator_server) (handleOCMAddOnStatusReporting full_reconciler (state_of ready_addon))
    new_mock in
  exists s', out = inl (None, s') /\ statusReportingRequired full_reconciler (st_addon s') = false /\
    GetAddOnStatus mock_client "reference-addon" m' = (inl (status_response (status_request ready_addon)), m').
Proof.
  refine (report_reaches_ocm same_number mock_site _ full_reconciler (state_of ready_addon) mock_client operator_server
    new_mock _ _ _ _ _ _);
    [reflexivity|reflexivity|reflexivity|reflexivity|repeat split; done|repeat split; done|reflexivity].
Defined.

(** ** The watches and the start of the process *)

(** [EnqueueRequestForOwner], for references that are all to Addons. *)
Definition RefEnqueue : Enqueue := {|
  enqueue_owner := fun only m =>
    map (fun r => mkKey "" (or_Name r)) (filter (fun r => only = false \/ or_Controller r = true) (OwnerReferences m))
|}.
#[local] Existing Instance RefEnqueue.
Lemma RefEnqueue_ok : EnqueueOk RefEnqueue.
Proof.
  constructor. intros only m a. unfold controlled_by. simpl. generalize (OwnerReferences m).
  induction l as [|r l IH]; [done|]. rewrite !filter_cons. destruct (decide (or_Controller r = true)) as [Hr|Hr].
  - intros [= ->]. rewrite decide_True by by right. left.
  - intros H%IH. destruct (decide _); [by right|done].
Qed.
#[local] Existing Instance RefEnqueue_ok.

(** The creations of a reconcile, and whether they are watched. *)
Definition watched_creations (l : list call) : list (kind * bool) :=
  omap (fun c => match c with
    | CCreate k o => Some (k, bool_decide (addon_key ∈ requests
        [WithMonitoringStackReconciler; WithPackageOperatorReconciler] Handler.NewOperatorResourceHandler k o))
    | _ => None end) l.

Lemma created_objects_come_back_witness :
  watched_creations (calls_of api_server (Reconcile full_reconciler addon_key (state_of live_addon)) (cluster live_addon)) =
    [(KNamespace, true); (KNamespace, true); (KSecret, true); (KSecret, true); (KAddonInstance, true);
     (KOperatorGroup, true); (KNetworkPolicy, false); (KCatalogSource, true); (KCatalogSource, true);
     (KNamespace, true); (KSecret, false)] /\
  wpM (rely_env same_addon (fun _ => comes_back [WithMonitoringStackReconciler; WithPackageOperatorReconciler] addon_key)
        (fun _ => True))
    (Reconcile full_reconciler addon_key) (state_of live_addon) [] (fun h _ s' =>
      a_Name (st_addon s') = "reference-addon" \/ exists e, h = [Ev (CGet Cached KAddon addon_key) (inr e)]).
Proof. split; [by vm_compute|]. apply created_objects_come_back. Defined.

(** A command line and an environment. *)
Definition sample_settings : list (bool * setting) :=
  [(true, BoolSetting "enable-leader-election" None); (false, ValueSetting "metrics-addr" ":9090" false);
   (true, ValueSetting "metrics-tls-dir" "/etc/tls" true); (true, BoolSetting "enable-metrics-recorder" (Some "F"))].
Definition sample_environment (name : string) : option string :=
  if name =s? "ADDON_OPERATOR_NAMESPACE" then Some "openshift-addon-operator"
  else if name =s? "ENABLE_STATUS_REPORTING" then Some "true" else None.

Lemma options_processed_witness :
  Process ["kubeconfig"] sample_environment (Some "from-file")
    ["--enable-leader-election"; "-metrics-addr"; ":9090"; "--metrics-tls-dir=/etc/tls";
     "--enable-metrics-recorder=F"; "left"] default_options =
  Processed (mkOptions true false "openshift-addon-operator" ":9090" "/etc/tls" "openshift-addon-operator"
    "127.0.0.1:8070" ":8081" true false) None.
Proof.
  refine (options_processed ["kubeconfig"] sample_environment (Some "from-file") sample_settings ["left"]
    default_options (mkOptions true false "" ":9090" "/etc/tls" "" "127.0.0.1:8070" ":8081" false false) _ _ _); [by repeat constructor|reflexivity|reflexivity].
Defined.

Definition sample_host : Host :=
  mkHost [] sample_environment None ["kubeconfig"] None None None None None None (inl "external-id")
    (fun _ => None) None.
Definition toggled_operator : AddonOperator :=
  mkAO (new_meta "" DefaultAddonOperatorName) (mkAOSpec false "ADDONS_PLUG_AND_PLAY,OTHER" None)
    (mkAOStatus 0 [] zero_time "").

(** A process started with one of the two features: the other order of its
    flags is the same features, and without it the process exits. *)
Definition with_features (flags : string) : AddonOperator := set_FeatureFlags flags toggled_operator.
Definition operator_run (w : wiring) (o : AddonOperator) : option stop :=
  match run api_server (operator_Reconcile (w_operator_reconciler w) (mkOState zero_operator None)) [existT KAddonOperator o]
  with (inr s, _) => Some s | _ => None end.

Lemma features_in_force_witness : exists w,
  trace (setup sample_host) [Ev (CGet Uncached KAddonOperator default_operator_key) (inl toggled_operator)] (Started w None) /\
  map sub_Order (subReconcilers (w_addon w)) = [0; 100; 300; 400; 500; 600; 200]%Z /\
  operator_run w (with_features "OTHER,ADDONS_PLUG_AND_PLAY") = None /\
  operator_run w (with_features "OTHER") = Some (Exited 0) /\
  wpM (hist_env (fun h _ => forall key o, Ev (CGet Cached KAddonOperator key) (inl o) ∈ h -> in_force w o)
        (fun st => st = Exited 0))
    (operator_Reconcile (w_operator_reconciler w)) (mkOState zero_operator None) [] (fun h _ _ =>
      forall key o, Ev (CGet Cached KAddonOperator key) (inl o) ∈ h -> in_force w o).
Proof.
  assert (exists w, trace (setup sample_host)
    [Ev (CGet Uncached KAddonOperator default_operator_key) (inl toggled_operator)] (Started w None) /\
    setup_with sample_host toggled_operator = Started w None) as (w & Ht & Hw).
  { eexists. split; [apply trace_vis|reflexivity]. apply trace_ret. }
  exists w. split; [exact Ht|]. split; [|split; [|split]].
  - injection Hw as <-. reflexivity.
  - injection Hw as <-. by vm_compute.
  - injection Hw as <-. by vm_compute.
  - eapply (features_in_force sample_host); exact Ht.
Defined.

(** ** Interleavings *)

(** A deleted Addon, a live one, and an AddonOperator that asks for a pause. *)
Definition live_key : ObjectKey := mkKey "" "live".
Definition second_addon : Addon :=
  mkAddon (set_OwnerReferences [] (new_meta "" "live")) sample_spec live_status.
Definition outside (c : call) : resp c :=
  (api_server (existT KAddon second_addon :: existT KAddonOperator asked_operator ::
     existT KSecret pull_secret :: cluster deleted_addon) c).1.
Definition threads : list (prog unit) :=
  [discard (operator_Reconcile operator_reconciler operator_state);
   discard (Reconcile full_reconciler addon_key (state_of deleted_addon));
   discard (Reconcile full_reconciler live_key (state_of second_addon))].
Lemma threads_start : Forall (starts full_reconciler operator_reconciler) threads.
Proof. repeat constructor. Qed.

(** The pause is set while the deletion of the first Addon is under way. *)
Lemma global_pause_stops_work_witness : exists σ t c,
  reachable full_reconciler operator_reconciler σ /\ sh_globalPause (s_shared σ) = true /\
  t ∈ s_threads σ /\ next_call t = Some c /\ acts c = true /\ deletes (t_history t).
Proof.
  destruct (played_to full_reconciler operator_reconciler outside [0; 0; 0; 1; 1; 1; 2] threads
    (fun σ => sh_globalPause (s_shared σ) && existsb (about_to acts) (s_threads σ)) threads_start)
    as (σ & Hr & Hσ); [by vm_compute|].
  apply andb_true_iff in Hσ as [Hp (t & Ht & (c & Hn & Ha)%about_to_spec)%existsb_exists].
  apply list_elem_of_In in Ht. exists σ, t, c. do 5 (split; [done|]).
  by apply (global_pause_stops_work "external-id" "addon-operator" true true
    [WithMonitoringStackReconciler; WithPackageOperatorReconciler] operator_reconciler σ t c).
Defined.

(** The pause is about to be set while another reconcile is about to take the
    lock. *)
Definition second_shape (P Q : call -> bool) (σ : system) : bool :=
  match s_threads σ with [t; _; t'] => about_to P t && about_to Q t' | _ => false end.
Lemma second_shape_spec P Q σ : second_shape P Q σ = true -> exists t t1 t',
  s_threads σ = [t; t1; t'] /\ about_to P t = true /\ about_to Q t' = true.
Proof.
  unfold second_shape. intros H. destruct (s_threads σ) as [|t [|t1 [|t' [|]]]]; try done.
  apply andb_true_iff in H as [? ?]. by exists t, t1, t'.
Qed.

Lemma pause_flag_race_free_witness : exists σ t t1 t' b,
  reachable full_reconciler operator_reconciler σ /\ s_threads σ = [t; t1; t'] /\
  next_call t = Some (CStoreGlobalPause b) /\ next_call t' = Some (CMutex globalPauseMux RLock) /\
  on_flag (CMutex globalPauseMux RLock) = false.
Proof.
  destruct (played_to full_reconciler operator_reconciler outside [0; 0; 2] threads
    (second_shape stores_pause (fun c => match c with CMutex globalPauseMux RLock => true | _ => false end))
    threads_start) as (σ & Hr & (t & t1 & t' & Hs & (c & Hc & Hc')%about_to_spec & (c' & Hn & Hn')%about_to_spec)%second_shape_spec);
    [by vm_compute|].
  destruct c; try done. destruct c' as [| | | | | | | | | | | | |[] []| | | |]; try done.
  exists σ, t, t1, t', paused. do 4 (split; [done|]).
  apply (pause_flag_race_free "external-id" "addon-operator" true true
    [WithMonitoringStackReconciler; WithPackageOperatorReconciler] operator_reconciler σ [] t [t1; t'] t' paused);
    [done|done|done| |done]. right. left.
Defined.

(** A reconcile works, and the pause waits for its lock. *)
Lemma threads_finish_witness : exists σ,
  reachable full_reconciler operator_reconciler σ /\
  existsb (waits_to_write globalPauseMux) (s_threads σ) = true /\
  rw_readers (sh_lock (s_shared σ) globalPauseMux) = 1 /\
  Acc (fun σ2 σ1 => go_step σ1 σ2) σ /\
  forall σ', rtc go_step σ σ' -> (forall σ'', ~ go_step σ' σ'') ->
    Forall finished (s_threads σ') /\ forall m, sh_lock (s_shared σ') m = mkRW 0 false.
Proof.
  destruct (played_to full_reconciler operator_reconciler outside [2; 2; 2; 0] threads
    (fun σ => existsb (waits_to_write globalPauseMux) (s_threads σ) &&
       (rw_readers (sh_lock (s_shared σ) globalPauseMux) =? 1)) threads_start) as (σ & Hr & Hσ); [by vm_compute|].
  apply andb_true_iff in Hσ as [Hw Hn%Nat.eqb_eq]. exists σ. do 3 (split; [done|]).
  by apply (threads_finish "external-id" "addon-operator" true true
    [WithMonitoringStackReconciler; WithPackageOperatorReconciler] operator_reconciler σ).
Defined.

(** The OCM client has a data race: a reconcile is about to read it, holding no
    lock, while the AddonOperator controller is about to replace it. *)
Theorem client_read_races : exists σ t t1 t' c,
  reachable full_reconciler operator_reconciler σ /\ s_threads σ = [t; t1; t'] /\
  next_call t = Some (CStoreOCMClient c) /\ next_call t' = Some CLoadOCMClient /\
  held ocmClientMux (t_history t') = None.
Proof.
  set (free := fun σ => match s_threads σ with
    | [_; _; t'] => bool_decide (held ocmClientMux (t_history t') = None) | _ => false end).
  destruct (played_to full_reconciler operator_reconciler outside (repeat 0 8 ++ repeat 2 8 ++ repeat 0 9) threads
    (fun σ => second_shape stores_client (fun c => match c with CLoadOCMClient => true | _ => false end) σ && free σ)
    threads_start) as (σ & Hr & H); [by vm_compute|].
  apply andb_true_iff in H as [(t & t1 & t' & Hs & (c & Hc & Hc')%about_to_spec & (c' & Hn & Hn')%about_to_spec)%second_shape_spec Hf].
  destruct c; try done. destruct c'; try done. unfold free in Hf. rewrite Hs in Hf. bools.
  by exists σ, t, t1, t', c.
Qed.
